(* ===== verification/_CoqProject ===== *)
-Q . S2P
Prelude.v
Page.v
Kerror.v
PhysMem.v
VirtMem.v
Bytes.v
RingBuffer.v
DynArray.v
DList.v
Proc.v
Timer.v
Ipc.v
Vfs.v
Initrd.v
InitrdFiles.v
Mkinitrd.v
Kmalloc.v
Format.v
Keyboard.v
Tty.v
Storage.v
Scsi.v
Descriptors.v
Interrupts.v
Params.v
Devfs.v
UserMem.v
Fork.v
Loader.v
