(* ===== verification/Prelude.v ===== *)
(** * kOS in Rocq

    A development about kOS, a small operating system kernel for the i386 written in C,
    under src/kernel, with the tool that builds its ram disk (src/share/src/mkinitrd) and
    the formatter of its utility library (src/lib/libutil/src/format.c).

    ** The program

    At boot the kernel takes the memory map of the boot loader into a bitmap of free frames
    (mm/mm.c), builds its page directory (mm/virt.c), fills the segment and interrupt tables
    (gdt.c, idt.c), reads the command line (params.c), and mounts the ram disk the boot loader
    left in memory on the root and the device directory on /dev (fs/).  Programs are loaded
    from ELF images (loader.c) into address spaces of their own (mm/util.c) and run in turns
    (pm.c).  They enter the kernel through interrupts and system calls (idt.c, syscall.c), send
    each other messages (ipc.c), sleep (timer.c), open and read files (fs/), and read the
    keyboard through terminals (kbc.c, tty.c, fs/request.c).  The kernel allocates from a heap
    (mm/kmalloc.c) and keeps its data in lists, growing arrays and ring buffers (util/).
    Disks are behind the driver interface CDI (cdi/storage.c, cdi/scsi.c).

    ** Conventions

    Kernel code is a computation [M S A] over the state [S] of its component with the three
    endings of [outcome]: a result, [panic] (and a failed [kassert]), and an access C leaves
    undefined ([Fault]).  Integers are [Z] reduced with the width of their C type where a result
    can leave it ([u8], [u16], [u32], [u64], [i32]).  A pointer into a heap of objects is an
    address of a [gmap] (or an index of a static array); following NULL or a dangling one
    faults.  Names are those of the source.  A theorem that a function returns states the result
    it returns: [f s = Ok (a, s')].

    ** Files

    - Prelude.v, Bytes.v: effects, machine integers, loops, tactics ([dlia], [bool_cases],
      [to_prop], [decide_cmp]), hint databases; byte buffers.
    - Page.v: include/bitop.h, arch/i386/page.h, mm/intern.h; the interface [FrameSource] of
      a frame allocator with its laws [FrameSourceLaws].
    - Kerror.v: error.c and context.c.
    - PhysMem.v: mm/mm.c.  The bitmap is a map of words.  Sequences of operations refine
      operations on the set of free frames; the manager is an instance of [FrameSource].
    - VirtMem.v: mm/virt.c on any [FrameSource].  Directories and tables are words of physical
      memory.  A mapped range resolves to its frames, other translations stay; the search for
      free pages; [sys_sbrk].
    - UserMem.v: mm/util.c.  Windows of the kernel to frames, copies through them and strings of
      user programs, address spaces.  [step] and [spaces] are what a sequence of such copies
      keeps: the tables of both directories, and every other byte.
    - Fork.v: [vm_clone_addrspace] of mm/util.c, which sys_fork calls.  [pair] is the invariant of
      two processes beside the kernel, [sides] what every step of the clone keeps.  The child has
      the bytes of its parent in frames of its own, and neither sees what the other stores.
    - Loader.v: loader.c on [UserMem] and [Proc].  A segment of an image ends up, byte by byte,
      at its address in the new address space, in frames of its own, followed by zeros.
    - Kmalloc.v: mm/kmalloc.c on the interface [KernelRanges] of the virtual memory manager.
      Live blocks never overlap each other or the allocator's nodes.
    - RingBuffer.v, DynArray.v, DList.v: util/ringbuffer.c, array.c, list.c and cdi/lists.c,
      refining a bounded queue, a list, and a sequence; [EntryAlloc] supplies list entries.
    - Proc.v: pm.c.  The ready queue linked through the process table refines a round-robin
      scheduler; fairness; lookup of pids; exit and wait.
    - Timer.v, Ipc.v: timer.c and ipc.c on [Proc].
    - Vfs.v: fs/path.c, inode.c, super.c, fs.c on the interface [Drivers] of a file system
      driver, with the promise [DirLaws] about its directories, against which the lookup
      theorem is proved.
    - Initrd.v, InitrdFiles.v: fs/initrd.c, an instance of [Drivers] and [DirLaws]; parsing an
      image, mounting it at boot, and its files through the system calls.
    - Devfs.v: fs/devfs.c; [kos_drivers] has the tables of both file systems, [kos_dirs] their
      promise, so that the lookup of [Vfs] is instantiated with the kernel's own drivers.
    - Mkinitrd.v: share/src/mkinitrd.  What the tool writes, the parser of [Initrd] reads back.
    - Format.v: lib/libutil/src/format.c.
    - Keyboard.v, Tty.v: kbc.c, keymaps.c, tty.c and fs/request.c on [Proc].
    - Storage.v, Scsi.v: cdi/storage.c on the interface [BlockDriver] with its promises
      [BlockReads] and [BlockWrites], and cdi/scsi.c, which makes a [BlockDriver] out of a
      [ScsiDriver] and discharges [BlockReads] from the promise [ScsiReads] of the device.  A ram
      disk and a CD-ROM are concrete drivers.
    - Descriptors.v, Interrupts.v: gdt.c, idt.c, syscall.c and the exception handlers of debug.c.
    - Params.v: params.c.

    ** What the theorems show

    Refinement of an abstract object: [mm_refines_frame_set], [rbuf_refines_queue],
    [array_refines_list], [list_refines_sequence], [pm_refines_round_robin],
    [kmalloc_blocks_disjoint], [storage_refines_bytes].  Round trips: allocation and release of
    frames, mapping and resolving, building and parsing an image, writing and reading numbers,
    packing and unpacking descriptors.  Behaviour of the operations: messages, terminals,
    system calls, files, devices, segments of programs.  Safety: reserved frames are not handed
    out, an exception of a program removes that program only, gates of the interrupt table
    belong to the kernel, a forked process and its parent do not
    see each other's stores.  Some theorems state behaviour that is not what the code means to do:
    the runs [find] of mm.c carries across a skipped word ([mm_alloc_range_overlaps_used]), the
    DMA allocation that cannot succeed, the range search of virt.c ([vm_find_range_mapped]), scrolling of long lines
    ([tty_write_long_line_overruns]), the file position that moves twice ([sys_read_content]).

    ** Bounds and fuel

    Loops over a counted range are structural.  The others carry a bound that the state gives:
    a lookup takes at most one step per character of the path and one more ([vfs_lookup_resolves]
    shows that it ends), and the bound on symbolic links is the FS_MAX_SYMLOOP of the code; walks over the
    lists of the heap take at most the number of nodes; the walk over the ready queue 300 steps
    for at most 257 processes; [strafmt] and [parse_params] consume a character per step;
    strings in memory end inside it.  The parser of an image and its builder take the number of
    steps as an argument, and the theorems hold from the number of entries ([weight],
    [hweight]) on.  A loop that may never
    end in the code, [vm_is_mapped], answers [None] while it still runs.

    ** Not modelled

    The text of debug output; loading processor registers and the assembler stubs (kstart.s,
    int.s); port input and output beyond the bytes named above (com.c, pci.c, acpi.c); the CDI
    functions that only forward to a driver and the third-party drivers; the C library (a copy
    of PDCLib); the kernel shell; user programs and their libraries, whose wrappers only raise
    the system call interrupt; the scripts and headers of the toolchain.

    ** Next

    [elf32_exec] from the image to the running process, with the address space [created] by
    [vm_create_addrspace]; cloning a process that has mapped its command line; sys_execute, which
    joins the file system and the loader; the boot modules (module.c); the inode of a terminal in
    /dev; sys_stat and sys_isatty. *)

From stdpp Require Export base numbers list gmap fin_maps fin_sets sets strings.
From Stdlib Require Export ZArith Lia.

#[export] Set Default Goal Selector "!".

Open Scope Z_scope.

(** ** Machine integers

    The kernel is compiled for i386: [int], [size_t], [dword] and every pointer
    are 32 bits wide.  A value of an unsigned C type is the non-negative [Z] it
    denotes; every arithmetic result is reduced with the width of its type. *)

Definition u8 (z : Z) : Z := z mod 2 ^ 8.
Definition u16 (z : Z) : Z := z mod 2 ^ 16.
Definition u32 (z : Z) : Z := z mod 2 ^ 32.
Definition u64 (z : Z) : Z := z mod 2 ^ 64.

(** Reading a 32-bit pattern as a (two's complement) [int]. *)
Definition i32 (z : Z) : Z :=
  let w := u32 z in if w <? 2 ^ 31 then w else w - 2 ^ 32.

Definition is_u8 (z : Z) : Prop := 0 <= z < 2 ^ 8.
Definition is_u32 (z : Z) : Prop := 0 <= z < 2 ^ 32.

(** ** Effects

    A kernel function either returns, stops in [panic] (which never returns; a
    failed [kassert] is one), or performs an access C leaves undefined: a NULL or
    dangling pointer is followed, an index is out of range, a divisor is zero. *)

Inductive outcome (A : Type) : Type :=
| Ok (a : A)
| Panic
| Fault.
Arguments Ok {A} a.
Arguments Panic {A}.
Arguments Fault {A}.

(** A computation over the state [S]. *)
Definition M (S A : Type) : Type := S -> outcome (A * S).

#[export] Instance M_ret S : MRet (M S) := fun A a s => Ok (a, s).
#[export] Instance M_bind S : MBind (M S) := fun A B k c s =>
  match c s with
  | Ok (a, s') => k a s'
  | Panic => Panic
  | Fault => Fault
  end.

Definition panic {S A} : M S A := fun _ => Panic.
Definition fault {S A} : M S A := fun _ => Fault.
Definition get {S} : M S S := fun s => Ok (s, s).
Definition gets {S A} (f : S -> A) : M S A := fun s => Ok (f s, s).
Definition modify {S} (f : S -> S) : M S unit := fun s => Ok (tt, f s).

(** [kassert(exp)] of kernel/include/debug.h, as a [CONF_DEBUG] build has it. *)
Definition kassert {S} (b : bool) : M S unit := if b then mret tt else panic.

(** Following a pointer: [None] is a NULL or dangling one. *)
Definition deref {S A} (o : option A) : M S A :=
  match o with Some a => mret a | None => fault end.

(** [for (i = 0; i < n; ++i) body(i)] for a body without an early exit. *)
Definition for_each {S} (n : Z) (body : Z -> S -> S) (s : S) : S :=
  foldl (fun s i => body i s) s (seqZ 0 n).

(** The same loop for a body that may stop the kernel. *)
Fixpoint mfor_list {S} (l : list Z) (body : Z -> M S unit) : M S unit :=
  match l with
  | [] => mret tt
  | i :: l => body i;; mfor_list l body
  end.
Definition mfor {S} (n : Z) (body : Z -> M S unit) : M S unit :=
  mfor_list (seqZ 0 n) body.

(** The C truth value of an integer. *)
Definition truth (z : Z) : bool := negb (z =? 0).

(** ** Tactics *)

Create HintDb kos.
Create Rewrite HintDb kos.

(** Linear arithmetic with division and remainder by constants. *)
Ltac dlia := Z.div_mod_to_equations; lia.

(** Evaluate the comparisons of the goal that [lia] decides. *)
Ltac decide_cmp :=
  repeat match goal with
  | |- context [?a <=? ?b] =>
      first [rewrite (proj2 (Z.leb_le a b)) by lia | rewrite (proj2 (Z.leb_gt a b)) by lia]
  | |- context [?a <? ?b] =>
      first [rewrite (proj2 (Z.ltb_lt a b)) by lia | rewrite (proj2 (Z.ltb_ge a b)) by lia]
  end; cbn [andb orb negb].

(** Case analysis on every boolean test of the goal or the context. *)
Ltac bool_cases :=
  repeat match goal with
  | |- context [if ?b then _ else _] => destruct b eqn:?
  | H : context [if ?b then _ else _] |- _ => destruct b eqn:?
  end.

Ltac to_prop :=
  repeat match goal with
  | H : (_ <? _) = true |- _ => apply Z.ltb_lt in H
  | H : (_ <? _) = false |- _ => apply Z.ltb_ge in H
  | H : (_ <=? _) = true |- _ => apply Z.leb_le in H
  | H : (_ <=? _) = false |- _ => apply Z.leb_gt in H
  | H : (_ =? _) = true |- _ => apply Z.eqb_eq in H
  | H : (_ =? _) = false |- _ => apply Z.eqb_neq in H
  | H : (_ && _)%bool = true |- _ => apply andb_true_iff in H as [? ?]
  | H : (_ || _)%bool = false |- _ => apply orb_false_iff in H as [? ?]
  | H : negb _ = true |- _ => apply negb_true_iff in H
  | H : negb _ = false |- _ => apply negb_false_iff in H
  end.

(** Splitting a run [c s = Ok r] of a sequence into the runs of its parts. *)
Lemma bind_Ok {S A B} (c : M S A) (k : A -> M S B) s r :
  (c ≫= k) s = Ok r <-> exists a s', c s = Ok (a, s') /\ k a s' = Ok r.
Proof.
  unfold mbind, M_bind. split.
  - destruct (c s) as [[a s']| |] eqn:E; [eauto | done..].
  - intros (a & s' & -> & ?). done.
Qed.

(** A sequence whose first part runs. *)
Lemma run_bind {S A B} (c : M S A) (k : A -> M S B) s a s' :
  c s = Ok (a, s') -> (c ≫= k) s = k a s'.
Proof. intros Hc. unfold mbind, M_bind. by rewrite Hc. Qed.

Lemma ret_Ok {S A} (a : A) (s : S) r :
  (mret a : M S A) s = Ok r <-> r = (a, s).
Proof. unfold mret, M_ret. split; congruence. Qed.

Lemma kassert_Ok {S} b (s : S) r :
  kassert b s = Ok r <-> b = true /\ r = (tt, s).
Proof.
  unfold kassert. destruct b; [rewrite ret_Ok; naive_solver|].
  unfold panic. naive_solver.
Qed.

Lemma deref_Ok {S A} (o : option A) (s : S) r :
  deref o s = Ok r <-> exists a, o = Some a /\ r = (a, s).
Proof.
  unfold deref. destruct o; [rewrite ret_Ok; naive_solver|].
  unfold fault. naive_solver.
Qed.

(** Exhibiting the result of a run by evaluating it. *)
Lemma Ok_run {A} (P : A -> Prop) (o : outcome A) :
  match o with Ok a => P a | _ => False end -> exists a, o = Ok a /\ P a.
Proof. destruct o; naive_solver. Qed.

Ltac mrun :=
  repeat match goal with
  | H : (_ ≫= _) _ = Ok _ |- _ =>
      let a := fresh "a" in let s := fresh "s" in
      apply bind_Ok in H as (a & s & ? & ?)
  | H : (mret _) _ = Ok _ |- _ => apply ret_Ok in H; simplify_eq
  | H : kassert _ _ = Ok _ |- _ => apply kassert_Ok in H as [? ?]; simplify_eq
  | H : deref _ _ = Ok _ |- _ => apply deref_Ok in H as (? & ? & ?); simplify_eq
  | H : panic _ = Ok _ |- _ => discriminate H
  | H : fault _ = Ok _ |- _ => discriminate H
  | H : gets _ _ = Ok _ |- _ => unfold gets in H; simplify_eq
  | H : get _ = Ok _ |- _ => unfold get in H; simplify_eq
  | H : modify _ _ = Ok _ |- _ => unfold modify in H; simplify_eq
  end.

(** ** Machine-integer lemmas *)

Lemma u32_bound z : is_u32 (u32 z).
Proof. unfold is_u32, u32. apply Z.mod_pos_bound. lia. Qed.

Lemma u32_small z : is_u32 z -> u32 z = z.
Proof. intros. unfold u32. by apply Z.mod_small. Qed.

Lemma u32_idem z : u32 (u32 z) = u32 z.
Proof. apply u32_small, u32_bound. Qed.

Lemma u32_add_l a b : u32 (u32 a + b) = u32 (a + b).
Proof. unfold u32. apply Zplus_mod_idemp_l. Qed.

Lemma u32_add_r a b : u32 (a + u32 b) = u32 (a + b).
Proof. unfold u32. apply Zplus_mod_idemp_r. Qed.

Lemma i32_small z : 0 <= z < 2 ^ 31 -> i32 z = z.
Proof. intros Hz. unfold i32, u32. rewrite Z.mod_small by lia. destruct (Z.ltb_spec z (2 ^ 31)); lia. Qed.

#[export] Hint Resolve u32_bound : kos.
#[export] Hint Rewrite u32_idem u32_add_l u32_add_r : kos.

(** ** Bits *)

Lemma testbit_one i : 0 <= i -> forall j, Z.testbit (Z.shiftl 1 i) j = (i =? j).
Proof.
  intros Hi j. rewrite Z.shiftl_1_l.
  destruct (Z.eqb_spec i j) as [->|Hne]; [by apply Z.pow2_bits_true|].
  by apply Z.pow2_bits_false.
Qed.

(** Testing one bit through a mask. *)
Lemma land_one_truth w i :
  0 <= i -> truth (Z.land w (Z.shiftl 1 i)) = Z.testbit w i.
Proof.
  intros Hi. unfold truth. destruct (Z.testbit w i) eqn:Hb.
  - apply negb_true_iff, Z.eqb_neq. intros H0.
    assert (Z.testbit (Z.land w (Z.shiftl 1 i)) i = false) as Hf
      by (rewrite H0; apply Z.bits_0).
    rewrite Z.land_spec, Hb, testbit_one, Z.eqb_refl in Hf by done. done.
  - apply negb_false_iff, Z.eqb_eq, Z.bits_inj'. intros j Hj.
    rewrite Z.land_spec, testbit_one, Z.bits_0 by done.
    destruct (Z.eqb_spec i j) as [<-|]; [by rewrite Hb | apply andb_false_r].
Qed.

Lemma land_ones_mod a n : 0 <= n -> Z.land a (2 ^ n - 1) = a mod 2 ^ n.
Proof.
  intros. rewrite <- Z.land_ones by done. f_equal.
  rewrite Z.ones_equiv. lia.
Qed.

(** A word below [2^n] has no bit at or above [n]. *)
Lemma bits_high w n j : 0 <= w < 2 ^ n -> n <= j -> Z.testbit w j = false.
Proof.
  intros [Hw0 Hw] Hj. destruct (Z.eq_dec w 0) as [->|]; [apply Z.bits_0|].
  apply Z.bits_above_log2; [done|].
  assert (Z.log2 w < n) by (apply Z.log2_lt_pow2; lia). lia.
Qed.

Lemma below_pow2_bits w n :
  0 <= w -> 0 <= n -> (forall j, n <= j -> Z.testbit w j = false) -> w < 2 ^ n.
Proof.
  intros Hw Hn Hb. destruct (Z.eq_dec w 0) as [->|Hne]; [lia|].
  destruct (Z.lt_ge_cases w (2 ^ n)) as [|Hge]; [done|].
  assert (n <= Z.log2 w) as Hl by (apply Z.log2_le_pow2; lia).
  specialize (Hb _ Hl). rewrite Z.bit_log2 in Hb by lia. done.
Qed.

Lemma testbit_u32 z j : 0 <= j < 32 -> Z.testbit (u32 z) j = Z.testbit z j.
Proof. intros. unfold u32. apply Z.mod_pow2_bits_low. lia. Qed.

(** ** Loops *)

Section for_each.
Context {S : Type} (body : Z -> S -> S).

Lemma for_each_0 n s : n <= 0 -> for_each n body s = s.
Proof. intros. unfold for_each. by rewrite seqZ_nil. Qed.

Lemma for_each_S n s :
  0 <= n -> for_each (n + 1) body s = body n (for_each n body s).
Proof.
  intros Hn. unfold for_each.
  rewrite seqZ_app, foldl_app by lia. simpl.
  by replace (0 + n) with n by lia.
Qed.

(** The loop invariant rule. *)
Lemma for_each_inv (I : Z -> S -> Prop) n s :
  0 <= n -> I 0 s ->
  (forall i s, 0 <= i < n -> I i s -> I (i + 1) (body i s)) ->
  I n (for_each n body s).
Proof.
  intros Hn H0 Hstep.
  assert (forall k, (Z.of_nat k <= n) -> I (Z.of_nat k) (for_each (Z.of_nat k) body s))
    as Hk; [|by replace n with (Z.of_nat (Z.to_nat n)) by lia; apply Hk; lia].
  induction k as [|k IH]; intros Hle.
  - by rewrite for_each_0.
  - replace (Z.of_nat (Datatypes.S k)) with (Z.of_nat k + 1) by lia.
    rewrite for_each_S by lia. apply Hstep; [lia|]. apply IH. lia.
Qed.
End for_each.

(** The invariant rule of the loop whose body may stop the kernel. *)
Lemma mfor_inv {S} (body : Z -> M S unit) (I : Z -> S -> Prop) n s s' :
  0 <= n -> I 0 s ->
  (forall i s s', 0 <= i < n -> I i s -> body i s = Ok (tt, s') -> I (i + 1) s') ->
  mfor n body s = Ok (tt, s') -> I n s'.
Proof.
  intros Hn H0 Hstep. unfold mfor.
  assert (forall k i s, i + Z.of_nat k = n -> 0 <= i -> I i s ->
    mfor_list (seqZ i (Z.of_nat k)) body s = Ok (tt, s') -> I n s') as Hgen.
  { induction k as [|k IH]; intros i s1 Hik Hi HI Hrun.
    - assert (i = n) as -> by lia.
      rewrite seqZ_nil in Hrun by lia. simpl in Hrun. mrun. done.
    - rewrite seqZ_cons in Hrun by lia. simpl in Hrun.
      apply bind_Ok in Hrun as ([] & s2 & Hb & Hrun).
      replace (Z.pred (Z.of_nat (Datatypes.S k))) with (Z.of_nat k) in Hrun by lia.
      eapply (IH (Z.succ i)); [lia | lia | | exact Hrun].
      replace (Z.succ i) with (i + 1) by lia. eapply Hstep; [lia | done | done]. }
  intros Hrun. eapply (Hgen (Z.to_nat n) 0); [lia | lia | done |].
  by rewrite Z2Nat.id by lia.
Qed.

(** One more turn of the loop. *)
Lemma mfor_list_app {S} (body : Z -> M S unit) l1 l2 s :
  mfor_list (l1 ++ l2) body s = (mfor_list l1 body;; mfor_list l2 body) s.
Proof.
  revert s. induction l1 as [|i l1 IH]; intros s; simpl; [done|].
  unfold mbind, M_bind in *. by destruct (body i s) as [[[] s1]| |].
Qed.

Lemma mfor_S {S} (body : Z -> M S unit) n s :
  0 <= n -> mfor (n + 1) body s = (mfor n body;; body n) s.
Proof.
  intros Hn. unfold mfor. rewrite seqZ_app, mfor_list_app by lia. simpl.
  unfold mbind, M_bind.
  destruct (mfor_list (seqZ 0 n) body s) as [[[] s1]| |]; [|done..].
  rewrite !Z.add_0_l. by destruct (body n s1) as [[[] s2]| |].
Qed.

(** The total rule: the loop ends with its invariant or the body of one turn failed. *)
Lemma mfor_spec {S} (body : Z -> M S unit) (I : Z -> S -> Prop) (E : Z -> S -> Prop) n s :
  0 <= n -> I 0 s ->
  (forall i s, 0 <= i < n -> I i s ->
     match body i s with Ok (_, s') => I (i + 1) s' | Panic => E i s | Fault => False end) ->
  match mfor n body s with
  | Ok (_, s') => I n s'
  | Panic => exists i s1, 0 <= i < n /\ mfor i body s = Ok (tt, s1) /\ I i s1 /\ E i s1
  | Fault => False
  end.
Proof.
  intros Hn H0 Hstep.
  assert (forall k, (Z.of_nat k <= n) -> match mfor (Z.of_nat k) body s with
    | Ok (_, s') => I (Z.of_nat k) s'
    | Panic => exists i s1, 0 <= i < n /\ mfor i body s = Ok (tt, s1) /\ I i s1 /\ E i s1
    | Fault => False end) as Hk;
    [|specialize (Hk (Z.to_nat n)); rewrite Z2Nat.id in Hk by lia; by apply Hk].
  induction k as [|k IH]; intros Hle; [done|].
  replace (Z.of_nat (Datatypes.S k)) with (Z.of_nat k + 1) by lia.
  rewrite mfor_S by lia. specialize (IH ltac:(lia)). unfold mbind, M_bind.
  destruct (mfor (Z.of_nat k) body s) as [[[] s1]| |] eqn:Ek; [|done..].
  specialize (Hstep (Z.of_nat k) s1 ltac:(lia) IH).
  destruct (body (Z.of_nat k) s1) as [[[] s2]| |]; [done| |done].
  exists (Z.of_nat k), s1. auto with lia.
Qed.

(** The rule for a body that always returns. *)
Lemma mfor_total {S} (body : Z -> M S unit) (I : Z -> S -> Prop) n s :
  0 <= n -> I 0 s ->
  (forall i s, 0 <= i < n -> I i s -> exists s', body i s = Ok (tt, s') /\ I (i + 1) s') ->
  exists s', mfor n body s = Ok (tt, s') /\ I n s'.
Proof.
  intros Hn H0 Hstep. pose proof (mfor_spec body I (fun _ _ => False) n s Hn H0) as Hm.
  destruct (mfor n body s) as [[[] s']| |].
  - exists s'. split; [done|]. apply Hm. intros i s1 Hi HI.
    by destruct (Hstep i s1 Hi HI) as (s2 & -> & ?).
  - destruct Hm as (? & ? & _ & _ & _ & []). intros i s1 Hi HI.
    by destruct (Hstep i s1 Hi HI) as (s2 & -> & ?).
  - exfalso. apply Hm. intros i s1 Hi HI. by destruct (Hstep i s1 Hi HI) as (s2 & -> & ?).
Qed.

(** ** Little-endian memory images of integers *)

Fixpoint le_bytes (n : nat) (z : Z) : list Z :=
  match n with
  | O => []
  | S n => z mod 256 :: le_bytes n (z / 256)
  end.

Fixpoint le_val (bs : list Z) : Z :=
  match bs with
  | [] => 0
  | b :: bs => b + 256 * le_val bs
  end.

Lemma le_bytes_length n z : length (le_bytes n z) = n.
Proof. revert z. induction n; intros; simpl; auto. Qed.

Lemma le_bytes_u8 n z : Forall is_u8 (le_bytes n z).
Proof.
  revert z. induction n; intros; simpl; constructor; [|done].
  unfold is_u8. apply Z.mod_pos_bound. lia.
Qed.

Lemma le_val_bytes n z : 0 <= z < 256 ^ Z.of_nat n -> le_val (le_bytes n z) = z.
Proof.
  revert z. induction n as [|n IH]; intros z Hz; simpl; [simpl in Hz; lia|].
  rewrite IH; [pose proof (Z.div_mod z 256); lia|].
  rewrite Nat2Z.inj_succ, Z.pow_succ_r in Hz by lia.
  split; [apply Z.div_pos; lia|]. apply Z.div_lt_upper_bound; lia.
Qed.

Lemma le_val_bound bs : Forall is_u8 bs -> 0 <= le_val bs < 256 ^ Z.of_nat (length bs).
Proof.
  induction 1 as [|b bs Hb _ IH]; simpl le_val; [simpl; lia|].
  cbn [length]. rewrite Nat2Z.inj_succ, Z.pow_succ_r by lia. unfold is_u8 in Hb. lia.
Qed.

Lemma le_bytes_val bs : Forall is_u8 bs -> le_bytes (length bs) (le_val bs) = bs.
Proof.
  induction 1 as [|b bs Hb _ IH]; simpl; [done|].
  unfold is_u8 in Hb.
  replace (b + 256 * le_val bs) with (le_val bs * 256 + b) by lia.
  rewrite Z.div_add_l, (Z.div_small b), Z.add_0_r by lia.
  rewrite Z.add_comm, Z_mod_plus_full, Z.mod_small by lia.
  by rewrite IH.
Qed.
