(* ===== verification/Page.v ===== *)
(** * Pages, bits and page-table entries

    The macros every memory component is written with: kernel/include/bitop.h,
    kernel/include/arch/i386/page.h and kernel/mm/intern.h, with the arithmetic
    facts the components use. *)

From S2P Require Import Prelude.

(** ** kernel/include/bitop.h *)

Definition bset (map bit : Z) : Z := Z.lor map bit.
Definition bclr (map bit : Z) : Z := Z.land map (u32 (Z.lnot bit)).
Definition bsetn (map n : Z) : Z := Z.lor map (u32 (Z.shiftl 1 n)).
Definition bclrn (map n : Z) : Z := Z.land map (u32 (Z.lnot (Z.shiftl 1 n))).
Definition bisset (map bit : Z) : bool := truth (Z.land map bit).
Definition bissetn (map n : Z) : bool := truth (Z.land map (u32 (Z.shiftl 1 n))).
Definition bnotset (map bit : Z) : bool := Z.land map bit =? 0.
Definition bmask (var mask : Z) : Z := Z.land var mask.

(** [bscanfwd] of a [CONF_DEBUG] build: the loop over the 32 bits, and the debug
    interrupt when no bit is set ([None]). *)
Fixpoint bscanfwd_from (fuel : nat) (map i : Z) : option Z :=
  match fuel with
  | O => None
  | S fuel => if bissetn map i then Some i else bscanfwd_from fuel map (i + 1)
  end.
Definition bscanfwd (map : Z) : option Z := bscanfwd_from 32 map 0.

(** [bswap(src, dst, size)] on the two byte buffers. *)
Definition bswap (src dst : list Z) (size : Z) : list Z :=
  let size := u8 (size - size mod 2) in
  if truth size then
    for_each size (fun i dst =>
      <[Z.to_nat (size - i - 1) := nth (Z.to_nat i) src 0]> dst) dst
  else dst.

(** [out] is an uninitialised local: its bytes are an argument. *)
Definition bigendian_word (out0 : list Z) (inp : Z) : Z :=
  le_val (bswap (le_bytes 2 inp) out0 2).
Definition bigendian_dword (out0 : list Z) (inp : Z) : Z :=
  le_val (bswap (le_bytes 4 inp) out0 4).

(** ** kernel/include/arch/i386/page.h *)

Definition PAGE_SHIFT : Z := 12.
Definition PAGE_SIZE : Z := Z.shiftl 1 PAGE_SHIFT.
Definition PAGE_MASK : Z := u32 (Z.lnot (PAGE_SIZE - 1)).
Definition PE_ADDR_SHIFT : Z := 22.
Definition PDIR_LEN : Z := 1024.
Definition PTAB_LEN : Z := 1024.
Definition BMASK_4K_ALIGN : Z := 0x00000FFF.
Definition BMASK_PE_ADDR : Z := 0xFFFFF000.
Definition BMASK_PE_FLAGS : Z := BMASK_4K_ALIGN.
Definition NO_PAGE : Z := 1.

Definition NUM_PAGES (n : Z) : Z :=
  Z.land (u32 (n + u32 (Z.lnot PAGE_MASK))) PAGE_MASK / PAGE_SIZE.
Definition PAGE_OFFSET (addr : Z) : Z := addr mod PAGE_SIZE.
Definition PAGE_ALIGN_ROUND_UP (n : Z) : Z :=
  Z.land (u32 (n + u32 (Z.lnot PAGE_MASK))) PAGE_MASK.
Definition PAGE_ALIGN_ROUND_DOWN (n : Z) : Z := Z.land n PAGE_MASK.
Definition IS_PAGE_ALIGNED (addr : Z) : bool := Z.land addr BMASK_4K_ALIGN =? 0.

(** ** kernel/include/mm/virt.h: flags and address space layout *)

Definition PE_PRESENT : Z := 0x0001.
Definition PE_READWRITE : Z := 0x0002.
Definition PE_USERMODE : Z := 0x0004.
Definition PE_CACHEDISABLE : Z := 0x0010.
Definition PE_ACCESSED : Z := 0x0020.
Definition PT_DIRTY : Z := 0x0040.
Definition VM_COMMON_FLAGS : Z := Z.lor PE_PRESENT PE_READWRITE.
Definition VM_USER_FLAGS : Z := Z.lor VM_COMMON_FLAGS PE_USERMODE.
Definition KERN_SPACE_END : Z := 0x2FFFFFFF.
Definition INFO_SPACE_START : Z := 0x30000000.
Definition USER_STACK_ADDR : Z := 0xFFFF0000.

(** ** kernel/mm/intern.h *)

Definition getaddr (entry : Z) : Z := bmask entry BMASK_PE_ADDR.
Definition getflags (entry : Z) : Z := bmask entry BMASK_PE_FLAGS.
Definition addr2page (addr : Z) : Z := addr / PAGE_SIZE.
Definition align_addr (addr : Z) : Z := u32 (addr - PAGE_OFFSET addr).
Definition align_size (addr size : Z) : Z := u32 (size + PAGE_OFFSET addr).
Definition pdir_index (addr : Z) : Z := addr2page addr / PDIR_LEN.
Definition ptab_index (addr : Z) : Z := addr2page addr mod PTAB_LEN.
Definition create_addr (pdi pti off : Z) : Z :=
  u32 (Z.shiftl pdi PE_ADDR_SHIFT + Z.shiftl pti PAGE_SHIFT + off).
Definition safe_pti (pdi : Z) : Z := if pdi =? 0 then 1 else 0.

(** ** Arithmetic of the page macros *)

Lemma PAGE_SIZE_eq : PAGE_SIZE = 4096. Proof. done. Qed.
Lemma PAGE_MASK_eq : PAGE_MASK = 2 ^ 32 - 4096. Proof. done. Qed.

(** Masking with [PAGE_MASK] rounds a 32-bit value down to a page boundary. *)
Lemma land_page_mask n : is_u32 n -> Z.land n (2 ^ 32 - 4096) = n / 4096 * 4096.
Proof.
  intros Hn. rewrite Z.mul_comm. change 4096 with (2 ^ 12).
  rewrite <- Z.shiftr_div_pow2, Z.mul_comm, <- Z.shiftl_mul_pow2 by done.
  apply Z.bits_inj'. intros j Hj. rewrite Z.land_spec, Z.shiftl_spec by done.
  destruct (Z.lt_ge_cases j 12).
  - replace (Z.testbit (2 ^ 32 - 2 ^ 12) j) with false
      by (symmetry; rewrite <- (Z.mod_pow2_bits_low _ 12) by lia; apply Z.bits_0).
    rewrite andb_false_r, Z.testbit_neg_r by lia. done.
  - rewrite Z.shiftr_spec, Z.sub_add by lia.
    destruct (Z.lt_ge_cases j 32).
    + replace (2 ^ 32 - 2 ^ 12) with (Z.shiftl (Z.ones 20) 12) by done.
      rewrite Z.shiftl_spec, Z.ones_spec_low by lia. by rewrite andb_true_r.
    + rewrite (bits_high n 32 j) by (done || lia). done.
Qed.

Lemma round_down_eq n : is_u32 n -> PAGE_ALIGN_ROUND_DOWN n = n / 4096 * 4096.
Proof. intros. unfold PAGE_ALIGN_ROUND_DOWN. rewrite PAGE_MASK_eq. by apply land_page_mask. Qed.

Lemma getaddr_eq e : is_u32 e -> getaddr e = e / 4096 * 4096.
Proof. apply land_page_mask. Qed.

Lemma getflags_eq e : getflags e = e mod 4096.
Proof. unfold getflags, bmask. apply (land_ones_mod e 12). done. Qed.

Lemma aligned_spec a : IS_PAGE_ALIGNED a = true <-> a mod 4096 = 0.
Proof.
  unfold IS_PAGE_ALIGNED. change BMASK_4K_ALIGN with (2 ^ 12 - 1).
  rewrite land_ones_mod, Z.eqb_eq by done. done.
Qed.

Lemma aligned_false a : IS_PAGE_ALIGNED a = false <-> a mod 4096 <> 0.
Proof. rewrite <- aligned_spec. destruct (IS_PAGE_ALIGNED a); naive_solver. Qed.

(** [NUM_PAGES] rounds up, for every size whose rounding does not wrap. *)
Lemma NUM_PAGES_eq n :
  0 <= n -> n + 4095 < 2 ^ 32 -> NUM_PAGES n = (n + 4095) / 4096.
Proof.
  intros H0 H1. unfold NUM_PAGES. rewrite PAGE_MASK_eq, PAGE_SIZE_eq.
  change (u32 (Z.lnot (2 ^ 32 - 4096))) with 4095.
  rewrite u32_small, land_page_mask by (unfold is_u32; lia).
  by rewrite Z.div_mul.
Qed.

(** An entry assembled from an aligned address and flags splits again. *)
Lemma lor_entry p f : p mod 4096 = 0 -> 0 <= f < 4096 -> Z.lor p f = p + f.
Proof.
  intros Hp Hf. rewrite Z.add_nocarry_lxor, Z.lxor_lor.
  1: done.
  all: apply Z.bits_inj'; intros j Hj; rewrite Z.land_spec, Z.bits_0;
    destruct (Z.lt_ge_cases j 12);
    [ rewrite <- (Z.mod_pow2_bits_low p 12) by lia; change (2 ^ 12) with 4096;
      by rewrite Hp, Z.bits_0
    | rewrite (bits_high f 12 j) by (done || lia); apply andb_false_r ].
Qed.

Lemma getaddr_entry p f :
  is_u32 p -> p mod 4096 = 0 -> 0 <= f < 4096 -> getaddr (Z.lor p f) = p.
Proof.
  intros Hp Ha Hf. rewrite lor_entry, getaddr_eq by (done || unfold is_u32 in *; dlia).
  dlia.
Qed.

Lemma getflags_entry p f :
  p mod 4096 = 0 -> 0 <= f < 4096 -> getflags (Z.lor p f) = f.
Proof. intros Ha Hf. rewrite lor_entry, getflags_eq by done. dlia. Qed.

(** ** Bits *)

Lemma u32_one n : 0 <= n < 32 -> u32 (Z.shiftl 1 n) = Z.shiftl 1 n.
Proof.
  intros Hn. apply u32_small. rewrite Z.shiftl_1_l. split; [lia|].
  apply Z.pow_lt_mono_r; lia.
Qed.

Lemma bissetn_testbit w n : 0 <= n < 32 -> bissetn w n = Z.testbit w n.
Proof. intros. unfold bissetn. rewrite u32_one by done. apply land_one_truth. lia. Qed.

Lemma bsetn_testbit w n j :
  0 <= n < 32 -> Z.testbit (bsetn w n) j = Z.testbit w j || (n =? j).
Proof. intros. unfold bsetn. by rewrite u32_one, Z.lor_spec, testbit_one by lia. Qed.

Lemma bclrn_testbit w n j :
  0 <= n < 32 -> 0 <= j < 32 ->
  Z.testbit (bclrn w n) j = Z.testbit w j && negb (n =? j).
Proof.
  intros. unfold bclrn. rewrite Z.land_spec, testbit_u32, Z.lnot_spec by lia.
  by rewrite testbit_one by lia.
Qed.

Lemma bsetn_u32 w n : is_u32 w -> 0 <= n < 32 -> is_u32 (bsetn w n).
Proof.
  intros Hw Hn. unfold bsetn. rewrite u32_one by done.
  assert (0 <= Z.shiftl 1 n) by (apply Z.shiftl_nonneg; lia).
  assert (0 <= Z.lor w (Z.shiftl 1 n)) by (apply Z.lor_nonneg; unfold is_u32 in *; lia).
  split; [done|]. apply below_pow2_bits; [done..|]. intros j Hj.
  rewrite Z.lor_spec, testbit_one, (bits_high w 32 j) by (done || lia).
  apply Z.eqb_neq. lia.
Qed.

Lemma bclrn_u32 w n : is_u32 w -> is_u32 (bclrn w n).
Proof.
  intros Hw. unfold bclrn.
  assert (0 <= Z.land w (u32 (Z.lnot (Z.shiftl 1 n))))
    by (apply Z.land_nonneg; unfold is_u32 in *; lia).
  split; [done|]. apply below_pow2_bits; [done..|]. intros j Hj.
  by rewrite Z.land_spec, (bits_high w 32 j) by (done || lia).
Qed.

(** ** The frame allocator interface

    What the virtual memory code relies on when it calls [mm_alloc_page] and
    [mm_free_page]: the answer is [NO_PAGE] or the address of a frame that was
    available and no longer is, and no other frame changes hands. *)

Class FrameSource (S : Type) := {
  fs_alloc : S -> Z * S;
  fs_free : Z -> S -> S;
  fs_inv : S -> Prop;
  fs_avail : S -> Z -> Prop;
}.

Class FrameSourceLaws (S : Type) `{FrameSource S} := {
  fs_alloc_inv s : fs_inv s -> fs_inv (fs_alloc s).2;
  fs_alloc_spec s : fs_inv s ->
    ((fs_alloc s).1 = NO_PAGE /\ forall q, fs_avail (fs_alloc s).2 q <-> fs_avail s q) \/
    (exists p, (fs_alloc s).1 = p * 4096 /\ 0 < p < 2 ^ 20 /\ fs_avail s p /\
       forall q, fs_avail (fs_alloc s).2 q <-> fs_avail s q /\ q <> p);
  fs_free_spec s p : fs_inv s -> 0 <= p < 2 ^ 20 ->
    fs_inv (fs_free (p * 4096) s) /\
    forall q, fs_avail (fs_free (p * 4096) s) q <-> fs_avail s q \/ q = p;
}.

Lemma NO_PAGE_not_frame p : p * 4096 <> NO_PAGE.
Proof. unfold NO_PAGE. lia. Qed.
