(* ===== verification/Kerror.v ===== *)
(** * Error codes and execution contexts

    kernel/error.c with kernel/include/error.h ([seterr]/[geterr] and the global
    [last_error]), and kernel/context.c with kernel/include/context.h (the table of
    actions allowed in each execution context). *)

From S2P Require Import Prelude.

(** ** kernel/include/error.h, kernel/error.c *)

Inductive error_code := OK | E_ALIGN | E_NO_MEM | E_INVALID | E_UNKNOWN | E_NUM_ERRORS.

Definition code (e : error_code) : Z :=
  match e with
  | OK => 0 | E_ALIGN => 1 | E_NO_MEM => 2
  | E_INVALID => 3 | E_UNKNOWN => 4 | E_NUM_ERRORS => 5
  end.

(** [seterr(err)]: the new value of [last_error]; the negation is C's on [int]. *)
Definition seterr (err : Z) : Z :=
  let err := if err <? 0 then i32 (- err) else err in
  if code E_NUM_ERRORS <=? err then code E_UNKNOWN else err.

Definition geterr (last_error : Z) : Z := last_error.

(** ** kernel/include/context.h, kernel/context.c *)

Inductive context :=
  CX_INIT_EARLY | CX_INIT | CX_INIT_DONE | CX_IRQ | CX_SYSCALL | CX_PROC | CX_PANIC.

Inductive action := A_CHANGE_IF | A_DELAY_EXEC | A_DYN_MEM.

#[export] Instance context_eq_dec : EqDecision context.
Proof. solve_decision. Defined.
#[export] Instance action_eq_dec : EqDecision action.
Proof. solve_decision. Defined.

(** The table [allowed]. *)
Definition allowed (cx : context) (a : action) : bool :=
  match cx, a with
  | CX_INIT_EARLY, _ => false
  | CX_INIT, A_DYN_MEM => true
  | CX_INIT, _ => false
  | CX_INIT_DONE, A_DELAY_EXEC => false
  | CX_INIT_DONE, _ => true
  | CX_IRQ, A_DYN_MEM => true
  | CX_IRQ, _ => false
  | CX_SYSCALL, _ => true
  | CX_PROC, A_CHANGE_IF => false
  | CX_PROC, _ => true
  | CX_PANIC, _ => false
  end.

(** [cx_set], [cx_get], [cx_allowed] and [cx_assert_allowed] on the global
    [cur_context]; their range assertions hold of every value of the two types. *)
Definition cx_set (c : context) : M context unit := fun _ => Ok (tt, c).
Definition cx_get : M context context := get.
Definition cx_allowed (a : action) : M context bool := gets (fun cx => allowed cx a).
Definition cx_assert_allowed (a : action) : M context unit :=
  ok ← cx_allowed a;
  if (ok : bool) then mret tt else panic.
