(* ===== verification/PhysMem.v ===== *)
(** * The physical memory manager

    kernel/mm/mm.c: the bitmap of free frames, the search for free runs, page,
    range, fixed-address and DMA allocation, and the boot-time initialisation.

    The bitmap [mmap[MMAP_SIZE]] is a map from word index to word; an index that is
    not bound holds the 0 the array was cleared to. *)

From S2P Require Import Prelude Page Kerror.

(** ** State *)

Definition NUM_DMA : Z := 8.
Definition DMA_BEGIN : Z := 0x10000.
Definition DMA_RANGE_LENGTH : Z := 0x10000.
Definition dma_addrs : list Z :=
  [0x10000; 0x20000; 0x30000; 0x40000; 0x50000; 0x60000; 0x70000; 0x80000].
Definition dma_start : Z := DMA_BEGIN.
Definition dma_end : Z := DMA_BEGIN + NUM_DMA * DMA_RANGE_LENGTH.

Definition MMAP_SIZE : Z := 0x8000.
Definition MMAP_BITS : Z := 4 * 8.

(** The static variables of mm.c and the [last_error] its functions set. *)
Record mm_state := MkMm {
  mmap : gmap Z Z;
  total_mem : Z;
  mem_end : Z;
  last_error : Z;
}.

Definition set_mmap (m : gmap Z Z) (st : mm_state) : mm_state :=
  MkMm m (total_mem st) (mem_end st) (last_error st).
Definition set_err (e : error_code) (st : mm_state) : mm_state :=
  MkMm (mmap st) (total_mem st) (mem_end st) (seterr (code e)).

(** [mmap[i]]. *)
Definition mword (m : gmap Z Z) (i : Z) : Z := default 0 (m !! i).

(** ** Bitmap access *)

Definition addr_to_idx (a : Z) : Z := (a / PAGE_SIZE) / 32.
Definition idx_to_addr (i : Z) : Z := u32 (i * PAGE_SIZE * 32).
Definition page_to_pos (p : Z) : Z := Z.land (p / PAGE_SIZE) 31.
Definition pos_to_offs (p : Z) : Z := u32 (p * PAGE_SIZE).

Definition mark_free (page : Z) (m : gmap Z Z) : gmap Z Z :=
  <[addr_to_idx page := bsetn (mword m (addr_to_idx page)) (page_to_pos page)]> m.
Definition mark_used (page : Z) (m : gmap Z Z) : gmap Z Z :=
  <[addr_to_idx page := bclrn (mword m (addr_to_idx page)) (page_to_pos page)]> m.

Definition mark_range_free (start num : Z) (m : gmap Z Z) : gmap Z Z :=
  for_each num (fun i => mark_free (u32 (start + i * PAGE_SIZE))) m.
Definition mark_range_used (start num : Z) (m : gmap Z Z) : gmap Z Z :=
  for_each num (fun i => mark_used (u32 (start + i * PAGE_SIZE))) m.

Definition is_free (page : Z) (m : gmap Z Z) : bool :=
  bissetn (mword m (addr_to_idx page)) (page_to_pos page).
Definition is_range_free (start num : Z) (m : gmap Z Z) : bool :=
  forallb (fun i => is_free (u32 (start + i * PAGE_SIZE)) m) (seqZ 0 num).

(** ** [find]

    [test] either makes [find] return [*result] ([Found]) or leaves the two
    variables [count] and [result]. *)

Inductive scan :=
| Found (page : Z)
| Scanning (count result : Z).

Definition test (m : gmap Z Z) (idx pos num count result : Z) : scan :=
  if bissetn (mword m idx) pos then
    let result := if count =? 0 then u32 (idx_to_addr idx + pos_to_offs pos) else result in
    let count := count + 1 in
    if num <=? count then Found result else Scanning count result
  else Scanning 0 result.

(** The loops [for (p = pos; ...; ++p) if (test(idx, p, ...)) return result;] over
    [n] positions of one word. *)
Fixpoint scan_bits (m : gmap Z Z) (idx num : Z) (n : nat) (pos count result : Z) : scan :=
  match n with
  | O => Scanning count result
  | S n =>
      match test m idx pos num count result with
      | Found r => Found r
      | Scanning count result => scan_bits m idx num n (pos + 1) count result
      end
  end.

(** The loop over [n] whole words from index [i], which skips empty words. *)
Fixpoint scan_words (m : gmap Z Z) (num : Z) (n : nat) (i count result : Z) : scan :=
  match n with
  | O => Scanning count result
  | S n =>
      if mword m i =? 0 then scan_words m num n (i + 1) 0 result
      else
        match scan_bits m i num (Z.to_nat MMAP_BITS) 0 count result with
        | Found r => Found r
        | Scanning count result => scan_words m num n (i + 1) count result
        end
  end.

Definition find (m : gmap Z Z) (num start end_ : Z) : Z :=
  let start_index := addr_to_idx start in
  let end_index := addr_to_idx end_ in
  let start_pos := page_to_pos start in
  let end_pos := page_to_pos end_ in
  let end_index := if truth end_pos then end_index - 1 else end_index in
  let first :=
    if truth start_pos
    then scan_bits m start_index num (Z.to_nat (MMAP_BITS - start_pos)) start_pos 0 NO_PAGE
    else Scanning 0 NO_PAGE in
  let start_index := if truth start_pos then start_index + 1 else start_index in
  match first with
  | Found r => r
  | Scanning count result =>
      match scan_words m num (Z.to_nat (end_index - start_index)) start_index count result with
      | Found r => r
      | Scanning count result =>
          if truth end_pos then
            match scan_bits m (end_index + 1) num (Z.to_nat end_pos) 0 count result with
            | Found r => r
            | Scanning _ _ => NO_PAGE
            end
          else NO_PAGE
      end
  end.

(** ** Allocation and release *)

Definition mm_alloc_page (st : mm_state) : Z * mm_state :=
  let page := find (mmap st) 1 dma_end (mem_end st) in
  if page =? NO_PAGE then (NO_PAGE, set_err E_NO_MEM st)
  else (page, set_mmap (mark_used page (mmap st)) st).

Definition mm_free_page (page : Z) (st : mm_state) : mm_state :=
  if page =? NO_PAGE then st
  else if negb (IS_PAGE_ALIGNED page) then set_err E_ALIGN st
  else set_mmap (mark_free page (mmap st)) st.

Definition mm_alloc_range (num : Z) (st : mm_state) : Z * mm_state :=
  if num =? 0 then (NO_PAGE, set_err E_INVALID st)
  else
    let start := find (mmap st) num dma_end (mem_end st) in
    if start =? NO_PAGE then (NO_PAGE, set_err E_NO_MEM st)
    else (start, set_mmap (mark_range_used start num (mmap st)) st).

Definition mm_free_range (start num : Z) (st : mm_state) : mm_state :=
  if start =? NO_PAGE then st
  else if negb (IS_PAGE_ALIGNED start) then set_err E_ALIGN st
  else if num =? 0 then set_err E_INVALID st
  else set_mmap (mark_range_free start num (mmap st)) st.

Definition mm_alloc_phys_range (start num : Z) (st : mm_state) : bool * mm_state :=
  if negb (IS_PAGE_ALIGNED start) then (false, set_err E_ALIGN st)
  else if num =? 0 then (false, set_err E_INVALID st)
  else if is_range_free start num (mmap st)
  then (true, set_mmap (mark_range_used start num (mmap st)) st)
  else (false, set_err E_NO_MEM st).

Definition mm_free_phys_range (start num : Z) (st : mm_state) : mm_state :=
  if negb (IS_PAGE_ALIGNED start) then set_err E_ALIGN st
  else if num =? 0 then set_err E_INVALID st
  else set_mmap (mark_range_free start num (mmap st)) st.

Fixpoint mm_alloc_dma_from (addrs : list Z) (st : mm_state) : Z * mm_state :=
  match addrs with
  | [] => (NO_PAGE, set_err E_NO_MEM st)
  | a :: addrs =>
      if is_range_free a DMA_RANGE_LENGTH (mmap st)
      then (a, set_mmap (mark_range_used a DMA_RANGE_LENGTH (mmap st)) st)
      else mm_alloc_dma_from addrs st
  end.
Definition mm_alloc_dma (st : mm_state) : Z * mm_state := mm_alloc_dma_from dma_addrs st.

Definition mm_free_dma (start : Z) (st : mm_state) : mm_state :=
  if start =? NO_PAGE then st
  else set_mmap (mark_range_free start DMA_RANGE_LENGTH (mmap st)) st.

Definition mm_total_mem (st : mm_state) : Z := total_mem st.
Definition mm_num_pages (st : mm_state) : Z := total_mem st / PAGE_SIZE.
Definition mm_num_free_pages (st : mm_state) : Z :=
  for_each MMAP_SIZE (fun i num =>
    for_each 32 (fun j num => if bissetn (mword (mmap st) i) j then num + 1 else num) num) 0.

(** ** Initialisation *)

(** kernel/include/multiboot.h: one entry of the loader's memory map and one
    loaded module. *)
Record multiboot_mmap := MkMbMmap { mb_base_addr : Z; mb_length : Z; mb_type : Z }.
Record multiboot_mod := MkMbMod { mod_start : Z; mod_end : Z; mod_cmdline : Z }.

(** What [init_mm] reads of the machine: [multiboot_info], the memory its pointers
    lead to ([mmap_at i] is the entry at [mmap_addr + i], whatever lies there), the
    string lengths of the module command lines and the linker symbols. *)
Record boot_info := MkBoot {
  mb_flags : Z;
  mmap_at : Z -> multiboot_mmap;
  mmap_length : Z;
  mods_addr : Z;
  mods_count : Z;
  mod_at : Z -> multiboot_mod;
  strlen_at : Z -> Z;
  elf_sec_addr : Z;
  elf_sec_size : Z;
  elf_sec_num : Z;
  shdr_at : Z -> Z * Z;
  kernel_phys_start : Z;
  kernel_phys_end : Z;
}.

Definition MB_MMAP : Z := 0x0040.

Inductive block_type :=
| USABLE_BLOCK (start len : Z)
| UNUSABLE_BLOCK
| END_OF_BLOCKS.

(** [mb_end] is [mmap_length] array elements past the start of the map. *)
Definition get_avail_block (bi : boot_info) (i : Z) : block_type :=
  if mmap_length bi <? i then END_OF_BLOCKS
  else
    let e := mmap_at bi i in
    if negb (mb_type e =? 1) then UNUSABLE_BLOCK
    else USABLE_BLOCK (u32 (mb_base_addr e)) (u32 (mb_length e)).

(** One turn of the [while (true)] loop for a usable block. *)
Definition add_block (start len : Z) (st : mm_state) : mm_state :=
  let aligned := PAGE_ALIGN_ROUND_UP start in
  let '(start, len) :=
    if IS_PAGE_ALIGNED start then (start, len) else (aligned, u32 (len - (aligned - start))) in
  let this_end := u32 (start + len) in
  MkMm (mark_range_free start (NUM_PAGES len) (mmap st))
       (u32 (total_mem st + len))
       (if mem_end st <? this_end then this_end else mem_end st)
       (last_error st).

Fixpoint init_blocks (bi : boot_info) (fuel : nat) (i : Z) (st : mm_state) : option mm_state :=
  match fuel with
  | O => None
  | S fuel =>
      match get_avail_block bi i with
      | END_OF_BLOCKS => Some st
      | UNUSABLE_BLOCK => init_blocks bi fuel (i + 1) st
      | USABLE_BLOCK start len => init_blocks bi fuel (i + 1) (add_block start len st)
      end
  end.

(** The loop over the modules, whose pointer [mod] is never advanced. *)
Definition mark_module (bi : boot_info) (m : gmap Z Z) : gmap Z Z :=
  let mod_ := mod_at bi 0 in
  let m := mark_range_used (mods_addr bi) (NUM_PAGES 16) m in
  let m := mark_range_used (mod_start mod_) (NUM_PAGES (u32 (mod_end mod_ - mod_start mod_))) m in
  if truth (mod_cmdline mod_)
  then mark_range_used (mod_cmdline mod_) (NUM_PAGES (strlen_at bi (mod_cmdline mod_))) m
  else m.

Definition reserve_boot (bi : boot_info) (m : gmap Z Z) : gmap Z Z :=
  let m := mark_range_used (kernel_phys_start bi)
             (NUM_PAGES (u32 (kernel_phys_end bi - kernel_phys_start bi))) m in
  let m := for_each (mods_count bi) (fun _ => mark_module bi) m in
  let m := mark_range_used (elf_sec_addr bi) (NUM_PAGES (elf_sec_size bi)) m in
  let m := for_each (elf_sec_num bi) (fun i =>
             mark_range_used (fst (shdr_at bi i)) (NUM_PAGES (snd (shdr_at bi i)))) m in
  mark_used 0 m.

(** The block loop stops at index [mmap_length + 1]: [mmap_length + 2] turns. *)
Definition init_mm (bi : boot_info) (err0 : Z) : outcome mm_state :=
  if negb (bisset (mb_flags bi) MB_MMAP) then Panic
  else
    match init_blocks bi (Z.to_nat (mmap_length bi + 2)) 0 (MkMm ∅ 0 0 err0) with
    | None => Fault
    | Some st => Ok (set_mmap (reserve_boot bi (mmap st)) st)
    end.

(** ** The set of free frames

    [page_free m p]: the bitmap calls the frame with number [p] free. *)

Definition page_free (m : gmap Z Z) (p : Z) : bool := Z.testbit (mword m (p / 32)) (p mod 32).

(** The bitmap holds 32-bit words. *)
Definition mm_wf (m : gmap Z Z) : Prop := forall i, is_u32 (mword m i).

(** Reference search: the first run of [num] free frames among the [n] frames from
    [p] on, [count] frames before [p] already being free. *)
Fixpoint first_run (free : Z -> bool) (num : Z) (n : nat) (p count : Z) : option Z :=
  match n with
  | O => None
  | S n =>
      if free p then
        if num <=? count + 1 then Some (p - count) else first_run free num n (p + 1) (count + 1)
      else first_run free num n (p + 1) 0
  end.

(** All of [p .. p+num-1] are free. *)
Definition run_free (free : Z -> bool) (p num : Z) : Prop :=
  forall q, p <= q < p + num -> free q = true.

(** ** Bitmap lemmas *)

Lemma page_to_pos_eq a : page_to_pos a = (a / 4096) mod 32.
Proof. unfold page_to_pos. rewrite PAGE_SIZE_eq. apply (land_ones_mod _ 5). done. Qed.

Lemma addr_to_idx_eq a : addr_to_idx a = (a / 4096) / 32.
Proof. done. Qed.

Lemma pos_bound a : 0 <= page_to_pos a < 32.
Proof. rewrite page_to_pos_eq. apply Z.mod_pos_bound. lia. Qed.

(** Every 32-bit address selects a word inside the array. *)
Lemma addr_to_idx_bound a : is_u32 a -> 0 <= addr_to_idx a < MMAP_SIZE.
Proof. unfold is_u32, MMAP_SIZE. rewrite addr_to_idx_eq. intros. dlia. Qed.

Lemma is_free_page_free a m : is_free a m = page_free m (a / 4096).
Proof.
  unfold is_free, page_free. rewrite bissetn_testbit by apply pos_bound.
  by rewrite page_to_pos_eq, addr_to_idx_eq.
Qed.

Lemma mword_insert m i w j : mword (<[i := w]> m) j = if decide (i = j) then w else mword m j.
Proof. unfold mword. rewrite lookup_insert. by case_decide. Qed.

Lemma page_free_mark_free a m q :
  page_free (mark_free a m) q = page_free m q || (a / 4096 =? q).
Proof.
  unfold page_free, mark_free. rewrite mword_insert, page_to_pos_eq, addr_to_idx_eq.
  case_decide as E.
  - rewrite bsetn_testbit by (apply Z.mod_pos_bound; lia). rewrite E. f_equal.
    destruct (Z.eqb_spec (a / 4096) q) as [->|Hne]; [apply Z.eqb_refl|].
    apply Z.eqb_neq. intros Hm. apply Hne. dlia.
  - replace (a / 4096 =? q) with false; [by rewrite orb_false_r|].
    symmetry. apply Z.eqb_neq. congruence.
Qed.

Lemma page_free_mark_used a m q :
  page_free (mark_used a m) q = page_free m q && negb (a / 4096 =? q).
Proof.
  unfold page_free, mark_used. rewrite mword_insert, page_to_pos_eq, addr_to_idx_eq.
  case_decide as E.
  - rewrite bclrn_testbit by (apply Z.mod_pos_bound; lia). rewrite E. do 2 f_equal.
    destruct (Z.eqb_spec (a / 4096) q) as [->|Hne]; [apply Z.eqb_refl|].
    apply Z.eqb_neq. intros Hm. apply Hne. dlia.
  - replace (a / 4096 =? q) with false; [by rewrite andb_true_r|].
    symmetry. apply Z.eqb_neq. congruence.
Qed.

Lemma mark_used_wf a m : mm_wf m -> mm_wf (mark_used a m).
Proof.
  intros Hm i. unfold mark_used. rewrite mword_insert. case_decide; [|done].
  by apply bclrn_u32.
Qed.

Lemma mark_free_wf a m : mm_wf m -> mm_wf (mark_free a m).
Proof.
  intros Hm i. unfold mark_free. rewrite mword_insert. case_decide; [|done].
  apply bsetn_u32; [done | apply pos_bound].
Qed.

Lemma for_each_wf (f : Z -> gmap Z Z -> gmap Z Z) n m :
  mm_wf m -> (forall i m, mm_wf m -> mm_wf (f i m)) -> mm_wf (for_each n f m).
Proof.
  intros Hm Hf. destruct (Z.le_gt_cases 0 n) as [Hn|]; [|by rewrite for_each_0 by lia].
  apply (for_each_inv f (fun _ => mm_wf) n m Hn Hm). intros i m0 _. by apply Hf.
Qed.

Lemma mark_range_used_wf a n m : mm_wf m -> mm_wf (mark_range_used a n m).
Proof. intros. apply for_each_wf; [done|]. intros. by apply mark_used_wf. Qed.
Lemma mark_range_free_wf a n m : mm_wf m -> mm_wf (mark_range_free a n m).
Proof. intros. apply for_each_wf; [done|]. intros. by apply mark_free_wf. Qed.

#[export] Hint Resolve mark_used_wf mark_free_wf mark_range_used_wf mark_range_free_wf : kos.

(** The frame number of the [i]-th page of a range that does not wrap. *)
Lemma range_page a i :
  0 <= a -> 0 <= i -> a / 4096 + i < 2 ^ 20 -> u32 (a + i * PAGE_SIZE) / 4096 = a / 4096 + i.
Proof.
  intros. rewrite PAGE_SIZE_eq, u32_small by (unfold is_u32; dlia).
  by rewrite Z.div_add by lia.
Qed.

Lemma page_free_mark_range_used a n m q :
  0 <= a -> 0 <= n -> a / 4096 + n <= 2 ^ 20 ->
  page_free (mark_range_used a n m) q =
    page_free m q && negb ((a / 4096 <=? q) && (q <? a / 4096 + n)).
Proof.
  intros Ha Hn Hb. unfold mark_range_used.
  apply (for_each_inv _ (fun i m' => page_free m' q =
    page_free m q && negb ((a / 4096 <=? q) && (q <? a / 4096 + i)))); [done | |].
  - replace ((a / 4096 <=? q) && (q <? a / 4096 + 0)) with false; [by rewrite andb_true_r|].
    symmetry. apply andb_false_iff. destruct (Z.leb_spec (a / 4096) q); [right|by left].
    apply Z.ltb_ge. lia.
  - intros i m' Hi IH. rewrite page_free_mark_used, IH, range_page, <- andb_assoc by lia. f_equal.
    rewrite <- negb_orb. f_equal.
    apply eq_true_iff_eq. rewrite orb_true_iff, !andb_true_iff, Z.eqb_eq, !Z.leb_le, !Z.ltb_lt. lia.
Qed.

Lemma page_free_mark_range_free a n m q :
  0 <= a -> 0 <= n -> a / 4096 + n <= 2 ^ 20 ->
  page_free (mark_range_free a n m) q =
    page_free m q || ((a / 4096 <=? q) && (q <? a / 4096 + n)).
Proof.
  intros Ha Hn Hb. unfold mark_range_free.
  apply (for_each_inv _ (fun i m' => page_free m' q =
    page_free m q || ((a / 4096 <=? q) && (q <? a / 4096 + i)))); [done | |].
  - replace ((a / 4096 <=? q) && (q <? a / 4096 + 0)) with false; [by rewrite orb_false_r|].
    symmetry. apply andb_false_iff. destruct (Z.leb_spec (a / 4096) q); [right|by left].
    apply Z.ltb_ge. lia.
  - intros i m' Hi IH. rewrite page_free_mark_free, IH, range_page, <- orb_assoc by lia. f_equal.
    apply eq_true_iff_eq. rewrite orb_true_iff, !andb_true_iff, Z.eqb_eq, !Z.leb_le, !Z.ltb_lt. lia.
Qed.

Lemma is_range_free_spec a n m :
  0 <= a -> 0 <= n -> a / 4096 + n <= 2 ^ 20 ->
  is_range_free a n m = true <-> run_free (page_free m) (a / 4096) n.
Proof.
  intros Ha Hn Hb. unfold is_range_free, run_free. rewrite forallb_forall. split.
  - intros H q Hq. specialize (H (q - a / 4096)).
    rewrite is_free_page_free, range_page in H by lia.
    replace (a / 4096 + (q - a / 4096)) with q in H by lia.
    apply H, list_elem_of_In, elem_of_seqZ. lia.
  - intros H i Hi. apply list_elem_of_In, elem_of_seqZ in Hi.
    rewrite is_free_page_free, range_page by lia. apply H. lia.
Qed.

(** ** The search

    [scan_ok free num n p count st]: scanning the [n] frames from [p] with [count]
    free frames behind it leads to [st], and the reference search agrees. *)

Definition linked (count result p : Z) : Prop :=
  0 <= count <= p /\ (0 < count -> result = (p - count) * 4096).

Definition scan_ok (free : Z -> bool) (num : Z) (n : nat) (p count : Z) (st : scan) : Prop :=
  match st with
  | Found r =>
      exists s, r = s * 4096 /\ forall k, first_run free num (n + k) p count = Some s
  | Scanning c r =>
      linked c r (p + Z.of_nat n) /\
      forall k, first_run free num (n + k) p count = first_run free num k (p + Z.of_nat n) c
  end.

Lemma scan_ok_app free num n1 n2 p count c r st :
  scan_ok free num n1 p count (Scanning c r) ->
  scan_ok free num n2 (p + Z.of_nat n1) c st ->
  scan_ok free num (n1 + n2) p count st.
Proof.
  intros [_ H1]. destruct st as [r'|c' r']; simpl.
  - intros (s & -> & H2). exists s. split; [done|]. intros k.
    by rewrite <- Nat.add_assoc, H1, H2.
  - intros [Hl H2]. rewrite Nat2Z.inj_add, Z.add_assoc. split; [done|]. intros k.
    by rewrite <- Nat.add_assoc, H1, H2.
Qed.

Lemma scan_ok_0 free num p count result :
  linked count result p -> scan_ok free num 0 p count (Scanning count result).
Proof. intros. simpl. rewrite Z.add_0_r. done. Qed.

(** A frame address assembled from word index and bit position. *)
Lemma frame_addr idx pos :
  0 <= idx < MMAP_SIZE -> 0 <= pos < 32 ->
  u32 (idx_to_addr idx + pos_to_offs pos) = (32 * idx + pos) * 4096.
Proof.
  unfold MMAP_SIZE, idx_to_addr, pos_to_offs. rewrite PAGE_SIZE_eq. intros.
  rewrite u32_add_l, u32_add_r, u32_small by (unfold is_u32; lia). lia.
Qed.

Lemma page_free_word m idx pos :
  0 <= pos < 32 -> page_free m (32 * idx + pos) = Z.testbit (mword m idx) pos.
Proof.
  intros. unfold page_free. replace ((32 * idx + pos) / 32) with idx by dlia.
  by replace ((32 * idx + pos) mod 32) with pos by dlia.
Qed.

Lemma test_ok m idx pos num count result :
  0 <= idx < MMAP_SIZE -> 0 <= pos < 32 -> linked count result (32 * idx + pos) ->
  scan_ok (page_free m) num 1 (32 * idx + pos) count (test m idx pos num count result).
Proof.
  intros Hi Hp [Hc Hl]. unfold test. rewrite bissetn_testbit, frame_addr by done.
  rewrite <- page_free_word by done.
  destruct (page_free m (32 * idx + pos)) eqn:Hf.
  - assert ((if count =? 0 then (32 * idx + pos) * 4096 else result)
            = (32 * idx + pos - count) * 4096) as Hr.
    { destruct (Z.eqb_spec count 0) as [->|]; [f_equal; lia | apply Hl; lia]. }
    rewrite Hr. destruct (num <=? count + 1) eqn:Hn; simpl.
    + eexists. split; [done|]. intros k. by rewrite Hf, Hn.
    + split; [split; [lia | intros; f_equal; lia]|]. intros k. by rewrite Hf, Hn.
  - simpl. split; [split; lia|]. intros k. by rewrite Hf.
Qed.

Lemma scan_bits_ok m idx num n pos count result :
  0 <= idx < MMAP_SIZE -> 0 <= pos -> pos + Z.of_nat n <= 32 ->
  linked count result (32 * idx + pos) ->
  scan_ok (page_free m) num n (32 * idx + pos) count (scan_bits m idx num n pos count result).
Proof.
  intros Hi. revert pos count result.
  induction n as [|n IH]; intros pos count result H0 Hn Hl; cbn [scan_bits].
  - by apply scan_ok_0.
  - pose proof (test_ok m idx pos num count result Hi ltac:(lia) Hl) as Ht.
    destruct (test m idx pos num count result) as [r|c r] eqn:E.
    + destruct Ht as (s & -> & Ht). exists s. split; [done|].
      intros k. apply (Ht (n + k)%nat).
    + apply (scan_ok_app _ _ 1 n _ _ _ _ _ Ht).
      replace (32 * idx + pos + Z.of_nat 1) with (32 * idx + (pos + 1)) by lia.
      apply IH; [lia | lia |]. destruct Ht as [Ht _].
      by replace (32 * idx + (pos + 1)) with (32 * idx + pos + Z.of_nat 1) by lia.
Qed.

(** Skipping a word without free frames is scanning it. *)
Lemma skip_word_ok m num n p count :
  0 <= p -> (forall q, p <= q < p + Z.of_nat n -> page_free m q = false) ->
  (0 < n)%nat -> forall r, scan_ok (page_free m) num n p count (Scanning 0 r).
Proof.
  revert p count. induction n as [|n IH]; intros p count Hp Hf Hn r; [lia|]. split; [split; lia|].
  intros k. simpl. rewrite Hf by lia. destruct n as [|n].
  - done.
  - destruct (IH (p + 1) 0) with (r := r) as [_ ->]; [lia | | lia |].
    + intros. apply Hf. lia.
    + f_equal. lia.
Qed.

Lemma scan_words_ok m num n i count result :
  0 <= i -> i + Z.of_nat n <= MMAP_SIZE -> linked count result (32 * i) ->
  scan_ok (page_free m) num (32 * n) (32 * i) count (scan_words m num n i count result).
Proof.
  revert i count result. induction n as [|n IH]; intros i count result Hi Hn Hl; cbn [scan_words].
  - by apply scan_ok_0.
  - replace (32 * S n)%nat with (32 + 32 * n)%nat by lia.
    assert (forall c r, scan_ok (page_free m) num 32 (32 * i) count (Scanning c r) ->
      scan_ok (page_free m) num (32 + 32 * n) (32 * i) count (scan_words m num n (i + 1) c r))
      as Hstep.
    { intros c r Hs. apply (scan_ok_app _ _ _ _ _ _ _ _ _ Hs).
      replace (32 * i + Z.of_nat 32) with (32 * (i + 1)) by lia.
      apply IH; [lia | lia |]. destruct Hs as [Hs _].
      by replace (32 * (i + 1)) with (32 * i + Z.of_nat 32) by lia. }
    destruct (Z.eqb_spec (mword m i) 0) as [Hz|_].
    + apply Hstep. apply skip_word_ok; [lia | | lia]. intros q Hq.
      replace q with (32 * i + (q - 32 * i)) by lia.
      rewrite page_free_word, Hz by lia. apply Z.bits_0.
    + pose proof (scan_bits_ok m i num 32 0 count result) as Hb.
      rewrite Z.add_0_r in Hb. specialize (Hb ltac:(lia) ltac:(lia) ltac:(lia) Hl).
      change (Z.to_nat MMAP_BITS) with 32%nat.
      destruct (scan_bits m i num 32 0 count result) as [r|c r]; [|by apply Hstep].
      destruct Hb as (s & -> & Hb). exists s. split; [done|]. intros k.
      by rewrite <- Nat.add_assoc, Hb.
Qed.

(** The address [find] returns for an answer of the reference search. *)
Definition run_addr (o : option Z) : Z :=
  match o with Some p => p * 4096 | None => NO_PAGE end.

(** The word loop and the final [return] from a word boundary [32 * i] on. *)
Lemma words_to_end m num i n c r :
  0 <= i -> i + Z.of_nat n <= MMAP_SIZE -> linked c r (32 * i) ->
  match scan_words m num n i c r with Found r => r | Scanning _ _ => NO_PAGE end =
  run_addr (first_run (page_free m) num (32 * n) (32 * i) c).
Proof.
  intros Hi Hn Hl. pose proof (scan_words_ok m num n i c r Hi Hn Hl) as Hw.
  destruct (scan_words m num n i c r) as [r'|c' r'].
  - destruct Hw as (s & -> & Hw). specialize (Hw O). rewrite Nat.add_0_r in Hw. by rewrite Hw.
  - destruct Hw as [_ Hw]. specialize (Hw O). rewrite Nat.add_0_r in Hw. by rewrite Hw.
Qed.

(** [find] is the reference search when [end] is aligned to a bitmap word. *)
Lemma find_first_run m num start end_ :
  is_u32 start -> is_u32 end_ -> start <= end_ -> page_to_pos end_ = 0 ->
  find m num start end_ =
    run_addr (first_run (page_free m) num (Z.to_nat (end_ / 4096 - start / 4096)) (start / 4096) 0).
Proof.
  intros Hs He Hle Hpos. unfold find. rewrite Hpos. change (truth 0) with false. cbn zeta match.
  pose proof (addr_to_idx_bound start Hs) as Hsi. pose proof (addr_to_idx_bound end_ He) as Hei.
  rewrite !page_to_pos_eq in *. rewrite !addr_to_idx_eq in *. unfold MMAP_BITS, MMAP_SIZE in *.
  set (P := start / 4096) in *. set (E := end_ / 4096) in *.
  assert (P <= E) by (subst P E; apply Z.div_le_mono; lia).
  assert (P / 32 <= E / 32) by (apply Z.div_le_mono; lia).
  clearbody P E. destruct (truth (P mod 32)) eqn:Ht; unfold truth in Ht; to_prop.
  - pose proof (scan_bits_ok m (P / 32) num (Z.to_nat (4 * 8 - P mod 32)) (P mod 32) 0 NO_PAGE
      ltac:(unfold MMAP_SIZE; lia) ltac:(dlia) ltac:(dlia) ltac:(split; dlia)) as Hb.
    replace (32 * (P / 32) + P mod 32) with P in Hb by dlia.
    replace (Z.to_nat (E - P))
      with (Z.to_nat (4 * 8 - P mod 32) + 32 * Z.to_nat (E / 32 - (P / 32 + 1)))%nat by dlia.
    destruct (scan_bits _ _ _ _ _ _ _) as [r|c r].
    + destruct Hb as (s & -> & Hb). by rewrite Hb.
    + destruct Hb as [Hl Hb]. rewrite Hb.
      replace (P + Z.of_nat (Z.to_nat (4 * 8 - P mod 32))) with (32 * (P / 32 + 1)) in * by dlia.
      apply words_to_end; [lia | unfold MMAP_SIZE; dlia | done].
  - replace (Z.to_nat (E - P)) with (32 * Z.to_nat (E / 32 - P / 32))%nat by dlia.
    rewrite words_to_end; [|lia|unfold MMAP_SIZE; lia|split; lia].
    by replace (32 * (P / 32)) with P by dlia.
Qed.

(** ** The reference search *)

Section first_run.
Context (free : Z -> bool) (num : Z).

(** A run that is found is free and lies in the searched frames. *)
Lemma first_run_sound n p c s :
  0 < num -> 0 <= c -> run_free free (p - c) c -> first_run free num n p c = Some s ->
  run_free free s num /\ p - c <= s /\ s + num <= p + Z.of_nat n.
Proof.
  intros Hnum. revert p c. induction n as [|n IH]; intros p c Hc Hrun Hs; [done|].
  cbn [first_run] in Hs. destruct (free p) eqn:Hf.
  - destruct (num <=? c + 1) eqn:Hn; to_prop.
    + simplify_eq. split_and!; [|lia|lia]. intros q Hq.
      destruct (Z.eq_dec q p) as [->|]; [done|]. apply Hrun. lia.
    + destruct (IH (p + 1) (c + 1)) as (H1 & H2 & H3); [lia | | done |].
      { intros q Hq. destruct (Z.eq_dec q p) as [->|]; [done|]. apply Hrun. lia. }
      split_and!; [done | lia | lia].
  - destruct (IH (p + 1) 0) as (H1 & H2 & H3); [lia | | done |].
    { intros q Hq. lia. }
    split_and!; [done | lia | lia].
Qed.

(** When nothing is found there is no such run: [c] is all that is free before [p]. *)
Lemma first_run_complete n p c :
  0 <= c < num -> first_run free num n p c = None ->
  forall q, p - c <= q -> q + num <= p + Z.of_nat n -> ~ run_free free q num.
Proof.
  revert p c. induction n as [|n IH]; intros p c Hc Hs q Hq Hqn Hrun; [lia|].
  cbn [first_run] in Hs. destruct (free p) eqn:Hf.
  - destruct (num <=? c + 1) eqn:Hn; to_prop; [done|].
    eapply (IH (p + 1) (c + 1)); [lia | exact Hs | | | exact Hrun]; lia.
  - destruct (Z.le_gt_cases q p).
    + rewrite Hrun in Hf by lia. done.
    + eapply (IH (p + 1) 0); [lia | exact Hs | | | exact Hrun]; lia.
Qed.
End first_run.

(** ** Single frames

    With [num = 1] no run is ever carried from one word to the next, so the search is
    sound for every [end]. *)

Definition one_ok (m : gmap Z Z) (lo hi : Z) (st : scan) : Prop :=
  match st with
  | Found r => exists p, r = p * 4096 /\ lo <= p < hi /\ page_free m p = true
  | Scanning c _ => c = 0
  end.

Lemma one_ok_mono m lo hi lo' hi' st :
  lo' <= lo -> hi <= hi' -> one_ok m lo hi st -> one_ok m lo' hi' st.
Proof.
  intros ? ?. destruct st; simpl; [|done]. intros (p & ? & ? & ?). exists p. split_and!; done || lia.
Qed.

Lemma scan_bits_one m idx n pos r :
  0 <= idx < MMAP_SIZE -> 0 <= pos -> pos + Z.of_nat n <= 32 ->
  one_ok m (32 * idx + pos) (32 * idx + pos + Z.of_nat n) (scan_bits m idx 1 n pos 0 r).
Proof.
  intros Hi. revert pos r. induction n as [|n IH]; intros pos r H0 Hn; [done|].
  cbn [scan_bits]. unfold test. rewrite bissetn_testbit, frame_addr by lia.
  destruct (Z.testbit (mword m idx) pos) eqn:Hb; simpl.
  - exists (32 * idx + pos). rewrite page_free_word by lia. split_and!; done || lia.
  - eapply one_ok_mono; [..|apply IH]; lia.
Qed.

Lemma scan_words_one m n i r :
  0 <= i -> i + Z.of_nat n <= MMAP_SIZE ->
  one_ok m (32 * i) (32 * (i + Z.of_nat n)) (scan_words m 1 n i 0 r).
Proof.
  revert i r. induction n as [|n IH]; intros i r Hi Hn; [done|]. cbn [scan_words].
  destruct (mword m i =? 0).
  - eapply one_ok_mono; [..|apply IH]; lia.
  - pose proof (scan_bits_one m i 32 0 r) as Hb. change (Z.to_nat MMAP_BITS) with 32%nat.
    destruct (scan_bits m i 1 32 0 0 r) as [r'|c r'].
    + eapply one_ok_mono; [..|apply Hb]; lia.
    + simpl in Hb. rewrite Hb by lia. eapply one_ok_mono; [..|apply IH]; lia.
Qed.

(** The two ends lie in different words of the bitmap. *)
Definition window (start end_ : Z) : Prop :=
  is_u32 start /\ is_u32 end_ /\ addr_to_idx start < addr_to_idx end_.

Lemma find_one_sound m start end_ :
  window start end_ ->
  find m 1 start end_ = NO_PAGE \/
  exists p, find m 1 start end_ = p * 4096 /\ start / 4096 <= p < end_ / 4096 /\
            page_free m p = true.
Proof.
  intros (Hs & He & Hlt).
  pose proof (addr_to_idx_bound start Hs) as Hsi. pose proof (addr_to_idx_bound end_ He) as Hei.
  unfold find. rewrite !page_to_pos_eq, !addr_to_idx_eq in *. unfold MMAP_BITS.
  set (P := start / 4096) in *. set (E := end_ / 4096) in *. clearbody P E.
  set (first := if truth (P mod 32) then _ else _).
  assert (one_ok m P E first) as Hf.
  { subst first. destruct (truth (P mod 32)); [|done].
    eapply one_ok_mono; [| |apply scan_bits_one]; dlia. }
  clearbody first. destruct first as [r|c r].
  { destruct Hf as (p & -> & ? & ?). eauto. }
  simpl in Hf. subst c.
  set (i := if truth (P mod 32) then P / 32 + 1 else P / 32).
  set (e := if truth (E mod 32) then E / 32 - 1 else E / 32).
  assert (P <= 32 * i /\ 0 <= i) as [Hi Hi0].
  { subst i. destruct (truth (P mod 32)) eqn:Ht; unfold truth in Ht; to_prop; dlia. }
  assert (e <= E / 32 /\ 32 * (E / 32) <= E) as [Hee HeE].
  { subst e. destruct (truth (E mod 32)); dlia. }
  assert (one_ok m P E (scan_words m 1 (Z.to_nat (e - i)) i 0 r)) as Hw.
  { destruct (Z.le_gt_cases e i).
    - replace (Z.to_nat (e - i)) with 0%nat by lia. done.
    - eapply one_ok_mono; [| |apply scan_words_one]; [lia | lia | lia | unfold MMAP_SIZE in *; lia]. }
  destruct (scan_words _ _ _ _ _ _) as [r'|c r'].
  { destruct Hw as (p & -> & ? & ?). eauto. }
  simpl in Hw. subst c. destruct (truth (E mod 32)) eqn:Ht; [|by left].
  replace (e + 1) with (E / 32) by (subst e; lia).
  pose proof (scan_bits_one m (E / 32) (Z.to_nat (E mod 32)) 0 r') as Hb.
  specialize (Hb ltac:(lia) ltac:(lia) ltac:(dlia)).
  destruct (scan_bits _ _ _ _ _ _ _) as [r''|c'' r'']; [|by left].
  destruct Hb as (p & -> & ? & ?). right. exists p. split_and!; [done | dlia | dlia | done].
Qed.

(** ** Abstract specification

    The manager promises to keep a set of free frames. *)

Definition NUM_FRAMES : Z := 2 ^ 20.

Definition frames (m : gmap Z Z) : gset Z :=
  list_to_set (filter (fun p => page_free m p = true) (seqZ 0 NUM_FRAMES)).

Definition frame_range (p num : Z) : gset Z := list_to_set (seqZ p num).

Lemma elem_of_frames m p : p ∈ frames m <-> 0 <= p < NUM_FRAMES /\ page_free m p = true.
Proof.
  unfold frames. rewrite elem_of_list_to_set, list_elem_of_filter, elem_of_seqZ. intuition lia.
Qed.

Lemma elem_of_frame_range p num q : q ∈ frame_range p num <-> p <= q < p + num.
Proof. unfold frame_range. by rewrite elem_of_list_to_set, elem_of_seqZ. Qed.

(** Requests to the manager. *)
Inductive mm_op :=
| AllocPage
| FreePage (page : Z)
| AllocRange (num : Z)
| FreeRange (start num : Z)
| AllocPhys (start num : Z)
| FreePhys (start num : Z).

(** The code's answer: an address, or for [mm_alloc_phys_range] its truth value. *)
Definition mm_exec (op : mm_op) (st : mm_state) : Z * mm_state :=
  match op with
  | AllocPage => mm_alloc_page st
  | FreePage a => (0, mm_free_page a st)
  | AllocRange n => mm_alloc_range n st
  | FreeRange a n => (0, mm_free_range a n st)
  | AllocPhys a n => let '(b, st) := mm_alloc_phys_range a n st in (Z.b2z b, st)
  | FreePhys a n => (0, mm_free_phys_range a n st)
  end.

(** What the manager may answer when the set of free frames is [F] and the frames
    of the window are [lo .. hi-1]. *)
Inductive mm_spec (lo hi : Z) : mm_op -> gset Z -> Z -> gset Z -> Prop :=
| spec_alloc F p :
    lo <= p < hi -> p ∈ F -> mm_spec lo hi AllocPage F (p * 4096) (F ∖ {[p]})
| spec_alloc_fail F :
    (forall p, lo <= p < hi -> p ∉ F) -> mm_spec lo hi AllocPage F NO_PAGE F
| spec_range F p n :
    0 < n -> lo <= p -> p + n <= hi -> frame_range p n ⊆ F ->
    mm_spec lo hi (AllocRange n) F (p * 4096) (F ∖ frame_range p n)
| spec_range_fail F n :
    (forall p, 0 < n -> lo <= p -> p + n <= hi -> ~ frame_range p n ⊆ F) ->
    mm_spec lo hi (AllocRange n) F NO_PAGE F
| spec_free F a :
    a mod 4096 = 0 -> mm_spec lo hi (FreePage a) F 0 (F ∪ {[a / 4096]})
| spec_free_bad F a :
    a mod 4096 <> 0 -> mm_spec lo hi (FreePage a) F 0 F
| spec_free_range F a n :
    a mod 4096 = 0 -> mm_spec lo hi (FreeRange a n) F 0 (F ∪ frame_range (a / 4096) n)
| spec_free_range_bad F a n :
    a mod 4096 <> 0 \/ n = 0 -> mm_spec lo hi (FreeRange a n) F 0 F
| spec_phys F a n :
    a mod 4096 = 0 -> 0 < n -> frame_range (a / 4096) n ⊆ F ->
    mm_spec lo hi (AllocPhys a n) F 1 (F ∖ frame_range (a / 4096) n)
| spec_phys_fail F a n :
    a mod 4096 <> 0 \/ n = 0 \/ ~ frame_range (a / 4096) n ⊆ F ->
    mm_spec lo hi (AllocPhys a n) F 0 F
| spec_free_phys F a n :
    a mod 4096 = 0 -> mm_spec lo hi (FreePhys a n) F 0 (F ∪ frame_range (a / 4096) n)
| spec_free_phys_bad F a n :
    a mod 4096 <> 0 \/ n = 0 -> mm_spec lo hi (FreePhys a n) F 0 F.

(** Requests the interface allows: the range lies below 4 GB. *)
Definition mm_op_ok (op : mm_op) : Prop :=
  match op with
  | AllocPage => True
  | FreePage a => is_u32 a
  | AllocRange n => 0 <= n <= NUM_FRAMES
  | FreeRange a n | AllocPhys a n | FreePhys a n =>
      is_u32 a /\ 0 <= n /\ a / 4096 + n <= NUM_FRAMES
  end.

(** The state invariant: 32-bit words, and a window above the DMA area. *)
Record mm_inv (st : mm_state) : Prop := {
  inv_wf : mm_wf (mmap st);
  inv_window : window dma_end (mem_end st);
}.

(** Operations on frame sets mirror the bitmap updates. *)
Lemma frames_mark_used a m : frames (mark_used a m) = frames m ∖ {[a / 4096]}.
Proof.
  apply set_eq. intros q.
  rewrite elem_of_difference, !elem_of_frames, page_free_mark_used, elem_of_singleton.
  rewrite andb_true_iff, negb_true_iff, Z.eqb_neq. intuition congruence.
Qed.

Lemma frames_mark_free a m : is_u32 a -> frames (mark_free a m) = frames m ∪ {[a / 4096]}.
Proof.
  intros Ha. apply set_eq. intros q.
  rewrite elem_of_union, !elem_of_frames, page_free_mark_free, elem_of_singleton.
  rewrite orb_true_iff, Z.eqb_eq. unfold is_u32, NUM_FRAMES in *.
  split; [intuition congruence|]. intros [?| ->]; [intuition|]. split; [dlia | by right].
Qed.

Lemma frames_mark_range_used a n m :
  0 <= a -> 0 <= n -> a / 4096 + n <= NUM_FRAMES ->
  frames (mark_range_used a n m) = frames m ∖ frame_range (a / 4096) n.
Proof.
  intros. apply set_eq. intros q.
  rewrite elem_of_difference, !elem_of_frames, elem_of_frame_range,
    page_free_mark_range_used by done.
  rewrite andb_true_iff, negb_true_iff, andb_false_iff, Z.leb_gt, Z.ltb_ge. intuition lia.
Qed.

Lemma frames_mark_range_free a n m :
  0 <= a -> 0 <= n -> a / 4096 + n <= NUM_FRAMES ->
  frames (mark_range_free a n m) = frames m ∪ frame_range (a / 4096) n.
Proof.
  intros. apply set_eq. intros q.
  rewrite elem_of_union, !elem_of_frames, elem_of_frame_range,
    page_free_mark_range_free by done.
  rewrite orb_true_iff, andb_true_iff, Z.leb_le, Z.ltb_lt.
  assert (0 <= a / 4096) by (apply Z.div_pos; lia). intuition lia.
Qed.

#[export] Hint Rewrite frames_mark_used : kos.

Lemma run_free_frames m p n :
  0 <= p -> p + n <= NUM_FRAMES -> run_free (page_free m) p n <-> frame_range p n ⊆ frames m.
Proof.
  intros Hp Hn. unfold run_free. split.
  - intros H q. rewrite elem_of_frame_range, elem_of_frames. intros. split; [lia|]. by apply H.
  - intros H q Hq. apply (elem_of_frame_range p n q) in Hq.
    by apply H, elem_of_frames in Hq as [_ ?].
Qed.

(** ** The page and range searches against the specification *)

Lemma NO_PAGE_not_page p : p * 4096 <> NO_PAGE.
Proof. unfold NO_PAGE. lia. Qed.

Lemma NO_PAGE_page p : (p * 4096 =? NO_PAGE) = false.
Proof. apply Z.eqb_neq, NO_PAGE_not_page. Qed.

(** [find] with an aligned end, for runs of any length. *)
Lemma find_run_spec m num end_ :
  window dma_end end_ -> page_to_pos end_ = 0 -> 0 < num ->
  (exists p, find m num dma_end end_ = p * 4096 /\ dma_end / 4096 <= p /\
     p + num <= end_ / 4096 /\ frame_range p num ⊆ frames m) \/
  (find m num dma_end end_ = NO_PAGE /\
   forall p, dma_end / 4096 <= p -> p + num <= end_ / 4096 -> ~ frame_range p num ⊆ frames m).
Proof.
  intros (Hs & He & Hlt) Hpos Hnum. rewrite !addr_to_idx_eq in Hlt.
  assert (dma_end / 4096 < end_ / 4096) by dlia.
  rewrite find_first_run by (done || dlia).
  assert (end_ / 4096 <= NUM_FRAMES) by (unfold is_u32, NUM_FRAMES in *; dlia).
  assert (0 <= dma_end / 4096) by done.
  set (n := Z.to_nat (end_ / 4096 - dma_end / 4096)).
  destruct (first_run (page_free m) num n (dma_end / 4096) 0) as [s|] eqn:Hf.
  - left. exists s. apply first_run_sound in Hf as (Hr & Hlo & Hhi); [|done|lia|intros q; lia].
    split; [done|]. split; [lia|]. split; [subst n; lia|].
    apply run_free_frames; [lia | subst n; lia | done].
  - right. split; [done|]. intros p Hp1 Hp2 Hsub.
    refine (first_run_complete _ _ n (dma_end / 4096) 0 _ Hf p _ _ _); [lia | lia | subst n; lia |].
    apply run_free_frames; [lia | lia | done].
Qed.

Lemma mm_inv_set_err e st : mm_inv st -> mm_inv (set_err e st).
Proof. intros []. by constructor. Qed.

Lemma mm_inv_set_mmap m st : mm_wf m -> mm_inv st -> mm_inv (set_mmap m st).
Proof. intros ? []. by constructor. Qed.

#[export] Hint Resolve mm_inv_set_err mm_inv_set_mmap inv_wf : kos.

(** Every operation preserves the invariant. *)
Lemma mm_exec_inv op st : mm_inv st -> mm_inv (mm_exec op st).2.
Proof.
  intros Hi. pose proof (inv_wf _ Hi).
  destruct op; simpl;
    unfold mm_alloc_page, mm_free_page, mm_alloc_range, mm_free_range, mm_alloc_phys_range,
      mm_free_phys_range; bool_cases; simplify_eq/=; eauto with kos.
Qed.

(** Every operation keeps the window. *)
Lemma mm_exec_mem_end op st : mem_end (mm_exec op st).2 = mem_end st.
Proof.
  destruct op; simpl;
    unfold mm_alloc_page, mm_free_page, mm_alloc_range, mm_free_range, mm_alloc_phys_range,
      mm_free_phys_range; bool_cases; simplify_eq/=; done.
Qed.

Lemma alloc_page_refines st :
  mm_inv st -> page_to_pos (mem_end st) = 0 ->
  let '(r, st') := mm_alloc_page st in
  mm_spec (dma_end / 4096) (mem_end st / 4096) AllocPage (frames (mmap st)) r (frames (mmap st')).
Proof.
  intros Hi Hpos. unfold mm_alloc_page.
  destruct (find_run_spec (mmap st) 1 _ (inv_window _ Hi) Hpos ltac:(lia))
    as [(p & -> & H1 & H2 & H3)|[-> Hno]].
  - rewrite NO_PAGE_page. simpl. rewrite frames_mark_used, Z.div_mul by lia.
    apply spec_alloc; [lia|]. apply H3, elem_of_frame_range. lia.
  - simpl. apply spec_alloc_fail. intros p Hp Hin. apply (Hno p); [lia | lia |].
    intros q. rewrite elem_of_frame_range. intros. by replace q with p by lia.
Qed.

Lemma alloc_range_refines n st :
  mm_inv st -> page_to_pos (mem_end st) = 0 -> 0 <= n ->
  let '(r, st') := mm_alloc_range n st in
  mm_spec (dma_end / 4096) (mem_end st / 4096) (AllocRange n)
    (frames (mmap st)) r (frames (mmap st')).
Proof.
  intros Hi Hpos Hn. unfold mm_alloc_range. destruct (Z.eqb_spec n 0) as [->|].
  { simpl. apply spec_range_fail. lia. }
  pose proof (inv_window _ Hi) as Hw.
  destruct (find_run_spec (mmap st) n _ Hw Hpos ltac:(lia))
    as [(p & -> & H1 & H2 & H3)|[-> Hno]].
  - rewrite NO_PAGE_page. simpl.
    destruct Hw as (_ & He & _). unfold is_u32 in He.
    assert (0 <= dma_end / 4096) by done.
    assert (p * 4096 / 4096 = p) as Hp by (by apply Z.div_mul).
    rewrite frames_mark_range_used, Hp; [|lia|done|rewrite Hp; unfold NUM_FRAMES; dlia].
    apply spec_range; [lia | done..].
  - simpl. apply spec_range_fail. intros p _. apply Hno.
Qed.

(** One request. *)
Lemma mm_exec_refines op st :
  mm_inv st -> page_to_pos (mem_end st) = 0 -> mm_op_ok op ->
  mm_spec (dma_end / 4096) (mem_end st / 4096) op
    (frames (mmap st)) (mm_exec op st).1 (frames (mmap (mm_exec op st).2)).
Proof.
  intros Hi Hpos Hok. destruct op as [|a|n|a n|a n|a n]; simpl in Hok |- *.
  - pose proof (alloc_page_refines st Hi Hpos). by destruct (mm_alloc_page st).
  - unfold mm_free_page. destruct (Z.eqb_spec a NO_PAGE) as [->|]; [by apply spec_free_bad|].
    destruct (IS_PAGE_ALIGNED a) eqn:Ha; simpl.
    + apply aligned_spec in Ha. rewrite frames_mark_free by done. by apply spec_free.
    + apply aligned_false in Ha. by apply spec_free_bad.
  - pose proof (alloc_range_refines n st Hi Hpos ltac:(lia)). by destruct (mm_alloc_range n st).
  - unfold mm_free_range, is_u32 in *.
    destruct (Z.eqb_spec a NO_PAGE) as [->|]; [by apply spec_free_range_bad; left|].
    destruct (IS_PAGE_ALIGNED a) eqn:Ha; [apply aligned_spec in Ha | apply aligned_false in Ha]; simpl.
    + destruct (Z.eqb_spec n 0); simpl; [apply spec_free_range_bad; by right|].
      rewrite frames_mark_range_free by lia. by apply spec_free_range.
    + apply spec_free_range_bad. by left.
  - unfold mm_alloc_phys_range, is_u32, NUM_FRAMES in *.
    destruct (IS_PAGE_ALIGNED a) eqn:Ha; [apply aligned_spec in Ha | apply aligned_false in Ha];
      simpl; [|apply spec_phys_fail; by left].
    destruct (Z.eqb_spec n 0); simpl; [apply spec_phys_fail; right; by left|].
    assert (0 <= a / 4096) by (apply Z.div_pos; lia).
    destruct (is_range_free a n (mmap st)) eqn:Hf; simpl.
    + rewrite frames_mark_range_used by (unfold NUM_FRAMES; lia). apply spec_phys; [done | lia |].
      apply run_free_frames; [lia | unfold NUM_FRAMES; lia |]. apply is_range_free_spec; [lia..|done].
    + apply spec_phys_fail. right; right. intros Hsub.
      apply run_free_frames, is_range_free_spec in Hsub; [congruence | unfold NUM_FRAMES; lia..].
  - unfold mm_free_phys_range, is_u32 in *.
    destruct (IS_PAGE_ALIGNED a) eqn:Ha; [apply aligned_spec in Ha | apply aligned_false in Ha]; simpl.
    + destruct (Z.eqb_spec n 0); simpl; [apply spec_free_phys_bad; by right|].
      rewrite frames_mark_range_free by lia. by apply spec_free_phys.
    + apply spec_free_phys_bad. by left.
Qed.

(** Sequences of requests, on both sides. *)
Fixpoint mm_run (ops : list mm_op) (st : mm_state) : list Z * mm_state :=
  match ops with
  | [] => ([], st)
  | op :: ops =>
      let '(r, st) := mm_exec op st in
      let '(rs, st) := mm_run ops st in (r :: rs, st)
  end.

Inductive mm_spec_run (lo hi : Z) : list mm_op -> gset Z -> list Z -> gset Z -> Prop :=
| spec_run_nil F : mm_spec_run lo hi [] F [] F
| spec_run_cons op ops F r F1 rs F2 :
    mm_spec lo hi op F r F1 -> mm_spec_run lo hi ops F1 rs F2 ->
    mm_spec_run lo hi (op :: ops) F (r :: rs) F2.


(** A machine with 2 MB, the frames from 1 MB to 1 MB + 64 kB free. *)
Definition demo_mm (end_ : Z) : mm_state := MkMm (mark_range_free 0x100000 16 ∅) 0x10000 end_ 0.

Lemma demo_mm_inv end_ : is_u32 end_ -> 0xA0000 <= end_ -> mm_inv (demo_mm end_).
Proof.
  intros. constructor; simpl.
  - apply mark_range_free_wf. intros i. unfold mword. by rewrite lookup_empty.
  - split_and!; [done..|]. rewrite !addr_to_idx_eq. change (dma_end / 4096 / 32) with 4. dlia.
Qed.


(** ** Single pages, for any end of memory *)

Lemma alloc_page_sound st :
  mm_inv st ->
  let '(r, st') := mm_alloc_page st in
  (r = NO_PAGE /\ st' = set_err E_NO_MEM st) \/
  (exists p, r = p * 4096 /\ dma_end / 4096 <= p < mem_end st / 4096 /\
     page_free (mmap st) p = true /\ st' = set_mmap (mark_used r (mmap st)) st).
Proof.
  intros Hi. unfold mm_alloc_page.
  destruct (find_one_sound (mmap st) _ _ (inv_window _ Hi)) as [->|(p & -> & Hp & Hf)].
  - by left.
  - rewrite NO_PAGE_page. right. eauto.
Qed.

Lemma put_back (F : gset Z) p : p ∈ F -> F ∖ {[p]} ∪ {[p]} = F.
Proof. intros. apply set_eq. intros q. destruct (decide (q = p)); set_solver. Qed.

(** C2: [mm_alloc_page] hands out a frame that was free, inside the window between the
    DMA area and the end of memory, marks that frame used and no other, and giving the
    frame back with [mm_free_page] restores the set of free frames, whatever the
    alignment of the end of memory; otherwise it answers [NO_PAGE], sets [E_NO_MEM] and
    changes no frame. *)
Theorem mm_alloc_free_page st :
  mm_inv st ->
  let '(r, st') := mm_alloc_page st in
  (r = NO_PAGE /\ mmap st' = mmap st /\ last_error st' = code E_NO_MEM) \/
  (exists p, r = p * 4096 /\ dma_end / 4096 <= p < mem_end st / 4096 /\
     p ∈ frames (mmap st) /\ frames (mmap st') = frames (mmap st) ∖ {[p]} /\
     frames (mmap (mm_free_page r st')) = frames (mmap st)).
Proof.
  intros Hi. pose proof (alloc_page_sound st Hi) as Hs.
  destruct (mm_alloc_page st) as [r st']. destruct Hs as [[-> ->]|(p & -> & Hp & Hf & ->)];
    [by left|]. right. exists p.
  destruct (inv_window _ Hi) as (_ & He & _).
  assert (0 <= dma_end / 4096) by done.
  assert (p ∈ frames (mmap st)) as Hin
    by (apply elem_of_frames; unfold NUM_FRAMES, is_u32 in *; split; [dlia | done]).
  assert (p * 4096 / 4096 = p) as Ediv by (by apply Z.div_mul).
  split_and!; [done | lia | lia | done | simpl; by rewrite frames_mark_used, Ediv |].
  unfold mm_free_page. rewrite NO_PAGE_page.
  replace (IS_PAGE_ALIGNED (p * 4096)) with true
    by (symmetry; apply aligned_spec; by apply Z.mod_mul).
  simpl. rewrite frames_mark_free, frames_mark_used, Ediv by (unfold is_u32 in *; dlia).
  by rewrite put_back.
Qed.

Lemma mm_alloc_free_page_witness :
  (mm_alloc_page (demo_mm 0x105000)).1 = 0x100000 /\
  let '(r, st') := mm_alloc_page (demo_mm 0x105000) in
  (r = NO_PAGE /\ mmap st' = mmap (demo_mm 0x105000) /\ last_error st' = code E_NO_MEM) \/
  (exists p, r = p * 4096 /\ dma_end / 4096 <= p < mem_end (demo_mm 0x105000) / 4096 /\
     p ∈ frames (mmap (demo_mm 0x105000)) /\
     frames (mmap st') = frames (mmap (demo_mm 0x105000)) ∖ {[p]} /\
     frames (mmap (mm_free_page r st')) = frames (mmap (demo_mm 0x105000))).
Proof.
  split; [vm_compute; reflexivity|].
  apply (mm_alloc_free_page (demo_mm 0x105000)). apply demo_mm_inv; [done | lia].
Defined.

(** ** The bitmap manager as a source of frames *)

#[export] Instance mm_frame_source : FrameSource mm_state := {
  fs_alloc := mm_alloc_page;
  fs_free := mm_free_page;
  fs_inv := mm_inv;
  fs_avail st p := page_free (mmap st) p = true;
}.

Lemma mm_free_page_frame p st :
  mm_free_page (p * 4096) st = set_mmap (mark_free (p * 4096) (mmap st)) st.
Proof.
  unfold mm_free_page. rewrite NO_PAGE_page.
  by replace (IS_PAGE_ALIGNED (p * 4096)) with true
    by (symmetry; apply aligned_spec; by apply Z.mod_mul).
Qed.

#[export] Instance mm_frame_source_laws : FrameSourceLaws mm_state.
Proof.
  split; simpl.
  - intros st Hi. pose proof (alloc_page_sound st Hi) as Hs.
    destruct (mm_alloc_page st) as [r st']. destruct Hi as [Hw Hwin].
    destruct Hs as [[-> ->]|(p & -> & Hp & Hf & ->)]; constructor; simpl; try done.
    by apply mark_used_wf.
  - intros st Hi. pose proof (alloc_page_sound st Hi) as Hs.
    destruct (mm_alloc_page st) as [r st']. destruct (inv_window _ Hi) as (_ & He & _).
    destruct Hs as [[-> ->]|(p & -> & Hp & Hf & ->)]; [by left|]. right. exists p.
    assert (0 < dma_end / 4096) by done. simpl.
    split_and!; [done | lia | unfold is_u32 in *; dlia | done |].
    intros q. rewrite page_free_mark_used, Z.div_mul by done.
    rewrite andb_true_iff, negb_true_iff, Z.eqb_neq. intuition congruence.
  - intros st p [Hw Hwin] Hp. rewrite mm_free_page_frame. split.
    + constructor; simpl; [by apply mark_free_wf | done].
    + intros q. simpl. rewrite page_free_mark_free, Z.div_mul by done.
      rewrite orb_true_iff, Z.eqb_eq. intuition congruence.
Qed.

(** ** The skipped word

    [find] decrements [end_index] when the end is not aligned to a bitmap word, so the
    last whole word is never looked at, but a run is still carried across it. *)

(** Frames 191 and 224 are free, the 32 frames between them are not; memory ends at
    frame 232. *)
Definition split_mm : mm_state :=
  MkMm (mark_free (224 * 4096) (mark_free (191 * 4096) ∅)) 0x2000 (232 * 4096) 0.


(** ** DMA ranges

    [DMA_RANGE_LENGTH] is 64 kB counted in bytes, but [mm_alloc_dma] passes it as a
    number of pages: each candidate is a range of 256 MB. *)

(** C5: as long as one frame between the last DMA address and 256 MB after the first
    one is in use (the kernel itself, at 1 MB, is), [mm_alloc_dma] fails. *)
Theorem mm_alloc_dma_fails st p :
  128 <= p < 16 + 65536 -> page_free (mmap st) p = false ->
  mm_alloc_dma st = (NO_PAGE, set_err E_NO_MEM st).
Proof.
  intros Hp Hf. unfold mm_alloc_dma.
  assert (forall a, 0x10000 <= a <= 0x80000 ->
    is_range_free a DMA_RANGE_LENGTH (mmap st) = false) as Hno.
  { intros a Ha. apply not_true_is_false. intros Ht.
    unfold DMA_RANGE_LENGTH in Ht. apply is_range_free_spec in Ht; [|dlia..].
    rewrite Ht in Hf by dlia. done. }
  unfold dma_addrs. simpl. rewrite !Hno by lia. done.
Qed.

Lemma mm_alloc_dma_fails_witness :
  page_free (mmap (demo_mm 0x200000)) 255 = false /\
  mm_alloc_dma (demo_mm 0x200000) = (NO_PAGE, set_err E_NO_MEM (demo_mm 0x200000)).
Proof.
  split; [vm_compute; reflexivity|].
  apply (mm_alloc_dma_fails _ 255); [lia | vm_compute; reflexivity].
Defined.

(** ** Initialisation *)

(** The frames of usable block [i], as the loop of [init_mm] marks them. *)
Definition block_frame (bi : boot_info) (i p : Z) : Prop :=
  match get_avail_block bi i with
  | USABLE_BLOCK start len =>
      let off := if IS_PAGE_ALIGNED start then 0 else PAGE_ALIGN_ROUND_UP start - start in
      exists k, 0 <= k < NUM_PAGES (u32 (len - off)) /\
                p = u32 (u32 (start + off) + k * 4096) / 4096
  | _ => False
  end.

Lemma mark_range_free_inv a n m q :
  page_free (mark_range_free a n m) q = true ->
  page_free m q = true \/ exists k, 0 <= k < n /\ q = u32 (a + k * 4096) / 4096.
Proof.
  unfold mark_range_free. destruct (Z.le_gt_cases 0 n) as [Hn|]; [|rewrite for_each_0 by lia; by left].
  apply (for_each_inv _ (fun i m' => page_free m' q = true -> page_free m q = true \/
    exists k, 0 <= k < i /\ q = u32 (a + k * 4096) / 4096)); [done | by left |].
  intros i m' Hi IH. rewrite page_free_mark_free, orb_true_iff, Z.eqb_eq.
  intros [H|<-].
  - destruct (IH H) as [?|(k & ? & ?)]; [by left|]. right. exists k. split; [lia | done].
  - right. exists i. by split; [lia|].
Qed.

Lemma mark_range_used_mono a n m q :
  page_free (mark_range_used a n m) q = true -> page_free m q = true.
Proof.
  unfold mark_range_used. destruct (Z.le_gt_cases 0 n) as [Hn|]; [|by rewrite for_each_0 by lia].
  apply (for_each_inv _ (fun _ m' => page_free m' q = true -> page_free m q = true)); [done..|].
  intros i m' Hi IH. rewrite page_free_mark_used, andb_true_iff. naive_solver.
Qed.

Lemma block_aligned_start a n :
  is_u32 a -> is_u32 n ->
  add_block a n = fun st =>
    let off := if IS_PAGE_ALIGNED a then 0 else PAGE_ALIGN_ROUND_UP a - a in
    let st' := add_block a n st in
    MkMm (mark_range_free (u32 (a + off)) (NUM_PAGES (u32 (n - off))) (mmap st))
         (total_mem st') (mem_end st') (last_error st).
Proof.
  intros Ha Hn. unfold add_block.
  assert (is_u32 (PAGE_ALIGN_ROUND_UP a)) as Hr.
  { unfold PAGE_ALIGN_ROUND_UP. rewrite PAGE_MASK_eq, land_page_mask by apply u32_bound.
    pose proof (u32_bound (a + u32 (Z.lnot (2 ^ 32 - 4096)))). unfold is_u32 in *. dlia. }
  destruct (IS_PAGE_ALIGNED a); simpl.
  - rewrite Z.add_0_r, Z.sub_0_r, !(u32_small a), !(u32_small n) by done. done.
  - replace (a + (PAGE_ALIGN_ROUND_UP a - a)) with (PAGE_ALIGN_ROUND_UP a) by lia.
    by rewrite (u32_small (PAGE_ALIGN_ROUND_UP a)) by done.
Qed.

(** The block loop terminates within its bound and frees only frames of blocks. *)
Lemma init_blocks_spec bi fuel i st :
  0 <= i <= mmap_length bi + 1 -> mmap_length bi + 1 - i < Z.of_nat fuel -> mm_wf (mmap st) ->
  exists st', init_blocks bi fuel i st = Some st' /\ mm_wf (mmap st') /\
    forall p, page_free (mmap st') p = true ->
      page_free (mmap st) p = true \/ exists j, i <= j <= mmap_length bi /\ block_frame bi j p.
Proof.
  revert i st. induction fuel as [|fuel IH]; intros i st Hi Hf Hwf; [lia|].
  cbn [init_blocks]. pose proof (eq_refl (get_avail_block bi i)) as Hb.
  unfold get_avail_block in Hb at 2. destruct (mmap_length bi <? i) eqn:Hend; to_prop.
  { rewrite Hb. exists st. split_and!; [done..|]. by left. }
  assert (forall st1, mm_wf (mmap st1) ->
    (forall p, page_free (mmap st1) p = true -> page_free (mmap st) p = true \/ block_frame bi i p) ->
    exists st', init_blocks bi fuel (i + 1) st1 = Some st' /\ mm_wf (mmap st') /\
    forall p, page_free (mmap st') p = true ->
      page_free (mmap st) p = true \/ exists j, i <= j <= mmap_length bi /\ block_frame bi j p) as Hstep.
  { intros st1 Hwf1 H1. destruct (IH (i + 1) st1) as (st' & H2 & H3 & H4); [lia | lia | done |].
    exists st'. split_and!; [done..|]. intros p Hp.
    destruct (H4 p Hp) as [Hp1|(j & ? & ?)]; [|right; exists j; split; [lia | done]].
    destruct (H1 p Hp1); [by left|]. right. exists i. split; [lia | done]. }
  destruct (negb (mb_type (mmap_at bi i) =? 1)); rewrite Hb; apply Hstep; [done | by left | |].
  all: rewrite block_aligned_start by apply u32_bound; simpl.
  - by apply mark_range_free_wf.
  - intros p Hp. apply mark_range_free_inv in Hp as [?|(k & ? & ->)]; [by left|].
    right. unfold block_frame. rewrite Hb. eauto.
Qed.

Lemma mark_module_used bi m q : page_free (mark_module bi m) q = true -> page_free m q = true.
Proof.
  unfold mark_module. intros H. destruct (truth _); repeat apply mark_range_used_mono in H; done.
Qed.

Lemma mark_module_wf bi m : mm_wf m -> mm_wf (mark_module bi m).
Proof. intros. unfold mark_module. destruct (truth _); eauto with kos. Qed.

Lemma for_each_used (f : Z -> gmap Z Z -> gmap Z Z) n m q :
  (forall i m, page_free (f i m) q = true -> page_free m q = true) ->
  page_free (for_each n f m) q = true -> page_free m q = true.
Proof.
  intros Hf. destruct (Z.le_gt_cases 0 n) as [Hn|]; [|by rewrite for_each_0 by lia].
  apply (for_each_inv f (fun _ m' => page_free m' q = true -> page_free m q = true)); [done..|].
  eauto.
Qed.

(** Reserving the boot data only removes frames: the NULL frame and the kernel's. *)
Lemma reserve_boot_spec bi m q :
  0 <= kernel_phys_start bi <= kernel_phys_end bi -> kernel_phys_end bi + 4096 <= 2 ^ 32 ->
  page_free (reserve_boot bi m) q = true ->
  page_free m q = true /\ q <> 0 /\
  ~ (kernel_phys_start bi / 4096 <= q < kernel_phys_start bi / 4096 +
       (kernel_phys_end bi - kernel_phys_start bi + 4095) / 4096).
Proof.
  intros Hk1 Hk2. unfold reserve_boot.
  rewrite page_free_mark_used, andb_true_iff, negb_true_iff, Z.eqb_neq.
  change (0 / 4096) with 0. intros [Hq Hq0].
  apply for_each_used in Hq; [|intros; by eapply mark_range_used_mono].
  apply mark_range_used_mono in Hq.
  apply for_each_used in Hq; [|intros; by eapply mark_module_used].
  rewrite u32_small, NUM_PAGES_eq in Hq by (unfold is_u32; lia).
  rewrite page_free_mark_range_used in Hq by dlia.
  rewrite andb_true_iff, negb_true_iff, andb_false_iff, Z.leb_gt, Z.ltb_ge in Hq.
  split_and!; [tauto | lia | lia].
Qed.

Lemma reserve_boot_wf bi m : mm_wf m -> mm_wf (reserve_boot bi m).
Proof.
  intros. unfold reserve_boot. apply mark_used_wf.
  apply for_each_wf; [|eauto with kos]. apply mark_range_used_wf.
  apply for_each_wf; [eauto with kos|]. intros. by apply mark_module_wf.
Qed.


(** A loader that reports 64 kB at 1 MB and one module. *)
Definition demo_boot (mods : Z) : boot_info := {|
  mb_flags := 0x40;
  mmap_at := fun i => if i =? 0 then MkMbMmap 0x100000 0x10000 1 else MkMbMmap 0 0 0;
  mmap_length := 24;
  mods_addr := 0x9000; mods_count := mods;
  mod_at := fun i => if i =? 0 then MkMbMod 0x104000 0x105000 0 else MkMbMod 0x106000 0x107000 0;
  strlen_at := fun _ => 0;
  elf_sec_addr := 0x8000; elf_sec_size := 40; elf_sec_num := 0; shdr_at := fun _ => (0, 0);
  kernel_phys_start := 0x100000; kernel_phys_end := 0x102000 |}.


(** the module loop of [init_mm] never advances its pointer: with two modules loaded
    the frame of the second one is left free for allocation. *)
Theorem init_mm_second_module_unprotected :
  exists st, init_mm (demo_boot 2) 0 = Ok st /\
    mod_start (mod_at (demo_boot 2) 1) = 0x106000 /\ page_free (mmap st) 0x106 = true.
Proof. apply Ok_run. vm_compute. split; reflexivity. Qed.
