(* ===== verification/VirtMem.v ===== *)
(** * Virtual memory

    kernel/mm/virt.c with [get_ptab_entry] of kernel/mm/intern.h.  Physical memory is
    a map of words; a page directory or page table is designated by the physical
    address of its frame (the kernel reaches a table through the working-table slot
    at [MAP_TABLE_VADDR], which is modelled: [map_working_table] writes the slot and
    answers the frame the slot then maps).  The frame allocator is any [FrameSource]. *)

From S2P Require Import Prelude Page PhysMem.

Definition MAP_TABLE_VADDR : Z := 0x3FFFF000.

(** The globals of virt.c with the frame allocator and the physical memory; a word
    that was never written reads 0. *)
Record vm (S : Type) := MkVm {
  phys : S;
  mem : gmap Z Z;
  paging_enabled : bool;
  kernel_pdir : Z;
  working_table_map : Z;
  kpdir_rev : Z;
}.
Arguments MkVm {S}.
Arguments phys {S}.
Arguments mem {S}.
Arguments paging_enabled {S}.
Arguments kernel_pdir {S}.
Arguments working_table_map {S}.
Arguments kpdir_rev {S}.

Definition word (m : gmap Z Z) (a : Z) : Z := default 0 (m !! a).

(** The address of element [i] of the table of words at [tab]. *)
Definition cell (tab i : Z) : Z := tab + 4 * i.

Section virt.
Context {S : Type} `{FrameSource S}.

Definition set_phys (p : S) (s : vm S) : vm S :=
  MkVm p (mem s) (paging_enabled s) (kernel_pdir s) (working_table_map s) (kpdir_rev s).
Definition set_mem (m : gmap Z Z) (s : vm S) : vm S :=
  MkVm (phys s) m (paging_enabled s) (kernel_pdir s) (working_table_map s) (kpdir_rev s).
Definition set_rev (r : Z) (s : vm S) : vm S :=
  MkVm (phys s) (mem s) (paging_enabled s) (kernel_pdir s) (working_table_map s) r.

(** [tab[i]] and [tab[i] = v]. *)
Definition rd (tab i : Z) : M (vm S) Z := gets (fun s => word (mem s) (cell tab i)).
Definition wr (tab i v : Z) : M (vm S) unit :=
  modify (fun s => set_mem (<[cell tab i := v]> (mem s)) s).

(** [memset(tab, 0, PAGE_SIZE)] of a table of words. *)
Definition clear_words (tab : Z) (m : gmap Z Z) : gmap Z Z :=
  for_each PTAB_LEN (fun i m => <[cell tab i := 0]> m) m.
Definition clear_page (tab : Z) : M (vm S) unit :=
  modify (fun s => set_mem (clear_words tab (mem s)) s).

Definition alloc_frame : M (vm S) Z := fun s =>
  let '(r, p) := fs_alloc (phys s) in Ok (r, set_phys p s).

(** [map_working_table(tab)]. *)
Definition map_working_table (tab : Z) : M (vm S) Z :=
  s ← get;
  if paging_enabled s then
    wr (working_table_map s) (ptab_index MAP_TABLE_VADDR)
       (Z.lor (Z.lor (Z.lor tab PE_PRESENT) PE_READWRITE) PE_CACHEDISABLE);;
    e ← rd (working_table_map s) (ptab_index MAP_TABLE_VADDR);
    mret (getaddr e)
  else mret tab.

(** [get_ptab_entry(pdir, vaddr)]. *)
Definition get_ptab_entry (pdir vaddr : Z) : M (vm S) Z :=
  let pdidx := pdir_index vaddr in
  pde ← rd pdir pdidx;
  if bnotset pde PE_PRESENT then mret 0
  else
    tab ← map_working_table (getaddr pde);
    e ← rd tab (ptab_index vaddr);
    mret (if truth (Z.land e PE_PRESENT) then e else 0).

(** [kpdir_rev++] with its overflow check, when the kernel directory changed. *)
Definition bump_rev (pdir : Z) : M (vm S) unit :=
  s ← get;
  if pdir =? kernel_pdir s then
    modify (set_rev (u32 (kpdir_rev s + 1)));;
    if u32 (kpdir_rev s + 1) <? kpdir_rev s then panic else mret tt
  else mret tt.

(** The part of [do_map] that finds or creates the page table. *)
Definition do_map_table (pdir vaddr flags : Z) : M (vm S) Z :=
  pde ← rd pdir (pdir_index vaddr);
  if bnotset pde PE_PRESENT then
    ptab ← alloc_frame;
    if ptab =? NO_PAGE then panic
    else
      wr pdir (pdir_index vaddr) (Z.lor ptab flags);;
      ptab ← map_working_table ptab;
      clear_page ptab;;
      mret ptab
  else map_working_table (getaddr pde).

(** [do_map(pdir, paddr, vaddr, flags, force)]. *)
Definition do_map (pdir paddr vaddr flags : Z) (force : bool) : M (vm S) unit :=
  kassert (IS_PAGE_ALIGNED vaddr);;
  kassert (IS_PAGE_ALIGNED paddr);;
  ptab ← do_map_table pdir vaddr flags;
  e ← rd ptab (ptab_index vaddr);
  if negb force && bisset e PE_PRESENT && bisset flags PE_PRESENT then
    let pte := Z.land e (u32 (Z.lnot (Z.lor PE_ACCESSED PT_DIRTY))) in
    if negb (pte =? Z.lor paddr flags) then panic else mret tt
  else
    wr ptab (ptab_index vaddr) (Z.lor paddr flags);;
    bump_rev pdir.

Definition vm_map_page (pdir paddr vaddr flags : Z) : M (vm S) unit :=
  do_map pdir paddr vaddr flags false.

Definition vm_force_map (pdir paddr vaddr flags : Z) : M (vm S) unit :=
  do_map pdir paddr vaddr flags true.

Definition vm_unmap_page (pdir vaddr : Z) : M (vm S) unit :=
  kassert (IS_PAGE_ALIGNED vaddr);;
  vm_map_page pdir 0 vaddr 0.

Definition vm_map_range (pdir pstart vstart flags num : Z) : M (vm S) unit :=
  kassert (IS_PAGE_ALIGNED pstart);;
  kassert (IS_PAGE_ALIGNED vstart);;
  mfor num (fun i =>
    vm_map_page pdir (u32 (pstart + i * PAGE_SIZE)) (u32 (vstart + i * PAGE_SIZE)) flags).

(** The physical addresses advance with the virtual ones although the entries are
    cleared: [NULL + i * PAGE_SIZE]. *)
Definition vm_unmap_range (pdir vstart num : Z) : M (vm S) unit :=
  kassert (IS_PAGE_ALIGNED vstart);;
  vm_map_range pdir 0 vstart 0 num.

(** The inner loop of [vm_find_addr]: the first entry of a table that is not present. *)
Fixpoint find_entry (m : gmap Z Z) (tab : Z) (n : nat) (pti : Z) : option Z :=
  match n with
  | O => None
  | Datatypes.S n =>
      if bnotset (word m (cell tab pti)) PE_PRESENT then Some pti
      else find_entry m tab n (pti + 1)
  end.

Fixpoint vm_find_addr_from (n : nat) (pdir pdi : Z) : M (vm S) Z :=
  match n with
  | O => mret 0
  | Datatypes.S n =>
      pde ← rd pdir pdi;
      if bnotset pde PE_PRESENT then mret (create_addr pdi (safe_pti pdi) 0)
      else
        tab ← map_working_table (getaddr pde);
        s ← get;
        match find_entry (mem s) tab (Z.to_nat (PTAB_LEN - safe_pti pdi)) (safe_pti pdi) with
        | Some pti => mret (create_addr pdi pti 0)
        | None => vm_find_addr_from n pdir (pdi + 1)
        end
  end.
Definition vm_find_addr (pdir : Z) : M (vm S) Z :=
  vm_find_addr_from (Z.to_nat PDIR_LEN) pdir 0.

(** The inner loop of [vm_find_range]: the counters [count] and [ptstart]. *)
Fixpoint range_entries (m : gmap Z Z) (tab num : Z) (n : nat) (pti count ptstart : Z) : Z * Z :=
  match n with
  | O => (count, ptstart)
  | Datatypes.S n =>
      if bnotset (word m (cell tab pti)) PE_PRESENT then
        let ptstart := if count =? 0 then pti else ptstart in
        let count := count + 1 in
        if num <=? count then (count, ptstart)
        else range_entries m tab num n (pti + 1) count ptstart
      else range_entries m tab num n (pti + 1) 0 ptstart
  end.

Fixpoint vm_find_range_from (n : nat) (pdir num pdi count pdstart ptstart : Z) : M (vm S) Z :=
  match n with
  | O => mret 0
  | Datatypes.S n =>
      let pdstart := if count =? 0 then pdi else pdstart in
      pde ← rd pdir pdi;
      cp ← (if bisset pde PE_PRESENT then
              tab ← map_working_table (getaddr pde);
              s ← get;
              mret (range_entries (mem s) tab num (Z.to_nat (PTAB_LEN - safe_pti pdi))
                      (safe_pti pdi) count ptstart)
            else
              mret (count + (PTAB_LEN - safe_pti pdi),
                    if count =? 0 then safe_pti pdi else ptstart));
      let '(count, ptstart) := cp in
      if num <=? count then mret (create_addr pdstart ptstart 0)
      else vm_find_range_from n pdir num (pdi + 1) count pdstart ptstart
  end.
Definition vm_find_range (pdir num : Z) : M (vm S) Z :=
  vm_find_range_from (Z.to_nat PDIR_LEN) pdir num 0 0 0 0.

Definition vm_alloc_addr (pdir pstart flags size : Z) : M (vm S) Z :=
  let aligned_pstart := align_addr pstart in
  let aligned_size := align_size pstart size in
  vstart ← vm_find_range pdir (NUM_PAGES aligned_size);
  if vstart =? 0 then panic
  else
    vm_map_range pdir aligned_pstart vstart flags (NUM_PAGES aligned_size);;
    mret (u32 (vstart + PAGE_OFFSET pstart)).

Definition vm_free_addr (pdir vstart size : Z) : M (vm S) unit :=
  let aligned_vstart := align_addr vstart in
  let aligned_size := align_size vstart size in
  vm_unmap_range pdir aligned_vstart (NUM_PAGES aligned_size).

Definition vm_identity_map (pdir pstart flags size : Z) : M (vm S) unit :=
  let aligned_pstart := align_addr pstart in
  let aligned_size := align_size pstart size in
  vm_map_range pdir aligned_pstart aligned_pstart flags (NUM_PAGES aligned_size).

Definition vm_resolve_virt (pdir vaddr : Z) : M (vm S) Z :=
  pte ← get_ptab_entry pdir vaddr;
  mret (if bnotset pte PE_PRESENT then 0 else u32 (getaddr pte + PAGE_OFFSET vaddr)).

(** [vm_is_mapped(pdir, vaddr, size, flags)]; [None]: the loop is still running. *)
Fixpoint is_mapped_from (n : nat) (pdir cur stop flags : Z) : M (vm S) (option bool) :=
  match n with
  | O => mret None
  | Datatypes.S n =>
      if cur <? stop then
        pte ← get_ptab_entry pdir cur;
        if (pte =? 0) || bnotset pte flags then mret (Some false)
        else is_mapped_from n pdir (u32 (cur + PAGE_SIZE)) stop flags
      else mret (Some true)
  end.
Definition vm_is_mapped (fuel : nat) (pdir vaddr size flags : Z) : M (vm S) (option bool) :=
  if u32 (vaddr + size) <? vaddr then mret (Some false)
  else is_mapped_from fuel pdir vaddr (u32 (vaddr + size)) flags.

(** The heap of a process ([brk_page], [mem_brk] and [as->pdir] of [struct proc]). *)
Record proc_heap := MkHeap { as_pdir : Z; brk_page : Z; mem_brk : Z }.

Definition set_brk_page (b : Z) (h : proc_heap) : proc_heap :=
  MkHeap (as_pdir h) b (mem_brk h).
Definition set_mem_brk (b : Z) (h : proc_heap) : proc_heap :=
  MkHeap (as_pdir h) (brk_page h) b.

Fixpoint increase_heap_from (n : nat) (h : proc_heap) : M (vm S) (bool * proc_heap) :=
  match n with
  | O => mret (true, h)
  | Datatypes.S n =>
      page ← alloc_frame;
      if page =? NO_PAGE then mret (false, h)
      else
        vm_map_page (as_pdir h) page (brk_page h)
          (Z.lor (Z.lor PE_PRESENT PE_READWRITE) PE_USERMODE);;
        increase_heap_from n (set_brk_page (u32 (brk_page h + PAGE_SIZE)) h)
  end.
Definition increase_heap (h : proc_heap) (pages : Z) : M (vm S) (bool * proc_heap) :=
  kassert (IS_PAGE_ALIGNED (brk_page h));;
  increase_heap_from (Z.to_nat pages) h.

(** [sys_sbrk(incr)] for [incr] an [int32_t]; the answer and the new heap. *)
Definition sys_sbrk (incr : Z) (h : proc_heap) : M (vm S) (Z * proc_heap) :=
  let old_brk := mem_brk h in
  if incr =? 0 then mret (i32 old_brk, h)
  else if incr <? 0 then mret (i32 old_brk, h)
  else
    let rest := u32 (brk_page h - mem_brk h) in
    if rest <? incr then
      r ← increase_heap h (NUM_PAGES incr);
      let '(ok, h) := (r : bool * proc_heap) in
      if ok then mret (i32 old_brk, set_mem_brk (u32 (mem_brk h + incr)) h)
      else mret (-1, h)
    else mret (i32 old_brk, set_mem_brk (u32 (mem_brk h + incr)) h).

Definition set_kernel_pdir (p : Z) (s : vm S) : vm S :=
  MkVm (phys s) (mem s) (paging_enabled s) p (working_table_map s) (kpdir_rev s).
Definition set_working_table_map (p : Z) (s : vm S) : vm S :=
  MkVm (phys s) (mem s) (paging_enabled s) (kernel_pdir s) p (kpdir_rev s).
Definition set_paging (b : bool) (s : vm S) : vm S :=
  MkVm (phys s) (mem s) b (kernel_pdir s) (working_table_map s) (kpdir_rev s).

(** kernel/include/tty.h and kernel/include/arch/i386/bios.h: the two fixed regions
    [init_paging] maps, and [sizeof(struct bios_data_area)]. *)
Definition CON_MEM_START : Z := 0xB8000.
Definition CON_MEM_SIZE : Z := 0xC0000 - CON_MEM_START.
Definition BIOS_DATA_ADDR : Z := 0x0400.

(** The members of [struct bios_data_area] with their sizes.  The outer structure is
    packed, the four inner ones are not: [video_info] and [video_info2] have padding
    bytes before a [word] at an odd offset. *)
Definition bios_data_area : list (string * Z) :=
  [("com_io", 8); ("lp_io", 8); ("equipment", 2); ("post_status", 1); ("base_mem", 2);
   ("reserved1", 1); ("reserved2", 1); ("keyb_flags", 2); ("numpad_data", 1);
   ("keyb_buf_next", 2); ("keyb_buf_last", 2); ("keyb_buffer", 32);
   ("floppy_info", 1 + 1 + 1 + 1 + 7);
   ("video_info", (1 + 1) + 2 + 2 + 2 + 16 + 2 + (1 + 1) + 2 + 1 + 1);
   ("rm_reentry", 4); ("last_unexp_intr", 1); ("ticks_since_midnight", 4);
   ("timer_overflow", 1); ("keyb_ctrl_brk", 1); ("reset_flag", 2); ("disk_op_status", 1);
   ("disk_num_drives", 1); ("disk_ctrl", 1); ("disk_io_port", 1); ("lp_timeout", 4);
   ("com_timeout", 4); ("keyb_buf_start", 2); ("keyb_buf_end", 2);
   ("video_info2", (1 + 1) + 2 + 1 + 1 + 1 + 1);
   ("floppy_info2", 1 + 1 + 1 + 1 + 1 + 2 + 2 + 2); ("keyb_status", 2);
   ("user_flag_ptr", 4); ("user_wait_cnt", 4); ("wait_flag", 1); ("network_reserved", 7);
   ("video_mode_table", 4); ("user_reserved", 68); ("app_com_area", 16)]%string.
Definition sizeof_bios_data_area : Z := foldr Z.add 0 (map snd bios_data_area).

(** [init_paging()] for the kernel image between the two linker symbols; loading CR3
    and CR0 is [set_paging]. *)
Definition init_paging (kernel_phys_start kernel_phys_end : Z) : M (vm S) unit :=
  modify (set_paging false);;
  pd ← alloc_frame;
  modify (set_kernel_pdir pd);;
  (if pd =? NO_PAGE then panic else mret tt);;
  clear_page pd;;
  wt ← alloc_frame;
  modify (set_working_table_map wt);;
  (if wt =? NO_PAGE then panic else mret tt);;
  clear_page wt;;
  wr pd (pdir_index MAP_TABLE_VADDR) (Z.lor (Z.lor wt PE_PRESENT) PE_READWRITE);;
  map_working_table 0;;
  modify (set_rev 0);;
  vm_map_range pd kernel_phys_start kernel_phys_start (Z.lor PE_PRESENT PE_READWRITE)
    (NUM_PAGES (u32 (kernel_phys_end - kernel_phys_start)));;
  vm_identity_map pd CON_MEM_START (Z.lor PE_PRESENT PE_READWRITE) CON_MEM_SIZE;;
  vm_identity_map pd BIOS_DATA_ADDR PE_PRESENT sizeof_bios_data_area;;
  vm_map_page pd pd pd (Z.lor PE_PRESENT PE_READWRITE);;
  vm_map_page pd wt wt (Z.lor PE_PRESENT PE_READWRITE);;
  modify (set_rev 0);;
  modify (set_paging true).
End virt.

(** ** Specification: the entry a directory assigns to an address *)

Definition present (e : Z) : bool := Z.testbit e 0.

(** The address of a frame. *)
Definition frame_addr (a : Z) : Prop := is_u32 a /\ a mod 4096 = 0.

(** The page-table entry a directory holds for an address, 0 without a table. *)
Definition pte (m : gmap Z Z) (pdir v : Z) : Z :=
  let pde := word m (cell pdir (pdir_index v)) in
  if present pde then word m (cell (getaddr pde) (ptab_index v)) else 0.

Lemma bnotset_present e : bnotset e PE_PRESENT = negb (present e).
Proof.
  unfold bnotset, present, PE_PRESENT. pose proof (land_one_truth e 0) as Ht.
  change (Z.shiftl 1 0) with 1 in Ht. rewrite <- Ht by done. unfold truth.
  by rewrite negb_involutive.
Qed.

Lemma bisset_present e : bisset e PE_PRESENT = present e.
Proof.
  unfold bisset, present, PE_PRESENT. pose proof (land_one_truth e 0) as Ht.
  change (Z.shiftl 1 0) with 1 in Ht. by rewrite <- Ht.
Qed.

Lemma present_lor a b : present (Z.lor a b) = present a || present b.
Proof. apply Z.lor_spec. Qed.

Lemma present_aligned a : a mod 4096 = 0 -> present a = false.
Proof.
  intros Ha. unfold present. rewrite <- (Z.mod_pow2_bits_low a 12) by lia.
  change (2 ^ 12) with 4096. rewrite Ha. apply Z.bits_0.
Qed.

(** Distinct cells of page-sized tables. *)
Lemma cell_inj f g i j :
  f mod 4096 = 0 -> g mod 4096 = 0 -> 0 <= i < 1024 -> 0 <= j < 1024 ->
  cell f i = cell g j -> f = g /\ i = j.
Proof. unfold cell. intros. dlia. Qed.

Lemma word_insert m a b v : word (<[a := v]> m) b = if a =? b then v else word m b.
Proof.
  unfold word. destruct (Z.eqb_spec a b) as [->|].
  - by rewrite lookup_insert_eq.
  - by rewrite lookup_insert_ne.
Qed.

Lemma word_cell_insert m f i g j v :
  f mod 4096 = 0 -> g mod 4096 = 0 -> 0 <= i < 1024 -> 0 <= j < 1024 ->
  word (<[cell f i := v]> m) (cell g j)
  = if (f =? g) && (i =? j) then v else word m (cell g j).
Proof.
  intros Hf Hg Hi Hj. rewrite word_insert.
  destruct (Z.eqb_spec (cell f i) (cell g j)) as [He|He].
  - apply cell_inj in He as [-> ->]; [|done..]. by rewrite !Z.eqb_refl.
  - destruct (Z.eqb_spec f g) as [->|]; [|done]. destruct (Z.eqb_spec i j) as [->|]; done.
Qed.

Lemma word_clear m f g j :
  f mod 4096 = 0 -> g mod 4096 = 0 -> 0 <= j < 1024 ->
  word (clear_words f m) (cell g j) = if f =? g then 0 else word m (cell g j).
Proof.
  intros Hf Hg Hj. unfold clear_words, PTAB_LEN.
  cut (word (for_each 1024 (fun i m => <[cell f i := 0]> m) m) (cell g j)
       = if (f =? g) && (j <? 1024) then 0 else word m (cell g j)).
  { intros ->. replace (j <? 1024) with true by (symmetry; apply Z.ltb_lt; lia).
    by rewrite andb_true_r. }
  apply (for_each_inv (fun i m => <[cell f i := 0]> m)
    (fun k m' => word m' (cell g j) = if (f =? g) && (j <? k) then 0 else word m (cell g j)));
    [lia | |].
  - replace (j <? 0) with false by (symmetry; apply Z.ltb_ge; lia). by rewrite andb_false_r.
  - intros i m' Hi IH. rewrite word_cell_insert, IH by lia.
    destruct (f =? g); simpl; [|done].
    destruct (Z.eqb_spec i j), (Z.ltb_spec j i), (Z.ltb_spec j (i + 1)); (done || lia).
Qed.

Lemma pdir_index_range v : is_u32 v -> 0 <= pdir_index v < 1024.
Proof. unfold is_u32, pdir_index, addr2page. rewrite PAGE_SIZE_eq. unfold PDIR_LEN. dlia. Qed.

Lemma ptab_index_range v : 0 <= ptab_index v < 1024.
Proof. unfold ptab_index, PTAB_LEN. apply Z.mod_pos_bound. lia. Qed.

Lemma page_indices v w :
  v / 4096 = w / 4096 <-> pdir_index v = pdir_index w /\ ptab_index v = ptab_index w.
Proof.
  unfold pdir_index, ptab_index, addr2page. rewrite PAGE_SIZE_eq.
  unfold PDIR_LEN, PTAB_LEN. dlia.
Qed.

Lemma getaddr_frame e : is_u32 e -> frame_addr (getaddr e).
Proof.
  intros He. rewrite getaddr_eq by done. unfold frame_addr, is_u32 in *. dlia.
Qed.
#[export] Hint Resolve getaddr_frame pdir_index_range ptab_index_range : kos.

(** ** Well-formed page directories *)

Section spec.
Context {S : Type} `{FrameSourceLaws S}.
Implicit Types (s : vm S).

(** The directory and the tables it refers to are frames of their own that the
    allocator has handed out; slot 255 alone may hold the working-table map. *)
Record pdir_wf (pdir : Z) (s : vm S) : Prop := {
  wf_inv : fs_inv (phys s);
  wf_pdir : frame_addr pdir;
  wf_pdir_used : ~ fs_avail (phys s) (pdir / 4096);
  wf_wtm : frame_addr (working_table_map s);
  wf_wtm_used : ~ fs_avail (phys s) (working_table_map s / 4096);
  wf_wtm_pdir : working_table_map s <> pdir;
  wf_tab i : 0 <= i < 1024 -> present (word (mem s) (cell pdir i)) = true ->
    is_u32 (word (mem s) (cell pdir i)) /\
    ~ fs_avail (phys s) (getaddr (word (mem s) (cell pdir i)) / 4096) /\
    getaddr (word (mem s) (cell pdir i)) <> pdir /\
    (i <> 255 ->
       getaddr (word (mem s) (cell pdir i)) <> working_table_map s);
  wf_inj i j : 0 <= i < 1024 -> 0 <= j < 1024 ->
    present (word (mem s) (cell pdir i)) = true ->
    present (word (mem s) (cell pdir j)) = true ->
    getaddr (word (mem s) (cell pdir i)) = getaddr (word (mem s) (cell pdir j)) -> i = j;
}.

(** Only the words of the directory and the allocator matter for well-formedness. *)
Lemma wf_same_pdir pdir s s' :
  phys s' = phys s -> paging_enabled s' = paging_enabled s ->
  working_table_map s' = working_table_map s ->
  (forall i, 0 <= i < 1024 -> word (mem s') (cell pdir i) = word (mem s) (cell pdir i)) ->
  pdir_wf pdir s -> pdir_wf pdir s'.
Proof.
  intros Ep Ee Ew Hw [].
  constructor; rewrite ?Ep, ?Ee, ?Ew; try done.
  - intros i Hi. rewrite Hw by done. auto.
  - intros i j Hi Hj. rewrite !Hw by done. auto.
Qed.

(** Handing out a frame keeps the directory well formed. *)
Lemma wf_alloc pdir s :
  pdir_wf pdir s -> pdir_wf pdir (set_phys (fs_alloc (phys s)).2 s).
Proof.
  intros Hwf. assert (forall q, fs_avail (fs_alloc (phys s)).2 q -> fs_avail (phys s) q) as Hsub.
  { destruct (fs_alloc_spec (phys s) (wf_inv _ _ Hwf)) as [[_ Hq]|(p & _ & _ & _ & Hq)];
      intros q Hin; apply Hq in Hin; tauto. }
  destruct Hwf. constructor; simpl; auto using fs_alloc_inv.
  - intros i Hi Hp. destruct (wf_tab0 i Hi Hp) as (? & ? & ? & ?). split_and!; auto.
Qed.

(** The frame [mm_alloc_page] answers is none of the directory's. *)
Lemma fresh_frame pdir s p :
  pdir_wf pdir s -> fs_avail (phys s) p ->
  p * 4096 <> pdir /\
  p * 4096 <> working_table_map s /\
  (forall i, 0 <= i < 1024 -> present (word (mem s) (cell pdir i)) = true ->
     getaddr (word (mem s) (cell pdir i)) <> p * 4096).
Proof.
  intros Hwf Hp. split_and!.
  - intros He. apply (wf_pdir_used _ _ Hwf). by rewrite <- He, Z.div_mul.
  - intros He. apply (wf_wtm_used _ _ Hwf). by rewrite <- He, Z.div_mul.
  - intros i Hi Hpi He. destruct (wf_tab _ _ Hwf i Hi Hpi) as (_ & Hn & _).
    apply Hn. by rewrite He, Z.div_mul.
Qed.

(** *** The working-table slot *)

(** The state [map_working_table] leaves. *)
Definition working (tab : Z) (s : vm S) : vm S :=
  if paging_enabled s then
    set_mem (<[cell (working_table_map s) 1023 :=
      Z.lor (Z.lor (Z.lor tab PE_PRESENT) PE_READWRITE) PE_CACHEDISABLE]> (mem s)) s
  else s.

Lemma map_working_run tab s :
  frame_addr tab -> map_working_table tab s = Ok (tab, working tab s).
Proof.
  intros [Hu Ha]. unfold map_working_table, working, mbind, M_bind, get.
  destruct (paging_enabled s); [|done].
  unfold wr, modify, rd, gets, mret, M_ret. simpl.
  change (ptab_index MAP_TABLE_VADDR) with 1023.
  rewrite word_insert, Z.eqb_refl, <- !Z.lor_assoc.
  by rewrite getaddr_entry.
Qed.

Lemma working_word tab s g j :
  frame_addr g -> 0 <= j < 1024 ->
  (paging_enabled s = true -> frame_addr (working_table_map s)) ->
  (paging_enabled s = true -> j = 1023 -> g <> working_table_map s) ->
  word (mem (working tab s)) (cell g j) = word (mem s) (cell g j).
Proof.
  intros [_ Hg] Hj Hw Hne. unfold working.
  destruct (paging_enabled s); [|done]. simpl. destruct (Hw eq_refl) as [_ Hwa].
  rewrite word_cell_insert by (done || lia).
  destruct (Z.eqb_spec (working_table_map s) g) as [<-|]; [|done].
  destruct (Z.eqb_spec 1023 j) as [<-|]; [|done]. by destruct (Hne eq_refl eq_refl).
Qed.

Lemma working_fields tab s :
  phys (working tab s) = phys s /\ paging_enabled (working tab s) = paging_enabled s /\
  working_table_map (working tab s) = working_table_map s /\
  kernel_pdir (working tab s) = kernel_pdir s /\ kpdir_rev (working tab s) = kpdir_rev s.
Proof. unfold working. by destruct (paging_enabled s) eqn:E. Qed.

Lemma working_pdir pdir tab s i :
  pdir_wf pdir s -> 0 <= i < 1024 ->
  word (mem (working tab s)) (cell pdir i) = word (mem s) (cell pdir i).
Proof.
  intros Hwf Hi. destruct Hwf. apply working_word; try done.
Qed.

Lemma working_wf pdir tab s : pdir_wf pdir s -> pdir_wf pdir (working tab s).
Proof.
  intros Hwf. destruct (working_fields tab s) as (? & ? & ? & _).
  eapply wf_same_pdir; [done..| |done]. intros. by apply working_pdir.
Qed.

(** An address whose entry the working-table slot does not hold. *)
Definition user_page (v : Z) : Prop := is_u32 v /\ v / 4096 <> MAP_TABLE_VADDR / 4096.

Lemma slot_of_wtm v :
  is_u32 v -> pdir_index v = 255 -> ptab_index v = 1023 -> v / 4096 = MAP_TABLE_VADDR / 4096.
Proof. intros _ H1 H2. by apply page_indices. Qed.

Lemma working_pte pdir tab s v :
  pdir_wf pdir s -> user_page v -> pte (mem (working tab s)) pdir v = pte (mem s) pdir v.
Proof.
  intros Hwf [Hv Hne]. unfold pte. rewrite working_pdir by auto with kos.
  destruct (present _) eqn:Hp; [|done].
  destruct (wf_tab _ _ Hwf _ (pdir_index_range v Hv) Hp) as (He & _ & _ & Hw).
  apply working_word; auto with kos.
  - intros _. apply (wf_wtm _ _ Hwf).
  - intros Hen Hj Heq. apply Hne, slot_of_wtm; [done | | done].
    destruct (Z.eq_dec (pdir_index v) 255); [done|]. by destruct Hw.
Qed.

(** *** Creating a page table *)

Lemma wf_new_table pdir s p i flags :
  pdir_wf pdir s -> fs_inv (phys s) -> 0 < p < 2 ^ 20 -> 0 <= i < 1024 -> 0 <= flags < 4096 ->
  ~ fs_avail (phys s) p -> p * 4096 <> pdir ->
  p * 4096 <> working_table_map s ->
  (forall j, 0 <= j < 1024 -> present (word (mem s) (cell pdir j)) = true ->
     getaddr (word (mem s) (cell pdir j)) <> p * 4096) ->
  pdir_wf pdir (set_mem (<[cell pdir i := Z.lor (p * 4096) flags]> (mem s)) s).
Proof.
  intros Hwf _ Hp Hi Hf Hn Hpd Hwt Hfresh.
  assert (getaddr (Z.lor (p * 4096) flags) = p * 4096) as Hga
    by (apply getaddr_entry; unfold is_u32; dlia).
  assert (is_u32 (Z.lor (p * 4096) flags)) as Hgu
    by (rewrite lor_entry by dlia; unfold is_u32; dlia).
  destruct Hwf, wf_pdir0 as [? ?]. constructor; simpl; try done.
  - intros j Hj. rewrite word_cell_insert, Z.eqb_refl by done. simpl.
    destruct (Z.eqb_spec i j) as [<-|]; [|auto]. intros _. rewrite Hga.
    rewrite Z.div_mul by done. split_and!; auto.
  - intros j k Hj Hk. rewrite !word_cell_insert, Z.eqb_refl by done. simpl.
    destruct (Z.eqb_spec i j) as [<-|], (Z.eqb_spec i k) as [<-|]; auto; rewrite Hga;
      intros ? ? He; [by destruct (Hfresh k) | by destruct (Hfresh j)].
Qed.

(** What [do_map] may rely on after the table was found or created. *)
Record table_ready (pdir v : Z) (s : vm S) (t : Z) (s' : vm S) : Prop := {
  tr_wf : pdir_wf pdir s';
  tr_frame : frame_addr t;
  tr_pdir : t <> pdir;
  tr_paging : paging_enabled s' = paging_enabled s;
  tr_kernel : kernel_pdir s' = kernel_pdir s;
  tr_rev : kpdir_rev s' = kpdir_rev s;
  tr_pte w : user_page w -> pte (mem s') pdir w = pte (mem s) pdir w;
  tr_slot : present (word (mem s') (cell pdir (pdir_index v))) = true ->
    getaddr (word (mem s') (cell pdir (pdir_index v))) = t;
  tr_only j : 0 <= j < 1024 -> present (word (mem s') (cell pdir j)) = true ->
    getaddr (word (mem s') (cell pdir j)) = t -> j = pdir_index v;
}.

Lemma new_table_pte pdir s t i flags s1 w :
  pdir_wf pdir s1 -> frame_addr t -> 0 <= flags < 4096 -> 0 <= i < 1024 -> t <> pdir ->
  present (word (mem s) (cell pdir i)) = false ->
  mem s1 = <[cell pdir i := Z.lor t flags]> (mem s) ->
  (forall j, 0 <= j < 1024 -> present (word (mem s) (cell pdir j)) = true ->
     is_u32 (word (mem s) (cell pdir j)) /\
     getaddr (word (mem s) (cell pdir j)) <> t /\
     getaddr (word (mem s) (cell pdir j)) <> pdir) ->
  user_page w -> pte (clear_words t (mem (working t s1))) pdir w = pte (mem s) pdir w.
Proof.
  intros Hwf [Htu Hta] Hf Hi Hne Habs Hm Hold [Hw Hwne].
  pose proof (wf_pdir _ _ Hwf) as [Hpu Hpa].
  pose proof (pdir_index_range w Hw) as Hpi. pose proof (ptab_index_range w) as Hti.
  assert (forall j, 0 <= j < 1024 -> word (clear_words t (mem (working t s1))) (cell pdir j)
    = if i =? j then Z.lor t flags else word (mem s) (cell pdir j)) as Hdir.
  { intros j Hj. rewrite word_clear by done. rewrite (proj2 (Z.eqb_neq t pdir)) by done.
    rewrite working_pdir, Hm, word_cell_insert, Z.eqb_refl by done. done. }
  unfold pte. rewrite Hdir by done.
  destruct (Z.eqb_spec i (pdir_index w)) as [<-|Hij].
  - rewrite Habs. destruct (present (Z.lor t flags)); [|done].
    rewrite getaddr_entry, word_clear, Z.eqb_refl by done. done.
  - destruct (present (word (mem s) (cell pdir (pdir_index w)))) eqn:Hp; [|done].
    destruct (Hold _ Hpi Hp) as (Hu & Hnt & Hnp).
    destruct (getaddr_frame _ Hu) as [Hgu Hga].
    rewrite word_clear by done. rewrite (proj2 (Z.eqb_neq t _)) by done.
    assert (pte (mem (working t s1)) pdir w = pte (mem s1) pdir w) as Hk by by apply working_pte.
    unfold pte in Hk. rewrite working_pdir, Hm, word_cell_insert, Z.eqb_refl in Hk by done.
    rewrite (proj2 (Z.eqb_neq i _)) in Hk by done. simpl in Hk. rewrite Hp in Hk.
    rewrite Hk, word_cell_insert by done. by rewrite (proj2 (Z.eqb_neq pdir _)).
Qed.

Lemma do_map_table_spec pdir v flags s :
  pdir_wf pdir s -> is_u32 v -> 0 <= flags < 4096 ->
  match do_map_table pdir v flags s with
  | Ok (t, s') => table_ready pdir v s t s' /\
      (present (word (mem s') (cell pdir (pdir_index v)))
       = present flags || present (word (mem s) (cell pdir (pdir_index v))))
  | Panic => present (word (mem s) (cell pdir (pdir_index v))) = false /\
      (fs_alloc (phys s)).1 = NO_PAGE
  | Fault => False
  end.
Proof.
  intros Hwf Hv Hf. pose proof (pdir_index_range v Hv) as Hpi.
  unfold do_map_table, rd, gets, mbind, M_bind. simpl.
  rewrite bnotset_present. destruct (present (word _ _)) eqn:Hp; simpl.
  - destruct (wf_tab _ _ Hwf _ Hpi Hp) as (Hu & Hna & Hnp & _).
    rewrite map_working_run by auto with kos.
    destruct (working_fields (getaddr (word (mem s) (cell pdir (pdir_index v)))) s)
      as (E1 & E2 & E3 & E4 & E5).
    split; [|rewrite working_pdir, Hp by done; by rewrite orb_true_r].
    constructor; auto using working_wf, working_pte with kos.
    + by rewrite working_pdir.
    + intros j Hj. rewrite working_pdir by done. intros Hpj He. by apply (wf_inj _ _ Hwf).
  - unfold alloc_frame. pose proof (fs_alloc_spec (phys s) (wf_inv _ _ Hwf)) as Hspec.
    pose proof (wf_alloc _ _ Hwf) as Hwf1.
    destruct (fs_alloc (phys s)) as [r ph] eqn:Ea. simpl in *.
    destruct Hspec as [[-> _]|(p & -> & Hpr & Hav & Hav')]; [done|].
    rewrite (proj2 (Z.eqb_neq _ _) (NO_PAGE_not_frame p)).
    destruct (fresh_frame _ _ _ Hwf Hav) as (Hpd & Hwt & Htab).
    set (s2 := set_mem (<[cell pdir (pdir_index v) := Z.lor (p * 4096) flags]> (mem s))
                 (set_phys ph s)).
    assert (frame_addr (p * 4096)) as Hfr by (unfold frame_addr, is_u32; dlia).
    assert (pdir_wf pdir s2) as Hwf2.
    { apply (wf_new_table pdir (set_phys ph s)); simpl; auto; [apply Hwf1|].
      intros Hin. by apply Hav' in Hin as [_ []]. }
    unfold wr, modify. simpl. rewrite map_working_run by done. simpl.
    destruct (working_fields (p * 4096) s2) as (E1 & E2 & E3 & E4 & E5).
    destruct (wf_pdir _ _ Hwf) as [Hpu Hpa]. destruct Hfr as [Hfu Hfa].
    assert (forall j, 0 <= j < 1024 ->
      word (clear_words (p * 4096) (mem (working (p * 4096) s2))) (cell pdir j)
      = word (mem s2) (cell pdir j)) as Hdir.
    { intros j Hj. rewrite word_clear by done.
      rewrite (proj2 (Z.eqb_neq _ pdir)) by done. by apply working_pdir. }
    assert (forall j, 0 <= j < 1024 -> word (mem s2) (cell pdir j)
      = if pdir_index v =? j then Z.lor (p * 4096) flags else word (mem s) (cell pdir j)) as Hs2.
    { intros j Hj. simpl. by rewrite word_cell_insert, Z.eqb_refl. }
    split; [|rewrite Hdir, Hs2, Z.eqb_refl by done; rewrite present_lor, present_aligned by done;
             by rewrite orb_false_r].
    constructor; simpl; auto.
    + eapply wf_same_pdir; [| | | |exact Hwf2]; simpl; done.
    + done.
    + intros w Hw. apply (new_table_pte pdir s (p * 4096) (pdir_index v) flags); auto; [done|].
      intros j Hj Hpj. destruct (wf_tab _ _ Hwf j Hj Hpj) as (? & _ & ? & _). auto.
    + rewrite Hdir, Hs2, Z.eqb_refl by done. intros _. by apply getaddr_entry.
    + intros j Hj. rewrite Hdir, Hs2 by done. destruct (Z.eqb_spec (pdir_index v) j); [done|].
      intros Hpj He. by destruct (Htab j Hj Hpj).
Qed.

(** *** Mapping a page *)

(** An entry with the bits the processor sets cleared. *)
Definition clean (e : Z) : Z := Z.land e (u32 (Z.lnot (Z.lor PE_ACCESSED PT_DIRTY))).

(** The entry maps [p] with [flags], up to the accessed and dirty bits. *)
Definition maps_to (e p flags : Z) : Prop := e = Z.lor p flags \/ clean e = Z.lor p flags.

Lemma write_entry pdir v s t s1 e :
  table_ready pdir v s t s1 ->
  let s2 := set_mem (<[cell t (ptab_index v) := e]> (mem s1)) s1 in
  is_u32 v ->
  pdir_wf pdir s2 /\
  word (mem s2) (cell pdir (pdir_index v)) = word (mem s1) (cell pdir (pdir_index v)) /\
  (present (word (mem s1) (cell pdir (pdir_index v))) = true -> pte (mem s2) pdir v = e) /\
  (forall w, user_page w -> w / 4096 <> v / 4096 -> pte (mem s2) pdir w = pte (mem s) pdir w).
Proof.
  intros Hr s2 Hv. destruct Hr as [Hwf [Htu Hta] Hne _ _ _ Hpte Hslot Honly].
  destruct (wf_pdir _ _ Hwf) as [Hpu Hpa]. pose proof (ptab_index_range v) as Hti.
  pose proof (pdir_index_range v Hv) as Hpi.
  assert (forall j, 0 <= j < 1024 ->
    word (mem s2) (cell pdir j) = word (mem s1) (cell pdir j)) as Hdir.
  { intros j Hj. simpl. rewrite word_cell_insert by done. by rewrite (proj2 (Z.eqb_neq t _)). }
  split_and!.
  - eapply wf_same_pdir; [| | | |exact Hwf]; simpl; done.
  - by apply Hdir.
  - intros Hp. unfold pte. rewrite Hdir, Hp, Hslot by done. simpl.
    rewrite word_cell_insert by done. by rewrite !Z.eqb_refl.
  - intros w [Hw Hwm] Hwv. rewrite <- Hpte by done. unfold pte.
    pose proof (pdir_index_range w Hw) as Hwi. pose proof (ptab_index_range w) as Hwt.
    rewrite Hdir by done. destruct (present (word (mem s1) (cell pdir (pdir_index w)))) eqn:Hp; [|done].
    destruct (wf_tab _ _ Hwf _ Hwi Hp) as (Hu & _). destruct (getaddr_frame _ Hu) as [? Hga].
    simpl. rewrite word_cell_insert by done.
    destruct (Z.eqb_spec t (getaddr (word (mem s1) (cell pdir (pdir_index w))))) as [He|];
      [|done].
    destruct (Z.eqb_spec (ptab_index v) (ptab_index w)); [|done].
    destruct Hwv. apply page_indices. split; [|done]. by apply Honly.
Qed.

Lemma bump_rev_spec pdir s :
  match bump_rev pdir s with
  | Ok (_, s') => mem s' = mem s /\ phys s' = phys s /\
      paging_enabled s' = paging_enabled s /\ kernel_pdir s' = kernel_pdir s /\
      working_table_map s' = working_table_map s
  | Panic => pdir = kernel_pdir s /\ u32 (kpdir_rev s + 1) < kpdir_rev s
  | Fault => False
  end.
Proof.
  unfold bump_rev, mbind, M_bind, get, modify, mret, M_ret, panic. simpl.
  destruct (Z.eqb_spec pdir (kernel_pdir s)); [|done].
  destruct (Z.ltb_spec (u32 (kpdir_rev s + 1)) (kpdir_rev s)); done.
Qed.

Lemma do_map_spec pdir p v flags force s :
  pdir_wf pdir s -> frame_addr p -> frame_addr v -> user_page v -> 0 <= flags < 4096 ->
  match do_map pdir p v flags force s with
  | Ok (_, s') =>
      pdir_wf pdir s' /\ kernel_pdir s' = kernel_pdir s /\
      paging_enabled s' = paging_enabled s /\
      (if present flags then maps_to (pte (mem s') pdir v) p flags
       else present (pte (mem s') pdir v) = false) /\
      (forall w, user_page w -> w / 4096 <> v / 4096 ->
         pte (mem s') pdir w = pte (mem s) pdir w)
  | Panic =>
      (present (word (mem s) (cell pdir (pdir_index v))) = false /\
         (fs_alloc (phys s)).1 = NO_PAGE) \/
      (force = false /\ present flags = true /\ present (pte (mem s) pdir v) = true /\
         clean (pte (mem s) pdir v) <> Z.lor p flags) \/
      (pdir = kernel_pdir s /\ u32 (kpdir_rev s + 1) < kpdir_rev s)
  | Fault => False
  end.
Proof.
  intros Hwf [Hpu Hpa] [Hvu Hva] Huser Hf. unfold do_map, mbind, M_bind.
  rewrite (proj2 (aligned_spec v)), (proj2 (aligned_spec p)) by done. simpl.
  unfold mret, M_ret. pose proof (do_map_table_spec pdir v flags s Hwf Hvu Hf) as Ht.
  destruct (do_map_table pdir v flags s) as [[t s1]| |]; [|by left|done].
  destruct Ht as [Hr Hpres]. unfold rd, gets. simpl. rewrite !bisset_present.
  assert (present (word (mem s1) (cell pdir (pdir_index v))) = true ->
    word (mem s1) (cell t (ptab_index v)) = pte (mem s) pdir v) as Hentry.
  { intros Hp. rewrite <- (tr_pte _ _ _ _ _ Hr v Huser). unfold pte.
    by rewrite Hp, (tr_slot _ _ _ _ _ Hr). }
  destruct (negb force && present _ && present flags) eqn:Eb.
  - to_prop. assert (present (word (mem s1) (cell pdir (pdir_index v))) = true) as Hp1
      by (rewrite Hpres; by destruct (present flags)).
    rewrite !Hentry in * by done. unfold clean.
    destruct (Z.eqb_spec (Z.land (pte (mem s) pdir v)
      (u32 (Z.lnot (Z.lor PE_ACCESSED PT_DIRTY)))) (Z.lor p flags)) as [He|He]; simpl.
    + destruct Hr. split_and!; [done..| |].
      * replace (present flags) with true. right. by rewrite tr_pte0.
      * intros w Hw _. by apply tr_pte0.
    + right; left. auto.
  - unfold wr, modify. cbn [fst snd].
    destruct (write_entry pdir v s t s1 (Z.lor p flags) Hr Hvu) as (Hwf2 & Hd & He & Hfr).
    set (s2 := set_mem _ s1) in *. pose proof (bump_rev_spec pdir s2) as Hb.
    destruct (bump_rev pdir s2) as [[[] s3]| |]; [|right; right|done].
    + destruct Hb as (Em & Ep & Ee & Ek & Ew). rewrite Em, Ek, Ee.
      destruct Hr. split_and!; [| done | done | | done].
      * by eapply wf_same_pdir; [done..| |exact Hwf2]; intros; rewrite Em.
      * destruct (present flags) eqn:Hpf; [left; by apply He; rewrite Hpres|].
        destruct (present (word (mem s) (cell pdir (pdir_index v)))) eqn:Hp0.
        -- rewrite He by (by rewrite Hpres). by rewrite present_lor, Hpf, present_aligned.
        -- unfold pte. rewrite Hd, Hpres. by apply Z.bits_0.
    + destruct Hb as [Hb1 Hb2]. destruct Hr. simpl in *. by rewrite tr_kernel0, tr_rev0 in *.
Qed.

(** *** Ranges *)

(** Why mapping one page stops the kernel. *)
Definition map_fails (pdir p v flags : Z) (s : vm S) : Prop :=
  (present (word (mem s) (cell pdir (pdir_index v))) = false /\
     (fs_alloc (phys s)).1 = NO_PAGE) \/
  (present flags = true /\ present (pte (mem s) pdir v) = true /\
     clean (pte (mem s) pdir v) <> Z.lor p flags) \/
  (pdir = kernel_pdir s /\ u32 (kpdir_rev s + 1) < kpdir_rev s).

(** The pages of a range, away from the working-table slot. *)
Definition page_range (v num : Z) : Prop :=
  frame_addr v /\ 0 <= num /\ v + num * 4096 <= 2 ^ 32 /\
  (v + num * 4096 <= MAP_TABLE_VADDR \/ MAP_TABLE_VADDR + 4096 <= v).

Lemma page_range_nth v num i :
  page_range v num -> 0 <= i < num ->
  u32 (v + i * PAGE_SIZE) = v + i * 4096 /\ frame_addr (v + i * 4096) /\
  user_page (v + i * 4096) /\ (v + i * 4096) / 4096 = v / 4096 + i.
Proof.
  intros ([Hu Ha] & Hn & Hend & Hmt) Hi. rewrite PAGE_SIZE_eq.
  unfold frame_addr, user_page, MAP_TABLE_VADDR, is_u32 in *.
  rewrite u32_small by (unfold is_u32; lia).
  rewrite Z.div_add, Z_mod_plus_full by done. split_and!; dlia.
Qed.

Record mapped_range (pdir p v flags num : Z) (s s' : vm S) : Prop := {
  mr_wf : pdir_wf pdir s';
  mr_kernel : kernel_pdir s' = kernel_pdir s;
  mr_paging : paging_enabled s' = paging_enabled s;
  mr_in i : 0 <= i < num ->
    if present flags then maps_to (pte (mem s') pdir (v + i * 4096)) (p + i * 4096) flags
    else present (pte (mem s') pdir (v + i * 4096)) = false;
  mr_out w : user_page w -> ~ v / 4096 <= w / 4096 < v / 4096 + num ->
    pte (mem s') pdir w = pte (mem s) pdir w;
}.

Lemma vm_map_range_spec pdir p v flags num s :
  pdir_wf pdir s -> frame_addr p -> p + num * 4096 <= 2 ^ 32 -> page_range v num ->
  0 <= flags < 4096 ->
  match vm_map_range pdir p v flags num s with
  | Ok (_, s') => mapped_range pdir p v flags num s s'
  | Panic => exists i s1, 0 <= i < num /\ mapped_range pdir p v flags i s s1 /\
      map_fails pdir (p + i * 4096) (v + i * 4096) flags s1
  | Fault => False
  end.
Proof.
  intros Hwf Hp Hpe Hr Hf. pose proof Hr as ([Hvu Hva] & Hn & _).
  unfold vm_map_range, mbind, M_bind.
  rewrite (proj2 (aligned_spec v)), (proj2 (aligned_spec p)) by (done || apply Hp).
  unfold kassert, mret, M_ret.
  match goal with |- context [mfor num ?b s] =>
    pose proof (mfor_spec b (fun i => mapped_range pdir p v flags i s)
      (fun i => map_fails pdir (p + i * 4096) (v + i * 4096) flags) num s Hn) as Hloop;
    set (body := b) in * end.
  enough (match mfor num body s with
    | Ok (_, s') => mapped_range pdir p v flags num s s'
    | Panic => exists i s1, 0 <= i < num /\ mfor i body s = Ok (tt, s1) /\
        mapped_range pdir p v flags i s s1 /\
        map_fails pdir (p + i * 4096) (v + i * 4096) flags s1
    | Fault => False end) as Hd
    by (destruct (mfor num body s) as [[[] s']| |]; naive_solver).
  apply Hloop; clear Hloop.
  - constructor; auto with lia.
  - intros i s1 Hi [Hwf1 Hk Hpg Hin Hout]. unfold body.
    destruct (page_range_nth v num i Hr Hi) as (Ev & Hfv & Huv & Edv).
    destruct Hp as [Hpu Hpa]. rewrite Ev, u32_small, PAGE_SIZE_eq
      by (rewrite PAGE_SIZE_eq; unfold is_u32 in *; lia).
    assert (frame_addr (p + i * 4096)) as Hfp
      by (split; [unfold is_u32 in *; lia | by rewrite Z_mod_plus_full]).
    pose proof (do_map_spec pdir (p + i * 4096) (v + i * 4096) flags false s1 Hwf1 Hfp Hfv Huv Hf)
      as Hd. unfold vm_map_page.
    destruct (do_map pdir (p + i * 4096) (v + i * 4096) flags false s1) as [[[] s2]| |];
      [|unfold map_fails; naive_solver | done].
    destruct Hd as (Hwf2 & Hk2 & Hpg2 & Hmap & Hfr). constructor; [done | congruence.. | |].
    + intros j Hj. destruct (Z.eq_dec j i) as [->|Hji]; [done|].
      destruct (page_range_nth v num j Hr ltac:(lia)) as (_ & _ & Huj & Edj).
      rewrite Hfr by (done || lia). apply Hin. lia.
    + intros w Hw Hno. rewrite Hfr by (done || lia). apply Hout; [done | lia].
Qed.

(** *** Looking up *)

Lemma get_ptab_entry_spec pdir v s :
  pdir_wf pdir s -> user_page v ->
  exists s', get_ptab_entry pdir v s =
      Ok (if present (pte (mem s) pdir v) then pte (mem s) pdir v else 0, s') /\
    pdir_wf pdir s' /\ kernel_pdir s' = kernel_pdir s /\
    forall w, user_page w -> pte (mem s') pdir w = pte (mem s) pdir w.
Proof.
  intros Hwf Hv. pose proof (pdir_index_range v (proj1 Hv)) as Hpi.
  unfold get_ptab_entry, rd, gets, mbind, M_bind. simpl. rewrite bnotset_present.
  destruct (present (word (mem s) (cell pdir (pdir_index v)))) eqn:Hp; simpl.
  - destruct (wf_tab _ _ Hwf _ Hpi Hp) as (Hu & _). set (t := getaddr _) in *.
    rewrite (map_working_run t) by (unfold t; auto with kos).
    destruct (working_fields t s) as (_ & _ & _ & Ek & _).
    exists (working t s). split_and!; auto using working_wf, working_pte.
    pose proof (working_pte pdir t s v Hwf Hv) as Hpt. unfold pte in Hpt.
    rewrite working_pdir, Hp in Hpt by done. fold t in Hpt.
    unfold pte. rewrite Hp. fold t. rewrite Hpt.
    pose proof (bisset_present (word (mem s) (cell t (ptab_index v)))) as Hb.
    unfold bisset in Hb. by rewrite Hb.
  - exists s. unfold pte. by rewrite Hp.
Qed.

Lemma vm_resolve_virt_spec pdir v s :
  pdir_wf pdir s -> user_page v ->
  exists s', vm_resolve_virt pdir v s =
      Ok (if present (pte (mem s) pdir v)
          then u32 (getaddr (pte (mem s) pdir v) + v mod 4096) else 0, s') /\
    pdir_wf pdir s' /\ kernel_pdir s' = kernel_pdir s /\
    forall w, user_page w -> pte (mem s') pdir w = pte (mem s) pdir w.
Proof.
  intros Hwf Hv. destruct (get_ptab_entry_spec pdir v s Hwf Hv) as (s' & Hg & Hwf' & Hk & Hpt).
  exists s'. split_and!; [|done..]. unfold vm_resolve_virt, mbind, M_bind. rewrite Hg.
  rewrite bnotset_present. destruct (present (pte (mem s) pdir v)) eqn:Hp; [|done].
  rewrite Hp. done.
Qed.

(** The address an entry maps, whichever way it was established. *)
Lemma maps_to_getaddr e p flags :
  frame_addr p -> 0 <= flags < 4096 -> maps_to e p flags -> getaddr e = p.
Proof.
  intros [Hpu Hpa] Hf [->|Hc]; [by apply getaddr_entry|].
  rewrite <- (getaddr_entry p flags), <- Hc by done. unfold clean, getaddr, bmask.
  rewrite <- Z.land_assoc. done.
Qed.

Lemma maps_to_present e p flags :
  maps_to e p flags -> present flags = true -> present e = true.
Proof.
  intros [->|Hc] Hf; [by rewrite present_lor, Hf, orb_true_r|].
  assert (present (clean e) = true) as Hp by by rewrite Hc, present_lor, Hf, orb_true_r.
  unfold present, clean in *. rewrite Z.land_spec in Hp. by apply andb_true_iff in Hp as [? _].
Qed.

(** *** Searching a free address *)

Lemma create_addr_eq pdi pti :
  0 <= pdi < 1024 -> 0 <= pti < 1024 ->
  create_addr pdi pti 0 = pdi * 4194304 + pti * 4096 /\
  frame_addr (create_addr pdi pti 0) /\
  pdir_index (create_addr pdi pti 0) = pdi /\ ptab_index (create_addr pdi pti 0) = pti.
Proof.
  intros Hd Ht. unfold create_addr, PE_ADDR_SHIFT, PAGE_SHIFT.
  rewrite !Z.shiftl_mul_pow2, Z.add_0_r by lia.
  change (2 ^ 22) with 4194304. change (2 ^ 12) with 4096.
  rewrite u32_small by (unfold is_u32; lia).
  unfold frame_addr, is_u32, pdir_index, ptab_index, addr2page.
  rewrite PAGE_SIZE_eq. unfold PDIR_LEN, PTAB_LEN. split_and!; dlia.
Qed.

Lemma find_entry_spec m tab n pti :
  match find_entry m tab n pti with
  | Some k => pti <= k < pti + Z.of_nat n /\ present (word m (cell tab k)) = false
  | None => forall k, pti <= k < pti + Z.of_nat n -> present (word m (cell tab k)) = true
  end.
Proof.
  revert pti. induction n as [|n IH]; intros pti; cbn [find_entry]; [lia|].
  rewrite bnotset_present. destruct (present (word m (cell tab pti))) eqn:Hp; simpl negb.
  - specialize (IH (pti + 1)). cbv iota. destruct (find_entry m tab n (pti + 1)).
    + destruct IH. split; [lia | done].
    + intros k Hk. destruct (Z.eq_dec k pti) as [->|]; [done|]. apply IH. lia.
  - split; [lia | done].
Qed.

Lemma safe_pti_range pdi : 0 <= safe_pti pdi <= 1.
Proof. unfold safe_pti. destruct (pdi =? 0); lia. Qed.

(** What the search answers, from slot [pdi] on. *)
Definition found_addr (pdir pdi a : Z) (s s' : vm S) : Prop :=
  pdir_wf pdir s' /\
  (forall w, user_page w -> pte (mem s') pdir w = pte (mem s) pdir w) /\
  (if a =? 0 then
     forall w, user_page w -> 4096 <= w -> pdi <= pdir_index w ->
       present (pte (mem s) pdir w) = true
   else frame_addr a /\ pdi <= pdir_index a /\ present (pte (mem s') pdir a) = false).

Lemma nonzero_addr pdi pti :
  0 <= pdi < 1024 -> safe_pti pdi <= pti < 1024 -> (create_addr pdi pti 0 =? 0) = false.
Proof.
  intros Hd Ht. pose proof (safe_pti_range pdi).
  destruct (create_addr_eq pdi pti) as [-> _]; [lia..|].
  apply Z.eqb_neq. unfold safe_pti in *. destruct (Z.eqb_spec pdi 0); lia.
Qed.

Lemma vm_find_addr_from_spec n pdir pdi s :
  pdir_wf pdir s -> 0 <= pdi -> pdi + Z.of_nat n = 1024 ->
  exists a s', vm_find_addr_from n pdir pdi s = Ok (a, s') /\ found_addr pdir pdi a s s'.
Proof.
  revert pdi s. induction n as [|n IH]; intros pdi s Hwf Hpd Hn.
  - exists 0, s. split; [done|]. split_and!; [done..|]. simpl. intros w [Hw _] _ Hge.
    pose proof (pdir_index_range w Hw). lia.
  - cbn [vm_find_addr_from]. unfold rd, gets, mbind, M_bind. simpl. rewrite bnotset_present.
    pose proof (safe_pti_range pdi) as Hs.
    destruct (present (word (mem s) (cell pdir pdi))) eqn:Hp; cbn [negb].
    + destruct (wf_tab _ _ Hwf pdi ltac:(lia) Hp) as (Hu & _).
      set (t := getaddr (word (mem s) (cell pdir pdi))) in *.
      rewrite (map_working_run t) by (unfold t; auto with kos). unfold get.
      pose proof (working_wf _ t _ Hwf) as Hwf1.
      pose proof (find_entry_spec (mem (working t s)) t
        (Z.to_nat (PTAB_LEN - safe_pti pdi)) (safe_pti pdi)) as Hfe.
      unfold PTAB_LEN in *. rewrite Z2Nat.id in Hfe by lia.
      destruct (find_entry _ t _ _) as [pti|].
      * destruct Hfe as [Hk Hnp]. eexists _, _. split; [done|].
        destruct (create_addr_eq pdi pti) as (Ec & Hfr & Ei & Et); [lia..|].
        split_and!; [done | intros; by apply working_pte |].
        rewrite nonzero_addr by lia. split_and!; [apply Hfr.. | lia |].
        unfold pte. rewrite Ei, Et, working_pdir, Hp by (done || lia). done.
      * destruct (IH (pdi + 1) (working t s) Hwf1 ltac:(lia) ltac:(lia))
          as (a & s' & Hrun & Hwf2 & Hpt & Ha).
        exists a, s'. split; [done|]. split_and!; [done | | ].
        { intros w Hw. rewrite Hpt by done. by apply working_pte. }
        destruct (a =? 0); [|naive_solver lia]. intros w Hw Hge Hwi.
        destruct (Z.eq_dec (pdir_index w) pdi) as [Ew|];
          [|rewrite <- (working_pte pdir t) by done; apply Ha; (done || lia)].
        rewrite <- (working_pte pdir t) by done. unfold pte.
        rewrite Ew, working_pdir, Hp by (done || lia). apply Hfe.
        pose proof (ptab_index_range w). unfold safe_pti. destruct (Z.eqb_spec pdi 0); [|lia].
        destruct Hw as [Hw _]. unfold is_u32, pdir_index, ptab_index, addr2page in *.
        rewrite PAGE_SIZE_eq in *. unfold PDIR_LEN, PTAB_LEN in *. dlia.
    + eexists _, s. split; [done|].
      destruct (create_addr_eq pdi (safe_pti pdi)) as (Ec & Hfr & Ei & Et); [lia..|].
      split_and!; [done..|]. rewrite nonzero_addr by lia.
      split_and!; [apply Hfr.. | lia |]. unfold pte. by rewrite Ei, Hp.
Qed.

(** ** Correctness of the virtual memory operations *)


(** C7: after [vm_map_range] with present flags, [vm_resolve_virt] translates every byte
    of the virtual range to the corresponding byte of the physical range; after
    [vm_map_range] with flags that are not present (what [vm_unmap_range] does) it answers
    NULL for all of them.  Translations outside the range do not change.  When the range
    operation stops the kernel, it does so at a page that could not be mapped, the pages
    before it being mapped. *)
Theorem vm_map_range_resolves pdir p v flags num s :
  pdir_wf pdir s -> frame_addr p -> p + num * 4096 <= 2 ^ 32 -> page_range v num ->
  0 <= flags < 4096 ->
  match vm_map_range pdir p v flags num s with
  | Ok (_, s') =>
      (forall k, 0 <= k < num * 4096 -> exists s'',
         vm_resolve_virt pdir (v + k) s' = Ok (if present flags then p + k else 0, s'')) /\
      (forall w, user_page w -> ~ v <= w < v + num * 4096 -> exists r s0 s'',
         vm_resolve_virt pdir w s = Ok (r, s0) /\ vm_resolve_virt pdir w s' = Ok (r, s''))
  | Panic => exists i s1, 0 <= i < num /\ mapped_range pdir p v flags i s s1 /\
      map_fails pdir (p + i * 4096) (v + i * 4096) flags s1
  | Fault => False
  end.
Proof.
  intros Hwf Hp Hpe Hr Hf. pose proof (vm_map_range_spec pdir p v flags num s Hwf Hp Hpe Hr Hf)
    as Hrange.
  destruct (vm_map_range pdir p v flags num s) as [[[] s']| |]; [|done..].
  destruct Hrange as [Hwf' _ _ Hin Hout]. destruct Hp as [Hpu Hpa].
  destruct Hr as ([Hvu Hva] & Hn & He & Hm) eqn:Er. clear Er. split.
  - intros k Hk. assert (0 <= k / 4096 < num) as Hi by dlia.
    destruct (page_range_nth v num _ (conj (conj Hvu Hva) (conj Hn (conj He Hm))) Hi)
      as (_ & Hfa & [Hua Hub] & Ediv).
    assert ((v + k) / 4096 = v / 4096 + k / 4096) as Edk by dlia.
    assert (user_page (v + k)) as Huk by (split; [unfold is_u32 in *; lia | congruence]).
    destruct (vm_resolve_virt_spec pdir (v + k) s' Hwf' Huk) as (s'' & Hrun & _).
    exists s''. rewrite Hrun. specialize (Hin _ Hi).
    replace (pte (mem s') pdir (v + k)) with (pte (mem s') pdir (v + k / 4096 * 4096))
      by (assert (pdir_index (v + k / 4096 * 4096) = pdir_index (v + k) /\
                  ptab_index (v + k / 4096 * 4096) = ptab_index (v + k)) as [E1 E2]
            by (apply page_indices; congruence); unfold pte; by rewrite E1, E2).
    destruct (present flags) eqn:Hpf; [|by rewrite Hin].
    assert (frame_addr (p + k / 4096 * 4096)) as Hfp
      by (split; [unfold is_u32 in *; lia | by rewrite Z_mod_plus_full]).
    rewrite (maps_to_present _ _ _ Hin Hpf), (maps_to_getaddr _ _ _ Hfp Hf Hin).
    assert (p + k / 4096 * 4096 + (v + k) mod 4096 = p + k) as -> by dlia.
    rewrite u32_small by (unfold is_u32 in *; lia). done.
  - intros w Hw Hno.
    destruct (vm_resolve_virt_spec pdir w s Hwf Hw) as (s0 & Hrun & _).
    destruct (vm_resolve_virt_spec pdir w s' Hwf' Hw) as (s'' & Hrun' & _).
    eexists _, s0, s''. split; [done|]. rewrite Hrun', Hout by (done || dlia). done.
Qed.

(** C8: [vm_find_addr] answers a page-aligned address that the directory does not map,
    never NULL unless every page it may hand out (all but the first) is mapped; the
    search itself changes no translation. *)
Theorem vm_find_addr_free pdir s :
  pdir_wf pdir s ->
  exists a s', vm_find_addr pdir s = Ok (a, s') /\ pdir_wf pdir s' /\
    (forall w, user_page w -> pte (mem s') pdir w = pte (mem s) pdir w) /\
    (a <> 0 -> frame_addr a /\ present (pte (mem s') pdir a) = false) /\
    (a = 0 -> forall w, user_page w -> 4096 <= w -> present (pte (mem s) pdir w) = true).
Proof.
  intros Hwf. destruct (vm_find_addr_from_spec 1024 pdir 0 s Hwf) as (a & s' & Hrun & Hf);
    [lia..|]. exists a, s'. destruct Hf as (Hwf' & Hpt & Ha). split_and!; [done..| |].
  - intros Hne. apply Z.eqb_neq in Hne. rewrite Hne in Ha. tauto.
  - intros ->. intros w Hw Hge. apply Ha; [done..|]. pose proof (pdir_index_range w (proj1 Hw)). lia.
Qed.

(** *** The heap of a process *)

Definition heap_flags : Z := Z.lor (Z.lor PE_PRESENT PE_READWRITE) PE_USERMODE.

(** The [n] pages from [b] on are user space and not mapped. *)
Definition heap_room (pdir b : Z) (n : nat) (s : vm S) : Prop :=
  frame_addr b /\ MAP_TABLE_VADDR + 4096 <= b /\ b + Z.of_nat n * 4096 < 2 ^ 32 /\
  forall w, b <= w < b + Z.of_nat n * 4096 -> present (pte (mem s) pdir w) = false.

(** How the heap grew: [brk_page] moved by whole pages, every page it passed is mapped
    for user mode, and nothing else changed. *)
Record heap_grown (h : proc_heap) (n : nat) (h' : proc_heap) (s s' : vm S) : Prop := {
  hg_wf : pdir_wf (as_pdir h) s';
  hg_pdir : as_pdir h' = as_pdir h;
  hg_brk : mem_brk h' = mem_brk h;
  hg_page : exists k, 0 <= k <= Z.of_nat n /\ brk_page h' = brk_page h + k * 4096;
  hg_in w : brk_page h <= w < brk_page h' -> exists p,
    frame_addr p /\ maps_to (pte (mem s') (as_pdir h) w) p heap_flags;
  hg_out w : user_page w -> ~ brk_page h <= w < brk_page h' ->
    pte (mem s') (as_pdir h) w = pte (mem s) (as_pdir h) w;
}.

Lemma same_page_pte m pdir v w : v / 4096 = w / 4096 -> pte m pdir v = pte m pdir w.
Proof. intros E. apply page_indices in E as [E1 E2]. unfold pte. by rewrite E1, E2. Qed.

Lemma increase_heap_from_spec n h s :
  pdir_wf (as_pdir h) s -> heap_room (as_pdir h) (brk_page h) n s ->
  match increase_heap_from n h s with
  | Ok (r, h', s') => heap_grown h n h' s s' /\
      (r = true -> brk_page h' = brk_page h + Z.of_nat n * 4096)
  | Panic => exists h1 s1 p, heap_grown h n h1 s s1 /\
      map_fails (as_pdir h) p (brk_page h1) heap_flags s1
  | Fault => False
  end.
Proof.
  revert h s. induction n as [|n IH]; intros h s Hwf Hroom; cbn [increase_heap_from].
  - split; [|lia]. constructor; [done..| | |done]; [exists 0; lia | intros; lia].
  - destruct Hroom as ([Hbu Hba] & Hlow & Hhi & Hfree).
    unfold mbind, M_bind, alloc_frame.
    pose proof (fs_alloc_spec (phys s) (wf_inv _ _ Hwf)) as Hspec.
    pose proof (wf_alloc _ _ Hwf) as Hwf1.
    destruct (fs_alloc (phys s)) as [r ph]. simpl in Hspec, Hwf1.
    assert (heap_grown h (Datatypes.S n) h s (set_phys ph s)) as Hsame.
    { constructor; [done..| | |done]; [exists 0; lia | intros; lia]. }
    destruct Hspec as [[-> _]|(p & -> & Hp & _ & _)]; [split; done|].
    rewrite (proj2 (Z.eqb_neq _ _) (NO_PAGE_not_frame p)). fold heap_flags.
    set (s1 := set_phys ph s) in *.
    assert (frame_addr (p * 4096)) as Hfr by (split; [unfold is_u32; lia | by apply Z.mod_mul]).
    assert (user_page (brk_page h)) as Hub by (split; [done|]; unfold MAP_TABLE_VADDR in *; dlia).
    pose proof (do_map_spec (as_pdir h) (p * 4096) (brk_page h) heap_flags false s1
      Hwf1 Hfr (conj Hbu Hba) Hub ltac:(done)) as Hm. unfold vm_map_page.
    destruct (do_map _ _ _ _ _ s1) as [[[] s2]| |];
      [|exists h, s1, (p * 4096); split; [done|]; unfold map_fails; naive_solver | done].
    destruct Hm as (Hwf2 & _ & _ & Hmap & Hout). change (present heap_flags) with true in Hmap.
    cbv iota in Hmap. set (h1 := set_brk_page (u32 (brk_page h + PAGE_SIZE)) h).
    assert (brk_page h1 = brk_page h + 4096) as Eb
      by (unfold h1; simpl; rewrite PAGE_SIZE_eq, u32_small; [done | unfold is_u32 in *; lia]).
    assert (heap_room (as_pdir h1) (brk_page h1) n s2) as Hroom2.
    { rewrite Eb. split; [split; [unfold is_u32 in *; lia | dlia]|].
      split_and!; [lia..|]. intros w Hw. simpl. rewrite Hout; [apply Hfree; lia| |dlia].
      split; [unfold is_u32, MAP_TABLE_VADDR in *; lia | unfold MAP_TABLE_VADDR in *; dlia]. }
    assert (forall h' s', heap_grown h1 n h' s2 s' -> heap_grown h (Datatypes.S n) h' s s') as Htr.
    { intros h' s' [Gw Gp Gb (k & Hk & Gk) Gi Go]. rewrite Eb in *.
      constructor; [done.. | exists (k + 1); lia | |].
      - intros w Hw. destruct (Z_lt_ge_dec w (brk_page h + 4096)); [|apply Gi; lia].
        exists (p * 4096). split; [done|]. simpl in Go.
        rewrite (same_page_pte _ _ w (brk_page h)) by dlia. rewrite Go by (done || lia). done.
      - intros w Hw Hno. simpl in Go. rewrite Go by (done || lia). apply Hout; [done|]. dlia. }
    specialize (IH h1 s2 Hwf2 Hroom2).
    destruct (increase_heap_from n h1 s2) as [[[b h'] s']| |]; [| |done].
    + destruct IH as [Hg Hb]. split; [by apply Htr|]. intros E. rewrite (Hb E), Eb. lia.
    + destruct IH as (h2 & s3 & q & Hg & Hf). exists h2, s3, q. split; [by apply Htr | done].
Qed.

End spec.

(** ** Concrete states *)

(** A kernel directory at 3 MB whose slot 255 holds the working-table map, paging on,
    sixteen free frames at 1 MB. *)
Definition demo_vm : vm mm_state :=
  MkVm (demo_mm 0x200000) {[cell 0x300000 255 := 0x301003]} true 0x300000 0x301000 0.

Lemma demo_pde i :
  0 <= i < 1024 -> present (word (mem demo_vm) (cell 0x300000 i)) = true -> i = 255.
Proof.
  intros Hi. unfold word, demo_vm, cell. simpl.
  destruct (Z.eq_dec i 255) as [->|Hne]; [done|]. rewrite lookup_singleton_ne by lia. done.
Qed.

Lemma demo_wf : pdir_wf 0x300000 demo_vm.
Proof.
  constructor.
  - apply demo_mm_inv; [done | lia].
  - done.
  - by vm_compute.
  - done.
  - by vm_compute.
  - done.
  - intros i Hi Hp. apply demo_pde in Hp as ->; [|done]. split_and!; by vm_compute.
  - intros i j Hi Hj Hp Hq. apply demo_pde in Hp as ->, Hq as ->; done.
Qed.


Lemma vm_map_range_resolves_witness :
  match vm_map_range 0x300000 0x500000 0x3FE000 3 5 demo_vm with
  | Ok (_, s') =>
      (forall k, 0 <= k < 5 * 4096 -> exists s'',
         vm_resolve_virt 0x300000 (0x3FE000 + k) s'
         = Ok (if present 3 then 0x500000 + k else 0, s'')) /\
      (forall w, user_page w -> ~ 0x3FE000 <= w < 0x3FE000 + 5 * 4096 -> exists r s0 s'',
         vm_resolve_virt 0x300000 w demo_vm = Ok (r, s0) /\
         vm_resolve_virt 0x300000 w s' = Ok (r, s''))
  | Panic => exists i s1, 0 <= i < 5 /\ mapped_range 0x300000 0x500000 0x3FE000 3 i demo_vm s1 /\
      map_fails 0x300000 (0x500000 + i * 4096) (0x3FE000 + i * 4096) 3 s1
  | Fault => False
  end.
Proof.
  apply (vm_map_range_resolves 0x300000 0x500000 0x3FE000 3 5 demo_vm demo_wf).
  - by vm_compute.
  - by vm_compute.
  - unfold page_range. split; [by vm_compute|]. unfold MAP_TABLE_VADDR. lia.
  - lia.
Defined.

Lemma vm_find_addr_free_witness :
  exists a s', vm_find_addr 0x300000 demo_vm = Ok (a, s') /\ pdir_wf 0x300000 s' /\
    (forall w, user_page w -> pte (mem s') 0x300000 w = pte (mem demo_vm) 0x300000 w) /\
    (a <> 0 -> frame_addr a /\ present (pte (mem s') 0x300000 a) = false) /\
    (a = 0 -> forall w, user_page w -> 4096 <= w ->
       present (pte (mem demo_vm) 0x300000 w) = true).
Proof. apply (vm_find_addr_free 0x300000 demo_vm). apply demo_wf. Defined.

Definition demo_heap : proc_heap := MkHeap 0x300000 0x40002000 0x40001800.


(** ** Where the code falls short *)

(** Pages 1 to 1022 of the first slot and the first page of the second are mapped, so
    that the free runs are the last page of slot 0 and the rest of slot 1. *)
Definition fragmented : M (vm mm_state) unit :=
  vm_map_range 0x300000 0x400000 0x1000 3 1022;;
  vm_map_page 0x300000 0x800000 0x400000 3.

(** [vm_find_range] can answer a range that is mapped.  A run that starts at the end
    of one page table and is broken in the next keeps the old directory index although
    the table index is reset; on this directory the answer for two pages is 0x1000,
    which is in use, and [vm_alloc_addr] stops the kernel although nearly the whole
    address space is free. *)
Theorem vm_find_range_mapped :
  match fragmented demo_vm with
  | Ok (_, s1) =>
      match vm_find_range 0x300000 2 s1 with
      | Ok (a, s2) => a = 0x1000 /\ present (pte (mem s2) 0x300000 a) = true
      | _ => False
      end /\
      match vm_alloc_addr 0x300000 0x900000 3 8192 s1 with Panic => True | _ => False end
  | _ => False
  end.
Proof. vm_compute. repeat split. Qed.

(** Unmapping a page that has no page table takes a frame for one, and because the flags
    of the directory entry are 0 the table is forgotten at once. *)
Lemma vm_unmap_leaks_frame :
  match vm_unmap_page 0x300000 0x50000000 demo_vm with
  | Ok (_, s1) =>
      present (word (mem s1) (cell 0x300000 (pdir_index 0x50000000))) = false /\
      page_free (mmap (phys demo_vm)) 0x100 = true /\
      page_free (mmap (phys s1)) 0x100 = false
  | _ => False
  end.
Proof. vm_compute. repeat split. Qed.

(** Booting: the kernel image, the console and the kernel directory are mapped to
    themselves when paging is switched on. *)
Lemma init_paging_demo :
  match init_paging 0x120000 0x124000 (MkVm (demo_mm 0x200000) ∅ true 0 0 0) with
  | Ok (_, s) =>
      paging_enabled s = true /\ kernel_pdir s = 0x100000 /\ working_table_map s = 0x101000 /\
      forallb (fun a => match vm_resolve_virt (kernel_pdir s) a s with
                        | Ok (r, _) => r =? a | _ => false end)
        [0x120000; 0x123FFF; 0xB8123; 0x100004; 0x101FFC; 0x400] = true
  | _ => False
  end.
Proof. vm_compute. repeat split. Qed.
