(* ===== verification/Bytes.v ===== *)
(** * Byte buffers

    Copies between buffers as [memcpy] does them, with the bounds written out, and
    buffers seen as arrays of fixed-size elements. *)

From S2P Require Import Prelude.

(** [memcpy] of [len] bytes out of a buffer at [pos], and of [bs] into one; [None] when
    the bytes are not all inside the buffer. *)
Definition bytes_at (b : list Z) (pos len : Z) : option (list Z) :=
  if (pos + len <=? Z.of_nat (length b))
  then Some (take (Z.to_nat len) (drop (Z.to_nat pos) b)) else None.
Definition splice (b : list Z) (pos : nat) (bs : list Z) : list Z :=
  take pos b ++ bs ++ drop (pos + length bs) b.
Definition copy_to (b : list Z) (pos : Z) (bs : list Z) : option (list Z) :=
  if (pos + Z.of_nat (length bs) <=? Z.of_nat (length b))
  then Some (splice b (Z.to_nat pos) bs) else None.

(** Element [i] of a buffer of elements of [e] bytes. *)
Definition slot (e : nat) (d : list Z) (i : nat) : list Z := take e (drop (i * e) d).

Lemma splice_length b pos bs :
  (pos + length bs <= length b)%nat -> length (splice b pos bs) = length b.
Proof. intros. unfold splice. rewrite !length_app, length_take, length_drop. lia. Qed.

Lemma splice_lookup b pos bs i :
  (pos + length bs <= length b)%nat ->
  splice b pos bs !! i =
    if decide (pos <= i < pos + length bs)%nat then bs !! (i - pos)%nat else b !! i.
Proof.
  intros Hlen. unfold splice. case_decide as Hin.
  - rewrite lookup_app_r by (rewrite length_take; lia).
    rewrite lookup_app_l by (rewrite length_take; lia).
    rewrite length_take. by replace (pos `min` length b)%nat with pos by lia.
  - destruct (decide (i < pos)%nat).
    + rewrite lookup_app_l by (rewrite length_take; lia). by rewrite lookup_take_lt.
    + rewrite !lookup_app_r by (rewrite ?length_take; lia).
      rewrite lookup_drop, length_take. f_equal. lia.
Qed.

Lemma slot_lookup e d i k : (k < e)%nat -> slot e d i !! k = d !! (i * e + k)%nat.
Proof. intros. unfold slot. by rewrite lookup_take_lt, lookup_drop. Qed.

Lemma slot_length e d i n :
  length d = (n * e)%nat -> (i < n)%nat -> length (slot e d i) = e.
Proof. intros Hd Hi. unfold slot. rewrite length_take, length_drop. nia. Qed.

(** Writing one slot changes that slot and no other. *)
Lemma slot_splice e n d i j x :
  length d = (n * e)%nat -> (i < n)%nat -> (j < n)%nat -> length x = e ->
  slot e (splice d (j * e) x) i = if decide (i = j) then x else slot e d i.
Proof.
  intros Hd Hi Hj Hx.
  assert (j * e + length x <= length d)%nat as Hfit by nia.
  assert (length (splice d (j * e) x) = (n * e)%nat) as Hl by (by rewrite splice_length).
  apply list_eq_same_length with (n := e).
  - case_decide; [by subst | by apply (slot_length e d i n)].
  - by apply (slot_length e _ i n).
  - intros k a b Hk. rewrite slot_lookup by done. rewrite splice_lookup by done.
    destruct (decide (i = j)) as [->|Hij].
    + rewrite decide_True by lia. replace (j * e + k - j * e)%nat with k by lia. congruence.
    + rewrite decide_False by (rewrite Hx; nia). rewrite slot_lookup by done. congruence.
Qed.
