(* ===== verification/RingBuffer.v ===== *)
(** * Ring buffers

    kernel/util/ringbuffer.c.  A buffer is the record of the C structure with its
    bytes; the main theorem relates every sequence of reads and writes of a buffer
    without the override flag to a bounded first-in first-out queue. *)

From S2P Require Import Prelude Bytes.

Record ringbuffer := MkRb {
  data : list Z;
  esize : Z;
  maxcnt : Z;
  count : Z;
  ridx : Z;
  widx : Z;
  override : bool;
}.

(** [rbuf_create(esize, num, override)]: [kmalloc] is the caller's; it answers the new
    block's bytes, or [None]. *)
Definition rbuf_create (kmalloc : Z -> option (list Z)) (sizeof_rb esz num : Z) (ovr : bool)
    : option ringbuffer :=
  match kmalloc sizeof_rb with
  | None => None
  | Some _ =>
      match kmalloc (u32 (esz * num)) with
      | None => None
      | Some d => Some (MkRb d esz num 0 0 0 ovr)
      end
  end.

(** [rbuf_init_static(rb, data, esize, num, override)]: nothing happens for a NULL
    structure or buffer. *)
Definition rbuf_init_static (rb : option ringbuffer) (d : option (list Z)) (esz num : Z)
    (ovr : bool) : option ringbuffer :=
  match rb, d with
  | Some _, Some d => Some (MkRb d esz num 0 0 0 ovr)
  | _, _ => rb
  end.

Definition rbuf_empty (rb : ringbuffer) : bool := count rb =? 0.
Definition rbuf_avail (rb : ringbuffer) : Z := count rb.
Definition rbuf_freesize (rb : ringbuffer) : Z := u32 (maxcnt rb - count rb).

Definition set_data_widx (d : list Z) (w : Z) (rb : ringbuffer) : ringbuffer :=
  MkRb d (esize rb) (maxcnt rb) (count rb) (ridx rb) w (override rb).
Definition set_ridx (r : Z) (rb : ringbuffer) : ringbuffer :=
  MkRb (data rb) (esize rb) (maxcnt rb) (count rb) r (widx rb) (override rb).
Definition set_count (c : Z) (rb : ringbuffer) : ringbuffer :=
  MkRb (data rb) (esize rb) (maxcnt rb) c (ridx rb) (widx rb) (override rb).

(** [idx += esize; idx %= maxcnt * esize]; the remainder by zero is undefined. *)
Definition advance (idx : Z) (rb : ringbuffer) : option Z :=
  let size := u32 (maxcnt rb * esize rb) in
  if size =? 0 then None else Some (u32 (idx + esize rb) mod size).

(** One turn of the loop of [rbuf_write]. *)
Definition write_one (src : list Z) (i : Z) : M ringbuffer unit :=
  rb ← get;
  bs ← deref (bytes_at src (u32 (i * esize rb)) (esize rb));
  d ← deref (copy_to (data rb) (widx rb) bs);
  w ← deref (advance (widx rb) rb);
  modify (set_data_widx d w).

Definition rbuf_write (src : list Z) (cnt : Z) : M ringbuffer Z :=
  rb ← get;
  let num := if (rbuf_freesize rb <? cnt) && negb (override rb) then rbuf_freesize rb else cnt in
  mfor num (write_one src);;
  modify (fun rb => set_count (u32 (count rb + num)) rb);;
  mret num.

(** One turn of the loop of [rbuf_read]; the destination is part of the state. *)
Definition read_one (i : Z) : M (ringbuffer * list Z) unit :=
  st ← get;
  let '(rb, dst) := (st : ringbuffer * list Z) in
  bs ← deref (bytes_at (data rb) (ridx rb) (esize rb));
  dst' ← deref (copy_to dst (u32 (i * esize rb)) bs);
  r ← deref (advance (ridx rb) rb);
  modify (fun _ => (set_ridx r rb, dst')).

Definition rbuf_read (cnt : Z) : M (ringbuffer * list Z) Z :=
  st ← get;
  let rb := st.1 in
  let num := if rbuf_avail rb <? cnt then rbuf_avail rb else cnt in
  mfor num read_one;;
  modify (fun st => (set_count (u32 (count st.1 - num)) st.1, st.2));;
  mret num.

(** ** Specification: a bounded queue of elements *)

Inductive rb_op := Write (es : list (list Z)) | Read (n : nat).

(** What each request answers: the number written, or the elements read. *)
Inductive rb_answer := Written (n : nat) | Got (es : list (list Z)).

Definition spec_step (cap : nat) (op : rb_op) (q : list (list Z)) : rb_answer * list (list Z) :=
  match op with
  | Write es => let n := Nat.min (length es) (cap - length q) in (Written n, q ++ take n es)
  | Read n => (Got (take n q), drop n q)
  end.

Fixpoint spec_run (cap : nat) (ops : list rb_op) (q : list (list Z))
    : list rb_answer * list (list Z) :=
  match ops with
  | [] => ([], q)
  | op :: ops =>
      let '(a, q) := spec_step cap op q in
      let '(l, q) := spec_run cap ops q in (a :: l, q)
  end.

(** The same requests to the C functions: elements are passed as consecutive bytes, and
    read into a zeroed destination that is split into elements again. *)
Fixpoint chunks (e : nat) (n : nat) (bs : list Z) : list (list Z) :=
  match n with
  | O => []
  | S n => take e bs :: chunks e n (drop e bs)
  end.

Definition impl_step (op : rb_op) (rb : ringbuffer) : outcome (rb_answer * ringbuffer) :=
  match op with
  | Write es =>
      match rbuf_write (mjoin es) (Z.of_nat (length es)) rb with
      | Ok (n, rb) => Ok (Written (Z.to_nat n), rb)
      | Panic => Panic
      | Fault => Fault
      end
  | Read n =>
      match rbuf_read (Z.of_nat n) (rb, replicate (n * Z.to_nat (esize rb)) 0) with
      | Ok (k, (rb, dst)) => Ok (Got (chunks (Z.to_nat (esize rb)) (Z.to_nat k) dst), rb)
      | Panic => Panic
      | Fault => Fault
      end
  end.

Fixpoint impl_run (ops : list rb_op) (rb : ringbuffer)
    : outcome (list rb_answer * ringbuffer) :=
  match ops with
  | [] => Ok ([], rb)
  | op :: ops =>
      match impl_step op rb with
      | Ok (a, rb) =>
          match impl_run ops rb with
          | Ok (l, rb) => Ok (a :: l, rb)
          | Panic => Panic
          | Fault => Fault
          end
      | Panic => Panic
      | Fault => Fault
      end
  end.

(** ** The abstraction relation *)

(** [rb] holds the elements [q]; [r] is the index of the oldest one. *)
Record ring (e cap : nat) (rb : ringbuffer) (r : nat) (q : list (list Z)) : Prop := {
  ring_e : (0 < e)%nat;
  ring_cap : (0 < cap)%nat;
  ring_size : Z.of_nat (2 * (cap * e)) < 2 ^ 32;
  ring_len : length (data rb) = (cap * e)%nat;
  ring_esize : esize rb = Z.of_nat e;
  ring_max : maxcnt rb = Z.of_nat cap;
  ring_count : count rb = Z.of_nat (length q);
  ring_full : (length q <= cap)%nat;
  ring_r : (r < cap)%nat;
  ring_ridx : ridx rb = Z.of_nat (r * e);
  ring_widx : widx rb = Z.of_nat ((r + length q) mod cap * e);
  ring_data i x : q !! i = Some x -> slot e (data rb) ((r + i) mod cap) = x;
  ring_ovr : override rb = false;
  ring_elem : Forall (fun x => length x = e) q;
}.

(** ** One element *)

Lemma advance_eq e cap rb r q i :
  ring e cap rb r q -> (i < cap)%nat ->
  advance (Z.of_nat (i * e)) rb = Some (Z.of_nat ((i + 1) mod cap * e)).
Proof.
  intros [] Hi. unfold advance. rewrite ring_esize0, ring_max0.
  rewrite <- Nat2Z.inj_mul, <- Nat2Z.inj_add.
  rewrite !u32_small by (unfold is_u32; nia).
  rewrite (proj2 (Z.eqb_neq _ 0)) by nia. rewrite <- Nat2Z.inj_mod. do 2 f_equal.
  replace (i * e + e)%nat with ((i + 1) * e)%nat by lia.
  by rewrite Nat.Div0.mul_mod_distr_r.
Qed.

Lemma mod_step r k cap : (((r + k) mod cap + 1) mod cap = (r + (k + 1)) mod cap)%nat.
Proof. rewrite Nat.Div0.add_mod_idemp_l. f_equal. lia. Qed.

(** Two of the [cap] positions from [r] on differ when their distance does. *)
Lemma mod_inj r i j cap :
  (i < cap)%nat -> (j < cap)%nat -> ((r + i) mod cap = (r + j) mod cap)%nat -> i = j.
Proof.
  intros Hi Hj He.
  assert (forall a b : nat, (a <= b < cap)%nat -> ((r + a) mod cap = (r + b) mod cap)%nat -> a = b)
    as Hw; [|destruct (decide (i <= j)%nat); [apply Hw; (done || lia) |
      symmetry; apply Hw; (done || lia)]].
  intros a b Hab E. pose proof (Nat.div_mod_eq (r + a) cap) as E1.
  pose proof (Nat.div_mod_eq (r + b) cap) as E2. rewrite E in E1.
  assert ((r + b) / cap = (r + a) / cap)%nat as E3 by nia. nia.
Qed.

Lemma write_one_spec e cap rb r q es i x :
  ring e cap (set_count (Z.of_nat (length q)) rb) r q -> (length q < cap)%nat ->
  Forall (fun x => length x = e) es -> es !! i = Some x ->
  Z.of_nat (length es * e) < 2 ^ 32 ->
  exists rb', write_one (mjoin es) (Z.of_nat i) rb = Ok (tt, rb') /\
    ring e cap (set_count (Z.of_nat (length q + 1)) rb') r (q ++ [x]) /\
    count rb' = count rb.
Proof.
  intros Hr Hroom Hes Hx Hlen.
  assert (length x = e) as Hxe by (by eapply Forall_lookup_1 in Hes).
  pose proof (lookup_lt_Some _ _ _ Hx) as Hi.
  assert (bytes_at (mjoin es) (u32 (Z.of_nat i * esize rb)) (esize rb) = Some x) as Hsrc.
  { unfold bytes_at. pose proof (ring_esize _ _ _ _ _ Hr) as Ee. simpl in Ee.
    rewrite Ee, <- Nat2Z.inj_mul.
    rewrite u32_small by (unfold is_u32; nia). rewrite !Nat2Z.id.
    assert (length (mjoin es) = (length es * e)%nat) as Hj.
    { clear -Hes. induction Hes as [|y es Hy _ IH]; simpl; [done|]. rewrite length_app. lia. }
    rewrite Hj, (proj2 (Z.leb_le _ _)) by nia. f_equal. clear -Hes Hx.
    revert i Hx. induction Hes as [|y es Hy _ IH]; intros i Hx; [done|].
    destruct i as [|i]; simpl in *.
    - injection Hx as ->. rewrite <- Hy, drop_0. by rewrite take_app_length.
    - rewrite drop_app_ge by lia. replace (e + i * e - length y)%nat with (i * e)%nat by lia.
      by apply IH. }
  pose proof (fun i => advance_eq e cap _ r q i Hr) as Hadvance.
  destruct Hr. simpl in *. set (w := ((r + length q) mod cap)%nat) in *.
  assert (w < cap)%nat as Hw by (apply Nat.mod_upper_bound; lia).
  assert (copy_to (data rb) (widx rb) x = Some (splice (data rb) (w * e) x)) as Hcp.
  { unfold copy_to. rewrite ring_widx0, ring_len0, Hxe, (proj2 (Z.leb_le _ _)) by nia.
    by rewrite Nat2Z.id. }
  assert (advance (widx rb) rb = Some (Z.of_nat ((w + 1) mod cap * e))) as Hadv.
  { rewrite ring_widx0. by apply Hadvance. }
  eexists. split; [|split].
  - unfold write_one, mbind, M_bind, get. rewrite Hsrc. simpl. unfold mret, M_ret.
    rewrite Hcp. simpl. unfold mret, M_ret. rewrite Hadv. simpl. done.
  - assert (w * e + length x <= length (data rb))%nat by nia.
    constructor; simpl; rewrite ?length_app; simpl; try done; try lia.
    + by rewrite splice_length.
    + unfold w. by rewrite mod_step.
    + intros j y Hy. assert (length q < cap)%nat by done.
      assert (j < length (q ++ [x]))%nat as Hj by (by eapply lookup_lt_Some).
      rewrite length_app in Hj. simpl in Hj.
      rewrite (slot_splice e cap) by (done || (apply Nat.mod_upper_bound; lia)).
      case_decide as Hjw.
      * apply mod_inj in Hjw; [subst j | lia..]. rewrite list_lookup_middle in Hy by done.
        congruence.
      * apply ring_data0. destruct (decide (j < length q)%nat).
        -- by rewrite lookup_app_l in Hy.
        -- destruct Hjw. unfold w. by replace j with (length q) by lia.
    + apply Forall_app. auto.
  - done.
Qed.

Lemma read_one_spec e cap rb r q dst n i x :
  ring e cap (set_count (Z.of_nat (length (x :: q))) rb) r (x :: q) ->
  length dst = (n * e)%nat -> (i < n)%nat -> Z.of_nat (n * e) < 2 ^ 32 ->
  exists rb', read_one (Z.of_nat i) (rb, dst) = Ok (tt, (rb', splice dst (i * e) x)) /\
    ring e cap (set_count (Z.of_nat (length q)) rb') ((r + 1) mod cap) q /\
    count rb' = count rb /\ esize rb' = esize rb.
Proof.
  intros Hr Hd Hi Hn. pose proof (fun i => advance_eq e cap _ r (x :: q) i Hr) as Hadvance.
  destruct Hr. simpl in *. apply Forall_cons in ring_elem0 as [Hx Hq].
  assert (bytes_at (data rb) (ridx rb) (esize rb) = Some x) as Hsrc.
  { unfold bytes_at. rewrite ring_ridx0, ring_esize0, ring_len0, (proj2 (Z.leb_le _ _)) by nia.
    rewrite !Nat2Z.id. f_equal. rewrite <- (ring_data0 0%nat x) by done.
    rewrite Nat.add_0_r, Nat.mod_small by done. done. }
  assert (copy_to dst (u32 (Z.of_nat i * esize rb)) x = Some (splice dst (i * e) x)) as Hcp.
  { unfold copy_to. rewrite ring_esize0, <- Nat2Z.inj_mul, u32_small by (unfold is_u32; nia).
    rewrite Hx, Hd, (proj2 (Z.leb_le _ _)) by nia. by rewrite Nat2Z.id. }
  assert (advance (ridx rb) rb = Some (Z.of_nat ((r + 1) mod cap * e))) as Hadv.
  { rewrite ring_ridx0. by apply Hadvance. }
  eexists. split; [|split; [|split]].
  - unfold read_one, mbind, M_bind, get. rewrite Hsrc. simpl. unfold mret, M_ret.
    rewrite Hcp. simpl. unfold mret, M_ret. rewrite Hadv. simpl. done.
  - constructor; simpl; try done; try lia.
    + apply Nat.mod_upper_bound. lia.
    + rewrite Nat.Div0.add_mod_idemp_l. rewrite ring_widx0. do 3 f_equal. lia.
    + intros j y Hy. rewrite Nat.Div0.add_mod_idemp_l.
      rewrite <- (ring_data0 (Datatypes.S j) y) by done. do 2 f_equal. lia.
  - done.
  - done.
Qed.

(** ** The loops *)

Lemma rbuf_write_spec e cap rb r q es :
  ring e cap rb r q -> Forall (fun x => length x = e) es -> Z.of_nat (length es * e) < 2 ^ 32 ->
  let n := Nat.min (length es) (cap - length q) in
  exists rb', rbuf_write (mjoin es) (Z.of_nat (length es)) rb = Ok (Z.of_nat n, rb') /\
    ring e cap rb' r (q ++ take n es).
Proof.
  intros Hr Hes Hlen n. pose proof Hr as [].
  assert (rbuf_freesize rb = Z.of_nat (cap - length q)) as Efree.
  { unfold rbuf_freesize. rewrite ring_max0, ring_count0, u32_small by (unfold is_u32; nia). lia. }
  assert ((if (rbuf_freesize rb <? Z.of_nat (length es)) && negb (override rb)
           then rbuf_freesize rb else Z.of_nat (length es)) = Z.of_nat n) as En.
  { rewrite Efree, ring_ovr0, andb_true_r. unfold n. destruct (Z.ltb_spec
      (Z.of_nat (cap - length q)) (Z.of_nat (length es))); lia. }
  unfold rbuf_write, mbind, M_bind, get. rewrite En.
  pose proof (mfor_spec (write_one (mjoin es))
    (fun i s => ring e cap (set_count (Z.of_nat (length (q ++ take (Z.to_nat i) es))) s) r
                  (q ++ take (Z.to_nat i) es) /\ count s = count rb)
    (fun _ _ => False) (Z.of_nat n) rb ltac:(lia)) as Hloop.
  lapply Hloop; clear Hloop.
  2: { rewrite take_0, app_nil_r, <- ring_count0. by destruct rb. }
  intros Hloop. lapply Hloop; clear Hloop.
  - destruct (mfor (Z.of_nat n) (write_one (mjoin es)) rb) as [[[] rb']| |];
      [|intros (? & ? & _ & _ & _ & []) | done].
    rewrite Nat2Z.id. intros [Hr' Hc']. eexists. split; [done|].
    replace (u32 (count rb' + Z.of_nat n)) with (Z.of_nat (length (q ++ take n es))); [done|].
    rewrite Hc', ring_count0, length_app, length_take, u32_small by (unfold is_u32; nia). lia.
  - intros i s Hi [Hi1 Hi2].
    destruct (lookup_lt_is_Some_2 es (Z.to_nat i)) as [x Hx]; [lia|].
    destruct (write_one_spec e cap s r _ es (Z.to_nat i) x Hi1) as (rb' & Hrun & Hr' & Hc');
      [rewrite length_app, length_take; lia | done..|].
    rewrite Z2Nat.id in Hrun by lia. rewrite Hrun.
    replace (Z.to_nat (i + 1)) with (Datatypes.S (Z.to_nat i)) by lia.
    rewrite (take_S_r _ _ x) by done. rewrite app_assoc. split; [|congruence].
    by rewrite length_app.
Qed.

Lemma chunks_slots e n d : chunks e n d = map (slot e d) (seq 0 n).
Proof.
  revert d. induction n as [|n IH]; intros d; [done|]. simpl. f_equal.
  rewrite IH, <- fmap_S_seq, <- list_fmap_compose. apply list_fmap_ext. intros _ i _.
  unfold slot. simpl. by rewrite drop_drop.
Qed.

Lemma rbuf_read_spec e cap rb r q n :
  ring e cap rb r q -> Z.of_nat (n * e) < 2 ^ 32 ->
  exists rb' r' dst, rbuf_read (Z.of_nat n) (rb, replicate (n * e) 0)
      = Ok (Z.of_nat (Nat.min n (length q)), (rb', dst)) /\
    ring e cap rb' r' (drop n q) /\ esize rb' = esize rb /\
    chunks e (Nat.min n (length q)) dst = take n q.
Proof.
  intros Hr Hlen. pose proof Hr as [].
  set (k := Nat.min n (length q)).
  unfold rbuf_read, mbind, M_bind, get. cbn [fst]. unfold rbuf_avail.
  replace (if count rb <? Z.of_nat n then count rb else Z.of_nat n) with (Z.of_nat k)
    by (rewrite ring_count0; destruct (Z.ltb_spec (Z.of_nat (length q)) (Z.of_nat n)); lia).
  set (I := fun (i : Z) (st : ringbuffer * list Z) =>
    ring e cap (set_count (Z.of_nat (length (drop (Z.to_nat i) q))) st.1)
      ((r + Z.to_nat i) mod cap) (drop (Z.to_nat i) q) /\ count st.1 = count rb /\
    esize st.1 = esize rb /\ length st.2 = (n * e)%nat /\
    forall j x, (j < Z.to_nat i)%nat -> q !! j = Some x -> slot e st.2 j = x).
  pose proof (mfor_spec read_one I (fun _ _ => False) (Z.of_nat k)
    (rb, replicate (n * e) 0) ltac:(lia)) as Hloop.
  lapply Hloop; clear Hloop.
  2: { unfold I. simpl. rewrite drop_0, Nat.add_0_r, Nat.mod_small, length_replicate by done.
       split_and!; [rewrite <- ring_count0; by destruct rb | done.. | lia]. }
  intros Hloop. lapply Hloop; clear Hloop.
  - destruct (mfor (Z.of_nat k) read_one _) as [[[] [rb' dst]]| |];
      [|intros (? & ? & _ & _ & _ & []) | done].
    unfold I. simpl. rewrite Nat2Z.id. intros (Hr' & Hc' & He' & Hl' & Hs').
    eexists _, _, dst. split; [done|].
    assert (drop n q = drop k q) as -> by (unfold k; destruct (decide (n <= length q)%nat);
      [by rewrite Nat.min_l | rewrite Nat.min_r, !drop_ge by lia; done]).
    split_and!; [|done|].
    + replace (u32 (count rb' - Z.of_nat k)) with (Z.of_nat (length (drop k q))); [done|].
      rewrite Hc', ring_count0, length_drop, u32_small by (unfold is_u32; nia). lia.
    + rewrite chunks_slots. apply list_eq. intros j.
      rewrite list_lookup_fmap. destruct (decide (j < k)%nat) as [Hj|Hj].
      * rewrite lookup_seq_lt by done. simpl.
        destruct (lookup_lt_is_Some_2 q j) as [x Hx]; [lia|].
        rewrite lookup_take_lt by lia. rewrite Hx. f_equal. by apply Hs'.
      * rewrite lookup_seq_ge by lia. symmetry. apply lookup_ge_None_2. rewrite length_take. lia.
  - intros i [rb1 dst] Hi. unfold I. cbn [fst snd]. intros (Hr1 & Hc1 & He1 & Hl1 & Hs1).
    destruct (lookup_lt_is_Some_2 q (Z.to_nat i)) as [x Hx]; [lia|].
    rewrite (drop_S q x) in Hr1 by done.
    destruct (read_one_spec e cap rb1 _ _ dst n (Z.to_nat i) x Hr1) as (rb' & Hrun & Hr' & Hc' & He');
      [done | lia | done |].
    rewrite Z2Nat.id in Hrun by lia. rewrite Hrun. cbn [fst snd].
    replace (Z.to_nat (i + 1)) with (Datatypes.S (Z.to_nat i)) by lia.
    rewrite mod_step in Hr'. rewrite Nat.add_1_r in Hr'. split; [done|].
    assert (length x = e) as Hxe by (by apply (Forall_lookup_1 _ _ _ _ ring_elem0 Hx)).
    split_and!; [congruence..| |].
    + rewrite splice_length; [done|]. nia.
    + intros j y Hj Hy. rewrite (slot_splice e n) by (done || lia).
      case_decide as Hji; [subst j; congruence|]. apply Hs1; [lia | done].
Qed.

(** ** Correctness *)

(** Requests a caller may make: elements of the right size, in buffers whose size in
    bytes is an [unsigned int]. *)
Definition op_ok (e : nat) (op : rb_op) : Prop :=
  match op with
  | Write es => Forall (fun x => length x = e) es /\ Z.of_nat (length es * e) < 2 ^ 32
  | Read n => Z.of_nat (n * e) < 2 ^ 32
  end.

Lemma impl_step_spec e cap rb r q op :
  ring e cap rb r q -> op_ok e op ->
  exists rb' r', impl_step op rb = Ok ((spec_step cap op q).1, rb') /\
    ring e cap rb' r' (spec_step cap op q).2.
Proof.
  intros Hr Hok. destruct op as [es|n]; simpl in *.
  - destruct Hok as [Hes Hl]. destruct (rbuf_write_spec e cap rb r q es Hr Hes Hl) as (rb' & -> & Hr').
    exists rb', r. by rewrite Nat2Z.id.
  - pose proof (ring_esize _ _ _ _ _ Hr) as Ee.
    destruct (rbuf_read_spec e cap rb r q n Hr Hok) as (rb' & r' & dst & Hrun & Hr' & He & Hc).
    exists rb', r'. rewrite Ee, Nat2Z.id, Hrun, He, Ee, !Nat2Z.id, Hc. done.
Qed.

(** C11: a ring buffer without the override flag is a bounded queue.  Every sequence of
    writes and reads through [rbuf_write] and [rbuf_read] runs without touching memory
    outside the buffers and gives, request by request, the answers of a first-in
    first-out queue of [maxcnt] elements: a write accepts as many elements as there is
    room for, a read takes the oldest ones. *)
Theorem rbuf_refines_queue e cap ops rb r q :
  ring e cap rb r q -> Forall (op_ok e) ops ->
  exists rb' r', impl_run ops rb = Ok ((spec_run cap ops q).1, rb') /\
    ring e cap rb' r' (spec_run cap ops q).2.
Proof.
  intros Hr Hok. revert rb r q Hr. induction Hok as [|op ops Hop _ IH]; intros rb r q Hr; simpl.
  - eauto.
  - destruct (impl_step_spec e cap rb r q op Hr Hop) as (rb1 & r1 & -> & Hr1).
    destruct (spec_step cap op q) as [a q1]. simpl in *.
    destruct (IH rb1 r1 q1 Hr1) as (rb' & r' & -> & Hr').
    destruct (spec_run cap ops q1) as [l q2]. eauto.
Qed.

(** A fresh buffer holds the empty queue. *)
Lemma fresh_ring e cap d :
  (0 < e)%nat -> (0 < cap)%nat -> Z.of_nat (2 * (cap * e)) < 2 ^ 32 ->
  length d = (cap * e)%nat ->
  ring e cap (MkRb d (Z.of_nat e) (Z.of_nat cap) 0 0 0 false) 0 [].
Proof.
  intros. constructor; simpl; try done; try lia. rewrite Nat.Div0.mod_0_l. done.
Qed.

Lemma rbuf_refines_queue_witness :
  exists rb' r',
    impl_run [Write [[1; 2]; [3; 4]; [5; 6]; [7; 8]]; Read 2; Write [[9; 10]; [11; 12]]; Read 5]
      (MkRb [0; 0; 0; 0; 0; 0] 2 3 0 0 0 false)
    = Ok ((spec_run 3 [Write [[1; 2]; [3; 4]; [5; 6]; [7; 8]]; Read 2;
                       Write [[9; 10]; [11; 12]]; Read 5] []).1, rb') /\
    ring 2 3 rb' r' (spec_run 3 [Write [[1; 2]; [3; 4]; [5; 6]; [7; 8]]; Read 2;
                       Write [[9; 10]; [11; 12]]; Read 5] []).2.
Proof.
  apply (rbuf_refines_queue 2 3 _ _ 0 []).
  - apply (fresh_ring 2 3); (done || lia).
  - repeat constructor.
Defined.

(** with the override flag set the element count runs past the capacity: after
    writing three elements to a buffer of two, three are reported available, the free
    size wraps around to 2^32 - 1, and a read returns the newest element twice instead of
    the two newest ones. *)
Theorem rbuf_override_overcounts :
  exists rb, rbuf_write [1; 2; 3] 3 (MkRb [0; 0] 1 2 0 0 0 true) = Ok (3, rb) /\
    rbuf_avail rb = 3 /\ rbuf_freesize rb = 2 ^ 32 - 1 /\
    exists rb', rbuf_read 3 (rb, [0; 0; 0]) = Ok (3, (rb', [3; 2; 3])).
Proof.
  eexists. split; [vm_compute; reflexivity|]. split; [done|]. split; [done|].
  eexists. vm_compute. reflexivity.
Qed.
