(* ===== verification/DynArray.v ===== *)
(** * Growing arrays

    kernel/util/array.c.  An array is the record of the C structure with its bytes; the
    block [krealloc] answers keeps the old bytes up to the smaller size, and what lies
    beyond them is whatever the heap holds ([junk]). *)

From S2P Require Import Prelude Bytes.

Definition AR_INIT_ELEMENTS : Z := 10.
Definition AR_RESIZE_FACT : Z := 2.
Definition my_max (a b : Z) : Z := if b <? a then a else b.

Record array := MkArray {
  data : list Z;
  esize : Z;
  maxcnt : Z;
  count : Z;
}.

Section array_ops.
(** The contents of a fresh heap block of a given size. *)
Context (junk : Z -> list Z).

(** [krealloc(data, size)]. *)
Definition realloc_bytes (old : list Z) (size : Z) : list Z :=
  take (Z.to_nat size) (old ++ drop (length old) (junk size)).

(** [array_create(esize)], with [ARRAY_INIT_WITH_ZERO]. *)
Definition array_create (esz : Z) : array :=
  MkArray (replicate (Z.to_nat (u32 (AR_INIT_ELEMENTS * esz))) 0) esz AR_INIT_ELEMENTS 0.

Definition array_count (ar : array) : Z := count ar.

(** [array_get(ar, index)]: the address of the element, as an offset into the data. *)
Definition array_get (ar : array) (index : Z) : option Z :=
  if count ar <=? index then None else Some (u32 (index * esize ar)).

(** [memset(&data[pos], 0, len)]. *)
Definition zero_at (d : list Z) (pos len : Z) : option (list Z) :=
  copy_to d pos (replicate (Z.to_nat len) 0).

(** [resize(ar, num)], with [ARRAY_INIT_WITH_ZERO]. *)
Definition resize (num : Z) : M array unit :=
  ar ← get;
  let old_max := maxcnt ar in
  let d := realloc_bytes (data ar) (u32 (num * esize ar)) in
  d ← (if old_max <? num then
         deref (zero_at d (u32 (old_max * esize ar)) (u32 ((num - old_max) * esize ar)))
       else mret d);
  modify (fun ar => MkArray d (esize ar) num (if num <? count ar then num else count ar)).

(** [array_set(ar, index, ptr)]; the answer is the offset of the element. *)
Definition array_set (index : Z) (x : list Z) : M array Z :=
  ar ← get;
  (if maxcnt ar <=? index then resize (my_max (u32 (maxcnt ar * AR_RESIZE_FACT)) index)
   else mret tt);;
  ar ← get;
  d ← deref (copy_to (data ar) (u32 (index * esize ar)) x);
  modify (fun ar =>
    MkArray d (esize ar) (maxcnt ar) (my_max (count ar) (u32 (index + 1))));;
  mret (u32 (index * esize ar)).

(** [array_pop_back(ar, dst)]: the element copied, if any, and the value returned: the
    success path has no [return], so its value is not determined ([None]). *)
Definition array_pop_back (dst_null : bool) : M array (option (list Z) * option bool) :=
  ar ← get;
  if (count ar =? 0) || dst_null then mret (None, Some false)
  else
    off ← deref (array_get ar (count ar - 1));
    x ← deref (bytes_at (data ar) off (esize ar));
    modify (fun ar => MkArray (data ar) (esize ar) (maxcnt ar) (u32 (count ar - 1)));;
    mret (Some x, None).

Definition array_push_back (x : list Z) : M array Z :=
  ar ← get;
  let index := count ar in
  array_set index x;;
  mret index.

Definition array_resize (num : Z) : M array unit :=
  resize num;;
  modify (fun ar => MkArray (data ar) (esize ar) (maxcnt ar) num).

Definition array_reserve (num : Z) : M array unit :=
  ar ← get; resize (u32 (count ar + num)).

Definition array_shrink : M array unit :=
  ar ← get; resize (count ar).

(** ** Specification: a list of elements *)

Inductive ar_op :=
| Push (x : list Z) | Pop | Get (i : nat) | Set_ (i : nat) (x : list Z)
| Reserve (n : nat) | Resize (n : nat) | Shrink.

Inductive ar_answer := Index (i : Z) | Elem (x : option (list Z)) | Done.

Definition ar_spec (op : ar_op) (l : list (list Z)) : ar_answer * list (list Z) :=
  match op with
  | Push x => (Index (Z.of_nat (length l)), l ++ [x])
  | Pop => (Elem (last l), take (length l - 1) l)
  | Get i => (Elem (l !! i), l)
  | Set_ i x => (Done, <[i := x]> l)
  | Reserve _ => (Done, l)
  | Resize n => (Done, take n l)
  | Shrink => (Done, l)
  end.

(** The same requests to the C functions. *)
Definition ar_impl (op : ar_op) : M array ar_answer :=
  match op with
  | Push x => i ← array_push_back x; mret (Index i)
  | Pop => r ← array_pop_back false; mret (Elem (fst r))
  | Get i =>
      ar ← get;
      match array_get ar (Z.of_nat i) with
      | None => mret (Elem None)
      | Some off => x ← deref (bytes_at (data ar) off (esize ar)); mret (Elem (Some x))
      end
  | Set_ i x => array_set (Z.of_nat i) x;; mret Done
  | Reserve n => array_reserve (Z.of_nat n);; mret Done
  | Resize n => array_resize (Z.of_nat n);; mret Done
  | Shrink => array_shrink;; mret Done
  end.

(** [ar] holds the elements [l] in a buffer of [cap] elements. *)
Record array_rep (e cap : nat) (ar : array) (l : list (list Z)) : Prop := {
  rep_e : (0 < e)%nat;
  rep_cap : (0 < cap)%nat;
  rep_esize : esize ar = Z.of_nat e;
  rep_max : maxcnt ar = Z.of_nat cap;
  rep_count : count ar = Z.of_nat (length l);
  rep_fit : (length l <= cap)%nat;
  rep_len : length (data ar) = (cap * e)%nat;
  rep_data i x : l !! i = Some x -> slot e (data ar) i = x;
  rep_elem : Forall (fun x => length x = e) l;
}.

(** Requests within the contract: elements of the right size, indices of present
    elements, and sizes that neither wrap nor leave the array without a buffer. *)
Definition ar_ok (e : nat) (l : list (list Z)) (op : ar_op) : Prop :=
  match op with
  | Push x => length x = e
  | Pop => True
  | Get i => Z.of_nat i < 2 ^ 32
  | Set_ i x => (i < length l)%nat /\ length x = e
  | Reserve n => Z.of_nat ((length l + n) * e) < 2 ^ 32 /\ (0 < length l + n)%nat
  | Resize n => (0 < n <= length l)%nat
  | Shrink => (0 < length l)%nat
  end.

(** ** Lemmas *)

Hypothesis junk_length : forall n, length (junk n) = Z.to_nat n.

Lemma realloc_length old n : 0 <= n -> length (realloc_bytes old n) = Z.to_nat n.
Proof.
  intros. unfold realloc_bytes. rewrite length_take, length_app, length_drop, junk_length. lia.
Qed.

Lemma realloc_lookup old n k :
  (k < length old)%nat -> (k < Z.to_nat n)%nat -> realloc_bytes old n !! k = old !! k.
Proof.
  intros. unfold realloc_bytes. rewrite lookup_take_lt, lookup_app_l by done. done.
Qed.

(** Two buffers that agree on the bytes of a slot. *)
Lemma slot_ext e d d' i :
  (i * e + e <= length d)%nat -> (i * e + e <= length d')%nat ->
  (forall k, (k < e)%nat -> d' !! (i * e + k)%nat = d !! (i * e + k)%nat) ->
  slot e d' i = slot e d i.
Proof.
  intros Hd Hd' Hk. apply list_eq_same_length with (n := e).
  - unfold slot. rewrite length_take, length_drop. lia.
  - unfold slot. rewrite length_take, length_drop. lia.
  - intros k x y Hlt. rewrite !slot_lookup, Hk by done. congruence.
Qed.

Lemma resize_spec e cap n ar l :
  array_rep e cap ar l -> (0 < n)%nat -> Z.of_nat (cap * e) < 2 ^ 32 ->
  Z.of_nat (n * e) < 2 ^ 32 ->
  exists ar', resize (Z.of_nat n) ar = Ok (tt, ar') /\ array_rep e n ar' (take n l).
Proof.
  intros [] Hn Hc Hne. unfold resize, mbind, M_bind, get.
  rewrite rep_esize0, rep_max0, <- !Nat2Z.inj_mul.
  rewrite u32_small by (unfold is_u32; lia).
  set (d := realloc_bytes (data ar) (Z.of_nat (n * e))).
  assert (length d = (n * e)%nat) as Hd by (unfold d; rewrite realloc_length; lia).
  assert (exists d', (if Z.of_nat cap <? Z.of_nat n then
      deref (zero_at d (u32 (Z.of_nat (cap * e))) (u32 ((Z.of_nat n - Z.of_nat cap) * Z.of_nat e)))
      else mret d) ar = Ok (d', ar) /\ length d' = (n * e)%nat /\
      forall k, (k < cap * e)%nat -> (k < n * e)%nat -> d' !! k = d !! k)
    as (d' & Hrun & Hl & Hsame).
  { destruct (Z.ltb_spec (Z.of_nat cap) (Z.of_nat n)); [|by exists d].
    assert ((Z.of_nat n - Z.of_nat cap) * Z.of_nat e = Z.of_nat ((n - cap) * e)) as -> by nia.
    rewrite !u32_small by (unfold is_u32; nia). unfold zero_at, copy_to.
    rewrite length_replicate, Nat2Z.id, Hd, (proj2 (Z.leb_le _ _)) by nia.
    eexists. split; [done|]. rewrite Nat2Z.id. split.
    - rewrite splice_length; [done|]. rewrite length_replicate. nia.
    - intros k Hk1 Hk2. rewrite splice_lookup by (rewrite length_replicate; nia).
      rewrite decide_False by lia. done. }
  rewrite Hrun. eexists. split; [done|]. constructor; simpl; try done.
  - rewrite rep_count0, length_take.
    destruct (Z.ltb_spec (Z.of_nat n) (Z.of_nat (length l))); lia.
  - rewrite length_take. lia.
  - intros i x Hi. apply lookup_take_Some in Hi as [Hi Hlt].
    assert (i < length l)%nat by (by eapply lookup_lt_Some).
    assert (i * e + e <= cap * e)%nat by nia. assert (i * e + e <= n * e)%nat by nia.
    rewrite <- (rep_data0 i x Hi). apply slot_ext; [lia..|].
    intros k Hk. rewrite Hsame by lia. unfold d. apply realloc_lookup; lia.
  - by apply Forall_take.
Qed.

(** Storing an element that fits. *)
Lemma store_spec e cap ar l i x :
  array_rep e cap ar l -> (i <= length l)%nat -> (i < cap)%nat -> length x = e ->
  Z.of_nat (cap * e) < 2 ^ 32 ->
  exists d, copy_to (data ar) (u32 (Z.of_nat i * esize ar)) x = Some d /\
    array_rep e cap (MkArray d (esize ar) (maxcnt ar)
      (my_max (count ar) (u32 (Z.of_nat i + 1)))) (take i l ++ x :: drop (S i) l).
Proof.
  intros [] Hi Hic Hx Hc. rewrite rep_esize0, <- Nat2Z.inj_mul.
  rewrite u32_small by (unfold is_u32; nia). unfold copy_to.
  rewrite Hx, rep_len0, (proj2 (Z.leb_le _ _)) by nia. rewrite Nat2Z.id.
  assert (i * e + length x <= length (data ar))%nat by nia.
  assert (length (take i l ++ x :: drop (S i) l) = Nat.max (length l) (i + 1))%nat as Hlen
    by (rewrite length_app, length_take; simpl; rewrite length_drop; lia).
  eexists. split; [done|]. constructor; simpl; try done.
  - rewrite rep_count0, Hlen, u32_small by (unfold is_u32; nia). unfold my_max.
    destruct (Z.ltb_spec (Z.of_nat i + 1) (Z.of_nat (length l))); lia.
  - lia.
  - by rewrite splice_length.
  - intros j y Hj. assert (j < cap)%nat as Hjc by (apply lookup_lt_Some in Hj; lia).
    rewrite (slot_splice e cap) by done. case_decide as Hji.
    + subst j. rewrite lookup_app_r, length_take in Hj by (rewrite length_take; lia).
      replace (i - i `min` length l)%nat with 0%nat in Hj by lia. simpl in Hj. congruence.
    + apply rep_data0. destruct (decide (j < i)%nat).
      * rewrite lookup_app_l, lookup_take_lt in Hj by (rewrite ?length_take; lia). done.
      * rewrite lookup_app_r, length_take in Hj by (rewrite length_take; lia).
        replace (j - i `min` length l)%nat with (S (j - S i)) in Hj by lia. simpl in Hj.
        rewrite lookup_drop in Hj. by replace (S i + (j - S i))%nat with j in Hj by lia.
  - apply Forall_app. split; [by apply Forall_take|]. constructor; [done | by apply Forall_drop].
Qed.

Lemma array_set_spec e cap ar l i x :
  array_rep e cap ar l -> (i <= length l)%nat -> length x = e ->
  Z.of_nat (2 * cap * e) < 2 ^ 32 ->
  exists ar' cap', array_set (Z.of_nat i) x ar = Ok (u32 (Z.of_nat i * Z.of_nat e), ar') /\
    (cap' <= 2 * cap)%nat /\ array_rep e cap' ar' (take i l ++ x :: drop (S i) l).
Proof.
  intros Hr Hi Hx Hc. pose proof Hr as []. unfold array_set, mbind, M_bind, get.
  assert (exists ar1 cap1, (if maxcnt ar <=? Z.of_nat i
      then resize (my_max (u32 (maxcnt ar * AR_RESIZE_FACT)) (Z.of_nat i)) else mret tt) ar
      = Ok (tt, ar1) /\ (i < cap1)%nat /\ (cap1 <= 2 * cap)%nat /\ array_rep e cap1 ar1 l)
    as (ar1 & cap1 & -> & Hic & Hcap & Hr1).
  { rewrite rep_max0. destruct (Z.leb_spec (Z.of_nat cap) (Z.of_nat i)).
    - unfold AR_RESIZE_FACT. rewrite u32_small by (unfold is_u32; nia). unfold my_max.
      rewrite (proj2 (Z.ltb_lt _ _)) by lia.
      replace (Z.of_nat cap * 2) with (Z.of_nat (2 * cap)) by lia.
      destruct (resize_spec e cap (2 * cap) ar l Hr) as (ar1 & -> & Hr1); [lia | nia | lia |].
      rewrite take_ge in Hr1 by lia. exists ar1, (2 * cap)%nat. split_and!; (done || lia).
    - exists ar, cap. split_and!; (done || lia). }
  destruct (store_spec e cap1 ar1 l i x Hr1 Hi Hic Hx) as (d & -> & Hr2); [nia|].
  eexists _, cap1. split; [|done]. simpl. by rewrite (rep_esize _ _ _ _ Hr1).
Qed.

(** Reading an element the array has. *)
Lemma array_elem_at e cap ar l i x :
  array_rep e cap ar l -> Z.of_nat (2 * cap * e) < 2 ^ 32 -> l !! i = Some x ->
  array_get ar (Z.of_nat i) = Some (Z.of_nat (i * e)) /\
  bytes_at (data ar) (Z.of_nat (i * e)) (esize ar) = Some x.
Proof.
  intros [] Hc Hx. pose proof (lookup_lt_Some _ _ _ Hx). split.
  - unfold array_get. rewrite rep_count0, rep_esize0, (proj2 (Z.leb_gt _ _)) by lia.
    by rewrite <- Nat2Z.inj_mul, u32_small by (unfold is_u32; nia).
  - unfold bytes_at. rewrite rep_len0, rep_esize0, (proj2 (Z.leb_le _ _)) by nia.
    rewrite !Nat2Z.id. fold (slot e (data ar) i). by rewrite (rep_data0 _ _ Hx).
Qed.

(** Popping the last element. *)
Lemma array_pop_spec e cap ar l x :
  array_rep e cap ar l -> Z.of_nat (2 * cap * e) < 2 ^ 32 -> last l = Some x ->
  exists ar', array_pop_back false ar = Ok ((Some x, None), ar') /\
    array_rep e cap ar' (take (length l - 1) l).
Proof.
  intros Hr Hc Hx. pose proof Hr as []. rewrite last_lookup in Hx.
  pose proof (lookup_lt_Some _ _ _ Hx) as Hlt.
  destruct (array_elem_at e cap ar l _ x Hr Hc Hx) as [Hg Hb].
  replace (Z.of_nat (Nat.pred (length l))) with (Z.of_nat (length l) - 1) in Hg by lia.
  unfold array_pop_back, mbind, M_bind, get. rewrite rep_count0, Hg.
  rewrite (proj2 (Z.eqb_neq _ 0)) by lia. cbn [orb deref mret M_ret]. rewrite Hb.
  eexists. split; [done|]. constructor; simpl; try done.
  - rewrite length_take, u32_small by (unfold is_u32; nia). lia.
  - rewrite length_take. lia.
  - intros j y Hj. apply lookup_take_Some in Hj as [Hj _]. by apply rep_data0.
  - by apply Forall_take.
Qed.


(** [array_set] extends the array to [index] elements instead of [index + 1] when
    the index is at least twice the capacity, and then writes the element just past the
    end of the buffer. *)
Theorem array_set_far_overruns e cap ar l i x :
  array_rep e cap ar l -> (2 * cap <= i)%nat -> length x = e ->
  Z.of_nat ((i + 1) * e) < 2 ^ 32 ->
  array_set (Z.of_nat i) x ar = Fault.
Proof.
  intros Hr Hi Hx Hc. pose proof Hr as []. unfold array_set, mbind, M_bind, get.
  rewrite rep_max0, (proj2 (Z.leb_le _ _)) by lia.
  unfold AR_RESIZE_FACT. rewrite u32_small by (unfold is_u32; nia). unfold my_max.
  rewrite (proj2 (Z.ltb_ge _ _)) by lia.
  destruct (resize_spec e cap i ar l Hr) as (ar1 & -> & []); [lia | nia | nia |].
  unfold copy_to. rewrite rep_esize1, <- Nat2Z.inj_mul, u32_small by (unfold is_u32; nia).
  rewrite Hx, rep_len1, (proj2 (Z.leb_gt _ _)) by lia. done.
Qed.

Lemma array_create_rep e :
  (0 < e)%nat -> Z.of_nat (10 * e) < 2 ^ 32 ->
  array_rep e 10 (array_create (Z.of_nat e)) [].
Proof.
  intros He Hs. unfold array_create, AR_INIT_ELEMENTS. constructor; simpl; try done; try lia.
  rewrite length_replicate, u32_small by (unfold is_u32; lia). lia.
Qed.
End array_ops.

(** ** Witnesses *)

Definition zero_heap (n : Z) : list Z := replicate (Z.to_nat n) 0.


Lemma array_set_far_overruns_witness :
  array_set zero_heap (Z.of_nat 20) [1; 2; 3; 4] (array_create 4) = Fault.
Proof.
  apply (array_set_far_overruns zero_heap) with (e := 4%nat) (cap := 10%nat) (l := []).
  - intros n. apply length_replicate.
  - apply (array_create_rep 4); lia.
  - lia.
  - done.
  - lia.
Defined.

(** The success path of [array_pop_back] delivers the element but no return value. *)
Lemma array_pop_back_no_result :
  exists ar, array_pop_back false (MkArray [5; 6] 1 2 2) = Ok ((Some [6], None), ar).
Proof. eexists. vm_compute. reflexivity. Qed.
