(* ===== verification/DList.v ===== *)
(** * Linked lists

    kernel/util/list.c and its CDI wrapper kernel/cdi/lists.c.  Entries live in a heap
    from addresses to entries; address 0 is NULL, freeing an entry removes it, and
    following a pointer to no entry is a fault. *)

From S2P Require Import Prelude.

Record list_entry := MkEntry { edata : Z; next : Z; prev : Z }.

(** A [list_t] with the heap its entries are in. *)
Record dl := MkDl { heap : gmap Z list_entry; front : Z; back : Z; size : Z }.

(** What the list code relies on when it calls [kmalloc]: a block that is not NULL and
    is none of the entries in use. *)
Class EntryAlloc := {
  pick : gmap Z list_entry -> Z;
  pick_fresh h : pick h <> 0 /\ h !! pick h = None;
}.

Section list_ops.
Context `{EntryAlloc}.

Definition set_heap (h : gmap Z list_entry) (l : dl) : dl := MkDl h (front l) (back l) (size l).
Definition set_front (f : Z) (l : dl) : dl := MkDl (heap l) f (back l) (size l).
Definition set_back (b : Z) (l : dl) : dl := MkDl (heap l) (front l) b (size l).
Definition set_size (n : Z) (l : dl) : dl := MkDl (heap l) (front l) (back l) n.

(** [*p], [p->next = v] and [p->prev = v]. *)
Definition entry (p : Z) : M dl list_entry := l ← get; deref (heap l !! p).
Definition set_next (p v : Z) : M dl unit :=
  e ← entry p; modify (fun l => set_heap (<[p := MkEntry (edata e) v (prev e)]> (heap l)) l).
Definition set_prev (p v : Z) : M dl unit :=
  e ← entry p; modify (fun l => set_heap (<[p := MkEntry (edata e) (next e) v]> (heap l)) l).

Definition list_empty (l : option dl) : bool :=
  match l with None => true | Some l => front l =? 0 end.
Definition list_size (l : option dl) : Z :=
  match l with
  | Some l' => if list_empty l then 0 else size l'
  | None => 0
  end.

Definition list_create_entry (d : Z) : M dl Z := fun l =>
  let e := pick (heap l) in Ok (e, set_heap (<[e := MkEntry d 0 0]> (heap l)) l).

Definition list_delete_entry (e : Z) : M dl Z :=
  x ← entry e;
  modify (fun l => set_heap (delete e (heap l)) l);;
  mret (edata x).

(** Counters of entries are far below the range of [int]: every entry takes 12 bytes. *)
Definition list_add_front (d : Z) : M dl unit :=
  e ← list_create_entry d;
  l ← get;
  set_next e (front l);;
  (if truth (front l) then set_prev (front l) e
   else if back l =? 0 then modify (set_back e) else mret tt);;
  modify (set_front e);;
  modify (fun l => set_size (size l + 1) l).

Definition list_add_back (d : Z) : M dl unit :=
  e ← list_create_entry d;
  l ← get;
  set_prev e (back l);;
  (if truth (back l) then set_next (back l) e
   else if front l =? 0 then modify (set_front e) else mret tt);;
  modify (set_back e);;
  modify (fun l => set_size (size l + 1) l).

Definition list_add_after (ent d : Z) : M dl unit :=
  ne ← list_create_entry d;
  en ← entry ent;
  (if truth (next en) then set_next ne (next en);; set_prev (next en) ne else mret tt);;
  set_next ent ne;;
  set_prev ne ent;;
  l ← get;
  (if ent =? back l then modify (set_back ne) else mret tt);;
  modify (fun l => set_size (size l + 1) l).

(** [list_del_front(list)] on a list that is not NULL. *)
Definition list_del_front : M dl Z :=
  l ← get;
  if front l =? 0 then mret 0
  else
    let e := front l in
    x ← entry e;
    modify (set_front (next x));;
    (if back l =? e then modify (set_back 0) else mret tt);;
    modify (fun l => set_size (size l - 1) l);;
    list_delete_entry e.

Definition list_del_back : M dl Z :=
  l ← get;
  if front l =? 0 then mret 0
  else
    let e := back l in
    x ← entry e;
    modify (set_back (prev x));;
    (if front l =? e then modify (set_front 0) else mret tt);;
    modify (fun l => set_size (size l - 1) l);;
    list_delete_entry e.

Definition list_del_entry (ent : Z) : M dl Z :=
  e ← entry ent;
  (if truth (next e) then set_prev (next e) (prev e) else mret tt);;
  e ← entry ent;
  (if truth (prev e) then set_next (prev e) (next e) else mret tt);;
  e ← entry ent;
  l ← get;
  (if front l =? ent then modify (set_front (next e)) else mret tt);;
  (if back l =? ent then modify (set_back (prev e)) else mret tt);;
  list_delete_entry ent.

Definition list_front : M dl Z :=
  l ← get;
  if front l =? 0 then mret 0 else e ← entry (front l); mret (edata e).

Definition list_back : M dl Z :=
  l ← get;
  if front l =? 0 then mret 0 else e ← entry (back l); mret (edata e).

Definition list_create (h : gmap Z list_entry) : dl := MkDl h 0 0 0.

(** [list_destroy(list)]: the loop stops at the first NULL value; [false]: the loop is
    still running after [fuel] turns. *)
Fixpoint list_destroy (fuel : nat) : M dl bool :=
  match fuel with
  | O => mret false
  | S fuel => d ← list_del_front; if truth d then list_destroy fuel else mret true
  end.

(** [list_iterate(pos, list)] up to the entry with a given index: its address, or 0. *)
Fixpoint iterate_to (n : nat) (pos : Z) : M dl Z :=
  if pos =? 0 then mret 0
  else match n with
       | O => mret pos
       | S n => e ← entry pos; iterate_to n (next e)
       end.

(** ** kernel/cdi/lists.c

    With [CONF_CDI_SECURE] and [CONF_CDI_ERR_FATAL] a failed check is a panic. *)

Section cdi.
(** [cdi_initialized], and whether the list argument is not NULL. *)
Variables cdi_initialized non_null : bool.

Definition cdi_check {A} (body : M dl A) : M dl A :=
  kassert cdi_initialized;; kassert non_null;; body.

Definition cdi_list_push (v : Z) : M dl unit := cdi_check (list_add_front v).
Definition cdi_list_pop : M dl Z := cdi_check list_del_front.
Definition cdi_list_empty : M dl bool := cdi_check (l ← get; mret (list_empty (Some l))).
Definition cdi_list_get (index : nat) : M dl Z :=
  cdi_check (l ← get; p ← iterate_to index (front l);
             if p =? 0 then mret 0 else e ← entry p; mret (edata e)).
Definition cdi_list_insert (index : nat) (v : Z) : M dl bool :=
  cdi_check (l ← get; p ← iterate_to index (front l);
             if p =? 0 then mret false else list_add_after p v;; mret true).
Definition cdi_list_remove (index : nat) : M dl Z :=
  cdi_check (l ← get; p ← iterate_to index (front l);
             if p =? 0 then mret 0 else list_del_entry p).
Definition cdi_list_size : M dl Z := cdi_check (l ← get; mret (list_size (Some l))).
End cdi.

(** ** Specification: the values from front to back *)

(** The entries at the addresses of [xs] are chained from [first] to NULL. *)
Fixpoint chain (h : gmap Z list_entry) (first : Z) (xs : list (Z * Z)) : Prop :=
  match xs with
  | [] => first = 0
  | (a, d) :: xs =>
      first = a /\ a <> 0 /\ exists n p, h !! a = Some (MkEntry d n p) /\ chain h n xs
  end.

(** [l] holds the values of [xs]; only the forward pointers are constrained. *)
Record list_rep (l : dl) (xs : list (Z * Z)) : Prop := {
  rep_chain : chain (heap l) (front l) xs;
  rep_back : back l = default 0 (fst <$> last xs);
  rep_nodup : NoDup (map fst xs);
  rep_size : size l = Z.of_nat (length xs);
}.

Inductive l_op := AddFront (d : Z) | AddBack (d : Z) | DelFront | Front | Back | Size | Nth (i : nat).

Definition l_spec (op : l_op) (ds : list Z) : Z * list Z :=
  match op with
  | AddFront d => (0, d :: ds)
  | AddBack d => (0, ds ++ [d])
  | DelFront => (default 0 (head ds), tail ds)
  | Front => (default 0 (head ds), ds)
  | Back => (default 0 (last ds), ds)
  | Size => (Z.of_nat (length ds), ds)
  | Nth i => (default 0 (ds !! i), ds)
  end.

Definition l_impl (op : l_op) : M dl Z :=
  match op with
  | AddFront d => list_add_front d;; mret 0
  | AddBack d => list_add_back d;; mret 0
  | DelFront => list_del_front
  | Front => list_front
  | Back => list_back
  | Size => l ← get; mret (list_size (Some l))
  | Nth i => cdi_list_get true true i
  end.

Fixpoint l_spec_run (ops : list l_op) (ds : list Z) : list Z * list Z :=
  match ops with
  | [] => ([], ds)
  | op :: ops =>
      let '(r, ds) := l_spec op ds in let '(rs, ds) := l_spec_run ops ds in (r :: rs, ds)
  end.

Fixpoint l_impl_run (ops : list l_op) : M dl (list Z) :=
  match ops with
  | [] => mret []
  | op :: ops => r ← l_impl op; rs ← l_impl_run ops; mret (r :: rs)
  end.

(** ** Chains *)

Lemma chain_ext h h' f xs :
  chain h f xs ->
  (forall a d n p, a ∈ map fst xs -> h !! a = Some (MkEntry d n p) ->
     exists p', h' !! a = Some (MkEntry d n p')) ->
  chain h' f xs.
Proof.
  revert f. induction xs as [|[a d] xs IH]; intros f Hc Hext; simpl in *; [done|].
  destruct Hc as (-> & Ha & n & p & Hl & Hc). split; [done|]. split; [done|].
  destruct (Hext a d n p) as [p' Hl']; [left | done |]. exists n, p'. split; [done|].
  apply IH; [done|]. intros. eapply Hext; [by right | done].
Qed.

Lemma chain_in h f xs a : chain h f xs -> a ∈ map fst xs -> is_Some (h !! a) /\ a <> 0.
Proof.
  revert f. induction xs as [|[b d] xs IH]; intros f Hc Hin; simpl in *; [by inversion Hin|].
  destruct Hc as (-> & Hb & n & p & Hl & Hc).
  apply elem_of_cons in Hin as [->|Hin]; [by rewrite Hl|]. eauto.
Qed.

Lemma chain_fresh h f xs : chain h f xs -> pick h ∉ map fst xs.
Proof.
  intros Hc Hin. destruct (chain_in _ _ _ _ Hc Hin) as [[x Hx] _].
  destruct (pick_fresh h) as [_ Hn]. congruence.
Qed.

(** Appending an entry behind the last one. *)
Lemma chain_snoc h f xs e d b p :
  chain h f xs -> last xs = Some b -> NoDup (map fst xs) -> e ∉ map fst xs -> e <> 0 ->
  exists x, h !! b.1 = Some x /\
    chain (<[b.1 := MkEntry (edata x) e (prev x)]> (<[e := MkEntry d 0 p]> h)) f (xs ++ [(e, d)]).
Proof.
  revert f. induction xs as [|[a da] xs IH]; intros f Hc Hlast Hnd Hin He; [done|].
  simpl in *. destruct Hc as (-> & Ha & n & q & Hl & Hc).
  apply not_elem_of_cons in Hin as [Hea Hin]. apply NoDup_cons in Hnd as [Hna Hnd].
  destruct xs as [|c xs].
  - injection Hlast as <-. simpl in *. exists (MkEntry da n q). split; [done|]. simpl in *.
    split; [done|]. split; [done|]. exists e, q. rewrite lookup_insert_eq. split; [done|].
    split; [done|]. split; [done|]. exists 0, p.
    rewrite lookup_insert_ne, lookup_insert_eq by done. done.
  - destruct (IH n Hc Hlast Hnd Hin He) as (x & Hx & Hc'). exists x. split; [done|].
    split; [done|]. split; [done|]. exists n, q. split; [|done].
    assert (b.1 ∈ map fst (c :: xs)) as Hb.
    { apply (list_elem_of_fmap_2 fst), last_Some_elem_of. exact Hlast. }
    assert (b.1 <> a) as Hba by (intros E; apply Hna; by rewrite <- E).
    rewrite !lookup_insert_ne by done. done.
Qed.

Lemma chain_nth h f xs i :
  chain h f xs -> exists a, forall l, heap l = h ->
    iterate_to i f l = Ok (a, l) /\
    match xs !! i with
    | Some (b, d) => a = b /\ b <> 0 /\ exists n p, h !! b = Some (MkEntry d n p)
    | None => a = 0
    end.
Proof.
  revert f xs. induction i as [|i IH]; intros f xs Hc; destruct xs as [|[b d] xs]; simpl in *.
  - subst f. exists 0. done.
  - destruct Hc as (-> & Hb & n & p & Hl & Hc). exists b.
    intros l _. rewrite (proj2 (Z.eqb_neq b 0)) by done. split; [done|]. eauto.
  - subst f. exists 0. done.
  - destruct Hc as (-> & Hb & n & p & Hl & Hc). destruct (IH n xs Hc) as [a Ha].
    exists a. intros l El. rewrite (proj2 (Z.eqb_neq b 0)) by done.
    unfold entry, mbind, M_bind, get, deref. rewrite El, Hl. by apply Ha.
Qed.

(** ** Correctness of the forward list *)

Lemma add_front_spec l xs d :
  list_rep l xs ->
  exists l' e, list_add_front d l = Ok (tt, l') /\ list_rep l' ((e, d) :: xs).
Proof.
  intros [Hc Hb Hnd Hs]. destruct (pick_fresh (heap l)) as [He0 Hen].
  pose proof (chain_fresh _ _ _ Hc) as Hfr. set (e := pick (heap l)) in *.
  unfold list_add_front, list_create_entry, set_next, set_prev, entry, modify, deref,
    mbind, M_bind, get, mret, M_ret. fold e. simpl. rewrite lookup_insert_eq. simpl.
  rewrite insert_insert_eq. destruct xs as [|[a da] xs]; simpl in Hc.
  - rewrite Hc. simpl. rewrite Hb. simpl. eexists _, e. split; [done|].
    constructor; simpl; [| done | by apply NoDup_singleton | by rewrite Hs].
    split; [done|]. split; [done|]. exists 0, 0. rewrite lookup_insert_eq. done.
  - destruct Hc as (Hf & Ha & n & p & Hl & Hc). unfold truth.
    rewrite Hf, (proj2 (Z.eqb_neq a 0)) by done. simpl.
    assert (e <> a) as Hea by (intros E; apply Hfr; rewrite E; left).
    rewrite lookup_insert_ne by done. rewrite Hl. simpl.
    eexists _, e. split; [done|]. constructor; simpl; [| | by constructor | rewrite Hs; simpl; lia].
    + split; [done|]. split; [done|]. exists a, 0.
      rewrite lookup_insert_ne, lookup_insert_eq by done. split; [done|].
      split; [done|]. split; [done|]. exists n, e. rewrite lookup_insert_eq. split; [done|].
      eapply chain_ext; [exact Hc|]. intros b db nb pb Hin Hb'.
      simpl in Hfr. apply not_elem_of_cons in Hfr as [_ Hfr]. apply NoDup_cons in Hnd as [Hna _].
      rewrite !lookup_insert_ne by (intros ->; done). eauto.
    + rewrite Hb. destruct xs; [done|]. by rewrite last_cons_cons.
Qed.

Lemma add_back_spec l xs d :
  list_rep l xs ->
  exists l' e, list_add_back d l = Ok (tt, l') /\ list_rep l' (xs ++ [(e, d)]).
Proof.
  intros [Hc Hb Hnd Hs]. destruct (pick_fresh (heap l)) as [He0 Hen].
  pose proof (chain_fresh _ _ _ Hc) as Hfr. set (e := pick (heap l)) in *.
  unfold list_add_back, list_create_entry, set_next, set_prev, entry, modify, deref,
    mbind, M_bind, get, mret, M_ret. fold e. simpl. rewrite lookup_insert_eq. simpl.
  rewrite insert_insert_eq.
  assert (NoDup (map fst (xs ++ [(e, d)]))) as Hnd'.
  { rewrite map_app. apply NoDup_app. split; [done|]. split; [|apply NoDup_singleton].
    intros b Hin Hbe. apply list_elem_of_singleton in Hbe. simpl in Hbe. by subst b. }
  destruct (last xs) as [b|] eqn:Hlast.
  - destruct (chain_snoc _ _ _ e d b (back l) Hc Hlast Hnd Hfr He0) as (x & Hx & Hc').
    assert (b.1 ∈ map fst xs) as Hbin by (apply (list_elem_of_fmap_2 fst); by apply last_Some_elem_of).
    destruct (chain_in _ _ _ _ Hc Hbin) as [_ Hb0].
    simpl in Hb. rewrite Hb in *. unfold truth. rewrite (proj2 (Z.eqb_neq b.1 0)) by done. simpl.
    rewrite lookup_insert_ne by (intros ->; done). rewrite Hx. simpl.
    eexists _, e. split; [done|]. constructor; simpl; [done | by rewrite last_snoc | done |].
    rewrite length_app. simpl. lia.
  - apply last_None in Hlast as ->. simpl in *. rewrite Hb, Hc. simpl.
    eexists _, e. split; [done|]. constructor; simpl; [| done | done | lia].
    split; [done|]. split; [done|]. exists 0, 0. rewrite lookup_insert_eq. done.
Qed.

Lemma del_front_spec l xs :
  list_rep l xs ->
  exists l', list_del_front l = Ok (default 0 (snd <$> head xs), l') /\ list_rep l' (tail xs).
Proof.
  intros [Hc Hb Hnd Hs]. unfold list_del_front, list_delete_entry, entry, modify, deref,
    mbind, M_bind, get, mret, M_ret.
  destruct xs as [|[a d] xs]; simpl in *.
  - rewrite Hc. simpl. exists l. split; [done|]. by constructor.
  - destruct Hc as (Hf & Ha & n & p & Hl & Hc). rewrite Hf, (proj2 (Z.eqb_neq a 0)) by done.
    rewrite Hl. simpl. apply NoDup_cons in Hnd as [Hna Hnd].
    assert (chain (delete a (heap l)) n xs) as Hc'.
    { eapply chain_ext; [exact Hc|]. intros b db nb pb Hin Hb'.
      rewrite lookup_delete_ne by (intros ->; done). eauto. }
    destruct (Z.eqb_spec (back l) a) as [Hba|Hba]; simpl; rewrite Hl; simpl;
      eexists; (split; [done|]); constructor; simpl; try done; try lia.
    + destruct xs as [|[c dc] xs]; [done|]. destruct Hna. rewrite <- Hba, Hb.
      destruct (last ((c, dc) :: xs)) as [y|] eqn:Hy; [|by apply last_None in Hy].
      rewrite last_cons_cons, Hy. apply (list_elem_of_fmap_2 fst). by apply last_Some_elem_of.
    + destruct xs; [|by rewrite last_cons_cons in Hb]. simpl in Hb. by destruct Hba.
Qed.

Lemma rep_front l xs :
  list_rep l xs -> list_front l = Ok (default 0 (snd <$> head xs), l).
Proof.
  intros [Hc _ _ _]. unfold list_front, entry, deref, mbind, M_bind, get, mret, M_ret.
  destruct xs as [|[a d] xs]; simpl in *; [by rewrite Hc|].
  destruct Hc as (-> & Ha & n & p & Hl & _). by rewrite (proj2 (Z.eqb_neq a 0)), Hl by done.
Qed.

Lemma chain_value h f xs a d :
  chain h f xs -> (a, d) ∈ xs -> exists n p, h !! a = Some (MkEntry d n p).
Proof.
  revert f. induction xs as [|[b db] xs IH]; intros f Hc Hin; simpl in *; [by inversion Hin|].
  destruct Hc as (-> & _ & n & p & Hl & Hc). apply elem_of_cons in Hin as [E|Hin]; [|eauto].
  injection E as -> ->. eauto.
Qed.

Lemma rep_last l xs :
  list_rep l xs -> list_back l = Ok (default 0 (snd <$> last xs), l).
Proof.
  intros [Hc Hb _ _]. unfold list_back, entry, deref, mbind, M_bind, get, mret, M_ret.
  destruct (last xs) as [[a d]|] eqn:Hlast.
  - destruct (chain_value _ _ _ _ _ Hc (last_Some_elem_of _ _ Hlast)) as (n & p & Hl).
    simpl in Hb. rewrite Hb. destruct xs as [|[b db] xs]; [done|].
    destruct Hc as (-> & Hb0 & _). rewrite (proj2 (Z.eqb_neq b 0)) by done. by rewrite Hl.
  - apply last_None in Hlast as ->. simpl in Hc. by rewrite Hc.
Qed.

Lemma l_step_spec l xs op :
  list_rep l xs ->
  exists l' xs', l_impl op l = Ok ((l_spec op (map snd xs)).1, l') /\ list_rep l' xs' /\
    map snd xs' = (l_spec op (map snd xs)).2.
Proof.
  intros Hr. destruct op as [d|d| | | | |i]; cbn [l_impl l_spec fst snd].
  - destruct (add_front_spec l xs d Hr) as (l' & e & Hrun & Hr').
    exists l', ((e, d) :: xs). unfold mbind, M_bind. by rewrite Hrun.
  - destruct (add_back_spec l xs d Hr) as (l' & e & Hrun & Hr').
    exists l', (xs ++ [(e, d)]). unfold mbind, M_bind. rewrite Hrun, map_app. done.
  - destruct (del_front_spec l xs Hr) as (l' & Hrun & Hr').
    exists l', (tail xs). rewrite Hrun. by destruct xs.
  - exists l, xs. rewrite (rep_front l xs Hr). by destruct xs.
  - exists l, xs. rewrite (rep_last l xs Hr). split; [|done]. by rewrite fmap_last.
  - exists l, xs. split; [|done]. unfold mbind, M_bind, get, list_size, list_empty.
    destruct Hr as [Hc _ _ Hs]. rewrite length_map. destruct xs as [|[a d] xs]; simpl in *.
    + by rewrite Hc.
    + destruct Hc as (-> & Ha & _). by rewrite (proj2 (Z.eqb_neq a 0)), Hs by done.
  - exists l, xs. split; [|done]. unfold cdi_list_get, cdi_check, mbind, M_bind, get.
    destruct (chain_nth (heap l) (front l) xs i (rep_chain _ _ Hr)) as [a Ha].
    destruct (Ha l eq_refl) as [Hrun Hm]. simpl. unfold mret, M_ret. rewrite Hrun.
    rewrite list_lookup_fmap. destruct (xs !! i) as [[b d]|]; simpl.
    + destruct Hm as (-> & Hb & n & p & Hl). rewrite (proj2 (Z.eqb_neq b 0)) by done.
      unfold entry, mbind, M_bind, get, deref. by rewrite Hl.
    + by subst a.
Qed.

(** C13: used at its front and with additions at either end, a list is the sequence of the
    values added: every run of [list_add_front], [list_add_back], [list_del_front],
    [list_front], [list_back], [list_size] and [cdi_list_get] stays inside the live
    entries and answers what the operations on that sequence answer. *)
Theorem list_refines_sequence ops l xs :
  list_rep l xs ->
  exists l' xs', l_impl_run ops l = Ok ((l_spec_run ops (map snd xs)).1, l') /\
    list_rep l' xs' /\ map snd xs' = (l_spec_run ops (map snd xs)).2.
Proof.
  revert l xs. induction ops as [|op ops IH]; intros l xs Hr; simpl; [eauto|].
  destruct (l_step_spec l xs op Hr) as (l1 & xs1 & Hrun & Hr1 & E1).
  destruct (l_spec op (map snd xs)) as [r ds1]. simpl in *. subst ds1.
  unfold mbind, M_bind. rewrite Hrun. destruct (IH l1 xs1 Hr1) as (l2 & xs2 & Hrun2 & Hr2 & E2).
  rewrite Hrun2. destruct (l_spec_run ops (map snd xs1)) as [rs ds2]. eauto.
Qed.
End list_ops.

(** ** A concrete allocator *)

Definition first_free (h : gmap Z list_entry) : Z :=
  1 + foldr Z.max 0 (map fst (map_to_list h)).

Lemma le_max_list (a : Z) l : a ∈ l -> a <= foldr Z.max 0 l.
Proof.
  induction l as [|b l IH]; intros Hin; cbn [foldr]; [by apply elem_of_nil in Hin|].
  apply elem_of_cons in Hin as [->|Hin]; [lia|]. specialize (IH Hin). lia.
Qed.

#[export] Instance first_free_alloc : EntryAlloc.
Proof.
  refine {| pick := first_free |}. intros h. unfold first_free.
  assert (0 <= foldr Z.max 0 (map fst (map_to_list h))) as Hpos
    by (induction (map fst (map_to_list h)); cbn [foldr]; lia).
  split; [lia|]. destruct (h !! _) as [e|] eqn:He; [|done]. exfalso.
  apply elem_of_map_to_list in He. apply (list_elem_of_fmap_2 fst) in He.
  pose proof (le_max_list _ _ He : 1 + _ <= foldr Z.max 0 (map fst (map_to_list h))). lia.
Defined.

Lemma empty_rep h : list_rep (list_create h) [].
Proof. constructor; simpl; [done | done | apply NoDup_nil_2 | done]. Qed.

Lemma list_refines_sequence_witness :
  exists l' xs',
    l_impl_run [AddBack 5; AddFront 4; AddBack 6; Nth 1; DelFront; Back; DelFront; DelFront; Size]
      (list_create ∅)
    = Ok ((l_spec_run [AddBack 5; AddFront 4; AddBack 6; Nth 1; DelFront; Back; DelFront; DelFront;
                       Size] []).1, l') /\
    list_rep l' xs' /\
    map snd xs' = (l_spec_run [AddBack 5; AddFront 4; AddBack 6; Nth 1; DelFront; Back; DelFront;
                               DelFront; Size] []).2.
Proof. apply (list_refines_sequence _ (list_create ∅) []). apply empty_rep. Defined.

(** ** Where the list code falls short *)

(** [list_del_front] leaves the [prev] pointer of the new first entry pointing to the
    entry it frees.  After two pushes and a pop, removing the remaining element with
    [cdi_list_remove] writes through that dangling pointer. *)
Theorem list_pop_then_remove_faults :
  (cdi_list_push true true 1;; cdi_list_push true true 2;; cdi_list_pop true true;;
   cdi_list_remove true true 0) (list_create ∅) = Fault.
Proof. vm_compute. reflexivity. Qed.

(** [list_del_back] leaves the [next] pointer of the new last entry dangling: walking the
    list afterwards follows it. *)
Lemma list_del_back_dangling :
  (list_add_back 1;; list_add_back 2;; list_del_back;; cdi_list_get true true 1) (list_create ∅)
  = Fault.
Proof. vm_compute. reflexivity. Qed.

(** [cdi_list_insert] inserts behind the given index: the new element does not get the
    index asked for. *)
Lemma cdi_list_insert_after_index :
  exists l, (cdi_list_push true true 2;; cdi_list_push true true 1;;
             cdi_list_insert true true 0 9;; x ← cdi_list_get true true 0;
             y ← cdi_list_get true true 1; mret (x, y)) (list_create ∅) = Ok ((1, 9), l).
Proof. eexists. vm_compute. reflexivity. Qed.

(** [cdi_list_remove] does not count the element it removes. *)
Lemma cdi_list_remove_keeps_size :
  exists l, (cdi_list_push true true 2;; cdi_list_push true true 1;;
             cdi_list_remove true true 0;; cdi_list_size true true) (list_create ∅) = Ok (2, l).
Proof. eexists. vm_compute. reflexivity. Qed.

(** [list_destroy] stops at a NULL value and leaves the entries behind it allocated. *)
Lemma list_destroy_stops_at_null :
  exists l, (list_add_back 1;; list_add_back 0;; list_add_back 3;; list_destroy 10)
      (list_create ∅) = Ok (true, l) /\ heap l <> ∅.
Proof. eexists. split; [vm_compute; reflexivity | done]. Qed.
