(* ===== verification/Proc.v ===== *)
(** * Processes

    kernel/pm.c with kernel/include/pm.h: the process table, the ready queue linked
    through the [next] fields, the round-robin scheduler, blocking, creation and
    destruction of processes and the process system calls.  A [struct proc *] is the
    index of a slot of [procs]; index 256 is the static [_idle_proc]; NULL is [None].
    Memory a process owns (stacks, address space, command line) is obtained from the
    memory components: creating a process takes the addresses as an argument. *)

From S2P Require Import Prelude Page.

Definition MAX_PROCS : Z := 256.
Definition PROC_START_TICKS : Z := 50.
Definition PROC_MAX_TICKS : Z := 100.

Inductive proc_status := PS_SLOT_FREE | PS_READY | PS_RUNNING | PS_BLOCKED.
Inductive block_reason :=
  BR_NOT_BLOCKED | BR_RECEIVING | BR_SLEEPING | BR_WAIT_FS | BR_INIT | BR_WAIT_PROC.
Inductive proc_mode := PM_KERNEL | PM_USER.

#[export] Instance proc_status_eq_dec : EqDecision proc_status.
Proof. solve_decision. Defined.
#[export] Instance block_reason_eq_dec : EqDecision block_reason.
Proof. solve_decision. Defined.

(** [struct proc]; [sc_eax] is the [eax] slot of the frame [sc_regs] points to, [None]
    when that pointer is NULL; the fields of other components are theirs. *)
Record proc := MkProc {
  pid : Z;
  parent : Z;
  status : proc_status;
  block : block_reason;
  wait_proc : Z;
  wait_for : Z;
  wakeup : Z;
  kstack_addr : Z;
  ustack_addr : Z;
  kstack : Z;
  esp : Z;
  as_ : option Z;
  sc_eax : option Z;
  tty : string;
  cmdline : string;
  cmdline_mapped : bool;
  exit_status : Z;
  ticks_left : Z;
  next : option Z;
}.

(** The globals of pm.c, timer.c and syscall.c. *)
Record kern := MkKern {
  procs : gmap Z proc;
  plist_head : option Z;
  plist_tail : option Z;
  cur_proc : option Z;
  last_proc : option Z;
  koop_mode : bool;
  next_pid : Z;
  syscall_proc : option Z;
  timer_ticks : Z;
  next_wakeup : Z;
  cur_as : option Z;
  tss_esp0 : Z;
}.

(** The static [_idle_proc] and [_kproc] are zeroed structures outside the table. *)
Definition zero_proc : proc :=
  MkProc 0 0 PS_SLOT_FREE BR_NOT_BLOCKED 0 0 0 0 0 0 0 None None "" "" false 0 0 None.
Definition idle_proc : Z := 256.

(** Field updates. *)
Definition set_status (v : proc_status) (p : proc) : proc :=
  MkProc (pid p) (parent p) v (block p) (wait_proc p) (wait_for p) (wakeup p) (kstack_addr p)
    (ustack_addr p) (kstack p) (esp p) (as_ p) (sc_eax p) (tty p) (cmdline p) (cmdline_mapped p)
    (exit_status p) (ticks_left p) (next p).
Definition set_block (v : block_reason) (p : proc) : proc :=
  MkProc (pid p) (parent p) (status p) v (wait_proc p) (wait_for p) (wakeup p) (kstack_addr p)
    (ustack_addr p) (kstack p) (esp p) (as_ p) (sc_eax p) (tty p) (cmdline p) (cmdline_mapped p)
    (exit_status p) (ticks_left p) (next p).
Definition set_wait_proc (v : Z) (p : proc) : proc :=
  MkProc (pid p) (parent p) (status p) (block p) v (wait_for p) (wakeup p) (kstack_addr p)
    (ustack_addr p) (kstack p) (esp p) (as_ p) (sc_eax p) (tty p) (cmdline p) (cmdline_mapped p)
    (exit_status p) (ticks_left p) (next p).
Definition set_wait_for (v : Z) (p : proc) : proc :=
  MkProc (pid p) (parent p) (status p) (block p) (wait_proc p) v (wakeup p) (kstack_addr p)
    (ustack_addr p) (kstack p) (esp p) (as_ p) (sc_eax p) (tty p) (cmdline p) (cmdline_mapped p)
    (exit_status p) (ticks_left p) (next p).
Definition set_wakeup (v : Z) (p : proc) : proc :=
  MkProc (pid p) (parent p) (status p) (block p) (wait_proc p) (wait_for p) v (kstack_addr p)
    (ustack_addr p) (kstack p) (esp p) (as_ p) (sc_eax p) (tty p) (cmdline p) (cmdline_mapped p)
    (exit_status p) (ticks_left p) (next p).
Definition set_esp (v : Z) (p : proc) : proc :=
  MkProc (pid p) (parent p) (status p) (block p) (wait_proc p) (wait_for p) (wakeup p)
    (kstack_addr p) (ustack_addr p) (kstack p) v (as_ p) (sc_eax p) (tty p) (cmdline p)
    (cmdline_mapped p) (exit_status p) (ticks_left p) (next p).
Definition set_sc_eax (v : option Z) (p : proc) : proc :=
  MkProc (pid p) (parent p) (status p) (block p) (wait_proc p) (wait_for p) (wakeup p)
    (kstack_addr p) (ustack_addr p) (kstack p) (esp p) (as_ p) v (tty p) (cmdline p)
    (cmdline_mapped p) (exit_status p) (ticks_left p) (next p).
Definition set_exit_status (v : Z) (p : proc) : proc :=
  MkProc (pid p) (parent p) (status p) (block p) (wait_proc p) (wait_for p) (wakeup p)
    (kstack_addr p) (ustack_addr p) (kstack p) (esp p) (as_ p) (sc_eax p) (tty p) (cmdline p)
    (cmdline_mapped p) v (ticks_left p) (next p).
Definition set_ticks_left (v : Z) (p : proc) : proc :=
  MkProc (pid p) (parent p) (status p) (block p) (wait_proc p) (wait_for p) (wakeup p)
    (kstack_addr p) (ustack_addr p) (kstack p) (esp p) (as_ p) (sc_eax p) (tty p) (cmdline p)
    (cmdline_mapped p) (exit_status p) v (next p).
Definition set_next (v : option Z) (p : proc) : proc :=
  MkProc (pid p) (parent p) (status p) (block p) (wait_proc p) (wait_for p) (wakeup p)
    (kstack_addr p) (ustack_addr p) (kstack p) (esp p) (as_ p) (sc_eax p) (tty p) (cmdline p)
    (cmdline_mapped p) (exit_status p) (ticks_left p) v.

Definition set_procs (m : gmap Z proc) (s : kern) : kern :=
  MkKern m (plist_head s) (plist_tail s) (cur_proc s) (last_proc s) (koop_mode s) (next_pid s)
    (syscall_proc s) (timer_ticks s) (next_wakeup s) (cur_as s) (tss_esp0 s).
Definition set_head (v : option Z) (s : kern) : kern :=
  MkKern (procs s) v (plist_tail s) (cur_proc s) (last_proc s) (koop_mode s) (next_pid s)
    (syscall_proc s) (timer_ticks s) (next_wakeup s) (cur_as s) (tss_esp0 s).
Definition set_tail (v : option Z) (s : kern) : kern :=
  MkKern (procs s) (plist_head s) v (cur_proc s) (last_proc s) (koop_mode s) (next_pid s)
    (syscall_proc s) (timer_ticks s) (next_wakeup s) (cur_as s) (tss_esp0 s).
Definition set_cur (v : option Z) (s : kern) : kern :=
  MkKern (procs s) (plist_head s) (plist_tail s) v (last_proc s) (koop_mode s) (next_pid s)
    (syscall_proc s) (timer_ticks s) (next_wakeup s) (cur_as s) (tss_esp0 s).
Definition set_last (v : option Z) (s : kern) : kern :=
  MkKern (procs s) (plist_head s) (plist_tail s) (cur_proc s) v (koop_mode s) (next_pid s)
    (syscall_proc s) (timer_ticks s) (next_wakeup s) (cur_as s) (tss_esp0 s).
Definition set_koop (v : bool) (s : kern) : kern :=
  MkKern (procs s) (plist_head s) (plist_tail s) (cur_proc s) (last_proc s) v (next_pid s)
    (syscall_proc s) (timer_ticks s) (next_wakeup s) (cur_as s) (tss_esp0 s).
Definition set_next_pid (v : Z) (s : kern) : kern :=
  MkKern (procs s) (plist_head s) (plist_tail s) (cur_proc s) (last_proc s) (koop_mode s) v
    (syscall_proc s) (timer_ticks s) (next_wakeup s) (cur_as s) (tss_esp0 s).
Definition set_syscall_proc (v : option Z) (s : kern) : kern :=
  MkKern (procs s) (plist_head s) (plist_tail s) (cur_proc s) (last_proc s) (koop_mode s)
    (next_pid s) v (timer_ticks s) (next_wakeup s) (cur_as s) (tss_esp0 s).
Definition set_timer (t w : Z) (s : kern) : kern :=
  MkKern (procs s) (plist_head s) (plist_tail s) (cur_proc s) (last_proc s) (koop_mode s)
    (next_pid s) (syscall_proc s) t w (cur_as s) (tss_esp0 s).
Definition set_cpu (a : option Z) (e0 : Z) (s : kern) : kern :=
  MkKern (procs s) (plist_head s) (plist_tail s) (cur_proc s) (last_proc s) (koop_mode s)
    (next_pid s) (syscall_proc s) (timer_ticks s) (next_wakeup s) a e0.

(** [p->field] and [p->field = v] for a pointer that may be NULL. *)
Definition slot (p : option Z) : M kern proc :=
  i ← deref p; s ← get; deref (procs s !! i).
Definition upd (p : option Z) (f : proc -> proc) : M kern unit :=
  i ← deref p; s ← get; x ← deref (procs s !! i);
  modify (fun s => set_procs (<[i := f x]> (procs s)) s).

(** ** Queue *)

(** [newpid()]: the value handed out is the counter before it is incremented. *)
Definition newpid : M kern Z :=
  s ← get; modify (set_next_pid (u32 (next_pid s + 1)));; mret (next_pid s).

(** [pm_get_proc(pid)]: the first slot with that pid. *)
Fixpoint find_pid (m : gmap Z proc) (n : nat) (i p : Z) : option Z :=
  match n with
  | O => None
  | S n =>
      match m !! i with
      | Some x => if pid x =? p then Some i else find_pid m n (i + 1) p
      | None => None
      end
  end.
Definition pm_get_proc (p : Z) : M kern (option Z) :=
  gets (fun s => find_pid (procs s) (Z.to_nat MAX_PROCS) 0 p).

Fixpoint find_free (m : gmap Z proc) (n : nat) (i : Z) : option Z :=
  match n with
  | O => None
  | S n =>
      match m !! i with
      | Some x => if decide (status x = PS_SLOT_FREE) then Some i else find_free m n (i + 1)
      | None => None
      end
  end.
Definition get_empty_proc : M kern (option Z) :=
  gets (fun s => find_free (procs s) (Z.to_nat MAX_PROCS) 0).

Definition pm_activate (p : Z) : M kern unit :=
  s ← get;
  (match plist_head s with None => modify (set_head (Some p)) | Some _ => mret tt end);;
  (match plist_tail s with
   | None => modify (set_tail (Some p))
   | Some t => upd (Some t) (set_next (Some p))
   end);;
  modify (set_tail (Some p));;
  upd (Some p) (set_next None).

Definition pm_schedule : M kern unit :=
  s ← get;
  upd (cur_proc s) (fun p => set_ticks_left (u32 (ticks_left p + PROC_START_TICKS)) p);;
  upd (cur_proc s) (fun p =>
    if PROC_MAX_TICKS <? ticks_left p then set_ticks_left PROC_MAX_TICKS p else p);;
  upd (cur_proc s) (fun p =>
    if decide (status p = PS_RUNNING) then set_status PS_READY p else p);;
  s ← get;
  upd (plist_tail s) (set_next (plist_head s));;
  modify (set_tail (plist_head s));;
  h ← slot (plist_head s);
  modify (set_head (next h));;
  upd (plist_head s) (set_next None);;
  s ← get;
  modify (set_cur (plist_head s));;
  match plist_head s with
  | Some h => upd (Some h) (set_status PS_RUNNING)
  | None => modify (set_cur (Some idle_proc))
  end.

(** The walk of [pm_deactivate]: the predecessor of [proc] in the list ([None] when there
    is none) and the element found ([None] at the end of the list).  A list longer than
    the table is cyclic, and the walk never ends. *)
Fixpoint walk (m : gmap Z proc) (fuel : nat) (p : Z) (prev cur : option Z)
    : outcome (option Z * option Z) :=
  match cur with
  | None => Ok (prev, None)
  | Some c =>
      if c =? p then Ok (prev, Some c)
      else match fuel with
           | O => Fault
           | S fuel =>
               match m !! c with
               | Some x => walk m fuel p (Some c) (next x)
               | None => Fault
               end
           end
  end.

Definition pm_deactivate (p : Z) : M kern unit :=
  s ← get;
  pc ← (fun s => match walk (procs s) 300 p None (plist_head s) with
                 | Ok r => Ok (r, s) | Panic => Panic | Fault => Fault end);
  let '(prv, cur) := (pc : option Z * option Z) in
  c ← slot cur;
  (match prv with
   | Some _ => upd prv (set_next (next c))
   | None => modify (set_head (next c))
   end);;
  if decide (cur_proc s = Some p) then pm_schedule else mret tt.

(** [pm_update()]. *)
Definition pm_update : M kern unit :=
  s ← get;
  match cur_proc s with
  | None => pm_schedule
  | Some _ =>
      c ← slot (cur_proc s);
      if decide (status c <> PS_READY) then pm_schedule
      else if koop_mode s then mret tt
      else
        upd (cur_proc s) (fun p => set_ticks_left (u32 (ticks_left p - 1)) p);;
        c ← slot (cur_proc s);
        if ticks_left c <=? 0 then pm_schedule else mret tt
  end.

Definition pm_block (p : Z) (reason : block_reason) : M kern bool :=
  x ← slot (Some p);
  if decide (status x = PS_BLOCKED) then mret false
  else
    upd (Some p) (set_status PS_BLOCKED);;
    upd (Some p) (set_block reason);;
    pm_deactivate p;;
    mret true.

Definition pm_unblock (p : Z) : M kern unit :=
  upd (Some p) (set_status PS_READY);;
  upd (Some p) (set_block BR_NOT_BLOCKED);;
  pm_activate p.

Definition pm_is_blocked_for (p : Z) (reason : block_reason) : M kern bool :=
  x ← slot (Some p); mret (bool_decide (status x = PS_BLOCKED /\ block x = reason)).

Definition pm_set_koop (mode : bool) : M kern unit := modify (set_koop mode).
Definition pm_get_koop : M kern bool := gets koop_mode.

(** [pm_pick(esp)] answers the stack pointer to continue with; [pm_restore(esp)] saves
    the interrupted one.  Address spaces are named by their page directory's frame; the
    kernel's is 0 here. *)
Definition pm_pick (sp : Z) : M kern Z :=
  s ← get;
  c ← slot (cur_proc s);
  a ← deref (as_ c);
  modify (fun s => set_cpu (Some a) (tss_esp0 s) s);;
  if decide (cur_proc s <> last_proc s) then
    modify (fun s => set_cpu (cur_as s) (kstack c) s);;
    modify (set_last (cur_proc s));;
    mret (esp c)
  else mret sp.

Definition pm_restore (sp : Z) : M kern unit :=
  modify (fun s => set_cpu None (tss_esp0 s) s);;
  s ← get;
  kassert (bool_decide (cur_proc s <> None));;
  upd (cur_proc s) (set_esp sp).

(** ** Creation and destruction *)

(** kernel/include/gdt.h *)
Definition GDT_SEL_CODE : Z := 0x08.
Definition GDT_SEL_DATA : Z := 0x10.
Definition GDT_SEL_UCODE : Z := 0x18.
Definition GDT_SEL_UDATA : Z := 0x20.

(** [prepare_stack(kstack, entry, mode)]: the words pushed, the last one (which the
    answered pointer designates) first. *)
Definition prepare_stack (entry : Z) (mode : proc_mode) : list Z :=
  let code_seg := match mode with PM_USER => GDT_SEL_UCODE + 3 | PM_KERNEL => GDT_SEL_CODE end in
  let data_seg := match mode with PM_USER => GDT_SEL_UDATA + 3 | PM_KERNEL => GDT_SEL_DATA end in
  let push w st := (w :: st : list Z) in
  let st := match mode with
            | PM_USER => push USER_STACK_ADDR (push data_seg [])
            | PM_KERNEL => [] end in
  let st := push entry (push code_seg (push 0x0202 st)) in
  let st := push 0 (push 0 st) in
  let st := push data_seg (push data_seg (push data_seg (push data_seg st))) in
  push 0 (push 0 (push 0 (push 0 (push 0 (push 0 (push 0 (push 0 st))))))).

(** What the memory components answer while a process is set up. *)
Record resources := MkRes { r_as : Z; r_ustack : Z; r_kstack : Z }.

Definition init_proc (p : Z) (entry : Z) (cmd : string) (mode : proc_mode) (par : Z)
    (st : proc_status) (res : resources) : M kern unit :=
  pproc ← (if truth par then pm_get_proc par else mret None);
  n ← newpid;
  t ← (match pproc with
       | Some _ => x ← slot pproc; mret (tty x)
       | None => mret "/dev/tty7"%string end);
  let top := u32 (r_kstack res + PAGE_SIZE) in
  let sp := u32 (top - 4 * Z.of_nat (length (prepare_stack entry mode))) in
  upd (Some p) (fun x =>
    MkProc n par st (if decide (st <> PS_BLOCKED) then BR_NOT_BLOCKED else BR_INIT)
      0 0 0 (r_kstack res) (r_ustack res) sp sp (Some (r_as res)) (sc_eax x)
      t cmd false (-1) PROC_START_TICKS (next x));;
  if decide (st = PS_READY) then pm_activate p else mret tt.

Definition pm_create (entry : Z) (cmd : string) (mode : proc_mode) (par : Z)
    (st : proc_status) (res : resources) : M kern Z :=
  e ← get_empty_proc;
  match e with
  | None => panic
  | Some p => init_proc p entry cmd mode par st res;; mret p
  end.

(** [pm_fork(parent, stackptr)]: the child's copy of the kernel stack is at [r_kstack];
    its [sc_regs] points into that copy ([eax] is the caller's there). *)
Definition pm_fork (par : option Z) (stackptr : Z) (res : resources) : M kern (option Z) :=
  match par with
  | None => mret None
  | Some _ =>
      e ← get_empty_proc;
      match e with
      | None => mret None
      | Some c =>
          n ← newpid;
          x ← slot par;
          let sp := u32 (r_kstack res + u32 (stackptr - kstack_addr x)) in
          upd (Some c) (fun y =>
            MkProc n (pid x) PS_READY BR_NOT_BLOCKED 0 0 0 (r_kstack res) (r_ustack res) sp sp
              (Some (r_as res)) (sc_eax x) (tty x) (cmdline x) true (-1) PROC_START_TICKS (next y));;
          mret (Some c)
      end
  end.

(** [sc_late_result(proc, result)]: [proc->sc_regs->eax = result]. *)
Definition sc_late_result (p : option Z) (r : Z) : M kern unit :=
  x ← slot p; _ ← deref (sc_eax x); upd p (set_sc_eax (Some (u32 r))).

(** [pm_destroy(proc)]; releasing the command line, the user stack and the address space
    is the memory components' part. *)
Definition pm_destroy (p : Z) : M kern unit :=
  pm_deactivate p;;
  upd (Some p) (set_status PS_SLOT_FREE);;
  x ← slot (Some p);
  (if truth (wait_proc x) then
     other ← pm_get_proc (wait_proc x);
     sc_late_result other (exit_status x);;
     o ← deref other;
     pm_unblock o
   else mret tt);;
  x ← slot (Some p);
  if truth (wait_for x) then
    other ← pm_get_proc (wait_for x);
    o ← slot other;
    if wait_proc o =? pid x then upd other (set_wait_proc 0) else mret tt
  else mret tt.

(** ** System calls *)

Definition sys_exit (st : Z) : M kern Z :=
  s ← get;
  upd (cur_proc s) (set_exit_status st);;
  p ← deref (syscall_proc s);
  pm_destroy p;;
  pm_schedule;;
  mret 0.

Definition sys_yield : M kern Z := pm_schedule;; mret 0.

Definition sys_waitpid (p : Z) : M kern Z :=
  other ← pm_get_proc p;
  o ← slot other;
  if decide (status o = PS_SLOT_FREE \/ wait_proc o <> 0) then mret (-1)
  else
    s ← get;
    me ← slot (syscall_proc s);
    upd other (set_wait_proc (pid me));;
    upd (syscall_proc s) (set_wait_for p);;
    i ← deref (syscall_proc s);
    pm_block i BR_WAIT_PROC;;
    mret 0.

Definition sys_getpid : M kern Z := s ← get; x ← slot (syscall_proc s); mret (pid x).

Definition sys_fork (res : resources) : M kern Z :=
  s ← get;
  me ← slot (syscall_proc s);
  child ← pm_fork (syscall_proc s) (esp me) res;
  match child with
  | None => mret (-1)
  | Some c =>
      sc_late_result child 0;;
      pm_activate c;;
      x ← slot child;
      mret (pid x)
  end.

(** [init_pm()]: the table, and the idle process 0, which is queued although blocked. *)
Definition free_slot (i : Z) : proc := MkProc i 0 PS_SLOT_FREE BR_NOT_BLOCKED 0 0 0 0 0 0 0
  None None "" "" false 0 0 None.
Definition empty_table : gmap Z proc :=
  for_each MAX_PROCS (fun i m => <[i := free_slot i]> m) {[idle_proc := zero_proc]}.
Definition init_pm (idle : Z) (res : resources) : M kern unit :=
  modify (set_procs empty_table);;
  modify (set_head None);;
  modify (set_tail None);;
  p ← pm_create idle "idle" PM_KERNEL 0 PS_BLOCKED res;
  pm_activate p;;
  modify (set_cur (Some p)).

(** ** The ready queue as a list *)

(** The slots of [l] are linked from [h] to NULL. *)
Fixpoint qchain (m : gmap Z proc) (h : option Z) (l : list Z) : Prop :=
  match l with
  | [] => h = None
  | i :: l => h = Some i /\ exists x, m !! i = Some x /\ qchain m (next x) l
  end.

(** One turn of round robin. *)
Definition rotate (l : list Z) : list Z :=
  match l with [] => [] | h :: t => t ++ [h] end.

(** The fields of a process the scheduler does not touch. *)
Definition core (p : proc) :=
  (pid p, parent p, (wait_proc p, wait_for p), wakeup p, (exit_status p, sc_eax p), as_ p,
   (kstack p, esp p)).

(** Slots below [u] have been used; their pids are distinct and were handed out; the
    others still carry the number [init_pm] gave them. *)
Record table_inv (m : gmap Z proc) (n u : Z) : Prop := {
  tab_all i : 0 <= i < 256 -> is_Some (m !! i);
  tab_u : 0 <= u <= 256;
  tab_n : u <= n < 2 ^ 32;
  tab_pid i x : 0 <= i < u -> m !! i = Some x -> 0 <= pid x < n;
  tab_inj i j x y : 0 <= i < j -> j < u -> m !! i = Some x -> m !! j = Some y -> pid x <> pid y;
  tab_free i x : u <= i < 256 -> m !! i = Some x -> pid x = i /\ status x = PS_SLOT_FREE;
}.

(** The queue: [l] is linked from head to tail, and holds used slots. *)
Record queue_inv (s : kern) (l : list Z) (u : Z) : Prop := {
  q_chain : qchain (procs s) (plist_head s) l;
  q_nodup : NoDup l;
  q_tail : plist_tail s = last l;
  q_used : Forall (fun i => 0 <= i < u) l;
}.

(** The process manager between two interrupts: the current process is at the head. *)
Record pm_inv (s : kern) (l : list Z) (u : Z) : Prop := {
  pm_table : table_inv (procs s) (next_pid s) u;
  pm_queue : queue_inv s l u;
  pm_cur : cur_proc s = head l;
  pm_some : l <> [];
}.

(** *** Lookups *)

Lemma upd_run i f s x :
  procs s !! i = Some x ->
  upd (Some i) f s = Ok (tt, set_procs (<[i := f x]> (procs s)) s).
Proof.
  intros Hx. unfold upd, mbind, M_bind, get, modify. simpl. unfold mret, M_ret. by rewrite Hx.
Qed.

Lemma slot_run i s x : procs s !! i = Some x -> slot (Some i) s = Ok (x, s).
Proof. intros Hx. unfold slot, mbind, M_bind, get. simpl. unfold mret, M_ret. by rewrite Hx. Qed.

Lemma qchain_ext m m' h l :
  qchain m h l -> (forall i, i ∈ l -> next <$> m' !! i = next <$> m !! i) -> qchain m' h l.
Proof.
  revert h. induction l as [|i l IH]; intros h Hc Hn; simpl in *; [done|].
  destruct Hc as (-> & x & Hx & Hc). split; [done|].
  pose proof (Hn i ltac:(left)) as Hi. rewrite Hx in Hi.
  destruct (m' !! i) as [x'|] eqn:Hx'; simpl in Hi; [|done].
  exists x'. split; [done|]. injection Hi as ->. apply IH; [done|]. intros. apply Hn. by right.
Qed.

Lemma qchain_snoc m m' h l p t y :
  qchain m h l -> last l = Some t -> NoDup l ->
  (forall i, i ∈ l -> next <$> m' !! i = if decide (i = t) then Some (Some p) else next <$> m !! i) ->
  m' !! p = Some y -> next y = None ->
  qchain m' h (l ++ [p]).
Proof.
  intros Hc Ht Hnd Hn Hp Hy. revert h Hc Ht Hnd Hn.
  induction l as [|i l IH]; intros h Hc Ht Hnd Hn; [done|].
  simpl in Hc. destruct Hc as (-> & x & Hx & Hc). apply NoDup_cons in Hnd as [Hil Hnd].
  split; [done|]. pose proof (Hn i ltac:(left)) as Hi.
  destruct (m' !! i) as [x'|] eqn:Hx'; simpl in Hi; [|by case_decide; [done|]; rewrite Hx in Hi].
  exists x'. split; [done|]. destruct l as [|j l].
  - injection Ht as <-. rewrite decide_True in Hi by done. injection Hi as ->.
    simpl. eauto.
  - assert (t ∈ j :: l) as Htl by (apply last_Some_elem_of; exact Ht).
    rewrite decide_False in Hi by (intros ->; done). rewrite Hx in Hi. injection Hi as ->.
    apply (IH (next x) Hc Ht Hnd). intros k Hk. apply Hn. by right.
Qed.

Lemma qchain_slot m h l i : qchain m h l -> i ∈ l -> is_Some (m !! i).
Proof.
  revert h. induction l as [|j l IH]; intros h Hc Hin; [by apply elem_of_nil in Hin|].
  destruct Hc as (-> & x & Hx & Hc). apply elem_of_cons in Hin as [->|Hin]; eauto.
Qed.

Lemma qchain_head m h l : qchain m h l -> h = head l.
Proof. destruct l; simpl; [done|]. by intros [-> _]. Qed.

(** A change of the table that keeps pids, and the status of slots never used. *)
Lemma table_ext m m' n u :
  table_inv m n u ->
  (forall i, 0 <= i < 256 -> pid <$> m' !! i = pid <$> m !! i) ->
  (forall i, u <= i < 256 -> status <$> m' !! i = status <$> m !! i) ->
  table_inv m' n u.
Proof.
  intros [] Hp Hs. constructor; try done.
  - intros i Hi. specialize (Hp i Hi). destruct (tab_all0 i Hi) as [x Hx]. rewrite Hx in Hp.
    by destruct (m' !! i).
  - intros i x Hi Hx. specialize (Hp i ltac:(lia)). rewrite Hx in Hp.
    destruct (m !! i) as [y|] eqn:Hy; [|done]. injection Hp as ->. eauto.
  - intros i j x y Hi Hj Hx Hy. pose proof (Hp i ltac:(lia)) as Hpi.
    pose proof (Hp j ltac:(lia)) as Hpj. rewrite Hx in Hpi. rewrite Hy in Hpj.
    destruct (m !! i) as [a|] eqn:Ha; [|done]. destruct (m !! j) as [b|] eqn:Hb; [|done].
    injection Hpi as ->. injection Hpj as ->. eapply (tab_inj0 i j); eauto.
  - intros i x Hi Hx. specialize (Hp i ltac:(lia)). specialize (Hs i Hi).
    rewrite Hx in Hp, Hs. destruct (m !! i) as [y|] eqn:Hy; [|done].
    injection Hp as ->. injection Hs as ->. by apply (tab_free0 i y).
Qed.

(** *** Scheduling *)

(** Everything but the queue, the current process and the table. *)
Definition globals (s : kern) :=
  (last_proc s, koop_mode s, next_pid s, syscall_proc s, timer_ticks s, next_wakeup s).

(** The outgoing process after [pm_schedule] has topped up its time slice. *)
Definition outgoing (p : proc) : proc :=
  let p := set_ticks_left (u32 (ticks_left p + PROC_START_TICKS)) p in
  let p := if PROC_MAX_TICKS <? ticks_left p then set_ticks_left PROC_MAX_TICKS p else p in
  if decide (status p = PS_RUNNING) then set_status PS_READY p else p.

Lemma outgoing_core p :
  core (outgoing p) = core p /\ next (outgoing p) = next p /\
  status (outgoing p) = (if decide (status p = PS_RUNNING) then PS_READY else status p).
Proof.
  unfold outgoing. destruct (PROC_MAX_TICKS <? _); simpl; case_decide; done.
Qed.

(** The table after a turn of the queue [h :: t], seen from one slot. *)
Definition turned (h : Z) (t : list Z) (i : Z) (x : proc) : proc :=
  let x := if decide (Some i = last (h :: t)) then set_next (Some h) x else x in
  let x := if decide (i = h) then set_next None x else x in
  if decide (Some i = head (rotate (h :: t))) then set_status PS_RUNNING x else x.

Lemma turned_core h t i x : core (turned h t i x) = core x.
Proof. unfold turned. do 3 case_decide; done. Qed.

(** [pm_schedule] in one step. *)
Lemma schedule_run s h t c xc :
  qchain (procs s) (plist_head s) (h :: t) -> NoDup (h :: t) ->
  plist_tail s = last (h :: t) -> cur_proc s = Some c -> procs s !! c = Some xc ->
  exists s', pm_schedule s = Ok (tt, s') /\
    plist_head s' = head (rotate (h :: t)) /\ plist_tail s' = Some h /\
    cur_proc s' = head (rotate (h :: t)) /\ globals s' = globals s /\
    forall i, procs s' !! i = turned h t i <$> <[c := outgoing xc]> (procs s) !! i.
Proof.
  intros Hc Hnd Ht Hcur Hxc.
  set (m1 := <[c := outgoing xc]> (procs s)).
  assert (qchain m1 (plist_head s) (h :: t)) as Hc1.
  { eapply qchain_ext; [exact Hc|]. intros i _. unfold m1.
    destruct (decide (i = c)) as [->|]; [|by rewrite lookup_insert_ne].
    rewrite lookup_insert_eq, Hxc. simpl. by destruct (outgoing_core xc) as (_ & -> & _). }
  assert (plist_head s = Some h) as Hh by (by apply qchain_head in Hc).
  destruct (head (rotate (h :: t))) as [r|] eqn:Hr; [|by destruct t].
  unfold pm_schedule, mbind, M_bind, get. rewrite Hcur.
  rewrite (upd_run c _ s xc) by done.
  do 2 (erewrite (upd_run c) by (simpl; by rewrite lookup_insert_eq)).
  simpl. rewrite !insert_insert_eq.
  fold (outgoing xc). fold m1. rewrite Ht, Hh.
  destruct (last (h :: t)) as [tl|] eqn:Hlast; [|by apply last_None in Hlast].
  destruct (qchain_slot m1 _ _ tl Hc1 (last_Some_elem_of _ _ Hlast)) as [xt Hxt].
  rewrite (upd_run tl _ _ xt) by done. unfold modify. simpl.
  set (m2 := <[tl := set_next (Some h) xt]> m1).
  destruct (qchain_slot m1 _ _ h Hc1 ltac:(left)) as [xh Hxh].
  assert (exists xh2, m2 !! h = Some xh2 /\ next xh2 = Some r /\
    xh2 = if decide (Some h = last (h :: t)) then set_next (Some h) xh else xh) as (xh2 & Hh2 & Hn2 & E2).
  { rewrite Hlast, <- Hr. unfold m2. destruct t as [|j t].
    - injection Hlast as <-. rewrite lookup_insert_eq, decide_True by done.
      exists (set_next (Some h) xt). by simplify_eq.
    - assert (tl ∈ j :: t) as Hin by (apply last_Some_elem_of; exact Hlast).
      apply NoDup_cons in Hnd as [Hnh _]. assert (tl <> h) as Hne by (intros ->; done).
      rewrite lookup_insert_ne, decide_False by congruence. exists xh. split; [done|].
      destruct Hc1 as (_ & x & Hx & Hc1). simplify_eq. apply qchain_head in Hc1. done. }
  erewrite (slot_run h) by (simpl; exact Hh2). rewrite Hn2.
  erewrite (upd_run h) by (simpl; exact Hh2). simpl.
  set (m3 := <[h := set_next None xh2]> m2).
  assert (exists xr, m3 !! r = Some xr) as [xr Hxr].
  { destruct t as [|j t]; simpl in Hr; injection Hr as <-.
    - exists (set_next None xh2). apply lookup_insert_eq.
    - destruct (qchain_slot m1 _ _ j Hc1 ltac:(right; left)) as [xj Hj].
      unfold m3, m2. destruct (decide (h = j)) as [->|]; [rewrite lookup_insert_eq; eauto|].
      rewrite lookup_insert_ne by done. destruct (decide (tl = j)) as [->|];
        [rewrite lookup_insert_eq; eauto | rewrite lookup_insert_ne by done; eauto]. }
  erewrite (upd_run r) by (simpl; exact Hxr).
  eexists. split; [done|]. simpl. split_and!; try done.
  intros i. unfold turned. rewrite Hlast, Hr.
  assert (forall i, m2 !! i = (fun x => if decide (Some i = Some tl) then set_next (Some h) x else x)
    <$> m1 !! i) as Hm2.
  { intros k. unfold m2. destruct (decide (k = tl)) as [->|].
    - rewrite lookup_insert_eq, Hxt. simpl. by rewrite decide_True.
    - rewrite lookup_insert_ne by done. destruct (m1 !! k); simpl; [|done].
      by rewrite decide_False by congruence. }
  assert (forall i, m3 !! i = (fun x => if decide (i = h) then set_next None x else x)
    <$> m2 !! i) as Hm3.
  { intros k. unfold m3. destruct (decide (k = h)) as [->|].
    - rewrite lookup_insert_eq, Hh2. simpl. done.
    - rewrite lookup_insert_ne by done. by destruct (m2 !! k). }
  destruct (decide (i = r)) as [->|Hir].
  - rewrite lookup_insert_eq. rewrite Hm3, Hm2 in Hxr.
    destruct (m1 !! r) as [x|]; simpl in *; [|done]. injection Hxr as <-.
    by rewrite (decide_True (P := Some r = Some r)).
  - rewrite lookup_insert_ne, Hm3, Hm2 by done. destruct (m1 !! i); simpl; [|done].
    by rewrite (decide_False (P := Some i = Some r)) by congruence.
Qed.

(** What an operation may change in a slot. *)
Definition same_core (s s' : kern) : Prop :=
  forall i, core <$> procs s' !! i = core <$> procs s !! i.

Lemma same_core_pid s s' i : same_core s s' -> pid <$> procs s' !! i = pid <$> procs s !! i.
Proof.
  intros H. specialize (H i). unfold core in H.
  destruct (procs s !! i), (procs s' !! i); simpl in *; congruence.
Qed.

(** No slot becomes free. *)
Definition no_free (s s' : kern) : Prop :=
  forall i, status <$> procs s' !! i = Some PS_SLOT_FREE ->
    status <$> procs s !! i = Some PS_SLOT_FREE.

Lemma schedule_spec s l u c :
  table_inv (procs s) (next_pid s) u -> queue_inv s l u -> l <> [] ->
  cur_proc s = Some c -> 0 <= c < u ->
  exists s', pm_schedule s = Ok (tt, s') /\ pm_inv s' (rotate l) u /\
    globals s' = globals s /\ same_core s s' /\ no_free s s' /\
    (forall i x, procs s' !! i = Some x -> Some i = head (rotate l) -> status x = PS_RUNNING) /\
    (forall i, i <> c -> Some i <> head (rotate l) ->
       status <$> procs s' !! i = status <$> procs s !! i).
Proof.
  intros Htab [Hc Hnd Ht Hu] Hne Hcur Hcu. destruct l as [|h t]; [done|].
  destruct (tab_all _ _ _ Htab c) as [xc Hxc]; [pose proof (tab_u _ _ _ Htab); lia|].
  destruct (schedule_run s h t c xc Hc Hnd Ht Hcur Hxc) as (s' & Hrun & Eh & Et & Ec & Eg & Hm).
  set (m1 := <[c := outgoing xc]> (procs s)) in *.
  destruct (outgoing_core xc) as (Oc & On & Os).
  assert (no_free s s') as Hnf.
  { intros i. rewrite Hm. unfold m1. destruct (decide (i = c)) as [->|].
    - rewrite lookup_insert_eq, Hxc. simpl. unfold turned.
      repeat case_decide; simpl; congruence.
    - rewrite lookup_insert_ne by done. destruct (procs s !! i); simpl; [|done].
      unfold turned. clear Os. repeat case_decide; simpl; congruence. }
  clear Os.
  assert (forall i, next <$> m1 !! i = next <$> procs s !! i) as Hnext.
  { intros i. unfold m1. destruct (decide (i = c)) as [->|]; [|by rewrite lookup_insert_ne].
    rewrite lookup_insert_eq, Hxc. simpl. by rewrite On. }
  assert (forall i, core <$> m1 !! i = core <$> procs s !! i) as Hcore.
  { intros i. unfold m1. destruct (decide (i = c)) as [->|]; [|by rewrite lookup_insert_ne].
    rewrite lookup_insert_eq, Hxc. simpl. by rewrite Oc. }
  assert (same_core s s') as Hsc.
  { intros i. rewrite Hm, <- Hcore. destruct (m1 !! i); simpl; [|done]. by rewrite turned_core. }
  assert (qchain m1 (plist_head s) (h :: t)) as Hc1 by (eapply qchain_ext; [exact Hc | auto]).
  assert (forall i, i <> c -> Some i <> head (rotate (h :: t)) ->
    status <$> procs s' !! i = status <$> procs s !! i) as Hstat.
  { intros i Hic Hir. rewrite Hm. unfold m1. rewrite lookup_insert_ne by done.
    destruct (procs s !! i); simpl; [|done]. unfold turned.
    repeat case_decide; done. }
  exists s'. split; [done|]. split; [|split_and!; try done].
  - constructor; [| | done | by destruct t].
    + injection Eg as _ _ En _ _ _. rewrite En. eapply table_ext; [done | |].
      * intros i _. by apply same_core_pid.
      * intros i Hi. apply Hstat; [lia|]. intros Hr.
        assert (i ∈ h :: t) as Hin.
        { destruct t as [|j t]; simpl in Hr; injection Hr as ->; [left | right; left]. }
        eapply Forall_forall in Hu; [|exact Hin]. lia.
    + apply Forall_cons in Hu as [Hh Hu]. apply NoDup_cons in Hnd as [Hht Hndt].
      assert (NoDup (t ++ [h])) as Hnd'.
      { apply NoDup_app. split; [done|]. split; [|apply NoDup_singleton].
        intros i Hi Hih. apply list_elem_of_singleton in Hih. by subst i. }
      destruct (qchain_slot m1 _ _ h Hc1 ltac:(left)) as [xh Hxh].
      constructor; [| done | simpl; by rewrite Et, last_snoc |].
      2: { apply Forall_app. split; [done | by constructor]. }
      rewrite Eh. destruct t as [|j t].
      * simpl. split; [done|]. eexists. rewrite Hm, Hxh. split; [done|].
        unfold turned. simpl. rewrite !decide_True by done. done.
      * destruct Hc1 as (_ & x & Hx & Hc1). assert (x = xh) as -> by congruence.
        destruct (last (j :: t)) as [tl|] eqn:Hlast; [|by apply last_None in Hlast].
        assert (tl ∈ j :: t) as Htl by (by apply last_Some_elem_of).
        apply (qchain_snoc m1 (procs s') _ (j :: t) h tl (turned h (j :: t) h xh)); try done.
        -- replace (head (rotate (h :: j :: t))) with (next xh); [done|].
           by apply qchain_head in Hc1.
        -- intros i Hi. rewrite Hm. destruct (qchain_slot _ _ _ i Hc1 Hi) as [xi Hxi].
           rewrite Hxi. unfold turned. rewrite last_cons_cons, Hlast. simpl.
           assert (i <> h) as Hih by (intros ->; done).
           rewrite (decide_False (P := i = h)) by done.
           destruct (decide (i = tl)) as [->|].
           ++ rewrite (decide_True (P := Some tl = Some tl)) by done. by case_decide.
           ++ rewrite (decide_False (P := Some i = Some tl)) by congruence. by case_decide.
        -- by rewrite Hm, Hxh.
        -- unfold turned. rewrite (decide_True (P := h = h)) by done. by case_decide.
  - intros i x Hx Hi. rewrite Hm in Hx. destruct (m1 !! i); simpl in Hx; [|done].
    injection Hx as <-. unfold turned. rewrite (decide_True (P := Some i = _)) by done. done.
Qed.

Lemma activate_spec s l u p :
  table_inv (procs s) (next_pid s) u -> queue_inv s l u -> l <> [] ->
  p ∉ l -> 0 <= p < u ->
  exists s', pm_activate p s = Ok (tt, s') /\
    table_inv (procs s') (next_pid s') u /\ queue_inv s' (l ++ [p]) u /\
    cur_proc s' = cur_proc s /\ globals s' = globals s /\ same_core s s' /\
    (forall i, status <$> procs s' !! i = status <$> procs s !! i).
Proof.
  intros Htab [Hc Hnd Ht Hu] Hne Hp Hpu.
  destruct (tab_all _ _ _ Htab p) as [xp Hxp]; [pose proof (tab_u _ _ _ Htab); lia|].
  destruct (last l) as [tl|] eqn:Hlast; [|by apply last_None in Hlast].
  assert (tl ∈ l) as Htl by (by apply last_Some_elem_of).
  destruct (qchain_slot _ _ _ tl Hc Htl) as [xt Hxt].
  assert (tl <> p) as Htp by (intros ->; done).
  pose proof (qchain_head _ _ _ Hc) as Hh. destruct l as [|h t]; [done|]. simpl in Hh.
  unfold pm_activate, mbind, M_bind, get. rewrite Hh, Ht. unfold mret, M_ret.
  rewrite (upd_run tl _ s xt) by done. unfold modify.
  erewrite (upd_run p) by (simpl; rewrite lookup_insert_ne by done; exact Hxp). simpl.
  eexists. split; [done|]. simpl.
  assert (same_core s (set_procs (<[p:=set_next None xp]> (<[tl:=set_next (Some p) xt]> (procs s))) s))
    as Hsc.
  { intros i. simpl. destruct (decide (i = p)) as [->|]; [by rewrite lookup_insert_eq, Hxp|].
    rewrite lookup_insert_ne by done. destruct (decide (i = tl)) as [->|];
      [by rewrite lookup_insert_eq, Hxt | by rewrite lookup_insert_ne]. }
  assert (forall i, status <$> <[p:=set_next None xp]> (<[tl:=set_next (Some p) xt]> (procs s)) !! i
    = status <$> procs s !! i) as Hst.
  { intros i. destruct (decide (i = p)) as [->|]; [by rewrite lookup_insert_eq, Hxp|].
    rewrite lookup_insert_ne by done. destruct (decide (i = tl)) as [->|];
      [by rewrite lookup_insert_eq, Hxt | by rewrite lookup_insert_ne]. }
  split_and!; try done.
  - eapply table_ext; [done | | by intros]. intros i _. apply (same_core_pid _ _ _ Hsc).
  - constructor.
    + apply (qchain_snoc (procs s) _ (plist_head s) (h :: t) p tl (set_next None xp)); try done.
      * intros i Hi. simpl. assert (i <> p) by (intros ->; done). rewrite lookup_insert_ne by done.
        case_decide as Hit; [subst i; by rewrite lookup_insert_eq | by rewrite lookup_insert_ne].
      * apply lookup_insert_eq.
    + rewrite app_comm_cons. apply NoDup_app. split; [done|]. split; [|apply NoDup_singleton].
      intros i Hi Hip. apply list_elem_of_singleton in Hip. by subst i.
    + by rewrite app_comm_cons, last_snoc.
    + rewrite app_comm_cons. apply Forall_app. split; [done|]. by constructor.
Qed.

(** *** Updating a slot *)

Definition keeps_links (f : proc -> proc) : Prop := forall x, pid (f x) = pid x /\ next (f x) = next x.

Lemma upd_spec s l u i f :
  table_inv (procs s) (next_pid s) u -> queue_inv s l u -> 0 <= i < u -> keeps_links f ->
  exists x, procs s !! i = Some x /\
    upd (Some i) f s = Ok (tt, set_procs (<[i := f x]> (procs s)) s) /\
    table_inv (<[i := f x]> (procs s)) (next_pid s) u /\
    queue_inv (set_procs (<[i := f x]> (procs s)) s) l u.
Proof.
  intros Htab [Hc Hnd Ht Hu] Hi Hf.
  destruct (tab_all _ _ _ Htab i) as [x Hx]; [pose proof (tab_u _ _ _ Htab); lia|].
  destruct (Hf x) as [Hp Hn]. exists x. split_and!; [done | by apply upd_run | |].
  - eapply table_ext; [done | |].
    + intros j _. destruct (decide (j = i)) as [->|]; [|by rewrite lookup_insert_ne].
      rewrite lookup_insert_eq, Hx. simpl. by rewrite Hp.
    + intros j Hj. by rewrite lookup_insert_ne by lia.
  - constructor; [|done..]. eapply qchain_ext; [exact Hc|]. intros j _. simpl.
    destruct (decide (j = i)) as [->|]; [|by rewrite lookup_insert_ne].
    rewrite lookup_insert_eq, Hx. simpl. by rewrite Hn.
Qed.

(** Taking the current process, at the head of the queue, out of it. *)
Lemma deactivate_head_spec s h t u :
  table_inv (procs s) (next_pid s) u -> queue_inv s (h :: t) u -> t <> [] ->
  cur_proc s = Some h ->
  exists s', pm_deactivate h s = Ok (tt, s') /\ pm_inv s' (rotate t) u /\
    globals s' = globals s /\ same_core s s' /\ no_free s s' /\
    (forall i, i <> h -> Some i <> head (rotate t) ->
       status <$> procs s' !! i = status <$> procs s !! i) /\
    (forall x, procs s !! h = Some x -> status x <> PS_RUNNING ->
       status <$> procs s' !! h = Some (status x)).
Proof.
  intros Htab [Hc Hnd Ht Hu] Hne Hcur. pose proof (qchain_head _ _ _ Hc) as Hh. simpl in Hh.
  destruct Hc as (_ & x & Hx & Hc). apply NoDup_cons in Hnd as [Hht Hnd].
  apply Forall_cons in Hu as [Hhu Hu].
  unfold pm_deactivate, mbind, M_bind, get. rewrite Hh. simpl. rewrite Z.eqb_refl.
  rewrite (slot_run h s x) by done. unfold modify. rewrite decide_True by done.
  set (s1 := set_head (next x) s).
  assert (queue_inv s1 t u) as Hq1.
  { constructor; simpl; [done.. | | done]. rewrite Ht. by destruct t. }
  destruct (schedule_spec s1 t u h Htab Hq1 Hne Hcur Hhu) as (s' & Hrun & Hinv & Hg & Hsc & Hnf & _ & Hst).
  exists s'. split_and!; try done. intros y Hy Hnr. assert (y = x) as -> by congruence.
  destruct t as [|j t]; [done|].
  destruct (schedule_run s1 j t h x) as (s2 & Hrun2 & _ & _ & _ & _ & Hm); try done.
  rewrite Hrun in Hrun2. injection Hrun2 as <-. rewrite Hm, lookup_insert_eq. simpl.
  destruct (outgoing_core x) as (_ & _ & Hs). rewrite decide_False in Hs by done.
  assert (Some h <> head (rotate (j :: t))) as Hhead.
  { intros E. destruct Hht. destruct t as [|k t]; simpl in E; injection E as ->;
      [left | right; left]. }
  unfold turned. repeat case_decide; simpl; (done || by rewrite Hs).
Qed.

(** The current process blocks itself. *)
Lemma block_head_spec s h t u reason x :
  pm_inv s (h :: t) u -> t <> [] -> procs s !! h = Some x -> status x <> PS_BLOCKED ->
  exists s', pm_block h reason s = Ok (true, s') /\ pm_inv s' (rotate t) u /\
    globals s' = globals s /\ same_core s s' /\ no_free s s' /\
    status <$> procs s' !! h = Some PS_BLOCKED /\
    (forall i, i <> h -> Some i <> head (rotate t) ->
       status <$> procs s' !! i = status <$> procs s !! i).
Proof.
  intros [Htab Hq Hcur _] Hne Hx Hst. pose proof (q_used _ _ _ Hq) as Hu.
  apply Forall_cons in Hu as [Hhu _]. unfold pm_block, mbind, M_bind.
  rewrite (slot_run h s x) by done. rewrite decide_False by done.
  destruct (upd_spec s (h :: t) u h (set_status PS_BLOCKED) Htab Hq Hhu ltac:(by intros ?))
    as (x1 & Hx1 & -> & Htab1 & Hq1). assert (x1 = x) as -> by congruence.
  set (s1 := set_procs (<[h := set_status PS_BLOCKED x]> (procs s)) s) in *.
  destruct (upd_spec s1 (h :: t) u h (set_block reason) Htab1 Hq1 Hhu ltac:(by intros ?))
    as (x2 & Hx2 & -> & Htab2 & Hq2). simpl in Hx2. rewrite lookup_insert_eq in Hx2.
  injection Hx2 as <-. set (s2 := set_procs _ s1) in *.
  destruct (deactivate_head_spec s2 h t u Htab2 Hq2 Hne Hcur)
    as (s' & -> & Hinv & Hg & Hsc & Hnf & Hother & Hself).
  assert (procs s2 !! h = Some (set_block reason (set_status PS_BLOCKED x))) as Hh2
    by (simpl; apply lookup_insert_eq).
  exists s'. split_and!; try done.
  - intros i. rewrite Hsc. unfold s2, s1. simpl. rewrite insert_insert_eq.
    destruct (decide (i = h)) as [->|]; [|by rewrite lookup_insert_ne].
    by rewrite lookup_insert_eq, Hx.
  - intros i Hi. apply Hnf in Hi. unfold s2, s1 in Hi. simpl in Hi. revert Hi.
    rewrite insert_insert_eq. destruct (decide (i = h)) as [->|];
      [by rewrite lookup_insert_eq | by rewrite lookup_insert_ne].
  - by apply (Hself _ Hh2).
  - intros i Hi Hr. rewrite Hother by done. unfold s2, s1. simpl.
    by rewrite insert_insert_eq, lookup_insert_ne.
Qed.

(** A process outside the queue is made ready. *)
Lemma unblock_spec s l u p :
  table_inv (procs s) (next_pid s) u -> queue_inv s l u -> l <> [] -> p ∉ l -> 0 <= p < u ->
  exists s', pm_unblock p s = Ok (tt, s') /\
    table_inv (procs s') (next_pid s') u /\ queue_inv s' (l ++ [p]) u /\
    cur_proc s' = cur_proc s /\ globals s' = globals s /\ same_core s s' /\
    status <$> procs s' !! p = Some PS_READY /\
    (forall i, i <> p -> status <$> procs s' !! i = status <$> procs s !! i).
Proof.
  intros Htab Hq Hne Hp Hpu. unfold pm_unblock, mbind, M_bind.
  destruct (upd_spec s l u p (set_status PS_READY) Htab Hq Hpu ltac:(by intros ?))
    as (x1 & Hx1 & -> & Htab1 & Hq1).
  set (s1 := set_procs (<[p := set_status PS_READY x1]> (procs s)) s) in *.
  destruct (upd_spec s1 l u p (set_block BR_NOT_BLOCKED) Htab1 Hq1 Hpu ltac:(by intros ?))
    as (x2 & Hx2 & -> & Htab2 & Hq2). simpl in Hx2. rewrite lookup_insert_eq in Hx2.
  injection Hx2 as <-. set (s2 := set_procs _ s1) in *.
  destruct (activate_spec s2 l u p Htab2 Hq2 Hne Hp Hpu)
    as (s' & -> & Htab' & Hq' & Hc' & Hg' & Hsc & Hst).
  exists s'. split_and!; try done.
  - intros i. rewrite Hsc. unfold s2, s1. simpl. rewrite insert_insert_eq.
    destruct (decide (i = p)) as [->|]; [|by rewrite lookup_insert_ne].
    by rewrite lookup_insert_eq, Hx1.
  - rewrite Hst. unfold s2. simpl. by rewrite lookup_insert_eq.
  - intros i Hi. rewrite Hst. unfold s2, s1. simpl. by rewrite insert_insert_eq, lookup_insert_ne.
Qed.

(** *** The process table *)

Lemma find_pid_spec m n i p :
  (forall j, i <= j < i + Z.of_nat n -> is_Some (m !! j)) ->
  match find_pid m n i p with
  | Some k => i <= k < i + Z.of_nat n /\ pid <$> m !! k = Some p /\
      forall j, i <= j < k -> pid <$> m !! j <> Some p
  | None => forall j, i <= j < i + Z.of_nat n -> pid <$> m !! j <> Some p
  end.
Proof.
  revert i. induction n as [|n IH]; intros i Hall; cbn [find_pid]; [lia|].
  destruct (Hall i ltac:(lia)) as [x Hx]. rewrite Hx.
  destruct (Z.eqb_spec (pid x) p) as [Hp|Hp].
  - split; [lia|]. split; [rewrite Hx; simpl; by rewrite Hp|]. lia.
  - assert (forall j, i <= j -> (i + 1 <= j -> pid <$> m !! j <> Some p) ->
      pid <$> m !! j <> Some p) as Hstep.
    { intros j Hj Hr. destruct (Z.eq_dec j i) as [->|]; [|apply Hr; lia].
      rewrite Hx. simpl. congruence. }
    specialize (IH (i + 1) ltac:(intros; apply Hall; lia)).
    destruct (find_pid m n (i + 1) p) as [k|].
    + destruct IH as (Hk & Hpk & Hmin). split; [lia|]. split; [done|].
      intros j Hj. apply Hstep; [lia|]. intros. apply Hmin. lia.
    + intros j Hj. apply Hstep; [lia|]. intros. apply IH. lia.
Qed.

(** A pid that belongs to a used slot is found there, whatever the free slots carry. *)
Lemma get_proc_used s u i x :
  table_inv (procs s) (next_pid s) u -> 0 <= i < u -> procs s !! i = Some x ->
  pm_get_proc (pid x) s = Ok (Some i, s).
Proof.
  intros Htab Hi Hx. unfold pm_get_proc, gets. do 2 f_equal. destruct Htab.
  pose proof (find_pid_spec (procs s) (Z.to_nat MAX_PROCS) 0 (pid x)) as Hf.
  unfold MAX_PROCS in *. rewrite Z2Nat.id in Hf by lia.
  specialize (Hf ltac:(intros; apply tab_all0; lia)).
  destruct (find_pid (procs s) (Z.to_nat 256) 0 (pid x)) as [k|].
  - destruct Hf as (Hk & Hpk & Hmin). destruct (procs s !! k) as [y|] eqn:Hy; [|done].
    injection Hpk as Hpk. f_equal. destruct (Z.lt_trichotomy k i) as [Hlt|[->|Hgt]]; [|done|].
    + destruct (tab_inj0 k i y x); (done || lia).
    + destruct (Hmin i); [lia|]. by rewrite Hx.
  - destruct (Hf i); [lia|]. by rewrite Hx.
Qed.

Lemma find_free_spec m n i :
  (forall j, i <= j < i + Z.of_nat n -> is_Some (m !! j)) ->
  match find_free m n i with
  | Some k => i <= k < i + Z.of_nat n /\ status <$> m !! k = Some PS_SLOT_FREE /\
      forall j, i <= j < k -> status <$> m !! j <> Some PS_SLOT_FREE
  | None => forall j, i <= j < i + Z.of_nat n -> status <$> m !! j <> Some PS_SLOT_FREE
  end.
Proof.
  revert i. induction n as [|n IH]; intros i Hall; cbn [find_free]; [lia|].
  destruct (Hall i ltac:(lia)) as [x Hx]. rewrite Hx. case_decide as Hp.
  - split; [lia|]. split; [rewrite Hx; simpl; by rewrite Hp|]. lia.
  - assert (forall j, i <= j -> (i + 1 <= j -> status <$> m !! j <> Some PS_SLOT_FREE) ->
      status <$> m !! j <> Some PS_SLOT_FREE) as Hstep.
    { intros j Hj Hr. destruct (Z.eq_dec j i) as [->|]; [|apply Hr; lia].
      rewrite Hx. simpl. congruence. }
    specialize (IH (i + 1) ltac:(intros; apply Hall; lia)).
    destruct (find_free m n (i + 1)) as [k|].
    + destruct IH as (Hk & Hpk & Hmin). split; [lia|]. split; [done|].
      intros j Hj. apply Hstep; [lia|]. intros. apply Hmin. lia.
    + intros j Hj. apply Hstep; [lia|]. intros. apply IH. lia.
Qed.

(** Putting a new process with a new pid into the first free slot. *)
Lemma table_alloc m n u p x :
  table_inv m n u -> n + 1 < 2 ^ 32 -> 0 <= p < 256 ->
  (forall j, 0 <= j < p -> status <$> m !! j <> Some PS_SLOT_FREE) -> pid x = n ->
  table_inv (<[p := x]> m) (n + 1) (Z.max u (p + 1)) /\ p <= u.
Proof.
  intros Htab Hn Hp Hmin Hx.
  assert (p <= u) as Hpu.
  { destruct (Z.le_gt_cases p u) as [|Hgt]; [done|]. exfalso.
    destruct (tab_all _ _ _ Htab u) as [y Hy]; [pose proof (tab_u _ _ _ Htab); lia|].
    destruct (tab_free _ _ _ Htab u y) as [_ Hs]; [lia | done |].
    destruct (Hmin u); [pose proof (tab_u _ _ _ Htab); lia|]. by rewrite Hy, <- Hs. }
  split; [|done]. destruct Htab. constructor; try lia.
  - intros i Hi. destruct (decide (i = p)) as [->|]; [rewrite lookup_insert_eq; eauto|].
    rewrite lookup_insert_ne by done. auto.
  - intros i y Hi. destruct (decide (i = p)) as [->|].
    + rewrite lookup_insert_eq. intros [= <-]. lia.
    + rewrite lookup_insert_ne by done. intros Hy. pose proof (tab_pid0 i y ltac:(lia) Hy). lia.
  - intros i j y z Hij Hj. destruct (decide (i = p)) as [->|Hip], (decide (j = p)) as [->|Hjp].
    + lia.
    + rewrite lookup_insert_eq, lookup_insert_ne by done. intros [= <-] Hz.
      pose proof (tab_pid0 j z ltac:(lia) Hz). lia.
    + rewrite lookup_insert_eq, lookup_insert_ne by done. intros Hy [= <-].
      pose proof (tab_pid0 i y ltac:(lia) Hy). lia.
    + rewrite !lookup_insert_ne by done. apply (tab_inj0 i j); lia.
  - intros i y Hi. rewrite lookup_insert_ne by lia. apply tab_free0. lia.
Qed.

(** Queued processes are not free slots. *)
Definition live (s : kern) (l : list Z) : Prop :=
  forall i, i ∈ l -> status <$> procs s !! i <> Some PS_SLOT_FREE.

Lemma live_mono s s' l l' : live s l -> no_free s s' -> (forall i, i ∈ l' -> i ∈ l) -> live s' l'.
Proof. intros Hl Hn Hs i Hi Hf. apply (Hl i (Hs i Hi)), Hn, Hf. Qed.

Lemma elem_rotate i l : i ∈ rotate l -> i ∈ l.
Proof.
  destruct l as [|h t]; simpl; [done|].
  rewrite elem_of_app, list_elem_of_singleton, elem_of_cons. tauto.
Qed.

(** Looking up the terminal of the parent never fails: the table is complete. *)
Lemma parent_tty s u (par : Z) :
  table_inv (procs s) (next_pid s) u ->
  exists pp, (if truth par then pm_get_proc par else mret None) s = Ok (pp, s) /\
    forall s', (forall i, 0 <= i < 256 -> is_Some (procs s' !! i)) -> exists t,
      (match pp with Some _ => x ← slot pp; mret (tty x) | None => mret "/dev/tty7"%string end) s'
      = Ok (t, s').
Proof.
  intros Htab. destruct (truth par).
  - eexists. split; [done|]. intros s' Hall.
    pose proof (find_pid_spec (procs s) (Z.to_nat MAX_PROCS) 0 par) as Hf. unfold MAX_PROCS in *.
    rewrite Z2Nat.id in Hf by lia.
    specialize (Hf ltac:(intros; apply (tab_all _ _ _ Htab); lia)).
    destruct (find_pid (procs s) (Z.to_nat 256) 0 par) as [k|].
    + destruct (Hall k) as [x Hx]; [lia|]. exists (tty x).
      unfold mbind, M_bind. by rewrite (slot_run k s' x).
    + by eexists.
  - exists None. split; [done|]. intros s' _. by eexists.
Qed.

Lemma newpid_run s : newpid s = Ok (next_pid s, set_next_pid (u32 (next_pid s + 1)) s).
Proof. done. Qed.

Lemma create_spec s l u entry cmd mode par st res :
  pm_inv s l u -> live s l -> next_pid s + 1 < 2 ^ 32 -> st <> PS_SLOT_FREE ->
  match find_free (procs s) (Z.to_nat MAX_PROCS) 0 with
  | None => pm_create entry cmd mode par st res s = Panic
  | Some p =>
      let l' := if decide (st = PS_READY) then l ++ [p] else l in
      exists s', pm_create entry cmd mode par st res s = Ok (p, s') /\ p ∉ l /\
        pm_inv s' l' (Z.max u (p + 1)) /\ live s' l' /\
        pid <$> procs s' !! p = Some (next_pid s) /\ status <$> procs s' !! p = Some st /\
        next_pid s' = next_pid s + 1
  end.
Proof.
  intros [Htab Hq Hcur Hne] Hlive Hn Hst.
  pose proof (find_free_spec (procs s) (Z.to_nat MAX_PROCS) 0) as Hf.
  unfold pm_create, get_empty_proc, gets, mbind, M_bind. unfold MAX_PROCS in *.
  rewrite Z2Nat.id in Hf by lia. specialize (Hf ltac:(intros; apply (tab_all _ _ _ Htab); lia)).
  destruct (find_free (procs s) (Z.to_nat 256) 0) as [p|]; [|done]. cbv zeta.
  destruct Hf as (Hp & Hfree & Hmin).
  assert (p ∉ l) as Hpl by (intros Hin; by apply (Hlive p Hin)).
  unfold init_proc, mbind, M_bind.
  destruct (parent_tty s u par Htab) as (pp & -> & Htty). rewrite newpid_run.
  rewrite (u32_small (next_pid s + 1)) by (unfold is_u32; pose proof (tab_n _ _ _ Htab); pose proof (tab_u _ _ _ Htab); lia).
  set (s1 := set_next_pid (next_pid s + 1) s).
  destruct (Htty s1 (tab_all _ _ _ Htab)) as [t Ht]. unfold mbind, M_bind in Ht.
  unfold mret, M_ret in *. rewrite Ht.
  destruct (tab_all _ _ _ Htab p ltac:(lia)) as [y Hy].
  rewrite (upd_run p _ s1 y) by done. set (x := MkProc _ _ _ _ _ _ _ _ _ _ _ _ _ _ _ _ _ _ _).
  set (s2 := set_procs (<[p := x]> (procs s1)) s1).
  destruct (table_alloc (procs s) (next_pid s) u p x Htab Hn ltac:(lia) Hmin eq_refl)
    as [Htab2 Hpu]. set (u' := Z.max u (p + 1)) in *.
  assert (queue_inv s2 l u') as Hq2.
  { destruct Hq as [Hc Hnd Ht' Hu]. constructor; [|done|done|].
    - eapply qchain_ext; [exact Hc|]. intros i Hi. simpl.
      rewrite lookup_insert_ne by (intros ->; done). done.
    - eapply Forall_impl; [exact Hu|]. intros i Hi. simpl in Hi. lia. }
  assert (live s2 l) as Hlive2.
  { intros i Hi. simpl. rewrite lookup_insert_ne by (intros ->; done). by apply Hlive. }
  case_decide as Hrdy.
  - destruct (activate_spec s2 l u' p Htab2 Hq2 Hne Hpl ltac:(lia))
      as (s' & -> & Htab' & Hq' & Hc' & Hg' & Hsc & Hss).
    exists s'. split; [done|]. split; [done|]. split_and!.
    + constructor; [done | done | | by destruct l]. rewrite Hc'. simpl. rewrite Hcur. by destruct l.
    + intros i Hi. rewrite Hss. apply elem_of_app in Hi as [Hi|Hi]; [by apply Hlive2|].
      apply list_elem_of_singleton in Hi as ->. simpl. rewrite lookup_insert_eq. simpl. congruence.
    + rewrite (same_core_pid _ _ _ Hsc). simpl. by rewrite lookup_insert_eq.
    + rewrite Hss. simpl. by rewrite lookup_insert_eq.
    + injection Hg'. intros. by simplify_eq.
  - exists s2. split; [done|]. split; [done|]. split_and!; try done.
    + simpl. by rewrite lookup_insert_eq.
    + simpl. by rewrite lookup_insert_eq.
Qed.

(** ** Runs of the scheduler *)

Inductive pm_op :=
| Yield
| Block (reason : block_reason)
| Unblock (p : Z)
| Create (entry : Z) (cmd : string) (mode : proc_mode) (par : Z) (ready : bool) (res : resources).

Definition pm_step (op : pm_op) : M kern unit :=
  match op with
  | Yield => _ ← sys_yield; mret tt
  | Block reason => s ← get; p ← deref (cur_proc s); _ ← pm_block p reason; mret tt
  | Unblock p => pm_unblock p
  | Create entry cmd mode par ready res =>
      _ ← pm_create entry cmd mode par (if ready : bool then PS_READY else PS_BLOCKED) res; mret tt
  end.

(** Abstract scheduler: the queue of ready processes, the running one in front.  A
    request is possible when the current process is not the only one (to block it), when
    the process is known and not queued (to make it ready). *)
Inductive sched : list Z -> pm_op -> list Z -> Prop :=
| sched_yield l : sched l Yield (rotate l)
| sched_block h t reason : t <> [] -> sched (h :: t) (Block reason) (rotate t)
| sched_unblock l p : p ∉ l -> sched l (Unblock p) (l ++ [p])
| sched_create_ready l p entry cmd mode par res :
    p ∉ l -> sched l (Create entry cmd mode par true res) (l ++ [p])
| sched_create_blocked l entry cmd mode par res :
    sched l (Create entry cmd mode par false res) l.

(** The request respects the rules of the callers in the kernel. *)
Definition allowed_op (s : kern) (l : list Z) (u : Z) (op : pm_op) : Prop :=
  match op with
  | Yield => True
  | Block _ => exists h t x, l = h :: t /\ t <> [] /\ procs s !! h = Some x /\ status x <> PS_BLOCKED
  | Unblock p => p ∉ l /\ 0 <= p < u
  | Create _ _ _ _ _ _ => next_pid s + 1 < 2 ^ 32 /\
      is_Some (find_free (procs s) (Z.to_nat MAX_PROCS) 0)
  end.


(** Every queued process gets its turn: after as many yields as processes stand before
    it, it is the current one. *)
Lemma rotate_drop n l : (n <= length l)%nat -> Nat.iter n rotate l = drop n l ++ take n l.
Proof.
  induction n as [|n IH]; intros Hn; simpl; [by rewrite drop_0, app_nil_r|].
  rewrite IH by lia. destruct (lookup_lt_is_Some_2 l n) as [x Hx]; [lia|].
  rewrite (drop_S l x n Hx), (take_S_r l n x Hx). simpl. by rewrite app_assoc.
Qed.

Fixpoint yields (n : nat) : M kern unit :=
  match n with O => mret tt | S n => _ ← sys_yield; yields n end.

Lemma yields_spec n s l u :
  pm_inv s l u -> exists s', yields n s = Ok (tt, s') /\ pm_inv s' (Nat.iter n rotate l) u.
Proof.
  revert s l. induction n as [|n IH]; intros s l Hinv; [eauto|].
  destruct Hinv as [Htab Hq Hcur Hne]. destruct l as [|h t]; [done|].
  pose proof (q_used _ _ _ Hq) as Hu. apply Forall_cons in Hu as [Hhu _].
  destruct (schedule_spec s (h :: t) u h Htab Hq Hne Hcur Hhu) as (s1 & Hrun & Hinv1 & _).
  destruct (IH s1 _ Hinv1) as (s' & Hrun' & Hinv'). exists s'.
  rewrite <- Nat.iter_succ_r in Hinv'. split; [|done].
  cbn [yields]. unfold sys_yield, mbind, M_bind. by rewrite Hrun.
Qed.

(** C15: no ready process starves: the process at position [n] of the ready queue is the
    current one after [n] turns of the scheduler, whatever the queue. *)
Theorem scheduler_fair s l u n p :
  pm_inv s l u -> l !! n = Some p ->
  exists s', yields n s = Ok (tt, s') /\ cur_proc s' = Some p.
Proof.
  intros Hinv Hn. destruct (yields_spec n s l u Hinv) as (s' & Hrun & Hinv').
  exists s'. split; [done|]. rewrite (pm_cur _ _ _ Hinv'), rotate_drop.
  - by rewrite (drop_S l p n Hn).
  - apply lookup_lt_Some in Hn. lia.
Qed.

(** ** Exit and wait *)

(** A change of one slot outside the queue (or one that keeps status and links). *)
Lemma live_upd s l i f :
  live s l -> (i ∉ l \/ forall x, status (f x) = status x) ->
  forall x, procs s !! i = Some x -> live (set_procs (<[i := f x]> (procs s)) s) l.
Proof.
  intros Hl Hf x Hx j Hj. simpl. destruct (decide (j = i)) as [->|].
  - rewrite lookup_insert_eq. simpl. destruct Hf as [Hn|Hs]; [done|].
    rewrite Hs. pose proof (Hl i Hj) as Hli. by rewrite Hx in Hli.
  - rewrite lookup_insert_ne by done. by apply Hl.
Qed.

Lemma core_fields s s' i x :
  same_core s s' -> procs s !! i = Some x -> exists x', procs s' !! i = Some x' /\ core x' = core x.
Proof.
  intros Hc Hx. specialize (Hc i). rewrite Hx in Hc.
  destruct (procs s' !! i) as [x'|]; [|done]. exists x'. split; [done|]. simpl in Hc. congruence.
Qed.

(** The current process, at the head of the queue and waiting for nobody, is destroyed
    while another one waits for it. *)
Lemma destroy_head_spec s h t u a xh xa :
  pm_inv s (h :: t) u -> live s (h :: t) -> t <> [] ->
  procs s !! h = Some xh -> procs s !! a = Some xa -> 0 <= a < u -> a ∉ h :: t ->
  wait_proc xh = pid xa -> pid xa <> 0 -> wait_for xh = 0 -> is_Some (sc_eax xa) ->
  exists s', pm_destroy h s = Ok (tt, s') /\
    pm_inv s' (rotate t ++ [a]) u /\ live s' (rotate t ++ [a]) /\ globals s' = globals s /\
    status <$> procs s' !! h = Some PS_SLOT_FREE /\
    status <$> procs s' !! a = Some PS_READY /\
    sc_eax <$> procs s' !! a = Some (Some (u32 (exit_status xh))).
Proof.
  intros Hinv Hlive Ht Hxh Hxa Hau Hal Hw Hpid Hwf [e He].
  destruct Hinv as [Htab Hq Hcur _]. pose proof (q_used _ _ _ Hq) as Hu.
  apply Forall_cons in Hu as [Hhu _]. pose proof (q_nodup _ _ _ Hq) as Hnd.
  apply NoDup_cons in Hnd as [Hht _]. apply not_elem_of_cons in Hal as [Hah Hat].
  destruct (deactivate_head_spec s h t u Htab Hq Ht Hcur)
    as (s1 & Hrun1 & [Htab1 Hq1 Hcur1 Hne1] & Hg1 & Hsc1 & Hnf1 & _ & _).
  assert (live s1 (rotate t)) as Hl1.
  { eapply live_mono; [exact Hlive | done |]. intros i Hi. right. by apply elem_rotate. }
  assert (h ∉ rotate t) as Hhr by (intros Hi; by apply Hht, elem_rotate).
  assert (a ∉ rotate t) as Har by (intros Hi; by apply Hat, elem_rotate).
  destruct (core_fields _ _ _ _ Hsc1 Hxh) as (xh1 & Hxh1 & Ch1).
  destruct (core_fields _ _ _ _ Hsc1 Hxa) as (xa1 & Hxa1 & Ca1).
  unfold core in Ch1, Ca1. simplify_eq Ch1. simplify_eq Ca1. intros.
  unfold pm_destroy, mbind, M_bind. rewrite Hrun1.
  destruct (upd_spec s1 _ u h (set_status PS_SLOT_FREE) Htab1 Hq1 Hhu ltac:(by intros ?))
    as (x & Hx & -> & Htab2 & Hq2). assert (x = xh1) as -> by congruence.
  pose proof (live_upd s1 _ h (set_status PS_SLOT_FREE) Hl1 (or_introl Hhr) _ Hx) as Hl2.
  set (s2 := set_procs (<[h := set_status PS_SLOT_FREE xh1]> (procs s1)) s1) in *.
  assert (procs s2 !! h = Some (set_status PS_SLOT_FREE xh1)) as Hh2 by apply lookup_insert_eq.
  assert (procs s2 !! a = Some xa1) as Ha2 by (simpl; by rewrite lookup_insert_ne).
  rewrite (slot_run h s2 _ Hh2). cbn [wait_proc set_status].
  replace (truth (wait_proc xh1)) with true
    by (unfold truth; symmetry; apply negb_true_iff, Z.eqb_neq; congruence).
  replace (wait_proc xh1) with (pid xa1) by congruence.
  rewrite (get_proc_used s2 u a xa1 Htab2 Hau Ha2).
  unfold sc_late_result, mbind, M_bind. rewrite (slot_run a s2 _ Ha2).
  replace (sc_eax xa1) with (Some e) by congruence. simpl deref. unfold mret at 1, M_ret at 1.
  destruct (upd_spec s2 _ u a (set_sc_eax (Some (u32 (exit_status xh1)))) Htab2 Hq2 Hau
    ltac:(by intros ?)) as (y & Hy & Hupd & Htab3 & Hq3). assert (y = xa1) as -> by congruence.
  cbn [exit_status set_status]. rewrite Hupd.
  pose proof (live_upd s2 _ a (set_sc_eax (Some (u32 (exit_status xh1)))) Hl2 (or_introl Har) _ Hy) as Hl3.
  set (s3 := set_procs (<[a := set_sc_eax (Some (u32 (exit_status xh1))) xa1]> (procs s2)) s2) in *.
  simpl deref. unfold mret at 1, M_ret at 1.
  destruct (unblock_spec s3 _ u a Htab3 Hq3 Hne1 Har Hau)
    as (s4 & -> & Htab4 & Hq4 & Hc4 & Hg4 & Hsc4 & Hst4 & Hso4).
  assert (procs s3 !! h = Some (set_status PS_SLOT_FREE xh1)) as Hh3
    by (simpl; by rewrite lookup_insert_ne).
  destruct (core_fields _ _ _ _ Hsc4 Hh3) as (xh4 & Hxh4 & Ch4).
  rewrite (slot_run h s4 _ Hxh4).
  replace (truth (wait_for xh4)) with false
    by (unfold core in Ch4; simplify_eq Ch4; intros; unfold truth; symmetry;
        apply negb_false_iff, Z.eqb_eq; simpl in *; congruence).
  exists s4. split; [done|]. split.
  { constructor; [done | done | rewrite Hc4; simpl; rewrite Hcur1; by destruct (rotate t) |
      by destruct (rotate t)]. }
  split; [|split; [|split; [|split]]].
  - intros i Hi. destruct (decide (i = a)) as [->|]; [by rewrite Hst4|].
    rewrite Hso4 by done. apply Hl3. apply elem_of_app in Hi as [|Hi]; [done|].
    by apply list_elem_of_singleton in Hi.
  - rewrite Hg4. exact Hg1.
  - rewrite Hso4, Hh3 by done. done.
  - done.
  - specialize (Hsc4 a). simpl in Hsc4. rewrite lookup_insert_eq in Hsc4.
    destruct (procs s4 !! a) as [xa4|]; simpl in *; [|done].
    unfold core in Hsc4. simplify_eq Hsc4. intros. simpl in *. congruence.
Qed.


(** ** Boot *)

Lemma empty_table_lookup i : 0 <= i < 256 -> empty_table !! i = Some (free_slot i).
Proof.
  revert i. unfold empty_table, MAX_PROCS.
  apply (for_each_inv (fun i (m : gmap Z proc) => <[i := free_slot i]> m)
    (fun k m => forall i, 0 <= i < k -> m !! i = Some (free_slot i))); [lia | intros; lia |].
  intros j m Hj IH i Hi. destruct (decide (i = j)) as [->|]; [apply lookup_insert_eq|].
  rewrite lookup_insert_ne by done. apply IH. lia.
Qed.

Lemma empty_table_inv : table_inv empty_table 0 0.
Proof.
  constructor; try lia.
  - intros i Hi. rewrite empty_table_lookup by done. eauto.
  - intros i x Hi. rewrite empty_table_lookup by done. by intros [= <-].
Qed.

Lemma find_free_here m n i x :
  m !! i = Some x -> status x = PS_SLOT_FREE -> find_free m (S n) i = Some i.
Proof. intros Hx Hs. cbn [find_free]. by rewrite Hx, decide_True. Qed.

#[local] Opaque empty_table.

(** The process manager after [init_pm] has one process, idle, which is running. *)
Lemma init_pm_inv s0 idle res :
  next_pid s0 = 0 ->
  exists s, init_pm idle res s0 = Ok (tt, s) /\ pm_inv s [0] 1 /\ live s [0] /\ next_pid s = 1.
Proof.
  intros Hn. unfold init_pm, mbind, M_bind, modify.
  set (s1 := set_tail None (set_head None (set_procs empty_table s0))).
  unfold pm_create, get_empty_proc, gets, mbind, M_bind.
  assert (find_free (procs s1) (Z.to_nat MAX_PROCS) 0 = Some 0) as Hf.
  { change (Z.to_nat MAX_PROCS) with (S 255).
    apply (find_free_here _ _ _ (free_slot 0)); [by apply empty_table_lookup | done]. }
  rewrite Hf. unfold init_proc, mbind, M_bind. simpl. rewrite Hn. unfold mret, M_ret.
  erewrite (upd_run 0) by (simpl; by rewrite empty_table_lookup by lia). simpl.
  set (x := MkProc _ _ _ _ _ _ _ _ _ _ _ _ _ _ _ _ _ _ _).
  unfold pm_activate, mbind, M_bind, get, modify. simpl.
  erewrite (upd_run 0) by (simpl; by rewrite lookup_insert_eq). simpl.
  rewrite insert_insert_eq. eexists. split; [done|].
  destruct (table_alloc empty_table 0 0 0 (set_next None x) empty_table_inv ltac:(lia) ltac:(lia)
    ltac:(intros; lia) eq_refl) as [Htab _].
  split; [|split; [|done]].
  - constructor; [exact Htab | | done | done]. constructor; simpl.
    + split; [done|]. exists (set_next None x). split; [apply lookup_insert_eq | done].
    + apply NoDup_singleton.
    + done.
    + constructor; [lia | done].
  - intros i Hi. apply list_elem_of_singleton in Hi as ->. simpl. by rewrite lookup_insert_eq.
Qed.

#[local] Transparent empty_table.

(** ** Concrete runs *)

Definition no_kern : kern := MkKern ∅ None None None None false 0 None 0 0 None 0.
Definition res0 : resources := MkRes 0x200000 0x201000 0x300000.

Definition state_of (o : outcome (unit * kern)) : kern :=
  match o with Ok (_, s) => s | _ => no_kern end.

(** The kernel after [init_pm], and with two more ready processes. *)
Definition booted : kern := state_of (init_pm 0xC0 res0 no_kern).
Definition spawn : M kern unit := _ ← pm_create 0x40000000 "prog" PM_USER 0 PS_READY res0; mret tt.
Definition booted3 : kern := state_of ((spawn;; spawn) booted).

(** A check of the invariants on a concrete state. *)
Fixpoint qchain_check (m : gmap Z proc) (h : option Z) (l : list Z) : bool :=
  match l with
  | [] => bool_decide (h = None)
  | i :: l => bool_decide (h = Some i) &&
      match m !! i with Some x => qchain_check m (next x) l | None => false end
  end.

Definition slot_check (m : gmap Z proc) (n u i : Z) : bool :=
  match m !! i with
  | None => false
  | Some x =>
      if i <? u then
        (0 <=? pid x) && (pid x <? n) &&
        forallb (fun j => (j <=? i) ||
          match m !! j with Some y => negb (pid x =? pid y) | None => true end) (seqZ 0 u)
      else (pid x =? i) && bool_decide (status x = PS_SLOT_FREE)
  end.

Definition pm_check (s : kern) (l : list Z) (u : Z) : bool :=
  qchain_check (procs s) (plist_head s) l && bool_decide (NoDup l) &&
  bool_decide (plist_tail s = last l) &&
  forallb (fun i => (0 <=? i) && (i <? u)) l &&
  (0 <=? u) && (u <=? 256) && (u <=? next_pid s) && (next_pid s <? 2 ^ 32) &&
  forallb (slot_check (procs s) (next_pid s) u) (seqZ 0 256) &&
  bool_decide (cur_proc s = head l) && bool_decide (l <> []) &&
  forallb (fun i => match procs s !! i with
                    | Some x => bool_decide (status x <> PS_SLOT_FREE) | None => true end) l.

Lemma qchain_check_ok m h l : qchain_check m h l = true -> qchain m h l.
Proof.
  revert h. induction l as [|i l IH]; intros h Hc; simpl in *.
  - by apply bool_decide_eq_true in Hc.
  - apply andb_true_iff in Hc as [Hh Hc]. apply bool_decide_eq_true in Hh.
    split; [done|]. destruct (m !! i) as [x|]; [|done]. exists x. auto.
Qed.

Lemma forallb_In {A} (f : A -> bool) l x : forallb f l = true -> x ∈ l -> f x = true.
Proof. intros Hf Hx. rewrite forallb_forall in Hf. by apply Hf, list_elem_of_In. Qed.

Lemma pm_check_ok s l u : pm_check s l u = true -> pm_inv s l u /\ live s l.
Proof.
  unfold pm_check. intros Hc.
  repeat match type of Hc with (_ && _) = true => apply andb_true_iff in Hc as [Hc ?] end.
  to_prop.
  repeat match goal with H : bool_decide _ = true |- _ => apply bool_decide_eq_true in H end.
  assert (forall i, 0 <= i < 256 -> slot_check (procs s) (next_pid s) u i = true) as Hslot
    by (intros; eapply forallb_In; [eassumption|]; apply elem_of_seqZ; lia).
  split.
  - constructor; [| | done | done].
    + constructor; try lia.
      * intros i Hi. specialize (Hslot i Hi). unfold slot_check in Hslot.
        by destruct (procs s !! i).
      * intros i x Hi Hx. specialize (Hslot i ltac:(lia)). unfold slot_check in Hslot.
        rewrite Hx, (proj2 (Z.ltb_lt i u)) in Hslot by lia. to_prop. lia.
      * intros i j x y Hi Hj Hx Hy. specialize (Hslot i ltac:(lia)). unfold slot_check in Hslot.
        rewrite Hx, (proj2 (Z.ltb_lt i u)) in Hslot by lia.
        apply andb_true_iff in Hslot as [_ Hslot].
        eapply (forallb_In _ _ j) in Hslot; [|apply elem_of_seqZ; lia].
        cbv beta in Hslot. rewrite Hy, (proj2 (Z.leb_gt j i)) in Hslot by lia. simpl in Hslot. to_prop. done.
      * intros i x Hi Hx. specialize (Hslot i ltac:(lia)). unfold slot_check in Hslot.
        rewrite Hx, (proj2 (Z.ltb_ge i u)) in Hslot by lia. to_prop.
        split; [done|]. by eapply bool_decide_eq_true.
    + constructor; [by apply qchain_check_ok | done | done |].
      apply Forall_forall. intros i Hi.
      match goal with H : forallb (fun i => (0 <=? i) && _) l = true |- _ =>
        apply (forallb_In _ _ i H) in Hi end. cbv beta in Hi. to_prop. lia.
  - intros i Hi.
    match goal with H : forallb (fun i => match _ with Some _ => _ | None => _ end) l = true |- _ =>
      apply (forallb_In _ _ i H) in Hi end. cbv beta in Hi.
    destruct (procs s !! i); [|done]. apply bool_decide_eq_true in Hi. simpl. congruence.
Qed.

Lemma booted3_inv : pm_inv booted3 [0; 1; 2] 3 /\ live booted3 [0; 1; 2].
Proof. apply pm_check_ok. vm_compute. reflexivity. Qed.


Lemma scheduler_fair_witness :
  exists s', yields 2 booted3 = Ok (tt, s') /\ cur_proc s' = Some 2.
Proof. apply (scheduler_fair booted3 [0; 1; 2] 3); [apply booted3_inv | done]. Defined.

(** Process 1 enters a system call (what [syscall_execute] does before it calls the
    handler), waits for process 2, and the scheduler runs until process 2 is current. *)
Definition enter (p : Z) : M kern unit :=
  modify (set_syscall_proc (Some p));; upd (Some p) (set_sc_eax (Some 29)).
Definition waiting : M kern unit :=
  pm_schedule;; enter 1;; _ ← sys_waitpid 2; pm_schedule;; enter 2.
Definition waited : kern := state_of (waiting booted3).

Lemma waited_inv : pm_inv waited [2; 0] 3 /\ live waited [2; 0].
Proof. apply pm_check_ok. vm_compute. reflexivity. Qed.


(** ** Where the process code falls short *)

(** [wait_for] is never cleared when the awaited process exits.  After process 1 has
    waited for process 2 and the slot of process 2 was used again, no slot carries that
    pid any more, and the exit of process 1 follows the NULL that [pm_get_proc] answers. *)
Theorem exit_after_wait_faults :
  match (waiting;; _ ← sys_exit 7; spawn;; pm_schedule;; pm_schedule;; pm_schedule;; enter 1)
          booted3 with
  | Ok (_, s) =>
      cur_proc s = Some 1 /\ pm_check s [1; 0; 2] 3 = true /\
      find_pid (procs s) 256 0 2 = None /\
      match sys_exit 0 s with Fault => True | _ => False end
  | _ => False
  end.
Proof. vm_compute. repeat split. Qed.

(** A pid nobody has: [sys_waitpid] follows the NULL that [pm_get_proc] answers. *)
Lemma waitpid_unknown_faults : (enter 0;; sys_waitpid 1000) booted3 = Fault.
Proof. vm_compute. reflexivity. Qed.

(** Destroying a process that is not in the queue (a program whose segments could not be
    loaded is still blocked) runs off the end of the list. *)
Lemma destroy_unqueued_faults :
  (p ← pm_create 0x40000000 "bad" PM_USER 0 PS_BLOCKED res0; pm_destroy p) booted3 = Fault.
Proof. vm_compute. reflexivity. Qed.

(** the time slice has no effect: whenever the current process is running, [pm_update]
    (called on every timer tick) schedules another one, however many ticks are left. *)
Theorem pm_update_preempts s c x :
  cur_proc s = Some c -> procs s !! c = Some x -> status x = PS_RUNNING ->
  pm_update s = pm_schedule s.
Proof.
  intros Hc Hx Hs. unfold pm_update, mbind, M_bind, get. rewrite Hc, (slot_run c s x Hx).
  by rewrite decide_True by congruence.
Qed.

Lemma pm_update_preempts_witness : pm_update waited = pm_schedule waited.
Proof.
  eapply (pm_update_preempts waited 2); [vm_compute; reflexivity.. |]. vm_compute. reflexivity.
Defined.

(** ** The first stack frame of a process *)

(** The interrupt frame of kernel/include/regs.h, read off a stack. *)
Record regs := MkRegs {
  g_edi : Z; g_esi : Z; g_ebp : Z; g_esp : Z; g_ebx : Z; g_edx : Z; g_ecx : Z; g_eax : Z;
  g_ds : Z; g_es : Z; g_fs : Z; g_gs : Z; g_intr : Z; g_errc : Z;
  g_eip : Z; g_cs : Z; g_eflags : Z; g_uesp : option Z; g_uss : option Z;
}.
Definition regs_of (st : list Z) : option regs :=
  match st with
  | di :: si :: bp :: sp :: bx :: dx :: cx :: ax :: ds :: es :: fs :: gs :: i :: e ::
    ip :: cs :: fl :: rest =>
      Some (MkRegs di si bp sp bx dx cx ax ds es fs gs i e ip cs fl (rest !! 0%nat) (rest !! 1%nat))
  | _ => None
  end.

(** Returning from an interrupt through the frame [prepare_stack] builds enters the
    program at its entry point with interrupts enabled, cleared registers, and the
    segments and stack of the requested mode: ring 3 for a user process, ring 0 and no
    stack switch for a kernel one. *)
Lemma prepare_stack_frame entry mode :
  exists r, regs_of (prepare_stack entry mode) = Some r /\ g_eip r = entry /\
    Z.testbit (g_eflags r) 9 = true /\ g_eax r = 0 /\
    match mode with
    | PM_USER => Z.land (g_cs r) 3 = 3 /\ Z.land (g_ds r) 3 = 3 /\ g_cs r = GDT_SEL_UCODE + 3 /\
        g_uesp r = Some USER_STACK_ADDR /\ g_uss r = Some (g_ds r) /\
        length (prepare_stack entry mode) = 19%nat
    | PM_KERNEL => Z.land (g_cs r) 3 = 0 /\ g_uesp r = None /\
        length (prepare_stack entry mode) = 17%nat
    end.
Proof. destruct mode; eexists; split_and!; reflexivity. Qed.


