(* ===== verification/Timer.v ===== *)
(** * The timer

    kernel/timer.c: the tick counter, sleeping processes and their wake-up, on the
    process manager of [Proc]. *)

From S2P Require Import Prelude Kerror Proc.

Definition TIMER_HZ : Z := 100.
Definition TIMER_DEFAULT : Z := 1193180.
Definition ULLONG_MAX : Z := 2 ^ 64 - 1.

(** [msec * TIMER_HZ/1000] on [uint32_t]. *)
Definition msec_to_tick (msec : Z) : Z := u32 (msec * TIMER_HZ) / 1000.

(** One turn of the loop over the process table in [timer_irq]. *)
Definition timer_wake (i : Z) : M kern unit :=
  x ← slot (Some i);
  s ← get;
  if truth (wakeup x) then
    if wakeup x <=? timer_ticks s then upd (Some i) (set_wakeup 0);; pm_unblock i
    else if wakeup x <? next_wakeup s then modify (set_timer (timer_ticks s) (wakeup x))
    else mret tt
  else mret tt.

(** [timer_irq(irq, esp)]. *)
Definition timer_irq : M kern unit :=
  modify (fun s => set_timer (u64 (timer_ticks s + 1)) (next_wakeup s) s);;
  s ← get;
  (if next_wakeup s <=? timer_ticks s then
     modify (set_timer (timer_ticks s) ULLONG_MAX);;
     mfor MAX_PROCS timer_wake
   else mret tt);;
  pm_update.

(** [timer_sleep(proc, msec)]; the wake-up time is a [dword]. *)
Definition timer_sleep (p msec : Z) : M kern unit :=
  ok ← pm_block p BR_SLEEPING;
  if (ok : bool) then
    s ← get;
    let w := u32 (timer_ticks s + msec_to_tick msec) in
    upd (Some p) (set_wakeup w);;
    s ← get;
    if w <? next_wakeup s then modify (set_timer (timer_ticks s) w) else mret tt
  else mret tt.

Definition sys_sleep (msec : Z) : M kern Z :=
  s ← get; p ← deref (cur_proc s); timer_sleep p msec;; mret 0.

(** [ksleep(msec)]: the context check and the tick it waits for; the loop itself ends
    when the timer interrupt has moved the counter there. *)
Definition ksleep (cx : context) (msec : Z) : M kern Z :=
  if allowed cx A_DELAY_EXEC then
    s ← get; mret (u64 (timer_ticks s + msec_to_tick msec))
  else panic.

(** The state part of [init_timer], and the bytes it sends to the timer chip. *)
Definition init_timer : M kern (list (Z * Z)) :=
  modify (set_timer 0 ULLONG_MAX);;
  let div := TIMER_DEFAULT / TIMER_HZ in
  mret [(0x43, 0x36); (0x40, u8 (Z.land div 0xFF)); (0x40, u8 (Z.shiftr div 8))].

(** ** Sleeping processes *)

(** A process with a wake-up time is blocked outside the queue, and the next wake-up is
    not later than its own. *)
Definition sleep_inv (s : kern) (l : list Z) (u : Z) : Prop :=
  forall i x, 0 <= i < 256 -> procs s !! i = Some x -> wakeup x <> 0 ->
    i < u /\ i ∉ l /\ next_wakeup s <= wakeup x.

Lemma core_wakeup s s' i : same_core s s' -> wakeup <$> procs s' !! i = wakeup <$> procs s !! i.
Proof.
  intros H. specialize (H i). unfold core in H.
  destruct (procs s !! i), (procs s' !! i); simpl in *; congruence.
Qed.

Lemma same_core_trans s1 s2 s3 : same_core s1 s2 -> same_core s2 s3 -> same_core s1 s3.
Proof. intros H1 H2 i. by rewrite H2. Qed.

(** [pm_update] keeps the process manager well formed. *)
Lemma update_spec s l u :
  pm_inv s l u -> live s l ->
  exists s' l', pm_update s = Ok (tt, s') /\ (l' = l \/ l' = rotate l) /\
    pm_inv s' l' u /\ live s' l' /\ same_core s s' /\ globals s' = globals s.
Proof.
  intros Hinv Hlive. pose proof Hinv as [Htab Hq Hcur Hne]. destruct l as [|h t]; [done|].
  pose proof (q_used _ _ _ Hq) as Hu. apply Forall_cons in Hu as [Hhu _]. simpl in Hcur.
  assert (forall s1, pm_inv s1 (h :: t) u -> live s1 (h :: t) -> same_core s s1 ->
    globals s1 = globals s -> exists s' l', pm_schedule s1 = Ok (tt, s') /\
      (l' = h :: t \/ l' = rotate (h :: t)) /\ pm_inv s' l' u /\ live s' l' /\ same_core s s' /\
      globals s' = globals s) as Hsched.
  { intros s1 [Ht1 Hq1 Hc1 _] Hl1 Hs1 Hg1.
    destruct (schedule_spec s1 (h :: t) u h Ht1 Hq1 Hne Hc1 Hhu)
      as (s' & Hrun & Hi' & Hg & Hsc & Hnf & _).
    exists s', (rotate (h :: t)). split_and!; auto.
    - eapply live_mono; [exact Hl1 | done | intros i; apply elem_rotate].
    - by eapply same_core_trans.
    - congruence. }
  destruct (qchain_slot _ _ _ h (q_chain _ _ _ Hq) ltac:(left)) as [x Hx].
  unfold pm_update, mbind, M_bind, get. rewrite Hcur, (slot_run h s x Hx).
  case_decide as Hs; [by apply Hsched|].
  destruct (koop_mode s); [exists s, (h :: t); split_and!; auto; by intros ?|].
  set (f := fun p => set_ticks_left (u32 (ticks_left p - 1)) p).
  destruct (upd_spec s (h :: t) u h f Htab Hq Hhu ltac:(by intros ?)) as (y & Hy & -> & Ht1 & Hq1).
  assert (y = x) as -> by congruence. set (s1 := set_procs (<[h := f x]> (procs s)) s) in *.
  pose proof (live_upd s (h :: t) h f Hlive ltac:(right; by intros) _ Hx) as Hl1. fold s1 in Hl1.
  assert (same_core s s1) as Hc1.
  { intros i. simpl. destruct (decide (i = h)) as [->|]; [|by rewrite lookup_insert_ne].
    by rewrite lookup_insert_eq, Hx. }
  assert (pm_inv s1 (h :: t) u) as Hi1 by (by constructor).
  rewrite (slot_run h s1 (f x)) by apply lookup_insert_eq.
  destruct (ticks_left (f x) <=? 0); [by apply Hsched|].
  exists s1, (h :: t). split_and!; auto.
Qed.

(** What the loop has done after looking at the first [k] slots. *)
Record woken (s : kern) (l : list Z) (u now k : Z) (s1 : kern) (w : list Z) : Prop := {
  wk_table : table_inv (procs s1) (next_pid s1) u;
  wk_queue : queue_inv s1 (l ++ w) u;
  wk_cur : cur_proc s1 = cur_proc s;
  wk_live : live s1 (l ++ w);
  wk_now : timer_ticks s1 = now;
  wk_pid : next_pid s1 = next_pid s;
  wk_low i : i ∈ w -> 0 <= i < k;
  wk_done i x : 0 <= i < k -> procs s !! i = Some x ->
    if (wakeup x =? 0) || (now <? wakeup x)
    then wakeup <$> procs s1 !! i = Some (wakeup x) /\ i ∉ w /\
         (wakeup x <> 0 -> next_wakeup s1 <= wakeup x)
    else wakeup <$> procs s1 !! i = Some 0 /\ i ∈ w;
  wk_rest i : k <= i -> wakeup <$> procs s1 !! i = wakeup <$> procs s !! i;
}.

Lemma live_app s l w :
  live s l -> (forall i, i ∈ w -> status <$> procs s !! i <> Some PS_SLOT_FREE) -> live s (l ++ w).
Proof. intros Hl Hw i Hi. apply elem_of_app in Hi as [|]; auto. Qed.

Lemma timer_wake_spec s l u now k s1 w :
  pm_inv s l u -> sleep_inv s l u -> 0 <= k < 256 -> woken s l u now k s1 w ->
  exists s2 w', timer_wake k s1 = Ok (tt, s2) /\ woken s l u now (k + 1) s2 w'.
Proof.
  intros [Htab0 _ _ Hne] Hsl Hk [Ht Hq Hc Hl Hn Hp Hlow Hdone Hrest].
  destruct (tab_all _ _ _ Ht k Hk) as [x1 Hx1].
  destruct (tab_all _ _ _ Htab0 k Hk) as [x Hx].
  assert (wakeup x1 = wakeup x) as Ew.
  { pose proof (Hrest k ltac:(lia)) as E. rewrite Hx1, Hx in E. by injection E. }
  assert (k ∉ w) as Hkw by (intros Hi; apply Hlow in Hi; lia).
  assert (forall s2 (d : list Z),
    (forall i, i <> k -> wakeup <$> procs s2 !! i = wakeup <$> procs s1 !! i) ->
    next_wakeup s2 <= next_wakeup s1 ->
    forall i y, 0 <= i < k -> procs s !! i = Some y ->
    if (wakeup y =? 0) || (now <? wakeup y)
    then wakeup <$> procs s2 !! i = Some (wakeup y) /\ i ∉ w ++ filter (fun j => j = k) d /\
         (wakeup y <> 0 -> next_wakeup s2 <= wakeup y)
    else wakeup <$> procs s2 !! i = Some 0 /\ i ∈ w ++ filter (fun j => j = k) d) as Hold.
  { intros s2 d Hsame Hnw i y Hi Hy. specialize (Hdone i y Hi Hy). rewrite Hsame by lia.
    destruct ((wakeup y =? 0) || (now <? wakeup y)).
    - destruct Hdone as (? & Hnin & Hle). split; [done|]. split; [|intros; specialize (Hle ltac:(done)); lia].
      rewrite elem_of_app, list_elem_of_filter. intros [|[-> _]]; [done | lia].
    - destruct Hdone. split; [done|]. apply elem_of_app. by left. }
  unfold timer_wake, mbind, M_bind, get. rewrite (slot_run k s1 x1 Hx1), Ew, Hn.
  unfold truth. destruct (Z.eqb_spec (wakeup x) 0) as [Hz|Hz]; cbn [negb].
  - exists s1, w. split; [done|]. constructor; try done.
    + intros i Hi. apply Hlow in Hi. lia.
    + intros i y Hi Hy. destruct (Z.eq_dec i k) as [->|];
        [|specialize (Hold s1 [] ltac:(done) ltac:(lia) i y ltac:(lia) Hy);
          simpl in Hold; by rewrite app_nil_r in Hold].
      assert (y = x) as -> by congruence. rewrite Hz. simpl. split; [|done].
      rewrite Hx1. simpl. congruence.
    + intros i Hi. apply Hrest. lia.
  - destruct (Hsl k x Hk Hx Hz) as (Hku & Hkl & _).
    destruct (Z.leb_spec (wakeup x) now) as [Hdue|Hdue].
    + destruct (upd_spec s1 (l ++ w) u k (set_wakeup 0) Ht Hq ltac:(lia) ltac:(by intros ?))
        as (z & Hz1 & -> & Ht2 & Hq2). assert (z = x1) as -> by congruence.
      pose proof (live_upd s1 (l ++ w) k (set_wakeup 0) Hl ltac:(right; by intros) _ Hx1) as Hl2.
      set (s2 := set_procs (<[k := set_wakeup 0 x1]> (procs s1)) s1) in *.
      assert (k ∉ l ++ w) as Hklw by (rewrite elem_of_app; tauto).
      assert (l ++ w <> []) as Hne2 by (by destruct l).
      destruct (unblock_spec s2 (l ++ w) u k Ht2 Hq2 Hne2 Hklw ltac:(lia))
        as (s3 & -> & Ht3 & Hq3 & Hc3 & Hg3 & Hsc3 & Hst3 & Hso3).
      injection Hg3 as _ _ Gp _ Gt Gw. simpl in Gp, Gt, Gw, Hc3.
      exists s3, (w ++ [k]). split; [done|].
      assert (forall i, i <> k -> wakeup <$> procs s3 !! i = wakeup <$> procs s1 !! i) as Hsame.
      { intros i Hi. rewrite (core_wakeup _ _ _ Hsc3). simpl. by rewrite lookup_insert_ne. }
      constructor; try done.
      * by rewrite app_assoc.
      * congruence.
      * rewrite app_assoc. apply live_app.
        -- intros i Hi. rewrite Hso3 by (intros ->; done). by apply Hl2.
        -- intros i Hi. apply list_elem_of_singleton in Hi as ->. by rewrite Hst3.
      * congruence.
      * congruence.
      * intros i Hi. apply elem_of_app in Hi as [Hi|Hi]; [apply Hlow in Hi; lia|].
        apply list_elem_of_singleton in Hi. lia.
      * intros i y Hi Hy. destruct (Z.eq_dec i k) as [->|].
        -- assert (y = x) as -> by congruence.
           rewrite (proj2 (Z.eqb_neq _ 0)), (proj2 (Z.ltb_ge _ _)) by lia. simpl. split.
           ++ rewrite (core_wakeup _ _ _ Hsc3). simpl. by rewrite lookup_insert_eq.
           ++ apply elem_of_app. right. by left.
        -- specialize (Hold s3 [k] Hsame ltac:(lia) i y ltac:(lia) Hy).
           by rewrite filter_cons_True, filter_nil in Hold.
      * intros i Hi. rewrite Hsame by lia. apply Hrest. lia.
    + set (s2 := if wakeup x <? next_wakeup s1 then set_timer now (wakeup x) s1 else s1).
      assert (procs s2 = procs s1 /\ next_wakeup s2 <= next_wakeup s1 /\
        next_wakeup s2 <= wakeup x) as (Ep & En1 & En2).
      { unfold s2. destruct (Z.ltb_spec (wakeup x) (next_wakeup s1)); simpl; (split; [done | lia]). }
      exists s2, w. split; [unfold s2; by destruct (wakeup x <? next_wakeup s1)|].
      assert (table_inv (procs s2) (next_pid s2) u /\ queue_inv s2 (l ++ w) u /\
        cur_proc s2 = cur_proc s /\ timer_ticks s2 = now /\ next_pid s2 = next_pid s)
        as (? & ? & ? & ? & ?).
      { unfold s2. destruct (wakeup x <? next_wakeup s1); split_and!; try done.
        destruct Hq; by constructor. }
      constructor; try done.
      * intros i Hi. rewrite Ep. by apply Hl.
      * intros i Hi. apply Hlow in Hi. lia.
      * intros i y Hi Hy. destruct (Z.eq_dec i k) as [->|];
          [|specialize (Hold s2 [] ltac:(by rewrite Ep) ltac:(lia) i y ltac:(lia) Hy);
            simpl in Hold; by rewrite app_nil_r in Hold].
        assert (y = x) as -> by congruence.
        rewrite (proj2 (Z.ltb_lt _ _) Hdue), orb_true_r. rewrite Ep, Hx1. simpl.
        split; [congruence|]. split; [done | lia].
      * intros i Hi. rewrite Ep. apply Hrest. lia.
Qed.

(** The loop over the whole table. *)
Lemma wake_all_spec s l u now s1 :
  pm_inv s l u -> sleep_inv s l u -> woken s l u now 0 s1 [] ->
  exists s2 w, mfor MAX_PROCS timer_wake s1 = Ok (tt, s2) /\ woken s l u now 256 s2 w.
Proof.
  intros Hinv Hsl H0.
  pose proof (mfor_spec timer_wake (fun k s2 => exists w, woken s l u now k s2 w)
    (fun _ _ => False) 256 s1 ltac:(lia)) as Hloop.
  lapply Hloop; [clear Hloop; intros Hloop | by exists []].
  lapply Hloop; clear Hloop.
  - unfold MAX_PROCS. destruct (mfor 256 timer_wake s1) as [[[] s2]| |];
      [|intros (? & ? & _ & _ & _ & []) | done]. intros [w Hw]. eauto.
  - intros k s2 Hk [w Hw]. destruct (timer_wake_spec s l u now k s2 w Hinv Hsl Hk Hw)
      as (s3 & w' & -> & Hw'). eauto.
Qed.

Lemma elem_update i l l' : l' = l \/ l' = rotate l -> i ∈ l' <-> i ∈ l.
Proof.
  intros [->| ->]; [done|]. destruct l as [|h t]; [done|]. simpl.
  rewrite elem_of_app, list_elem_of_singleton, elem_of_cons. tauto.
Qed.

(** What an interrupt at tick [now] leaves of the sleeping processes of [s]. *)
Definition slept (now : Z) (s s' : kern) (l' : list Z) : Prop :=
  forall i x, 0 <= i < 256 -> procs s !! i = Some x -> wakeup x <> 0 ->
    if wakeup x <=? now
    then i ∈ l' /\ wakeup <$> procs s' !! i = Some 0
    else i ∉ l' /\ wakeup <$> procs s' !! i = Some (wakeup x).

(** After the loop over the whole table and a turn of the scheduler. *)
Lemma woken_update s l u now s3 w s4 l' :
  sleep_inv s l u -> woken s l u now 256 s3 w -> same_core s3 s4 ->
  l' = l ++ w \/ l' = rotate (l ++ w) -> next_wakeup s4 = next_wakeup s3 ->
  slept now s s4 l'.
Proof.
  intros Hsl [_ _ _ _ _ _ _ Hdone _] Hsc El Gw i x Hi Hx Hz.
  specialize (Hdone i x Hi Hx). destruct (Hsl i x Hi Hx Hz) as (Hiu & Hil & _).
  rewrite (proj2 (Z.eqb_neq _ 0)) in Hdone by done. simpl in Hdone.
  destruct (Z.ltb_spec now (wakeup x)), (Z.leb_spec (wakeup x) now); try lia;
    rewrite (elem_update _ _ _ El), elem_of_app, (core_wakeup _ _ _ Hsc).
  - destruct Hdone as (? & ? & ?). tauto.
  - destruct Hdone as [? ?]. auto.
Qed.

(** A process that sleeps afterwards slept before, with the same time. *)
Lemma woken_sleep_inv s l u now s3 w s4 l' :
  pm_inv s l u -> sleep_inv s l u -> woken s l u now 256 s3 w -> same_core s3 s4 ->
  l' = l ++ w \/ l' = rotate (l ++ w) -> next_wakeup s4 = next_wakeup s3 ->
  sleep_inv s4 l' u.
Proof.
  intros [Htab _ _ _] Hsl Hw Hsc El Gw i y Hi Hy Hz.
  destruct (tab_all _ _ _ Htab i Hi) as [x Hx].
  pose proof (wk_done _ _ _ _ _ _ _ Hw i x Hi Hx) as Hdone.
  assert (wakeup <$> procs s3 !! i = Some (wakeup y)) as Ey
    by (rewrite <- (core_wakeup _ _ _ Hsc), Hy; done).
  rewrite Ey in Hdone. destruct (Z.eqb_spec (wakeup x) 0) as [Hx0|Hx0]; simpl in Hdone.
  - destruct Hdone as [[= E] _]. congruence.
  - destruct (Hsl i x Hi Hx Hx0) as (Hiu & Hil & _).
    destruct (now <? wakeup x); [|destruct Hdone as [[= E] _]; congruence].
    destruct Hdone as ([= E] & Hiw & Hle). specialize (Hle Hx0).
    rewrite (elem_update _ _ _ El), elem_of_app. split_and!; [done | tauto | congruence].
Qed.

(** The interrupt when a wake-up is due: the loop, then a turn of the scheduler. *)
Lemma timer_due s l u s1 :
  pm_inv s l u -> live s l -> sleep_inv s l u -> woken s l u (timer_ticks s1) 0 s1 [] ->
  exists s' l', (mfor MAX_PROCS timer_wake;; pm_update) s1 = Ok (tt, s') /\ pm_inv s' l' u /\
    live s' l' /\ sleep_inv s' l' u /\ timer_ticks s' = timer_ticks s1 /\
    slept (timer_ticks s1) s s' l'.
Proof.
  intros Hinv Hlive Hsl Hw0. pose proof Hinv as [_ _ Hcur Hne].
  destruct (wake_all_spec s l u _ s1 Hinv Hsl Hw0) as (s3 & w & Hrun & Hw).
  pose proof Hw as [Ht Hq3 Hc Hl Hn Hp _ _ _].
  assert (pm_inv s3 (l ++ w) u) as Hinv3.
  { constructor; [done | done | | by destruct l]. rewrite Hc, Hcur. by destruct l. }
  destruct (update_spec s3 (l ++ w) u Hinv3 Hl) as (s4 & l' & Hup & El & Hi4 & Hl4 & Hsc & Hg).
  injection Hg as _ _ _ _ Gt Gw. exists s4, l'.
  rewrite (run_bind _ _ _ _ _ Hrun). split_and!; [done | done | done | | congruence |].
  - exact (woken_sleep_inv s l u _ s3 w s4 l' Hinv Hsl Hw Hsc El Gw).
  - exact (woken_update s l u _ s3 w s4 l' Hsl Hw Hsc El Gw).
Qed.

(** The interrupt when nothing is due: only the scheduler runs. *)
Lemma timer_not_due s l u now :
  pm_inv s l u -> live s l -> sleep_inv s l u -> now < next_wakeup s ->
  exists s' l', pm_update (set_timer now (next_wakeup s) s) = Ok (tt, s') /\ pm_inv s' l' u /\
    live s' l' /\ sleep_inv s' l' u /\ timer_ticks s' = now /\ slept now s s' l'.
Proof.
  intros [Htab Hq Hcur Hne] Hlive Hsl Hdue. set (s1 := set_timer now (next_wakeup s) s).
  assert (pm_inv s1 l u) as Hinv1 by (constructor; [done | destruct Hq; by constructor | done..]).
  destruct (update_spec s1 l u Hinv1 Hlive) as (s4 & l' & Hrun & El & Hi4 & Hl4 & Hsc & Hg).
  injection Hg as _ _ _ _ Gt Gw. simpl in Gt, Gw.
  exists s4, l'. split_and!; try done.
  - intros i y Hi Hy Hz. assert (wakeup <$> procs s !! i = Some (wakeup y)) as Ey
      by (pose proof (core_wakeup _ _ i Hsc) as E; rewrite Hy in E; done).
    destruct (procs s !! i) as [x|] eqn:Hx; [|done]. injection Ey as Ey.
    destruct (Hsl i x Hi Hx ltac:(congruence)) as (? & ? & ?).
    rewrite (elem_update _ _ _ El). split_and!; [done | done | lia].
  - intros i x Hi Hx Hz. destruct (Hsl i x Hi Hx Hz) as (? & ? & ?).
    rewrite (proj2 (Z.leb_gt _ _)) by lia. rewrite (elem_update _ _ _ El). split; [done|].
    rewrite (core_wakeup _ _ _ Hsc). simpl. by rewrite Hx.
Qed.

(** C18: nobody oversleeps.  A timer interrupt adds one tick, makes every process whose
    wake-up time has come ready again and clears that time, leaves the others asleep with
    their times unchanged, and re-establishes that the next wake-up is not later than
    any pending one; the process manager stays well formed. *)
Theorem timer_irq_wakes s l u :
  pm_inv s l u -> live s l -> sleep_inv s l u -> 0 <= timer_ticks s -> timer_ticks s + 1 < 2 ^ 64 ->
  exists s' l', timer_irq s = Ok (tt, s') /\ pm_inv s' l' u /\ live s' l' /\
    sleep_inv s' l' u /\ timer_ticks s' = timer_ticks s + 1 /\
    forall i x, 0 <= i < 256 -> procs s !! i = Some x -> wakeup x <> 0 ->
      if wakeup x <=? timer_ticks s + 1
      then i ∈ l' /\ wakeup <$> procs s' !! i = Some 0
      else i ∉ l' /\ wakeup <$> procs s' !! i = Some (wakeup x).
Proof.
  intros Hinv Hlive Hsl Ht0 Ht1. pose proof Hinv as [Htab Hq Hcur Hne].
  unfold timer_irq. rewrite (run_bind _ _ _ _ _ eq_refl). unfold u64.
  rewrite (Z.mod_small (timer_ticks s + 1)) by lia. rewrite (run_bind _ _ _ _ _ eq_refl).
  cbn [next_wakeup timer_ticks set_timer].
  destruct (Z.leb_spec (next_wakeup s) (timer_ticks s + 1)) as [Hdue|Hdue].
  - set (s1 := set_timer (timer_ticks s + 1) ULLONG_MAX (set_timer (timer_ticks s + 1) (next_wakeup s) s)).
    apply (timer_due s l u s1 Hinv Hlive Hsl).
    rewrite <- (app_nil_r l) in Hlive. constructor; try done; simpl.
    + rewrite app_nil_r. destruct Hq; by constructor.
    + intros i Hi. by apply elem_of_nil in Hi.
    + intros; lia.
  - exact (timer_not_due s l u _ Hinv Hlive Hsl Hdue).
Qed.

(** The running process goes to sleep: it is blocked, and wakes at the tick computed. *)
Lemma timer_sleep_spec s h t u x msec :
  pm_inv s (h :: t) u -> live s (h :: t) -> sleep_inv s (h :: t) u -> t <> [] ->
  procs s !! h = Some x -> status x <> PS_BLOCKED -> 0 <= timer_ticks s ->
  exists s' l', timer_sleep h msec s = Ok (tt, s') /\ pm_inv s' l' u /\ live s' l' /\
    sleep_inv s' l' u /\
    wakeup <$> procs s' !! h = Some (u32 (timer_ticks s + msec_to_tick msec)).
Proof.
  intros Hinv Hlive Hsl Ht Hx Hst Htk. pose proof Hinv as [Htab Hq _ _].
  pose proof (q_nodup _ _ _ Hq) as Hnd. apply NoDup_cons in Hnd as [Hht _].
  pose proof (q_used _ _ _ Hq) as Hu. apply Forall_cons in Hu as [Hhu _].
  destruct (block_head_spec s h t u BR_SLEEPING x Hinv Ht Hx Hst)
    as (s1 & Hrun & Hi1 & Hg1 & Hc1 & Hf1 & _). injection Hg1 as _ _ _ _ Gt Gw.
  unfold timer_sleep, mbind, M_bind, get. rewrite Hrun, Gt.
  set (w := u32 (timer_ticks s + msec_to_tick msec)).
  assert (h ∉ rotate t) as Hhr by (intros Hi; by apply Hht, elem_rotate).
  assert (live s1 (rotate t)) as Hl1.
  { eapply live_mono; [exact Hlive | done |]. intros i Hi. right. by apply elem_rotate. }
  pose proof Hi1 as [Ht1 Hq1 Hcur1 Hne1].
  destruct (upd_spec s1 (rotate t) u h (set_wakeup w) Ht1 Hq1 Hhu ltac:(by intros ?))
    as (y & Hy & -> & Ht2 & Hq2).
  pose proof (live_upd s1 (rotate t) h (set_wakeup w) Hl1 (or_introl Hhr) _ Hy) as Hl2.
  set (s2 := set_procs (<[h := set_wakeup w y]> (procs s1)) s1) in *.
  set (s3 := if w <? next_wakeup s2 then set_timer (timer_ticks s2) w s2 else s2).
  exists s3, (rotate t). split; [unfold s3, modify; by destruct (w <? next_wakeup s2)|].
  assert (procs s3 = procs s2 /\ next_wakeup s3 <= next_wakeup s /\ next_wakeup s3 <= w)
    as (Ep & E1 & E2).
  { unfold s3. simpl. rewrite Gw. destruct (Z.ltb_spec w (next_wakeup s)); simpl;
      (split; [done|]); [lia|]. rewrite Gw. lia. }
  split_and!.
  - unfold s3. destruct (w <? next_wakeup s2); constructor; try done. destruct Hq2; by constructor.
  - intros i Hi. rewrite Ep. by apply Hl2.
  - intros i z Hi. rewrite Ep. simpl. destruct (decide (i = h)) as [->|].
    + rewrite lookup_insert_eq. intros [= <-]. intros _. simpl. split_and!; [lia | done | done].
    + rewrite lookup_insert_ne by done. intros Hz Hz0.
      pose proof (core_wakeup _ _ i Hc1) as E. rewrite Hz in E.
      destruct (procs s !! i) as [z0|] eqn:Hz1; [|done]. injection E as E.
      destruct (Hsl i z0 Hi Hz1 ltac:(congruence)) as (? & Hnin & ?).
      split_and!; [done | | lia]. intros Hin. apply Hnin. right. by apply elem_rotate.
  - rewrite Ep. simpl. by rewrite lookup_insert_eq.
Qed.

(** ** Concrete runs *)

(** A check of the sleeping invariant. *)
Definition sleep_check (s : kern) (l : list Z) (u : Z) : bool :=
  forallb (fun i => match procs s !! i with
    | Some x => (wakeup x =? 0) ||
        (i <? u) && bool_decide (i ∉ l) && (next_wakeup s <=? wakeup x)
    | None => true end) (seqZ 0 256).

Lemma sleep_check_ok s l u : sleep_check s l u = true -> sleep_inv s l u.
Proof.
  unfold sleep_check. intros Hc i x Hi Hx Hz.
  apply (forallb_In _ _ i) in Hc; [|apply elem_of_seqZ; lia]. cbv beta in Hc.
  rewrite Hx, (proj2 (Z.eqb_neq _ 0)) in Hc by done. simpl in Hc.
  repeat match type of Hc with (_ && _) = true => apply andb_true_iff in Hc as [Hc ?] end.
  to_prop. split; [done|]. split; [by eapply bool_decide_eq_true | done].
Qed.

(** Process 1 sleeps 30 ms from tick 0. *)
Definition asleep : kern :=
  state_of ((_ ← init_timer; pm_schedule;; timer_sleep 1 30) booted3).

Lemma asleep_inv : pm_inv asleep [0; 2] 3 /\ live asleep [0; 2].
Proof. apply pm_check_ok. vm_compute. reflexivity. Qed.

Lemma timer_irq_wakes_witness :
  wakeup <$> procs asleep !! 1 = Some 3 /\
  exists s' l', timer_irq asleep = Ok (tt, s') /\ pm_inv s' l' 3 /\ live s' l' /\
    sleep_inv s' l' 3 /\ timer_ticks s' = timer_ticks asleep + 1 /\
    forall i x, 0 <= i < 256 -> procs asleep !! i = Some x -> wakeup x <> 0 ->
      if wakeup x <=? timer_ticks asleep + 1
      then i ∈ l' /\ wakeup <$> procs s' !! i = Some 0
      else i ∉ l' /\ wakeup <$> procs s' !! i = Some (wakeup x).
Proof.
  split; [vm_compute; reflexivity|].
  apply (timer_irq_wakes asleep [0; 2] 3).
  - apply asleep_inv.
  - apply asleep_inv.
  - apply sleep_check_ok. vm_compute. reflexivity.
  - vm_compute. discriminate.
  - vm_compute. reflexivity.
Defined.

(** A sleep shorter than a tick at tick 0 sets the wake-up time 0, which means "none":
    the process is never woken. *)
Lemma short_sleep_at_boot_never_ends :
  match (_ ← init_timer; pm_schedule;; timer_sleep 1 5) booted3 with
  | Ok (_, s) => (fun x => (status x, wakeup x)) <$> procs s !! 1 = Some (PS_BLOCKED, 0)
  | _ => False
  end.
Proof. vm_compute. reflexivity. Qed.
