(* ===== verification/Ipc.v ===== *)
(** * Messages between processes

    kernel/ipc.c on the process manager of [Proc] and the message buffers of
    [RingBuffer].  A message is the 20 bytes of [msg_t]; messages the kernel works on are
    in kernel memory, at an address where the caller's buffer has been mapped.  Unmapping
    it again ([km_free_addr]) removes the mapping and leaves the user's bytes. *)

From S2P Require Import Prelude Bytes Proc.
From S2P Require RingBuffer.

Definition EAGAIN : Z := 11.
Definition EINVAL : Z := 22.
Definition sizeof_msg : nat := 20.

(** The process manager, the buffer and the [msg_waitbuf] of every slot, the messages in
    memory by address, and the addresses that are mapped. *)
Record ipc := MkIpc {
  kernel : kern;
  msgbuffer : gmap Z RingBuffer.ringbuffer;
  msg_waitbuf : gmap Z Z;
  msgs : gmap Z (list Z);
  mapped : gset Z;
}.

Definition set_kernel (k : kern) (s : ipc) : ipc :=
  MkIpc k (msgbuffer s) (msg_waitbuf s) (msgs s) (mapped s).
Definition set_msgbuffer (b : gmap Z RingBuffer.ringbuffer) (s : ipc) : ipc :=
  MkIpc (kernel s) b (msg_waitbuf s) (msgs s) (mapped s).
Definition set_waitbuf (b : gmap Z Z) (s : ipc) : ipc :=
  MkIpc (kernel s) (msgbuffer s) b (msgs s) (mapped s).
Definition set_msgs (m : gmap Z (list Z)) (s : ipc) : ipc :=
  MkIpc (kernel s) (msgbuffer s) (msg_waitbuf s) m (mapped s).
Definition set_mapped (m : gset Z) (s : ipc) : ipc :=
  MkIpc (kernel s) (msgbuffer s) (msg_waitbuf s) (msgs s) m.

(** Calls of the process manager. *)
Definition lift {A} (c : M kern A) : M ipc A := fun s =>
  match c (kernel s) with
  | Ok (a, k) => Ok (a, set_kernel k s)
  | Panic => Panic
  | Fault => Fault
  end.

(** Calls of the ring buffer of slot [p]. *)
Definition rbuf (p : Z) : M ipc RingBuffer.ringbuffer := s ← get; deref (msgbuffer s !! p).
Definition set_rbuf (p : Z) (b : RingBuffer.ringbuffer) : M ipc unit :=
  modify (fun s => set_msgbuffer (<[p := b]> (msgbuffer s)) s).

(** Reading and writing a message through a mapped address. *)
Definition load_msg (a : Z) : M ipc (list Z) :=
  s ← get; if decide (a ∈ mapped s) then deref (msgs s !! a) else fault.
Definition store_msg (a : Z) (m : list Z) : M ipc unit :=
  s ← get;
  if decide (a ∈ mapped s) then modify (fun s => set_msgs (<[a := m]> (msgs s)) s) else fault.
Definition unmap_msg (a : Z) : M ipc unit :=
  modify (fun s => set_mapped (mapped s ∖ {[a]}) s).

(** [send(proc, msg)]; address 0 is NULL. *)
Definition send (p msg : Z) : M ipc Z :=
  x ← lift (slot (Some p));
  if decide (status x = PS_SLOT_FREE) then mret EINVAL
  else if msg =? 0 then mret EINVAL
  else
    b ← rbuf p;
    if RingBuffer.rbuf_freesize b =? 0 then mret EAGAIN
    else
      m ← load_msg msg;
      b ← (fun s => match RingBuffer.rbuf_write m 1 b with
                    | Ok (_, b) => Ok (b, s) | Panic => Panic | Fault => Fault end);
      set_rbuf p b;;
      mret 0.

(** [receive(proc, msg)]. *)
Definition receive (p msg : Z) : M ipc Z :=
  x ← lift (slot (Some p));
  if decide (status x = PS_SLOT_FREE) then mret EINVAL
  else if msg =? 0 then mret EINVAL
  else
    b ← rbuf p;
    if RingBuffer.rbuf_empty b then mret EAGAIN
    else
      m ← load_msg msg;
      r ← (fun s => match RingBuffer.rbuf_read 1 (b, m) with
                    | Ok (_, bd) => Ok (bd, s) | Panic => Panic | Fault => Fault end);
      set_rbuf p (fst r);;
      store_msg msg (snd r);;
      mret 0.

(** [msg->sender = pid]: the first word of the message. *)
Definition set_sender (pid : Z) (m : list Z) : list Z := le_bytes 4 pid ++ drop 4 m.

Definition ipc_send (from to msg : Z) : M ipc Z :=
  f ← lift (slot (Some from));
  m ← load_msg msg;
  store_msg msg (set_sender (pid f) m);;
  err ← send to msg;
  blocked ← lift (pm_is_blocked_for to BR_RECEIVING);
  (if (blocked : bool) then
     s ← get;
     let w := default 0 (msg_waitbuf s !! to) in
     _ ← receive to w;
     unmap_msg w;;
     modify (fun s => set_waitbuf (delete to (msg_waitbuf s)) s);;
     lift (pm_unblock to)
   else mret tt);;
  mret err.

Definition ipc_receive (p msg : Z) (block : bool) : M ipc Z :=
  err ← receive p msg;
  if (err =? EAGAIN) && block then
    modify (fun s => set_waitbuf (<[p := msg]> (msg_waitbuf s)) s);;
    _ ← lift (pm_block p BR_RECEIVING);
    mret 0
  else if err =? 0 then unmap_msg msg;; mret err
  else mret err.

(** [sys_send(target, msgptr)] once the message is mapped at [msg]; the NULL [pm_get_proc]
    answers for an unknown pid is passed on and followed in [send]. *)
Definition sys_send (from target msg : Z) : M ipc Z :=
  to ← lift (pm_get_proc target);
  match to with
  | Some t => r ← ipc_send from t msg; unmap_msg msg;; mret r
  | None => f ← lift (slot (Some from)); m ← load_msg msg;
            store_msg msg (set_sender (pid f) m);; fault
  end.

(** [sys_receive(msgptr, block)] once the message buffer is mapped at [msg]. *)
Definition sys_receive (p msg : Z) (block : bool) : M ipc Z := ipc_receive p msg block.

(** ** Correctness *)

(** The messages waiting for a process, oldest first. *)
Definition inbox (s : ipc) (p : Z) (q : list (list Z)) : Prop :=
  exists b r, msgbuffer s !! p = Some b /\ RingBuffer.ring sizeof_msg 24 b r q.

Lemma lift_slot s p x :
  procs (kernel s) !! p = Some x -> lift (slot (Some p)) s = Ok (x, s).
Proof. intros Hx. unfold lift. rewrite (slot_run p _ x Hx). by destruct s. Qed.

Lemma load_run s a m : a ∈ mapped s -> msgs s !! a = Some m -> load_msg a s = Ok (m, s).
Proof.
  intros Ha Hm. unfold load_msg, mbind, M_bind, get. rewrite decide_True by done. simpl.
  by rewrite Hm.
Qed.

Lemma store_run s a m :
  a ∈ mapped s -> store_msg a m s = Ok (tt, set_msgs (<[a := m]> (msgs s)) s).
Proof. intros Ha. unfold store_msg, mbind, M_bind, get. by rewrite decide_True by done. Qed.

(** A message is taken in when there is room. *)
Lemma send_spec s p msg x q m :
  procs (kernel s) !! p = Some x -> status x <> PS_SLOT_FREE -> msg <> 0 ->
  msg ∈ mapped s -> msgs s !! msg = Some m -> length m = 20%nat -> inbox s p q ->
  if decide (length q < 24)%nat then
    exists b, send p msg s = Ok (0, set_msgbuffer (<[p := b]> (msgbuffer s)) s) /\
      inbox (set_msgbuffer (<[p := b]> (msgbuffer s)) s) p (q ++ [m])
  else send p msg s = Ok (EAGAIN, s).
Proof.
  intros Hx Hst Hmsg Hmap Hm Hlen (b & r & Hb & Hr).
  assert (send p msg s = (if RingBuffer.rbuf_freesize b =? 0 then mret EAGAIN
    else m ← load_msg msg;
         b ← (fun s => match RingBuffer.rbuf_write m 1 b with
                       | Ok (_, b) => Ok (b, s) | Panic => Panic | Fault => Fault end);
         set_rbuf p b;; mret 0) s) as ->.
  { unfold send, rbuf, mbind, M_bind, get. rewrite (lift_slot s p x Hx), decide_False by done.
    rewrite (proj2 (Z.eqb_neq msg 0)) by done. simpl. by rewrite Hb. }
  pose proof Hr as []. assert (RingBuffer.rbuf_freesize b = Z.of_nat (24 - length q)) as Hf.
  { unfold RingBuffer.rbuf_freesize. rewrite ring_max, ring_count, u32_small; [lia|].
    unfold is_u32. lia. }
  rewrite Hf. case_decide as Hq.
  - rewrite (proj2 (Z.eqb_neq _ 0)) by lia. unfold mbind, M_bind.
    rewrite (load_run s msg m Hmap Hm).
    destruct (RingBuffer.rbuf_write_spec sizeof_msg 24 b r q [m] Hr) as (b' & Hw & Hr').
    { constructor; [done | done]. }
    { simpl. lia. }
    simpl mjoin in Hw. rewrite app_nil_r in Hw. simpl length in Hw.
    change (Z.of_nat 1) with 1 in Hw. rewrite Hw.
    exists b'. split; [done|]. exists b', r. split; [apply lookup_insert_eq|].
    replace (Nat.min (length [m]) (24 - length q)) with 1%nat in Hr'
      by (change (length [m]) with 1%nat; lia). done.
  - replace (24 - length q)%nat with 0%nat by lia. done.
Qed.

(** The oldest message is delivered. *)
Lemma receive_spec s p msg x q m0 :
  procs (kernel s) !! p = Some x -> status x <> PS_SLOT_FREE -> msg <> 0 ->
  msg ∈ mapped s -> msgs s !! msg = Some m0 -> length m0 = 20%nat -> inbox s p q ->
  match q with
  | [] => receive p msg s = Ok (EAGAIN, s)
  | m :: q' => exists b, receive p msg s = Ok (0,
        set_msgs (<[msg := m]> (msgs s)) (set_msgbuffer (<[p := b]> (msgbuffer s)) s)) /\
      inbox (set_msgs (<[msg := m]> (msgs s)) (set_msgbuffer (<[p := b]> (msgbuffer s)) s)) p q'
  end.
Proof.
  intros Hx Hst Hmsg Hmap Hm Hlen (b & r & Hb & Hr).
  unfold receive, rbuf, mbind, M_bind, get. rewrite (lift_slot s p x Hx), decide_False by done.
  rewrite (proj2 (Z.eqb_neq msg 0)) by done. simpl. rewrite Hb. simpl. unfold mret at 1, M_ret at 1.
  pose proof Hr as []. unfold RingBuffer.rbuf_empty. rewrite ring_count.
  destruct q as [|m q]; [done|]. rewrite (proj2 (Z.eqb_neq _ 0)) by (simpl; lia).
  rewrite (load_run s msg m0 Hmap Hm).
  destruct (RingBuffer.read_one_spec sizeof_msg 24 b r q m0 1 0 m) as (b' & Hrd & Hr' & Hc & He).
  { rewrite <- ring_count. by destruct b. }
  { done. }
  { lia. }
  { simpl. lia. }
  unfold RingBuffer.rbuf_read, mbind, M_bind, get. simpl fst. unfold RingBuffer.rbuf_avail.
  rewrite ring_count, (proj2 (Z.ltb_ge _ _)) by (simpl; lia).
  change (mfor 1 RingBuffer.read_one) with
    (RingBuffer.read_one 0;; (mret tt : M (RingBuffer.ringbuffer * list Z) unit)).
  unfold mbind, M_bind. change (Z.of_nat 0) with 0 in Hrd.
  change (0 * sizeof_msg)%nat with 0%nat in Hrd. rewrite Hrd. unfold mret, M_ret, modify. simpl fst. simpl snd.
  assert (splice m0 0 m = m) as Hsp.
  { unfold splice. simpl. apply Forall_cons in ring_elem as [Hml _].
    rewrite Hml, drop_ge by (unfold sizeof_msg; lia).
    by rewrite app_nil_r. }
  rewrite Hsp. set (b2 := RingBuffer.set_count _ b').
  assert (b2 = RingBuffer.set_count (Z.of_nat (length q)) b') as Eb.
  { unfold b2. f_equal. cbn [length] in *. rewrite Hc, ring_count, u32_small; [lia|].
    unfold is_u32. lia. }
  rewrite store_run by done. exists b2. split; [done|].
  exists b2, ((r + 1) mod 24)%nat. split; [apply lookup_insert_eq|]. by rewrite Eb.
Qed.

Lemma set_sender_length n m : length m = 20%nat -> length (set_sender n m) = 20%nat.
Proof. intros Hm. unfold set_sender. rewrite length_app, le_bytes_length, length_drop. lia. Qed.

(** C19: a message reaches its receiver with the sender's pid stamped in.  If the receiver
    is not waiting, the message is appended to its inbox, or [EAGAIN] is answered and
    nothing is stored when 24 messages wait already.  If the receiver is blocked waiting
    for a message, the message is put into the buffer it passed, that buffer is unmapped,
    the inbox stays empty and the receiver becomes ready, behind the processes in the
    queue. *)
Theorem ipc_send_delivers s l u from to msg xf xt m q w :
  pm_inv (kernel s) l u -> live (kernel s) l ->
  procs (kernel s) !! from = Some xf -> procs (kernel s) !! to = Some xt ->
  status xt <> PS_SLOT_FREE -> msg <> 0 -> msg ∈ mapped s -> msgs s !! msg = Some m ->
  length m = 20%nat -> inbox s to q ->
  (status xt = PS_BLOCKED /\ block xt = BR_RECEIVING ->
     q = [] /\ 0 <= to < u /\ to ∉ l /\ msg_waitbuf s !! to = Some w /\ w <> 0 /\ w <> msg /\
     w ∈ mapped s /\ exists m0, msgs s !! w = Some m0 /\ length m0 = 20%nat) ->
  exists err s', ipc_send from to msg s = Ok (err, s') /\
    if decide (status xt = PS_BLOCKED /\ block xt = BR_RECEIVING) then
      err = 0 /\ msgs s' !! w = Some (set_sender (pid xf) m) /\ w ∉ mapped s' /\
      inbox s' to [] /\ pm_inv (kernel s') (l ++ [to]) u /\
      status <$> procs (kernel s') !! to = Some PS_READY
    else
      kernel s' = kernel s /\
      if decide (length q < 24)%nat then err = 0 /\ inbox s' to (q ++ [set_sender (pid xf) m])
      else err = EAGAIN /\ inbox s' to q.
Proof.
  intros Hinv Hlive Hf Ht Hst Hmsg Hmap Hm Hlen Hq Hwait.
  set (m' := set_sender (pid xf) m). set (s1 := set_msgs (<[msg := m']> (msgs s)) s).
  pose proof (set_sender_length (pid xf) m Hlen) as Hlen'. fold m' in Hlen'.
  pose proof (send_spec s1 to msg xt q m' Ht Hst Hmsg Hmap (lookup_insert_eq _ _ _) Hlen' Hq) as Hsend.
  unfold ipc_send, mbind, M_bind.
  rewrite (lift_slot s from xf Hf), (load_run s msg m Hmap Hm), store_run by done. fold m' s1.
  assert (forall s2, kernel s2 = kernel s ->
    lift (pm_is_blocked_for to BR_RECEIVING) s2
    = Ok (bool_decide (status xt = PS_BLOCKED /\ block xt = BR_RECEIVING), s2)) as Hblk.
  { intros s2 E. unfold lift, pm_is_blocked_for, mbind, M_bind.
    rewrite E, (slot_run to _ xt Ht). simpl. rewrite <- E. by destruct s2. }
  destruct (decide (status xt = PS_BLOCKED /\ block xt = BR_RECEIVING)) as [Hb|Hb].
  - destruct (Hwait Hb) as (-> & Htu & Htl & Hw & Hw0 & Hwm & Hwmap & m0 & Hm0 & Hlen0).
    simpl in Hsend. destruct Hsend as (b & -> & Hin).
    rewrite Hblk by done. rewrite bool_decide_eq_true_2 by done.
    set (s2 := set_msgbuffer (<[to := b]> (msgbuffer s)) s1) in *.
    assert (default 0 (msg_waitbuf s2 !! to) = w) as Ew by (simpl; by rewrite Hw).
    unfold get. cbv beta iota zeta. rewrite Ew.
    assert (msgs s2 !! w = Some m0) as Hm2 by (simpl; by rewrite lookup_insert_ne).
    pose proof (receive_spec s2 to w xt [m'] m0 Ht Hst Hw0 Hwmap Hm2 Hlen0 Hin) as (b2 & -> & Hin2).
    set (s3 := set_msgs _ _) in *. unfold unmap_msg, modify. cbn beta iota.
    unfold lift. cbn [kernel set_waitbuf set_mapped s3 set_msgs set_msgbuffer s2 s1].
    pose proof Hinv as [Htab Hqi Hcur Hne].
    destruct (unblock_spec (kernel s) l u to Htab Hqi Hne Htl Htu)
      as (k' & -> & Htab' & Hq' & Hc' & _ & _ & Hst' & _).
    eexists 0, _. split; [done|]. split_and!; simpl.
    + done.
    + apply lookup_insert_eq.
    + set_solver.
    + destruct Hin2 as (b3 & r3 & Hb3 & Hr3). exists b3, r3. done.
    + constructor; [done | done | rewrite Hc', Hcur; by destruct l | by destruct l].
    + done.
  - case_decide as Hroom.
    + destruct Hsend as (b & -> & Hin). rewrite Hblk by done.
      rewrite bool_decide_eq_false_2 by done. eexists 0, _. split; [done|]. done.
    + rewrite Hsend. rewrite Hblk by done. rewrite bool_decide_eq_false_2 by done.
      eexists EAGAIN, _. split; [done|]. done.
Qed.


(** ** Concrete runs *)

Definition empty_box : RingBuffer.ringbuffer :=
  RingBuffer.MkRb (replicate 480 0) 20 24 0 0 0 false.
Definition hello : list Z := [0; 0; 0; 0; 1; 0; 0; 0; 2; 0; 0; 0; 3; 0; 0; 0; 4; 0; 0; 0].

(** Process 2 is running; messages are mapped at 0x1000 (from process 1) and 0x2000. *)
Definition demo_ipc : ipc :=
  MkIpc (state_of ((pm_schedule;; pm_schedule) booted3))
    {[1 := empty_box; 2 := empty_box]} ∅ {[0x1000 := hello; 0x2000 := replicate 20 9]}
    {[0x1000; 0x2000]}.

Definition ipc_of (o : outcome (Z * ipc)) : ipc :=
  match o with Ok (_, s) => s | _ => demo_ipc end.

(** Process 2 waits for a message in 0x2000. *)
Definition waiting_ipc : ipc := ipc_of (ipc_receive 2 0x2000 true demo_ipc).

Lemma empty_box_ring : RingBuffer.ring sizeof_msg 24 empty_box 0 [].
Proof. apply (RingBuffer.fresh_ring 20 24); (done || lia). Qed.

Lemma demo_ipc_inv : pm_inv (kernel demo_ipc) [2; 0; 1] 3.
Proof. apply pm_check_ok. vm_compute. reflexivity. Qed.

Lemma waiting_ipc_inv : pm_inv (kernel waiting_ipc) [1; 0] 3 /\ live (kernel waiting_ipc) [1; 0].
Proof. apply pm_check_ok. vm_compute. reflexivity. Qed.

Definition proc_at (s : ipc) (i : Z) : proc := default zero_proc (procs (kernel s) !! i).


Lemma ipc_send_delivers_witness :
  exists err s', ipc_send 1 2 0x1000 waiting_ipc = Ok (err, s') /\
    if decide (status (proc_at waiting_ipc 2) = PS_BLOCKED /\
               block (proc_at waiting_ipc 2) = BR_RECEIVING) then
      err = 0 /\ msgs s' !! 0x2000 = Some (set_sender (pid (proc_at waiting_ipc 1)) hello) /\
      0x2000 ∉ mapped s' /\ inbox s' 2 [] /\ pm_inv (kernel s') ([1; 0] ++ [2]) 3 /\
      status <$> procs (kernel s') !! 2 = Some PS_READY
    else
      kernel s' = kernel waiting_ipc /\
      if decide (length ([] : list (list Z)) < 24)%nat
      then err = 0 /\ inbox s' 2 ([] ++ [set_sender (pid (proc_at waiting_ipc 1)) hello])
      else err = EAGAIN /\ inbox s' 2 [].
Proof.
  apply (ipc_send_delivers waiting_ipc [1; 0] 3 1 2 0x1000).
  - apply waiting_ipc_inv.
  - apply waiting_ipc_inv.
  - vm_compute. reflexivity.
  - vm_compute. reflexivity.
  - vm_compute. discriminate.
  - done.
  - apply (bool_decide_eq_true_1 _). vm_compute. reflexivity.
  - vm_compute. reflexivity.
  - vm_compute. reflexivity.
  - exists empty_box, 0%nat. split; [vm_compute; reflexivity | apply empty_box_ring].
  - intros _. split; [done|]. split; [lia|].
    split; [apply (bool_decide_eq_true_1 _); vm_compute; reflexivity|].
    split; [vm_compute; reflexivity|]. split; [done|]. split; [done|].
    split; [apply (bool_decide_eq_true_1 _); vm_compute; reflexivity|].
    exists (replicate 20 9). split; vm_compute; reflexivity.
Defined.

(** A message to a pid nobody has: the NULL of [pm_get_proc] is followed. *)
Lemma sys_send_unknown_faults : sys_send 1 1000 0x1000 demo_ipc = Fault.
Proof. vm_compute. reflexivity. Qed.
