(* ===== verification/Vfs.v ===== *)
(** * The virtual file system

    kernel/fs/path.c, inode.c, super.c and the parts of fs.c that do not copy user memory.
    Objects of each C structure live in a heap of their own, by address; [None] is the NULL
    pointer.  A file system driver is a set of tables of operations at addresses ([Drivers]),
    whose entries may be NULL; the drivers of the kernel are in [Initrd] and [Devfs].
    [kmalloc] hands out fresh addresses and does not fail (it panics instead, in a build
    with CONF_SAFE_KMALLOC). *)

From S2P Require Import Prelude.

Definition ENOENT : Z := 2.
Definition EAGAIN : Z := 11.
Definition EINVAL : Z := 22.
Definition ENOSYS : Z := 88.
Definition ELOOP : Z := 92.

Definition FS_MAX_NAME : Z := 255.
Definition FS_MAX_SYMLOOP : Z := 20.
Definition FS_FILE : Z := 0x01.
Definition FS_DIR : Z := 0x02.
Definition FS_CHARDEV : Z := 0x04.
Definition FS_BLOCKDEV : Z := 0x08.
Definition FS_SYMLINK : Z := 0x20.
Definition FS_MOUNTP : Z := 0x40.
Definition FST_NEED_DEV : Z := 0x01.
Definition FSM_READ : Z := 0x01.
Definition FSM_WRITE : Z := 0x02.
Definition FSM_EXEC : Z := 0x03.
Definition FSM_UMOUNT : Z := 0x08.
Definition FSO_READ : Z := 0x01.
Definition FSO_WRITE : Z := 0x02.

(** A C string is the list of its bytes, without the terminating zero. *)
Notation cstring := (list Z).

Record inode := MkInode {
  i_name : cstring;
  i_flags : Z;
  i_perm : Z;
  i_length : Z;
  i_uid : Z;
  i_gid : Z;
  opencount : Z;
  impl : Z;
  link : option Z;
  i_ops : option Z;
  i_sb : option Z;
}.

Record file := MkFile { f_inode : option Z; pos : Z; fops : option Z }.
Record dirent := MkDirent { d_name : cstring; d_inode : option Z }.
Record superblock := MkSuper { sb_root : option Z; sb_flags : Z; sb_ops : option Z }.
Record fs_proc_data := MkProcData { cwd : Z; files : list (option Z) }.

(** [lists] holds the [list_t] objects as the sequence of their data pointers, which is what
    [list_add_back] and [list_iterate] of [DList] refine; [mem] the bytes of memory. *)
Record fsys := MkFs {
  mem : gmap Z Z;
  inodes : gmap Z inode;
  lists : gmap Z (list Z);
  filetab : gmap Z file;
  dirents : gmap Z dirent;
  supers : gmap Z superblock;
  procdata : gmap Z fs_proc_data;
  fslist : option Z;
  fs_error : Z;
  brk : Z;
}.

Definition set_mem m s := MkFs m (inodes s) (lists s) (filetab s) (dirents s) (supers s)
  (procdata s) (fslist s) (fs_error s) (brk s).
Definition set_inodes i s := MkFs (mem s) i (lists s) (filetab s) (dirents s) (supers s)
  (procdata s) (fslist s) (fs_error s) (brk s).
Definition set_lists l s := MkFs (mem s) (inodes s) l (filetab s) (dirents s) (supers s)
  (procdata s) (fslist s) (fs_error s) (brk s).
Definition set_filetab f s := MkFs (mem s) (inodes s) (lists s) f (dirents s) (supers s)
  (procdata s) (fslist s) (fs_error s) (brk s).
Definition set_dirents d s := MkFs (mem s) (inodes s) (lists s) (filetab s) d (supers s)
  (procdata s) (fslist s) (fs_error s) (brk s).
Definition set_supers b s := MkFs (mem s) (inodes s) (lists s) (filetab s) (dirents s) b
  (procdata s) (fslist s) (fs_error s) (brk s).
Definition set_procdata p s := MkFs (mem s) (inodes s) (lists s) (filetab s) (dirents s)
  (supers s) p (fslist s) (fs_error s) (brk s).
Definition set_fslist l s := MkFs (mem s) (inodes s) (lists s) (filetab s) (dirents s)
  (supers s) (procdata s) l (fs_error s) (brk s).
Definition set_error e s := MkFs (mem s) (inodes s) (lists s) (filetab s) (dirents s)
  (supers s) (procdata s) (fslist s) e (brk s).
Definition set_brk b s := MkFs (mem s) (inodes s) (lists s) (filetab s) (dirents s)
  (supers s) (procdata s) (fslist s) (fs_error s) b.

Definition iset_flags v i := MkInode (i_name i) v (i_perm i) (i_length i) (i_uid i) (i_gid i)
  (opencount i) (impl i) (link i) (i_ops i) (i_sb i).
Definition iset_opencount v i := MkInode (i_name i) (i_flags i) (i_perm i) (i_length i)
  (i_uid i) (i_gid i) v (impl i) (link i) (i_ops i) (i_sb i).
Definition iset_impl v i := MkInode (i_name i) (i_flags i) (i_perm i) (i_length i)
  (i_uid i) (i_gid i) (opencount i) v (link i) (i_ops i) (i_sb i).
Definition iset_link v i := MkInode (i_name i) (i_flags i) (i_perm i) (i_length i)
  (i_uid i) (i_gid i) (opencount i) (impl i) v (i_ops i) (i_sb i).
Definition iset_sb v i := MkInode (i_name i) (i_flags i) (i_perm i) (i_length i)
  (i_uid i) (i_gid i) (opencount i) (impl i) (link i) (i_ops i) v.
Definition fset_pos v f := MkFile (f_inode f) v (fops f).
Definition fset_inode v f := MkFile v (pos f) (fops f).

(** ** Drivers *)

Record file_ops := MkFops {
  op_close : option (Z -> M fsys Z);
  op_dup : option (Z -> Z -> M fsys Z);
  op_read : option (Z -> Z -> Z -> Z -> M fsys Z);
  op_write : option (Z -> Z -> Z -> Z -> M fsys Z);
}.

Record inode_ops := MkIops {
  op_create : option (Z -> cstring -> Z -> M fsys (option Z));
  op_open : option (Z -> Z -> Z -> M fsys Z);
  op_unlink : option (Z -> M fsys Z);
  op_readdir : option (Z -> Z -> M fsys (option Z));
  op_finddir : option (Z -> cstring -> M fsys (option Z));
}.

Record fstype := MkType {
  t_name : cstring;
  t_flags : Z;
  op_mount : Z -> option cstring -> Z -> M fsys Z;
}.

(** The tables at an address: [inode->ops], [file->fops], [sb->ops] ([remount] only) and the
    file system types. *)
Class Drivers := {
  inode_table : Z -> inode_ops;
  file_table : Z -> file_ops;
  remount_of : Z -> option (Z -> Z -> M fsys Z);
  type_at : Z -> fstype;
}.

(** ** Accesses *)

Definition inode_at (i : Z) : M fsys inode := s ← get; deref (inodes s !! i).
Definition put_inode (i : Z) (x : inode) : M fsys unit :=
  modify (fun s => set_inodes (<[i := x]> (inodes s)) s).
Definition file_at (f : Z) : M fsys file := s ← get; deref (filetab s !! f).
Definition put_file (f : Z) (x : file) : M fsys unit :=
  modify (fun s => set_filetab (<[f := x]> (filetab s)) s).
Definition free_file (f : Z) : M fsys unit :=
  modify (fun s => set_filetab (delete f (filetab s)) s).
Definition procdata_at (p : Z) : M fsys fs_proc_data := s ← get; deref (procdata s !! p).
Definition put_procdata (p : Z) (d : fs_proc_data) : M fsys unit :=
  modify (fun s => set_procdata (<[p := d]> (procdata s)) s).
Definition ptr {A} (p : option A) : M fsys A := deref p.

Definition kmalloc : M fsys Z := s ← get; modify (set_brk (brk s + 1));; mret (brk s).
Definition vfs_seterror (e : Z) : M fsys unit := modify (set_error e).
Definition vfs_geterror : M fsys Z := gets fs_error.

Definition bisset (map bit : Z) : bool := truth (Z.land map bit).
Definition bnotset (map bit : Z) : bool := negb (bisset map bit).
Definition bset (map bit : Z) : Z := Z.lor map bit.
Definition bclr (map bit : Z) : Z := Z.ldiff map bit.

(** [ret_null_and_err]. *)
Definition null_err {A} (e : Z) : M fsys (option A) := vfs_seterror e;; mret None.

(** The static inode [root] of fs.c; [fs_root] points to it. *)
Definition fs_root : Z := 1.
Definition SLASH : Z := 47.
Definition root_inode : inode :=
  MkInode [SLASH] FS_DIR 0 0 0 0 0 0 None None None.

(** Bytes of memory: every byte read or written must be there. *)
Fixpoint load_bytes (a : Z) (n : nat) : M fsys (list Z) :=
  match n with
  | O => mret []
  | S n => s ← get; b ← deref (mem s !! a); bs ← load_bytes (a + 1) n; mret (b :: bs)
  end.
Fixpoint store_bytes (a : Z) (bs : list Z) : M fsys unit :=
  match bs with
  | [] => mret tt
  | b :: bs =>
      s ← get;
      _ ← deref (mem s !! a);
      modify (fun s => set_mem (<[a := b]> (mem s)) s);;
      store_bytes (a + 1) bs
  end.

(** [strncpy(a, str, n)]: [n] bytes, padded with zeros. *)
Definition strncpy (str : cstring) (n : nat) : list Z :=
  take n str ++ replicate (n - length str) 0.

(** ** path.c *)

(** [path[i]], zero at the end of the string. *)
Definition char_at (path : cstring) (i : nat) : Z := nth i path 0.

(** The scan of [next_part] for the end of the part that starts at [e]. *)
Fixpoint part_end (fuel : nat) (path : cstring) (e : nat) : nat :=
  match fuel with
  | O => e
  | S fuel =>
      if truth (char_at path e) && negb (char_at path e =? SLASH)
      then part_end fuel path (S e) else e
  end.

Definition next_part (path : cstring) (start : nat) : M fsys (option (cstring * nat)) :=
  let e := part_end (length path) path start in
  if (e <=? start)%nat then mret None
  else
    kassert (Z.of_nat (e - start) <? FS_MAX_NAME);;
    let buffer := take (e - start) (drop start path) in
    let e' := if char_at path e =? SLASH then S e else e in
    mret (Some (buffer, e')).

Fixpoint skip_slashes (p : cstring) : cstring :=
  match p with
  | c :: p' => if c =? SLASH then skip_slashes p' else p
  | [] => []
  end.

Definition advance_root (path : cstring) : option cstring :=
  if char_at path 0 =? SLASH then Some (skip_slashes path) else None.

Section vfs.
Context {D : Drivers}.

(** ** inode.c *)

Definition def_dup (f newf : Z) : M fsys Z :=
  x ← file_at f;
  _ ← file_at newf;
  put_file newf (MkFile (f_inode x) (pos x) (fops x));;
  mret 0.

(** [inode_has_op] and [file_has_op]: the table is there and so is its entry. *)
Definition inode_op {A} (op : inode_ops -> option A) (x : inode) : option A :=
  o ← i_ops x; op (inode_table o).
Definition file_op {A} (op : file_ops -> option A) (x : file) : option A :=
  o ← fops x; op (file_table o).

Definition vfs_create (dir : option Z) (name : option cstring) (flags : Z)
  : M fsys (option Z) :=
  match dir, name with
  | Some d, Some n =>
      x ← inode_at d;
      if bnotset (i_flags x) FS_DIR then null_err (- EINVAL)
      else match inode_op op_create x with
           | Some f => f d n flags
           | None => null_err (- ENOSYS)
           end
  | _, _ => null_err (- EINVAL)
  end.

Definition vfs_unlink (ino : option Z) : M fsys Z :=
  match ino with
  | None => mret (- EINVAL)
  | Some i =>
      x ← inode_at i;
      if truth (opencount x) then mret (- EAGAIN)
      else match inode_op op_unlink x with
           | Some f => f i
           | None => mret (- ENOSYS)
           end
  end.

Definition vfs_open (ino : option Z) (flags : Z) : M fsys (option Z) :=
  match ino with
  | None => null_err (- EINVAL)
  | Some i =>
      f ← kmalloc;
      put_file f (MkFile None 0 None);;
      x ← inode_at i;
      match inode_op op_open x with
      | Some op =>
          status ← op i f flags;
          if truth status then free_file f;; null_err status
          else
            x ← inode_at i;
            put_inode i (iset_opencount (u32 (opencount x + 1)) x);;
            y ← file_at f;
            put_file f (fset_inode (Some i) y);;
            mret (Some f)
      | None => null_err (- EINVAL)
      end
  end.

Definition vfs_close (fp : option Z) : M fsys Z :=
  match fp with
  | None => mret (- EINVAL)
  | Some f =>
      y ← file_at f;
      match file_op op_close y with
      | Some op =>
          err ← op f;
          (if truth err then mret tt
           else
             y ← file_at f;
             i ← ptr (f_inode y);
             x ← inode_at i;
             put_inode i (iset_opencount (u32 (opencount x - 1)) x);;
             free_file f);;
          mret err
      | None => mret (- ENOSYS)
      end
  end.

(** [FILE_OP] follows [file->fops] without looking; on an error the old file is freed. *)
Definition vfs_dup (fp : option Z) : M fsys (option Z) :=
  match fp with
  | None => null_err (- EINVAL)
  | Some f =>
      newf ← kmalloc;
      put_file newf (MkFile None 0 None);;
      y ← file_at f;
      t ← ptr (fops y);
      err ← default def_dup (op_dup (file_table t)) f newf;
      if truth err then free_file f;; null_err err
      else mret (Some newf)
  end.

Definition vfs_read (fp : option Z) (buffer count offset : Z) : M fsys Z :=
  match fp with
  | None => mret (- EINVAL)
  | Some f =>
      y ← file_at f;
      match file_op op_read y with
      | Some op =>
          n ← op f buffer count offset;
          y ← file_at f;
          put_file f (fset_pos (u32 (pos y + n)) y);;
          mret n
      | None => mret (- ENOSYS)
      end
  end.

Definition vfs_write (fp : option Z) (buffer count offset : Z) : M fsys Z :=
  match fp with
  | None => mret (- EINVAL)
  | Some f =>
      y ← file_at f;
      match file_op op_write y with
      | Some op =>
          n ← op f buffer count offset;
          y ← file_at f;
          put_file f (fset_pos (u32 (pos y + n)) y);;
          mret n
      | None => mret (- ENOSYS)
      end
  end.

Definition vfs_readdir (ino : option Z) (index : Z) : M fsys (option Z) :=
  match ino with
  | None => null_err (- EINVAL)
  | Some i =>
      x ← inode_at i;
      if bnotset (i_flags x) FS_DIR then null_err (- EINVAL)
      else match inode_op op_readdir x with
           | Some f => f i index
           | None => null_err (- ENOSYS)
           end
  end.

(** The debug output reads [ino->name] before the NULL test of [ino]. *)
Definition vfs_finddir (ino : option Z) (name : cstring) : M fsys (option Z) :=
  i ← ptr ino;
  x ← inode_at i;
  if bnotset (i_flags x) FS_DIR then null_err (- EINVAL)
  else match inode_op op_finddir x with
       | Some f => f i name
       | None => null_err (- ENOSYS)
       end.

(** ** path.c: [vfs_lookup] *)

(** What follows the loop: a mount point is replaced by the root mounted there. *)
Definition lookup_end (ino : option Z) : M fsys (option Z) :=
  match ino with
  | None => mret None
  | Some i =>
      x ← inode_at i;
      mret (if bisset (i_flags x) FS_MOUNTP then link x else Some i)
  end.

Fixpoint lookup_loop (fuel : nat) (path : cstring) (pidx : nat) (ino : option Z) (symc : Z)
  : M fsys (option Z) :=
  match fuel with
  | O => fault
  | S fuel =>
      np ← next_part path pidx;
      match np with
      | None => lookup_end ino
      | Some (part, pidx') =>
          match ino with
          | None => mret None
          | Some i =>
              x ← inode_at i;
              if bisset (i_flags x) FS_SYMLINK then
                if symc + 1 >=? FS_MAX_SYMLOOP then null_err (- ELOOP)
                else
                  j ← vfs_finddir (link x) part;
                  lookup_loop fuel path pidx' j (symc + 1)
              else if bisset (i_flags x) FS_MOUNTP then
                j ← vfs_finddir (link x) part;
                lookup_loop fuel path pidx' j symc
              else if bnotset (i_flags x) FS_DIR then null_err (- ENOENT)
              else
                j ← vfs_finddir (Some i) part;
                lookup_loop fuel path pidx' j symc
          end
      end
  end.

(** Every turn of the loop consumes at least one character of the path. *)
Definition vfs_lookup (path : option cstring) (start : option Z) : M fsys (option Z) :=
  kassert (bool_decide (is_Some start));;
  kassert (bool_decide (is_Some path));;
  p ← ptr path;
  st ← ptr start;
  _ ← inode_at st;
  match advance_root p with
  | Some p' => lookup_loop (S (length p')) p' 0 (Some fs_root) 0
  | None => lookup_loop (S (length p)) p 0 start 0
  end.

(** ** super.c *)

Definition vfs_mount (type point : option Z) (device : option cstring) (flags : Z) : M fsys Z :=
  match type, point with
  | Some t, Some p =>
      x ← inode_at p;
      if bnotset (i_flags x) FS_DIR then mret (- EINVAL)
      else if bisset (t_flags (type_at t)) FST_NEED_DEV && bool_decide (device = None)
      then mret (- EINVAL)
      else
        sb ← kmalloc;
        modify (fun s => set_supers (<[sb := MkSuper None 0 None]> (supers s)) s);;
        err ← op_mount (type_at t) sb device flags;
        if truth err then
          modify (fun s => set_supers (delete sb (supers s)) s);; mret err
        else
          x ← inode_at p;
          put_inode p (iset_flags (bset (i_flags x) FS_MOUNTP) x);;
          s ← get;
          b ← deref (supers s !! sb);
          x ← inode_at p;
          put_inode p (iset_link (sb_root b) x);;
          mret 0
  | _, _ => mret (- EINVAL)
  end.

Definition vfs_umount (ino : option Z) : M fsys Z :=
  match ino with
  | None => mret (- EINVAL)
  | Some i =>
      x ← inode_at i;
      if bnotset (i_flags x) FS_MOUNTP then mret (- EINVAL)
      else match link x with
           | None => mret (- EINVAL)
           | Some l =>
               y ← inode_at l;
               sb ← ptr (i_sb y);
               s ← get;
               b ← deref (supers s !! sb);
               match (o ← sb_ops b; remount_of o) with
               | None => mret (- ENOSYS)
               | Some op =>
                   err ← op sb FSM_UMOUNT;
                   if truth err then mret err
                   else
                     modify (fun s => set_supers (delete sb (supers s)) s);;
                     x ← inode_at i;
                     put_inode i (iset_link None (iset_flags (bclr (i_flags x) FS_MOUNTP) x));;
                     mret 0
               end
           end
  end.

(** ** fs.c: the registered file systems *)

(** [list_iterate]: the data pointers of a list; a NULL list is followed. *)
Definition list_at (l : option Z) : M fsys (list Z) :=
  a ← ptr l; s ← get; deref (lists s !! a).
Definition put_list (l : Z) (xs : list Z) : M fsys unit :=
  modify (fun s => set_lists (<[l := xs]> (lists s)) s).

Definition vfs_register (type : option Z) : M fsys Z :=
  match type with
  | None => mret (- EINVAL)
  | Some t =>
      s ← get;
      (match fslist s with
       | Some _ => mret tt
       | None => l ← kmalloc; put_list l [];; modify (set_fslist (Some l))
       end);;
      s ← get;
      l ← ptr (fslist s);
      xs ← list_at (fslist s);
      put_list l (xs ++ [t]);;
      mret 0
  end.

(** The first entry that holds [t] is removed. *)
Fixpoint remove_first (t : Z) (xs : list Z) : option (list Z) :=
  match xs with
  | [] => None
  | x :: xs => if x =? t then Some xs else ys ← remove_first t xs; Some (x :: ys)
  end.

Definition vfs_unregister (type : option Z) : M fsys Z :=
  match type with
  | None => mret (- EINVAL)
  | Some t =>
      s ← get;
      l ← ptr (fslist s);
      xs ← list_at (fslist s);
      match remove_first t xs with
      | Some ys => put_list l ys;; mret 0
      | None => mret (- EINVAL)
      end
  end.

Definition vfs_gettype (name : option cstring) : M fsys (option Z) :=
  match name with
  | None => null_err (- EINVAL)
  | Some n =>
      s ← get;
      xs ← list_at (fslist s);
      match list_find (fun t => t_name (type_at t) = n) xs with
      | Some (_, t) => mret (Some t)
      | None => null_err (- ENOENT)
      end
  end.

(** ** fs.c: the files of a process *)

Definition dirent_at (d : Z) : M fsys dirent := s ← get; deref (dirents s !! d).
Definition put_dirent (d : Z) (x : dirent) : M fsys unit :=
  modify (fun s => set_dirents (<[d := x]> (dirents s)) s).
Definition free_dirent (d : Z) : M fsys unit :=
  modify (fun s => set_dirents (delete d (dirents s)) s).

(** [proc->fs_data->cwd->inode]; a process is named by its own address [p]. *)
Definition proc_cwd (p : Z) : M fsys (option Z) :=
  d ← procdata_at p; c ← dirent_at (cwd d); mret (d_inode c).

Definition vfs_create_procdata : M fsys fs_proc_data :=
  _ ← kmalloc;
  c ← kmalloc;
  put_dirent c (MkDirent [SLASH] (Some fs_root));;
  mret (MkProcData c (replicate 32 None)).

Fixpoint dup_files (fs : list (option Z)) : M fsys (list (option Z)) :=
  match fs with
  | [] => mret []
  | f :: fs =>
      g ← (match f with Some _ => vfs_dup f | None => mret None end);
      gs ← dup_files fs;
      mret (g :: gs)
  end.

Definition vfs_clone_procdata (d : fs_proc_data) : M fsys fs_proc_data :=
  _ ← kmalloc;
  c ← kmalloc;
  x ← dirent_at (cwd d);
  put_dirent c (MkDirent (d_name x) (d_inode x));;
  fs ← dup_files (files d);
  mret (MkProcData c fs).

Fixpoint close_files (fs : list (option Z)) : M fsys unit :=
  match fs with
  | [] => mret tt
  | f :: fs =>
      (match f with Some _ => _ ← vfs_close f; mret tt | None => mret tt end);;
      close_files fs
  end.

Definition vfs_free_procdata (d : fs_proc_data) : M fsys unit :=
  close_files (files d);; free_dirent (cwd d).

(** The name is cut at [FS_MAX_NAME - 1] bytes and looked up from the root. *)
Definition vfs_change_dir (p : Z) (dir : option cstring) : M fsys Z :=
  match dir with
  | None => mret (- EINVAL)
  | Some n =>
      d ← procdata_at p;
      newd ← kmalloc;
      let name := take (Z.to_nat (FS_MAX_NAME - 1)) n in
      ino ← vfs_lookup (Some name) (Some fs_root);
      match ino with
      | None => vfs_geterror
      | Some i =>
          put_dirent newd (MkDirent name (Some i));;
          free_dirent (cwd d);;
          d ← procdata_at p;
          put_procdata p (MkProcData newd (files d));;
          mret 0
      end
  end.

(** [fd >= numfiles] compares as unsigned: a negative [fd] is out of range too. *)
Definition fd2file (p fd : Z) : M fsys (option Z) :=
  d ← procdata_at p;
  if u32 fd >=? Z.of_nat (length (files d)) then mret None
  else deref (files d !! Z.to_nat fd).

Fixpoint free_slot (i : nat) (fs : list (option Z)) : option nat :=
  match fs with
  | [] => None
  | None :: _ => Some i
  | Some _ :: fs => free_slot (S i) fs
  end.

Definition newfd (p : Z) : M fsys Z :=
  d ← procdata_at p;
  match free_slot 0 (files d) with
  | Some i => mret (Z.of_nat i)
  | None =>
      put_procdata p (MkProcData (cwd d) (files d ++ replicate 32 None));;
      mret (Z.of_nat (length (files d)))
  end.

(** [syscall_proc->fs_data->files[fd] = f]. *)
Definition set_fd (p fd : Z) (f : option Z) : M fsys unit :=
  d ← procdata_at p;
  if fd <? Z.of_nat (length (files d))
  then put_procdata p (MkProcData (cwd d) (<[Z.to_nat fd := f]> (files d)))
  else fault.

(** ** fs.c: system calls

    [p] is [syscall_proc]; strings and buffers of the caller are given as the kernel sees
    them once they are mapped. *)

Definition sys_open (p : Z) (name : cstring) (flags : Z) : M fsys Z :=
  c ← proc_cwd p;
  ino ← vfs_lookup (Some name) c;
  match ino with
  | None => vfs_geterror
  | Some _ =>
      f ← vfs_open ino flags;
      match f with
      | None => vfs_geterror
      | Some _ => fd ← newfd p; set_fd p fd f;; mret fd
      end
  end.

Definition sys_close (p fd : Z) : M fsys Z :=
  f ← fd2file p fd;
  match f with
  | None => mret (- ENOENT)
  | Some _ =>
      err ← vfs_close f;
      (if truth err then mret tt else set_fd p fd None);;
      mret err
  end.

(** [is_read]: the call is [SC_READ]. *)
Definition sys_readwrite (p : Z) (is_read : bool) (fd kbuf count : Z) : M fsys Z :=
  f ← fd2file p fd;
  match f with
  | None => mret (- ENOENT)
  | Some a =>
      x ← file_at a;
      if is_read then vfs_read f kbuf count (pos x) else vfs_write f kbuf count (pos x)
  end.

Definition sys_getcwd (p buffer count : Z) : M fsys unit :=
  d ← procdata_at p;
  c ← dirent_at (cwd d);
  store_bytes buffer (strncpy (d_name c) (Z.to_nat count));;
  store_bytes (buffer + (count - 1)) [0].

Definition sys_readdir (p : Z) (name : cstring) (buffer size index : Z) : M fsys Z :=
  c ← proc_cwd p;
  dir ← vfs_lookup (Some name) c;
  match dir with
  | None => mret (- ENOENT)
  | Some _ =>
      e ← vfs_readdir dir index;
      match e with
      | None => vfs_geterror
      | Some a =>
          x ← dirent_at a;
          store_bytes buffer
            (strncpy (d_name x) (Z.to_nat (if size >? FS_MAX_NAME then FS_MAX_NAME else size)));;
          mret 0
      end
  end.

Definition sys_mount (p : Z) (path type dev : option cstring) : M fsys Z :=
  match path, type with
  | Some n, Some t =>
      driver ← vfs_gettype (Some t);
      c ← proc_cwd p;
      ino ← vfs_lookup (Some n) c;
      match driver, ino with
      | Some _, Some _ => vfs_mount driver ino dev 0
      | _, _ => mret (- EINVAL)
      end
  | _, _ => mret (- EINVAL)
  end.

(** One of the three standard files: opened when the slot is empty. *)
Definition open_std_fd (p fd : Z) (ino : option Z) (flags : Z) : M fsys Z :=
  d ← procdata_at p;
  old ← deref (files d !! Z.to_nat fd);
  match old with
  | Some _ => mret 0
  | None => f ← vfs_open ino flags; set_fd p fd f;; mret 1
  end.

Definition sys_open_std (p : Z) (tty : option cstring) : M fsys Z :=
  match tty with
  | None => mret 0
  | Some _ =>
      c ← proc_cwd p;
      ino ← vfs_lookup tty c;
      a ← open_std_fd p 0 ino FSO_READ;
      b ← open_std_fd p 1 ino FSO_WRITE;
      c ← open_std_fd p 2 ino FSO_WRITE;
      mret (a + b + c)
  end.
End vfs.

(** ** Running the accesses *)

Lemma inode_at_run s i x : inodes s !! i = Some x -> inode_at i s = Ok (x, s).
Proof. intros Hx. unfold inode_at, mbind, M_bind, get. by rewrite Hx. Qed.
Lemma file_at_run s f x : filetab s !! f = Some x -> file_at f s = Ok (x, s).
Proof. intros Hx. unfold file_at, mbind, M_bind, get. by rewrite Hx. Qed.
Lemma list_at_run s l xs : lists s !! l = Some xs -> list_at (Some l) s = Ok (xs, s).
Proof. intros Hx. unfold list_at, ptr, deref, mbind, M_bind, mret, M_ret, get. by rewrite Hx. Qed.
Lemma procdata_at_run s p d : procdata s !! p = Some d -> procdata_at p s = Ok (d, s).
Proof. intros Hx. unfold procdata_at, mbind, M_bind, get. by rewrite Hx. Qed.
Lemma dirent_at_run s p d : dirents s !! p = Some d -> dirent_at p s = Ok (d, s).
Proof. intros Hx. unfold dirent_at, mbind, M_bind, get. by rewrite Hx. Qed.

(** ** Paths *)

(** The part of a path up to its first slash. *)
Fixpoint word (p : cstring) : cstring :=
  match p with
  | c :: p' => if c =? SLASH then [] else c :: word p'
  | [] => []
  end.

(** The strings between the slashes, and the ones before the first empty one. *)
Fixpoint split_slash (p : cstring) : list cstring :=
  match p with
  | [] => [[]]
  | c :: p' =>
      if c =? SLASH then [] :: split_slash p'
      else match split_slash p' with
           | w :: ws => (c :: w) :: ws
           | [] => [[c]]
           end
  end.
Fixpoint leading (ws : list cstring) : list cstring :=
  match ws with
  | (_ :: _) as w :: ws => w :: leading ws
  | _ => []
  end.
Definition components (p : cstring) : list cstring := leading (split_slash p).

Definition string_ok (p : cstring) : Prop := Forall (fun c => c <> 0) p.
Definition short (w : cstring) : Prop := Z.of_nat (length w) < FS_MAX_NAME.

Lemma split_word p :
  split_slash p =
    word p :: match drop (length (word p)) p with [] => [] | _ :: r => split_slash r end.
Proof.
  induction p as [|c p IH]; [done|]. simpl. destruct (c =? SLASH); [done|].
  rewrite IH. done.
Qed.

Lemma components_word p :
  components p = match word p with
                 | [] => []
                 | w => w :: match drop (length w) p with [] => [] | _ :: r => components r end
                 end.
Proof.
  unfold components. rewrite split_word. destruct (word p) as [|c w] eqn:E; [done|].
  cbn [leading]. f_equal. by destruct (drop (length (c :: w)) p).
Qed.

Lemma word_prefix p : take (length (word p)) p = word p.
Proof. induction p as [|c p IH]; [done|]. simpl. destruct (c =? SLASH); simpl; congruence. Qed.

Lemma word_stop p c r : drop (length (word p)) p = c :: r -> c = SLASH.
Proof.
  induction p as [|d p IH]; [done|]. simpl.
  destruct (d =? SLASH) eqn:E; to_prop; simpl; [by intros [= -> _] | done].
Qed.

Lemma char_at_drop path i : char_at path i = hd 0 (drop i path).
Proof.
  unfold char_at. revert i. induction path as [|c path IH]; intros [|i]; try done. apply IH.
Qed.

Lemma part_end_word path fuel e :
  string_ok path -> (length path <= e + fuel)%nat ->
  part_end fuel path e = (e + length (word (drop e path)))%nat.
Proof.
  intros Hok. revert e. induction fuel as [|fuel IH]; intros e Hf; simpl.
  - rewrite drop_ge by lia. simpl. lia.
  - rewrite char_at_drop. destruct (drop e path) as [|c r] eqn:E; simpl; [lia|].
    assert (c <> 0) as Hc.
    { apply (Forall_lookup_1 (fun c => c <> 0) path e c Hok).
      rewrite <- (Nat.add_0_r e), <- lookup_drop, E. done. }
    assert (drop (S e) path = r) as Hr.
    { replace (S e) with (e + 1)%nat by lia. rewrite <- drop_drop, E. done. }
    unfold truth. destruct (Z.eqb_spec c 0); [done|].
    destruct (c =? SLASH); simpl; [lia|]. rewrite IH, Hr by lia. lia.
Qed.

(** [next_part] hands out the next component and moves past it, panics on one that does not
    fit the buffer, and stops at an empty one. *)
Lemma next_part_spec path start s :
  string_ok path -> (start <= length path)%nat ->
  match components (drop start path) with
  | [] => next_part path start s = Ok (None, s)
  | w :: ws =>
      if bool_decide (short w)
      then exists start', (start < start' <= length path)%nat /\
             next_part path start s = Ok (Some (w, start'), s) /\
             components (drop start' path) = ws
      else next_part path start s = Panic
  end.
Proof.
  intros Hok Hst. unfold next_part. rewrite part_end_word by (done || lia).
  set (r := drop start path). rewrite components_word.
  pose proof (word_prefix r) as Hpre.
  destruct (word r) as [|c w] eqn:Ew.
  - rewrite Nat.add_0_r, Nat.leb_refl. done.
  - set (n := length (c :: w)) in *.
    assert (0 < n)%nat by (subst n; simpl; lia).
    assert (n <= length r)%nat by (apply (f_equal length) in Hpre; rewrite length_take in Hpre; fold n in Hpre; lia).
    assert (length r = length path - start)%nat as Hlr by (subst r; apply length_drop).
    replace (start + n <=? start)%nat with false by (symmetry; apply Nat.leb_gt; lia).
    replace (start + n - start)%nat with n by lia.
    unfold short. fold n. unfold kassert.
    destruct (Z.ltb_spec (Z.of_nat n) FS_MAX_NAME); [rewrite bool_decide_true by done
      | rewrite bool_decide_false by lia; done].
    rewrite char_at_drop, <- drop_drop. fold r.
    unfold mbind, M_bind, mret, M_ret. rewrite Hpre.
    destruct (drop n r) as [|d q] eqn:Ed; simpl.
    + exists (start + n)%nat. split_and!; [lia | lia | done |].
      rewrite <- drop_drop. fold r. by rewrite Ed.
    + assert (length (drop n r) = S (length q)) as Hlq by (by rewrite Ed).
      rewrite length_drop in Hlq.
      assert (d = SLASH) as -> by (eapply word_stop; rewrite Ew; exact Ed).
      rewrite Z.eqb_refl.
      exists (S (start + n)). split_and!; [lia | lia | done |].
      replace (S (start + n)) with (start + (n + 1))%nat by lia.
      rewrite <- !drop_drop. fold r. rewrite Ed. done.
Qed.

(** ** The name space *)

(** What path lookup needs of the drivers: searching a directory is a function of the state,
    answers live inodes, and reports a failure in [fs_error] and nowhere else. *)
Class DirLaws (D : Drivers) := {
  dir_child : fsys -> Z -> cstring -> option Z;
  driver_wf : fsys -> Prop;
  finddir_law s d x f n :
    driver_wf s -> inodes s !! d = Some x -> bisset (i_flags x) FS_DIR = true ->
    inode_op op_finddir x = Some f ->
    exists e, f d n s = Ok (dir_child s d n, set_error e s) /\
      (is_Some (dir_child s d n) -> e = fs_error s);
  dir_child_live s d n j : driver_wf s -> dir_child s d n = Some j -> is_Some (inodes s !! j);
}.

Section lookup.
Context {D : Drivers} {L : DirLaws D}.

(** The entry [n] of the directory [d]. *)
Definition child (s : fsys) (d : Z) (n : cstring) : option Z :=
  x ← inodes s !! d;
  if bisset (i_flags x) FS_DIR
  then match inode_op op_finddir x with Some _ => dir_child s d n | None => None end
  else None.

(** The directory an inode stands for: the target of a link, the root of the file system
    mounted there, or the directory itself. *)
Definition redirected (x : inode) : bool :=
  bisset (i_flags x) FS_SYMLINK || bisset (i_flags x) FS_MOUNTP.
Definition dir_of (s : fsys) (i : Z) : option Z :=
  x ← inodes s !! i;
  if redirected x then link x else if bisset (i_flags x) FS_DIR then Some i else None.

Definition is_symlink (s : fsys) (i : Z) : bool :=
  match inodes s !! i with Some x => bisset (i_flags x) FS_SYMLINK | None => false end.

(** The inode a list of names leads to from [i], over at most [budget] symbolic links; a
    mount point at the end is crossed, a symbolic link is not. *)
Fixpoint resolve (s : fsys) (budget : nat) (i : Z) (names : list cstring) : option Z :=
  match names with
  | [] => x ← inodes s !! i; if bisset (i_flags x) FS_MOUNTP then link x else Some i
  | n :: ns =>
      match (if is_symlink s i then (match budget with O => None | S b => Some b end) else Some budget) with
      | Some b => d ← dir_of s i; j ← child s d n; resolve s b j ns
      | None => None
      end
  end.

(** Links and mount points lead to live inodes, the root is one, and the drivers agree. *)
Definition fs_wf (s : fsys) : Prop :=
  driver_wf s /\ is_Some (inodes s !! fs_root) /\
  forall i x, inodes s !! i = Some x -> redirected x = true ->
    exists l, link x = Some l /\ is_Some (inodes s !! l).

Lemma vfs_finddir_child s d n :
  driver_wf s -> is_Some (inodes s !! d) ->
  exists e, vfs_finddir (Some d) n s = Ok (child s d n, set_error e s) /\
    (is_Some (child s d n) -> e = fs_error s).
Proof.
  intros Hwf [x Hx]. unfold vfs_finddir, child, ptr, inode_at, null_err, vfs_seterror,
    bnotset, mbind, M_bind, deref, get, mret, M_ret, modify. rewrite Hx. simpl.
  destruct (bisset (i_flags x) FS_DIR) eqn:Hd; simpl.
  - destruct (inode_op op_finddir x) as [f|] eqn:Hf.
    + by apply (finddir_law s d x f n).
    + eexists; split; [done|]. by intros [? ?].
  - eexists; split; [done|]. by intros [? ?].
Qed.

Lemma child_live s d n j : driver_wf s -> child s d n = Some j -> is_Some (inodes s !! j).
Proof.
  intros Hwf. unfold child. destruct (inodes s !! d) as [x|]; simpl; [|done].
  destruct (bisset (i_flags x) FS_DIR); [|done].
  destruct (inode_op op_finddir x); [|done]. by apply dir_child_live.
Qed.

Lemma set_error_same s : set_error (fs_error s) s = s.
Proof. by destruct s. Qed.

Lemma dir_of_live s i :
  fs_wf s -> is_Some (inodes s !! i) ->
  forall d, dir_of s i = Some d -> is_Some (inodes s !! d).
Proof.
  intros (_ & _ & Hl) [x Hx] d. unfold dir_of. rewrite Hx. simpl.
  destruct (redirected x) eqn:Er.
  - destruct (Hl _ _ Hx Er) as (l & -> & ?). by intros [= <-].
  - destruct (bisset (i_flags x) FS_DIR); [|done]. intros [= <-]. eauto.
Qed.

(** With no inode in hand the loop ends, with or without a component left. *)
Lemma lookup_loop_null fuel path pidx symc s :
  string_ok path -> (pidx <= length path)%nat ->
  Forall short (components (drop pidx path)) ->
  lookup_loop (S fuel) path pidx None symc s = Ok (None, s).
Proof.
  intros Hok Hp Hs. cbn [lookup_loop]. unfold mbind, M_bind.
  pose proof (next_part_spec path pidx s Hok Hp) as Hn.
  destruct (components (drop pidx path)) as [|w ws].
  - by rewrite Hn.
  - inv Hs. rewrite bool_decide_true in Hn by done.
    destruct Hn as (q & _ & -> & _). done.
Qed.

(** One step of the loop: go to the directory and search it. *)
Lemma lookup_step s d n fuel path q symc budget ws :
  fs_wf s -> is_Some (inodes s !! d) -> string_ok path -> (q <= length path)%nat ->
  Forall short (components (drop q path)) ->
  (forall j, is_Some (inodes s !! j) ->
     exists e, lookup_loop (S fuel) path q (Some j) symc s =
                 Ok (resolve s budget j ws, set_error e s) /\
       (is_Some (resolve s budget j ws) -> e = fs_error s)) ->
  exists e, (j ← vfs_finddir (Some d) n; lookup_loop (S fuel) path q j symc) s =
      Ok (j ← child s d n; resolve s budget j ws, set_error e s) /\
    (is_Some (j ← child s d n; resolve s budget j ws) -> e = fs_error s).
Proof.
  intros Hwf Hd Hok Hq Hsh IH.
  destruct (vfs_finddir_child s d n (proj1 Hwf) Hd) as (e & Hf & He).
  unfold mbind at 1, M_bind. rewrite Hf.
  destruct (child s d n) as [j|] eqn:Ec; cbn [mbind option_bind].
  - rewrite He, set_error_same by eauto. apply IH. by eapply child_live; [apply Hwf|].
  - exists e. rewrite lookup_loop_null by done. split; [done|]. by intros [? ?].
Qed.

Lemma lookup_loop_end fuel path pidx i symc s x :
  next_part path pidx s = Ok (None, s) -> inodes s !! i = Some x ->
  lookup_loop (S fuel) path pidx (Some i) symc s =
    Ok (if bisset (i_flags x) FS_MOUNTP then link x else Some i, s).
Proof.
  intros Hn Hx. cbn [lookup_loop]. unfold mbind, M_bind. rewrite Hn.
  unfold lookup_end, inode_at, mbind, M_bind, get, deref. by rewrite Hx.
Qed.

Lemma lookup_loop_more fuel path pidx i symc s x w q :
  next_part path pidx s = Ok (Some (w, q), s) -> inodes s !! i = Some x ->
  lookup_loop (S fuel) path pidx (Some i) symc s =
    (if bisset (i_flags x) FS_SYMLINK then
       if symc + 1 >=? FS_MAX_SYMLOOP then null_err (- ELOOP)
       else j ← vfs_finddir (link x) w; lookup_loop fuel path q j (symc + 1)
     else if bisset (i_flags x) FS_MOUNTP then
       j ← vfs_finddir (link x) w; lookup_loop fuel path q j symc
     else if bnotset (i_flags x) FS_DIR then null_err (- ENOENT)
     else j ← vfs_finddir (Some i) w; lookup_loop fuel path q j symc) s.
Proof.
  intros Hn Hx. cbn [lookup_loop]. unfold mbind at 1, M_bind. rewrite Hn.
  unfold mbind at 1, M_bind, inode_at, mbind at 1, M_bind, get, deref. by rewrite Hx.
Qed.

Lemma lookup_loop_resolves s path :
  fs_wf s -> string_ok path ->
  forall fuel pidx i symc,
  (pidx <= length path)%nat -> (length path - pidx <= fuel)%nat ->
  Forall short (components (drop pidx path)) ->
  is_Some (inodes s !! i) -> 0 <= symc <= 19 ->
  exists e, lookup_loop (S fuel) path pidx (Some i) symc s =
      Ok (resolve s (Z.to_nat (19 - symc)) i (components (drop pidx path)), set_error e s) /\
    (is_Some (resolve s (Z.to_nat (19 - symc)) i (components (drop pidx path))) ->
       e = fs_error s).
Proof.
  intros Hwf Hok. induction fuel as [|fuel IH]; intros pidx i symc Hp Hf Hs Hi Hsy;
    pose proof (next_part_spec path pidx s Hok Hp) as Hn; destruct Hi as [x Hx];
    destruct (components (drop pidx path)) as [|w ws] eqn:Ec.
  1,3: exists (fs_error s); rewrite (lookup_loop_end _ _ _ _ _ _ x), set_error_same by done;
    cbn [resolve]; by rewrite Hx.
  all: inv Hs; rewrite bool_decide_true in Hn by done;
    destruct Hn as (q & Hq & Hn & Hws).
  1: lia.
  rewrite (lookup_loop_more _ _ _ _ _ _ x w q) by done.
  cbn [resolve]. unfold is_symlink, dir_of, redirected. rewrite Hx. cbn [mbind option_bind].
  destruct Hwf as (Hdw & Hroot & Hlink). unfold redirected in Hlink.
  pose proof (conj Hdw (conj Hroot Hlink) : fs_wf s) as Hwf.
  pose proof (Hlink _ _ Hx) as Hlx.
  destruct (bisset (i_flags x) FS_SYMLINK) eqn:Esym; cbn [orb negb mbind option_bind].
  - destruct (symc + 1 >=? FS_MAX_SYMLOOP) eqn:Elim; rewrite Z.geb_leb in Elim; to_prop.
    + unfold FS_MAX_SYMLOOP in Elim. replace (Z.to_nat (19 - symc)) with O by lia.
      exists (- ELOOP). split; [done|]. by intros [? ?].
    + unfold FS_MAX_SYMLOOP in Elim.
      destruct (Z.to_nat (19 - symc)) as [|b] eqn:Eb; [lia|].
      destruct Hlx as (l & -> & Hl); [done|]. cbn [mbind option_bind].
      apply lookup_step; [done..|lia|by rewrite Hws|].
      intros j Hj. destruct (IH q j (symc + 1)) as (e & He1 & He2); [lia|lia|by rewrite Hws|done|lia|].
      rewrite Hws in He1, He2. replace (Z.to_nat (19 - (symc + 1))) with b in He1, He2 by lia.
      eauto.
  - assert (forall j, is_Some (inodes s !! j) ->
      exists e, lookup_loop (S fuel) path q (Some j) symc s =
                  Ok (resolve s (Z.to_nat (19 - symc)) j ws, set_error e s) /\
        (is_Some (resolve s (Z.to_nat (19 - symc)) j ws) -> e = fs_error s)) as Hnext.
    { intros j Hj. rewrite <- Hws. apply IH; [lia|lia|by rewrite Hws|done|lia]. }
    destruct (bisset (i_flags x) FS_MOUNTP) eqn:Em; cbn [orb negb mbind option_bind].
    + destruct Hlx as (l & -> & Hl); [done|]. cbn [mbind option_bind].
      apply lookup_step; [done..|lia|by rewrite Hws|done].
    + unfold bnotset. destruct (bisset (i_flags x) FS_DIR) eqn:Ed; cbn [orb negb mbind option_bind].
      * apply lookup_step; [done|eauto|done|lia|by rewrite Hws|done].
      * exists (- ENOENT). split; [done|]. by intros [? ?].
Qed.
End lookup.

(** Looking a path up is following its components: from the root when the path starts with a
    slash, from [start] otherwise.  It always ends, and leaves the state as it was but for
    the error code of a failed search.  The components end at the first empty one, so
    everything behind a doubled slash is ignored. *)
Section lookup_thm.
Context {D : Drivers} {L : DirLaws D}.

Definition origin (path : cstring) (start : Z) : Z :=
  if char_at path 0 =? SLASH then fs_root else start.
Definition names (path : cstring) : list cstring :=
  components (if char_at path 0 =? SLASH then skip_slashes path else path).

Lemma skip_slashes_ok p : string_ok p -> string_ok (skip_slashes p).
Proof. induction 1; simpl; [constructor|]. case_match; [done|by constructor]. Qed.

Lemma vfs_lookup_start s path start :
  is_Some (inodes s !! start) ->
  vfs_lookup (Some path) (Some start) s =
    match advance_root path with
    | Some p' => lookup_loop (S (length p')) p' 0 (Some fs_root) 0 s
    | None => lookup_loop (S (length path)) path 0 (Some start) 0 s
    end.
Proof.
  intros [x Hx]. unfold vfs_lookup, kassert. rewrite !bool_decide_true by eauto.
  rewrite !(run_bind _ _ s _ s eq_refl), (run_bind _ _ s x s);
    [by destruct (advance_root path)|].
  unfold inode_at, mbind, M_bind, get. by rewrite Hx.
Qed.

Lemma vfs_lookup_run s path start :
  fs_wf s -> is_Some (inodes s !! start) -> string_ok path -> Forall short (names path) ->
  exists e, vfs_lookup (Some path) (Some start) s =
      Ok (resolve s 19 (origin path start) (names path), set_error e s) /\
    (is_Some (resolve s 19 (origin path start) (names path)) -> e = fs_error s).
Proof.
  intros Hwf Hx Hok Hs. pose proof Hwf as (_ & Hroot & _).
  rewrite vfs_lookup_start by done.
  unfold advance_root, origin, names in *. destruct (char_at path 0 =? SLASH) eqn:Ec.
  - destruct (lookup_loop_resolves s (skip_slashes path) Hwf (skip_slashes_ok _ Hok)
      (length (skip_slashes path)) 0 fs_root 0) as (e & He); [lia|lia|done|done|lia|eauto].
  - destruct (lookup_loop_resolves s path Hwf Hok (length path) 0 start 0)
      as (e & He); [lia|lia|done|eauto|lia|eauto].
Qed.


(** A component of 255 bytes or more stops the kernel. *)
Lemma lookup_long_component_panics s path start :
  is_Some (inodes s !! start) -> string_ok path -> char_at path 0 <> SLASH ->
  FS_MAX_NAME <= Z.of_nat (length (word path)) ->
  vfs_lookup (Some path) (Some start) s = Panic.
Proof.
  intros Hx Hok Hc Hlong. rewrite vfs_lookup_start by done.
  unfold advance_root. destruct (Z.eqb_spec (char_at path 0) SLASH); [done|].
  cbn [lookup_loop]. unfold mbind, M_bind.
  pose proof (next_part_spec path 0 s Hok ltac:(lia)) as Hn.
  rewrite drop_0, components_word in Hn.
  destruct (word path) as [|c w]; [unfold FS_MAX_NAME in Hlong; simpl in Hlong; lia|].
  cbv beta iota zeta in Hn. rewrite bool_decide_false in Hn by (unfold short; lia). by rewrite Hn.
Qed.
End lookup_thm.
