(* ===== verification/Initrd.v ===== *)
(** * The initial ram disk

    kernel/fs/initrd.c: the driver of the file system whose image the boot loader leaves in
    memory, and the parser that builds its inodes.  The image is in the bytes of [mem]; the
    structures of share/include/kos/initrd.h are read from there. *)

From S2P Require Import Prelude Vfs.

Definition ID_VERSION : Z := 0.
Definition ID_MAGIC0 : Z := 107.
Definition ID_MAGIC1 : Z := 73.
Definition ID_MAGIC2 : Z := 68.
Definition ID_TYPE_FILE : Z := 0.
Definition ID_TYPE_DIR : Z := 1.
Definition sizeof_id_header : Z := 4.
Definition sizeof_id_entry : Z := 20.

(** Addresses of the static objects [fops], [iops], [sbops], [super] and [initrd]. *)
Definition ID_FOPS : Z := 2.
Definition ID_IOPS : Z := 3.
Definition ID_SBOPS : Z := 4.
Definition ID_SUPER : Z := 5.
Definition ID_TYPE : Z := 6.

(** ** Driver *)

Definition id_close (f : Z) : M fsys Z := mret 0.

Definition do_read (f offs buffer count : Z) : M fsys Z :=
  x ← file_at f;
  i ← ptr (f_inode x);
  ino ← inode_at i;
  if offs >? i_length ino then mret (-1)
  else
    let count := if u32 (offs + count) >? i_length ino then i_length ino - offs else count in
    data ← load_bytes (u32 (impl ino + offs)) (Z.to_nat count);
    store_bytes buffer data;;
    x ← file_at f;
    put_file f (fset_pos (u32 (pos x + count)) x);;
    mret (i32 count).

Definition id_read (f buffer count offset : Z) : M fsys Z := do_read f offset buffer count.

Definition id_open (ino f flags : Z) : M fsys Z :=
  x ← file_at f;
  put_file f (MkFile (f_inode x) 0 (Some ID_FOPS));;
  mret 0.

(** [list_iterate] with a counter: the entry at [index]. *)
Fixpoint nth_entry (xs : list Z) (i index : Z) : option Z :=
  match xs with
  | [] => None
  | x :: xs => if i =? index then Some x else nth_entry xs (i + 1) index
  end.

Definition id_readdir (ino index : Z) : M fsys (option Z) :=
  x ← inode_at ino;
  d ← kmalloc;
  xs ← list_at (Some (impl x));
  match nth_entry xs 0 index with
  | Some e =>
      y ← inode_at e;
      put_dirent d (MkDirent (i_name y) (Some e));;
      mret (Some d)
  | None => null_err (- ENOENT)
  end.

(** [strcmp(e->name, name) == 0] down the list. *)
Fixpoint find_name (xs : list Z) (name : cstring) : M fsys (option Z) :=
  match xs with
  | [] => mret None
  | e :: xs =>
      y ← inode_at e;
      if decide (i_name y = name) then mret (Some e) else find_name xs name
  end.

Definition id_finddir (ino : Z) (name : cstring) : M fsys (option Z) :=
  x ← inode_at ino;
  xs ← list_at (Some (impl x));
  r ← find_name xs name;
  match r with
  | Some e => mret (Some e)
  | None => null_err (- ENOENT)
  end.

Definition id_remount (sb flags : Z) : M fsys Z := mret 0.

(** [root] is the static pointer [init_initrd] sets. *)
Definition id_mount (root : option Z) (sb : Z) (dev : option cstring) (flags : Z) : M fsys Z :=
  modify (fun s => set_supers
    (<[sb := MkSuper root (bclr flags (Z.lor FSM_WRITE FSM_EXEC)) (Some ID_SBOPS)]> (supers s)) s);;
  mret 0.

Definition no_iops : inode_ops := MkIops None None None None None.
Definition no_fops : file_ops := MkFops None None None None.
Definition id_iops : inode_ops :=
  MkIops None (Some id_open) None (Some id_readdir) (Some id_finddir).
Definition id_fops : file_ops := MkFops (Some id_close) None (Some id_read) None.
Definition id_type (root : option Z) : fstype :=
  MkType (map (fun a => Z.of_N (Ascii.N_of_ascii a)) (String.list_ascii_of_string "initrd"))
    0 (id_mount root).

(** The kernel with this driver, [root] being what the parser answered. *)
Definition initrd_drivers (root : option Z) : Drivers := {|
  inode_table o := if o =? ID_IOPS then id_iops else no_iops;
  file_table o := if o =? ID_FOPS then id_fops else no_fops;
  remount_of o := if o =? ID_SBOPS then Some id_remount else None;
  type_at t := if t =? ID_TYPE then id_type root
               else MkType [] 0 (fun _ _ _ => mret (- ENOSYS));
|}.

(** ** Parsing *)

Record id_entry := MkEntry {
  e_type : Z; e_name : Z; e_count : Z; e_content : Z; e_next : Z;
}.

Definition dword_at (a : Z) : M fsys Z := bs ← load_bytes a 4; mret (le_val bs).
Definition entry_at (a : Z) : M fsys id_entry :=
  t ← dword_at a; n ← dword_at (a + 4); c ← dword_at (a + 8);
  d ← dword_at (a + 12); x ← dword_at (a + 16);
  mret (MkEntry t n c d x).

(** [id_get(e, w, d)]: 0 stands for NULL. *)
Definition id_get (w disk : Z) : Z := if w =? 0 then 0 else u32 (disk + w).

Definition check_img (img : Z) : M fsys bool :=
  m0 ← load_bytes img 1; m1 ← load_bytes (img + 1) 1; m2 ← load_bytes (img + 2) 1;
  v ← load_bytes (img + 3) 1;
  mret (bool_decide (m0 = [ID_MAGIC0]) && bool_decide (m1 = [ID_MAGIC1]) &&
        bool_decide (m2 = [ID_MAGIC2]) && bool_decide (v = [ID_VERSION])).

(** The string at [a]: its bytes up to the first zero.  Every byte read is one of [mem]. *)
Fixpoint string_from (fuel : nat) (a : Z) : M fsys cstring :=
  match fuel with
  | O => fault
  | S fuel =>
      bs ← load_bytes a 1;
      if le_val bs =? 0 then mret []
      else w ← string_from fuel (a + 1); mret (le_val bs :: w)
  end.
Definition string_at (a : Z) : M fsys cstring :=
  s ← get; string_from (S (size (mem s))) a.

Definition no_name : cstring :=
  map (fun a => Z.of_N (Ascii.N_of_ascii a)) (String.list_ascii_of_string "<no name>").

Definition new_inode (e : id_entry) (disk : Z) : M fsys Z :=
  ino ← kmalloc;
  n ← (if id_get (e_name e) disk =? 0 then mret no_name
       else string_at (id_get (e_name e) disk));
  put_inode ino (MkInode n 0 0 (e_count e) 0 0 0 0 None (Some ID_IOPS) (Some ID_SUPER));;
  mret ino.

Definition parse_file (file disk : Z) : M fsys Z :=
  e ← entry_at file;
  i ← new_inode e disk;
  x ← inode_at i;
  put_inode i (iset_impl (id_get (e_content e) disk) (iset_flags FS_FILE x));;
  mret i.

(** The parser calls itself for directories and walks the entries of one in a loop; an image
    whose offsets form a cycle is never finished. *)
Fixpoint parse_dir (fuel : nat) (dir disk : Z) : M fsys Z :=
  match fuel with
  | O => fault
  | S fuel =>
      e ← entry_at dir;
      if negb (e_type e =? ID_TYPE_DIR) then panic
      else
        i ← new_inode e disk;
        entries ← kmalloc;
        put_list entries [];;
        x ← inode_at i;
        put_inode i (iset_impl entries (iset_flags FS_DIR x));;
        (if id_get (e_count e) disk >? 0
         then parse_entries fuel (id_get (e_content e) disk) disk entries
         else mret tt);;
        mret i
  end
with parse_entries (fuel : nat) (entry disk entries : Z) : M fsys unit :=
  match fuel with
  | O => fault
  | S fuel =>
      if entry =? 0 then mret tt
      else
        en ← entry_at entry;
        e ← (if e_type en =? ID_TYPE_FILE then parse_file entry disk
             else if e_type en =? ID_TYPE_DIR then parse_dir fuel entry disk
             else panic);
        xs ← list_at (Some entries);
        put_list entries (xs ++ [e]);;
        parse_entries fuel (id_get (e_next en) disk) disk entries
  end.

(** [init_initrd] once [mod_load] has mapped module 0 at [disk]. *)
Definition init_initrd (fuel : nat) (disk : Z) : M fsys Z :=
  ok ← check_img disk;
  if negb ok then panic
  else
    root ← parse_dir fuel (disk + sizeof_id_header) disk;
    _ ← vfs_register (Some ID_TYPE);
    mret root.

(** ** The format

    A tree of files and directories and its image: an entry is five words, its name and a
    zero byte, and its content, the bytes of a file or the entries of a directory, one
    behind the other.  All offsets count from the start of the image. *)

#[local] Set Warnings "-register-all".
Inductive node :=
| NFile (name content : list Z)
| NDir (name : list Z) (entries : list node).

Section node_ind.
Variable P : node -> Prop.
Hypothesis Hfile : forall n c, P (NFile n c).
Hypothesis Hdir : forall n es, Forall P es -> P (NDir n es).
Fixpoint node_ind' (t : node) : P t :=
  match t with
  | NFile n c => Hfile n c
  | NDir n es => Hdir n es
      ((fix go es : Forall P es :=
          match es with
          | [] => Forall_nil_2 P
          | e :: es => Forall_cons_2 P e es (node_ind' e) (go es)
          end) es)
  end.
End node_ind.

Definition node_name (t : node) : list Z := match t with NFile n _ | NDir n _ => n end.
Definition zlen (l : list Z) : Z := Z.of_nat (length l).

Fixpoint nsize (t : node) : Z :=
  match t with
  | NFile n c => sizeof_id_entry + (zlen n + 1) + zlen c
  | NDir n es => sizeof_id_entry + (zlen n + 1) + foldr (fun e k => nsize e + k) 0 es
  end.
Definition nsizes (es : list node) : Z := foldr (fun e k => nsize e + k) 0 es.

Definition words (ws : list Z) : list Z := flat_map (le_bytes 4) ws.

Fixpoint enc_node (off : Z) (more : bool) (t : node) : list Z :=
  let name_at := off + sizeof_id_entry in
  let data_at := name_at + (zlen (node_name t) + 1) in
  let next := if more then off + nsize t else 0 in
  match t with
  | NFile n c => words [0; name_at; zlen c; data_at; next] ++ (n ++ [0]) ++ c
  | NDir n es =>
      words [1; name_at; Z.of_nat (length es); data_at; next] ++ (n ++ [0]) ++
      (fix go off es :=
         match es with
         | [] => []
         | e :: es =>
             enc_node off (match es with [] => false | _ => true end) e ++ go (off + nsize e) es
         end) data_at es
  end.
Fixpoint enc_nodes (off : Z) (es : list node) : list Z :=
  match es with
  | [] => []
  | e :: es =>
      enc_node off (match es with [] => false | _ => true end) e ++ enc_nodes (off + nsize e) es
  end.

(** A whole image. *)
Definition enc_image (t : node) : list Z :=
  [ID_MAGIC0; ID_MAGIC1; ID_MAGIC2; ID_VERSION] ++ enc_node sizeof_id_header false t.

(** What an image can hold: names without zero bytes. *)
Fixpoint node_ok (t : node) : Prop :=
  match t with
  | NFile n c => string_ok n /\ Forall is_u8 n /\ Forall is_u8 c
  | NDir n es => string_ok n /\ Forall is_u8 n /\ foldr (fun e p => node_ok e /\ p) True es
  end.

(** ** The inodes of a tree *)

Definition mem_has (m : gmap Z Z) (a : Z) (bs : list Z) : Prop :=
  forall k b, bs !! k = Some b -> m !! (a + Z.of_nat k) = Some b.

(** Inode [i] carries the tree [t]; its list objects are at [lo] and above. *)
Fixpoint carries (lo : Z) (inos : gmap Z inode) (lsts : gmap Z (list Z)) (m : gmap Z Z)
    (i : Z) (t : node) : Prop :=
  exists x, inos !! i = Some x /\ i_name x = node_name t /\ i_ops x = Some ID_IOPS /\
    link x = None /\
  match t with
  | NFile _ c => i_flags x = FS_FILE /\ i_length x = zlen c /\ mem_has m (impl x) c
  | NDir _ es => i_flags x = FS_DIR /\ lo <= impl x /\
      exists xs, lsts !! impl x = Some xs /\
        (fix go xs es {struct es} :=
           match xs, es with
           | [], [] => True
           | j :: xs, e :: es => carries lo inos lsts m j e /\ go xs es
           | _, _ => False
           end) xs es
  end.

Lemma carries_dir lo inos lsts m i n es :
  carries lo inos lsts m i (NDir n es) <->
  exists x, inos !! i = Some x /\ i_name x = n /\ i_ops x = Some ID_IOPS /\ link x = None /\
    i_flags x = FS_DIR /\ lo <= impl x /\
    exists xs, lsts !! impl x = Some xs /\ Forall2 (carries lo inos lsts m) xs es.
Proof.
  assert (forall xs, (fix go xs es {struct es} := match xs, es with
           | [], [] => True
           | j :: xs, e :: es => carries lo inos lsts m j e /\ go xs es
           | _, _ => False end) xs es <-> Forall2 (carries lo inos lsts m) xs es) as Hgo.
  { induction es as [|e es IH]; intros [|j xs]; split; try done; try (by inversion 1).
    - intros [? ?]. constructor; [done|]. by apply IH.
    - inversion 1; subst. split; [done|]. by apply IH. }
  cbn [carries node_name]. setoid_rewrite Hgo. done.
Qed.

Lemma carries_live lo inos lsts m i t : carries lo inos lsts m i t -> is_Some (inos !! i).
Proof. destruct t; intros (x & Hx & _); eauto. Qed.

(** What a state must keep so that a tree stays carried. *)
Lemma carries_mono lo inos lsts m lo' inos' lsts' i t :
  inos ⊆ inos' -> lo' <= lo -> (forall a xs, lo <= a -> lsts !! a = Some xs -> lsts' !! a = Some xs) ->
  carries lo inos lsts m i t -> carries lo' inos' lsts' m i t.
Proof.
  intros Hi Hlo Hl. revert i. induction t as [n c|n es IH] using node_ind'; intros i.
  - intros (x & Hx & H1 & H2 & H3 & H4). exists x. split; [by eapply lookup_weaken|]. done.
  - rewrite !carries_dir. intros (x & Hx & H1 & H2 & H3 & H4 & H5 & xs & Hxs & Hall).
    exists x. split; [by eapply lookup_weaken|]. do 4 (split; [done|]). split; [lia|].
    exists xs. split; [by apply Hl|].
    revert Hall IH. clear. intros Hall. induction Hall; intros IH; inv IH; constructor; eauto.
Qed.

(** ** Reading the image *)

Lemma mem_has_app m a b1 b2 :
  mem_has m a (b1 ++ b2) <-> mem_has m a b1 /\ mem_has m (a + zlen b1) b2.
Proof.
  unfold mem_has, zlen. split.
  - intros Hm. split; intros k b Hk.
    + apply Hm. by apply lookup_app_l_Some.
    + rewrite <- Z.add_assoc, <- Nat2Z.inj_add. apply Hm.
      rewrite lookup_app_r by lia. by replace (length b1 + k - length b1)%nat with k by lia.
  - intros [H1 H2] k b [Hk|[Hl Hk]]%lookup_app_Some; [by apply H1|].
    specialize (H2 _ _ Hk). rewrite <- Z.add_assoc, <- Nat2Z.inj_add in H2.
    by replace (length b1 + (k - length b1))%nat with k in H2 by lia.
Qed.

Lemma mem_has_cons m a b bs :
  mem_has m a (b :: bs) <-> m !! a = Some b /\ mem_has m (a + 1) bs.
Proof.
  rewrite (mem_has_app m a [b] bs). unfold zlen; simpl. split; intros [H1 H2]; split; try done.
  - specialize (H1 0%nat b eq_refl). by rewrite Z.add_0_r in H1.
  - intros [|k] b' [=]; subst. by rewrite Z.add_0_r.
Qed.

Lemma load_bytes_has s a bs :
  mem_has (mem s) a bs -> load_bytes a (length bs) s = Ok (bs, s).
Proof.
  revert a. induction bs as [|b bs IH]; intros a Hm; [done|].
  apply mem_has_cons in Hm as [Hb Hm]. cbn [length load_bytes].
  rewrite (run_bind _ _ s s s eq_refl), (run_bind _ _ s b s) by (by rewrite Hb).
  by rewrite (run_bind _ _ s bs s) by (by apply IH).
Qed.

Lemma load_byte_has s a b : mem s !! a = Some b -> load_bytes a 1 s = Ok ([b], s).
Proof. intros Hb. apply (load_bytes_has s a [b]). by apply mem_has_cons. Qed.

Lemma dword_at_has s a w :
  is_u32 w -> mem_has (mem s) a (le_bytes 4 w) -> dword_at a s = Ok (w, s).
Proof.
  intros Hw Hm. unfold dword_at.
  rewrite (run_bind _ _ s (le_bytes 4 w) s)
    by (rewrite <- (le_bytes_length 4 w) at 1; by apply load_bytes_has).
  rewrite le_val_bytes; [done|]. unfold is_u32 in Hw. simpl. lia.
Qed.

Lemma words_length ws : zlen (words ws) = 4 * Z.of_nat (length ws).
Proof.
  unfold zlen, words. induction ws as [|w ws IH]; [done|].
  cbn [flat_map]. rewrite length_app, le_bytes_length. cbn [length]. lia.
Qed.

Lemma entry_at_has s a t n c d x :
  is_u32 t -> is_u32 n -> is_u32 c -> is_u32 d -> is_u32 x ->
  mem_has (mem s) a (words [t; n; c; d; x]) -> entry_at a s = Ok (MkEntry t n c d x, s).
Proof.
  intros Ht Hn Hc Hd Hx Hm. unfold words in Hm. cbn [flat_map] in Hm.
  rewrite !mem_has_app in Hm. unfold zlen in Hm. rewrite !le_bytes_length in Hm.
  destruct Hm as (Hm1 & Hm2 & Hm3 & Hm4 & Hm5 & _). unfold entry_at.
  rewrite (run_bind _ _ s t s) by (by apply dword_at_has).
  rewrite (run_bind _ _ s n s) by (by apply dword_at_has).
  rewrite (run_bind _ _ s c s) by (apply dword_at_has; [done|];
    by replace (a + 8) with (a + Z.of_nat 4 + Z.of_nat 4) by lia).
  rewrite (run_bind _ _ s d s) by (apply dword_at_has; [done|];
    by replace (a + 12) with (a + Z.of_nat 4 + Z.of_nat 4 + Z.of_nat 4) by lia).
  by rewrite (run_bind _ _ s x s) by (apply dword_at_has; [done|];
    by replace (a + 16) with (a + Z.of_nat 4 + Z.of_nat 4 + Z.of_nat 4 + Z.of_nat 4) by lia).
Qed.

Lemma string_from_has s a n fuel :
  string_ok n -> mem_has (mem s) a (n ++ [0]) -> (length n < fuel)%nat ->
  string_from fuel a s = Ok (n, s).
Proof.
  intros Hok. revert a fuel. induction Hok as [|c n Hc Hn IH]; intros a [|fuel] Hm Hf;
    simpl in Hf; try lia; apply mem_has_cons in Hm as [Hb Hm]; cbn [string_from];
    rewrite (run_bind _ _ s _ s (load_byte_has s a _ Hb)); cbn [le_val].
  - done.
  - replace (c + 256 * 0) with c by lia. destruct (Z.eqb_spec c 0); [done|].
    by rewrite (run_bind _ _ s n s) by (apply IH; [done|lia]).
Qed.

Lemma mem_has_size m a bs : mem_has m a bs -> (length bs <= size m)%nat.
Proof.
  intros Hm. rewrite <- size_dom.
  trans (size (list_to_set (seqZ a (zlen bs)) : gset Z)).
  - rewrite size_list_to_set by apply NoDup_seqZ. rewrite length_seqZ. unfold zlen. lia.
  - apply subseteq_size. intros j Hj. rewrite elem_of_list_to_set, elem_of_seqZ in Hj.
    apply elem_of_dom. unfold zlen in Hj.
    destruct (lookup_lt_is_Some_2 bs (Z.to_nat (j - a))) as [b Hb]; [lia|].
    exists b. specialize (Hm _ _ Hb). by replace (a + Z.of_nat (Z.to_nat (j - a))) with j in Hm by lia.
Qed.

Lemma string_at_has s a n :
  string_ok n -> mem_has (mem s) a (n ++ [0]) -> string_at a s = Ok (n, s).
Proof.
  intros Hok Hm. unfold string_at. rewrite (run_bind _ _ s s s eq_refl).
  apply string_from_has; [done..|]. apply mem_has_size in Hm. rewrite length_app in Hm.
  simpl in Hm. lia.
Qed.

(** ** The parser *)

Lemma nsizes_cons e es : nsizes (e :: es) = nsize e + nsizes es.
Proof. done. Qed.
Lemma nsize_pos t : 21 <= nsize t.
Proof.
  induction t as [n c|n es IH] using node_ind'; cbn [nsize]; unfold sizeof_id_entry, zlen; [lia|].
  change (foldr _ 0 es) with (nsizes es).
  assert (0 <= nsizes es); [|lia]. induction IH as [|e es He _ IHes]; [done|].
  rewrite nsizes_cons. lia.
Qed.
Lemma nsizes_nonneg es : 0 <= nsizes es.
Proof.
  induction es as [|e es IH]; [done|]. rewrite nsizes_cons. pose proof (nsize_pos e). lia.
Qed.

Lemma enc_node_dir off more n es :
  enc_node off more (NDir n es) =
  words [1; off + sizeof_id_entry; Z.of_nat (length es);
         off + sizeof_id_entry + (zlen n + 1);
         if more then off + nsize (NDir n es) else 0] ++ (n ++ [0]) ++
  enc_nodes (off + sizeof_id_entry + (zlen n + 1)) es.
Proof. reflexivity. Qed.

Lemma enc_nodes_length es :
  Forall (fun t => forall off more, zlen (enc_node off more t) = nsize t) es ->
  forall off, zlen (enc_nodes off es) = nsizes es.
Proof.
  induction 1 as [|e es He _ IHes]; intros o; [done|].
  cbn [enc_nodes]. rewrite nsizes_cons. unfold zlen in *. rewrite length_app, Nat2Z.inj_add.
  by rewrite He, IHes.
Qed.

Lemma enc_length t : forall off more, zlen (enc_node off more t) = nsize t.
Proof.
  assert (forall a b, zlen (a ++ b) = zlen a + zlen b) as Happ
    by (intros; unfold zlen; rewrite length_app; lia).
  induction t as [n c|n es IH] using node_ind'; intros off more.
  - cbn [enc_node nsize]. rewrite !Happ, words_length. unfold zlen, sizeof_id_entry. simpl. lia.
  - rewrite enc_node_dir, !Happ, words_length, enc_nodes_length by done.
    cbn [nsize]. unfold nsizes, zlen, sizeof_id_entry. simpl. lia.
Qed.

(** Directories of this file system have their list, of live inodes. *)
Definition id_dir_ok (s : fsys) (x : inode) : bool :=
  if bool_decide (i_ops x = Some ID_IOPS) && bisset (i_flags x) FS_DIR
  then match lists s !! impl x with
       | Some xs => forallb (fun j => bool_decide (is_Some (inodes s !! j))) xs
       | None => false
       end
  else true.
Definition id_inode_ok (s : fsys) (x : inode) : bool := id_dir_ok s x && negb (redirected x).

(** Every inode is a proper one of this file system, none is a link or a mount point. *)
Definition id_inv (s : fsys) : Prop := map_Forall (fun _ x => id_inode_ok s x = true) (inodes s).

(** An old inode stays proper while inodes are added and lists get live ones. *)
Lemma id_inode_ok_mono s s' x :
  inodes s ⊆ inodes s' ->
  (forall a xs, lists s !! a = Some xs -> exists ys, lists s' !! a = Some (xs ++ ys) /\
     Forall (fun j => is_Some (inodes s' !! j)) ys) ->
  id_inode_ok s x = true -> id_inode_ok s' x = true.
Proof.
  intros Hi Hl. unfold id_inode_ok, id_dir_ok. rewrite !andb_true_iff. intros [Hd Hr].
  split; [|done]. destruct (_ && _); [|done].
  destruct (lists s !! impl x) as [xs|] eqn:Hx; [|done].
  destruct (Hl _ _ Hx) as (ys & -> & Hys). rewrite forallb_app. apply andb_true_iff.
  rewrite !forallb_forall in *. split; intros j Hj.
  - specialize (Hd j Hj). apply bool_decide_eq_true in Hd as [y Hy].
    apply bool_decide_eq_true. exists y. by eapply lookup_weaken.
  - apply bool_decide_eq_true. rewrite Forall_forall in Hys. apply Hys. by apply list_elem_of_In.
Qed.

(** Nothing is allocated at or above [brk]. *)
Definition bounded (s : fsys) : Prop :=
  forall a, brk s <= a -> inodes s !! a = None /\ lists s !! a = None.

Definition rest_same (s s' : fsys) : Prop :=
  mem s' = mem s /\ filetab s' = filetab s /\ dirents s' = dirents s /\ supers s' = supers s /\
  procdata s' = procdata s /\ fslist s' = fslist s /\ fs_error s' = fs_error s.

(** [s'] has what [s] has, with the list at [k] possibly longer, and new objects. *)
Definition grows (k : Z) (s s' : fsys) : Prop :=
  rest_same s s' /\ brk s <= brk s' /\ inodes s ⊆ inodes s' /\
  (forall a xs, a <> k -> lists s !! a = Some xs -> lists s' !! a = Some xs) /\ bounded s' /\
  (id_inv s -> id_inv s').

(** [s'] has what [s] has and new objects. *)
Definition extends (s s' : fsys) : Prop :=
  rest_same s s' /\ brk s <= brk s' /\ inodes s ⊆ inodes s' /\ lists s ⊆ lists s' /\ bounded s' /\
  (id_inv s -> id_inv s').

Lemma extends_grows k s s' : extends s s' -> grows k s s'.
Proof.
  intros (? & ? & ? & ? & ? & ?). do 3 (split; [done|]). split; [|done].
  intros a xs _ Ha. by eapply lookup_weaken.
Qed.

Lemma grows_trans k s1 s2 s3 : grows k s1 s2 -> grows k s2 s3 -> grows k s1 s3.
Proof.
  intros ((E1 & E2 & E3 & E4 & E5 & E6 & E7) & Hb & Hi & Hl & _ & Hv)
         ((F1 & F2 & F3 & F4 & F5 & F6 & F7) & Hb' & Hi' & Hl' & Hbd & Hv').
  split; [unfold rest_same; split_and!; congruence|]. split; [lia|].
  split; [by etrans|]. split; [eauto|]. auto.
Qed.

Fixpoint weight (t : node) : nat :=
  match t with
  | NFile _ _ => O
  | NDir _ es => S (S (foldr (fun e k => S (weight e + k)) O es))
  end.
Definition weights (es : list node) : nat := foldr (fun e k => S (weight e + k)) O es.

Section parser.
Variable disk : Z.
Hypothesis disk_pos : 0 < disk.

Definition node_type (t : node) : Z := match t with NFile _ _ => 0 | NDir _ _ => 1 end.
Definition node_count (t : node) : Z :=
  match t with NFile _ c => zlen c | NDir _ es => Z.of_nat (length es) end.

(** The entry of a node in the image. *)
Definition entry_of (off : Z) (more : bool) (t : node) : id_entry :=
  MkEntry (node_type t) (off + 20) (node_count t) (off + 20 + (zlen (node_name t) + 1))
    (if more then off + nsize t else 0).

Definition at_image (s : fsys) (off : Z) (more : bool) (t : node) : Prop :=
  0 < off /\ disk + off + nsize t < 2 ^ 32 /\
  mem_has (mem s) (disk + off) (enc_node off more t).

Lemma node_count_size t : 0 <= node_count t /\ 20 + (zlen (node_name t) + 1) + node_count t <= nsize t.
Proof.
  destruct t as [n c|n es]; cbn [node_count node_name nsize]; unfold zlen, sizeof_id_entry; [lia|].
  split; [lia|]. change (foldr _ 0 es) with (nsizes es).
  assert (Z.of_nat (length es) <= nsizes es); [|lia].
  induction es as [|e es IH]; [done|]. rewrite nsizes_cons. pose proof (nsize_pos e).
  cbn [length]. lia.
Qed.

Lemma at_image_entry s off more t :
  at_image s off more t ->
  entry_at (disk + off) s = Ok (entry_of off more t, s) /\
  (string_ok (node_name t) -> string_at (disk + (off + 20)) s = Ok (node_name t, s)).
Proof.
  intros (Ho & Hb & Hm).
  pose proof (node_count_size t) as [Hc Hsz]. pose proof (nsize_pos t) as Hpos.
  assert (exists tl, enc_node off more t = words [node_type t; off + 20; node_count t;
      off + 20 + (zlen (node_name t) + 1); if more then off + nsize t else 0]
      ++ (node_name t ++ [0]) ++ tl) as [tl Htl].
  { destruct t; [cbn [enc_node]|rewrite enc_node_dir]; eexists; reflexivity. }
  rewrite Htl in Hm. apply mem_has_app in Hm as [Hw Hn]. apply mem_has_app in Hn as [Hn _].
  rewrite words_length in Hn. change (4 * Z.of_nat (length _)) with 20 in Hn.
  unfold zlen in *. split.
  - apply entry_at_has; [..|done]; unfold is_u32, zlen;
      first [lia | destruct t; simpl; lia | destruct more; lia].
  - intros Hok. replace (disk + (off + 20)) with (disk + off + 20) by lia.
    by apply string_at_has.
Qed.

Lemma id_get_in w : 0 < w -> disk + w < 2 ^ 32 -> id_get w disk = disk + w.
Proof.
  intros. unfold id_get. destruct (Z.eqb_spec w 0); [lia|]. apply u32_small. unfold is_u32. lia.
Qed.

Definition blank_inode (off : Z) (t : node) : inode :=
  MkInode (node_name t) 0 0 (node_count t) 0 0 0 0 None (Some ID_IOPS) (Some ID_SUPER).

Lemma new_inode_run s off more t :
  at_image s off more t -> string_ok (node_name t) ->
  new_inode (entry_of off more t) disk s =
    Ok (brk s, set_inodes (<[brk s := blank_inode off t]> (inodes s)) (set_brk (brk s + 1) s)).
Proof.
  intros Hat Hok. pose proof Hat as (Ho & Hb & _). pose proof (nsize_pos t).
  unfold new_inode, kmalloc. cbn [e_name entry_of].
  rewrite (run_bind _ _ s (brk s) (set_brk (brk s + 1) s)) by done.
  rewrite id_get_in by lia. destruct (Z.eqb_spec (disk + (off + 20)) 0); [lia|].
  rewrite (run_bind _ _ _ (node_name t) (set_brk (brk s + 1) s)); [done|].
  apply (proj2 (at_image_entry (set_brk (brk s + 1) s) off more t Hat) Hok).
Qed.

Lemma bounded_brk s : bounded s -> inodes s !! brk s = None /\ lists s !! brk s = None.
Proof. intros Hb. by apply Hb. Qed.

(** A file of the image becomes an inode that carries it. *)
Lemma parse_file_run s off more n c :
  at_image s off more (NFile n c) -> node_ok (NFile n c) -> bounded s ->
  exists s', parse_file (disk + off) disk s = Ok (brk s, s') /\ extends s s' /\
    carries (brk s) (inodes s') (lists s') (mem s') (brk s) (NFile n c).
Proof.
  intros Hat Hok Hbd. pose proof Hat as (Ho & Hb & Hm). destruct Hok as (Hs & _).
  pose proof (node_count_size (NFile n c)) as Hc. cbn [node_count node_name] in Hc.
  pose proof (bounded_brk s Hbd) as [Hfi Hfl]. unfold zlen in Hc.
  eexists. split.
  { unfold parse_file. rewrite (run_bind _ _ s _ s (proj1 (at_image_entry s _ _ _ Hat))).
    rewrite (run_bind _ _ s _ _ (new_inode_run s off more _ Hat Hs)).
    rewrite (run_bind _ _ _ _ _ (inode_at_run _ _ _ (lookup_insert_eq _ _ _))).
    cbn [e_content entry_of]. rewrite id_get_in by (cbn [node_name]; unfold zlen; lia).
    reflexivity. }
  cbn. rewrite insert_insert_eq. split.
  - split; [done|]. split; [cbn; lia|]. split; [by apply insert_subseteq|]. split; [done|]. split.
    { intros a Ha. cbn in *. rewrite lookup_insert_ne by lia. apply Hbd. lia. }
    intros Hv. apply map_Forall_insert_2; [done|]. intros i y Hy.
    eapply id_inode_ok_mono; [by apply insert_subseteq| |exact (Hv i y Hy)].
    intros a xs Ha. exists []. by rewrite app_nil_r.
  - eexists. rewrite lookup_insert_eq. do 6 (split; [done|]).
    cbn [enc_node] in Hm. rewrite !mem_has_app in Hm.
    destruct Hm as (_ & _ & Hm). rewrite words_length in Hm. cbn [impl iset_impl].
    intros j b Hj. rewrite <- (Hm j b Hj). f_equal.
    unfold zlen. rewrite length_app. simpl length. lia.
Qed.

(** What the parser does with every entry of a directory. *)
Definition parse_node (fuel : nat) (t : node) (a : Z) : M fsys Z :=
  match t with NFile _ _ => parse_file a disk | NDir _ _ => parse_dir fuel a disk end.

Definition parses (t : node) : Prop := forall fuel off more s,
  (weight t <= fuel)%nat -> at_image s off more t -> node_ok t -> bounded s ->
  exists i s', parse_node fuel t (disk + off) s = Ok (i, s') /\ extends s s' /\
    carries (brk s) (inodes s') (lists s') (mem s') i t.

(** The entries of a directory are appended to its list in their order. *)
Lemma parse_entries_run es : Forall parses es ->
  forall fuel off s k xs0,
  (weights es < fuel)%nat -> 0 < off -> disk + off + nsizes es < 2 ^ 32 ->
  mem_has (mem s) (disk + off) (enc_nodes off es) -> Forall node_ok es -> bounded s ->
  lists s !! k = Some xs0 ->
  exists s' xs,
    parse_entries fuel (match es with [] => 0 | _ => disk + off end) disk k s = Ok (tt, s') /\
    grows k s s' /\ lists s' !! k = Some (xs0 ++ xs) /\
    Forall2 (carries (brk s) (inodes s') (lists s') (mem s')) xs es.
Proof.
  induction 1 as [|e es He _ IH]; intros fuel off s k xs0 Hf Ho Hbd Hm Hok Hb Hk;
    (destruct fuel as [|fuel]; [lia|]); cbn [parse_entries].
  - exists s, []. rewrite Z.eqb_refl, app_nil_r. split; [done|]. split; [|done].
    split; [done|]. split; [lia|]. done.
  - rewrite nsizes_cons in Hbd. cbn [weights foldr] in Hf. fold (weights es) in Hf.
    pose proof (nsize_pos e) as Hpe. pose proof (nsizes_nonneg es) as Hpes.
    cbn [enc_nodes] in Hm. apply mem_has_app in Hm as [Hme Hmes]. rewrite enc_length in Hmes.
    inv Hok. set (more := match es with [] => false | _ => true end) in *.
    assert (at_image s off more e) as Hat by (split_and!; [lia|lia|done]).
    destruct (Z.eqb_spec (disk + off) 0); [lia|].
    rewrite (run_bind _ _ s _ s (proj1 (at_image_entry s _ _ _ Hat))).
    destruct (He fuel off more s) as (i & s1 & Hrun & Hg1 & Hc1); [lia|done..|].
    cbn [e_type e_next entry_of].
    rewrite (run_bind _ _ s i s1)
      by (rewrite <- Hrun; destruct e; cbn [node_type parse_node]; by rewrite ?Z.eqb_refl).
    pose proof Hg1 as (Hr1 & Hb1 & Hi1 & Hl1 & Hbd1 & Hv1).
    assert (k < brk s) as Hkb.
    { destruct (Z.lt_ge_cases k (brk s)) as [|Hge]; [done|].
      destruct (Hb k Hge) as [_ HN]. congruence. }
    assert (lists s1 !! k = Some xs0) as Hk1 by (by eapply lookup_weaken).
    rewrite (run_bind _ _ s1 xs0 s1) by (by apply list_at_run).
    rewrite (run_bind _ _ s1 tt _ eq_refl).
    set (s2 := set_lists (<[k := xs0 ++ [i]]> (lists s1)) s1).
    assert (grows k s1 s2) as Hg2.
    { split; [done|]. split; [cbn; lia|]. split; [done|]. split.
      - intros a xs Ha Hxs. cbn. by rewrite lookup_insert_ne.
      - split.
        + intros a Ha. cbn in *. destruct (Hbd1 a Ha). split; [done|].
          rewrite lookup_insert_ne by lia. done.
        + intros Hv j y Hy. apply (id_inode_ok_mono s1 s2); [done| |exact (Hv j y Hy)].
          intros a xs Ha. cbn. destruct (decide (a = k)) as [->|].
          * exists [i]. rewrite lookup_insert_eq. split; [congruence|]. constructor; [|done].
            by apply (carries_live _ _ _ _ _ _ Hc1).
          * exists []. rewrite lookup_insert_ne, app_nil_r by done. done. }
    assert (grows k s s2) as Hg by (eapply grows_trans; [by apply extends_grows|done]).
    destruct (IH fuel (off + nsize e) s2 k (xs0 ++ [i])) as (s3 & xs & Hrun3 & Hg3 & Hk3 & Hc3);
      [lia|lia|lia| |done|apply Hg2|apply lookup_insert_eq|].
    { destruct Hg as ((-> & _) & _). by replace (disk + (off + nsize e)) with (disk + off + nsize e) by lia. }
    exists s3, (i :: xs). split.
    { rewrite <- Hrun3. f_equal. subst more. destruct es; [done|]. rewrite id_get_in by (rewrite ?nsizes_cons in *; lia). done. }
    split; [by eapply grows_trans|]. split; [rewrite Hk3, <- app_assoc; done|].
    constructor.
    + destruct Hg3 as ((-> & _) & _ & Hi3 & Hl3 & _ & _). change (mem s2) with (mem s1).
      eapply carries_mono; [exact Hi3|reflexivity| |exact Hc1].
      intros a ys Ha Hys. apply Hl3; [lia|]. cbn. by rewrite lookup_insert_ne by lia.
    + eapply Forall2_impl; [exact Hc3|]. intros j t.
      apply carries_mono; [done| |done]. cbn. lia.
Qed.

Lemma node_oks es : foldr (fun e p => node_ok e /\ p) True es <-> Forall node_ok es.
Proof. induction es as [|e es IH]; [by split|]. simpl. rewrite IH, Forall_cons. done. Qed.

Lemma parse_dir_run n es : Forall parses es -> parses (NDir n es).
Proof.
  intros Hes fuel off more s Hf Hat Hok Hb. cbn [weight] in Hf.
  destruct fuel as [|fuel]; [lia|]. cbn [parse_node parse_dir].
  pose proof Hat as (Ho & Hbd & Hm). destruct Hok as (Hs & _ & Hoks%node_oks).
  change (foldr _ O es) with (weights es) in Hf.
  assert (nsize (NDir n es) = 20 + (zlen n + 1) + nsizes es) as Hsz by done.
  pose proof (nsizes_nonneg es). assert (0 <= zlen n) by (unfold zlen; lia).
  rewrite (run_bind _ _ s _ s (proj1 (at_image_entry s _ _ _ Hat))).
  cbn [e_type entry_of node_type]. change (negb (1 =? ID_TYPE_DIR)) with false. cbv iota.
  rewrite (run_bind _ _ s _ _ (new_inode_run s off more _ Hat Hs)).
  set (x := blank_inode off (NDir n es)). set (k := brk s + 1).
  set (s1 := set_inodes _ _).
  rewrite (run_bind _ _ s1 k (set_brk (k + 1) s1)) by done.
  rewrite (run_bind _ _ _ tt _ eq_refl).
  rewrite (run_bind _ _ _ _ _ (inode_at_run _ _ _ (lookup_insert_eq _ _ _))).
  rewrite (run_bind _ _ _ tt _ eq_refl).
  set (x' := iset_impl k (iset_flags FS_DIR x)). set (s2 := set_inodes _ _).
  assert (inodes s2 = <[brk s := x']> (inodes s)) as Hi2
    by (subst s2; cbn; by rewrite insert_insert_eq).
  assert (lists s2 = <[k := []]> (lists s)) as Hl2 by done.
  assert (bounded s2) as Hb2.
  { intros a Ha. rewrite Hi2, Hl2. assert (brk s + 2 <= a) by (cbn in Ha; lia).
    rewrite !lookup_insert_ne by lia. apply Hb. lia. }
  destruct (bounded_brk s Hb) as [Hfi _].
  assert (lists s !! k = None) as Hfl by (apply Hb; lia).
  rewrite enc_node_dir in Hm. rewrite !mem_has_app in Hm. destruct Hm as (_ & _ & Hm).
  destruct (parse_entries_run es Hes fuel (off + 20 + (zlen n + 1)) s2 k [])
    as (s3 & xs & Hrun & Hg & Hk & Hc); [lia|lia|lia| |done|done|by rewrite Hl2, lookup_insert_eq|].
  { intros j b Hj. rewrite <- (Hm j b Hj). f_equal. rewrite words_length.
    unfold zlen. rewrite length_app. simpl length. lia. }
  exists (brk s), s3. split.
  - cbn [e_count e_content entry_of node_count node_name].
    assert (forall c, (c : M fsys unit) s2 = Ok (tt, s3) -> (c;; mret (brk s)) s2 = Ok (brk s, s3))
      as Hseq by (intros c Hc'; by rewrite (run_bind _ _ _ _ _ Hc')).
    apply Hseq. destruct es as [|e es].
    + cbn. destruct fuel; [lia|]. cbn in Hrun. done.
    + pose proof (node_count_size (NDir n (e :: es))) as [_ Hnc]. cbn [node_count node_name] in Hnc.
      rewrite !id_get_in by (cbn [length] in *; lia).
      destruct (Z.gtb_spec (disk + Z.of_nat (length (e :: es))) 0); [|cbn in *; lia].
      done.
  - destruct Hg as (Hr & Hbk & Hi & Hl & Hbd3 & Hv3). rewrite Hi2 in Hi.
    assert (inodes s ⊆ inodes s3) by (etrans; [by apply insert_subseteq|exact Hi]).
    split.
    + split; [done|]. split; [cbn in Hbk; lia|]. split; [done|]. split.
      { apply map_subseteq_spec. intros a ys Ha. apply Hl; [congruence|].
        rewrite Hl2, lookup_insert_ne by congruence. done. }
      split; [done|]. intros Hv. apply Hv3. unfold id_inv. rewrite Hi2.
      apply map_Forall_insert_2.
      { unfold id_inode_ok, id_dir_ok. cbn [i_ops i_flags impl x' x blank_inode iset_impl iset_flags].
        rewrite Hl2, lookup_insert_eq. done. }
      intros i y Hy. eapply id_inode_ok_mono; [| |exact (Hv i y Hy)].
      * rewrite Hi2. by apply insert_subseteq.
      * intros a ys Ha. exists []. rewrite app_nil_r, Hl2, lookup_insert_ne by congruence. done.
    + apply carries_dir. exists x'. split; [eapply lookup_weaken; [|exact Hi]; apply lookup_insert_eq|].
      do 4 (split; [done|]). split; [cbn; lia|]. exists xs. split; [done|].
      eapply Forall2_impl; [exact Hc|]. intros j t. apply carries_mono; [done| |done]. cbn. lia.
Qed.

Lemma parses_all t : parses t.
Proof.
  induction t as [n c|n es IH] using node_ind'; [|by apply parse_dir_run].
  intros fuel off more s _ Hat Hok Hb.
  destruct (parse_file_run s off more n c Hat Hok Hb) as (s' & ? & ? & ?). eauto.
Qed.
End parser.

Lemma weight_size t : Z.of_nat (weight t) < nsize t.
Proof.
  induction t as [n c|n es IH] using node_ind'; cbn [weight nsize]; unfold zlen, sizeof_id_entry; [lia|].
  change (foldr _ O es) with (weights es). change (foldr _ 0 es) with (nsizes es).
  assert (Z.of_nat (weights es) <= nsizes es); [|lia].
  induction IH as [|e es He _ IHes]; [done|]. rewrite nsizes_cons.
  change (weights (e :: es)) with (S (weight e + weights es)). lia.
Qed.

(** Booting from an image: the parser ends, and the root it answers carries the tree. *)
Lemma init_initrd_run s disk n es fuel :
  0 < disk -> disk + zlen (enc_image (NDir n es)) < 2 ^ 32 ->
  mem_has (mem s) disk (enc_image (NDir n es)) -> node_ok (NDir n es) -> bounded s ->
  fslist s = None -> nsize (NDir n es) <= Z.of_nat fuel ->
  exists root s', init_initrd fuel disk s = Ok (root, s') /\ mem s' = mem s /\
    inodes s ⊆ inodes s' /\ bounded s' /\ (id_inv s -> id_inv s') /\
    (exists l, fslist s' = Some l /\ lists s' !! l = Some [ID_TYPE]) /\
    carries (brk s) (inodes s') (lists s') (mem s') root (NDir n es).
Proof.
  intros Hd Hlen Hm Hok Hb Hfs Hf. unfold enc_image in *. cbn [app] in Hm, Hlen.
  do 4 (apply mem_has_cons in Hm as [? Hm]).
  replace (disk + 1 + 1 + 1 + 1) with (disk + 4) in Hm by lia.
  unfold zlen in Hlen. cbn [length] in Hlen. rewrite !Nat2Z.inj_succ in Hlen.
  change (Z.of_nat (length (enc_node sizeof_id_header false (NDir n es))))
    with (zlen (enc_node sizeof_id_header false (NDir n es))) in Hlen. rewrite enc_length in Hlen.
  assert (at_image disk s sizeof_id_header false (NDir n es)) as Hat
    by (split_and!; [done|unfold sizeof_id_header; lia|done]).
  pose proof (weight_size (NDir n es)) as Hw.
  destruct (parses_all disk Hd (NDir n es) fuel sizeof_id_header false s ltac:(lia) Hat Hok Hb)
    as (root & s1 & Hrun & (Hr & Hbk & Hi & Hl & Hbd & Hv) & Hc).
  destruct Hr as (Hmem & _ & _ & _ & _ & Hfsl & _).
  unfold init_initrd, check_img.
  rewrite (run_bind _ _ s true s).
  2:{ rewrite (run_bind _ _ s _ s (load_byte_has s disk _ ltac:(eassumption))).
      rewrite (run_bind _ _ s _ s (load_byte_has s (disk + 1) _ ltac:(eassumption))).
      rewrite (run_bind _ _ s _ s (load_byte_has s (disk + 2) ID_MAGIC2
        ltac:(by replace (disk + 2) with (disk + 1 + 1) by lia))).
      rewrite (run_bind _ _ s _ s (load_byte_has s (disk + 3) ID_VERSION
        ltac:(by replace (disk + 3) with (disk + 1 + 1 + 1) by lia))).
      done. }
  cbn [negb]. cbn [parse_node] in Hrun. rewrite (run_bind _ _ _ _ _ Hrun).
  set (l := brk s1).
  set (s2 := set_lists (<[l := [ID_TYPE]]> (<[l := []]> (lists s1)))
     (set_fslist (Some l) (set_lists (<[l := []]> (lists s1)) (set_brk (l + 1) s1)))).
  exists root, s2. split.
  { rewrite (run_bind _ _ s1 0 s2); [done|]. unfold vfs_register.
    rewrite (run_bind _ _ s1 s1 s1 eq_refl), Hfsl, Hfs.
    rewrite (run_bind _ _ s1 tt (set_fslist (Some l)
      (set_lists (<[l := []]> (lists s1)) (set_brk (l + 1) s1)))) by done.
    rewrite (run_bind _ _ _ _ _ eq_refl), (run_bind _ _ _ l _ eq_refl).
    cbn [fslist set_fslist]. by rewrite (run_bind _ _ _ _ _ (list_at_run _ _ _ (lookup_insert_eq _ _ _))). }
  cbn [mem inodes lists fslist s2 set_lists set_fslist set_brk].
  split; [done|]. split; [done|]. split.
  { intros a Ha. cbn in *. destruct (Hbd a) as [? ?]; [lia|]. rewrite !lookup_insert_ne by lia. done. }
  split.
  { intros Hi0 j y Hy. apply (id_inode_ok_mono s1 s2); [done| |exact (Hv Hi0 j y Hy)].
    intros a xs Hxs. exists []. destruct (Hbd l) as [_ HN]; [unfold l; lia|].
    cbn. rewrite app_nil_r, !lookup_insert_ne by congruence. done. }
  split; [exists l; split; [done|apply lookup_insert_eq]|].
  eapply carries_mono; [reflexivity|reflexivity| |exact Hc].
  intros a xs Ha Hxs. assert (a <> l) as Hne.
  { intros ->. destruct (Hbd l) as [_ HN]; [unfold l; lia|]. congruence. }
  by rewrite !lookup_insert_ne by done.
Qed.

(** ** The driver keeps the interface of path lookup *)

Definition named (s : fsys) (n : cstring) (j : Z) : bool :=
  match inodes s !! j with Some y => bool_decide (i_name y = n) | None => false end.
Fixpoint find_named (s : fsys) (xs : list Z) (n : cstring) : option Z :=
  match xs with
  | [] => None
  | j :: xs => if named s n j then Some j else find_named s xs n
  end.

Definition id_wf (s : fsys) : Prop := map_Forall (fun _ x => id_dir_ok s x = true) (inodes s).

Lemma find_name_run s xs n :
  forallb (fun j => bool_decide (is_Some (inodes s !! j))) xs = true ->
  find_name xs n s = Ok (find_named s xs n, s).
Proof.
  induction xs as [|j xs IH]; intros Hxs; [done|]. cbn [find_name find_named forallb] in *.
  apply andb_true_iff in Hxs as [[y Hy]%bool_decide_eq_true Hxs].
  rewrite (run_bind _ _ _ _ _ (inode_at_run _ _ _ Hy)). unfold named. rewrite Hy.
  case_decide; [by rewrite bool_decide_true|]. rewrite bool_decide_false by done. by apply IH.
Qed.

Lemma find_named_in s xs n j : find_named s xs n = Some j -> j ∈ xs.
Proof.
  induction xs as [|k xs IH]; [done|]. cbn [find_named].
  destruct (named s n k); [intros [= ->]; left|right; auto].
Qed.

Definition id_child (s : fsys) (d : Z) (n : cstring) : option Z :=
  x ← inodes s !! d; xs ← lists s !! impl x;
  if bool_decide (i_ops x = Some ID_IOPS) && bisset (i_flags x) FS_DIR
  then find_named s xs n else None.

#[export] Program Instance initrd_dirs root : DirLaws (initrd_drivers root) := {|
  dir_child := id_child;
  driver_wf := id_wf;
|}.
Next Obligation.
  intros root s d x f n Hwf Hx Hdir Hop.
  assert (i_ops x = Some ID_IOPS /\ f = id_finddir) as [Hops ->].
  { unfold inode_op in Hop. destruct (i_ops x) as [o|]; [|done]. cbn in Hop.
    destruct (Z.eqb_spec o ID_IOPS) as [Ho|Ho]; cbn in Hop; [|done].
    rewrite Ho. split; [done|congruence]. }
  pose proof (Hwf d x Hx) as Hdx. unfold id_dir_ok in Hdx. unfold id_child, id_finddir.
  rewrite bool_decide_true in Hdx by done. rewrite Hdir in Hdx. cbn [andb] in Hdx.
  destruct (lists s !! impl x) as [xs|] eqn:Hl; [|done].
  rewrite Hx. cbn [mbind option_bind]. rewrite Hl, Hdir. cbn [mbind option_bind].
  rewrite bool_decide_true by done. cbn [andb].
  rewrite (run_bind _ _ _ _ _ (inode_at_run _ _ _ Hx)),
    (run_bind _ _ _ _ _ (list_at_run _ _ _ Hl)), (run_bind _ _ _ _ _ (find_name_run _ _ _ Hdx)).
  destruct (find_named s xs n) as [j|].
  - exists (fs_error s). rewrite set_error_same. done.
  - eexists. split; [done|]. by intros [? ?].
Qed.
Next Obligation.
  intros root s d n j Hwf. unfold id_child. destruct (inodes s !! d) as [x|] eqn:Hx; [|done].
  cbn [mbind option_bind]. destruct (lists s !! impl x) as [xs|] eqn:Hl; [|done].
  cbn [mbind option_bind]. pose proof (Hwf d x Hx) as Hdx. unfold id_dir_ok in Hdx. rewrite Hl in Hdx.
  destruct (_ && _); [|done]. intros Hj%find_named_in.
  rewrite forallb_forall in Hdx. apply list_elem_of_In in Hj.
  by apply Hdx, bool_decide_eq_true in Hj.
Qed.

(** ** Booting

    [init_initrd] and the mount of kmain.c: [vfs_gettype("initrd")] mounted on the root. *)

Definition initrd_name : cstring :=
  map (fun a => Z.of_N (Ascii.N_of_ascii a)) (String.list_ascii_of_string "initrd").

Definition mount_root (root : Z) : M fsys Z :=
  t ← @vfs_gettype (initrd_drivers (Some root)) (Some initrd_name);
  @vfs_mount (initrd_drivers (Some root)) t (Some fs_root) None FSM_READ.

Definition boot_fs (fuel : nat) (disk : Z) : M fsys (Z * Z) :=
  root ← init_initrd fuel disk;
  err ← mount_root root;
  mret (root, err).

(** The tree entry a list of names leads to. *)
Fixpoint entry_named (es : list node) (n : cstring) : option node :=
  match es with
  | [] => None
  | e :: es => if bool_decide (node_name e = n) then Some e else entry_named es n
  end.
Fixpoint tree_find (t : node) (ns : list cstring) : option node :=
  match ns with
  | [] => Some t
  | n :: ns => match t with
               | NFile _ _ => None
               | NDir _ es => e ← entry_named es n; tree_find e ns
               end
  end.

Lemma find_named_tree lo s xs es n :
  Forall2 (carries lo (inodes s) (lists s) (mem s)) xs es ->
  match entry_named es n with
  | Some e => exists j, find_named s xs n = Some j /\ carries lo (inodes s) (lists s) (mem s) j e
  | None => find_named s xs n = None
  end.
Proof.
  induction 1 as [|j e xs es Hj _ IH]; [done|]. cbn [entry_named find_named].
  assert (named s n j = bool_decide (node_name e = n)) as ->.
  { unfold named. destruct e; destruct Hj as (x & -> & <- & _); done. }
  case_bool_decide; [eauto|done].
Qed.

Lemma carries_flags lo s i t x :
  carries lo (inodes s) (lists s) (mem s) i t -> inodes s !! i = Some x ->
  redirected x = false /\ i_ops x = Some ID_IOPS /\
  bisset (i_flags x) FS_DIR = match t with NFile _ _ => false | NDir _ _ => true end.
Proof.
  destruct t; intros (y & Hy & _ & Ho & _ & Hf & _) Hx; simplify_eq; unfold redirected;
    rewrite Hf, Ho; done.
Qed.

Lemma resolve_tree root lo s b t : forall ns i,
  carries lo (inodes s) (lists s) (mem s) i t ->
  match tree_find t ns with
  | Some t' => exists j, @resolve (initrd_drivers root) _ s b i ns = Some j /\
                 carries lo (inodes s) (lists s) (mem s) j t'
  | None => @resolve (initrd_drivers root) _ s b i ns = None
  end.
Proof.
  intros ns. revert t. induction ns as [|n ns IH]; intros t i Hc;
    destruct (carries_live _ _ _ _ _ _ Hc) as [x Hx];
    destruct (carries_flags _ _ _ _ _ Hc Hx) as (Hr & Ho & Hd); cbn [tree_find resolve].
  - rewrite Hx. cbn [mbind option_bind]. apply orb_false_iff in Hr as [_ ->]. eauto.
  - unfold is_symlink, dir_of. rewrite Hx. cbn [mbind option_bind]. rewrite Hr, Hd.
    apply orb_false_iff in Hr as [-> _]. destruct t as [m c|m es]; [done|]. cbn [mbind option_bind].
    unfold child. rewrite Hx. cbn [mbind option_bind]. rewrite Hd.
    unfold inode_op. rewrite Ho. cbn [mbind option_bind inode_table initrd_drivers].
    change (ID_IOPS =? ID_IOPS) with true. cbn [op_finddir id_iops dir_child initrd_dirs].
    apply carries_dir in Hc as (y & Hy & _ & _ & _ & _ & _ & xs & Hxs & Hall).
    assert (y = x) as -> by congruence.
    unfold id_child. rewrite Hx. cbn [mbind option_bind]. rewrite Hxs. cbn [mbind option_bind].
    rewrite Hd, bool_decide_true by done. cbn [andb].
    pose proof (find_named_tree _ _ _ _ n Hall) as Hf.
    destruct (entry_named es n) as [e|]; [|by rewrite Hf].
    destruct Hf as (j & -> & Hj). cbn [mbind option_bind]. by apply IH.
Qed.

(** The root inode with [root] mounted on it. *)
Definition root_mounted (root : Z) : inode :=
  iset_link (Some root) (iset_flags (bset FS_DIR FS_MOUNTP) root_inode).

Lemma mount_root_run s root l :
  fslist s = Some l -> lists s !! l = Some [ID_TYPE] -> inodes s !! fs_root = Some root_inode ->
  exists s', mount_root root s = Ok (0, s') /\ mem s' = mem s /\ lists s' = lists s /\
    inodes s' = <[fs_root := root_mounted root]> (inodes s).
Proof.
  intros Hl Hxs Hr. unfold mount_root.
  assert (@vfs_gettype (initrd_drivers (Some root)) (Some initrd_name) s = Ok (Some ID_TYPE, s)) as Hg.
  { unfold vfs_gettype. rewrite (run_bind _ _ s s s eq_refl), Hl.
    rewrite (run_bind _ _ _ _ _ (list_at_run _ _ _ Hxs)). done. }
  rewrite (run_bind _ _ _ _ _ Hg). unfold vfs_mount. cbv beta iota.
  rewrite (run_bind _ _ _ _ _ (inode_at_run _ _ _ Hr)).
  change (bnotset (i_flags root_inode) FS_DIR) with false. cbv iota.
  change (bisset (t_flags (type_at ID_TYPE)) FST_NEED_DEV) with false. cbn [andb].
  rewrite (run_bind _ _ s (brk s) (set_brk (brk s + 1) s)) by done.
  rewrite (run_bind _ _ _ tt _ eq_refl), (run_bind _ _ _ 0 _ eq_refl). cbn [truth Z.eqb negb].
  match goal with |- exists s', (_ ≫= _) ?s2 = _ /\ _ =>
    rewrite (run_bind _ _ _ _ _ (inode_at_run s2 fs_root root_inode Hr)) end.
  rewrite (run_bind _ _ _ tt _ eq_refl), (run_bind _ _ _ _ _ eq_refl).
  set (b := MkSuper (Some root) (bclr FSM_READ (Z.lor FSM_WRITE FSM_EXEC)) (Some ID_SBOPS)).
  match goal with |- exists s', (_ ≫= _) ?s2 = _ /\ _ => set (s1 := s2) end.
  rewrite (run_bind _ _ s1 b s1) by (cbn; by rewrite lookup_insert_eq).
  rewrite (run_bind _ _ _ _ _ (inode_at_run _ _ _ (lookup_insert_eq _ _ _))).
  eexists. split; [reflexivity|]. cbn. rewrite insert_insert_eq. done.
Qed.

Lemma resolve_mounted r lo s b root n es ns :
  inodes s !! fs_root = Some (root_mounted root) ->
  carries lo (inodes s) (lists s) (mem s) root (NDir n es) ->
  @resolve (initrd_drivers r) _ s b fs_root ns = @resolve (initrd_drivers r) _ s b root ns.
Proof.
  intros Hr Hc. destruct (carries_live _ _ _ _ _ _ Hc) as [x Hx].
  destruct (carries_flags _ _ _ _ _ Hc Hx) as (Hrd & _ & Hd).
  pose proof Hrd as [Hsy Hmo]%orb_false_iff.
  destruct ns as [|m ns]; cbn [resolve].
  - rewrite Hr, Hx. cbn [mbind option_bind]. rewrite Hmo. done.
  - unfold is_symlink, dir_of. rewrite Hr, Hx. cbn [mbind option_bind].
    rewrite Hsy, Hrd, Hd. done.
Qed.

(** An inode of another driver is not part of a tree. *)
Lemma carries_other_root lo inos lsts m k y z i t :
  inos !! k = Some y -> i_ops y = None ->
  carries lo inos lsts m i t -> carries lo (<[k := z]> inos) lsts m i t.
Proof.
  intros Hk Ho. revert i. induction t as [n c|n es IH] using node_ind'; intros i.
  - intros (x & Hx & Hn & Hops & Hrest). exists x.
    rewrite lookup_insert_ne by congruence. done.
  - rewrite !carries_dir. intros (x & Hx & Hn & Hops & Hlk & Hfl & Hlo & xs & Hxs & Hall).
    exists x. rewrite lookup_insert_ne by congruence. do 6 (split; [done|]).
    exists xs. split; [done|].
    revert Hall IH. clear. intros Hall. induction Hall; intros IH; inv IH; constructor; eauto.
Qed.

Lemma mounted_wf r s s1 root lo n es :
  id_inv s1 -> inodes s = <[fs_root := root_mounted root]> (inodes s1) -> lists s = lists s1 ->
  is_Some (inodes s1 !! fs_root) ->
  carries lo (inodes s) (lists s) (mem s) root (NDir n es) -> @fs_wf _ (initrd_dirs r) s.
Proof.
  intros Hv Hi Hl [y0 Hy0] Hc. split; [|split].
  - cbn [driver_wf initrd_dirs]. intros i x Hx. rewrite Hi in Hx.
    apply lookup_insert_Some in Hx as [[<- <-]|[Hne Hx]]; [done|].
    specialize (Hv i x Hx). cbn beta in Hv. unfold id_inode_ok in Hv.
    apply andb_true_iff in Hv as [Hv _]. unfold id_dir_ok in *. rewrite Hl.
    destruct (_ && _); [|done]. destruct (lists s1 !! impl x) as [xs|]; [|done].
    rewrite forallb_forall in *. intros j Hj. specialize (Hv j Hj). cbn beta in Hv.
    apply bool_decide_eq_true in Hv. apply bool_decide_eq_true. rewrite Hi.
    destruct (decide (j = fs_root)) as [->|]; [rewrite lookup_insert_eq|rewrite lookup_insert_ne]; eauto.
  - rewrite Hi, lookup_insert_eq. eauto.
  - intros i x Hx Hrd. rewrite Hi in Hx. apply lookup_insert_Some in Hx as [[<- <-]|[Hne Hx]].
    + exists root. split; [done|]. by eapply carries_live.
    + specialize (Hv i x Hx). cbn beta in Hv. unfold id_inode_ok in Hv.
      rewrite Hrd, andb_false_r in Hv. done.
Qed.

(** C22: Booting from the image of a tree mounts that tree: [init_initrd] ends, mounting it on
    the root succeeds, and afterwards [vfs_lookup] answers for every absolute path the inode
    that carries the file or directory the tree has there, or NULL where it has none. *)
Theorem boot_fs_lookup s disk n es fuel :
  inodes s = {[fs_root := root_inode]} -> lists s = ∅ -> fslist s = None -> fs_root < brk s ->
  0 < disk -> disk + zlen (enc_image (NDir n es)) < 2 ^ 32 ->
  mem_has (mem s) disk (enc_image (NDir n es)) -> node_ok (NDir n es) ->
  nsize (NDir n es) <= Z.of_nat fuel ->
  exists root s', boot_fs fuel disk s = Ok ((root, 0), s') /\
  forall path, string_ok path -> char_at path 0 = SLASH -> Forall short (names path) ->
    match tree_find (NDir n es) (names path) with
    | Some t => exists j,
        @vfs_lookup (initrd_drivers (Some root)) (Some path) (Some fs_root) s' = Ok (Some j, s') /\
        carries (brk s) (inodes s') (lists s') (mem s') j t
    | None => exists e,
        @vfs_lookup (initrd_drivers (Some root)) (Some path) (Some fs_root) s' =
          Ok (None, set_error e s')
    end.
Proof.
  intros Hi0 Hl0 Hfs Hbrk Hd Hlen Hm Hok Hf.
  assert (bounded s) as Hb.
  { intros a Ha. rewrite Hi0, Hl0, lookup_singleton_ne by lia. done. }
  destruct (init_initrd_run s disk n es fuel Hd Hlen Hm Hok Hb Hfs Hf)
    as (root & s1 & Hrun & Hm1 & Hi1 & _ & Hv1 & (l & Hl & Hll) & Hc1).
  assert (inodes s1 !! fs_root = Some root_inode) as Hr1
    by (eapply lookup_weaken; [|exact Hi1]; by rewrite Hi0, lookup_singleton_eq).
  destruct (mount_root_run s1 root l Hl Hll Hr1) as (s2 & Hmnt & Hm2 & Hl2 & Hi2).
  exists root, s2. split.
  { unfold boot_fs. by rewrite (run_bind _ _ _ _ _ Hrun), (run_bind _ _ _ _ _ Hmnt). }
  assert (root <> fs_root) as Hne.
  { intros ->. destruct Hc1 as (x & Hx & _ & Ho & _). rewrite Hr1 in Hx. by simplify_eq. }
  assert (carries (brk s) (inodes s2) (lists s2) (mem s2) root (NDir n es)) as Hc2
    by (rewrite Hi2, Hl2, Hm2; by apply (carries_other_root _ _ _ _ _ root_inode)).
  assert (@fs_wf _ (initrd_dirs (Some root)) s2) as Hwf.
  { eapply mounted_wf; [|exact Hi2|exact Hl2|eauto|exact Hc2]. apply Hv1.
    unfold id_inv. rewrite Hi0. by apply map_Forall_singleton. }
  intros path Hp Hslash Hsh.
  destruct (vfs_lookup_run s2 path fs_root Hwf) as (e & He & Hsame); [|done..|].
  { rewrite Hi2, lookup_insert_eq. eauto. }
  assert (origin path fs_root = fs_root) as Horg by (unfold origin; by rewrite Hslash).
  rewrite Horg, (resolve_mounted _ _ _ _ root n es) in He, Hsame
    by (done || by rewrite Hi2, lookup_insert_eq).
  pose proof (resolve_tree (Some root) _ s2 19 _ (names path) root Hc2) as Hres.
  destruct (tree_find (NDir n es) (names path)) as [t|].
  - destruct Hres as (j & Hj & Hcj). rewrite Hj in He, Hsame. exists j.
    rewrite Hsame, set_error_same in He by eauto. done.
  - rewrite Hres in He. eauto.
Qed.
