(* ===== verification/InitrdFiles.v ===== *)
(** * Files of the ram disk through the system calls

    The descriptors of fs.c on top of the driver of [Initrd]: opening, reading and closing
    files of a mounted image. *)

From S2P Require Import Prelude Vfs Initrd.

(** ** Reading files *)

Lemma store_bytes_run bs : forall a s,
  (forall k, (k < length bs)%nat -> is_Some (mem s !! (a + Z.of_nat k))) ->
  exists m, store_bytes a bs s = Ok (tt, set_mem m s) /\ mem_has m a bs /\
    (forall b, ~ a <= b < a + zlen bs -> m !! b = mem s !! b).
Proof.
  induction bs as [|b bs IH]; intros a s Hin.
  - exists (mem s). destruct s. split; [done|]. split; [|done]. intros k c [=].
  - destruct (Hin 0%nat) as [b0 Hb0]; [simpl; lia|]. rewrite Z.add_0_r in Hb0.
    cbn [store_bytes]. rewrite (run_bind _ _ s s s eq_refl), (run_bind _ _ s b0 s) by (by rewrite Hb0).
    set (s1 := set_mem (<[a := b]> (mem s)) s). rewrite (run_bind _ _ s tt s1) by done.
    destruct (IH (a + 1) s1) as (m & Hrun & Hm & Hout).
    { intros k Hk. cbn. rewrite lookup_insert_ne by lia.
      destruct (Hin (S k)) as [c Hc]; [simpl; lia|]. exists c. rewrite <- Hc. f_equal. lia. }
    exists m. split; [exact Hrun|]. split.
    + apply mem_has_cons. split; [|done]. rewrite Hout by lia. cbn. apply lookup_insert_eq.
    + intros c Hc. unfold zlen in *. cbn [length] in Hc. rewrite Hout by lia. cbn.
      by rewrite lookup_insert_ne by lia.
Qed.

Lemma mem_has_sub m a bs off k :
  mem_has m a bs -> mem_has m (a + Z.of_nat off) (take k (drop off bs)).
Proof.
  intros Hm j b Hj. apply lookup_take_Some in Hj as [Hj _]. rewrite lookup_drop in Hj.
  rewrite <- Z.add_assoc, <- Nat2Z.inj_add. by apply Hm.
Qed.

(** The buffer at [a] has room for [n] bytes. *)
Definition room (s : fsys) (a : Z) (n : nat) : Prop :=
  forall k, (k < n)%nat -> is_Some (mem s !! (a + Z.of_nat k)).

Lemma vfs_read_run r lo s f y i name c buffer count offset :
  let k := Z.min count (zlen c - offset) in
  filetab s !! f = Some y -> f_inode y = Some i -> fops y = Some ID_FOPS ->
  carries lo (inodes s) (lists s) (mem s) i (NFile name c) ->
  (forall x, inodes s !! i = Some x -> 0 <= impl x /\ impl x + zlen c < 2 ^ 32) ->
  0 <= offset <= zlen c -> 0 <= count -> offset + count < 2 ^ 32 -> zlen c < 2 ^ 31 ->
  room s buffer (Z.to_nat k) ->
  exists m, @vfs_read (initrd_drivers r) (Some f) buffer count offset s =
      Ok (k, set_filetab (<[f := fset_pos (u32 (u32 (pos y + k) + k)) y]> (filetab s)) (set_mem m s)) /\
    mem_has m buffer (take (Z.to_nat k) (drop (Z.to_nat offset) c)) /\
    (forall b, ~ buffer <= b < buffer + k -> m !! b = mem s !! b).
Proof.
  intros k Hy Hi Hops Hc Himpl Hoff Hcnt Hov Hlen Hroom.
  destruct Hc as (x & Hx & _ & _ & _ & _ & Hl & Hm). destruct (Himpl x Hx) as [Hp0 Hp1].
  set (data := take (Z.to_nat k) (drop (Z.to_nat offset) c)).
  assert (length data = Z.to_nat k) as Hld.
  { subst data. rewrite length_take, length_drop. unfold zlen in *. lia. }
  assert (zlen data = k) as Hzk by (unfold zlen in *; lia).
  destruct (store_bytes_run data buffer s) as (m & Hst & Hsm & Hout); [by rewrite Hld|].
  rewrite Hzk in Hout. exists m. split; [|done].
  assert (id_read f buffer count offset s =
    Ok (k, set_filetab (<[f := fset_pos (u32 (pos y + k)) y]> (filetab s)) (set_mem m s))) as Hrd.
  { unfold id_read, do_read. rewrite (run_bind _ _ _ _ _ (file_at_run _ _ _ Hy)), Hi.
    rewrite (run_bind _ _ s i s eq_refl), (run_bind _ _ _ _ _ (inode_at_run _ _ _ Hx)), Hl.
    destruct (Z.gtb_spec offset (zlen c)); [lia|].
    assert ((if u32 (offset + count) >? zlen c then zlen c - offset else count) = k) as ->.
    { rewrite u32_small by (unfold is_u32; lia). destruct (Z.gtb_spec (offset + count) (zlen c)); lia. }
    rewrite (run_bind _ _ s data s).
    2:{ rewrite <- Hld. apply load_bytes_has. rewrite u32_small by (unfold is_u32; lia).
        replace (impl x + offset) with (impl x + Z.of_nat (Z.to_nat offset)) by lia.
        by apply mem_has_sub. }
    rewrite (run_bind _ _ _ _ _ Hst), (run_bind _ _ _ _ _ (file_at_run (set_mem m s) f y Hy)).
    rewrite (run_bind _ _ _ _ _ eq_refl).
    unfold mret, M_ret. do 2 f_equal. unfold i32. rewrite u32_small by (unfold is_u32; lia).
    destruct (Z.ltb_spec k (2 ^ 31)); lia. }
  unfold vfs_read. rewrite (run_bind _ _ _ _ _ (file_at_run _ _ _ Hy)).
  unfold file_op. rewrite Hops. cbn [mbind option_bind file_table initrd_drivers].
  change (ID_FOPS =? ID_FOPS) with true. cbn [op_read id_fops].
  rewrite (run_bind _ _ _ _ _ Hrd).
  rewrite (run_bind _ _ _ _ _ (file_at_run _ _ _ (lookup_insert_eq _ _ _))).
  rewrite (run_bind _ _ _ _ _ eq_refl). cbn. rewrite insert_insert_eq. done.
Qed.

(** C25: Reading through a file descriptor of a file of the tree: [sys_readwrite] puts exactly
    the next bytes of the file, from its position on and at most up to its end, into the
    buffer, answers their number, and writes nowhere else.  The position moves by twice that
    number, once in [do_read] and once in [vfs_read]. *)
Theorem sys_read_content r lo s p d fd f y i name c kbuf count :
  let k := Z.min count (zlen c - pos y) in
  procdata s !! p = Some d -> files d !! fd = Some (Some f) -> Z.of_nat (length (files d)) < 2 ^ 31 ->
  filetab s !! f = Some y -> f_inode y = Some i -> fops y = Some ID_FOPS ->
  carries lo (inodes s) (lists s) (mem s) i (NFile name c) ->
  (forall x, inodes s !! i = Some x -> 0 <= impl x /\ impl x + zlen c < 2 ^ 32) ->
  0 <= pos y <= zlen c -> 0 <= count -> pos y + count < 2 ^ 32 -> zlen c < 2 ^ 31 ->
  room s kbuf (Z.to_nat k) ->
  exists m, @sys_readwrite (initrd_drivers r) p true (Z.of_nat fd) kbuf count s =
      Ok (k, set_filetab (<[f := fset_pos (u32 (u32 (pos y + k) + k)) y]> (filetab s)) (set_mem m s)) /\
    mem_has m kbuf (take (Z.to_nat k) (drop (Z.to_nat (pos y)) c)) /\
    (forall b, ~ kbuf <= b < kbuf + k -> m !! b = mem s !! b).
Proof.
  intros k Hp Hfd Hsmall Hy Hi Hops Hc Himpl Hoff Hcnt Hov Hlen Hroom.
  destruct (vfs_read_run r lo s f y i name c kbuf count (pos y)) as (m & Hrun & Hm); [done..|].
  exists m. split; [|exact Hm]. subst k. rewrite <- Hrun. unfold sys_readwrite, fd2file.
  pose proof (lookup_lt_Some _ _ _ Hfd) as Hlt.
  rewrite (run_bind _ _ s (Some f) s).
  - by rewrite (run_bind _ _ _ _ _ (file_at_run _ _ _ Hy)).
  - rewrite (run_bind _ _ _ _ _ (procdata_at_run _ _ _ Hp)).
    rewrite u32_small by (unfold is_u32; lia).
    destruct (Z.geb_spec (Z.of_nat fd) (Z.of_nat (length (files d)))); [lia|].
    rewrite Nat2Z.id, Hfd. done.
Qed.

Lemma free_slot_spec fs : forall i,
  match free_slot i fs with
  | Some k => exists j, k = (i + j)%nat /\ fs !! j = Some None /\
                forall l, (l < j)%nat -> exists g, fs !! l = Some (Some g)
  | None => forall l, (l < length fs)%nat -> exists g, fs !! l = Some (Some g)
  end.
Proof.
  induction fs as [|[g|] fs IH]; intros i; cbn [free_slot].
  - intros l Hl. simpl in Hl. lia.
  - specialize (IH (S i)). destruct (free_slot (S i) fs) as [k|].
    + destruct IH as (j & -> & Hj & Hall). exists (S j). split; [lia|]. split; [done|].
      intros [|l] Hl; [by exists g|]. apply Hall. lia.
    + intros [|l] Hl; [by exists g|]. apply IH. simpl in Hl. lia.
  - exists 0%nat. split; [lia|]. split; [done|]. lia.
Qed.

(** [newfd] and the store into its slot: the file gets the lowest free descriptor. *)
Lemma newfd_set s p d f :
  procdata s !! p = Some d ->
  exists fd fs, (fd ← newfd p; set_fd p fd (Some f);; mret fd) s =
      Ok (Z.of_nat fd, set_procdata (<[p := MkProcData (cwd d) fs]> (procdata s)) s) /\
    fs !! fd = Some (Some f) /\
    (forall k, (k < fd)%nat -> exists g, files d !! k = Some (Some g)) /\
    (files d !! fd = Some None \/ fd = length (files d)) /\
    (forall k o, k <> fd -> files d !! k = Some o -> fs !! k = Some o).
Proof.
  intros Hp. unfold newfd. pose proof (free_slot_spec (files d) 0) as Hfree.
  destruct (free_slot 0 (files d)) as [k|] eqn:Efs.
  - destruct Hfree as (j & -> & Hj & Hlow). rewrite Nat.add_0_l in *.
    pose proof (lookup_lt_Some _ _ _ Hj) as Hlt.
    exists j, (<[j := Some f]> (files d)). split; [|split_and!].
    + rewrite (run_bind _ _ s (Z.of_nat j) s).
      * unfold set_fd. rewrite (run_bind _ _ s tt
          (set_procdata (<[p := MkProcData (cwd d) (<[j := Some f]> (files d))]> (procdata s)) s)); [done|].
        rewrite (run_bind _ _ _ _ _ (procdata_at_run _ _ _ Hp)).
        destruct (Z.ltb_spec (Z.of_nat j) (Z.of_nat (length (files d)))); [|lia].
        rewrite Nat2Z.id. done.
      * rewrite (run_bind _ _ _ _ _ (procdata_at_run _ _ _ Hp)), Efs. done.
    + by rewrite list_lookup_insert_eq.
    + done.
    + by left.
    + intros k o Hne Hk. by rewrite list_lookup_insert_ne.
  - set (n := length (files d)) in *. set (fs0 := files d ++ replicate 32 None).
    exists n, (<[n := Some f]> fs0).
    assert (n < length fs0)%nat as Hn by (subst fs0; rewrite length_app, length_replicate; lia).
    split; [|split_and!].
    + set (s1 := set_procdata (<[p := MkProcData (cwd d) fs0]> (procdata s)) s).
      rewrite (run_bind _ _ s (Z.of_nat n) s1).
      * unfold set_fd.
        rewrite (run_bind _ _ s1 tt
          (set_procdata (<[p := MkProcData (cwd d) (<[n := Some f]> fs0)]> (procdata s)) s)); [done|].
        rewrite (run_bind _ _ _ _ _ (procdata_at_run s1 p _ (lookup_insert_eq _ _ _))). cbn [files cwd].
        destruct (Z.ltb_spec (Z.of_nat n) (Z.of_nat (length fs0))); [|lia].
        rewrite Nat2Z.id. unfold put_procdata, modify. subst s1. cbn. by rewrite insert_insert_eq.
      * rewrite (run_bind _ _ _ _ _ (procdata_at_run _ _ _ Hp)), Efs. done.
    + by rewrite list_lookup_insert_eq.
    + intros k Hk. apply Hfree. exact Hk.
    + by right.
    + intros k o Hne Hk. rewrite list_lookup_insert_ne by done. subst fs0.
      by apply lookup_app_l_Some.
Qed.

(** ** Opening files *)

(** Files are allocated below [brk]. *)
Definition files_below (s : fsys) : Prop := forall a, brk s <= a -> filetab s !! a = None.

Lemma vfs_open_run r s i x flags :
  inodes s !! i = Some x -> i_ops x = Some ID_IOPS ->
  @vfs_open (initrd_drivers r) (Some i) flags s =
    Ok (Some (brk s),
        set_filetab (<[brk s := MkFile (Some i) 0 (Some ID_FOPS)]> (filetab s))
          (set_inodes (<[i := iset_opencount (u32 (opencount x + 1)) x]> (inodes s))
             (set_brk (brk s + 1) s))).
Proof.
  intros Hx Ho. unfold vfs_open. set (f := brk s).
  rewrite (run_bind _ _ s f (set_brk (f + 1) s)) by done.
  rewrite (run_bind _ _ _ tt _ eq_refl).
  match goal with |- (_ ≫= _) ?s1 = _ =>
    rewrite (run_bind _ _ _ _ _ (inode_at_run s1 i x Hx)) end.
  unfold inode_op. rewrite Ho. cbn [mbind option_bind inode_table initrd_drivers].
  change (ID_IOPS =? ID_IOPS) with true. cbn [op_open id_iops]. unfold id_open.
  match goal with |- (_ ≫= _) ?s1 = _ =>
    rewrite (run_bind _ _ s1 0
      (set_filetab (<[f := MkFile None 0 (Some ID_FOPS)]> (filetab s1)) s1)) end.
  2:{ rewrite (run_bind _ _ _ _ _ (file_at_run _ _ _ (lookup_insert_eq _ _ _))). done. }
  cbn [truth Z.eqb negb].
  match goal with |- (_ ≫= _) ?s1 = _ =>
    rewrite (run_bind _ _ _ _ _ (inode_at_run s1 i x Hx)) end.
  rewrite (run_bind _ _ _ tt _ eq_refl).
  rewrite (run_bind _ _ _ _ _ (file_at_run _ _ _ (lookup_insert_eq _ _ _))).
  rewrite (run_bind _ _ _ tt _ eq_refl). cbn. rewrite !insert_insert_eq. done.
Qed.

(** C24: Opening a path that leads to an inode of the ram disk: [sys_open] answers the lowest
    free descriptor, which then refers to a new file at position 0 of that inode; every other
    descriptor and file is as before, and the inode counts one more open file. *)
Theorem sys_open_lowest r s p d c start path i x flags :
  procdata s !! p = Some d -> dirents s !! cwd d = Some c -> d_inode c = Some start ->
  @vfs_lookup (initrd_drivers r) (Some path) (Some start) s = Ok (Some i, s) ->
  inodes s !! i = Some x -> i_ops x = Some ID_IOPS -> files_below s ->
  exists fd fs s', @sys_open (initrd_drivers r) p path flags s = Ok (Z.of_nat fd, s') /\
    procdata s' = <[p := MkProcData (cwd d) fs]> (procdata s) /\
    fs !! fd = Some (Some (brk s)) /\
    (forall k, (k < fd)%nat -> exists g, files d !! k = Some (Some g)) /\
    (files d !! fd = Some None \/ fd = length (files d)) /\
    (forall k o, k <> fd -> files d !! k = Some o -> fs !! k = Some o) /\
    filetab s' = <[brk s := MkFile (Some i) 0 (Some ID_FOPS)]> (filetab s) /\
    filetab s !! brk s = None /\
    inodes s' = <[i := iset_opencount (u32 (opencount x + 1)) x]> (inodes s).
Proof.
  intros Hp Hd Hstart Hlook Hx Ho Hb. unfold sys_open, proc_cwd.
  rewrite (run_bind _ _ s (Some start) s).
  2:{ rewrite (run_bind _ _ _ _ _ (procdata_at_run _ _ _ Hp)),
        (run_bind _ _ _ _ _ (dirent_at_run _ _ _ Hd)), Hstart. done. }
  rewrite (run_bind _ _ _ _ _ Hlook), (run_bind _ _ _ _ _ (vfs_open_run r s i x flags Hx Ho)).
  match goal with |- context [(_ ≫= _) ?s1] => set (s1' := s1) end.
  destruct (newfd_set s1' p d (brk s) Hp) as (fd & fs & Hrun & H1 & H2 & H3 & H4).
  exists fd, fs. eexists. split; [exact Hrun|]. split_and!; try done.
  apply Hb. lia.
Qed.

(** ** A concrete boot *)

Definition str (s : String.string) : cstring :=
  map (fun a => Z.of_N (Ascii.N_of_ascii a)) (String.list_ascii_of_string s).

Definition demo_tree : node :=
  NDir (str "root") [NFile (str "a") (str "hello, kOS");
                     NDir (str "bin") [NFile (str "sh") (str "x")]].

Definition demo_disk : Z := 0x1000.
Definition demo_buffer : Z := 0x9000.

Definition bytes_from (a : Z) (bs : list Z) : gmap Z Z :=
  list_to_map (zip (seqZ a (zlen bs)) bs).

Definition demo_start : fsys :=
  MkFs (bytes_from demo_disk (enc_image demo_tree) ∪ bytes_from demo_buffer (replicate 16 0))
    {[fs_root := root_inode]} ∅ ∅ {[50 := MkDirent [SLASH] (Some fs_root)]} ∅
    {[40 := MkProcData 50 (replicate 4 None)]} None 0 100.

Definition state_of {A} (o : outcome (A * fsys)) : fsys :=
  match o with Ok (_, s) => s | _ => demo_start end.
Definition value_of {A} (d : A) (o : outcome (A * fsys)) : A :=
  match o with Ok (a, _) => a | _ => d end.

Definition demo_root : Z := fst (value_of (0, 0) (boot_fs 200 demo_disk demo_start)).
Definition demo : fsys := state_of (boot_fs 200 demo_disk demo_start).
Definition demo_drivers : Drivers := initrd_drivers (Some demo_root).

(** Open [/a] and read four bytes twice. *)
Definition demo_open : fsys := state_of (@sys_open demo_drivers 40 (str "/a") 1 demo).
Definition demo_read (n : nat) : M fsys (list Z) :=
  _ ← @sys_readwrite demo_drivers 40 true 0 demo_buffer (Z.of_nat n);
  load_bytes demo_buffer n.

(** Two reads of four bytes from a file that starts with [hello, kOS] give [hell] and
    then [OS]: the four bytes in between are skipped, since the position moves twice. *)
Theorem initrd_reads_skip :
  value_of [] (demo_read 4 demo_open) = str "hell" /\
  value_of [] (demo_read 2 (state_of (demo_read 4 demo_open))) = str "OS".
Proof. split; vm_compute; reflexivity. Qed.

(** A fork duplicates the open files without counting them: when parent and child close
    their copies, the count of the inode goes below zero and wraps, and the file can never be
    unlinked again. *)
Theorem fork_close_wraps_opencount :
  let child := @vfs_clone_procdata demo_drivers (MkProcData 50 [Some 108; None; None; None]) in
  let both := d ← child;
              @vfs_free_procdata demo_drivers (MkProcData 50 [Some 108; None; None; None]);;
              @vfs_free_procdata demo_drivers d in
  let i := value_of None (@vfs_lookup demo_drivers (Some (str "/a")) (Some fs_root) demo) in
  let s := state_of (both demo_open) in
  files <$> procdata demo_open !! 40 = Some [Some 108; None; None; None] /\
  (j ← i; opencount <$> inodes demo_open !! j) = Some 1 /\
  (j ← i; opencount <$> inodes s !! j) = Some (2 ^ 32 - 1) /\
  value_of 0 (@vfs_unlink demo_drivers i s) = - EAGAIN.
Proof. vm_compute. split_and!; reflexivity. Qed.

(** ** Witnesses *)

Fixpoint mem_check (m : gmap Z Z) (a : Z) (bs : list Z) : bool :=
  match bs with
  | [] => true
  | b :: bs => bool_decide (m !! a = Some b) && mem_check m (a + 1) bs
  end.
Lemma mem_check_ok m bs : forall a, mem_check m a bs = true -> mem_has m a bs.
Proof.
  induction bs as [|b bs IH]; intros a Hm; [intros k c [=]|].
  cbn [mem_check] in Hm. apply andb_true_iff in Hm as [Hb%bool_decide_eq_true Hm].
  apply mem_has_cons. auto.
Qed.

Definition room_check (m : gmap Z Z) (a : Z) (n : nat) : bool :=
  forallb (fun k => bool_decide (is_Some (m !! (a + Z.of_nat k)))) (seq 0 n).
Lemma room_check_ok s a n : room_check (mem s) a n = true -> room s a n.
Proof.
  intros Hc k Hk. unfold room_check in Hc. rewrite forallb_forall in Hc.
  eapply bool_decide_eq_true_1, Hc, in_seq. lia.
Qed.

Definition links_check (s : fsys) : bool :=
  bool_decide (map_Forall (fun _ x =>
    (negb (redirected x) || match link x with
                            | Some l => bool_decide (is_Some (inodes s !! l))
                            | None => false
                            end) = true) (inodes s)).
Definition wf_check (s : fsys) : bool :=
  bool_decide (map_Forall (fun _ x => id_dir_ok s x = true) (inodes s)) &&
  bool_decide (is_Some (inodes s !! fs_root)) && links_check s.
Lemma wf_check_ok r s : wf_check s = true -> @fs_wf _ (initrd_dirs r) s.
Proof.
  intros Hc. apply andb_true_iff in Hc as [[H1 H2]%andb_true_iff H3].
  apply bool_decide_eq_true in H1, H2, H3. split_and!; [done..|].
  intros i x Hx Hr. specialize (H3 i x Hx). cbn beta in H3. rewrite Hr in H3.
  destruct (link x) as [l|]; [|done]. apply bool_decide_eq_true in H3. eauto.
Qed.

Lemma demo_tree_ok : node_ok demo_tree.
Proof.
  assert (forall l, forallb (fun z => (0 <? z) && (z <? 256)) l = true ->
    string_ok l /\ Forall is_u8 l) as Hl.
  { intros l Hf. rewrite forallb_forall in Hf. split; apply Forall_forall; intros z Hz;
      apply list_elem_of_In, Hf in Hz; to_prop; unfold is_u8; lia. }
  cbn [demo_tree node_ok foldr].
  repeat match goal with
  | |- string_ok _ => apply Hl; vm_compute; reflexivity
  | |- Forall is_u8 _ => apply Hl; vm_compute; reflexivity
  | |- True => done
  | |- _ /\ _ => split
  end.
Qed.

Lemma short_check ws : forallb (fun w => Z.of_nat (length w) <? FS_MAX_NAME) ws = true -> Forall short ws.
Proof.
  intros Hc. rewrite forallb_forall in Hc. apply Forall_forall. intros w Hw.
  apply list_elem_of_In, Hc in Hw. unfold short. lia.
Qed.
Lemma string_check p : forallb (fun c => negb (c =? 0)) p = true -> string_ok p.
Proof.
  intros Hc. rewrite forallb_forall in Hc. apply Forall_forall. intros w Hw.
  apply list_elem_of_In, Hc in Hw. to_prop. done.
Qed.

Lemma boot_fs_lookup_witness :
  exists root s', boot_fs 200 demo_disk demo_start = Ok ((root, 0), s') /\
    exists j, @vfs_lookup (initrd_drivers (Some root)) (Some (str "/bin/sh")) (Some fs_root) s' =
      Ok (Some j, s') /\
    carries 100 (inodes s') (lists s') (mem s') j (NFile (str "sh") (str "x")).
Proof.
  destruct (boot_fs_lookup demo_start demo_disk (str "root")
    [NFile (str "a") (str "hello, kOS"); NDir (str "bin") [NFile (str "sh") (str "x")]] 200)
    as (root & s' & Hrun & Hlook).
  1-3: done.
  1-3: vm_compute; done.
  - apply mem_check_ok. vm_compute. reflexivity.
  - exact demo_tree_ok.
  - vm_compute. done.
  - exists root, s'. split; [exact Hrun|].
    apply (Hlook (str "/bin/sh")).
    + apply string_check. vm_compute. reflexivity.
    + done.
    + apply short_check. vm_compute. reflexivity.
Defined.


Lemma sys_read_content_witness :
  exists m, @sys_readwrite demo_drivers 40 true 0 demo_buffer 4 demo_open =
      Ok (4, set_filetab (<[108 := MkFile (Some 102) 8 (Some ID_FOPS)]> (filetab demo_open))
               (set_mem m demo_open)) /\
    mem_has m demo_buffer (str "hell").
Proof.
  destruct (sys_read_content (Some demo_root) 0 demo_open 40
    (MkProcData 50 [Some 108; None; None; None]) 0 108 (MkFile (Some 102) 0 (Some ID_FOPS)) 102
    (str "a") (str "hello, kOS") demo_buffer 4) as (m & Hrun & Hm & _).
  1-6: vm_compute; done.
  - destruct (inodes demo_open !! 102) as [x|] eqn:Ex; [|by vm_compute in Ex].
    exists x. split; [exact Ex|]. vm_compute in Ex. injection Ex as <-.
    do 5 (split; [reflexivity|]). apply mem_check_ok. vm_compute. reflexivity.
  - intros x Ex. vm_compute in Ex. injection Ex as <-. vm_compute. done.
  - vm_compute. done.
  - done.
  - vm_compute. done.
  - vm_compute. done.
  - apply room_check_ok. vm_compute. reflexivity.
  - exists m. split; [exact Hrun|exact Hm].
Defined.

Lemma sys_open_lowest_witness :
  exists fd s', @sys_open demo_drivers 40 (str "/a") 1 demo = Ok (Z.of_nat fd, s') /\
    filetab s' = <[108 := MkFile (Some 102) 0 (Some ID_FOPS)]> (filetab demo).
Proof.
  destruct (inodes demo !! 102) as [x|] eqn:Ex; [|by vm_compute in Ex].
  destruct (sys_open_lowest (Some demo_root) demo 40 (MkProcData 50 (replicate 4 None))
    (MkDirent [SLASH] (Some fs_root)) fs_root (str "/a") 102 x 1) as (fd & fs & s' & Hrun & Hrest).
  1-3: vm_compute; done.
  - vm_compute. reflexivity.
  - exact Ex.
  - vm_compute in Ex. by injection Ex as <-.
  - intros a _. replace (filetab demo) with (∅ : gmap Z file) by (vm_compute; reflexivity).
    apply lookup_empty.
  - exists fd, s'. split; [exact Hrun|]. apply Hrest.
Defined.
