(* ===== verification/Mkinitrd.v ===== *)
(** * The image builder

    share/src/mkinitrd: the tool that scans a directory of the host and writes the image the
    kernel boots from.  The entries are a linked structure in the heap of the tool; the
    output file is its bytes and a position.  The host is a parameter: [contents] gives the
    bytes of the file at a path. *)

From S2P Require Import Prelude Vfs Initrd.

(** [struct entry]; a directory has no path. *)
Record entry := MkEnt {
  m_name : cstring;
  m_path : option cstring;
  m_count : Z;
  m_files : option Z;
  m_pdir : option Z;
  m_next : option Z;
  m_last : option Z;
}.

(** The heap and the static variables of initrd.c. *)
Record mk := MkMk {
  ents : gmap Z entry;
  cur_dir : option Z;
  cur_entry : option Z;
  mroot : option Z;
  entry_count : Z;
  mbrk : Z;
}.

Definition set_ents e m := MkMk e (cur_dir m) (cur_entry m) (mroot m) (entry_count m) (mbrk m).
Definition set_cur_dir d m := MkMk (ents m) d (cur_entry m) (mroot m) (entry_count m) (mbrk m).
Definition set_cur_entry c m := MkMk (ents m) (cur_dir m) c (mroot m) (entry_count m) (mbrk m).
Definition set_mroot r m := MkMk (ents m) (cur_dir m) (cur_entry m) r (entry_count m) (mbrk m).
Definition set_entry_count n m := MkMk (ents m) (cur_dir m) (cur_entry m) (mroot m) n (mbrk m).
Definition set_mbrk b m := MkMk (ents m) (cur_dir m) (cur_entry m) (mroot m) (entry_count m) b.

Definition eset_files v e :=
  MkEnt (m_name e) (m_path e) (m_count e) v (m_pdir e) (m_next e) (m_last e).
Definition eset_count v e :=
  MkEnt (m_name e) (m_path e) v (m_files e) (m_pdir e) (m_next e) (m_last e).
Definition eset_next v e :=
  MkEnt (m_name e) (m_path e) (m_count e) (m_files e) (m_pdir e) v (m_last e).
Definition eset_last v e :=
  MkEnt (m_name e) (m_path e) (m_count e) (m_files e) (m_pdir e) (m_next e) v.

(** [*p] and a store through [p]. *)
Definition ent (p : option Z) : M mk entry := m ← get; a ← deref p; deref (ents m !! a).
Definition upd (p : option Z) (f : entry -> entry) : M mk unit :=
  a ← deref p; e ← ent p; modify (fun m => set_ents (<[a := f e]> (ents m)) m).
Definition malloc (e : entry) : M mk Z :=
  m ← get;
  modify (fun m => set_mbrk (mbrk m + 1) (set_ents (<[mbrk m := e]> (ents m)) m));;
  mret (mbrk m).

(** ** Building the entries *)

Definition id_init : M mk unit :=
  modify (fun m => set_entry_count 0 (set_mroot None (set_cur_entry None (set_cur_dir None m)))).

Definition add_entry (e : Z) : M mk unit :=
  m ← get;
  d ← ent (cur_dir m);
  (if bool_decide (m_files d = None) then upd (cur_dir m) (eset_files (Some e)) else mret tt);;
  upd (Some e) (eset_next None);;
  upd (cur_dir m) (fun d => eset_count (u32 (m_count d + 1)) d);;
  (match cur_entry m with
   | Some _ => upd (cur_entry m) (eset_next (Some e))
   | None => mret tt
   end);;
  upd (cur_dir m) (eset_last (Some e));;
  modify (fun m => set_entry_count (entry_count m + 1) m).

Definition id_start_dir (name : cstring) : M mk unit :=
  m ← get;
  dir ← malloc (MkEnt name None 0 None (cur_dir m) None None);
  (match cur_dir m with
   | Some _ => add_entry dir
   | None => modify (set_mroot (Some dir))
   end);;
  modify (fun m => set_cur_entry None (set_cur_dir (Some dir) m)).

Definition id_add_file (name path : cstring) : M mk unit :=
  file ← malloc (MkEnt name (Some path) 0 None None None None);
  add_entry file;;
  modify (set_cur_entry (Some file)).

Definition id_end_dir : M mk unit :=
  m ← get;
  d ← ent (cur_dir m);
  modify (set_cur_dir (m_pdir d));;
  match m_pdir d with
  | Some _ => p ← ent (m_pdir d); modify (set_cur_entry (m_last p))
  | None => mret tt
  end.

(** What [FindFirstFile] and [FindNextFile] show of a directory of the host, without the
    entries [.] and [..] that [scan_dir] skips. *)
#[local] Set Warnings "-register-all".
Inductive hnode :=
| HFile (name path : cstring)
| HDir (name : cstring) (entries : list hnode).

(** [scan_dir]: start the directory, visit its entries in their order, end it. *)
Fixpoint scan (h : hnode) : M mk unit :=
  match h with
  | HFile n p => id_add_file n p
  | HDir n es =>
      id_start_dir n;;
      (fix go es := match es with [] => mret tt | e :: es => scan e;; go es end) es;;
      id_end_dir
  end.

(** ** Writing the image *)

Record FILE := MkFILE { fdata : list Z; fpos : nat }.

Definition fwrite (bs : list Z) : M FILE unit :=
  modify (fun f => MkFILE (take (fpos f) (fdata f) ++ bs ++ drop (fpos f + length bs) (fdata f))
                     (fpos f + length bs)).
Definition fseek (p : nat) : M FILE unit := modify (fun f => MkFILE (fdata f) p).
Definition ftell : M FILE nat := gets fpos.

Section write.
Variable contents : cstring -> option (list Z).
Variable heap : gmap Z entry.

Definition heap_at (a : Z) : M FILE entry := deref (heap !! a).

(** [strlen(name) + 1] bytes of the name, with its zero. *)
Definition name_bytes (n : cstring) : list Z := n ++ [0].

(** The size of the file on the host is 0 when it cannot be opened; the read then follows
    the NULL of [fopen]. *)
Definition write_file (a offset : Z) : M FILE Z :=
  file ← heap_at a;
  path ← deref (m_path file);
  let count := match contents path with Some c => zlen c | None => 0 end in
  let namelen := zlen (m_name file) + 1 in
  let namepos := offset + sizeof_id_entry in
  let datapos := namepos + namelen in
  let newoffs := datapos + count in
  fwrite (words [0; namepos; count; datapos; if m_next file then newoffs else 0]);;
  fwrite (name_bytes (m_name file));;
  buffer ← deref (contents path);
  fwrite buffer;;
  mret newoffs.

(** The directory's [next] is not known before its entries are written: it is patched into
    the file afterwards. *)
Fixpoint write_dir (fuel : nat) (a offset : Z) : M FILE Z :=
  match fuel with
  | O => fault
  | S fuel =>
      dir ← heap_at a;
      let namelen := zlen (m_name dir) + 1 in
      let namepos := offset + sizeof_id_entry in
      let datapos := namepos + namelen in
      fwrite (words [1; namepos; m_count dir; datapos; 0]);;
      here ← ftell;
      let next_posinfile := (here - 4)%nat in
      fwrite (name_bytes (m_name dir));;
      offs ← write_entries fuel (m_files dir) datapos;
      (match m_next dir with
       | Some _ =>
           cur_pos ← ftell;
           fseek next_posinfile;;
           fwrite (le_bytes 4 offs);;
           fseek cur_pos
       | None => mret tt
       end);;
      mret offs
  end
with write_entries (fuel : nat) (cur : option Z) (offs : Z) : M FILE Z :=
  match fuel with
  | O => fault
  | S fuel =>
      match cur with
      | None => mret offs
      | Some a =>
          e ← heap_at a;
          offs ← (if m_path e then write_file a offs else write_dir fuel a offs);
          write_entries fuel (m_next e) offs
      end
  end.

Definition write_header : M FILE Z :=
  fwrite [ID_MAGIC0; ID_MAGIC1; ID_MAGIC2; 0];; mret sizeof_id_header.

Definition id_write (fuel : nat) (root : option Z) : M FILE Z :=
  offs ← write_header;
  r ← deref root;
  write_dir fuel r offs.
End write.

(** The tool: scan a directory of the host and write its image to an empty file. *)
Definition mkid (contents : cstring -> option (list Z)) (fuel : nat) (h : hnode) : outcome (list Z) :=
  match (id_init;; scan h) (MkMk ∅ None None None 0 1) with
  | Ok (_, m) =>
      match id_write contents (ents m) fuel (mroot m) (MkFILE [] 0) with
      | Ok (_, f) => Ok (fdata f)
      | Panic => Panic
      | Fault => Fault
      end
  | Panic => Panic
  | Fault => Fault
  end.

(** The tree the tool is asked to pack. *)
Fixpoint tree_of (contents : cstring -> option (list Z)) (h : hnode) : option node :=
  match h with
  | HFile n p => c ← contents p; Some (NFile n c)
  | HDir n es =>
      ts ← (fix go es := match es with
                         | [] => Some []
                         | e :: es => t ← tree_of contents e; ts ← go es; Some (t :: ts)
                         end) es;
      Some (NDir n ts)
  end.

(** ** The linked entries of a tree *)

Section hnode_ind.
Variable P : hnode -> Prop.
Hypothesis Hfile : forall n p, P (HFile n p).
Hypothesis Hdir : forall n es, Forall P es -> P (HDir n es).
Fixpoint hnode_ind' (h : hnode) : P h :=
  match h with
  | HFile n p => Hfile n p
  | HDir n es => Hdir n es
      ((fix go es : Forall P es :=
          match es with
          | [] => Forall_nil_2 P
          | e :: es => Forall_cons_2 P e es (hnode_ind' e) (go es)
          end) es)
  end.
End hnode_ind.

Definition hname (h : hnode) : cstring := match h with HFile n _ | HDir n _ => n end.

(** The addresses [l] are chained by their [next] pointers. *)
Definition linked (heap : gmap Z entry) (l : list Z) : Prop :=
  forall i a, l !! i = Some a -> exists e, heap !! a = Some e /\ m_next e = l !! S i.

(** Entry [a] stands for [h]; it and the entries below it are at the addresses from [a] to
    below [hi]. *)
Fixpoint hrep (heap : gmap Z entry) (a hi : Z) (h : hnode) : Prop :=
  exists e, heap !! a = Some e /\ a < hi /\ m_name e = hname h /\
  match h with
  | HFile _ p => m_path e = Some p
  | HDir _ es => m_path e = None /\ exists l, m_count e = Z.of_nat (length l) /\
      m_files e = l !! 0%nat /\ linked heap l /\
      (fix seg lo l es {struct es} :=
         match l, es with
         | [], [] => lo <= hi
         | b :: l, h :: es => exists mid, lo <= b /\ hrep heap b mid h /\ seg mid l es
         | _, _ => False
         end) (a + 1) l es
  end.

(** The entries [es] at the addresses [l], one behind the other from [lo] to [hi]. *)
Fixpoint seg (heap : gmap Z entry) (lo : Z) (l : list Z) (es : list hnode) (hi : Z) : Prop :=
  match l, es with
  | [], [] => lo <= hi
  | b :: l, h :: es => exists mid, lo <= b /\ hrep heap b mid h /\ seg heap mid l es hi
  | _, _ => False
  end.

Lemma hrep_dir heap a hi n es :
  hrep heap a hi (HDir n es) <->
  exists e, heap !! a = Some e /\ a < hi /\ m_name e = n /\ m_path e = None /\
    exists l, m_count e = Z.of_nat (length l) /\ m_files e = l !! 0%nat /\ linked heap l /\
      seg heap (a + 1) l es hi.
Proof.
  assert (forall lo l, (fix seg lo l es {struct es} :=
         match l, es with
         | [], [] => lo <= hi
         | b :: l, h :: es => exists mid, lo <= b /\ hrep heap b mid h /\ seg mid l es
         | _, _ => False
         end) lo l es <-> seg heap lo l es hi) as Hseg.
  { induction es as [|h es IH]; intros lo [|b l]; try done.
    cbn [seg]. by setoid_rewrite IH. }
  cbn [hrep hname]. by setoid_rewrite Hseg.
Qed.

Lemma seg_length heap l : forall lo es hi, seg heap lo l es hi -> length l = length es.
Proof.
  induction l as [|b l IH]; intros lo [|h es] hi; try done.
  intros (mid & _ & _ & Hs). cbn [length]. f_equal. eauto.
Qed.

Lemma linked_cons heap a l :
  linked heap (a :: l) -> linked heap l /\ exists e, heap !! a = Some e /\ m_next e = l !! 0%nat.
Proof.
  intros Hl. split; [|exact (Hl 0%nat a eq_refl)].
  intros i b Hb. exact (Hl (S i) b Hb).
Qed.

(** ** The writer *)

Lemma fwrite_end data bs :
  fwrite bs (MkFILE data (length data)) = Ok (tt, MkFILE (data ++ bs) (length (data ++ bs))).
Proof.
  unfold fwrite, modify. cbn. rewrite take_ge, drop_ge, app_nil_r by lia. by rewrite length_app.
Qed.

(** Writing over [length bs] bytes in the middle. *)
Lemma fwrite_over a b c bs p :
  length b = length bs -> p = length a ->
  fwrite bs (MkFILE (a ++ b ++ c) p) = Ok (tt, MkFILE (a ++ bs ++ c) (length a + length bs)).
Proof.
  intros Hb ->. unfold fwrite, modify. cbn. rewrite take_app_length.
  rewrite (app_assoc a b c), drop_app_length' by (rewrite length_app; lia). done.
Qed.

Section writer.
Variable contents : cstring -> option (list Z).
Variable heap : gmap Z entry.

Fixpoint hweight (h : hnode) : nat :=
  match h with
  | HFile _ _ => O
  | HDir _ es => S (S (foldr (fun e k => S (hweight e + k)) O es))
  end.
Definition hweights (es : list hnode) : nat := foldr (fun e k => S (hweight e + k)) O es.

Fixpoint trees_of (es : list hnode) : option (list node) :=
  match es with
  | [] => Some []
  | e :: es => t ← tree_of contents e; ts ← trees_of es; Some (t :: ts)
  end.
Lemma tree_of_dir n es : tree_of contents (HDir n es) = ts ← trees_of es; Some (NDir n ts).
Proof. reflexivity. Qed.

Lemma trees_of_length es : forall ts, trees_of es = Some ts -> length ts = length es.
Proof.
  induction es as [|e es IH]; intros ts; cbn [trees_of]; [by intros [= <-]|].
  destruct (tree_of contents e); [|done]. cbn [mbind option_bind].
  destruct (trees_of es) as [ts'|]; [|done]. cbn [mbind option_bind]. intros [= <-].
  cbn [length]. by rewrite (IH ts').
Qed.

Definition write_node (fuel : nat) (h : hnode) (a off : Z) : M FILE Z :=
  match h with
  | HFile _ _ => write_file contents heap a off
  | HDir _ _ => write_dir contents heap fuel a off
  end.

Definition is_some {A} (o : option A) : bool := if o then true else false.

(** At the end of a file of [off] bytes, writing an entry appends its encoding. *)
Definition writes (h : hnode) : Prop := forall fuel a hi off data t e,
  (hweight h <= fuel)%nat -> hrep heap a hi h -> tree_of contents h = Some t ->
  heap !! a = Some e -> zlen data = off ->
  write_node fuel h a off (MkFILE data (length data)) =
    Ok (off + nsize t, let d := data ++ enc_node off (is_some (m_next e)) t in
                       MkFILE d (length d)).

Lemma hrep_path a hi h e :
  hrep heap a hi h -> heap !! a = Some e ->
  is_some (m_path e) = match h with HFile _ _ => true | HDir _ _ => false end.
Proof.
  destruct h as [n p|n es].
  - intros (e' & He' & _ & _ & Hp) He. by replace e with e' by congruence; rewrite Hp.
  - rewrite hrep_dir. intros (e' & He' & _ & _ & Hp & _) He.
    by replace e with e' by congruence; rewrite Hp.
Qed.

Lemma write_entries_S fuel a off :
  write_entries contents heap (S fuel) (Some a) off =
    e ← heap_at heap a;
    offs ← (if m_path e then write_file contents heap a off
            else write_dir contents heap fuel a off);
    write_entries contents heap fuel (m_next e) offs.
Proof. reflexivity. Qed.

Lemma write_dir_S fuel a off :
  write_dir contents heap (S fuel) a off =
    dir ← heap_at heap a;
    let datapos := off + sizeof_id_entry + (zlen (m_name dir) + 1) in
    fwrite (words [1; off + sizeof_id_entry; m_count dir; datapos; 0]);;
    here ← ftell;
    fwrite (name_bytes (m_name dir));;
    offs ← write_entries contents heap fuel (m_files dir) datapos;
    (match m_next dir with
     | Some _ => cur_pos ← ftell; fseek (here - 4)%nat;; fwrite (le_bytes 4 offs);; fseek cur_pos
     | None => mret tt
     end);;
    mret offs.
Proof. reflexivity. Qed.

Lemma write_entries_run es : Forall writes es ->
  forall fuel l lo hi off data ts,
  (hweights es < fuel)%nat -> linked heap l -> seg heap lo l es hi ->
  trees_of es = Some ts -> zlen data = off ->
  write_entries contents heap fuel (l !! 0%nat) off (MkFILE data (length data)) =
    Ok (off + nsizes ts, let d := data ++ enc_nodes off ts in MkFILE d (length d)).
Proof.
  induction 1 as [|h es Hh _ IH]; intros fuel l lo hi off data ts Hf Hl Hs Ht Hd;
    (destruct fuel as [|fuel]; [lia|]); destruct l as [|a l]; try done.
  - injection Ht as <-. cbn. rewrite app_nil_r, Z.add_0_r. done.
  - destruct Hs as (mid & _ & Hrep & Hs). cbn [hweights foldr] in Hf. fold (hweights es) in Hf.
    cbn [trees_of] in Ht. destruct (tree_of contents h) as [t|] eqn:Eh; [|done].
    destruct (trees_of es) as [ts'|] eqn:Ees; [|done]. injection Ht as <-.
    apply linked_cons in Hl as [Hl (e & He & Hnext)].
    assert (heap_at heap a = (mret e : M FILE entry)) as Hat by (unfold heap_at; by rewrite He).
    change ((a :: l) !! 0%nat) with (Some a). rewrite write_entries_S, Hat.
    rewrite (run_bind _ _ _ e _ eq_refl).
    assert ((if m_path e then write_file contents heap a off else write_dir contents heap fuel a off)
      = write_node fuel h a off) as ->.
    { pose proof (hrep_path _ _ _ _ Hrep He) as Hp. destruct (m_path e), h; done. }
    rewrite (run_bind _ _ _ _ _ (Hh fuel a mid off data t e ltac:(lia) Hrep Eh He Hd)).
    rewrite Hnext. cbv zeta.
    assert (is_some (l !! 0%nat) = match ts' with [] => false | _ => true end) as ->.
    { apply seg_length in Hs. apply trees_of_length in Ees.
      destruct l, ts', es; cbn in *; try done; lia. }
    rewrite (IH fuel l mid hi (off + nsize t) _ ts'); [|lia|done|done|done|].
    + cbn [enc_nodes]. rewrite nsizes_cons, <- !app_assoc, Z.add_assoc. done.
    + unfold zlen. rewrite length_app, Nat2Z.inj_add. fold (zlen data).
      pose proof (enc_length t off (match ts' with [] => false | _ => true end)) as Hel.
      unfold zlen in *. lia.
Qed.

Lemma heap_at_run a e : heap !! a = Some e -> heap_at heap a = (mret e : M FILE entry).
Proof. intros He. unfold heap_at. by rewrite He. Qed.

Lemma write_file_run n p : writes (HFile n p).
Proof.
  intros fuel a hi off data t e _ (e' & He' & _ & Hn & Hp) Ht He Hd.
  replace e' with e in * by congruence. cbn [tree_of] in Ht.
  destruct (contents p) as [c|] eqn:Ec; [|done]. injection Ht as <-.
  cbn [write_node]. unfold write_file. rewrite (heap_at_run a e He), (run_bind _ _ _ e _ eq_refl), Hp.
  rewrite (run_bind _ _ _ p _ eq_refl), Ec, Hn. cbn [hname]. cbv zeta.
  rewrite (run_bind _ _ _ _ _ (fwrite_end _ _)), (run_bind _ _ _ _ _ (fwrite_end _ _)).
  rewrite (run_bind _ _ _ c _ eq_refl), (run_bind _ _ _ _ _ (fwrite_end _ _)).
  cbn [enc_node nsize node_name]. unfold mret, M_ret. rewrite <- !app_assoc.
  replace (off + sizeof_id_entry + (zlen n + 1) + zlen c)
    with (off + (sizeof_id_entry + (zlen n + 1) + zlen c)) by lia.
  unfold name_bytes. rewrite <- ?app_assoc. by destruct (m_next e).
Qed.

Lemma words_app l1 l2 : words (l1 ++ l2) = words l1 ++ words l2.
Proof. unfold words. by rewrite flat_map_app. Qed.

Lemma write_dir_run n es : Forall writes es -> writes (HDir n es).
Proof.
  intros Hes fuel a hi off data t e Hf Hrep Ht He Hd. cbn [hweight] in Hf.
  change (foldr _ O es) with (hweights es) in Hf. destruct fuel as [|fuel]; [lia|].
  apply hrep_dir in Hrep as (e' & He' & _ & Hn & Hp & l & Hcnt & Hfiles & Hl & Hs).
  replace e' with e in * by congruence. rewrite tree_of_dir in Ht.
  destruct (trees_of es) as [ts|] eqn:Ets; [|done]. injection Ht as <-.
  cbn [write_node]. rewrite write_dir_S, (heap_at_run a e He), (run_bind _ _ _ e _ eq_refl), Hn.
  cbv zeta. set (dp := off + sizeof_id_entry + (zlen n + 1)).
  assert (m_count e = Z.of_nat (length ts)) as Hc.
  { rewrite Hcnt. apply seg_length in Hs. apply trees_of_length in Ets. congruence. }
  rewrite Hc. set (w4 := words [1; off + sizeof_id_entry; Z.of_nat (length ts); dp]).
  assert (forall x, words [1; off + sizeof_id_entry; Z.of_nat (length ts); dp; x] = w4 ++ le_bytes 4 x)
    as Hw by (intros x; change [1; off + sizeof_id_entry; Z.of_nat (length ts); dp; x]
      with ([1; off + sizeof_id_entry; Z.of_nat (length ts); dp] ++ [x]);
      rewrite words_app; subst w4; cbn [words flat_map]; by rewrite (app_nil_r (le_bytes 4 x))).
  assert (length w4 = 16%nat) as Hw4.
  { pose proof (words_length [1; off + sizeof_id_entry; Z.of_nat (length ts); dp]) as Hwl.
    fold w4 in Hwl. unfold zlen in Hwl. cbn [length] in Hwl. lia. }
  rewrite Hw, (run_bind _ _ _ _ _ (fwrite_end _ _)), (run_bind _ _ _ _ _ eq_refl).
  rewrite (run_bind _ _ _ _ _ (fwrite_end _ _)), Hfiles. cbn [fpos].
  assert (zlen ((data ++ w4 ++ le_bytes 4 0) ++ name_bytes n) = dp) as Hdp.
  { subst dp. unfold zlen, name_bytes, sizeof_id_entry in *. rewrite !length_app, Hw4, le_bytes_length.
    cbn [length]. lia. }
  rewrite (run_bind _ _ _ _ _ (write_entries_run es Hes fuel l (a + 1) hi dp _ ts
    ltac:(lia) Hl Hs Ets Hdp)). cbv zeta.
  assert (dp + nsizes ts = off + nsize (NDir n ts)) as Hoff
    by (subst dp; cbn [nsize]; unfold nsizes; lia).
  rewrite Hoff, enc_node_dir. fold dp. rewrite Hw.
  destruct (m_next e) as [nx|]; cbn [is_some].
  - rewrite (run_bind _ _ _ tt (MkFILE
      (data ++ (w4 ++ le_bytes 4 (off + nsize (NDir n ts))) ++ (n ++ [0]) ++ enc_nodes dp ts)
      (length (data ++ (w4 ++ le_bytes 4 (off + nsize (NDir n ts))) ++ (n ++ [0]) ++ enc_nodes dp ts)))); [done|].
    rewrite (run_bind _ _ _ _ _ eq_refl), (run_bind _ _ _ _ _ eq_refl). cbn [fpos fdata].
    replace (((data ++ w4 ++ le_bytes 4 0) ++ name_bytes n) ++ enc_nodes dp ts)
      with ((data ++ w4) ++ le_bytes 4 0 ++ (n ++ [0]) ++ enc_nodes dp ts)
      by (unfold name_bytes; by rewrite <- !app_assoc).
    rewrite (run_bind _ _ _ _ _ (fwrite_over (data ++ w4) (le_bytes 4 0) _
      (le_bytes 4 (off + nsize (NDir n ts)))
      (length (data ++ w4 ++ le_bytes 4 0) - 4)%nat ltac:(by rewrite !le_bytes_length)
      ltac:(rewrite !length_app, le_bytes_length; lia))).
    unfold fseek, modify. cbn [fdata]. rewrite <- !app_assoc.
    do 3 f_equal. rewrite !length_app, !le_bytes_length. lia.
  - rewrite (run_bind _ _ _ tt _ eq_refl). unfold name_bytes, mret, M_ret. by rewrite <- !app_assoc.
Qed.

Lemma writes_all h : writes h.
Proof.
  induction h as [n p|n es IH] using hnode_ind'; [apply write_file_run|by apply write_dir_run].
Qed.
End writer.

(** ** The builder *)

Definition same_but_next (e e' : entry) : Prop := eset_next None e = eset_next None e'.

(** Both heaps have the same entries from [lo] to below [hi]. *)
Definition agree (lo hi : Z) (heap heap' : gmap Z entry) : Prop :=
  forall x e, lo <= x < hi -> heap !! x = Some e -> heap' !! x = Some e.

Lemma seg_bounds heap l : forall lo es hi,
  seg heap lo l es hi -> lo <= hi /\ Forall (fun b => lo <= b < hi) l.
Proof.
  induction l as [|b l IH]; intros lo [|h es] hi; try done.
  intros (mid & Hlo & Hrep & Hs). apply IH in Hs as [Hmid Hl].
  assert (b < mid) by (destruct h; destruct Hrep as (? & _ & ? & _); done).
  split; [lia|]. constructor; [lia|]. eapply Forall_impl; [exact Hl|]. cbn. lia.
Qed.

Lemma hrep_frame heap heap' h : forall a hi,
  hrep heap a hi h -> agree (a + 1) hi heap heap' ->
  (forall e, heap !! a = Some e -> exists e', heap' !! a = Some e' /\ same_but_next e e') ->
  hrep heap' a hi h.
Proof.
  induction h as [n p|n es IH] using hnode_ind'; intros a hi Hrep Hag Ha.
  - destruct Hrep as (e & He & Hlt & Hn & Hp). destruct (Ha e He) as (e' & He' & [=]).
    exists e'. split_and!; [done|done|congruence|congruence].
  - apply hrep_dir in Hrep as (e & He & Hlt & Hn & Hp & l & Hc & Hf & Hl & Hs).
    destruct (Ha e He) as (e' & He' & [=]). apply hrep_dir.
    exists e'. split_and!; [done|done|congruence|congruence|].
    exists l. split_and!; [congruence|congruence| |].
    + apply seg_bounds in Hs as [_ Hb]. intros i b Hb'. destruct (Hl i b Hb') as (eb & Heb & Hnx).
      exists eb. split; [|done]. apply Hag; [|done]. eapply Forall_lookup_1 in Hb; [|done]. done.
    + assert (forall l lo, a + 1 <= lo -> seg heap lo l es hi -> seg heap' lo l es hi) as Hgen;
        [|by apply Hgen].
      clear - IH Hag. induction IH as [|h es Hh _ IHes]; intros [|b l] lo Hlo; try done.
      intros (mid & Hb & Hrep & Hs). pose proof (seg_bounds _ _ _ _ _ Hs) as [Hmid _].
      assert (b < mid) by (destruct h; destruct Hrep as (? & _ & ? & _); done).
      exists mid. split; [done|]. split; [|apply IHes; [lia|done]].
      apply Hh; [done| |].
      * intros x e Hx. apply Hag. lia.
      * intros e He. exists e. split; [apply Hag; [lia|done]|done].
Qed.

(** The entries of a directory while the [next] of the last one is set. *)
Lemma seg_frame heap heap' l : forall lo es hi,
  seg heap lo l es hi ->
  (forall x e, lo <= x < hi -> last l <> Some x -> heap !! x = Some e -> heap' !! x = Some e) ->
  (forall b e, last l = Some b -> heap !! b = Some e ->
     exists e', heap' !! b = Some e' /\ same_but_next e e') ->
  seg heap' lo l es hi.
Proof.
  induction l as [|b l IH]; intros lo [|h es] hi; try done.
  intros (mid & Hb & Hrep & Hs) Hag Hlast.
  pose proof (seg_bounds _ _ _ _ _ Hs) as [Hmid Hbl].
  assert (b < mid) by (destruct h; destruct Hrep as (? & _ & ? & _); done).
  assert (forall c, last l = Some c -> mid <= c) as Hc.
  { intros c Hc. rewrite Forall_forall in Hbl. apply last_Some_elem_of in Hc. apply Hbl in Hc. lia. }
  exists mid. split; [done|]. split.
  - apply (hrep_frame heap); [done| |].
    + intros x e Hx. apply Hag; [lia|]. rewrite last_cons.
      destruct (last l) as [c|] eqn:El; [specialize (Hc c eq_refl)|]; intros [=]; lia.
    + intros e He. rewrite last_cons in Hlast. destruct (last l) as [c|] eqn:El.
      * exists e. split; [|done]. apply Hag; [lia| |done]. rewrite last_cons, El.
        specialize (Hc c eq_refl). intros [=]. lia.
      * by apply Hlast.
  - apply IH; [done| |].
    + intros x e Hx Hl. apply Hag; [lia|]. rewrite last_cons.
      destruct (last l); [done|]. intros [=]. lia.
    + intros c e Hcl. apply Hlast. by rewrite last_cons, Hcl.
Qed.

Lemma seg_snoc heap h : forall l es lo x hi,
  seg heap lo l es x -> hrep heap x hi h -> seg heap lo (l ++ [x]) (es ++ [h]) hi.
Proof.
  induction l as [|b l IH]; intros [|e es] lo x hi; try done.
  - intros Hx Hrep. exists hi. cbn. split_and!; [done|done|lia].
  - intros (mid & Hb & Hr & Hs) Hrep. exists mid. split_and!; [done|done|by eapply IH].
Qed.

Lemma linked_snoc heap heap' l x :
  linked heap l -> NoDup l ->
  (forall b e, b ∈ l -> last l <> Some b -> heap !! b = Some e -> heap' !! b = Some e) ->
  (forall b, last l = Some b -> exists e, heap' !! b = Some e /\ m_next e = Some x) ->
  (exists e, heap' !! x = Some e /\ m_next e = None) -> linked heap' (l ++ [x]).
Proof.
  intros Hl Hnd Hag Hlast (ex & Hx & Hnx) i a Hi.
  apply lookup_app_Some in Hi as [Hi|[Hge Hi]].
  - pose proof (lookup_lt_Some _ _ _ Hi) as Hlt.
    destruct (decide (S i = length l)) as [Hend|Hend].
    + assert (last l = Some a) as Hla by (rewrite last_lookup, <- Hend; done).
      destruct (Hlast a Hla) as (e & He & Hn). exists e. split; [done|].
      rewrite lookup_app_r, Hend, Nat.sub_diag by lia. done.
    + destruct (Hl i a Hi) as (e & He & Hn). exists e. rewrite lookup_app_l by lia. split; [|done].
      apply Hag; [by apply list_elem_of_lookup_2 in Hi| |done].
      rewrite last_lookup. intros Hla.
      pose proof (NoDup_lookup _ _ _ _ Hnd Hi Hla). lia.
  - apply list_lookup_singleton_Some in Hi as [Hz <-]. exists ex. split; [done|].
    rewrite Hnx. symmetry. apply lookup_ge_None. rewrite length_app. cbn. lia.
Qed.

Lemma seg_NoDup heap l : forall lo es hi, seg heap lo l es hi -> NoDup l.
Proof.
  induction l as [|b l IH]; intros lo [|h es] hi; try done; [constructor|].
  intros (mid & Hb & Hrep & Hs). pose proof (seg_bounds _ _ _ _ _ Hs) as [_ Hbl].
  assert (b < mid) by (destruct h; destruct Hrep as (? & _ & ? & _); done).
  constructor; [|by eapply IH]. intros Hin. rewrite Forall_forall in Hbl. apply Hbl in Hin. lia.
Qed.

Lemma ent_run m a e : ents m !! a = Some e -> ent (Some a) m = Ok (e, m).
Proof. intros He. unfold ent, deref, mbind, M_bind, get, mret, M_ret. by rewrite He. Qed.

Lemma ent_upd_run m a e f :
  ents m !! a = Some e -> upd (Some a) f m = Ok (tt, set_ents (<[a := f e]> (ents m)) m).
Proof.
  intros He. unfold upd. rewrite (run_bind _ _ m a m eq_refl).
  by rewrite (run_bind _ _ _ _ _ (ent_run m a e He)).
Qed.

(** What [add_entry] leaves of the directory's own entry. *)
Definition with_entry (x : Z) (e : entry) : entry :=
  eset_last (Some x) (eset_count (u32 (m_count e + 1))
    (if bool_decide (m_files e = None) then eset_files (Some x) e else e)).

Lemma add_entry_heap m d x e ex :
  cur_dir m = Some d -> ents m !! d = Some e -> ents m !! x = Some ex -> d <> x ->
  (forall c, cur_entry m = Some c -> c <> d /\ c <> x /\ is_Some (ents m !! c)) ->
  exists heap, add_entry x m = Ok (tt, set_entry_count (entry_count m + 1) (set_ents heap m)) /\
    heap !! d = Some (with_entry x e) /\ heap !! x = Some (eset_next None ex) /\
    (forall c ec, cur_entry m = Some c -> ents m !! c = Some ec ->
       heap !! c = Some (eset_next (Some x) ec)) /\
    (forall y, y <> d -> y <> x -> cur_entry m <> Some y -> heap !! y = ents m !! y).
Proof.
  intros Hd He Hx Hne Hc. unfold add_entry.
  rewrite (run_bind _ _ m m m eq_refl), Hd, (run_bind _ _ _ _ _ (ent_run m d e He)).
  set (e1 := if bool_decide (m_files e = None) then eset_files (Some x) e else e).
  set (m1 := set_ents (<[d := e1]> (ents m)) m).
  rewrite (run_bind _ _ m tt m1).
  2:{ subst m1 e1. case_bool_decide; [by apply ent_upd_run|]. rewrite insert_id by done. by destruct m. }
  assert (ents m1 !! x = Some ex) as Hx1 by (cbn; by rewrite lookup_insert_ne).
  rewrite (run_bind _ _ _ _ _ (ent_upd_run m1 x ex _ Hx1)).
  set (m2 := set_ents _ m1).
  assert (ents m2 !! d = Some e1) as Hd2
    by (cbn; rewrite lookup_insert_ne by done; apply lookup_insert_eq).
  rewrite (run_bind _ _ _ _ _ (ent_upd_run m2 d e1 _ Hd2)).
  set (m3 := set_ents _ m2). set (e3 := eset_count (u32 (m_count e1 + 1)) e1).
  assert (ents m3 !! d = Some e3) as Hd3 by (cbn; apply lookup_insert_eq).
  assert (eset_last (Some x) e3 = with_entry x e) as Hwith
    by (subst e3 e1; unfold with_entry; by case_bool_decide).
  destruct (cur_entry m) as [c|] eqn:Ecur.
  - destruct (Hc c eq_refl) as (Hcd & Hcx & ec & Hec).
    assert (ents m3 !! c = Some ec) as Hc3 by (cbn; by rewrite !lookup_insert_ne).
    rewrite (run_bind _ _ _ _ _ (ent_upd_run m3 c ec _ Hc3)). set (m4 := set_ents _ m3).
    assert (ents m4 !! d = Some e3) as Hd4 by (cbn; by rewrite lookup_insert_ne).
    rewrite (run_bind _ _ _ _ _ (ent_upd_run m4 d e3 _ Hd4)), Hwith.
    eexists. split; [reflexivity|]. cbn. split_and!.
    + apply lookup_insert_eq.
    + by rewrite !lookup_insert_ne, lookup_insert_eq by done.
    + intros c' ec' [= <-] Hec'. rewrite lookup_insert_ne, lookup_insert_eq by done. congruence.
    + intros y Hyd Hyx Hyc. rewrite !lookup_insert_ne by congruence. done.
  - rewrite (run_bind _ _ m3 tt m3 eq_refl).
    rewrite (run_bind _ _ _ _ _ (ent_upd_run m3 d e3 _ Hd3)), Hwith.
    eexists. split; [reflexivity|]. cbn. split_and!.
    + apply lookup_insert_eq.
    + by rewrite !lookup_insert_ne, lookup_insert_eq by done.
    + done.
    + intros y Hyd Hyx _. by rewrite !lookup_insert_ne by congruence.
Qed.

(** Directory [d] is being filled and has the entries [done] so far. *)
Definition open_dir (m : mk) (d : Z) (done : list hnode) : Prop :=
  cur_dir m = Some d /\ d < mbrk m /\ (forall a, mbrk m <= a -> ents m !! a = None) /\
  exists e l, ents m !! d = Some e /\ m_path e = None /\ m_count e = Z.of_nat (length l) /\
    m_files e = l !! 0%nat /\ m_last e = last l /\ cur_entry m = last l /\
    linked (ents m) l /\ seg (ents m) (d + 1) l done (mbrk m).

(** Outside of [d] and what is new, nothing changes; of [d], only its list. *)
Definition keeps (d : Z) (m m' : mk) : Prop :=
  mroot m' = mroot m /\ mbrk m <= mbrk m' /\
  (forall x, x < d -> ents m' !! x = ents m !! x) /\
  (forall e, ents m !! d = Some e -> exists e', ents m' !! d = Some e' /\
     m_name e' = m_name e /\ m_path e' = m_path e /\ m_pdir e' = m_pdir e /\ m_next e' = m_next e).

(** After the new entry [x] is linked in; its own tree is still to come. *)
Definition added (m : mk) (d x : Z) (done : list hnode) : Prop :=
  exists e l, ents m !! d = Some e /\ m_path e = None /\ m_count e = Z.of_nat (length (l ++ [x])) /\
    m_files e = (l ++ [x]) !! 0%nat /\ m_last e = Some x /\
    linked (ents m) (l ++ [x]) /\ seg (ents m) (d + 1) l done x.

Lemma add_entry_run m d done ex :
  open_dir m d done -> Z.of_nat (length done) < 2 ^ 32 - 1 -> m_next ex = None ->
  let m1 := set_mbrk (mbrk m + 1) (set_ents (<[mbrk m := ex]> (ents m)) m) in
  exists heap, let m2 := set_entry_count (entry_count m + 1) (set_ents heap m1) in
    add_entry (mbrk m) m1 = Ok (tt, m2) /\ added m2 d (mbrk m) done /\ keeps d m m2 /\
    heap !! mbrk m = Some ex /\ (forall a, mbrk m + 1 <= a -> heap !! a = None).
Proof.
  intros (Hcd & Hlt & Hb & e & l & He & Hp & Hcnt & Hf & Hla & Hcur & Hl & Hs) Hlen Hnx m1.
  set (x := mbrk m) in *. pose proof (seg_bounds _ _ _ _ _ Hs) as [_ Hbl].
  pose proof (seg_length _ _ _ _ _ Hs) as Hll. pose proof (seg_NoDup _ _ _ _ _ Hs) as Hnd.
  rewrite Forall_forall in Hbl.
  assert (forall c, last l = Some c -> d < c < x) as Hrange
    by (intros c Hc%last_Some_elem_of; apply Hbl in Hc; lia).
  assert (forall y, y <> x -> ents m1 !! y = ents m !! y) as Hm1
    by (intros y Hy; cbn; by rewrite lookup_insert_ne).
  destruct (add_entry_heap m1 d x e ex) as (heap & Hrun & Hhd & Hhx & Hhc & Hhy).
  - done.
  - rewrite Hm1 by lia. done.
  - apply lookup_insert_eq.
  - lia.
  - intros c Hc. cbn in Hc. rewrite Hcur in Hc. pose proof (Hrange c Hc).
    split; [lia|]. split; [lia|]. rewrite Hm1 by lia.
    rewrite last_lookup in Hc. destruct (Hl _ _ Hc) as (ec & -> & _). eauto.
  - exists heap. split; [exact Hrun|]. cbn in Hhc, Hhy. rewrite Hcur in Hhc, Hhy.
    assert (forall y, y <> d -> y <> x -> last l <> Some y -> heap !! y = ents m !! y) as Hhy'
      by (intros y H1 H2 H3; rewrite Hhy by done; by apply Hm1).
    split; [|split; [|split]].
    + exists (with_entry x e), l. split; [exact Hhd|]. split.
      { unfold with_entry. by case_bool_decide. }
      split.
      { unfold with_entry. rewrite length_app. cbn. rewrite Hcnt, u32_small by (unfold is_u32; lia). lia. }
      split.
      { unfold with_entry. rewrite Hf. destruct l as [|b l]; cbn; [done|exact Hf]. }
      split; [done|]. split.
      * apply (linked_snoc (ents m)); [done|done| | |].
        -- intros b eb Hb1 Hb2 Hb3. apply Hbl in Hb1. cbn. rewrite Hhy' by (done || lia). done.
        -- intros b Hbl'. pose proof (Hrange b Hbl'). rewrite last_lookup in Hbl'.
           destruct (Hl _ _ Hbl') as (eb & Heb & _). exists (eset_next (Some x) eb). split; [|done].
           cbn. apply Hhc; [by rewrite last_lookup|]. by rewrite Hm1 by lia.
        -- exists (eset_next None ex). split; [exact Hhx|done].
      * eapply seg_frame; [exact Hs| |].
        -- intros y ey Hy Hl' Hey. cbn. rewrite Hhy' by (done || lia). done.
        -- intros b eb Hbl' Heb. pose proof (Hrange b Hbl').
           exists (eset_next (Some x) eb). split; [|done]. cbn. apply Hhc; [done|].
           by rewrite Hm1 by lia.
    + split; [done|]. split; [cbn; lia|]. split.
      * intros y Hy. cbn. apply Hhy'; [lia|lia|]. intros Hl'. apply Hrange in Hl'. lia.
      * intros e' He'. exists (with_entry x e). split; [exact Hhd|].
        replace e' with e by congruence. unfold with_entry. by case_bool_decide.
    + rewrite Hhx. f_equal. destruct ex. cbn in *. by subst.
    + intros a Ha. rewrite Hhy'; [apply Hb; lia|lia|lia|]. intros Hl'. apply Hrange in Hl'. lia.
Qed.

Fixpoint hsmall (h : hnode) : Prop :=
  match h with
  | HFile _ _ => True
  | HDir _ es => Z.of_nat (length es) < 2 ^ 32 /\ foldr (fun e p => hsmall e /\ p) True es
  end.

Definition scans (h : hnode) : Prop := forall m d done,
  open_dir m d done -> Z.of_nat (length done) < 2 ^ 32 - 1 -> hsmall h ->
  exists m', scan h m = Ok (tt, m') /\ open_dir m' d (done ++ [h]) /\ keeps d m m'.

Definition scan_all (es : list hnode) : M mk unit :=
  (fix go es := match es with [] => mret tt | e :: es => scan e;; go es end) es.

Lemma keeps_trans d m1 m2 m3 : keeps d m1 m2 -> keeps d m2 m3 -> keeps d m1 m3.
Proof.
  intros (R1 & B1 & X1 & D1) (R2 & B2 & X2 & D2). split; [congruence|]. split; [lia|]. split.
  - intros x Hx. by rewrite X2, X1.
  - intros e He. destruct (D1 e He) as (e1 & He1 & E1 & E2 & E3 & E4).
    destruct (D2 e1 He1) as (e2 & He2 & F1 & F2 & F3 & F4). exists e2. split_and!; congruence.
Qed.

Lemma scan_file_run n p : scans (HFile n p).
Proof.
  intros m d done Ho Hlen _. cbn [scan]. unfold id_add_file.
  set (ex := MkEnt n (Some p) 0 None None None None).
  destruct (add_entry_run m d done ex Ho Hlen eq_refl) as (heap & Hrun & Hadd & Hk & Hx & Hb).
  set (x := mbrk m) in *.
  rewrite (run_bind _ _ m x (set_mbrk (x + 1) (set_ents (<[x := ex]> (ents m)) m))) by done.
  rewrite (run_bind _ _ _ _ _ Hrun). eexists. split; [reflexivity|].
  destruct Ho as (Hcd & Hlt & _). split; [|exact Hk].
  destruct Hadd as (e & l & He & Hp & Hc & Hf & Hla & Hl & Hs).
  split; [exact Hcd|]. split; [cbn; lia|]. split; [exact Hb|].
  exists e, (l ++ [x]). rewrite last_snoc. split_and!; try done.
  cbn. eapply seg_snoc; [exact Hs|]. exists ex. split_and!; [exact Hx|lia|done|done].
Qed.

Lemma scan_all_run es : Forall scans es -> forall m d done,
  open_dir m d done -> Z.of_nat (length done + length es) < 2 ^ 32 -> Forall hsmall es ->
  exists m', scan_all es m = Ok (tt, m') /\ open_dir m' d (done ++ es) /\ keeps d m m'.
Proof.
  induction 1 as [|h es Hh _ IH]; intros m d done Ho Hlen Hsm.
  - exists m. rewrite app_nil_r. split; [done|]. split; [done|]. split; [done|]. split; [lia|].
    split; [done|]. intros e He. exists e. done.
  - inv Hsm. cbn [length] in Hlen.
    destruct (Hh m d done Ho) as (m1 & Hr1 & Ho1 & Hk1); [lia|done|].
    destruct (IH m1 d (done ++ [h]) Ho1) as (m2 & Hr2 & Ho2 & Hk2);
      [rewrite length_app; cbn [length]; lia|done|].
    exists m2. split; [|split].
    + change (scan_all (h :: es)) with (scan h;; scan_all es). by rewrite (run_bind _ _ _ _ _ Hr1).
    + by rewrite <- app_assoc in Ho2.
    + by eapply keeps_trans.
Qed.

Lemma hsmalls es : foldr (fun e p => hsmall e /\ p) True es <-> Forall hsmall es.
Proof. induction es as [|e es IH]; [by split|]. simpl. rewrite IH, Forall_cons. done. Qed.

(** [id_start_dir] inside a directory: the new one is open, the outer one has its entry. *)
Lemma start_dir_run m d done n :
  open_dir m d done -> Z.of_nat (length done) < 2 ^ 32 - 1 ->
  exists m1, id_start_dir n m = Ok (tt, m1) /\ open_dir m1 (mbrk m) [] /\
    added m1 d (mbrk m) done /\ keeps d m m1 /\
    exists e, ents m1 !! mbrk m = Some e /\ m_name e = n /\ m_pdir e = Some d /\ m_next e = None.
Proof.
  intros Ho Hlen. pose proof Ho as (Hcd & Hlt & _). unfold id_start_dir.
  rewrite (run_bind _ _ m m m eq_refl), Hcd.
  set (ex := MkEnt n None 0 None (Some d) None None). set (x := mbrk m).
  destruct (add_entry_run m d done ex Ho Hlen eq_refl) as (heap & Hrun & Hadd & Hk & Hx & Hb).
  rewrite (run_bind _ _ m x (set_mbrk (x + 1) (set_ents (<[x := ex]> (ents m)) m))) by done.
  rewrite (run_bind _ _ _ _ _ Hrun). eexists. split; [reflexivity|].
  split; [|split; [exact Hadd|split; [exact Hk|by exists ex]]].
  split; [done|]. split; [cbn; lia|]. split; [exact Hb|].
  exists ex, []. split_and!; first [done | exact Hx | cbn; lia].
Qed.

Lemma scan_dir_run n es : Forall scans es -> scans (HDir n es).
Proof.
  intros Hes m d done Ho Hlen [Hne Hsm%hsmalls].
  change (scan (HDir n es)) with (id_start_dir n;; scan_all es;; id_end_dir).
  pose proof Ho as (Hcd & Hlt & _).
  destruct (start_dir_run m d done n Ho Hlen) as (m1 & Hr1 & Ho1 & Hadd & Hk1 & ex & Hex & Hnm & Hpd & Hnx).
  set (x := mbrk m) in *. rewrite (run_bind _ _ _ _ _ Hr1).
  destruct (scan_all_run es Hes m1 x [] Ho1) as (m2 & Hr2 & Ho2 & Hk2); [cbn; lia|done|].
  rewrite (run_bind _ _ _ _ _ Hr2). cbn [app] in Ho2.
  destruct Ho2 as (Hcd2 & Hlt2 & Hb2 & e2 & l2 & He2 & Hp2 & Hc2 & Hf2 & Hla2 & Hcu2 & Hl2 & Hs2).
  destruct Hk2 as (Hroot2 & Hbrk2 & Hsame2 & Hx2).
  destruct (Hx2 ex Hex) as (e2' & He2' & En & Ep & Epd & Enx).
  replace e2' with e2 in * by congruence.
  destruct Hadd as (e & l & He & Hp & Hc & Hf & Hla & Hl & Hs).
  pose proof (seg_bounds _ _ _ _ _ Hs) as [Hdx Hbl].
  assert (ents m2 !! d = Some e) as Hd2 by (rewrite Hsame2 by lia; done).
  unfold id_end_dir. rewrite (run_bind _ _ m2 m2 m2 eq_refl), Hcd2.
  rewrite (run_bind _ _ _ _ _ (ent_run m2 x e2 He2)), Epd, Hpd.
  rewrite (run_bind _ _ _ _ _ eq_refl).
  rewrite (run_bind _ _ _ _ _ (ent_run (set_cur_dir (Some d) m2) d e Hd2)), Hla.
  eexists. split; [reflexivity|]. split.
  - split; [done|]. split; [cbn; lia|]. split; [exact Hb2|].
    exists e, (l ++ [x]). rewrite last_snoc. split_and!; try done.
    + intros i a Hi. destruct (Hl i a Hi) as (ea & Hea & Hna).
      cbn. destruct (decide (a = x)) as [->|Hax].
      * exists e2. split; [done|]. replace ea with ex in Hna by congruence. congruence.
      * exists ea. split; [|done]. apply lookup_app_Some in Hi as [Hi|[_ Hi]].
        -- eapply Forall_lookup_1 in Hbl; [|exact Hi]. cbn in Hbl. rewrite Hsame2 by lia. done.
        -- apply list_lookup_singleton_Some in Hi as [_ Hi]. congruence.
    + cbn. eapply seg_snoc.
      * eapply seg_frame; [exact Hs| |].
        -- intros y ey Hy _ Hey. rewrite Hsame2 by lia. done.
        -- intros b eb Hbl' Heb. exists eb. split; [|done].
           apply last_Some_elem_of in Hbl'. rewrite Forall_forall in Hbl. apply Hbl in Hbl'.
           rewrite Hsame2 by lia. done.
      * apply hrep_dir. exists e2. split_and!; [done|lia|congruence|congruence|].
        exists l2. done.
  - eapply keeps_trans; [exact Hk1|]. split; [done|]. split; [cbn; lia|]. split.
    + intros y Hy. cbn. apply Hsame2. lia.
    + intros e' He'. exists e'. cbn. split; [congruence|done].
Qed.

Lemma scans_all h : scans h.
Proof.
  induction h as [n p|n es IH] using hnode_ind'; [apply scan_file_run|by apply scan_dir_run].
Qed.

(** ** The round trip *)

Lemma tree_small contents h : forall t,
  tree_of contents h = Some t -> nsize t < 2 ^ 32 -> hsmall h.
Proof.
  induction h as [n p|n es IH] using hnode_ind'; intros t; [done|].
  rewrite tree_of_dir. destruct (trees_of contents es) as [ts|] eqn:Ets; [|done].
  intros [= <-] Hsz. assert (nsizes ts < 2 ^ 32) as Hts.
  { cbn [nsize] in Hsz. unfold nsizes, zlen, sizeof_id_entry in *. lia. }
  clear Hsz. cbn [hsmall]. rewrite hsmalls.
  assert (Z.of_nat (length es) <= nsizes ts /\ Forall hsmall es); [|split; [lia|tauto]].
  revert ts Ets Hts. induction IH as [|h es Hh _ IHes]; intros ts Ets Hts.
  - injection Ets as <-. cbn. split; [lia|constructor].
  - cbn [trees_of] in Ets. destruct (tree_of contents h) as [t|]; [|done].
    destruct (trees_of contents es) as [ts'|]; [|done]. injection Ets as <-.
    rewrite nsizes_cons in *. pose proof (nsize_pos t). pose proof (nsizes_nonneg ts').
    destruct (IHes ts') as [Hl Hs]; [done|lia|]. cbn [length]. split; [lia|].
    constructor; [|done]. eapply Hh; [done|lia].
Qed.

(** Scanning a directory of the host builds its entries below the root. *)
Lemma scan_root n es :
  hsmall (HDir n es) ->
  exists m e, (id_init;; scan (HDir n es)) (MkMk ∅ None None None 0 1) = Ok (tt, m) /\
    mroot m = Some 1 /\ ents m !! 1 = Some e /\ m_next e = None /\
    hrep (ents m) 1 (mbrk m) (HDir n es).
Proof.
  intros [Hne Hsm%hsmalls].
  change (scan (HDir n es)) with (id_start_dir n;; scan_all es;; id_end_dir).
  rewrite (run_bind _ _ _ _ _ eq_refl).
  set (m1 := MkMk {[1 := MkEnt n None 0 None None None None]} (Some 1) None (Some 1) 0 2).
  rewrite (run_bind _ _ _ tt m1) by done.
  assert (open_dir m1 1 []) as Ho1.
  { split; [done|]. split; [cbn; lia|]. split.
    - intros a Ha. cbn in *. apply lookup_singleton_ne. lia.
    - exists (MkEnt n None 0 None None None None), [].
      split_and!; first [done | apply lookup_singleton_eq | cbn; lia]. }
  destruct (scan_all_run es (Forall_true _ _ scans_all) m1 1 [] Ho1) as (m2 & Hr2 & Ho2 & Hk2);
    [cbn; lia|done|].
  rewrite (run_bind _ _ _ _ _ Hr2). cbn [app] in Ho2.
  destruct Ho2 as (Hcd & Hlt & Hb & e & l & He & Hp & Hc & Hf & Hla & Hcu & Hl & Hs).
  destruct Hk2 as (Hroot & _ & _ & Hx).
  destruct (Hx _ (lookup_singleton_eq _ _)) as (e' & He' & En & Ep & Epd & Enx).
  replace e' with e in * by congruence.
  unfold id_end_dir. rewrite (run_bind _ _ m2 m2 m2 eq_refl), Hcd.
  rewrite (run_bind _ _ _ _ _ (ent_run m2 1 e He)), Epd. cbn [m_pdir].
  rewrite (run_bind _ _ _ _ _ eq_refl).
  eexists _, e. split; [reflexivity|]. cbn. split_and!; [done|done|done|].
  apply hrep_dir. exists e. split_and!; [done|lia|done|done|]. by exists l.
Qed.

Lemma mkid_run contents n es t fuel :
  tree_of contents (HDir n es) = Some t -> nsize t < 2 ^ 32 -> (hweight (HDir n es) <= fuel)%nat ->
  mkid contents fuel (HDir n es) = Ok (enc_image t).
Proof.
  intros Ht Hsz Hf. destruct (scan_root n es) as (m & e & Hrun & Hroot & He & Hnx & Hrep);
    [by eapply tree_small|].
  unfold mkid. rewrite Hrun, Hroot. unfold id_write, write_header.
  assert (fwrite [ID_MAGIC0; ID_MAGIC1; ID_MAGIC2; 0] (MkFILE [] 0) =
    Ok (tt, MkFILE [ID_MAGIC0; ID_MAGIC1; ID_MAGIC2; 0] 4)) as Hh by done.
  rewrite (run_bind _ _ _ sizeof_id_header _) by (by rewrite (run_bind _ _ _ _ _ Hh)).
  rewrite (run_bind _ _ _ 1 _ eq_refl).
  pose proof (writes_all contents (ents m) (HDir n es) fuel 1 (mbrk m) sizeof_id_header
    [ID_MAGIC0; ID_MAGIC1; ID_MAGIC2; 0] t e Hf Hrep Ht He eq_refl) as Hw.
  cbn [write_node] in Hw. cbn [length] in Hw. rewrite Hw, Hnx. done.
Qed.

(** C21: The image builder and the kernel agree on the format: for every directory of the
    host, the tool ends with an image, and wherever a boot loader puts it in memory, the
    parser of the kernel ends and answers a root inode that carries exactly the files and
    directories packed, with their names, order and contents. *)
Theorem mkinitrd_roundtrip contents n es name ts fuel :
  tree_of contents (HDir n es) = Some (NDir name ts) -> node_ok (NDir name ts) ->
  nsize (NDir name ts) + 4 < 2 ^ 31 -> (hweight (HDir n es) <= fuel)%nat ->
  exists img, mkid contents fuel (HDir n es) = Ok img /\
  forall s disk fuel', 0 < disk < 2 ^ 31 -> mem_has (mem s) disk img -> bounded s ->
    fslist s = None -> nsize (NDir name ts) <= Z.of_nat fuel' ->
    exists root s', init_initrd fuel' disk s = Ok (root, s') /\
      carries (brk s) (inodes s') (lists s') (mem s) root (NDir name ts).
Proof.
  intros Ht Hok Hsz Hf. exists (enc_image (NDir name ts)). split; [by apply mkid_run; [|lia|]|].
  intros s disk fuel' Hd Hm Hb Hfs Hf'.
  destruct (init_initrd_run s disk name ts fuel') as (root & s' & Hrun & Hmem & _ & _ & _ & _ & Hc);
    [lia| |done..|].
  - unfold enc_image, zlen. rewrite length_app, Nat2Z.inj_add.
    pose proof (enc_length (NDir name ts) sizeof_id_header false) as Hel. unfold zlen in Hel.
    rewrite Hel. cbn [length]. lia.
  - exists root, s'. split; [done|]. by rewrite <- Hmem at 1.
Qed.

(** A directory with a file, a directory of one file, an empty one and a last file. *)
Definition demo_host : hnode :=
  HDir [114] [HFile [97] [1]; HDir [98] [HFile [99] [2]]; HDir [100] []; HFile [101] [2]].
Definition demo_contents (p : cstring) : option (list Z) :=
  if decide (p = [1]) then Some [10; 11; 12] else if decide (p = [2]) then Some [] else None.

Lemma mkinitrd_roundtrip_witness :
  exists img, mkid demo_contents 50 demo_host = Ok img /\
  forall s disk fuel', 0 < disk < 2 ^ 31 -> mem_has (mem s) disk img -> bounded s ->
    fslist s = None -> 200 <= Z.of_nat fuel' ->
    exists root s', init_initrd fuel' disk s = Ok (root, s') /\
      carries (brk s) (inodes s') (lists s') (mem s) root
        (NDir [114] [NFile [97] [10; 11; 12]; NDir [98] [NFile [99] []]; NDir [100] [];
                     NFile [101] []]).
Proof.
  destruct (mkinitrd_roundtrip demo_contents [114]
    [HFile [97] [1]; HDir [98] [HFile [99] [2]]; HDir [100] []; HFile [101] [2]]
    [114] [NFile [97] [10; 11; 12]; NDir [98] [NFile [99] []]; NDir [100] []; NFile [101] []] 50)
    as (img & Hrun & Hboot).
  - vm_compute. reflexivity.
  - cbn [node_ok foldr]. unfold string_ok, is_u8.
    repeat match goal with
    | |- _ /\ _ => split
    | |- True => done
    | |- Forall _ _ => constructor
    | |- _ <= _ => lia
    | |- _ < _ => lia
    | |- _ <> _ => lia
    end.
  - vm_compute. done.
  - vm_compute. lia.
  - exists img. split; [exact Hrun|]. intros s disk fuel' Hd Hm Hb Hfs Hf.
    apply Hboot; [done..|]. vm_compute nsize. lia.
Defined.
