(* ===== verification/Kmalloc.v ===== *)
(** * The kernel heap

    kernel/mm/kmalloc.c, with the execution contexts of [Kerror] it consults.  Memory
    blocks are described by nodes in three linked lists; the nodes live in pages of their own.
    Pages come from [km_alloc_range] of the virtual memory manager ([KernelRanges]): new
    ranges never overlap the ones handed out before; when memory is short it panics. *)

From S2P Require Import Prelude Page Kerror.

(** ** Data *)

Record mem_node := MkNode { size : Z; ptr : Z; next : option Z }.
Definition sizeof_mem_node : Z := 12.

(** [ranges]: the address ranges (start, length) taken from the virtual memory manager. *)
Record kheap := MkHeap {
  nodes : gmap Z mem_node;
  used_nodes : option Z;
  free_nodes : option Z;
  unused_nodes : option Z;
  ranges : list (Z * Z);
  data : gmap Z Z;
  cur_context : context;
}.

Definition set_nodes n h := MkHeap n (used_nodes h) (free_nodes h) (unused_nodes h) (ranges h) (data h) (cur_context h).
Definition set_used u h := MkHeap (nodes h) u (free_nodes h) (unused_nodes h) (ranges h) (data h) (cur_context h).
Definition set_free f h := MkHeap (nodes h) (used_nodes h) f (unused_nodes h) (ranges h) (data h) (cur_context h).
Definition set_unused u h := MkHeap (nodes h) (used_nodes h) (free_nodes h) u (ranges h) (data h) (cur_context h).
Definition set_ranges r h := MkHeap (nodes h) (used_nodes h) (free_nodes h) (unused_nodes h) r (data h) (cur_context h).
Definition set_data d h := MkHeap (nodes h) (used_nodes h) (free_nodes h) (unused_nodes h) (ranges h) d (cur_context h).
Definition set_context c h := MkHeap (nodes h) (used_nodes h) (free_nodes h) (unused_nodes h) (ranges h) (data h) c.

(** kernel/context.c on the context of the heap. *)
Definition cx_set (c : context) : M kheap unit := modify (set_context c).
Definition cx_allowed (a : action) : M kheap bool := gets (fun h => allowed (cur_context h) a).
Definition cx_assert_allowed (a : action) : M kheap unit :=
  b ← cx_allowed a; if (b : bool) then mret tt else panic.

(** Two ranges of bytes have no byte in common. *)
Definition apart (r1 r2 : Z * Z) : Prop := r1.1 + r1.2 <= r2.1 \/ r2.1 + r2.2 <= r1.1.

(** What the heap needs of [km_alloc_range(n)]. *)
Class KernelRanges := {
  new_range : list (Z * Z) -> Z -> option Z;
  new_range_fresh rs n a : 0 < n -> new_range rs n = Some a ->
    0 < a /\ a + n * PAGE_SIZE <= 2 ^ 32 /\ Forall (apart (a, n * PAGE_SIZE)) rs;
}.

Section kmalloc.
Context `{KernelRanges}.

Definition km_alloc_range (n : Z) : M kheap Z :=
  h ← get;
  match new_range (ranges h) n with
  | Some a => modify (set_ranges ((a, n * PAGE_SIZE) :: ranges h));; mret a
  | None => panic
  end.

Definition node_at (p : option Z) : M kheap mem_node :=
  h ← get; a ← deref p; deref (nodes h !! a).
Definition put_node (a : Z) (n : mem_node) : M kheap unit :=
  modify (fun h => set_nodes (<[a := n]> (nodes h)) h).

Inductive which := Used | Free | Unused.
Definition head (w : which) (h : kheap) : option Z :=
  match w with Used => used_nodes h | Free => free_nodes h | Unused => unused_nodes h end.
Definition set_head (w : which) (p : option Z) : M kheap unit :=
  modify (match w with Used => set_used p | Free => set_free p | Unused => set_unused p end).

Definition append_node (w : which) (a : Z) : M kheap unit :=
  h ← get;
  n ← node_at (Some a);
  put_node a (MkNode (size n) (ptr n) (head w h));;
  set_head w (Some a).

(** The nodes of a new page, zeroed. *)
Definition nodes_per_page : Z := PAGE_SIZE / sizeof_mem_node.
Definition create_unused_nodes : M kheap Z :=
  a ← km_alloc_range 1;
  mfor nodes_per_page (fun i => put_node (a + i * sizeof_mem_node) (MkNode 0 0 None));;
  mfor nodes_per_page (fun i => append_node Unused (a + i * sizeof_mem_node));;
  mret a.

(** A free node is taken as the new node, whatever memory it describes. *)
Definition create_node (sz p : Z) (is_free : bool) : M kheap Z :=
  h ← get;
  node ← (match free_nodes h with
          | None => create_unused_nodes
          | Some f => n ← node_at (Some f); set_head Free (next n);; mret f
          end);
  n ← node_at (Some node);
  put_node node (MkNode sz p (next n));;
  append_node (if is_free then Free else Used) node;;
  mret node.

(** The search for the first free node that is large enough: [(prev, cur)]. *)
Fixpoint search (fuel : nat) (sz : Z) (prev cur : option Z) : M kheap (option Z * option Z) :=
  match fuel with
  | O => fault
  | S fuel =>
      match cur with
      | None => mret (prev, None)
      | Some c =>
          n ← node_at cur;
          if size n >=? sz then mret (prev, cur) else search fuel sz cur (next n)
      end
  end.

(** [if (!prev) list = cur->next; else prev->next = cur->next]. *)
Definition unlink (w : which) (prev : option Z) (nx : option Z) : M kheap unit :=
  match prev with
  | None => set_head w nx
  | Some p => n ← node_at prev; put_node p (MkNode (size n) (ptr n) nx)
  end.

(** NULL is 0.  The lists hold every node at most once, so that the walks need at most as
    many steps as there are nodes. *)
Definition kmallocu (sz : Z) : M kheap Z :=
  cx_assert_allowed A_DYN_MEM;;
  if sz <? 1 then mret 0
  else
    h ← get;
    r ← search (S (length (map_to_list (nodes h)))) sz None (free_nodes h);
    match r with
    | (_, None) =>
        let num_pages := sz / PAGE_SIZE + (if truth (sz mod PAGE_SIZE) then 1 else 0) in
        p ← km_alloc_range num_pages;
        cur ← create_node sz p false;
        (if u32 (num_pages * PAGE_SIZE) >? sz
         then _ ← create_node (u32 (num_pages * PAGE_SIZE) - sz) (p + sz) true; mret tt
         else mret tt);;
        n ← node_at (Some cur);
        mret (ptr n)
    | (prev, Some cur) =>
        n ← node_at (Some cur);
        unlink Free prev (next n);;
        append_node Used cur;;
        n ← node_at (Some cur);
        (if size n >? sz
         then
           _ ← create_node (size n - sz) (ptr n + sz) true;
           n ← node_at (Some cur);
           put_node cur (MkNode sz (ptr n) (next n))
         else mret tt);;
        n ← node_at (Some cur);
        mret (ptr n)
    end.

(** [CONF_SAFE_KMALLOC] turns NULL into a panic. *)
Definition kmalloc (sz : Z) : M kheap Z :=
  if sz <? 1 then mret 0
  else p ← kmallocu sz; if p =? 0 then panic else mret p.

Fixpoint kfree_loop (fuel : nat) (p : Z) (prev cur : option Z) : M kheap unit :=
  match fuel with
  | O => fault
  | S fuel =>
      match cur with
      | None => mret tt
      | Some c =>
          n ← node_at cur;
          if ptr n =? p then unlink Used prev (next n);; append_node Free c
          else kfree_loop fuel p cur (next n)
      end
  end.
Definition kfree (p : Z) : M kheap unit :=
  h ← get; kfree_loop (S (length (map_to_list (nodes h)))) p None (used_nodes h).

Definition kmemset (p v n : Z) : M kheap unit :=
  modify (fun h => set_data (foldl (fun d i => <[p + i := v]> d) (data h) (seqZ 0 n)) h).
Definition kmemcpy (dst src n : Z) : M kheap unit :=
  modify (fun h => set_data (foldl (fun d i => <[dst + i := default 0 (data h !! (src + i))]> d)
                               (data h) (seqZ 0 n)) h).

Definition kcalloc (num sz : Z) : M kheap Z :=
  let block_size := u32 (num * sz) in
  p ← kmalloc block_size;
  (if p =? 0 then mret tt else kmemset p 0 block_size);;
  mret p.

Fixpoint find_used (fuel : nat) (p : Z) (cur : option Z) : M kheap Z :=
  match fuel with
  | O => fault
  | S fuel =>
      match cur with
      | None => mret 0
      | Some c =>
          n ← node_at cur;
          if ptr n =? p then mret (size n) else find_used fuel p (next n)
      end
  end.

Definition krealloc (p sz : Z) : M kheap Z :=
  if (p =? 0) && (sz =? 0) then mret 0
  else if p =? 0 then kmalloc sz
  else if sz =? 0 then kfree p;; mret 0
  else
    h ← get;
    origs ← find_used (S (length (map_to_list (nodes h)))) p (used_nodes h);
    if origs =? 0 then mret 0
    else
      new_ptr ← kmalloc sz;
      if new_ptr =? 0 then mret 0
      else
        kmemcpy new_ptr p (if sz >? origs then origs else sz);;
        kfree p;;
        mret new_ptr.
End kmalloc.

(** ** The lists *)

(** The nodes [l], in their order, are the list that starts at [p]. *)
Fixpoint nchain (m : gmap Z mem_node) (p : option Z) (l : list Z) : Prop :=
  match l with
  | [] => p = None
  | a :: l => p = Some a /\ exists n, m !! a = Some n /\ nchain m (next n) l
  end.

Lemma nchain_ext m m' l : forall p,
  nchain m p l -> (forall a n, a ∈ l -> m !! a = Some n -> exists n', m' !! a = Some n' /\ next n' = next n) ->
  nchain m' p l.
Proof.
  induction l as [|a l IH]; intros p Hc Hext; [done|].
  destruct Hc as (-> & n & Hn & Hc). split; [done|].
  destruct (Hext a n) as (n' & Hn' & Hnx); [left|done|]. exists n'. split; [done|].
  rewrite Hnx. apply IH; [done|]. intros b nb Hb. apply Hext. by right.
Qed.

Lemma nchain_insert m p l a n : nchain m p l -> a ∉ l -> nchain (<[a := n]> m) p l.
Proof.
  intros Hc Ha. eapply nchain_ext; [exact Hc|]. intros b nb Hb Hnb. exists nb.
  rewrite lookup_insert_ne by (intros ->; done). done.
Qed.

Lemma nchain_in m l : forall p a, nchain m p l -> a ∈ l -> is_Some (m !! a).
Proof.
  induction l as [|b l IH]; intros p a Hc Ha; [by apply not_elem_of_nil in Ha|].
  destruct Hc as (_ & n & Hn & Hc). apply elem_of_cons in Ha as [->|Ha]; eauto.
Qed.

Lemma nchain_length m p l :
  nchain m p l -> NoDup l -> (length l <= length (map_to_list m))%nat.
Proof.
  intros Hc Hnd. rewrite length_map_to_list, <- size_dom.
  rewrite <- (size_list_to_set (C := gset Z) l Hnd). apply subseteq_size.
  intros a Ha. apply elem_of_list_to_set in Ha. apply elem_of_dom. by eapply nchain_in.
Qed.

(** Taking [c] out of a list, its predecessor being the last of [l1]. *)
Lemma nchain_unlink m c n l2 l1 : forall p,
  nchain m p (l1 ++ c :: l2) -> NoDup (l1 ++ c :: l2) -> m !! c = Some n ->
  match last l1 with
  | None => l1 = [] /\ nchain m (next n) l2
  | Some q => exists nq, m !! q = Some nq /\
      nchain (<[q := MkNode (size nq) (ptr nq) (next n)]> m) p (l1 ++ l2)
  end.
Proof.
  induction l1 as [|a l1 IH]; intros p Hc Hnd Hn.
  - destruct Hc as (_ & n' & Hn' & Hc). simplify_eq. done.
  - destruct Hc as (-> & na & Hna & Hc). cbn [app] in Hnd. apply NoDup_cons in Hnd as [Ha Hnd].
    specialize (IH _ Hc Hnd Hn). rewrite last_cons. destruct (last l1) as [q|] eqn:El.
    + destruct IH as (nq & Hq & Hc'). exists nq. split; [done|]. split; [done|].
      exists na. split; [|done]. rewrite lookup_insert_ne; [done|].
      intros ->. apply Ha. apply last_Some_elem_of in El. set_solver.
    + destruct IH as (-> & Hc'). exists na. split; [done|]. cbn [app].
      split; [done|]. eexists. rewrite lookup_insert_eq. split; [done|]. cbn [next].
      apply nchain_insert; [done|]. set_solver.
Qed.

(** ** The invariant *)

Definition inside (r : Z * Z) (rs : list (Z * Z)) : Prop :=
  exists q, q ∈ rs /\ q.1 <= r.1 /\ r.1 + r.2 <= q.1 + q.2.

Definition block (h : kheap) (x : Z) : option (Z * Z) :=
  (fun n => (ptr n, size n)) <$> nodes h !! x.

(** [bs] are the blocks the nodes [l] describe: non-empty, in memory taken from the virtual
    memory manager, apart from each other and from every node. *)
Definition blocks_ok (h : kheap) (l : list Z) : Prop :=
  (forall x, x ∈ l -> exists b, block h x = Some b /\ 0 < b.2 /\ inside b (ranges h)) /\
  (forall x y b c, x ∈ l -> y ∈ l -> x <> y -> block h x = Some b -> block h y = Some c -> apart b c) /\
  (forall x y b, x ∈ l -> block h x = Some b -> is_Some (nodes h !! y) ->
     apart b (y, sizeof_mem_node)).

Definition nodes_inside (h : kheap) : Prop :=
  (forall y, is_Some (nodes h !! y) -> inside (y, sizeof_mem_node) (ranges h)) /\
  (forall r, r ∈ ranges h -> 0 < r.1).

Definition lists_ok (h : kheap) (U F : list Z) : Prop :=
  nchain (nodes h) (used_nodes h) U /\ nchain (nodes h) (free_nodes h) F /\ NoDup (U ++ F) /\
  nodes_inside h.

Definition heap_inv (h : kheap) (U F : list Z) : Prop :=
  lists_ok h U F /\ blocks_ok h (U ++ F).

(** A range apart from the ranges is apart from everything inside them. *)
Lemma apart_inside r b rs : Forall (apart r) rs -> inside b rs -> apart b r.
Proof.
  intros Hr (q & Hq & H1 & H2). rewrite Forall_forall in Hr. apply Hr in Hq as [|]; unfold apart; lia.
Qed.

(** Ranges are only added, and new nodes are in new ranges. *)
Definition evolves (h h' : kheap) : Prop :=
  data h' = data h /\ cur_context h' = cur_context h /\ (forall r, r ∈ ranges h -> r ∈ ranges h') /\
  (forall r, r ∈ ranges h' -> r ∉ ranges h -> 0 < r.1) /\
  (forall x, is_Some (nodes h' !! x) -> is_Some (nodes h !! x) \/
     exists r, r ∈ ranges h' /\ Forall (apart r) (ranges h) /\
       r.1 <= x /\ x + sizeof_mem_node <= r.1 + r.2).

Lemma evolves_refl h : evolves h h.
Proof. repeat split; auto. intros r H1 H2. done. Qed.

Lemma inside_mono b rs rs' : inside b rs -> (forall r, r ∈ rs -> r ∈ rs') -> inside b rs'.
Proof. intros (q & Hq & Hb) Hi. exists q. auto. Qed.

Lemma evolves_nodes_inside h h' : evolves h h' -> nodes_inside h -> nodes_inside h'.
Proof.
  intros (_ & _ & Hr & Hp & Hn) [Hi Hpos]. split.
  - intros y Hy. destruct (Hn y Hy) as [Hy'|(r & Hr' & _ & Hb)].
    + eapply inside_mono; [by apply Hi|done].
    + exists r. done.
  - intros r Hr'. destruct (decide (r ∈ ranges h)); auto.
Qed.

Section heap.
Context {K : KernelRanges}.

Lemma node_at_run h a n : nodes h !! a = Some n -> node_at (Some a) h = Ok (n, h).
Proof. intros Hn. unfold node_at, deref, mbind, M_bind, get, mret, M_ret. by rewrite Hn. Qed.

Definition with_head (w : which) (p : option Z) (h : kheap) : kheap :=
  match w with Used => set_used p h | Free => set_free p h | Unused => set_unused p h end.

Lemma append_node_run h w a n :
  nodes h !! a = Some n ->
  append_node w a h =
    Ok (tt, with_head w (Some a)
              (set_nodes (<[a := MkNode (size n) (ptr n) (head w h)]> (nodes h)) h)).
Proof.
  intros Hn. unfold append_node. rewrite (run_bind _ _ h h h eq_refl).
  rewrite (run_bind _ _ _ _ _ (node_at_run h a n Hn)), (run_bind _ _ _ _ _ eq_refl).
  by destruct w.
Qed.

(** The new page is full of nodes; lists and old nodes are as before. *)
Definition page_added (h : kheap) (a : Z) (h' : kheap) : Prop :=
  used_nodes h' = used_nodes h /\ free_nodes h' = free_nodes h /\ nodes h ⊆ nodes h' /\
  ranges h' = (a, PAGE_SIZE) :: ranges h /\ data h' = data h /\ cur_context h' = cur_context h /\
  (forall x, is_Some (nodes h' !! x) -> is_Some (nodes h !! x) \/ a <= x /\ x + 12 <= a + PAGE_SIZE).

Lemma page_node i : 0 <= i < nodes_per_page -> 0 <= i * sizeof_mem_node /\
  i * sizeof_mem_node + 12 <= PAGE_SIZE.
Proof.
  change nodes_per_page with 341. unfold sizeof_mem_node. rewrite PAGE_SIZE_eq. lia.
Qed.

(** A node of the new page may change without harm. *)
Lemma page_added_insert h a h1 h2 i n :
  page_added h a h1 -> (forall x, a <= x -> x + 12 <= a + PAGE_SIZE -> nodes h !! x = None) ->
  0 <= i < nodes_per_page -> nodes h2 = <[a + i * sizeof_mem_node := n]> (nodes h1) ->
  used_nodes h2 = used_nodes h1 -> free_nodes h2 = free_nodes h1 -> ranges h2 = ranges h1 ->
  data h2 = data h1 -> cur_context h2 = cur_context h1 -> page_added h a h2.
Proof.
  intros (Hu & Hf & Hsub & Hr & Hd & Hc & Hin) Hfree Hi Hn E1 E2 E3 E4 E5.
  pose proof (page_node i Hi). split; [congruence|]. split; [congruence|].
  split; [|split; [congruence|split; [congruence|split; [congruence|]]]].
  - apply map_subseteq_spec. intros x nx Hx. rewrite Hn, lookup_insert_ne.
    + by eapply lookup_weaken.
    + intros <-. rewrite Hfree in Hx by lia. done.
  - intros x Hx. rewrite Hn in Hx. destruct (decide (x = a + i * sizeof_mem_node)) as [->|Hne];
      [right; lia|]. rewrite lookup_insert_ne in Hx by done. auto.
Qed.

Definition page_full (h : kheap) (a k : Z) : Prop :=
  forall i, 0 <= i < k -> is_Some (nodes h !! (a + i * sizeof_mem_node)).

Lemma page_full_insert h1 h2 a k i n :
  page_full h1 a k -> nodes h2 = <[a + i * sizeof_mem_node := n]> (nodes h1) -> page_full h2 a k.
Proof.
  intros Hall Hn j Hj. rewrite Hn. destruct (decide (j = i)) as [->|Hne]; [rewrite lookup_insert_eq; eauto|].
  rewrite lookup_insert_ne by (unfold sizeof_mem_node; lia). apply Hall. lia.
Qed.

Lemma km_alloc_range_run h n :
  0 < n ->
  match km_alloc_range n h with
  | Ok (a, h') => h' = set_ranges ((a, n * PAGE_SIZE) :: ranges h) h /\ 0 < a /\
                  a + n * PAGE_SIZE <= 2 ^ 32 /\ Forall (apart (a, n * PAGE_SIZE)) (ranges h)
  | Panic => True
  | Fault => False
  end.
Proof.
  intros Hn. unfold km_alloc_range, mbind, M_bind, get.
  destruct (new_range (ranges h) n) as [a|] eqn:Ea; [|done]. cbn. split; [done|].
  by apply (new_range_fresh _ _ _ Hn Ea).
Qed.

Lemma create_unused_nodes_run h :
  nodes_inside h ->
  match create_unused_nodes h with
  | Ok (a, h') => page_added h a h' /\ is_Some (nodes h' !! a) /\ nodes h !! a = None /\
                  0 < a /\ Forall (apart (a, PAGE_SIZE)) (ranges h)
  | Panic => True
  | Fault => False
  end.
Proof.
  intros [Hni _]. unfold create_unused_nodes. unfold mbind at 1, M_bind.
  pose proof (km_alloc_range_run h 1 ltac:(lia)) as Hr. rewrite Z.mul_1_l in Hr.
  destruct (km_alloc_range 1 h) as [[a h0]| |]; [|done|done].
  destruct Hr as (Hh0 & Hpos & Hend & Hap).
  assert (forall x, a <= x -> x + 12 <= a + PAGE_SIZE -> nodes h !! x = None) as Hfree.
  { intros x H1 H2. destruct (nodes h !! x) as [n|] eqn:E; [|done].
    assert (apart (x, sizeof_mem_node) (a, PAGE_SIZE)) as [Hx|Hx]
      by (eapply apart_inside; [exact Hap|apply Hni; eauto]);
      unfold sizeof_mem_node in Hx; cbn in Hx; lia. }
  assert (page_added h a h0) as H0 by (rewrite Hh0; repeat split; auto).
  destruct (mfor_total (fun i => put_node (a + i * sizeof_mem_node) (MkNode 0 0 None))
    (fun k h' => page_added h a h' /\ page_full h' a k) nodes_per_page h0)
    as (h1 & Hrun1 & Hp1 & Hf1).
  - done.
  - split; [done|]. intros i Hi. lia.
  - intros i h1 Hi [Hp Hf]. eexists. split; [reflexivity|]. split.
    + by eapply page_added_insert.
    + intros j Hj. cbn. destruct (decide (j = i)) as [->|Hne]; [rewrite lookup_insert_eq; eauto|].
      rewrite lookup_insert_ne by (unfold sizeof_mem_node; lia). apply Hf. lia.
  - rewrite (run_bind _ _ _ _ _ Hrun1).
    destruct (mfor_total (fun i => append_node Unused (a + i * sizeof_mem_node))
      (fun k h' => page_added h a h' /\ page_full h' a nodes_per_page) nodes_per_page h1)
      as (h2 & Hrun2 & Hp2 & Hf2).
    + done.
    + done.
    + intros i h2 Hi [Hp Hf]. destruct (Hf i Hi) as [n Hn]. rewrite (append_node_run _ _ _ _ Hn).
      eexists. split; [reflexivity|]. split; [by eapply page_added_insert|by eapply page_full_insert].
    + rewrite (run_bind _ _ _ _ _ Hrun2). cbn. split; [done|]. split; [|split; [|done]].
      * destruct (Hf2 0) as [n Hn]; [done|]. rewrite Z.mul_0_l, Z.add_0_r in Hn. eauto.
      * apply Hfree; [lia|]. rewrite PAGE_SIZE_eq. lia.
Qed.

Lemma NoDup_app_cons (n : Z) U F : NoDup (U ++ F) -> n ∉ U ++ F -> NoDup ((n :: U) ++ F) /\ NoDup (U ++ n :: F).
Proof.
  intros Hnd Hn. split; [by apply NoDup_cons|].
  rewrite <- (Permutation_middle U F n). by apply NoDup_cons.
Qed.

(** Filling in a node that is in no list and putting it at the head of one. *)
Lemma finish_node_run h U F n n0 sz p (is_free : bool) :
  lists_ok h U F -> n ∉ U ++ F -> nodes h !! n = Some n0 ->
  exists h', (put_node n (MkNode sz p (next n0));;
              append_node (if is_free then Free else Used) n;; mret n) h = Ok (n, h') /\
    lists_ok h' (if is_free then U else n :: U) (if is_free then n :: F else F) /\
    (exists nx, nodes h' !! n = Some (MkNode sz p nx)) /\
    (forall x, x <> n -> nodes h' !! x = nodes h !! x) /\
    ranges h' = ranges h /\ data h' = data h /\ cur_context h' = cur_context h.
Proof.
  intros (HU & HF & Hnd & Hni) Hn Hn0.
  rewrite (run_bind _ _ _ _ _ eq_refl).
  rewrite (run_bind _ _ _ _ _ (append_node_run _ _ _ _ (lookup_insert_eq _ _ _))).
  eexists. split; [reflexivity|].
  destruct (NoDup_app_cons _ _ _ Hnd Hn) as [Hnd1 Hnd2].
  assert (n ∉ U /\ n ∉ F) as [HnU HnF] by set_solver.
  assert (forall m, nodes_inside h ->
    nodes_inside (set_nodes (<[n := m]> (<[n := MkNode sz p (next n0)]> (nodes h))) h)) as Hin.
  { intros m [Hi Hp]. split; [|done]. cbn. intros y Hy. apply Hi.
    destruct (decide (y = n)) as [->|]; [eauto|]. by rewrite !lookup_insert_ne in Hy. }
  assert (forall p0 m l, n ∉ l -> nchain (nodes h) p0 l ->
    nchain (<[n := m]> (<[n := MkNode sz p (next n0)]> (nodes h))) p0 l) as Hother
    by (intros; by repeat apply nchain_insert).
  assert (forall p0 m l, n ∉ l -> nchain (nodes h) p0 l -> next m = p0 ->
    nchain (<[n := m]> (<[n := MkNode sz p (next n0)]> (nodes h))) (Some n) (n :: l)) as Hhead.
  { intros p0 m l Hl Hc <-. split; [done|]. exists m. rewrite lookup_insert_eq. auto. }
  split; [|split; [|split]].
  - destruct is_free; (split; [|split; [|split; [done|by apply Hin]]]); cbn;
      first [by apply Hother | by eapply Hhead].
  - destruct is_free; eexists; apply lookup_insert_eq.
  - intros x Hx. destruct is_free; cbn; by rewrite !lookup_insert_ne by done.
  - by destruct is_free.
Qed.

Lemma create_node_run h U F sz p (is_free : bool) :
  lists_ok h U F ->
  match create_node sz p is_free h with
  | Ok (n, h') =>
      lists_ok h' (if is_free then U else n :: U) (if is_free then n :: tail F else tail F) /\
      n ∉ U ++ tail F /\ (nodes h !! n = None \/ n ∈ F) /\
      (exists nx, nodes h' !! n = Some (MkNode sz p nx)) /\
      (forall x nx, x <> n -> nodes h !! x = Some nx -> nodes h' !! x = Some nx) /\
      evolves h h'
  | Panic => True
  | Fault => False
  end.
Proof.
  intros (HU & HF & Hnd & Hni). unfold create_node. rewrite (run_bind _ _ h h h eq_refl).
  destruct F as [|f F]; cbn [tail].
  - cbn in HF. rewrite HF. unfold mbind at 1, M_bind.
    pose proof (create_unused_nodes_run h Hni) as Hc.
    destruct (create_unused_nodes h) as [[n h1]| |]; [|done|done].
    destruct Hc as ((Eu & Ef & Hsub & Hr & Hd & Hcx & Hnew) & [n0 Hn0] & Hfresh & Hpos & Hap).
    assert (evolves h h1) as Hev.
    { split_and!; try done.
      - intros r Hr'. rewrite Hr. by right.
      - intros r Hr' Hr''. rewrite Hr in Hr'. apply elem_of_cons in Hr' as [->|]; done.
      - intros x Hx. destruct (Hnew x Hx) as [|Hx']; [by left|right].
        exists (n, PAGE_SIZE). rewrite Hr. split; [left|]. split; [done|]. unfold sizeof_mem_node. exact Hx'. }
    assert (n ∉ U ++ []) as Hn.
    { rewrite app_nil_r. intros Hin. destruct (nchain_in _ _ _ _ HU Hin). congruence. }
    assert (lists_ok h1 U []) as Hl1.
    { split_and!; [|by rewrite Ef|done|by eapply evolves_nodes_inside].
      rewrite Eu. eapply nchain_ext; [exact HU|]. intros a na _ Ha. exists na.
      split; [by eapply lookup_weaken|done]. }
    rewrite (run_bind _ _ _ _ _ (node_at_run _ _ _ Hn0)).
    destruct (finish_node_run h1 U [] n n0 sz p is_free Hl1 Hn Hn0)
      as (h2 & Hrun & Hl2 & Hnode & Hsame & Hr2 & Hd2 & Hc2).
    match goal with |- match ?c with _ => _ end => replace c with (Ok (n, h2)) by (symmetry; exact Hrun) end.
    split_and!; try done; [by left| |].
    + intros x nx Hx Hnx. rewrite Hsame by done. by eapply lookup_weaken.
    + destruct Hev as (E1 & E2 & E3 & E4 & E5). split_and!; [congruence|congruence| | |].
      * by rewrite Hr2.
      * by rewrite Hr2.
      * intros x Hx. rewrite Hr2. apply E5. destruct (decide (x = n)) as [->|]; [eauto|].
        by rewrite <- Hsame.
  - destruct HF as (HF & n0 & Hn0 & Hch). rewrite HF.
    rewrite (run_bind _ _ h f (set_free (next n0) h))
      by (by rewrite (run_bind _ _ _ _ _ (node_at_run _ _ _ Hn0))).
    assert (f ∉ U ++ F /\ NoDup (U ++ F)) as [Hn Hnd'].
    { rewrite <- (Permutation_middle U F f) in Hnd. by apply NoDup_cons in Hnd. }
    rewrite (run_bind _ _ _ _ _ (node_at_run (set_free (next n0) h) f n0 Hn0)).
    destruct (finish_node_run (set_free (next n0) h) U F f n0 sz p is_free) as
      (h2 & Hrun & Hl2 & Hnode & Hsame & Hr2 & Hd2 & Hc2); [done|done|done|].
    rewrite Hrun. split_and!; try done; [right; left| |].
    + intros x nx Hx Hnx. by rewrite Hsame.
    + split_and!; [done|done|by rewrite Hr2| |].
      * intros r H1 H2. rewrite Hr2 in H1. done.
      * intros x Hx. left. destruct (decide (x = f)) as [->|]; [eauto|]. by rewrite Hsame in Hx.
Qed.

(** ** Blocks *)

Definition within (b c : Z * Z) : Prop := c.1 <= b.1 /\ b.1 + b.2 <= c.1 + c.2.

Lemma apart_within b c d : within b c -> apart c d -> apart b d.
Proof. unfold within, apart. lia. Qed.
Lemma apart_sym b c : apart b c -> apart c b.
Proof. unfold apart. lia. Qed.
Lemma inside_within b c rs : within b c -> inside c rs -> inside b rs.
Proof. intros [? ?] (q & Hq & H1 & H2). exists q. split; [done|]. lia. Qed.

Lemma blocks_ok_sub h l l' : (forall x, x ∈ l' -> x ∈ l) -> blocks_ok h l -> blocks_ok h l'.
Proof.
  intros Hs (H1 & H2 & H3). split_and!; [by auto| |].
  - intros x y b c Hx Hy. apply H2; auto.
  - intros x y b Hx. apply H3. auto.
Qed.

(** Part of an old block is apart from every node, old or new. *)
Lemma old_block_nodes h h' l y b c :
  blocks_ok h l -> evolves h h' -> y ∈ l -> block h y = Some c -> within b c ->
  forall z, is_Some (nodes h' !! z) -> apart b (z, sizeof_mem_node).
Proof.
  intros (H1 & _ & H3) (_ & _ & _ & _ & Hn) Hy Hc Hw z Hz. apply (apart_within _ c); [done|].
  destruct (Hn z Hz) as [Hz'|(r & _ & Hr & Hb)]; [by eapply H3|].
  destruct (H1 y Hy) as (c' & Hc' & _ & Hi). assert (c' = c) as -> by congruence.
  pose proof (apart_inside _ _ _ Hr Hi). unfold apart, sizeof_mem_node in *. cbn in *. lia.
Qed.

Lemma blocks_ok_old h h' l o :
  blocks_ok h l -> evolves h h' -> (forall x, x ∈ o -> x ∈ l /\ block h' x = block h x) ->
  blocks_ok h' o.
Proof.
  intros Hb Hev Ho. pose proof Hb as (H1 & H2 & H3). pose proof Hev as (_ & _ & Hr & _).
  split_and!.
  - intros x Hx. destruct (Ho x Hx) as [Hx' ->]. destruct (H1 x Hx') as (b & Hb' & Hpos & Hi).
    exists b. split_and!; [done|done|]. by eapply inside_mono.
  - intros x y b c Hx Hy Hne. destruct (Ho x Hx) as [Hx' ->]. destruct (Ho y Hy) as [Hy' ->].
    by apply H2.
  - intros x y b Hx. destruct (Ho x Hx) as [Hx' ->]. intros Hbx.
    apply (old_block_nodes h h' l x b b); try done.
Qed.

Lemma blocks_ok_cons h o x b :
  blocks_ok h o -> x ∉ o -> block h x = Some b -> 0 < b.2 -> inside b (ranges h) ->
  (forall y c, y ∈ o -> block h y = Some c -> apart b c) ->
  (forall z, is_Some (nodes h !! z) -> apart b (z, sizeof_mem_node)) -> blocks_ok h (x :: o).
Proof.
  intros (H1 & H2 & H3) Hx Hb Hpos Hin Hap Hnd. split_and!.
  - intros y [->|Hy]%elem_of_cons; eauto.
  - intros y z c d Hy Hz Hne Hc Hd. apply elem_of_cons in Hy as [->|Hy], Hz as [->|Hz].
    + done.
    + assert (c = b) as -> by congruence. eauto.
    + assert (d = b) as -> by congruence. apply apart_sym. eauto.
    + by eapply (H2 y z).
  - intros y z c [->|Hy]%elem_of_cons Hc; [|by apply H3 with y].
    assert (c = b) as -> by congruence. apply Hnd.
Qed.

Lemma evolves_trans h1 h2 h3 : evolves h1 h2 -> evolves h2 h3 -> evolves h1 h3.
Proof.
  intros (D1 & C1 & R1 & P1 & N1) (D2 & C2 & R2 & P2 & N2). split_and!; [congruence|congruence|auto| |].
  - intros r H1 H2. destruct (decide (r ∈ ranges h2)); auto.
  - intros x Hx. destruct (N2 x Hx) as [Hx'|(r & Hr & Hap & Hb)].
    + destruct (N1 x Hx') as [|(r & Hr & Hap & Hb)]; [by left|]. right. exists r. auto.
    + right. exists r. split; [done|]. split; [|done]. rewrite Forall_forall in *. auto.
Qed.

(** ** Moving a node from one list to the other *)

Definition other (w : which) : which := match w with Used => Free | Free => Used | Unused => Unused end.

Lemma block_next (m : gmap Z mem_node) (a : Z) n nx :
  m !! a = Some n -> forall x, (fun n => (ptr n, size n)) <$> <[a := MkNode (size n) (ptr n) nx]> m !! x =
    (fun n => (ptr n, size n)) <$> m !! x.
Proof.
  intros Hn x. destruct (decide (x = a)) as [->|]; [|by rewrite lookup_insert_ne].
  by rewrite lookup_insert_eq, Hn.
Qed.

Lemma move_node_run h w c n l1 l2 l :
  w <> Unused -> nchain (nodes h) (head w h) (l1 ++ c :: l2) -> nchain (nodes h) (head (other w) h) l ->
  NoDup (l1 ++ c :: l2) -> NoDup l -> (forall x, x ∈ l -> x ∉ l1 ++ c :: l2) ->
  nodes h !! c = Some n ->
  exists h', (unlink w (last l1) (next n);; append_node (other w) c) h = Ok (tt, h') /\
    nchain (nodes h') (head w h') (l1 ++ l2) /\ nchain (nodes h') (head (other w) h') (c :: l) /\
    (forall x, block h' x = block h x) /\
    ranges h' = ranges h /\ data h' = data h /\ cur_context h' = cur_context h.
Proof.
  intros Hw Hl Ho Hnd Hnd' Hdis Hn. pose proof (nchain_unlink _ _ _ _ _ _ Hl Hnd Hn) as Hu.
  assert (c ∉ l1 ++ l2 /\ c ∉ l) as [Hc1 Hc2].
  { rewrite <- (Permutation_middle l1 l2 c) in Hnd. apply NoDup_cons in Hnd as [? _].
    split; [done|]. intros Hc. by apply (Hdis c Hc), elem_of_app; right; left. }
  assert (exists h1 n1, unlink w (last l1) (next n) h = Ok (tt, h1) /\ nodes h1 !! c = Some n1 /\
    nchain (nodes h1) (head w h1) (l1 ++ l2) /\ nchain (nodes h1) (head (other w) h1) l /\
    (forall x, block h1 x = block h x) /\
    ranges h1 = ranges h /\ data h1 = data h /\ cur_context h1 = cur_context h)
    as (h1 & n1 & Hrun & Hn1 & Hl1 & Ho1 & Hb1 & Hr1 & Hd1 & Hx1).
  { unfold unlink. destruct (last l1) as [q|] eqn:El.
    - destruct Hu as (nq & Hq & Hch). rewrite (run_bind _ _ _ _ _ (node_at_run _ _ _ Hq)).
      assert (q ∈ l1) as Hq1 by (by apply last_Some_elem_of).
      eexists _, n. split; [reflexivity|]. cbn. split.
      { rewrite lookup_insert_ne; [done|]. intros ->. apply Hc1. set_solver. }
      split; [by destruct w|]. split.
      { assert (q ∉ l) by (intros Hq'; apply (Hdis q Hq'); set_solver).
        destruct w; by apply nchain_insert. }
      split; [|done]. intros x. unfold block. cbn. by apply block_next.
    - destruct Hu as [-> Hch]. eexists _, n. split; [reflexivity|].
      destruct w; cbn; split_and!; done. }
  rewrite (run_bind _ _ _ _ _ Hrun), (append_node_run _ _ _ _ Hn1).
  eexists. split; [reflexivity|].
  assert (forall p m k, c ∉ k -> nchain (nodes h1) p k -> nchain (<[c := m]> (nodes h1)) p k) as Hoth
    by (intros; by apply nchain_insert).
  split; [destruct w; cbn; by apply Hoth|]. split.
  { destruct w; cbn; (split; [done|]); eexists; rewrite lookup_insert_eq; split; try done; cbn;
      by apply Hoth. }
  split; [|by destruct w]. intros x. rewrite <- Hb1. unfold block.
  destruct w; cbn; by apply block_next.
Qed.

(** ** Allocation *)

Lemma search_run h sz l : forall fuel prev p,
  nchain (nodes h) p l -> (length l < fuel)%nat ->
  exists q c, search fuel sz prev p h = Ok ((q, c), h) /\
    match c with
    | None => True
    | Some c => exists l1 l2 n, l = l1 ++ c :: l2 /\ nodes h !! c = Some n /\ sz <= size n /\
                  q = match last l1 with Some a => Some a | None => prev end
    end.
Proof.
  induction l as [|a l IH]; intros [|fuel] prev p Hc Hf; cbn [length] in Hf; try lia.
  - cbn in Hc. subst p. by exists prev, None.
  - destruct Hc as (-> & n & Hn & Hc). cbn [search].
    rewrite (run_bind _ _ _ _ _ (node_at_run _ _ _ Hn)).
    destruct (Z.geb_spec (size n) sz).
    + exists prev, (Some a). split; [done|]. exists [], l, n. split_and!; [done|done|lia|done].
    + destruct (IH fuel (Some a) (next n) Hc) as (q & c & Hrun & Hres); [lia|].
      exists q, c. split; [done|]. destruct c as [c|]; [|done].
      destruct Hres as (l1 & l2 & m & -> & Hm & Hsz & ->). exists (a :: l1), l2, m.
      split_and!; try done. rewrite last_cons. by destruct (last l1).
Qed.

(** The state after an allocation: the new block is live, the other live blocks are as
    before, and the invariant holds. *)
Definition allocated (h : kheap) (U : list Z) (sz p : Z) (h' : kheap) : Prop :=
  exists n F', heap_inv h' (n :: U) F' /\ n ∉ U /\ block h' n = Some (p, sz) /\
    (forall x, x ∈ U -> block h' x = block h x) /\ data h' = data h /\ cur_context h' = cur_context h.

Lemma block_node h x n : nodes h !! x = Some n -> block h x = Some (ptr n, size n).
Proof. intros Hn. unfold block. by rewrite Hn. Qed.

Lemma block_kept h h' x b :
  (forall nx, nodes h !! x = Some nx -> nodes h' !! x = Some nx) ->
  block h x = Some b -> block h' x = block h x.
Proof.
  intros Hk Hb. unfold block in *. destruct (nodes h !! x) as [n|] eqn:E; [|done].
  by rewrite (Hk n eq_refl).
Qed.

(** Shrinking the block of a node of the used list. *)
Lemma shrink_run h U F c n sz :
  lists_ok h U F -> nodes h !! c = Some n ->
  let h' := set_nodes (<[c := MkNode sz (ptr n) (next n)]> (nodes h)) h in
  lists_ok h' U F /\ evolves h h' /\ block h' c = Some (ptr n, sz) /\
  (forall x, x <> c -> block h' x = block h x).
Proof.
  intros (HU & HF & Hnd & Hni) Hn h'.
  assert (forall p l, nchain (nodes h) p l -> nchain (nodes h') p l) as Hch.
  { intros p l Hl. eapply nchain_ext; [exact Hl|]. intros a na _ Ha. cbn.
    destruct (decide (a = c)) as [->|].
    - assert (na = n) as -> by congruence. eexists. rewrite lookup_insert_eq. done.
    - exists na. by rewrite lookup_insert_ne. }
  assert (evolves h h') as Hev.
  { split_and!; try done. intros x Hx. left. cbn in Hx.
    destruct (decide (x = c)) as [->|]; [eauto|]. by rewrite lookup_insert_ne in Hx. }
  split_and!; [split_and!|done| |].
  - by apply Hch.
  - by apply Hch.
  - done.
  - by eapply evolves_nodes_inside.
  - unfold block. cbn. by rewrite lookup_insert_eq.
  - intros x Hx. unfold block. cbn. by rewrite lookup_insert_ne.
Qed.

(** Splitting the used block [c]: its first [sz] bytes stay, the rest becomes a free block. *)
Lemma split_block_run h U F c n sz :
  heap_inv h (c :: U) F -> nodes h !! c = Some n -> 0 < sz < size n ->
  match (_ ← create_node (size n - sz) (ptr n + sz) true;
         n ← node_at (Some c);
         put_node c (MkNode sz (ptr n) (next n))) h with
  | Ok (_, h') => allocated h U sz (ptr n) h' /\
                  exists n', nodes h' !! c = Some n' /\ ptr n' = ptr n
  | Panic => True
  | Fault => False
  end.
Proof.
  intros [Hl Hb] Hn Hsz. unfold mbind at 1, M_bind.
  pose proof (create_node_run h (c :: U) F (size n - sz) (ptr n + sz) true Hl) as Hc.
  destruct (create_node _ _ _ h) as [[m h2]| |]; [|done|done].
  destruct Hc as (Hl2 & Hm & _ & (nx & Hnm) & Hkeep & Hev2).
  assert (m <> c /\ m ∉ U /\ m ∉ tail F) as (Hmc & HmU & HmF) by set_solver.
  assert (nodes h2 !! c = Some n) as Hn2 by (by apply Hkeep).
  rewrite (run_bind _ _ _ _ _ (node_at_run _ _ _ Hn2)).
  destruct (shrink_run h2 (c :: U) (m :: tail F) c n sz Hl2 Hn2) as (Hl3 & Hev3 & Hc3 & Hsame3).
  cbn. set (h3 := set_nodes _ h2) in *.
  assert (evolves h h3) as Hev by (by eapply evolves_trans).
  split; [|eexists; cbn; rewrite lookup_insert_eq; done].
  destruct Hl as (HU & HF & Hnd & _). cbn [app] in Hnd. apply NoDup_cons in Hnd as [HcUF HndUF].
  assert (forall x, x ∈ tail F -> x ∈ F) as Htl by (destruct F; [done|by right]).
  assert (forall x, x ∈ U ++ tail F -> x ∈ (c :: U) ++ F /\ block h3 x = block h x) as Hold.
  { intros x Hx. assert (x ∈ U ++ F) as Hx' by set_solver.
    assert (x <> c) by (intros ->; done). assert (x <> m) by set_solver.
    split; [set_solver|]. rewrite Hsame3 by done.
    destruct Hb as (Hb & _). destruct (Hb x) as (b & Hbx & _); [set_solver|].
    eapply block_kept; [|exact Hbx]. intros; by apply Hkeep. }
  pose proof (blocks_ok_old h h3 _ _ Hb Hev Hold) as Hb3.
  assert (block h c = Some (ptr n, size n)) as Hcb by (by apply block_node).
  assert (c ∈ (c :: U) ++ F) as Hcin by (left).
  destruct Hb as (Hb1 & Hb2 & Hb3').
  destruct (Hb1 c Hcin) as (cb & Hcb' & _ & Hcin'). assert (cb = (ptr n, size n)) as -> by congruence.
  pose proof (conj Hb1 (conj Hb2 Hb3') : blocks_ok h ((c :: U) ++ F)) as Hb.
  set (bc := (ptr n, sz)) in *. set (bm := (ptr n + sz, size n - sz)).
  assert (within bc (ptr n, size n) /\ within bm (ptr n, size n)) as [Hwc Hwm]
    by (unfold within; cbn; lia).
  assert (block h3 m = Some bm) as Hbm
    by (rewrite Hsame3 by done; by rewrite (block_node _ _ _ Hnm)).
  assert (forall b, within b (ptr n, size n) ->
    inside b (ranges h3) /\
    (forall y d, y ∈ U ++ tail F -> block h3 y = Some d -> apart b d) /\
    (forall z, is_Some (nodes h3 !! z) -> apart b (z, sizeof_mem_node))) as Hpart.
  { intros b Hw. destruct Hev as (E1 & E2 & E3 & E4 & E5). split_and!.
    - eapply inside_mono; [by eapply inside_within|done].
    - intros y d Hy Hd. destruct (Hold y Hy) as [Hy' Hyb]. rewrite Hyb in Hd.
      apply (apart_within _ (ptr n, size n)); [done|]. apply (Hb2 c y); [done|done| |done|done].
      intros ->. apply HcUF. set_solver.
    - eapply old_block_nodes; [exact Hb|by split_and!|exact Hcin|done|done]. }
  destruct (Hpart bc Hwc) as (Hic & Hac & Hnc). destruct (Hpart bm Hwm) as (Him & Ham & Hnm').
  assert (blocks_ok h3 (m :: U ++ tail F)) as Hbm3.
  { apply blocks_ok_cons with bm; try done; [set_solver|cbn; lia]. }
  assert (blocks_ok h3 (c :: m :: U ++ tail F)) as Hbc3.
  { apply blocks_ok_cons with bc; try done; [set_solver|cbn; lia|].
    intros y d [->|Hy]%elem_of_cons Hd; [|by apply (Hac y d)].
    assert (d = bm) as -> by congruence. unfold apart. cbn. lia. }
  exists c, (m :: tail F). split_and!.
  - split; [done|]. eapply blocks_ok_sub; [|exact Hbc3]. intros x Hx. set_solver.
  - set_solver.
  - done.
  - intros x Hx. destruct (Hold x) as [_ ->]; [set_solver|done].
  - destruct Hev as (-> & _). done.
  - destruct Hev as (_ & -> & _). done.
Qed.

(** A block inside a range that is new to [h] is apart from the old blocks and from every
    node, the old ones and the ones made later. *)
Lemma new_range_block h h1 h' r b l :
  blocks_ok h l -> nodes_inside h -> h1 = set_ranges (r :: ranges h) h ->
  Forall (apart r) (ranges h) -> within b r -> evolves h1 h' ->
  inside b (ranges h') /\ (forall y c, y ∈ l -> block h y = Some c -> apart b c) /\
  (forall z, is_Some (nodes h' !! z) -> apart b (z, sizeof_mem_node)).
Proof.
  intros (H1 & _) [Hni _] -> Hr Hw (_ & _ & Hrs & _ & Hn). split_and!.
  - exists r. split; [apply Hrs; left|]. exact Hw.
  - intros y c Hy Hc. destruct (H1 y Hy) as (c' & Hc' & _ & Hi). assert (c' = c) as -> by congruence.
    apply (apart_within _ r); [done|]. apply apart_sym. by eapply apart_inside.
  - intros z Hz. apply (apart_within _ r); [done|]. destruct (Hn z Hz) as [Hz'|(q & _ & Hq & Hb)].
    + apply apart_sym. eapply apart_inside; [exact Hr|]. by apply Hni.
    + cbn in Hq. inv Hq. unfold apart, sizeof_mem_node in *. cbn in *. lia.
Qed.

Lemma evolves_range h r : 0 < r.1 -> evolves h (set_ranges (r :: ranges h) h).
Proof.
  intros Hr. split_and!; try done; [by right| |by left].
  intros q Hq Hq'. cbn in Hq. apply elem_of_cons in Hq as [->|]; done.
Qed.

Definition pages_for (sz : Z) : Z := sz / PAGE_SIZE + (if truth (sz mod PAGE_SIZE) then 1 else 0).

Lemma pages_for_bound sz :
  0 < sz < 2 ^ 31 -> 0 < pages_for sz /\ sz <= pages_for sz * PAGE_SIZE < 2 ^ 32.
Proof.
  intros Hsz. unfold pages_for, truth. rewrite PAGE_SIZE_eq.
  destruct (Z.eqb_spec (sz mod 4096) 0); cbn [negb]; dlia.
Qed.

(** Old nodes keep their blocks over a [create_node] that takes another node. *)
Lemma new_block_run h U F sz :
  heap_inv h U F -> 0 < sz < 2 ^ 31 ->
  match (p ← km_alloc_range (pages_for sz);
         cur ← create_node sz p false;
         (if u32 (pages_for sz * PAGE_SIZE) >? sz
          then _ ← create_node (u32 (pages_for sz * PAGE_SIZE) - sz) (p + sz) true; mret tt
          else mret tt);;
         n ← node_at (Some cur);
         mret (ptr n)) h with
  | Ok (p, h') => allocated h U sz p h'
  | Panic => True
  | Fault => False
  end.
Proof.
  intros [Hl Hb] Hsz. destruct (pages_for_bound sz Hsz) as (Hnp & Hfit).
  rewrite u32_small by (unfold is_u32; lia). set (len := pages_for sz * PAGE_SIZE) in *.
  unfold mbind at 1, M_bind. pose proof (km_alloc_range_run h _ Hnp) as Hr. fold len in Hr.
  destruct (km_alloc_range (pages_for sz) h) as [[p h1]| |]; [|done|done].
  destruct Hr as (Hh1 & Hpos & Hend & Hap).
  assert (evolves h h1) as Hev1 by (rewrite Hh1; by apply evolves_range).
  assert (nodes h1 = nodes h) as En by (by rewrite Hh1).
  pose proof Hl as (HU & HF & Hnd & Hni).
  assert (lists_ok h1 U F) as Hl1.
  { split_and!; [by rewrite Hh1|by rewrite Hh1|done|by eapply evolves_nodes_inside]. }
  unfold mbind at 1, M_bind. pose proof (create_node_run h1 U F sz p false Hl1) as Hc.
  destruct (create_node sz p false h1) as [[n h2]| |]; [|done|done].
  destruct Hc as (Hl2 & Hn & _ & (nx & Hnn) & Hkeep & Hev2).
  assert (forall x, x ∈ tail F -> x ∈ F) as Htl by (destruct F; [done|by right]).
  assert (forall x, x ∈ U ++ tail F -> block h2 x = block h x) as Hold2.
  { intros x Hx. destruct Hb as (Hb & _). destruct (Hb x) as (b & Hbx & _); [set_solver|].
    eapply block_kept; [|exact Hbx]. rewrite <- En. intros y Hy. apply Hkeep; [|done].
    intros ->. done. }
  assert (evolves h h2) as Hev by (by eapply evolves_trans).
  assert (block h2 n = Some (p, sz)) as Hbn by (by rewrite (block_node _ _ _ Hnn)).
  destruct (Z.gtb_spec len sz) as [Hrest|Hrest].
  - destruct Hl2 as (HU2 & HF2 & Hnd2 & Hni2).
    unfold mbind at 1, M_bind. unfold mbind at 1, M_bind.
    pose proof (create_node_run h2 (n :: U) (tail F) (len - sz) (p + sz) true
      (conj HU2 (conj HF2 (conj Hnd2 Hni2)))) as Hc3.
    destruct (create_node (len - sz) (p + sz) true h2) as [[m h3]| |]; [|done|done].
    destruct Hc3 as (Hl3 & Hm & _ & (mx & Hmm) & Hkeep3 & Hev3).
    assert (m <> n) as Hmn by set_solver.
    assert (nodes h3 !! n = Some (MkNode sz p nx)) as Hnn3 by (by apply Hkeep3).
    cbn [mret M_ret]. unfold mret, M_ret. rewrite (run_bind _ _ _ _ _ (node_at_run _ _ _ Hnn3)). cbn.
    assert (forall x, x ∈ tail (tail F) -> x ∈ tail F) as Htl2 by (destruct (tail F); [done|by right]).
    assert (forall x, x ∈ U ++ tail (tail F) -> x ∈ U ++ F /\ block h3 x = block h x) as Hold.
    { intros x Hx. split; [set_solver|]. rewrite <- Hold2 by set_solver.
      destruct Hb as (Hb & _). destruct (Hb x) as (b & Hbx & _); [set_solver|].
      rewrite <- Hold2 in Hbx by set_solver.
      eapply block_kept; [|exact Hbx]. intros y Hy. apply Hkeep3; [|done].
      intros ->. set_solver. }
    assert (evolves h1 h3) as Hev13 by (by eapply evolves_trans).
    pose proof (blocks_ok_old h h3 _ _ Hb (evolves_trans _ _ _ Hev Hev3) Hold) as Hb3.
    destruct (new_range_block h h1 h3 (p, len) (p, sz) (U ++ F) Hb Hni Hh1 Hap) as (In & An & Nn);
      [unfold within; cbn; lia|done|].
    destruct (new_range_block h h1 h3 (p, len) (p + sz, len - sz) (U ++ F) Hb Hni Hh1 Hap)
      as (Im & Am & Nm); [unfold within; cbn; lia|done|].
    assert (block h3 m = Some (p + sz, len - sz)) as Hbm by (by rewrite (block_node _ _ _ Hmm)).
    assert (block h3 n = Some (p, sz)) as Hbn3 by (by rewrite (block_node _ _ _ Hnn3)).
    assert (blocks_ok h3 (m :: U ++ tail (tail F))) as Hbm3.
    { apply blocks_ok_cons with (p + sz, len - sz); try done; [set_solver|cbn; lia|].
      intros y d Hy Hd. destruct (Hold y Hy) as [Hy' Ey]. apply (Am y); [done|congruence]. }
    assert (blocks_ok h3 (n :: m :: U ++ tail (tail F))) as Hbn4.
    { apply blocks_ok_cons with (p, sz); try done; [set_solver|cbn; lia|].
      intros y d [->|Hy]%elem_of_cons Hd.
      - assert (d = (p + sz, len - sz)) as -> by congruence. unfold apart. cbn. lia.
      - destruct (Hold y Hy) as [Hy' Ey]. apply (An y); [done|congruence]. }
    exists n, (m :: tail (tail F)). split_and!.
    + split; [done|]. eapply blocks_ok_sub; [|exact Hbn4]. set_solver.
    + set_solver.
    + done.
    + intros x Hx. apply Hold. set_solver.
    + destruct (evolves_trans _ _ _ Hev Hev3) as (-> & _). done.
    + destruct (evolves_trans _ _ _ Hev Hev3) as (_ & -> & _). done.
  - rewrite (run_bind _ _ h2 tt h2 eq_refl), (run_bind _ _ _ _ _ (node_at_run _ _ _ Hnn)). cbn.
    destruct (new_range_block h h1 h2 (p, len) (p, sz) (U ++ F) Hb Hni Hh1 Hap) as (In & An & Nn);
      [unfold within; cbn; lia|done|].
    assert (blocks_ok h2 (U ++ tail F)) as Hb2.
    { eapply blocks_ok_old; [exact Hb|exact Hev|]. intros x Hx. split; [set_solver|auto]. }
    exists n, (tail F). split_and!.
    + split; [done|]. apply blocks_ok_cons with (p, sz); try done; [cbn; lia|].
      intros y d Hy Hd. rewrite Hold2 in Hd by done. apply (An y); [set_solver|done].
    + set_solver.
    + done.
    + intros x Hx. apply Hold2. set_solver.
    + destruct Hev as (-> & _). done.
    + destruct Hev as (_ & -> & _). done.
Qed.

Lemma same_blocks_inv h h' U F U' F' :
  heap_inv h U F -> (forall x, x ∈ U' ++ F' <-> x ∈ U ++ F) -> NoDup (U' ++ F') ->
  nchain (nodes h') (used_nodes h') U' -> nchain (nodes h') (free_nodes h') F' ->
  (forall x, block h' x = block h x) -> ranges h' = ranges h -> heap_inv h' U' F'.
Proof.
  intros [(HU & HF & _ & Hni) (H1 & H2 & H3)] Hin Hnd HU' HF' Hb Hr.
  assert (forall x, is_Some (nodes h' !! x) -> is_Some (nodes h !! x)) as Hdom.
  { intros x [n Hn]. specialize (Hb x). rewrite (block_node _ _ _ Hn) in Hb. unfold block in Hb.
    destruct (nodes h !! x); [eauto|done]. }
  split; [split_and!; try done|split_and!].
  - destruct Hni as [Hi Hp]. split; rewrite Hr; auto.
  - intros x Hx. rewrite Hb, Hr. apply H1. by apply Hin.
  - intros x y b c Hx Hy Hne. rewrite !Hb. apply H2; [by apply Hin|by apply Hin|done].
  - intros x y b Hx. rewrite Hb. intros Hbx Hy. apply (H3 x); [by apply Hin|done|auto].
Qed.

Lemma kmallocu_run h U F sz :
  heap_inv h U F -> allowed (cur_context h) A_DYN_MEM = true -> 0 < sz < 2 ^ 31 ->
  match kmallocu sz h with
  | Ok (p, h') => allocated h U sz p h'
  | Panic => True
  | Fault => False
  end.
Proof.
  intros Hinv Hal Hsz. pose proof Hinv as [(HU & HF & Hnd & Hni) Hb]. unfold kmallocu.
  rewrite (run_bind _ _ h tt h) by (unfold cx_assert_allowed, cx_allowed, gets, mbind, M_bind; by rewrite Hal).
  destruct (Z.ltb_spec sz 1); [lia|]. rewrite (run_bind _ _ h h h eq_refl).
  assert (NoDup F) as HndF by (by apply NoDup_app in Hnd as (_ & _ & ?)).
  assert (NoDup U) as HndU by (by apply NoDup_app in Hnd as (? & _ & _)).
  destruct (search_run h sz F (S (length (map_to_list (nodes h)))) None (free_nodes h) HF)
    as (q & c & Hrun & Hres); [pose proof (nchain_length _ _ _ HF HndF); lia|].
  rewrite (run_bind _ _ _ _ _ Hrun). destruct c as [c|]; [|exact (new_block_run h U F sz Hinv Hsz)].
  destruct Hres as (l1 & l2 & n & -> & Hn & Hsize & ->).
  rewrite (run_bind _ _ _ _ _ (node_at_run _ _ _ Hn)).
  replace (match last l1 with Some a => Some a | None => None end) with (last l1) by (by destruct (last l1)).
  destruct (move_node_run h Free c n l1 l2 U) as (h1 & Hmove & Hf1 & Hu1 & Hb1 & Hr1 & Hd1 & Hc1);
    [done|done|done|done|done| |done|].
  { intros x Hx Hx'. apply NoDup_app in Hnd as (_ & Hdis & _). by apply (Hdis x). }
  assert (heap_inv h1 (c :: U) (l1 ++ l2)) as Hinv1.
  { eapply same_blocks_inv; [exact Hinv| | |done|done|done|done].
    - set_solver.
    - eapply NoDup_Permutation_proper; [|exact Hnd]. rewrite <- (Permutation_middle l1 l2 c).
      by rewrite <- (Permutation_middle U (l1 ++ l2) c). }
  assert (is_Some (nodes h1 !! c)) as [n1 Hn1] by (destruct Hu1 as (_ & n1 & ? & _); eauto).
  assert (size n1 = size n) as Hsz1.
  { specialize (Hb1 c). rewrite (block_node _ _ _ Hn1), (block_node _ _ _ Hn) in Hb1. congruence. }
  assert (forall A (k : M kheap A) , (unlink Free (last l1) (next n);; append_node Used c;; k) h = k h1) as Hseq.
  { intros A k. pose proof Hmove as Hm. unfold mbind, M_bind in Hm |- *.
    destruct (unlink Free (last l1) (next n) h) as [[[] h0]| |]; [|done|done].
    cbn [other] in Hm. by rewrite Hm. }
  rewrite Hseq, (run_bind _ _ _ _ _ (node_at_run _ _ _ Hn1)).
  assert (c ∉ U) as HcU.
  { destruct Hinv1 as [(_ & _ & Hnd1 & _) _]. cbn [app] in Hnd1. apply NoDup_cons in Hnd1 as [Hc _].
    intros Hc'. apply Hc. set_solver. }
  destruct (Z.gtb_spec (size n1) sz).
  - pose proof (split_block_run h1 U (l1 ++ l2) c n1 sz Hinv1 Hn1 ltac:(lia)) as Hsp.
    unfold mbind at 1, M_bind.
    destruct ((_ ← create_node (size n1 - sz) (ptr n1 + sz) true;
         n ← node_at (Some c); put_node c (MkNode sz (ptr n) (next n))) h1) as [[u h2]| |]; [|done|done].
    destruct Hsp as (Hall & n2 & Hn2 & Hp2).
    rewrite (run_bind _ _ _ _ _ (node_at_run _ _ _ Hn2)). cbn. rewrite Hp2.
    destruct Hall as (m & F' & Hi & Hm & Hbm & Hold & Hd & Hc).
    exists m, F'. split_and!; try done; [|congruence|congruence].
    intros x Hx. rewrite Hold by done. apply Hb1.
  - rewrite (run_bind _ _ h1 tt h1 eq_refl), (run_bind _ _ _ _ _ (node_at_run _ _ _ Hn1)). cbn.
    exists c, (l1 ++ l2). split_and!; try done.
    rewrite (block_node _ _ _ Hn1). do 2 f_equal. lia.
Qed.

(** [kfree]: the block that starts at [p] is no longer live; a pointer that no live block
    starts with is ignored. *)
Lemma kfree_loop_run h p F : forall l2 l1 fuel,
  heap_inv h (l1 ++ l2) F -> (length l2 < fuel)%nat ->
  (forall x, x ∈ l1 -> forall s, block h x <> Some (p, s)) ->
  nchain (nodes h) (match l2 with [] => None | a :: _ => Some a end) l2 ->
  exists h' U' F', kfree_loop fuel p (last l1) (match l2 with [] => None | a :: _ => Some a end) h = Ok (tt, h') /\
    heap_inv h' U' F' /\ (forall x, block h' x = block h x) /\
    (forall x, x ∈ U' <-> x ∈ l1 ++ l2 /\ forall s, block h x <> Some (p, s)) /\
    data h' = data h /\ cur_context h' = cur_context h.
Proof.
  induction l2 as [|c l2 IH]; intros l1 [|fuel] Hinv Hf Hnot Hc; cbn [length] in Hf; try lia.
  - exists h, (l1 ++ []), F. split_and!; try done. intros x. rewrite app_nil_r. split; [|tauto]. auto.
  - destruct Hc as (_ & n & Hn & Hc). cbn [kfree_loop].
    rewrite (run_bind _ _ _ _ _ (node_at_run _ _ _ Hn)).
    pose proof Hinv as [(HU & HF & Hnd & Hni) (H1 & H2 & H3)].
    assert (NoDup (l1 ++ c :: l2)) as HndU by (by apply NoDup_app in Hnd as (? & _ & _)).
    assert (NoDup F) as HndF by (by apply NoDup_app in Hnd as (_ & _ & ?)).
    destruct (Z.eqb_spec (ptr n) p) as [Hp|Hp].
    + destruct (move_node_run h Used c n l1 l2 F) as (h1 & Hmove & Hu1 & Hf1 & Hb1 & Hr1 & Hd1 & Hc1);
        [done|done|done|done|done| |done|].
      { intros x Hx Hx'. apply NoDup_app in Hnd as (_ & Hdis & _). by apply (Hdis x). }
      exists h1, (l1 ++ l2), (c :: F). split; [exact Hmove|]. split; [|split; [done|split; [|done]]].
      * eapply same_blocks_inv; [exact Hinv| | |done|done|done|done].
        -- set_solver.
        -- eapply NoDup_Permutation_proper; [|exact Hnd]. rewrite <- (Permutation_middle l1 l2 c).
           by rewrite <- (Permutation_middle (l1 ++ l2) F c).
      * assert (c ∉ l1 ++ l2) as Hcl.
        { rewrite <- (Permutation_middle l1 l2 c) in HndU. by apply NoDup_cons in HndU as [? _]. }
        assert (block h c = Some (p, size n)) as Hbc by (rewrite <- Hp; by apply block_node).
        destruct (H1 c) as (bc & Hbc' & Hpos & _); [set_solver|].
        assert (bc = (p, size n)) as -> by congruence. cbn in Hpos.
        intros x. split; [|intros [Hx Hs]].
        -- intros Hx. split; [set_solver|]. intros s Hs. destruct (H1 x) as (bx & Hbx & Hpx & _); [set_solver|].
           assert (bx = (p, s)) as -> by congruence. cbn in Hpx.
           assert (x <> c) by (intros ->; done).
           assert (apart (p, size n) (p, s)) as Ha by (apply (H2 c x); [set_solver|set_solver|done|done|done]).
           unfold apart in Ha. cbn in Ha. lia.
        -- assert (x <> c) by (intros ->; by apply (Hs (size n))). set_solver.
    + assert (next n = match l2 with [] => None | a :: _ => Some a end) as Hnx.
      { destruct l2; [exact Hc|]. by destruct Hc. }
      rewrite Hnx in Hc |- *. destruct (IH (l1 ++ [c]) fuel) as (h' & U' & F' & Hrun & Hrest).
      * by rewrite <- app_assoc.
      * lia.
      * intros x [Hx|Hx]%elem_of_app; [auto|]. apply list_elem_of_singleton in Hx as ->.
        rewrite (block_node _ _ _ Hn). congruence.
      * done.
      * rewrite last_snoc in Hrun. exists h', U', F'. rewrite <- app_assoc in Hrest. done.
Qed.

Lemma kfree_run h U F p :
  heap_inv h U F ->
  exists h' U' F', kfree p h = Ok (tt, h') /\ heap_inv h' U' F' /\ (forall x, block h' x = block h x) /\
    (forall x, x ∈ U' <-> x ∈ U /\ forall s, block h x <> Some (p, s)) /\
    data h' = data h /\ cur_context h' = cur_context h.
Proof.
  intros Hinv. pose proof Hinv as [(HU & HF & Hnd & Hni) Hb]. unfold kfree.
  assert (NoDup U) as HndU by (by apply NoDup_app in Hnd as (? & _ & _)).
  rewrite (run_bind _ _ h h h eq_refl).
  assert (used_nodes h = match U with [] => None | a :: _ => Some a end) as Hu.
  { destruct U; [done|]. by destruct HU. }
  destruct (kfree_loop_run h p F U [] (S (length (map_to_list (nodes h))))) as (h' & U' & F' & Hrun & Hrest).
  - done.
  - pose proof (nchain_length _ _ _ HU HndU). lia.
  - intros x Hx. by apply not_elem_of_nil in Hx.
  - by rewrite <- Hu.
  - exists h', U', F'. rewrite Hu. done.
Qed.

(** ** Runs of the allocator against its contract

    The abstract heap is the map of the live blocks: the address handed out, and the size
    asked for. *)

Inductive hop := HAlloc (sz : Z) | HFree (p : Z).

Definition hstep (op : hop) : M kheap Z :=
  match op with HAlloc sz => kmalloc sz | HFree p => kfree p;; mret 0 end.
Definition live_step (op : hop) (r : Z) (live : gmap Z Z) : gmap Z Z :=
  match op with HAlloc sz => <[r := sz]> live | HFree p => delete p live end.
Fixpoint hrun (ops : list hop) (live : gmap Z Z) : M kheap (gmap Z Z) :=
  match ops with
  | [] => mret live
  | op :: ops => r ← hstep op; hrun ops (live_step op r live)
  end.

Definition hop_ok (op : hop) : Prop :=
  match op with HAlloc sz => 0 < sz < 2 ^ 31 | HFree _ => True end.

(** The nodes of the used list describe the live blocks. *)
Definition describes (h : kheap) (live : gmap Z Z) : Prop :=
  allowed (cur_context h) A_DYN_MEM = true /\
  exists U F, heap_inv h U F /\
    forall p s, live !! p = Some s <-> exists x, x ∈ U /\ block h x = Some (p, s).

Lemma block_pos h U F x p s :
  heap_inv h U F -> x ∈ U -> block h x = Some (p, s) -> 0 < p /\ 0 < s.
Proof.
  intros [(_ & _ & _ & _ & Hpos) (H1 & _)] Hx Hb. destruct (H1 x) as (b & Hb' & Hs & q & Hq & Hq1 & _);
    [set_solver|]. assert (b = (p, s)) as -> by congruence. apply Hpos in Hq. cbn in *. lia.
Qed.

Lemma alloc_describes h live sz :
  describes h live -> 0 < sz < 2 ^ 31 ->
  match kmalloc sz h with
  | Ok (p, h') => describes h' (<[p := sz]> live) /\ live !! p = None
  | Panic => True
  | Fault => False
  end.
Proof.
  intros (Hal & U & F & Hinv & Hlive) Hsz. unfold kmalloc. destruct (Z.ltb_spec sz 1); [lia|].
  unfold mbind, M_bind. pose proof (kmallocu_run h U F sz Hinv Hal Hsz) as Hrun.
  destruct (kmallocu sz h) as [[p h']| |]; [|done|done].
  destruct Hrun as (n & F' & Hinv' & Hn & Hbn & Hold & _ & Hc).
  destruct (block_pos h' (n :: U) F' n p sz Hinv') as [Hp _]; [left|done|].
  destruct (Z.eqb_spec p 0); [lia|]. cbn.
  assert (forall x s, x ∈ U -> block h x = Some (p, s) -> False) as Hnew.
  { intros x s Hx Hb. rewrite <- Hold in Hb by done.
    destruct (block_pos h' (n :: U) F' x p s Hinv') as [_ Hs]; [by right|done|].
    destruct Hinv' as [_ (_ & H2 & _)].
    assert (x <> n) by (intros ->; done).
    assert (apart (p, s) (p, sz)) as Ha by (apply (H2 x n); set_solver).
    unfold apart in Ha. cbn in Ha. lia. }
  split; [split; [by rewrite Hc|]|].
  - exists (n :: U), F'. split; [done|]. intros q s. rewrite lookup_insert_Some. split.
    + intros [[<- <-]|[Hne Hq]]; [exists n; split; [left|done]|].
      apply Hlive in Hq as (x & Hx & Hb). exists x. split; [by right|]. by rewrite Hold.
    + intros (x & [->|Hx]%elem_of_cons & Hb); [left; split; congruence|right].
      rewrite Hold in Hb by done. split; [|apply Hlive; eauto]. intros <-. by eapply Hnew.
  - destruct (live !! p) as [s|] eqn:E; [|done]. apply Hlive in E as (x & Hx & Hb).
    exfalso. by eapply Hnew.
Qed.

Lemma free_describes h live p :
  describes h live -> exists h', kfree p h = Ok (tt, h') /\ describes h' (delete p live).
Proof.
  intros (Hal & U & F & Hinv & Hlive).
  destruct (kfree_run h U F p Hinv) as (h' & U' & F' & Hrun & Hinv' & Hb & HU' & _ & Hc).
  exists h'. split; [done|]. split; [by rewrite Hc|]. exists U', F'. split; [done|].
  intros q s. rewrite lookup_delete_Some, Hlive. setoid_rewrite HU'. setoid_rewrite Hb. split.
  - intros (Hne & x & Hx & Hbx). exists x. split; [split; [done|]|done]. intros t Ht. congruence.
  - intros (x & [Hx Hnp] & Hbx). split; [|eauto]. intros <-. by apply (Hnp s).
Qed.

Lemma hrun_describes ops : forall h live,
  describes h live -> Forall hop_ok ops ->
  match hrun ops live h with
  | Ok (live', h') => describes h' live'
  | Panic => True
  | Fault => False
  end.
Proof.
  induction ops as [|op ops IH]; intros h live Hd Hok; [done|]. inv Hok.
  cbn [hrun]. unfold mbind at 1, M_bind. destruct op as [sz|p]; cbn [hstep live_step].
  - pose proof (alloc_describes h live sz Hd) as Ha. specialize (Ha ltac:(done)).
    destruct (kmalloc sz h) as [[p h']| |]; [|done|done]. destruct Ha as [Ha _]. by apply IH.
  - destruct (free_describes h live p Hd) as (h' & Hrun & Hd').
    rewrite (run_bind _ _ _ _ _ Hrun). cbn. by apply IH.
Qed.

End heap.

(** ** A concrete heap *)

(** Ranges one behind the other, from the second page on. *)
Definition bump (rs : list (Z * Z)) : Z := foldr (fun r m => Z.max m (r.1 + r.2)) 4096 rs.
#[local] Program Instance bump_ranges : KernelRanges := {|
  new_range rs n := if bump rs + n * PAGE_SIZE <=? 2 ^ 32 then Some (bump rs) else None;
|}.
Next Obligation.
  intros rs n a Hn. cbn. destruct (Z.leb_spec (bump rs + n * PAGE_SIZE) (2 ^ 32)); [|done].
  intros [= <-]. split_and!; [|done|].
  - assert (4096 <= bump rs); [|lia]. clear. unfold bump. induction rs; cbn; lia.
  - clear. apply Forall_forall. intros r Hr. right. cbn.
    induction rs as [|q rs IH]; [by apply not_elem_of_nil in Hr|].
    apply elem_of_cons in Hr as [->|Hr]; [unfold bump; cbn; lia|]. specialize (IH Hr).
    unfold bump in *. cbn. lia.
Qed.

Definition empty_heap : kheap := MkHeap ∅ None None None [] ∅ CX_INIT.

Lemma empty_heap_describes : describes empty_heap ∅.
Proof.
  split; [done|]. exists [], []. split.
  - split; [split_and!; try done; [constructor|]|].
    + split; [by intros y [n Hn]|by intros r Hr%not_elem_of_nil].
    + split_and!; intros x; intros; exfalso; by eapply not_elem_of_nil.
  - intros p s. split; [done|]. by intros (x & Hx%not_elem_of_nil & _).
Qed.


(** The memory the heap takes: one page for the block and one for each node. *)
Definition pages_taken (o : outcome (gmap Z Z * kheap)) : option nat :=
  match o with Ok (_, h) => Some (length (ranges h)) | _ => None end.

(** Every node gets a page of its own, and freed memory is lost: three small blocks take
    five pages; and when a block of 8 bytes is freed and one of 16 is cut from the rest of a
    page, the node of the freed block is taken for the new rest, after which no free node
    describes the 8 bytes. *)
Theorem kmalloc_wastes_memory :
  pages_taken (hrun [HAlloc 8; HAlloc 8; HAlloc 8] ∅ empty_heap) = Some 5%nat /\
  match hrun [HAlloc 8; HFree 4096; HAlloc 16] ∅ empty_heap with
  | Ok (live, h) =>
      forallb (fun xn => negb ((ptr xn.2 <=? 4096) && (4096 <? ptr xn.2 + size xn.2)))
        (map_to_list (nodes h)) = true
  | _ => False
  end.
Proof. split; vm_compute; reflexivity. Qed.
