(* ===== verification/Format.v ===== *)
(** * Formatting

    lib/libutil/src/format.c, the formatter behind all console output.  A function that fills
    a buffer answers the characters it writes (without the terminating zero); arguments of
    [strafmt] are the list of the values [va_arg] hands out, a string argument as its bytes.
    Taking an argument that is not there, or of the other kind, faults. *)

From S2P Require Import Prelude.

Definition chars (s : String.string) : list Z :=
  map (fun a => Z.of_N (Ascii.N_of_ascii a)) (String.list_ascii_of_string s).

Definition bufs (str : list Z) : list Z := str.

(** [while (pad > len) { buffer[n++] = padc; pad--; }] *)
Definition bufsp (str : list Z) (pad padc : Z) : list Z :=
  replicate (Z.to_nat (pad - Z.of_nat (length str))) padc ++ bufs str.

Definition digits : list Z := chars "0123456789ABCDEFGHIJKLMOPQRSTUVWXYZ".

(** The do-while loop: [tmp] has 64 places in front of its zero; [digits[rem]] reads the
    terminating zero at index 35 and faults outside of the array. *)
Definition digit (rem : Z) : option Z :=
  if rem =? 35 then Some 0 else if 0 <=? rem then digits !! Z.to_nat rem else None.

Fixpoint numfmt_digits (room : nat) (num base : Z) (acc : list Z) : outcome (list Z) :=
  match room with
  | O => Fault
  | S room =>
      match digit (Z.rem num base) with
      | None => Fault
      | Some d =>
          let num := Z.quot num base in
          if 0 <? num then numfmt_digits room num base (d :: acc) else Ok (d :: acc)
      end
  end.

(** The last loop copies [tmp] up to the first zero. *)
Fixpoint until_zero (l : list Z) : list Z :=
  match l with
  | [] => []
  | c :: l => if c =? 0 then [] else c :: until_zero l
  end.

Definition numfmt (num base pad pc : Z) : outcome (list Z) :=
  if (base <? 2) || (base >? 36) then Ok []
  else match numfmt_digits 64 num base [] with
       | Ok ds => Ok (replicate (Z.to_nat (pad - Z.of_nat (length ds))) pc ++ until_zero ds)
       | Panic => Panic
       | Fault => Fault
       end.

(** ** [strafmt] *)

Inductive arg := AInt (z : Z) | AStr (s : list Z).

(** [va_arg(args, int)]: a 32-bit pattern; [va_arg(args, char* )]. *)
Definition take_int (args : list arg) : outcome (Z * list arg) :=
  match args with AInt z :: args => Ok (u32 z, args) | _ => Fault end.
Definition take_str (args : list arg) : outcome (list Z * list arg) :=
  match args with AStr s :: args => Ok (s, args) | _ => Fault end.

Definition is_digit (c : Z) : bool := (48 <=? c) && (c <=? 57).

Fixpoint read_pad (fmt : list Z) (pad : Z) : Z * list Z :=
  match fmt with
  | c :: fmt' => if is_digit c then read_pad fmt' (pad * 10 + c - 48) else (pad, fmt)
  | [] => (pad, [])
  end.

(** One conversion: [fmt] is what follows the percent sign.  The answer is what is written,
    the rest of the format and the rest of the arguments.  At the end of the format the
    zero byte itself is written and the scan goes on behind it, out of the string. *)
Definition conversion (fmt : list Z) (args : list arg) : outcome (list Z * list Z * list arg) :=
  let (padc, fmt) := match fmt with
                     | 48 :: fmt => (48, fmt)
                     | _ => (32, fmt)
                     end in
  let (pad, fmt) := read_pad fmt 0 in
  match fmt with
  | [] => Fault
  | c :: rest =>
      if (c =? 100) || (c =? 117) then
        match take_int args with
        | Ok (v, args) =>
            let neg := i32 v <? 0 in
            match numfmt (Z.abs (i32 v)) 10 (if neg then pad - 1 else pad) padc with
            | Ok out => Ok ((if neg then [45] else []) ++ out, rest, args)
            | Panic => Panic
            | Fault => Fault
            end
        | Panic => Panic
        | Fault => Fault
        end
      else if (c =? 105) || (c =? 111) || (c =? 112) || (c =? 120) || (c =? 98) then
        match take_int args with
        | Ok (v, args) =>
            let base := if c =? 105 then 10 else if c =? 111 then 8 else if c =? 98 then 2 else 16 in
            match (if c =? 112 then numfmt v base 8 48 else numfmt v base pad padc) with
            | Ok out => Ok ((if c =? 112 then chars "0x" else []) ++ out, rest, args)
            | Panic => Panic
            | Fault => Fault
            end
        | Panic => Panic
        | Fault => Fault
        end
      else if c =? 99 then
        match take_int args with
        | Ok (v, args) => Ok ([u8 v], rest, args)
        | Panic => Panic
        | Fault => Fault
        end
      else if c =? 115 then
        match take_str args with
        | Ok (s, args) => Ok (bufsp s pad padc, rest, args)
        | Panic => Panic
        | Fault => Fault
        end
      else if c =? 37 then Ok ([37], rest, args)
      else Ok ([37; c], rest, args)
  end.

Fixpoint strafmt_loop (fuel : nat) (fmt : list Z) (args : list arg) : outcome (list Z) :=
  match fuel with
  | O => Fault
  | S fuel =>
      match fmt with
      | [] => Ok []
      | 37 :: fmt =>
          match conversion fmt args with
          | Ok (out, fmt, args) =>
              match strafmt_loop fuel fmt args with
              | Ok more => Ok (out ++ more)
              | Panic => Panic
              | Fault => Fault
              end
          | Panic => Panic
          | Fault => Fault
          end
      | c :: fmt =>
          match strafmt_loop fuel fmt args with
          | Ok more => Ok (c :: more)
          | Panic => Panic
          | Fault => Fault
          end
      end
  end.

(** Every turn consumes a character of the format. *)
Definition strafmt (fmt : list Z) (args : list arg) : outcome (list Z) :=
  strafmt_loop (S (length fmt)) fmt args.

Example strafmt_test :
  strafmt (chars "%p %d 0x%x|%5s|%05d|%c%%") [AInt 0xFFFFF000; AInt (-7); AInt 0xDEADBEEF;
    AStr (chars "ab"); AInt 42; AInt 65] =
  Ok (chars "0xFFFFF000 -7 0xDEADBEEF|   ab|00042|A%").
Proof. vm_compute. reflexivity. Qed.

(** ** Numbers are written so that they can be read back *)

Definition digit_val (c : Z) : Z := if c <=? 57 then c - 48 else c - 55.
Definition value (base : Z) (ds : list Z) : Z := foldl (fun v c => v * base + digit_val c) 0 ds.

(** The digits [numfmt] has right: up to the missing N. *)
Definition good_digit (c : Z) : Prop := 48 <= c <= 57 \/ 65 <= c <= 77.

Lemma digit_spec r :
  0 <= r < 23 -> exists c, digit r = Some c /\ digit_val c = r /\ good_digit c /\ (c = 48 <-> r = 0).
Proof.
  intros Hr.
  assert (forallb (fun r => match digit r with
    | Some c => (digit_val c =? r) && (((48 <=? c) && (c <=? 57)) || ((65 <=? c) && (c <=? 77)))
                && Bool.eqb (c =? 48) (r =? 0)
    | None => false end) (seqZ 0 23) = true) as Hall by (vm_compute; reflexivity).
  rewrite forallb_forall in Hall. specialize (Hall r).
  assert (In r (seqZ 0 23)) as Hin by (apply list_elem_of_In, elem_of_seqZ; lia).
  specialize (Hall Hin). destruct (digit r) as [c|]; [|done]. exists c.
  apply andb_true_iff in Hall as [[Hv Hg]%andb_true_iff He].
  apply Bool.eqb_prop in He. split; [done|]. split; [lia|]. split.
  - apply orb_true_iff in Hg as [Hg|Hg]; to_prop; unfold good_digit; lia.
  - destruct (Z.eqb_spec c 48), (Z.eqb_spec r 0); try done; split; lia.
Qed.

Lemma value_snoc base ds d : value base (ds ++ [d]) = value base ds * base + digit_val d.
Proof. unfold value. by rewrite foldl_app. Qed.

Lemma numfmt_digits_spec base : 2 <= base <= 23 -> forall room num acc,
  0 <= num < base ^ Z.of_nat (S room) ->
  exists ds, numfmt_digits (S room) num base acc = Ok (ds ++ acc) /\ value base ds = num /\
    Forall good_digit ds /\ (length ds <= S room)%nat /\
    match ds with [] => False | c :: _ => c = 48 -> num = 0 /\ ds = [48] end.
Proof.
  intros Hb. induction room as [|room IH]; intros num acc Hn;
    rewrite Nat2Z.inj_succ, Z.pow_succ_r in Hn by lia;
    cbn [numfmt_digits]; rewrite Z.rem_mod_nonneg, Z.quot_div_nonneg by lia;
    pose proof (Z.mod_pos_bound num base ltac:(lia)) as Hm;
    pose proof (Z.div_mod num base ltac:(lia)) as Hdm;
    pose proof (Z.div_pos num base ltac:(lia) ltac:(lia)) as Hq;
    destruct (digit_spec (num mod base)) as (c & -> & Hv & Hg & H0); [lia| |lia|];
    destruct (Z.ltb_spec 0 (num / base)) as [Hpos|Hz].
  - cbn in Hn. nia.
  - exists [c]. split_and!; [done|unfold value; cbn; lia|by constructor|cbn; lia|].
    intros ->. assert (num mod base = 0) by (by apply H0). split; [lia|done].
  - destruct (IH (num / base) (c :: acc)) as (ds & Hrun & Hval & Hgood & Hlen & Hhd).
    { split; [done|]. apply Z.div_lt_upper_bound; lia. }
    exists (ds ++ [c]). split_and!.
    + cbn [numfmt_digits] in Hrun. rewrite Hrun, <- app_assoc. done.
    + rewrite value_snoc, Hval, Hv. lia.
    + apply Forall_app. split; [done|by constructor].
    + rewrite length_app. cbn. lia.
    + destruct ds as [|d ds]; [done|]. cbn [app]. intros Hd. destruct (Hhd Hd) as [Hz _]. lia.
  - exists [c]. split_and!; [done|unfold value; cbn; lia|by constructor|cbn; lia|].
    intros ->. assert (num mod base = 0) by (by apply H0). split; [lia|done].
Qed.

Lemma until_zero_good ds : Forall good_digit ds -> until_zero ds = ds.
Proof.
  induction 1 as [|c ds Hc _ IH]; [done|]. cbn. destruct (Z.eqb_spec c 0); [unfold good_digit in Hc; lia|].
  by rewrite IH.
Qed.

Lemma numfmt_run num base pad pc :
  2 <= base <= 23 -> 0 <= num < 2 ^ 63 ->
  exists ds, numfmt num base pad pc =
      Ok (replicate (Z.to_nat (pad - Z.of_nat (length ds))) pc ++ ds) /\
    value base ds = num /\ Forall good_digit ds /\ (length ds <= 64)%nat /\
    match ds with [] => False | c :: _ => c = 48 -> num = 0 /\ ds = [48] end.
Proof.
  intros Hb Hn. unfold numfmt.
  destruct (Z.ltb_spec base 2); [lia|]. destruct (Z.gtb_spec base 36); [lia|]. cbn [orb].
  destruct (numfmt_digits_spec base Hb 63 num []) as (ds & Hrun & Hval & Hgood & Hlen & Hhd).
  { split; [lia|]. apply (Z.lt_le_trans _ (2 ^ 63)); [lia|].
    change (Z.of_nat 64) with 64. etrans; [|apply (Z.pow_le_mono_l 2 base 64); lia]. lia. }
  rewrite app_nil_r in Hrun. exists ds. rewrite Hrun, until_zero_good by done. split_and!; done.
Qed.

(** C27: [numfmt] writes a number of up to 63 bits in any base up to 23 so that it can be read
    back: padding, then the digits of the number, without superfluous zeros and inside its
    64-byte buffer. *)
Theorem numfmt_roundtrip num base pad pc :
  2 <= base <= 23 -> 0 <= num < 2 ^ 63 ->
  exists ds, numfmt num base pad pc =
      Ok (replicate (Z.to_nat (pad - Z.of_nat (length ds))) pc ++ ds) /\
    value base ds = num /\ Forall good_digit ds /\ (length ds <= 64)%nat /\
    match ds with [] => False | c :: _ => c = 48 -> num = 0 /\ ds = [48] end.
Proof. apply numfmt_run. Qed.

Lemma numfmt_roundtrip_witness :
  exists ds, numfmt 48879 16 8 48 = Ok (replicate (Z.to_nat (8 - Z.of_nat (length ds))) 48 ++ ds) /\
    value 16 ds = 48879.
Proof.
  destruct (numfmt_roundtrip 48879 16 8 48) as (ds & Hrun & Hval & _); [lia|lia|eauto].
Defined.

(** A decimal number with its sign, as it is written. *)
Definition read_decimal (s : list Z) : Z :=
  match s with
  | 45 :: ds => - value 10 ds
  | ds => value 10 ds
  end.

(** C28: [%d] writes every 32-bit integer in decimal: what is written reads back as the
    integer the argument stands for. *)
Theorem strafmt_decimal z :
  exists s, strafmt (chars "%d") [AInt z] = Ok s /\ read_decimal s = i32 z.
Proof.
  set (v := u32 z). assert (i32 v = i32 z) as Hv.
  { unfold i32, v. by rewrite u32_idem. }
  assert (- 2 ^ 31 <= i32 z < 2 ^ 31) as Hb.
  { unfold i32. pose proof (u32_bound z) as Hu. unfold is_u32 in Hu.
    destruct (Z.ltb_spec (u32 z) (2 ^ 31)); lia. }
  destruct (numfmt_run (Z.abs (i32 v)) 10 (if i32 v <? 0 then 0 - 1 else 0) 32)
    as (ds & Hrun & Hval & Hgood & _ & Hhd); [lia|rewrite Hv; lia|].
  assert (replicate (Z.to_nat ((if i32 v <? 0 then 0 - 1 else 0) - Z.of_nat (length ds))) 32 = []) as Hpad.
  { destruct (i32 v <? 0); destruct (Z.to_nat _) eqn:E; try done; lia. }
  rewrite Hpad in Hrun. cbn [app] in Hrun.
  assert (conversion (chars "d") [AInt z] = Ok ((if i32 v <? 0 then [45] else []) ++ ds, [], []))
    as Hconv.
  { change (conversion (chars "d") [AInt z]) with
      (match numfmt (Z.abs (i32 v)) 10 (if i32 v <? 0 then 0 - 1 else 0) 32 with
       | Ok out => Ok ((if i32 v <? 0 then [45] else []) ++ out, @nil Z, @nil arg)
       | Panic => Panic | Fault => Fault end). by rewrite Hrun. }
  exists ((if i32 v <? 0 then [45] else []) ++ ds). split.
  - unfold strafmt. change (chars "%d") with (37 :: chars "d"). cbn [strafmt_loop].
    rewrite Hconv. cbn. by rewrite app_nil_r.
  - rewrite Hv in *. destruct (Z.ltb_spec (i32 z) 0) as [Hneg|Hpos]; cbn [app read_decimal].
    + rewrite Hval. lia.
    + destruct ds as [|c ds]; [done|]. inv Hgood. unfold read_decimal, good_digit in *.
      assert (c <> 45) by lia. rewrite <- (Z.abs_eq (i32 z)) by lia. rewrite <- Hval.
      destruct c as [|p|p]; try done. repeat (destruct p as [p|p|]; try done).
Qed.

(** [%u] is handled like [%d]: the largest unsigned value is written as -1. *)
Lemma strafmt_unsigned_negative : strafmt (chars "%u") [AInt (2 ^ 32 - 1)] = Ok (chars "-1").
Proof. vm_compute. reflexivity. Qed.

(** The digit N is missing: in base 36, 23 is written as O. *)
Lemma numfmt_missing_digit :
  numfmt 23 36 0 32 = Ok (chars "O") /\ numfmt 35 36 0 32 = Ok [].
Proof. split; vm_compute; reflexivity. Qed.

(** A negative number indexes the digits below their start. *)
Lemma numfmt_negative_faults : numfmt (-5) 10 0 32 = Fault.
Proof. vm_compute. reflexivity. Qed.
