(* ===== verification/Keyboard.v ===== *)
(** * The keyboard

    kernel/kbc.c, keymaps.c and the part of tty.c that turns the bytes of the keyboard
    controller into key codes and characters.  The controller is the sequence of the bytes
    [kbc_getkey] reads; commands written to it have no effect on the model. *)

From S2P Require Import Prelude.

(** The table [keycode]: normal scan codes and those behind an E0. *)
Definition keycode_normal : list Z := [
   0; 1; 2; 3; 4; 5; 6; 7; 8; 9; 10; 11; 12; 13; 14; 15;
   16; 17; 18; 19; 20; 21; 22; 23; 24; 25; 26; 27; 28; 29; 30; 31;
   32; 33; 34; 35; 36; 37; 38; 39; 40; 41; 42; 43; 44; 45; 46; 47;
   48; 49; 50; 51; 52; 53; 54; 55; 56; 57; 58; 59; 60; 61; 62; 63;
   64; 65; 66; 67; 68; 69; 70; 71; 72; 73; 74; 75; 76; 77; 78; 79;
   80; 81; 82; 84; 0; 0; 86; 87; 88; 0; 0; 0; 0; 0; 0; 0;
   0; 0; 0; 0; 0; 0; 0; 0; 0; 0; 0; 0; 0; 0; 0; 0;
   0; 0; 0; 0; 0; 0; 0; 0; 0; 0; 0; 0; 0; 0; 0; 0].
Definition keycode_e0 : list Z := [
   0; 0; 0; 0; 0; 0; 0; 0; 0; 0; 0; 0; 0; 0; 0; 0;
   0; 0; 0; 0; 0; 0; 0; 0; 0; 0; 0; 0; 0; 97; 0; 0;
   0; 0; 0; 0; 0; 0; 0; 0; 0; 0; 0; 0; 0; 0; 0; 0;
   0; 0; 0; 0; 0; 0; 0; 0; 100; 0; 0; 0; 0; 0; 0; 0;
   0; 0; 0; 0; 0; 0; 0; 102; 103; 104; 0; 105; 0; 106; 0; 107;
   108; 109; 110; 111; 0; 0; 0; 0; 0; 0; 0; 0; 0; 0; 0; 0;
   0; 0; 0; 0; 0; 0; 0; 0; 0; 0; 0; 0; 0; 0; 0; 0;
   0; 0; 0; 0; 0; 0; 0; 0; 0; 0; 0; 0; 0; 0; 0; 0].

Definition KBC_NORMAL : Z := 0.
Definition KBC_E0 : Z := 1.
Definition KBC_E1 : Z := 2.

(** An index past a table of 128 entries is a fault. *)
Definition kbc_scan_to_keycode (elvl scancode : Z) : outcome Z :=
  if elvl =? 0 then match keycode_normal !! Z.to_nat scancode with Some c => Ok c | None => Fault end
  else if elvl =? 1 then match keycode_e0 !! Z.to_nat scancode with Some c => Ok c | None => Fault end
  else if (elvl =? 2) && (scancode =? 0x451D) then Ok 119
  else Ok 0.

Record keymap_entry := MkKey { normal : Z; shift : Z; altgr : Z; ctrl : Z }.
Definition keymap_de : list keymap_entry := map (fun k => match k with (a, b, c, d) => MkKey a b c d end) [
   (0, 0, 0, 0); (27, 27, 27, 27); (49, 33, 124, 0); (50, 34, 0, 0);
   (51, 35, 0, 0); (52, 36, 0, 0); (53, 37, 0, 0); (54, 38, 0, 0);
   (55, 47, 123, 0); (56, 40, 91, 0); (57, 41, 93, 0); (48, 61, 125, 0);
   (94, 63, 92, 0); (0, 96, 0, 0); (8, 0, 0, 0); (9, 0, 0, 0);
   (113, 81, 64, 17); (119, 87, 0, 23); (101, 69, 0, 5); (114, 82, 0, 18);
   (116, 84, 0, 20); (122, 90, 0, 26); (117, 85, 0, 21); (105, 73, 0, 9);
   (111, 79, 0, 15); (112, 80, 0, 16); (0, 0, 0, 0); (43, 42, 126, 0);
   (10, 0, 0, 0); (0, 0, 0, 0); (97, 65, 0, 1); (115, 83, 0, 19);
   (100, 68, 0, 255); (102, 70, 0, 6); (103, 71, 0, 7); (104, 72, 0, 8);
   (106, 74, 0, 10); (107, 75, 0, 11); (108, 76, 0, 12); (0, 0, 0, 0);
   (0, 0, 0, 0); (0, 0, 0, 0); (0, 0, 0, 0); (35, 39, 0, 0);
   (121, 89, 0, 25); (120, 88, 0, 24); (99, 67, 0, 3); (118, 86, 0, 22);
   (98, 66, 0, 2); (110, 78, 0, 14); (109, 77, 0, 13); (44, 59, 0, 0);
   (46, 58, 0, 0); (45, 95, 0, 0); (0, 0, 0, 0); (0, 0, 0, 0);
   (0, 0, 0, 0); (32, 32, 32, 0); (0, 0, 0, 0); (0, 0, 0, 0);
   (0, 0, 0, 0); (0, 0, 0, 0); (0, 0, 0, 0); (0, 0, 0, 0);
   (0, 0, 0, 0); (0, 0, 0, 0); (0, 0, 0, 0); (0, 0, 0, 0);
   (0, 0, 0, 0); (0, 0, 0, 0); (0, 0, 0, 0); (0, 0, 0, 0);
   (0, 0, 0, 0); (0, 0, 0, 0); (0, 0, 0, 0); (0, 0, 0, 0);
   (0, 0, 0, 0); (0, 0, 0, 0); (0, 0, 0, 0); (0, 0, 0, 0);
   (0, 0, 0, 0); (0, 0, 0, 0); (0, 0, 0, 0); (0, 0, 0, 0);
   (0, 0, 0, 0); (0, 0, 0, 0); (60, 62, 124, 0); (0, 0, 0, 0);
   (0, 0, 0, 0); (0, 0, 0, 0); (0, 0, 0, 0); (0, 0, 0, 0);
   (0, 0, 0, 0); (0, 0, 0, 0); (0, 0, 0, 0); (0, 0, 0, 0);
   (0, 0, 0, 0); (0, 0, 0, 0); (0, 0, 0, 0); (0, 0, 0, 0);
   (0, 0, 0, 0); (0, 0, 0, 0); (0, 0, 0, 0); (0, 0, 0, 0);
   (0, 0, 0, 0); (0, 0, 0, 0); (0, 0, 0, 0); (0, 0, 0, 0);
   (0, 0, 0, 0); (0, 0, 0, 0); (0, 0, 0, 0); (0, 0, 0, 0);
   (0, 0, 0, 0); (0, 0, 0, 0); (0, 0, 0, 0); (0, 0, 0, 0);
   (0, 0, 0, 0); (0, 0, 0, 0); (0, 0, 0, 0); (0, 0, 0, 0);
   (0, 0, 0, 0); (0, 0, 0, 0); (0, 0, 0, 0); (0, 0, 0, 0);
   (0, 0, 0, 0); (0, 0, 0, 0); (0, 0, 0, 0); (0, 0, 0, 0)].

Definition KEYC_SHIFT_LEFT : Z := 42.
Definition KEYC_SHIFT_RIGHT : Z := 54.
Definition KEYC_CTRL_LEFT : Z := 29.
Definition KEYC_CTRL_RIGHT : Z := 97.
Definition KEYC_ALT : Z := 56.
Definition KEYC_ALTGR : Z := 100.

(** The static variables of [get_keycode], and [modifiers]. *)
Record keyboard := MkKb {
  e0 : bool; e1 : Z; e1_data : Z;
  m_shift : bool; m_ctrl : bool; m_alt : bool; m_altgr : bool; m_capslock : bool;
}.
Definition no_keys : keyboard := MkKb false 0 0 false false false false false.

(** [get_keycode(&brk)] for the byte [data]: the key code (0 for none yet) and [brk]. *)
Definition get_keycode (data : Z) : M keyboard (Z * bool) := fun k =>
  let brk := truth (Z.land data 0x80) && ((0 <? e1 k) || negb (data =? 0xE1)) &&
             (e0 k || negb (data =? 0xE0)) in
  let data := if brk then Z.land data 0x7F else data in
  let answer lvl code k := match kbc_scan_to_keycode lvl code with
                           | Ok c => Ok ((c, brk), k) | Panic => Panic | Fault => Fault end in
  let set a b c := MkKb a b c (m_shift k) (m_ctrl k) (m_alt k) (m_altgr k) (m_capslock k) in
  if e0 k then answer KBC_E0 data (set false (e1 k) (e1_data k))
  else if e1 k =? 2 then
    let d := Z.lor (e1_data k) (u16 (Z.shiftl data 8)) in answer KBC_E1 d (set (e0 k) 0 d)
  else if e1 k =? 1 then Ok ((0, brk), set (e0 k) 2 data)
  else if data =? 0xE0 then Ok ((0, brk), set true (e1 k) (e1_data k))
  else if data =? 0xE1 then Ok ((0, brk), set (e0 k) 1 (e1_data k))
  else answer KBC_NORMAL data k.

(** [handle_modifiers(code, brk)]: whether the key was one. *)
Definition handle_modifiers (code : Z) (brk : bool) : M keyboard bool := fun k =>
  if (code =? KEYC_SHIFT_LEFT) || (code =? KEYC_SHIFT_RIGHT) then
    Ok (true, MkKb (e0 k) (e1 k) (e1_data k) (negb brk) (m_ctrl k) (m_alt k) (m_altgr k) (m_capslock k))
  else if (code =? KEYC_CTRL_LEFT) || (code =? KEYC_CTRL_RIGHT) then
    Ok (true, MkKb (e0 k) (e1 k) (e1_data k) (m_shift k) (negb brk) (m_alt k) (m_altgr k) (m_capslock k))
  else if code =? KEYC_ALT then
    Ok (true, MkKb (e0 k) (e1 k) (e1_data k) (m_shift k) (m_ctrl k) (negb brk) (m_altgr k) (m_capslock k))
  else if code =? KEYC_ALTGR then
    Ok (true, MkKb (e0 k) (e1 k) (e1_data k) (m_shift k) (m_ctrl k) (m_alt k) (negb brk) (m_capslock k))
  else Ok (false, k).

(** The character of a key in [handle_input]. *)
Definition key_char (map : list keymap_entry) (code : Z) (k : keyboard) : outcome Z :=
  match map !! Z.to_nat code with
  | None => Fault
  | Some e => Ok (if m_shift k || m_capslock k then shift e
                  else if m_altgr k then altgr e
                  else if m_ctrl k then ctrl e
                  else normal e)
  end.

(** ** Every byte is handled *)

Definition kb_ok (k : keyboard) : Prop := (e0 k = true -> e1 k = 0) /\ 0 <= e1 k <= 2.

Lemma table_lookup (t : list Z) i : length t = 128%nat -> 0 <= i < 128 -> is_Some (t !! Z.to_nat i).
Proof. intros Hl Hi. apply lookup_lt_is_Some. lia. Qed.

Lemma land_7F d : 0 <= d -> 0 <= Z.land d 0x7F < 128.
Proof. intros. change 0x7F with (2 ^ 7 - 1). rewrite land_ones_mod by lia. apply Z.mod_pos_bound. lia. Qed.

Lemma high_bit d : 0 <= d < 256 -> truth (Z.land d 0x80) = (128 <=? d).
Proof.
  intros Hd. assert (forallb (fun d => Bool.eqb (truth (Z.land d 0x80)) (128 <=? d)) (seqZ 0 256) = true)
    as Hall by (vm_compute; reflexivity).
  rewrite forallb_forall in Hall. apply Bool.eqb_prop, Hall, list_elem_of_In, elem_of_seqZ. lia.
Qed.

Lemma scan_code lvl d : 0 <= d < 128 \/ lvl = 2 -> exists c, kbc_scan_to_keycode lvl d = Ok c.
Proof.
  intros Hd. unfold kbc_scan_to_keycode. destruct (Z.eqb_spec lvl 0) as [->|].
  - destruct Hd; [|done]. destruct (table_lookup keycode_normal d) as [c ->]; [done|done|eauto].
  - destruct (Z.eqb_spec lvl 1) as [->|].
    + destruct Hd; [|done]. destruct (table_lookup keycode_e0 d) as [c ->]; [done|done|eauto].
    + destruct ((lvl =? 2) && (d =? 0x451D)); eauto.
Qed.

(** Every byte of the controller is handled, whatever came before, except an E1 behind an
    E0. *)
Lemma get_keycode_handles k d :
  kb_ok k -> 0 <= d < 256 -> (e0 k = true -> d <> 0xE1) ->
  exists c b k', get_keycode d k = Ok ((c, b), k') /\ kb_ok k'.
Proof.
  intros [He H1] Hd Hne. unfold get_keycode. rewrite high_bit by done.
  set (brk := (128 <=? d) && ((0 <? e1 k) || negb (d =? 0xE1)) && (e0 k || negb (d =? 0xE0))).
  assert (brk = false -> d < 128 \/ e1 k = 0 /\ d = 0xE1 \/ e0 k = false /\ d = 0xE0) as Hb.
  { subst brk. destruct (Z.leb_spec 128 d); [|lia].
    destruct (Z.ltb_spec 0 (e1 k)), (Z.eqb_spec d 0xE1), (Z.eqb_spec d 0xE0), (e0 k); try done; lia. }
  pose proof (land_7F d ltac:(lia)) as Hl.
  assert (forall lvl x k', 0 <= x < 128 \/ lvl = 2 -> kb_ok k' -> exists c b k'',
    match kbc_scan_to_keycode lvl x with Ok c => Ok ((c, brk), k') | Panic => Panic | Fault => Fault end
    = Ok ((c, b), k'') /\ kb_ok k'') as Hans.
  { intros lvl x k' Hx Hk. destruct (scan_code lvl x Hx) as [c ->]. eauto. }
  destruct (e0 k) eqn:E0.
  - apply Hans; [left|split; cbn; [done|lia]].
    destruct brk; [done|]. destruct (Hb eq_refl) as [|[[_ ->]|[? _]]]; [lia| |done]. by destruct Hne.
  - destruct (Z.eqb_spec (e1 k) 2); [apply Hans; [by right|split; cbn; [done|lia]]|].
    destruct (Z.eqb_spec (e1 k) 1); [do 3 eexists; split; [done|split; cbn; [done|lia]]|].
    destruct (Z.eqb_spec (if brk then Z.land d 0x7F else d) 0xE0);
      [do 3 eexists; split; [done|split; cbn; lia]|].
    destruct (Z.eqb_spec (if brk then Z.land d 0x7F else d) 0xE1);
      [do 3 eexists; split; [done|split; cbn; [done|lia]]|].
    apply Hans; [left|split; [by rewrite E0|lia]].
    destruct brk; [done|]. destruct (Hb eq_refl) as [|[[_ ->]|[_ ->]]]; lia.
Qed.

(** Behind an E0 the byte E1 is used unmasked as an index into a table of 128 entries. *)
Lemma keyboard_e0_e1_faults : (_ ← get_keycode 0xE0; get_keycode 0xE1) no_keys = Fault.
Proof. vm_compute. reflexivity. Qed.
