(* ===== verification/Tty.v ===== *)
(** * Terminals

    kernel/tty.c on the keyboard of [Keyboard], with the requests of kernel/fs/request.c on
    the process manager of [Proc].  A terminal is named by its index in [ttys]; index 8 is the
    static [_kout_tty].  The text memory of the graphics card and the registers written are
    part of the state; [umem] are the bytes of the buffers processes read into. *)

From S2P Require Import Prelude Proc Keyboard.

Definition EAGAIN : Z := 11.
Definition CON_MEM_CHARS : Z := 16384.
Definition CON_MAX_START_LINE : Z := 175.
Definition NUM_TTYS : Z := 8.
Definition TTY_INBUF_SIZE : Z := 256.
Definition TTY_SCREEN_X : Z := 80.
Definition TTY_SCREEN_Y : Z := 25.
Definition TTY_SCREEN_SIZE : Z := TTY_SCREEN_X * TTY_SCREEN_Y.
Definition TTY_ECHO : Z := 0x01.
Definition TTY_RAW : Z := 0x02.
Definition EOT : Z := 0xFF.
Definition CGA_START_HI : Z := 12.
Definition CGA_START_LO : Z := 13.
Definition CGA_CURSOR_HI : Z := 14.
Definition CGA_CURSOR_LO : Z := 15.
Definition KOUT : Z := 8.

(** [struct request]; [func] and [free_buffer] are never looked at here. *)
Record request := MkRq {
  rq_proc : option Z;
  rq_blocked : bool;
  rq_result : Z;
  rq_buffer : Z;
  rq_buflen : Z;
}.

Record tty_t := MkTty {
  id : Z;
  inbuf : list Z;
  incount : Z;
  eotcount : Z;
  outbuf : list Z;
  outstart : Z;
  x : Z;
  y : Z;
  screenY : Z;
  tstatus : Z;
  flags : Z;
  requests : list request;
}.

(** What the three-key combinations ask of the machine. *)
Inductive power_event := CpuReset | PowerOff | Breakpoint.

Record con := MkCon {
  ttys : gmap Z tty_t;
  cur_tty : Z;
  vmem : list Z;
  cga : gmap Z Z;
  kb : keyboard;
  cur_map : option (list keymap_entry);
  umem : gmap Z Z;
  kernel : kern;
  power : list power_event;
}.

Definition set_ttys v c :=
  MkCon v (cur_tty c) (vmem c) (cga c) (kb c) (cur_map c) (umem c) (kernel c) (power c).
Definition set_cur_tty v c :=
  MkCon (ttys c) v (vmem c) (cga c) (kb c) (cur_map c) (umem c) (kernel c) (power c).
Definition set_vmem v c :=
  MkCon (ttys c) (cur_tty c) v (cga c) (kb c) (cur_map c) (umem c) (kernel c) (power c).
Definition set_cga v c :=
  MkCon (ttys c) (cur_tty c) (vmem c) v (kb c) (cur_map c) (umem c) (kernel c) (power c).
Definition set_kb v c :=
  MkCon (ttys c) (cur_tty c) (vmem c) (cga c) v (cur_map c) (umem c) (kernel c) (power c).
Definition set_map v c :=
  MkCon (ttys c) (cur_tty c) (vmem c) (cga c) (kb c) v (umem c) (kernel c) (power c).
Definition set_umem v c :=
  MkCon (ttys c) (cur_tty c) (vmem c) (cga c) (kb c) (cur_map c) v (kernel c) (power c).
Definition set_kernel v c :=
  MkCon (ttys c) (cur_tty c) (vmem c) (cga c) (kb c) (cur_map c) (umem c) v (power c).
Definition set_power v c :=
  MkCon (ttys c) (cur_tty c) (vmem c) (cga c) (kb c) (cur_map c) (umem c) (kernel c) v.

Definition set_in b n e t := MkTty (id t) b n e (outbuf t) (outstart t) (x t) (y t) (screenY t)
  (tstatus t) (flags t) (requests t).
Definition set_out b t := MkTty (id t) (inbuf t) (incount t) (eotcount t) b (outstart t) (x t) (y t)
  (screenY t) (tstatus t) (flags t) (requests t).
Definition set_outstart v t := MkTty (id t) (inbuf t) (incount t) (eotcount t) (outbuf t) v (x t) (y t)
  (screenY t) (tstatus t) (flags t) (requests t).
Definition set_pos a b c t := MkTty (id t) (inbuf t) (incount t) (eotcount t) (outbuf t) (outstart t)
  a b c (tstatus t) (flags t) (requests t).
Definition set_requests r t := MkTty (id t) (inbuf t) (incount t) (eotcount t) (outbuf t) (outstart t)
  (x t) (y t) (screenY t) (tstatus t) (flags t) r.

Definition tty_at (i : Z) : M con tty_t := c ← get; deref (ttys c !! i).
Definition put_tty (i : Z) (t : tty_t) : M con unit :=
  modify (fun c => set_ttys (<[i := t]> (ttys c)) c).
Definition is_cur (i : Z) : M con bool := gets (fun c => cur_tty c =? i).

Definition lift {A} (k : M kern A) : M con A := fun c =>
  match k (kernel c) with
  | Ok (a, s) => Ok (a, set_kernel s c)
  | Panic => Panic
  | Fault => Fault
  end.

(** ** Screen *)

Definition cga_write (reg v : Z) : M con unit := modify (fun c => set_cga (<[reg := u8 v]> (cga c)) c).
Definition set_start_line (line : Z) : M con unit :=
  let addr := u16 (line * 80) in
  cga_write CGA_START_LO addr;; cga_write CGA_START_HI (Z.shiftr addr 8).

(** [c | (tty->status << 8)] for a (signed) character [c], stored in 16 bits. *)
Definition cell (c : Z) (t : tty_t) : Z :=
  u16 (Z.lor (if u8 c <? 128 then u8 c else u8 c - 256) (Z.shiftl (tstatus t) 8)).
Definition CPOS (t : tty_t) : Z := x t + y t * TTY_SCREEN_X.

(** A store into an array of words; outside of it the code overwrites other memory. *)
Definition poke (l : list Z) (i v : Z) : option (list Z) :=
  if (0 <=? i) && (i <? Z.of_nat (length l)) then Some (<[Z.to_nat i := v]> l) else None.

(** The text moves up by one line of 80 characters. *)
Definition line_up (l : list Z) (blank : Z) : list Z := drop 80 l ++ replicate 80 blank.

Definition scroll (i : Z) : M con unit :=
  t ← tty_at i;
  put_tty i (set_outstart (u8 (outstart t + 1)) t);;
  t ← tty_at i;
  (if outstart t >? CON_MAX_START_LINE then
     put_tty i (set_out (line_up (outbuf t) (cell 32 t)) t);;
     cur ← is_cur i;
     (if (cur : bool)
      then modify (fun c => set_vmem (line_up (vmem c) (cell 32 t)) c) else mret tt);;
     t ← tty_at i;
     put_tty i (set_pos (x t) (u8 (y t - 1)) (screenY t) (set_outstart (u8 (outstart t - 1)) t))
   else mret tt);;
  t ← tty_at i;
  cur ← is_cur i;
  (if (cur : bool) then set_start_line (outstart t) else mret tt);;
  put_tty i (set_pos (x t) (y t) (u8 (screenY t - 1)) t).

Definition scroll_to_bottom (i : Z) : M con unit :=
  t ← tty_at i;
  let e := if y t >? 24 then u8 (y t - 24) else 0 in
  put_tty i (set_outstart e t);;
  cur ← is_cur i;
  if (cur : bool) then set_start_line e else mret tt.

Definition scroll_line_up : M con unit :=
  c ← get; t ← tty_at (cur_tty c);
  if truth (outstart t) then
    put_tty (cur_tty c) (set_outstart (u8 (outstart t - 1)) t);; set_start_line (u8 (outstart t - 1))
  else mret tt.
Definition scroll_line_down : M con unit :=
  c ← get; t ← tty_at (cur_tty c);
  if outstart t <? CON_MAX_START_LINE then
    put_tty (cur_tty c) (set_outstart (u8 (outstart t + 1)) t);; set_start_line (u8 (outstart t + 1))
  else mret tt.
Definition scroll_to_top : M con unit :=
  c ← get; t ← tty_at (cur_tty c);
  put_tty (cur_tty c) (set_outstart 0 t);; set_start_line 0.

Definition flush (i : Z) : M con unit :=
  cur ← is_cur i;
  if (cur : bool) then
    t ← tty_at i;
    modify (fun c => set_vmem (outbuf t) c);; set_start_line (outstart t)
  else mret tt.

Definition clear (i : Z) : M con unit :=
  t ← tty_at i;
  put_tty i (set_outstart 0 (set_out (replicate (Z.to_nat CON_MEM_CHARS) (cell 32 t)) t)).

Definition update_cursor (i : Z) : M con unit :=
  cur ← is_cur i;
  if (cur : bool) then
    t ← tty_at i;
    let pos := u16 (if (0 <? length (requests t))%nat then CPOS t else TTY_SCREEN_SIZE + 1) in
    cga_write CGA_CURSOR_LO pos;; cga_write CGA_CURSOR_HI (Z.shiftr pos 8)
  else mret tt.

(** [tty->outbuf[CPOS(tty)] = v] and the same on the screen. *)
Definition put_cell (i v : Z) : M con unit :=
  t ← tty_at i;
  b ← deref (poke (outbuf t) (CPOS t) v);
  put_tty i (set_out b t);;
  cur ← is_cur i;
  if (cur : bool) then
    c ← get;
    b ← deref (poke (vmem c) (CPOS t) v);
    modify (set_vmem b)
  else mret tt.

(** [while (tty->screenY >= TTY_SCREEN_Y) scroll(tty)]: [screenY] is a byte. *)
Fixpoint scroll_loop (fuel : nat) (i : Z) : M con unit :=
  match fuel with
  | O => fault
  | S fuel =>
      t ← tty_at i;
      if screenY t >=? TTY_SCREEN_Y then scroll i;; scroll_loop fuel i else mret tt
  end.

(** What [putc] does behind its switch. *)
Definition putc_end (i : Z) : M con unit :=
  t ← tty_at i;
  (if x t >=? TTY_SCREEN_X then put_tty i (set_pos 0 (u8 (y t + 1)) (screenY t) t) else mret tt);;
  scroll_loop 256 i;;
  update_cursor i.

(** A character that is not a tab. *)
Definition putc_char (i c : Z) : M con unit :=
  t ← tty_at i;
  (if c =? 10 then put_tty i (set_pos 0 (u8 (y t + 1)) (u8 (screenY t + 1)) t)
   else if c =? 13 then put_tty i (set_pos 0 (y t) (screenY t) t)
   else if c =? 8 then
     if 1 <=? x t then
       put_tty i (set_pos (u8 (x t - 1)) (y t) (screenY t) t);; put_cell i (cell 32 t)
     else mret tt
   else
     put_cell i (cell c t);;
     t ← tty_at i;
     put_tty i (set_pos (u8 (x t + 1)) (y t) (screenY t) t));;
  putc_end i.

(** [do putc(' '); while (tty->x % 7)]: a line has 80 columns. *)
Fixpoint tab_loop (fuel : nat) (i : Z) : M con unit :=
  match fuel with
  | O => fault
  | S fuel =>
      putc_char i 32;;
      t ← tty_at i;
      if truth (x t mod 7) then tab_loop fuel i else mret tt
  end.

Definition putc (i c : Z) : M con unit :=
  if c =? 9 then tab_loop 80 i;; putc_end i else putc_char i c.

Fixpoint puts (i : Z) (str : list Z) : M con unit :=
  match str with
  | [] => mret tt
  | c :: str => putc i c;; puts i str
  end.

(** ** request.c *)

Definition rq_create (buffer buflen : Z) : M con request :=
  c ← get; mret (MkRq (cur_proc (kernel c)) false (-22) buffer buflen).

Definition rq_block (rq : request) : M con request :=
  p ← deref (rq_proc rq);
  _ ← lift (pm_block p BR_WAIT_FS);
  mret (MkRq (rq_proc rq) true (rq_result rq) (rq_buffer rq) (rq_buflen rq)).

Definition rq_finish (rq : request) : M con unit :=
  match rq_proc rq with
  | Some p =>
      (if rq_blocked rq then lift (pm_unblock p) else mret tt);;
      lift (sc_late_result (Some p) (rq_result rq))
  | None => mret tt
  end.

(** ** Input *)

Definition enough_data (t : tty_t) (wanted : Z) : bool :=
  if truth (Z.land (flags t) TTY_RAW) then incount t >=? wanted else 0 <? eotcount t.

Definition can_answer_rq (t : tty_t) : bool :=
  match requests t with
  | [] => false
  | rq :: _ => enough_data t (rq_buflen rq)
  end.

Fixpoint ustore (a : Z) (bs : list Z) : M con unit :=
  match bs with
  | [] => mret tt
  | b :: bs =>
      c ← get;
      _ ← deref (umem c !! a);
      modify (fun c => set_umem (<[a := b]> (umem c)) c);;
      ustore (a + 1) bs
  end.

(** The string in a buffer; [None] when there is no zero in it. *)
Fixpoint cstr (l : list Z) : option (list Z) :=
  match l with
  | [] => None
  | c :: l => if c =? 0 then Some [] else w ← cstr l; Some (c :: w)
  end.

(** In line mode the string is copied with [strcpy], whatever the size asked for. *)
Definition copy_data (i buffer size : Z) : M con Z :=
  t ← tty_at i;
  if truth (Z.land (flags t) TTY_RAW) then
    (if size <=? TTY_INBUF_SIZE
     then ustore buffer (take (Z.to_nat size) (inbuf t)) else fault);;
    mret size
  else
    w ← deref (cstr (inbuf t));
    ustore buffer (w ++ [0]);;
    mret (Z.of_nat (length w)).

Definition remove_data (i count : Z) : M con unit :=
  t ← tty_at i;
  let raw := truth (Z.land (flags t) TTY_RAW) in
  let count := if raw then count else count + 1 in
  if count <=? TTY_INBUF_SIZE then
    let rest := drop (Z.to_nat count) (inbuf t) in
    let b := rest ++ drop (length rest) (inbuf t) in
    put_tty i (set_in b (u32 (incount t - count))
                 (if raw then eotcount t else u32 (eotcount t - 1)) t)
  else fault.

Definition answer_rq (i : Z) : M con unit :=
  t ← tty_at i;
  match requests t with
  | [] => fault
  | rq :: rqs =>
      put_tty i (set_requests rqs t);;
      count ← copy_data i (rq_buffer rq) (rq_buflen rq);
      remove_data i count;;
      rq_finish (MkRq (rq_proc rq) (rq_blocked rq) count (rq_buffer rq) (rq_buflen rq));;
      update_cursor i
  end.

(** [tty_read(file, buffer, count)] and [tty_write] for the terminal of the file. *)
Definition tty_read (i buffer count : Z) : M con Z :=
  if (0 <=? i) && (i <? NUM_TTYS) then
    t ← tty_at i;
    if enough_data t count then
      num ← copy_data i buffer count;
      remove_data i num;;
      mret num
    else
      rq ← rq_create buffer count;
      rq ← rq_block rq;
      t ← tty_at i;
      put_tty i (set_requests (requests t ++ [rq]) t);;
      update_cursor i;;
      mret (- EAGAIN)
  else mret (-1).

Definition tty_write (i : Z) (buf : list Z) : M con Z :=
  if (0 <=? i) && (i <? NUM_TTYS) then puts i buf;; mret (Z.of_nat (length buf)) else mret (-1).

(** [cur_tty->inbuf[cur_tty->incount++] = c]. *)
Definition push_in (i c : Z) : M con unit :=
  t ← tty_at i;
  b ← deref (poke (inbuf t) (incount t) c);
  put_tty i (set_in b (u32 (incount t + 1)) (eotcount t) t).

Definition end_line (i : Z) : M con unit :=
  t ← tty_at i;
  put_tty i (set_in (inbuf t) (incount t) (u32 (eotcount t + 1)) t);;
  push_in i 0.

(** Whether the character was handled. *)
Definition handle_cbreak_input (i c : Z) : M con bool :=
  if c =? 10 then putc i 10;; push_in i 10;; end_line i;; mret true
  else if c =? EOT then end_line i;; mret true
  else if c =? 8 then
    t ← tty_at i;
    (if 0 <? incount t then
       putc i 8;;
       t ← tty_at i;
       l ← deref (inbuf t !! Z.to_nat (incount t - 1));
       put_tty i (set_in (inbuf t) (incount t - 1)
                    (if l =? 0 then u32 (eotcount t - 1) else eotcount t) t)
     else mret tt);;
    mret true
  else mret false.

Fixpoint answer_loop (fuel : nat) (i : Z) : M con unit :=
  match fuel with
  | O => fault
  | S fuel =>
      t ← tty_at i;
      if can_answer_rq t then answer_rq i;; answer_loop fuel i else mret tt
  end.

(** [handle_input] from the point where the character [c] is known; the loop answers at most
    the requests that are queued. *)
Definition handle_char (c : Z) : M con unit :=
  s ← get;
  let i := cur_tty s in
  t ← tty_at i;
  if c =? 0 then mret tt
  else if incount t =? TTY_INBUF_SIZE then mret tt
  else
    let raw := truth (Z.land (flags t) TTY_RAW) in
    if raw && (c =? EOT) then mret tt
    else
      handled ← (if raw then mret false else handle_cbreak_input i c);
      (if (handled : bool) then mret tt
       else
         (if truth (Z.land (flags t) TTY_ECHO) && negb (c =? EOT)
          then putc i c;; scroll_to_bottom i else mret tt);;
         push_in i c);;
      t ← tty_at i;
      answer_loop (S (length (requests t))) i.

Definition handle_input (code : Z) : M con unit :=
  s ← get;
  match cur_map s with
  | None => mret tt
  | Some map =>
      match key_char map code (kb s) with
      | Ok c => handle_char c
      | Panic => panic
      | Fault => fault
      end
  end.

Definition select_tty (i : Z) : M con unit :=
  modify (set_cur_tty i);; flush i;; update_cursor i.
Definition tty_set_cur_term (n : Z) : M con unit :=
  if n <? NUM_TTYS then select_tty n else mret tt.
Definition tty_get_cur_term : M con Z := c ← get; t ← tty_at (cur_tty c); mret (id t).
(** The registered maps are an argument; the new list of them is the answer. *)
Definition tty_register_keymap (maps : list (list Z * list keymap_entry)) (name : list Z)
    (m : list keymap_entry) : M con (list (list Z * list keymap_entry)) :=
  c ← get;
  (match cur_map c with Some _ => mret tt | None => modify (set_map (Some m)) end);;
  mret (maps ++ [(name, m)]).
Definition tty_select_keymap (maps : list (list Z * list keymap_entry)) (name : list Z) : M con Z :=
  match list_find (fun m => fst m = name) maps with
  | Some (_, (_, m)) => modify (set_map (Some m));; mret 0
  | None => mret (-2)
  end.

(** ** The keyboard interrupt *)

Definition KEYC_F1 : Z := 59.
Definition KEYC_F8 : Z := 66.
Definition KEYC_F12 : Z := 88.
Definition KEYC_DEL : Z := 111.
Definition KEYC_PAGE_UP : Z := 104.
Definition KEYC_PAGE_DOWN : Z := 109.
Definition KEYC_HOME : Z := 102.
Definition KEYC_END : Z := 107.

Definition event (e : power_event) : M con unit := modify (fun c => set_power (e :: power c) c).

(** The text printed when [acpi_poweroff] returns. *)
Definition no_shutdown : list Z :=
  [10; 67; 111; 117; 108; 100; 32; 110; 111; 116; 32; 115; 104; 117; 116; 100; 111; 119; 110;
   46; 32; 83; 111; 114; 114; 121; 46; 10].

(** [handle_raw(code)]: whether the key is one of the console's own. *)
Definition handle_raw (code : Z) : M con bool :=
  s ← get;
  let k := kb s in
  (if m_ctrl k && m_shift k then
     if code =? KEYC_DEL then event CpuReset
     else if code =? KEYC_END then event PowerOff;; puts (cur_tty s) no_shutdown
     else if code =? KEYC_HOME then event Breakpoint
     else mret tt
   else mret tt);;
  if m_ctrl k && ((KEYC_F1 <=? code) && (code <=? KEYC_F8)) then
    tty_set_cur_term (code - KEYC_F1);; mret true
  else if code =? KEYC_F12 then select_tty KOUT;; mret true
  else if code =? KEYC_PAGE_UP then scroll_line_up;; mret true
  else if code =? KEYC_PAGE_DOWN then scroll_line_down;; mret true
  else if code =? KEYC_HOME then scroll_to_top;; mret true
  else if code =? KEYC_END then scroll_to_bottom (cur_tty s);; mret true
  else mret false.

Definition on_kb {A} (m : M keyboard A) : M con A := fun c =>
  match m (kb c) with
  | Ok (a, k) => Ok (a, set_kb k c)
  | Panic => Panic
  | Fault => Fault
  end.

(** [tty_irq_handler] for the byte the controller delivers. *)
Definition tty_irq_handler (data : Z) : M con unit :=
  '(keyc, brk) ← on_kb (get_keycode data);
  if keyc =? 0 then mret tt
  else
    modifier ← on_kb (handle_modifiers keyc brk);
    if (modifier : bool) || brk then mret tt
    else
      raw ← handle_raw keyc;
      if (raw : bool) then mret tt else handle_input keyc.

(** ** Start *)

(** [init(tty, id, early)] on what the structure holds before. *)
Definition init (i ident : Z) (early : bool) : M con unit :=
  t ← tty_at i;
  put_tty i (MkTty ident (inbuf t) 0 (eotcount t) (outbuf t) (outstart t) (x t) (y t) (screenY t)
               0x07 TTY_ECHO (if early then requests t else []));;
  clear i.

Definition init_kout : M con unit := init KOUT (NUM_TTYS - 1) true;; modify (set_cur_tty KOUT).

Definition init_tty : M con unit :=
  mfor NUM_TTYS (fun i => init i i false);;
  t ← tty_at KOUT;
  put_tty KOUT (set_requests [] t);;
  modify (fun c => let k := kb c in
                   set_kb (MkKb (e0 k) (e1 k) (e1_data k) false false false false (m_capslock k)) c);;
  modify (set_map None);;
  tty_set_cur_term 0.

Definition kout_puts (str : list Z) : M con unit := puts KOUT str.
Definition kout_set_status (v : Z) : M con Z :=
  t ← tty_at KOUT;
  put_tty KOUT (MkTty (id t) (inbuf t) (incount t) (eotcount t) (outbuf t) (outstart t) (x t) (y t)
                  (screenY t) (u8 v) (flags t) (requests t));;
  mret (tstatus t).
Definition kout_select : M con unit := select_tty KOUT.
Definition kout_clear : M con unit := clear KOUT;; flush KOUT.

(** ** A plain character on the screen *)

(** The part of a terminal that echoing must not touch. *)
Definition same_input (t t' : tty_t) : Prop :=
  inbuf t' = inbuf t /\ incount t' = incount t /\ eotcount t' = eotcount t /\
  flags t' = flags t /\ requests t' = requests t /\ tstatus t' = tstatus t.

(** Nothing but terminal [i] and the graphics card differ. *)
Definition same_rest (i : Z) (c c' : con) : Prop :=
  cur_tty c' = cur_tty c /\ kb c' = kb c /\ cur_map c' = cur_map c /\ umem c' = umem c /\
  kernel c' = kernel c /\ power c' = power c /\ length (vmem c') = length (vmem c) /\
  forall j, j <> i -> ttys c' !! j = ttys c !! j.

#[export] Instance same_input_preorder : PreOrder same_input.
Proof. unfold same_input. split; [intros ?|intros ? ? ?]; intuition congruence. Qed.

#[export] Instance same_rest_preorder i : PreOrder (same_rest i).
Proof.
  unfold same_rest. split; [intros ?; intuition congruence|intros ? ? ? H1 H2].
  destruct H1 as (?&?&?&?&?&?&?&H1), H2 as (?&?&?&?&?&?&?&H2). split_and!; try congruence.
  intros j Hj. by rewrite H2, H1.
Qed.

(** The buffers have their sizes and the cursor is inside of the line. *)
Definition screen_ok (c : con) (t : tty_t) : Prop :=
  length (outbuf t) = Z.to_nat CON_MEM_CHARS /\ length (vmem c) = Z.to_nat CON_MEM_CHARS /\
  0 <= x t < TTY_SCREEN_X /\ 0 <= y t < 256 /\ 0 <= screenY t < TTY_SCREEN_Y.

Definition plain (c : Z) : Prop := c <> 8 /\ c <> 9 /\ c <> 10 /\ c <> 13.

Lemma tty_at_run i c t : ttys c !! i = Some t -> tty_at i c = Ok (t, c).
Proof. intros H. unfold tty_at. rewrite (run_bind _ _ _ _ _ eq_refl). by rewrite H. Qed.

Lemma poke_length l i v l' : poke l i v = Some l' -> length l' = length l.
Proof. unfold poke. intros H. case_match; simplify_eq. by rewrite length_insert. Qed.

Lemma poke_run l i v : 0 <= i < Z.of_nat (length l) -> poke l i v = Some (<[Z.to_nat i := v]> l).
Proof. intros H. unfold poke. rewrite (proj2 (andb_true_iff _ _)); [done|lia]. Qed.

(** A step that only changes terminal [i], to [t]. *)
Definition lands (i : Z) (c : con) (r : outcome (unit * con)) (P : tty_t -> Prop) : Prop :=
  exists c' t', r = Ok (tt, c') /\ same_rest i c c' /\ ttys c' !! i = Some t' /\ P t'.

Lemma lands_put i t c : same_rest i c (set_ttys (<[i := t]> (ttys c)) c).
Proof. unfold same_rest. split_and!; try done. intros j Hj. cbn. by rewrite lookup_insert_ne. Qed.

Lemma same_rest_cga i v c : same_rest i c (set_cga v c).
Proof. unfold same_rest. by split_and!. Qed.

Lemma lands_bind i c (m n : M con unit) (P Q : tty_t -> Prop) :
  lands i c (m c) P ->
  (forall c' t, same_rest i c c' -> ttys c' !! i = Some t -> P t -> lands i c' (n c') Q) ->
  lands i c ((m;; n) c) Q.
Proof.
  intros (c1 & t1 & Hr & Hs & Ht & HP) Hn. rewrite (run_bind _ _ _ _ _ Hr).
  destruct (Hn c1 t1 Hs Ht HP) as (c2 & t2 & -> & Hs2 & Ht2 & HQ).
  exists c2, t2. split_and!; try done. by etrans.
Qed.

Lemma lands_ret i c t P : ttys c !! i = Some t -> P t -> lands i c (Ok (tt, c)) P.
Proof. intros Ht HP. exists c, t. by split_and!. Qed.

Lemma lands_put_tty i c t (P : tty_t -> Prop) : P t -> lands i c (put_tty i t c) P.
Proof.
  intros HP. exists (set_ttys (<[i := t]> (ttys c)) c), t. split_and!; [done|apply lands_put| |done].
  cbn. by rewrite lookup_insert_eq.
Qed.

Lemma update_cursor_lands i c t :
  ttys c !! i = Some t -> lands i c (update_cursor i c) (eq t).
Proof.
  intros Ht. unfold update_cursor, is_cur. rewrite (run_bind _ _ _ _ _ eq_refl).
  destruct (cur_tty c =? i); [|by apply lands_ret with t].
  rewrite (run_bind _ _ _ _ _ (tty_at_run _ _ _ Ht)). unfold cga_write.
  rewrite (run_bind _ _ _ _ _ eq_refl). unfold modify. eexists _, t. split; [done|].
  split_and!; [|done|done]. etrans; apply same_rest_cga.
Qed.

Lemma put_cell_lands i c t v :
  ttys c !! i = Some t -> screen_ok c t -> CPOS t < CON_MEM_CHARS ->
  lands i c (put_cell i v c) (fun t' => same_input t t' /\ x t' = x t /\ y t' = y t /\
    screenY t' = screenY t /\ length (outbuf t') = length (outbuf t)).
Proof.
  intros Ht (Hl & Hv & Hx & Hy & _) Hc. unfold put_cell.
  rewrite (run_bind _ _ _ _ _ (tty_at_run _ _ _ Ht)).
  assert (0 <= CPOS t < 16384) as Hp by (unfold CPOS, TTY_SCREEN_X, CON_MEM_CHARS in *; lia).
  rewrite poke_run by (rewrite Hl; unfold CON_MEM_CHARS; lia).
  rewrite (run_bind _ _ _ _ _ eq_refl).
  eapply lands_bind; [apply lands_put_tty with (P := fun t' => same_input t t' /\ x t' = x t /\ y t' = y t /\
    screenY t' = screenY t /\ length (outbuf t') = length (outbuf t))|].
  { cbn. by rewrite length_insert. }
  intros c1 t1 Hs1 Ht1 HP. unfold is_cur. rewrite (run_bind _ _ _ _ _ eq_refl).
  destruct (cur_tty c1 =? i); [|by apply lands_ret with t1].
  rewrite (run_bind _ _ _ _ _ eq_refl).
  destruct Hs1 as (?&?&?&?&?&?&Hv1&?). rewrite Hv in Hv1.
  rewrite poke_run by (rewrite Hv1; unfold CON_MEM_CHARS; lia).
  rewrite (run_bind _ _ _ _ _ eq_refl). unfold modify. eexists _, t1. split; [done|].
  split; [|done]. unfold same_rest. split_and!; try done. cbn. by rewrite length_insert.
Qed.

(** What a screen operation leaves of the terminal, at the position [(x', y')]. *)
Definition moved (c : con) (t : tty_t) (x' y' : Z) (t' : tty_t) : Prop :=
  same_input t t' /\ screen_ok c t' /\ x t' = x' /\ y t' = y'.

Lemma scroll_loop_skip fuel i c t :
  ttys c !! i = Some t -> screenY t < TTY_SCREEN_Y -> scroll_loop (S fuel) i c = Ok (tt, c).
Proof.
  intros Ht Hs. cbn [scroll_loop]. rewrite (run_bind _ _ _ _ _ (tty_at_run _ _ _ Ht)).
  destruct (Z.geb_spec (screenY t) TTY_SCREEN_Y); [lia|done].
Qed.

(** [putc_end] when there is nothing to scroll. *)
Lemma putc_end_lands i c t :
  ttys c !! i = Some t -> screenY t < TTY_SCREEN_Y ->
  lands i c (putc_end i c) (fun t' =>
    t' = if x t >=? TTY_SCREEN_X then set_pos 0 (u8 (y t + 1)) (screenY t) t else t).
Proof.
  intros Ht Hs. unfold putc_end. rewrite (run_bind _ _ _ _ _ (tty_at_run _ _ _ Ht)).
  eapply lands_bind with (P := fun t' =>
    t' = if x t >=? TTY_SCREEN_X then set_pos 0 (u8 (y t + 1)) (screenY t) t else t).
  - destruct (x t >=? TTY_SCREEN_X); [by apply lands_put_tty|by apply lands_ret with t].
  - intros c1 t1 _ Ht1 ->. rewrite (run_bind _ _ _ tt c1).
    + destruct (update_cursor_lands _ _ _ Ht1) as (c2 & t2 & Hr & Hs2 & Ht2 & <-).
      rewrite Hr. by exists c2, (if x t >=? TTY_SCREEN_X then set_pos 0 (u8 (y t + 1)) (screenY t) t else t).
    + eapply scroll_loop_skip; [done|]. by destruct (x t >=? TTY_SCREEN_X).
Qed.

(** The position behind a character. *)
Definition next_pos (t : tty_t) : Z * Z :=
  if x t =? TTY_SCREEN_X - 1 then (0, y t + 1) else (x t + 1, y t).

Lemma putc_plain i ch c t :
  ttys c !! i = Some t -> screen_ok c t -> CPOS t < CON_MEM_CHARS -> plain ch ->
  lands i c (putc i ch c) (moved c t (fst (next_pos t)) (snd (next_pos t))).
Proof.
  intros Ht Hok Hc (H8 & H9 & H10 & H13). unfold putc, putc_char.
  rewrite (proj2 (Z.eqb_neq _ _) H9). rewrite (run_bind _ _ _ _ _ (tty_at_run _ _ _ Ht)).
  rewrite (proj2 (Z.eqb_neq _ _) H10), (proj2 (Z.eqb_neq _ _) H13), (proj2 (Z.eqb_neq _ _) H8).
  pose proof Hok as (Hl & Hv & Hx & Hy & Hsy).
  assert (y t < 255) as Hy' by (unfold CPOS, CON_MEM_CHARS, TTY_SCREEN_X in *; lia).
  unfold TTY_SCREEN_X in Hx.
  apply lands_bind with (P := fun t' => same_input t t' /\ x t' = x t + 1 /\ y t' = y t /\
    screenY t' = screenY t /\ length (outbuf t') = length (outbuf t)).
  - eapply lands_bind; [by apply put_cell_lands|].
    intros c1 t1 _ Ht1 (Hin & Hx1 & Hy1 & Hs1 & Hl1).
    rewrite (run_bind _ _ _ _ _ (tty_at_run _ _ _ Ht1)). apply lands_put_tty. cbn.
    split_and!; try done. rewrite Hx1. unfold u8. rewrite Z.mod_small; lia.
  - intros c1 t1 _ Ht1 (Hin & Hx1 & Hy1 & Hs1 & Hl1).
    destruct (putc_end_lands i c1 t1) as (c2 & t2 & Hr & Hs2 & Ht2 & ->); [done|lia|].
    rewrite Hr. eexists c2, _. split; [done|]. split; [done|]. split; [done|].
    unfold moved, next_pos, TTY_SCREEN_X in *. rewrite Hx1.
    destruct (Z.geb_spec (x t + 1) 80), (Z.eqb_spec (x t) (80 - 1)); try lia; cbn.
    + rewrite Hy1. unfold u8. rewrite Z.mod_small by lia. unfold screen_ok, TTY_SCREEN_X. cbn.
      split_and!; try done; try lia; congruence.
    + rewrite Hx1, Hy1. unfold screen_ok, TTY_SCREEN_X. split_and!; try done; try lia; congruence.
Qed.

Lemma CPOS_next t c x' y' t' :
  screen_ok c t -> moved c t x' y' t' -> (x', y') = next_pos t -> CPOS t' = CPOS t + 1.
Proof.
  intros (_ & _ & Hx & _) (_ & _ & Hx' & Hy') Hn. unfold next_pos, CPOS, TTY_SCREEN_X in *.
  rewrite Hx', Hy'. destruct (Z.eqb_spec (x t) (80 - 1)); simplify_eq; lia.
Qed.

Lemma screen_ok_rest i c c' t : same_rest i c c' -> screen_ok c t -> screen_ok c' t.
Proof. intros (_&_&_&_&_&_&Hv&_). unfold screen_ok. by rewrite Hv. Qed.

Lemma puts_plain i w : forall c t,
  ttys c !! i = Some t -> screen_ok c t -> Forall plain w ->
  CPOS t + Z.of_nat (length w) <= CON_MEM_CHARS ->
  lands i c (puts i w c) (fun t' => same_input t t' /\ screen_ok c t' /\
    CPOS t' = CPOS t + Z.of_nat (length w)).
Proof.
  induction w as [|ch w IH]; intros c t Ht Hok Hw Hlen; cbn [puts length] in *.
  - apply lands_ret with t; [done|]. split_and!; [reflexivity|done|lia].
  - inv Hw. eapply lands_bind; [apply putc_plain; (done || lia)|]. intros c1 t1 Hs1 Ht1 Hm.
    assert (CPOS t1 = CPOS t + 1) as Hc1 by (eapply CPOS_next; [done..|by destruct (next_pos t)]).
    destruct Hm as (Hin & Hok1 & _ & _).
    destruct (IH c1 t1) as (c2 & t2 & Hr & Hs2 & Ht2 & Hin2 & Hok2 & Hc2); try done; [|lia|].
    { by eapply screen_ok_rest. }
    exists c2, t2. split_and!; try done; [by etrans| |lia].
    unfold screen_ok in *. tauto.
Qed.

Lemma puts_app i w w' c : puts i (w ++ w') c = (puts i w;; puts i w') c.
Proof.
  revert c. induction w as [|a w IH]; intros c; [done|]. cbn [app puts].
  unfold mbind, M_bind at 1. unfold mbind, M_bind in IH |- *.
  destruct (putc i a c) as [[[] c1]| |]; [apply IH|done|done].
Qed.

(** C30: A line wrap moves the cursor one line down without the counting of [screenY] that
    makes the screen scroll: writing plain characters without a newline runs through the whole
    text memory, and the character behind its last cell is stored out of bounds. *)
Theorem tty_write_long_line_overruns c i t w :
  0 <= i < NUM_TTYS -> ttys c !! i = Some t -> screen_ok c t -> Forall plain w ->
  CPOS t <= CON_MEM_CHARS < CPOS t + Z.of_nat (length w) ->
  tty_write i w c = Fault.
Proof.
  intros Hi Ht Hok Hw Hlen. unfold tty_write.
  rewrite (proj2 (andb_true_iff _ _)) by (split; lia).
  set (n := Z.to_nat (CON_MEM_CHARS - CPOS t)).
  assert (n < length w)%nat as Hn by lia.
  destruct (lookup_lt_is_Some_2 w n Hn) as [ch Hch].
  rewrite <- (take_drop_middle w n ch Hch) in Hw |- *.
  apply Forall_app in Hw as [Hw1 Hw2]. inv Hw2.
  assert (length (take n w) = n) as Hlt by (rewrite length_take; lia).
  unfold mbind, M_bind at 1. rewrite puts_app.
  destruct (puts_plain i (take n w) c t) as (c1 & t1 & Hr & Hs1 & Ht1 & _ & Hok1 & Hc1); try done; [lia|].
  rewrite (run_bind _ _ _ _ _ Hr). cbn [puts]. unfold mbind at 1, M_bind at 1.
  assert (putc i ch c1 = Fault) as ->; [|done].
  destruct H1 as (H8 & H9 & H10 & H13). unfold putc, putc_char.
  rewrite (proj2 (Z.eqb_neq _ _) H9). rewrite (run_bind _ _ _ _ _ (tty_at_run _ _ _ Ht1)).
  rewrite (proj2 (Z.eqb_neq _ _) H10), (proj2 (Z.eqb_neq _ _) H13), (proj2 (Z.eqb_neq _ _) H8).
  unfold put_cell. unfold mbind, M_bind. rewrite (tty_at_run _ _ _ Ht1).
  assert (poke (outbuf t1) (CPOS t1) (cell ch t1) = None) as ->; [|done].
  destruct Hok1 as (Hl1 & _). unfold poke. rewrite Hl1, (proj2 (andb_false_iff _ _)); [done|].
  right. apply Z.ltb_ge. rewrite Hc1, Hlt. subst n. rewrite !Z2Nat.id by (unfold CON_MEM_CHARS in *; lia). lia.
Qed.

(** ** Typing a line *)

Lemma set_start_line_lands i c t line :
  ttys c !! i = Some t -> lands i c (set_start_line line c) (eq t).
Proof.
  intros Ht. unfold set_start_line, cga_write. rewrite (run_bind _ _ _ _ _ eq_refl). unfold modify.
  eexists _, t. split; [done|]. split_and!; [|done|done]. etrans; apply same_rest_cga.
Qed.

Lemma scroll_to_bottom_lands i c t :
  ttys c !! i = Some t ->
  lands i c (scroll_to_bottom i c) (fun t' => exists e, t' = set_outstart e t).
Proof.
  intros Ht. unfold scroll_to_bottom. rewrite (run_bind _ _ _ _ _ (tty_at_run _ _ _ Ht)). cbv zeta.
  eapply lands_bind; [by apply lands_put_tty with (P := fun t' => exists e, t' = set_outstart e t); eauto|].
  intros c1 t1 _ Ht1 HP. unfold is_cur. rewrite (run_bind _ _ _ _ _ eq_refl).
  destruct (cur_tty c1 =? i); [|by apply lands_ret with t1].
  eapply set_start_line_lands in Ht1 as (c2 & t2 & -> & Hs2 & Ht2 & <-). by exists c2, t1.
Qed.

Lemma line_up_length l b : (80 <= length l)%nat -> length (line_up l b) = length l.
Proof. intros H. unfold line_up. rewrite length_app, length_drop, length_replicate. lia. Qed.

Lemma scroll_lands i c t :
  ttys c !! i = Some t -> (80 <= length (vmem c))%nat ->
  lands i c (scroll i c) (fun t' => same_input t t' /\ screenY t' = u8 (screenY t - 1)).
Proof.
  intros Ht Hv. unfold scroll. rewrite (run_bind _ _ _ _ _ (tty_at_run _ _ _ Ht)).
  set (same := fun t' => same_input t t' /\ screenY t' = screenY t).
  eapply lands_bind with (P := same); [by apply lands_put_tty|].
  intros c1 t1 Hr1 Ht1 Hi1. rewrite (run_bind _ _ _ _ _ (tty_at_run _ _ _ Ht1)).
  eapply lands_bind with (P := same).
  - destruct (outstart t1 >? CON_MAX_START_LINE); [|by apply lands_ret with t1].
    eapply lands_bind with (P := same); [by apply lands_put_tty|].
    intros c2 t2 Hr2 Ht2 HP2. unfold is_cur. rewrite (run_bind _ _ _ _ _ eq_refl).
    eapply lands_bind with (P := same).
    + destruct (cur_tty c2 =? i); [|by apply lands_ret with t2].
      unfold modify. eexists _, t2. split; [done|]. split; [|done]. unfold same_rest.
      split_and!; try done. cbn. apply line_up_length.
      destruct Hr1 as (_&_&_&_&_&_&Hv1&_), Hr2 as (_&_&_&_&_&_&Hv2&_). lia.
    + intros c3 t3 _ Ht3 HP3. rewrite (run_bind _ _ _ _ _ (tty_at_run _ _ _ Ht3)).
      by apply lands_put_tty.
  - intros c2 t2 _ Ht2 [Hi2 Hs2]. rewrite (run_bind _ _ _ _ _ (tty_at_run _ _ _ Ht2)).
    unfold is_cur. rewrite (run_bind _ _ _ _ _ eq_refl).
    eapply lands_bind with (P := eq t2).
    + destruct (cur_tty c2 =? i); [by apply set_start_line_lands|by apply lands_ret with t2].
    + intros c3 t3 _ Ht3 <-. apply lands_put_tty. cbn. by rewrite Hs2.
Qed.

Lemma scroll_loop_once fuel i c t :
  ttys c !! i = Some t -> (80 <= length (vmem c))%nat -> 0 <= screenY t <= TTY_SCREEN_Y ->
  lands i c (scroll_loop (S (S fuel)) i c) (same_input t).
Proof.
  intros Ht Hv Hs. destruct (decide (screenY t < TTY_SCREEN_Y)) as [Hlt|Hge].
  - rewrite (scroll_loop_skip _ _ _ t) by done. by apply lands_ret with t.
  - set (n := S fuel). cbn [scroll_loop]. rewrite (run_bind _ _ _ _ _ (tty_at_run _ _ _ Ht)).
    destruct (Z.geb_spec (screenY t) TTY_SCREEN_Y); [|lia].
    eapply lands_bind; [by apply scroll_lands|].
    intros c2 t2 _ Ht2 [Hi2 Hs2]. subst n. rewrite (scroll_loop_skip _ _ _ t2); [|done|].
    + by apply lands_ret with t2.
    + rewrite Hs2. unfold u8, TTY_SCREEN_Y in *. rewrite Z.mod_small; lia.
Qed.

(** A newline scrolls at most once. *)
Lemma putc_newline i c t :
  ttys c !! i = Some t -> screen_ok c t -> lands i c (putc i 10 c) (same_input t).
Proof.
  intros Ht (_ & Hv & _ & _ & Hs). unfold putc, putc_char, putc_end. cbn [Z.eqb Pos.eqb].
  rewrite (run_bind _ _ _ _ _ (tty_at_run _ _ _ Ht)).
  eapply lands_bind with (P := fun t' => same_input t t' /\ x t' = 0 /\ screenY t' = screenY t + 1).
  - apply lands_put_tty. cbn. split_and!; try done. unfold u8, TTY_SCREEN_Y in *. rewrite Z.mod_small; lia.
  - intros c1 t1 Hr1 Ht1 (Hi1 & Hx1 & Hs1). rewrite (run_bind _ _ _ _ _ (tty_at_run _ _ _ Ht1)).
    rewrite Hx1. rewrite (run_bind _ _ _ tt c1) by done.
    eapply lands_bind with (P := same_input t1).
    + change 256%nat with (S (S 254)). apply scroll_loop_once; [done| |lia].
      destruct Hr1 as (_&_&_&_&_&_&Hv1&_). rewrite Hv1, Hv. unfold CON_MEM_CHARS. lia.
    + intros c2 t2 _ Ht2 Hi2. eapply update_cursor_lands in Ht2 as (c3 & t3 & -> & Hs3 & Ht3 & <-).
      exists c3, t2. split_and!; [done..|by etrans].
Qed.

(** A line is being typed: [w] is in the buffer of the terminal, and nothing is complete. *)
Definition holds (t0 : tty_t) (w : list Z) (e : Z) (t : tty_t) : Prop :=
  length (inbuf t) = Z.to_nat TTY_INBUF_SIZE /\ take (length w) (inbuf t) = w /\
  incount t = Z.of_nat (length w) /\ eotcount t = e /\ flags t = flags t0 /\ requests t = requests t0.

Lemma holds_same t0 w e t t' : same_input t t' -> holds t0 w e t -> holds t0 w e t'.
Proof. intros (Hb & Hn & He & Hf & Hr & _). unfold holds. by rewrite Hb, Hn, He, Hf, Hr. Qed.

Lemma take_insert_snoc (l : list Z) n v :
  (n < length l)%nat -> take (S n) (<[n := v]> l) = take n l ++ [v].
Proof.
  intros Hn. rewrite (take_S_r _ _ v) by by apply list_lookup_insert_eq.
  by rewrite take_insert_ge by lia.
Qed.

Lemma push_in_lands i c t t0 w e ch :
  ttys c !! i = Some t -> holds t0 w e t -> (length w < Z.to_nat TTY_INBUF_SIZE)%nat ->
  lands i c (push_in i ch c) (fun t' => holds t0 (w ++ [ch]) e t' /\
    (screen_ok c t -> screen_ok c t') /\ CPOS t' = CPOS t).
Proof.
  intros Ht (Hl & Hw & Hn & He & Hf & Hr) Hlt. unfold push_in.
  rewrite (run_bind _ _ _ _ _ (tty_at_run _ _ _ Ht)).
  rewrite poke_run by (rewrite Hl, Hn; lia). rewrite (run_bind _ _ _ _ _ eq_refl).
  apply lands_put_tty. split; [|done]. unfold holds. cbn.
  rewrite length_insert, length_app, Hn, Nat2Z.id, Nat.add_1_r, take_insert_snoc, Hw by lia.
  split_and!; try done. unfold u32, TTY_INBUF_SIZE in *. rewrite Z.mod_small; lia.
Qed.

Definition key (ch : Z) : Prop := plain ch /\ ch <> 0 /\ ch <> EOT.

Lemma answer_loop_skip fuel i c t t0 w :
  ttys c !! i = Some t -> holds t0 w 0 t -> Z.land (flags t0) TTY_RAW = 0 ->
  answer_loop (S fuel) i c = Ok (tt, c).
Proof.
  intros Ht (_ & _ & _ & He & Hf & _) Hraw. cbn [answer_loop].
  rewrite (run_bind _ _ _ _ _ (tty_at_run _ _ _ Ht)). unfold can_answer_rq, enough_data.
  rewrite Hf, Hraw, He. by destruct (requests t).
Qed.

Lemma handle_char_key i c t t0 w ch :
  cur_tty c = i -> ttys c !! i = Some t -> Z.land (flags t0) TTY_RAW = 0 ->
  holds t0 w 0 t -> screen_ok c t -> CPOS t < CON_MEM_CHARS ->
  (length w < Z.to_nat TTY_INBUF_SIZE)%nat -> key ch ->
  lands i c (handle_char ch c) (fun t' => holds t0 (w ++ [ch]) 0 t' /\ screen_ok c t' /\
    CPOS t' <= CPOS t + 1).
Proof.
  intros <- Ht Hraw Hh Hok Hc Hlt (Hp & H0 & HE). pose proof Hh as (_ & _ & Hn & _ & Hf & _).
  unfold handle_char. rewrite (run_bind _ _ _ _ _ eq_refl). cbv zeta.
  rewrite (run_bind _ _ _ _ _ (tty_at_run _ _ _ Ht)), Hf, Hraw, Hn.
  rewrite (proj2 (Z.eqb_neq _ _) H0), (proj2 (Z.eqb_neq _ TTY_INBUF_SIZE)) by (unfold TTY_INBUF_SIZE in *; lia).
  cbn [truth Z.eqb negb andb]. unfold handle_cbreak_input. pose proof Hp as (H8 & _ & H10 & _).
  rewrite (proj2 (Z.eqb_neq _ _) H10), (proj2 (Z.eqb_neq _ _) H8), (proj2 (Z.eqb_neq _ _) HE).
  rewrite (run_bind _ _ _ false c) by done.
  eapply lands_bind with (P := fun t' => holds t0 (w ++ [ch]) 0 t' /\ screen_ok c t' /\ CPOS t' <= CPOS t + 1).
  - eapply lands_bind with (P := fun t' => holds t0 w 0 t' /\ screen_ok c t' /\ CPOS t' <= CPOS t + 1).
    + destruct (truth (Z.land (flags t0) TTY_ECHO) && negb false); [|apply lands_ret with t; [done|]].
      * eapply lands_bind; [by apply putc_plain|]. intros c1 t1 _ Ht1 Hm.
        assert (CPOS t1 = CPOS t + 1) as Hc1 by (eapply CPOS_next; [done..|by destruct (next_pos t)]).
        destruct Hm as (Hi1 & Hok1 & _).
        destruct (scroll_to_bottom_lands _ _ _ Ht1) as (c2 & t2 & -> & Hs2 & Ht2 & e & ->).
        eexists c2, _. split; [done|]. split; [done|]. split; [done|].
        split_and!; [by eapply holds_same|done|]. change (CPOS t1 <= CPOS t + 1). lia.
      * split_and!; [done|done|lia].
    + intros c1 t1 Hr1 Ht1 (Hh1 & Hok1 & Hc1).
      destruct (push_in_lands _ _ _ t0 w 0 ch Ht1 Hh1 Hlt) as (c2 & t2 & -> & Hs2 & Ht2 & Hh2 & Hok2 & Hc2).
      exists c2, t2. split; [done|]. split; [done|]. split; [done|]. split; [done|]. split; [|lia].
      unfold screen_ok in *. destruct Hr1 as (_&_&_&_&_&_&Hv1&_). rewrite Hv1 in Hok2. tauto.
  - intros c1 t1 _ Ht1 HP. rewrite (run_bind _ _ _ _ _ (tty_at_run _ _ _ Ht1)).
    destruct HP as (Hh1 & HP). rewrite (answer_loop_skip _ _ _ _ _ _ Ht1 Hh1 Hraw).
    by apply lands_ret with t1.
Qed.

Fixpoint type_keys (w : list Z) : M con unit :=
  match w with
  | [] => mret tt
  | ch :: w => handle_char ch;; type_keys w
  end.

Lemma type_keys_app w w' c : type_keys (w ++ w') c = (type_keys w;; type_keys w') c.
Proof.
  revert c. induction w as [|a w IH]; intros c; [done|]. cbn [app type_keys].
  unfold mbind, M_bind in IH |- *. destruct (handle_char a c) as [[[] c1]| |]; [apply IH|done|done].
Qed.

Lemma type_keys_line i t0 w' : forall w c t,
  cur_tty c = i -> ttys c !! i = Some t -> Z.land (flags t0) TTY_RAW = 0 ->
  holds t0 w 0 t -> screen_ok c t -> Forall key w' ->
  CPOS t + Z.of_nat (length w') <= CON_MEM_CHARS ->
  (length w + length w' <= Z.to_nat TTY_INBUF_SIZE)%nat ->
  lands i c (type_keys w' c) (fun t' => holds t0 (w ++ w') 0 t' /\ screen_ok c t').
Proof.
  induction w' as [|ch w' IH]; intros w c t Hi Ht Hraw Hh Hok Hw Hc Hlen; cbn [type_keys length] in *.
  - apply lands_ret with t; [done|]. by rewrite app_nil_r.
  - inv Hw. eapply lands_bind; [eapply handle_char_key; (done || lia)|].
    intros c1 t1 Hr1 Ht1 (Hh1 & Hok1 & Hc1).
    assert (cur_tty c1 = cur_tty c) as Hcur by apply Hr1.
    destruct (IH (w ++ [ch]) c1 t1) as (c2 & t2 & Hr & Hs2 & Ht2 & Hh2 & Hok2); try done; try lia.
    { by eapply screen_ok_rest. }
    { rewrite length_app. cbn. lia. }
    exists c2, t2. rewrite <- app_assoc in Hh2. split_and!; try done.
    unfold screen_ok in *. tauto.
Qed.

Lemma cstr_app w r : 0 ∉ w -> cstr (w ++ 0 :: r) = Some w.
Proof.
  induction w as [|a w IH]; intros Hn; [done|]. cbn [app cstr].
  destruct (Z.eqb_spec a 0) as [->|]; [set_solver|]. by rewrite IH by set_solver.
Qed.

(** The bytes [bs] are at [a], everything else is as in [m]. *)
Definition stored (m : gmap Z Z) (a : Z) (bs : list Z) (m' : gmap Z Z) : Prop :=
  forall p, m' !! p = if decide (a <= p < a + Z.of_nat (length bs))
                      then bs !! Z.to_nat (p - a) else m !! p.

Lemma ustore_run bs : forall a c,
  (forall p, a <= p < a + Z.of_nat (length bs) -> is_Some (umem c !! p)) ->
  exists m, ustore a bs c = Ok (tt, set_umem m c) /\ stored (umem c) a bs m.
Proof.
  induction bs as [|b bs IH]; intros a c Hmap; cbn [ustore length] in *.
  - exists (umem c). split; [by destruct c|]. intros p. rewrite decide_False by (cbn; lia). done.
  - rewrite (run_bind _ _ _ _ _ eq_refl). destruct (Hmap a ltac:(lia)) as [v ->].
    rewrite (run_bind _ _ _ _ _ eq_refl), (run_bind _ _ _ _ _ eq_refl).
    destruct (IH (a + 1) (set_umem (<[a := b]> (umem c)) c)) as (m & -> & Hm).
    + intros p Hp. cbn. rewrite lookup_insert_ne by lia. apply Hmap. lia.
    + exists m. split; [done|]. intros p. rewrite Hm. cbn [umem set_umem length].
      destruct (decide (p = a)) as [->|Hne].
      * rewrite decide_False by lia. rewrite decide_True by lia. by rewrite lookup_insert_eq, Z.sub_diag.
      * rewrite lookup_insert_ne by done. repeat case_decide; try lia; [|done].
        by replace (Z.to_nat (p - a)) with (S (Z.to_nat (p - (a + 1)))) by lia.
Qed.

(** A newline completes the line in the buffer. *)
Lemma newline_completes i c t t0 w :
  ttys c !! i = Some t -> holds t0 w 0 t -> screen_ok c t ->
  (length w + 2 <= Z.to_nat TTY_INBUF_SIZE)%nat ->
  exists c' t', handle_cbreak_input i 10 c = Ok (true, c') /\ same_rest i c c' /\
    ttys c' !! i = Some t' /\ holds t0 (w ++ [10; 0]) 1 t'.
Proof.
  intros Ht Hh Hok Hlen. unfold handle_cbreak_input. cbn [Z.eqb Pos.eqb].
  destruct (putc_newline i c t Ht Hok) as (c1 & t1 & Hr1 & Hs1 & Ht1 & Hi1).
  rewrite (run_bind _ _ _ _ _ Hr1). pose proof (holds_same _ _ _ _ _ Hi1 Hh) as Hh1.
  destruct (push_in_lands i c1 t1 t0 w 0 10) as (c2 & t2 & Hr2 & Hs2 & Ht2 & Hh2 & _); [done|done|lia|].
  rewrite (run_bind _ _ _ _ _ Hr2). unfold end_line.
  set (t2' := set_in (inbuf t2) (incount t2) (u32 (eotcount t2 + 1)) t2).
  set (c2' := set_ttys (<[i := t2']> (ttys c2)) c2).
  assert (ttys c2' !! i = Some t2') as Ht2' by apply lookup_insert_eq.
  assert (holds t0 (w ++ [10]) 1 t2') as Hh2'.
  { destruct Hh2 as (?&?&?&He&?&?). split_and!; try done. cbn. by rewrite He. }
  destruct (push_in_lands i c2' t2' t0 (w ++ [10]) 1 0) as (c3 & t3 & Hr3 & Hs3 & Ht3 & Hh3 & _);
    [done|done|rewrite length_app; cbn; lia|].
  exists c3, t3. rewrite <- app_assoc in Hh3. split_and!; try done.
  - rewrite (run_bind _ _ _ tt c3); [done|].
    rewrite (run_bind _ _ _ _ _ (tty_at_run _ _ _ Ht2)). by rewrite (run_bind _ _ _ tt c2').
  - etrans; [exact Hs1|]. etrans; [exact Hs2|]. etrans; [apply lands_put|exact Hs3].
Qed.

(** [copy_data] and [remove_data] on a buffer that starts with a complete line. *)
Lemma copy_data_line i c t w buf size :
  ttys c !! i = Some t -> Z.land (flags t) TTY_RAW = 0 -> 0 ∉ w ->
  take (length (w ++ [0])) (inbuf t) = w ++ [0] ->
  (forall a, buf <= a < buf + Z.of_nat (length (w ++ [0])) -> is_Some (umem c !! a)) ->
  exists m, copy_data i buf size c = Ok (Z.of_nat (length w), set_umem m c) /\
    stored (umem c) buf (w ++ [0]) m.
Proof.
  intros Ht Hraw H0 Hw Hmap. destruct (ustore_run (w ++ [0]) buf c Hmap) as (m & Hm & Hst).
  exists m. split; [|done]. unfold copy_data. rewrite (run_bind _ _ _ _ _ (tty_at_run _ _ _ Ht)), Hraw.
  assert (cstr (inbuf t) = Some w) as ->.
  { rewrite <- (take_drop (length (w ++ [0])) (inbuf t)), Hw, <- app_assoc. by apply cstr_app. }
  cbn [truth Z.eqb negb]. rewrite (run_bind _ _ _ _ _ eq_refl). by rewrite (run_bind _ _ _ _ _ Hm).
Qed.

Lemma remove_data_line i c t n :
  ttys c !! i = Some t -> Z.land (flags t) TTY_RAW = 0 -> 0 <= n ->
  incount t = n + 1 -> eotcount t = 1 -> n + 1 <= TTY_INBUF_SIZE ->
  lands i c (remove_data i n c) (fun t' => incount t' = 0 /\ eotcount t' = 0 /\
    requests t' = requests t /\ flags t' = flags t).
Proof.
  intros Ht Hraw Hn Hc He Hle. unfold remove_data.
  rewrite (run_bind _ _ _ _ _ (tty_at_run _ _ _ Ht)), Hraw. cbv zeta.
  cbn [truth Z.eqb negb]. rewrite (proj2 (Z.leb_le _ _) Hle). apply lands_put_tty. cbn.
  by rewrite Hc, He, Z.sub_diag.
Qed.

Lemma lift_run {A} (k : M kern A) c a k' : k (kernel c) = Ok (a, k') -> lift k c = Ok (a, set_kernel k' c).
Proof. intros H. unfold lift. by rewrite H. Qed.

Lemma rq_finish_run rq p c k' :
  rq_proc rq = Some p -> rq_blocked rq = true ->
  (pm_unblock p;; sc_late_result (Some p) (rq_result rq)) (kernel c) = Ok (tt, k') ->
  rq_finish rq c = Ok (tt, set_kernel k' c).
Proof.
  intros Hp Hb Hk. unfold rq_finish. rewrite Hp, Hb.
  unfold mbind, M_bind in Hk. destruct (pm_unblock p (kernel c)) as [[[] k1]| |] eqn:Hu; [|done|done].
  rewrite (run_bind _ _ _ _ _ (lift_run _ _ _ _ Hu)). by rewrite (lift_run _ _ tt k').
Qed.

(** Handing a complete line to a waiting reader. *)
Lemma answer_rq_line i c t t0 w rq rqs p k' :
  ttys c !! i = Some t -> holds t0 (w ++ [0]) 1 t -> Z.land (flags t) TTY_RAW = 0 ->
  (length w + 1 <= Z.to_nat TTY_INBUF_SIZE)%nat -> 0 ∉ w ->
  requests t = rq :: rqs -> rq_proc rq = Some p -> rq_blocked rq = true ->
  (forall a, rq_buffer rq <= a < rq_buffer rq + Z.of_nat (length (w ++ [0])) -> is_Some (umem c !! a)) ->
  (pm_unblock p;; sc_late_result (Some p) (Z.of_nat (length w))) (kernel c) = Ok (tt, k') ->
  exists c' t', answer_rq i c = Ok (tt, c') /\ kernel c' = k' /\
    stored (umem c) (rq_buffer rq) (w ++ [0]) (umem c') /\ ttys c' !! i = Some t' /\
    incount t' = 0 /\ eotcount t' = 0 /\ requests t' = rqs.
Proof.
  intros Ht (Hl & Hw & Hn & He & _) Hraw Hlen H0 Hrq Hp Hbl Hmap Hk.
  unfold answer_rq. rewrite (run_bind _ _ _ _ _ (tty_at_run _ _ _ Ht)), Hrq.
  set (t1 := set_requests rqs t). set (c1 := set_ttys (<[i := t1]> (ttys c)) c).
  rewrite (run_bind _ _ _ tt c1) by done.
  destruct (copy_data_line i c1 t1 w (rq_buffer rq) (rq_buflen rq)) as (m & Hcp & Hst);
    [apply lookup_insert_eq|done..|].
  rewrite (run_bind _ _ _ _ _ Hcp). rewrite length_app in Hn. cbn in Hn. unfold TTY_INBUF_SIZE in Hlen.
  destruct (remove_data_line i (set_umem m c1) t1 (Z.of_nat (length w)))
    as (c2 & t2 & Hr2 & Hs2 & Ht2 & Hc2 & He2 & Hrq2 & _);
    [apply lookup_insert_eq|done|lia|cbn; lia|done|unfold TTY_INBUF_SIZE; lia|].
  rewrite (run_bind _ _ _ _ _ Hr2). destruct Hs2 as (Hcur2&_&_&Hu2&Hk2&_).
  rewrite (run_bind _ _ _ tt (set_kernel k' c2)).
  2:{ apply (rq_finish_run _ p); [done|done|]. by rewrite Hk2. }
  destruct (update_cursor_lands i (set_kernel k' c2) t2 Ht2) as (c3 & t3 & Hr3 & Hs3 & Ht3 & <-).
  destruct Hs3 as (_&_&_&Hu3&Hk3&_). exists c3, t2. split_and!; try done.
  rewrite Hu3. cbn [set_kernel umem]. by rewrite Hu2.
Qed.

(** Typing a complete line while one reader waits. *)
Lemma typed_line_answers i c t w rq p k' :
  cur_tty c = i -> ttys c !! i = Some t -> holds t [] 0 t -> screen_ok c t ->
  Z.land (flags t) TTY_RAW = 0 -> Forall key w ->
  CPOS t + Z.of_nat (length w) <= CON_MEM_CHARS -> (length w + 2 <= Z.to_nat TTY_INBUF_SIZE)%nat ->
  requests t = [rq] -> rq_proc rq = Some p -> rq_blocked rq = true ->
  (forall a, rq_buffer rq <= a < rq_buffer rq + Z.of_nat (length w + 2) -> is_Some (umem c !! a)) ->
  (pm_unblock p;; sc_late_result (Some p) (Z.of_nat (length w + 1))) (kernel c) = Ok (tt, k') ->
  exists c' t', type_keys (w ++ [10]) c = Ok (tt, c') /\ kernel c' = k' /\
    stored (umem c) (rq_buffer rq) (w ++ [10; 0]) (umem c') /\ ttys c' !! i = Some t' /\
    incount t' = 0 /\ eotcount t' = 0 /\ requests t' = [].
Proof.
  intros Hi Ht Hh Hok Hraw Hw Hc Hlen Hrq Hp Hbl Hmap Hk. rewrite type_keys_app.
  destruct (type_keys_line i t w [] c t) as (c1 & t1 & Hr1 & Hs1 & Ht1 & Hh1 & Hok1);
    try done; [cbn; lia|].
  rewrite (run_bind _ _ _ _ _ Hr1). cbn [type_keys app] in *.
  destruct (newline_completes i c1 t1 t w) as (c2 & t2 & Hr2 & Hs2 & Ht2 & Hh2); try done.
  { by eapply screen_ok_rest. }
  destruct (transitivity Hs1 Hs2) as (_&_&_&Hu2&Hk2&_).
  assert (exists c' t', answer_loop 2 i c2 = Ok (tt, c') /\ kernel c' = k' /\
    stored (umem c) (rq_buffer rq) (w ++ [10; 0]) (umem c') /\ ttys c' !! i = Some t' /\
    incount t' = 0 /\ eotcount t' = 0 /\ requests t' = []) as (c3 & t3 & Hr3 & HP).
  { pose proof Hh2 as (_ & _ & _ & He2 & Hf2 & Hq2).
    destruct (answer_rq_line i c2 t2 t (w ++ [10]) rq [] p k') as (c3 & t3 & Hr3 & HP).
    - done.
    - by rewrite <- app_assoc.
    - by rewrite Hf2.
    - rewrite length_app. cbn. lia.
    - apply not_elem_of_app. split; [|set_solver].
      intros Hin. rewrite Forall_forall in Hw. by destruct (Hw 0 Hin) as (_ & ? & _).
    - by rewrite Hq2.
    - done.
    - done.
    - intros a Ha. rewrite Hu2. apply Hmap. rewrite !length_app in Ha. cbn in Ha. lia.
    - rewrite Hk2, length_app. exact Hk.
    - exists c3, t3. rewrite Hu2, <- app_assoc in HP. split; [|done].
      destruct HP as (_ & _ & Ht3 & _ & _ & Hq3). cbn [answer_loop].
      rewrite (run_bind _ _ _ _ _ (tty_at_run _ _ _ Ht2)). unfold can_answer_rq, enough_data.
      rewrite Hq2, Hrq, Hf2, Hraw, He2. cbn [truth Z.eqb negb Z.ltb Z.compare].
      rewrite (run_bind _ _ _ _ _ Hr3), (run_bind _ _ _ _ _ (tty_at_run _ _ _ Ht3)). by rewrite Hq3. }
  exists c3, t3. split; [|done]. pose proof Hh1 as (_ & _ & Hn1 & _ & Hf1 & _).
  rewrite (run_bind _ _ _ tt c3); [done|]. unfold handle_char.
  rewrite (run_bind _ _ _ _ _ eq_refl). cbv zeta.
  assert (cur_tty c1 = i) as -> by (destruct Hs1 as (-> & _); done).
  rewrite (run_bind _ _ _ _ _ (tty_at_run _ _ _ Ht1)), Hf1, Hraw, Hn1. cbn [Z.eqb].
  rewrite (proj2 (Z.eqb_neq _ TTY_INBUF_SIZE)) by (unfold TTY_INBUF_SIZE in *; lia).
  cbn [truth Z.eqb negb andb]. rewrite (run_bind _ _ _ _ _ Hr2). cbv iota.
  rewrite (run_bind _ _ _ tt c2) by done. rewrite (run_bind _ _ _ _ _ (tty_at_run _ _ _ Ht2)).
  destruct Hh2 as (_ & _ & _ & _ & _ & Hq2). by rewrite Hq2, Hrq.
Qed.


(** ** Witnesses *)

(** A kernel whose current process is inside of a system call, and its console. *)
Definition calling : kern := state_of ((pm_schedule;; c ← get; upd (cur_proc c) (set_sc_eax (Some 0))) booted3).
Definition caller : Z := default 0 (cur_proc calling).

Definition blank : list Z := replicate (Z.to_nat CON_MEM_CHARS) 0x720.
Definition idle_tty : tty_t :=
  MkTty 0 (replicate (Z.to_nat TTY_INBUF_SIZE) 0) 0 0 blank 0 0 0 0 0x07 TTY_ECHO [].
Definition console : con :=
  MkCon {[ 0 := idle_tty ]} 0 blank ∅ no_keys (Some keymap_de) (list_to_map ((fun a => (a, 0)) <$> seqZ 100 8))
    calling [].

Lemma console_screen : screen_ok console idle_tty.
Proof.
  unfold screen_ok. cbn [outbuf vmem x y screenY idle_tty console]. unfold blank.
  rewrite length_replicate. split_and!; lia || done.
Qed.

Lemma tty_write_long_line_overruns_witness :
  tty_write 0 (replicate (Z.to_nat 16385) 97) console = Fault.
Proof.
  apply (tty_write_long_line_overruns console 0 idle_tty).
  - done.
  - reflexivity.
  - exact console_screen.
  - apply Forall_replicate. unfold plain. lia.
  - rewrite length_replicate. change (CPOS idle_tty) with 0. unfold CON_MEM_CHARS. lia.
Defined.

Definition block_caller : outcome (bool * kern) := pm_block caller BR_WAIT_FS calling.
Definition blocked_kern : kern := match block_caller with Ok (_, k) => k | _ => no_kern end.
Definition woken_kern : kern :=
  state_of ((pm_unblock caller;; sc_late_result (Some caller) 3) blocked_kern).


(** [strcpy] ignores the size a reader asks for: a line longer than its buffer is stored past
    the end of it. *)
Lemma tty_read_overruns_buffer :
  match tty_read 0 106 2 console with
  | Ok (r, c) => r = - EAGAIN /\ type_keys [108; 115; 10] c = Fault
  | _ => False
  end.
Proof. vm_compute. split; reflexivity. Qed.

(** Enter as the 256th character of a line stores its terminating zero behind the buffer. *)
Definition full_console : con :=
  set_ttys {[ 0 := set_in (replicate (Z.to_nat TTY_INBUF_SIZE) 97) 255 0 idle_tty ]} console.

Lemma newline_at_buffer_end_faults : handle_char 10 full_console = Fault.
Proof. vm_compute. reflexivity. Qed.
