(* ===== verification/Storage.v ===== *)
(** * Block devices

    kernel/cdi/storage.c: reads and writes of any number of bytes at any offset of a device
    whose driver only transfers whole blocks.  The driver is an interface ([BlockDriver],
    [struct cdi_storage_driver]); what it promises about the contents of the device is
    [BlockReads] and [BlockWrites].  The temporary buffers are blocks of the kernel heap of
    [Kmalloc]; their contents never outlive a call and are values here. *)

From S2P Require Import Prelude Bytes Kmalloc.

Definition CDI_STORAGE : Z := 2.
Definition MAX_ALIVE : Z := 0x4000.

(** [struct cdi_storage_driver] for a device of type [D]: an error code, and what was
    stored in the buffer. *)
Class BlockDriver (D : Type) := {
  dev_type : D -> Z;
  block_size : D -> Z;
  read_blocks : Z -> Z -> D -> Z * list Z * D;
  write_blocks : Z -> Z -> list Z -> D -> Z * D;
}.

(** The static variables of [dev_read] and [dev_write], the heap and the device. *)
Record storage (D : Type) := MkStorage {
  heap : kheap;
  tmpbuffer : Z;
  bufsize : Z;
  blockbuffer : Z;
  bbufsize : Z;
  device : D;
}.
Arguments MkStorage {D}.
Arguments heap {D}.
Arguments tmpbuffer {D}.
Arguments bufsize {D}.
Arguments blockbuffer {D}.
Arguments bbufsize {D}.
Arguments device {D}.

Section storage.
Context {D : Type} `{BlockDriver D} `{KernelRanges}.

Definition set_heap h (s : storage D) :=
  MkStorage h (tmpbuffer s) (bufsize s) (blockbuffer s) (bbufsize s) (device s).
Definition set_tmp p n (s : storage D) :=
  MkStorage (heap s) p n (blockbuffer s) (bbufsize s) (device s).
Definition set_block_buf p n (s : storage D) :=
  MkStorage (heap s) (tmpbuffer s) (bufsize s) p n (device s).
Definition set_device (d : D) (s : storage D) :=
  MkStorage (heap s) (tmpbuffer s) (bufsize s) (blockbuffer s) (bbufsize s) d.

Definition on_heap {A} (m : M kheap A) : M (storage D) A := fun s =>
  match m (heap s) with
  | Ok (a, h) => Ok (a, set_heap h s)
  | Panic => Panic
  | Fault => Fault
  end.
Definition drv_read (start count : Z) : M (storage D) (Z * list Z) := fun s =>
  let '(err, bs, d) := read_blocks start count (device s) in Ok ((err, bs), set_device d s).
Definition drv_write (start count : Z) (src : list Z) : M (storage D) Z := fun s =>
  let '(err, d) := write_blocks start count src (device s) in Ok (err, set_device d s).

(** [kfree(tmpbuffer); tmpbuffer = kmalloc(needed); bufsize = needed]. *)
Definition grow_tmp (needed : Z) : M (storage D) unit :=
  s ← get;
  if needed >? bufsize s then
    on_heap (kfree (tmpbuffer s));;
    p ← on_heap (kmalloc needed);
    modify (set_tmp p needed)
  else mret tt.

(** [dev_read(file, buffer, size, offset)]: the result, and the bytes put into the buffer. *)
Definition dev_read (size offset : Z) : M (storage D) (Z * list Z) :=
  s ← get;
  kassert (dev_type (device s) =? CDI_STORAGE);;
  let bsize := block_size (device s) in
  if bsize =? 0 then fault
  else
    let startblock := offset / bsize in
    let endblock := u32 (offset + size) / bsize in
    let numblocks := u64 (endblock - startblock) in
    if (offset mod bsize =? 0) && (u32 (offset + size) mod bsize =? 0) then
      '(err, bs) ← drv_read startblock numblocks;
      mret (if truth err then (err, []) else (i32 size, bs))
    else
      let needed := u32 ((numblocks + 1) * bsize) in
      grow_tmp needed;;
      '(err, bs) ← drv_read startblock (u64 (numblocks + 1));
      if truth err then mret (err, [])
      else
        bs ← deref (bytes_at bs (offset mod bsize) size);
        s ← get;
        (if bufsize s >? MAX_ALIVE
         then modify (set_tmp (tmpbuffer s) 0);; on_heap (kfree (tmpbuffer s)) else mret tt);;
        mret (i32 size, bs).

Definition grow_block (bsize : Z) : M (storage D) unit :=
  s ← get;
  if bsize >? bbufsize s then
    on_heap (kfree (blockbuffer s));;
    p ← on_heap (kmalloc bsize);
    modify (set_block_buf p bsize)
  else mret tt.

(** Reading one block, changing the bytes [bs] at [pos] and writing it back. *)
Definition patch_block (block pos : Z) (bs : list Z) : M (storage D) Z :=
  '(err, old) ← drv_read block 1;
  if truth err then mret err
  else new ← deref (copy_to old pos bs); drv_write block 1 new.

(** [dev_write(file, buffer, size, offset)] for the bytes [src] of the buffer. *)
Definition dev_write (src : list Z) (offset : Z) : M (storage D) Z :=
  s ← get;
  kassert (dev_type (device s) =? CDI_STORAGE);;
  let bsize := block_size (device s) in
  let size := Z.of_nat (length src) in
  if bsize =? 0 then fault
  else
    let startblock := offset / bsize in
    grow_block bsize;;
    let unaligned := offset mod bsize in
    let tmpsize := if truth unaligned then Z.min (bsize - unaligned) size else 0 in
    err ← (if truth unaligned
           then patch_block startblock unaligned (take (Z.to_nat tmpsize) src) else mret 0);
    if truth err then mret err
    else
      let src1 := drop (Z.to_nat tmpsize) src in
      let size1 := size - tmpsize in
      let block1 := if truth unaligned then startblock + 1 else startblock in
      let numblocks := size1 / bsize in
      err ← (if truth numblocks
             then drv_write block1 numblocks (take (Z.to_nat (numblocks * bsize)) src1) else mret 0);
      if truth err then mret err
      else
        let src2 := drop (Z.to_nat (numblocks * bsize)) src1 in
        let size2 := size1 - numblocks * bsize in
        let block2 := block1 + numblocks in
        err ← (if truth size2
               then kassert (size2 <? bsize);; patch_block block2 0 src2 else mret 0);
        mret (if truth err then err else i32 size).
End storage.

(** ** What a driver promises *)

(** The bytes [off .. off + n) of a list. *)
Definition slice (off n : Z) (l : list Z) : list Z := take (Z.to_nat n) (drop (Z.to_nat off) l).

(** A device that holds the bytes [disk]: inside of it, reads answer its blocks. *)
Class BlockReads (D : Type) `{BlockDriver D} := {
  disk : D -> list Z;
  dev_ok : D -> Prop;
  dev_ok_type d : dev_ok d -> dev_type d = CDI_STORAGE;
  dev_ok_size d : dev_ok d -> 0 < block_size d < 2 ^ 31;
  dev_ok_whole d : dev_ok d -> Z.of_nat (length (disk d)) mod block_size d = 0;
  read_ok d start n : dev_ok d -> 0 <= start -> 0 <= n ->
    (start + n) * block_size d <= Z.of_nat (length (disk d)) ->
    exists d', read_blocks start n d = (0, slice (start * block_size d) (n * block_size d) (disk d), d') /\
      dev_ok d' /\ disk d' = disk d /\ block_size d' = block_size d;
}.

(** Writes of whole blocks inside of it change exactly them. *)
Class BlockWrites (D : Type) `{BlockReads D} := {
  write_ok d start n bs : dev_ok d -> 0 <= start -> 0 <= n ->
    Z.of_nat (length bs) = n * block_size d ->
    (start + n) * block_size d <= Z.of_nat (length (disk d)) ->
    exists d', write_blocks start n bs d = (0, d') /\ dev_ok d' /\
      disk d' = splice (disk d) (Z.to_nat (start * block_size d)) bs /\ block_size d' = block_size d;
}.

Section reads.
Context {D : Type} `{BlockReads D} `{KernelRanges}.

Lemma slice_slice a n b m l :
  0 <= a -> 0 <= b -> 0 <= m -> b + m <= n -> slice b m (slice a n l) = slice (a + b) m l.
Proof.
  intros Ha Hb Hm Hle. unfold slice. rewrite skipn_firstn_comm, take_take, drop_drop.
  f_equal; [lia|]. f_equal. lia.
Qed.

Lemma slice_length a n l : 0 <= a -> 0 <= n -> a + n <= Z.of_nat (length l) ->
  Z.of_nat (length (slice a n l)) = n.
Proof. intros. unfold slice. rewrite length_take, length_drop. lia. Qed.

Lemma bytes_at_slice l pos n : pos + n <= Z.of_nat (length l) -> bytes_at l pos n = Some (slice pos n l).
Proof. intros Hle. unfold bytes_at. by rewrite (proj2 (Z.leb_le _ _) Hle). Qed.

(** A buffer pointer with its size: a live block of the heap, or nothing. *)
Definition buffer_live (p n : Z) (live : gmap Z Z) : Prop :=
  (n = 0 /\ live !! p = None) \/ (0 < n /\ live !! p = Some n).

Lemma on_heap_run {A} (m : M kheap A) (s : storage D) a h :
  m (heap s) = Ok (a, h) -> on_heap m s = Ok (a, set_heap h s).
Proof. intros Hm. unfold on_heap. by rewrite Hm. Qed.

(** The one reason to panic: the heap has no block of [n] bytes left. *)
Definition out_of_memory (n : Z) : Prop := exists h live, describes h live /\ kmalloc n h = Panic.

(** Replacing a buffer, whatever the old pointer points to. *)
Lemma replace_buffer_run h live p n :
  describes h live -> 0 < n < 2 ^ 31 ->
  exists h1, kfree p h = Ok (tt, h1) /\
    match kmalloc n h1 with
    | Ok (q, h2) => describes h2 (<[q := n]> (delete p live))
    | Panic => out_of_memory n
    | Fault => False
    end.
Proof.
  intros Hd Hn. destruct (free_describes h live p Hd) as (h1 & Hf & Hd1). exists h1. split; [done|].
  pose proof (alloc_describes h1 _ n Hd1 Hn) as Ha.
  destruct (kmalloc n h1) as [[q h2]| |] eqn:Hk; [apply Ha|by eexists _, _|done].
Qed.

(** The heap after a step of a request: still a heap; and if the temporary buffer was a block
    of its own before, it is one afterwards and no other block was touched. *)
Definition heap_step (s : storage D) (live : gmap Z Z) (s' : storage D) : Prop :=
  exists live', describes (heap s') live' /\
    (buffer_live (tmpbuffer s) (bufsize s) live ->
     buffer_live (tmpbuffer s') (bufsize s') live' /\
     forall p, p <> tmpbuffer s -> p <> tmpbuffer s' -> live' !! p = live !! p).

Lemma grow_tmp_run (s : storage D) live needed :
  describes (heap s) live -> 0 < needed < 2 ^ 31 ->
  match grow_tmp needed s with
  | Ok (_, s') => heap_step s live s' /\ device s' = device s
  | Panic => out_of_memory needed
  | Fault => False
  end.
Proof.
  intros Hd Hn. unfold grow_tmp. rewrite (run_bind _ _ _ _ _ eq_refl).
  destruct (needed >? bufsize s).
  - destruct (replace_buffer_run (heap s) live (tmpbuffer s) needed Hd Hn) as (h1 & Hf & Ha).
    rewrite (run_bind _ _ _ _ _ (on_heap_run _ _ _ _ Hf)). unfold mbind at 1, M_bind, on_heap at 1.
    cbn [heap set_heap]. destruct (kmalloc needed h1) as [[p h2]| |]; [|done|done].
    unfold modify. cbn. split; [|done]. eexists. split; [exact Ha|]. intros _. cbn.
    split; [right; split; [lia|apply lookup_insert_eq]|].
    intros q Hq Hq'. by rewrite lookup_insert_ne, lookup_delete_ne.
  - split; [|done]. by exists live.
Qed.

Lemma drv_read_run (s : storage D) start n :
  dev_ok (device s) -> 0 <= start -> 0 <= n ->
  (start + n) * block_size (device s) <= Z.of_nat (length (disk (device s))) ->
  exists d', drv_read start n s = Ok ((0, slice (start * block_size (device s))
      (n * block_size (device s)) (disk (device s))), set_device d' s) /\
    dev_ok d' /\ disk d' = disk (device s) /\ block_size d' = block_size (device s).
Proof.
  intros Hok Hs Hn Hcap. destruct (read_ok (device s) start n) as (d' & Hr & Hd'); [done..|].
  exists d'. split; [|done]. unfold drv_read. by rewrite Hr.
Qed.

(** The contents of the device are unchanged. *)
Definition same_disk (s s' : storage D) : Prop :=
  dev_ok (device s') /\ disk (device s') = disk (device s) /\
  block_size (device s') = block_size (device s).

(** The end of the last block that is read: for a request that is not aligned it is one block
    behind the one the request ends in. *)
Definition read_end (size offset b : Z) : Z :=
  if (offset mod b =? 0) && ((offset + size) mod b =? 0) then offset + size
  else ((offset + size) / b + 1) * b.

(** The buffer is released again when it is large. *)
Lemma release_tmp_run (s : storage D) live (r : Z * list Z) :
  describes (heap s) live ->
  exists s', (s ← get;
    (if bufsize s >? MAX_ALIVE
     then modify (set_tmp (tmpbuffer s) 0);; on_heap (kfree (tmpbuffer s)) else mret tt);;
    mret r) s = Ok (r, s') /\ device s' = device s /\ tmpbuffer s' = tmpbuffer s /\ heap_step s live s'.
Proof.
  intros Hd. rewrite (run_bind _ _ _ _ _ eq_refl). destruct (bufsize s >? MAX_ALIVE).
  - destruct (free_describes (heap s) live (tmpbuffer s) Hd) as (h1 & Hf & Hd1).
    exists (set_heap h1 (set_tmp (tmpbuffer s) 0 s)). split; [|split; [done|split; [done|]]].
    + rewrite (run_bind _ _ _ tt (set_heap h1 (set_tmp (tmpbuffer s) 0 s))); [done|].
      rewrite (run_bind _ _ _ _ _ eq_refl). by apply on_heap_run.
    + eexists. split; [exact Hd1|]. intros _. split; [left; split; [done|apply lookup_delete_eq]|].
      intros p Hp _. by rewrite lookup_delete_ne.
  - exists s. split; [by rewrite (run_bind _ _ _ tt s)|]. split; [done|]. split; [done|]. by exists live.
Qed.

Lemma block_arith b offset size :
  0 < b -> 0 <= offset -> 0 <= size ->
  let sb := offset / b in let eb := (offset + size) / b in
  0 <= sb <= eb /\ sb * b + offset mod b = offset /\ 0 <= offset mod b < b /\
  eb * b <= offset + size < (eb + 1) * b.
Proof.
  intros Hb Ho Hs. cbv zeta. pose proof (Z.div_mod offset b). pose proof (Z.mod_pos_bound offset b Hb).
  pose proof (Z.div_mod (offset + size) b). pose proof (Z.mod_pos_bound (offset + size) b Hb).
  pose proof (Z.div_pos offset b Ho Hb). pose proof (Z.div_le_mono offset (offset + size) b Hb).
  lia.
Qed.

(** [dev_read] with its tests and sizes worked out for a request inside of the device. *)
Lemma dev_read_start (s : storage D) size offset :
  dev_ok (device s) -> 0 <= offset -> 0 <= size -> offset + size < 2 ^ 31 ->
  let b := block_size (device s) in
  let n := (offset + size) / b - offset / b in
  (n + 1) * b < 2 ^ 32 ->
  dev_read size offset s =
  (if (offset mod b =? 0) && ((offset + size) mod b =? 0) then
     '(err, bs) ← drv_read (offset / b) n;
     mret (if truth err then (err, []) else (size, bs))
   else
     grow_tmp ((n + 1) * b);;
     '(err, bs) ← drv_read (offset / b) (n + 1);
     if truth err then mret (err, [])
     else
       bs ← deref (bytes_at bs (offset mod b) size);
       s ← get;
       (if bufsize s >? MAX_ALIVE
        then modify (set_tmp (tmpbuffer s) 0);; on_heap (kfree (tmpbuffer s)) else mret tt);;
       mret (size, bs)) s.
Proof.
  intros Hok Ho Hsz Hlt b n Hn. pose proof (dev_ok_size _ Hok) as Hb. fold b in Hb.
  destruct (block_arith b offset size) as (Hsb & _ & _ & _); [lia..|]. fold n in Hsb.
  unfold dev_read. rewrite (run_bind _ _ _ _ _ eq_refl).
  rewrite (run_bind _ _ _ tt s) by by rewrite (dev_ok_type _ Hok).
  fold b. destruct (Z.eqb_spec b 0); [lia|]. cbv zeta.
  assert (u32 (offset + size) = offset + size) as -> by (unfold u32; rewrite Z.mod_small; lia).
  fold n. assert (0 <= n < 2 ^ 32) as Hn' by nia.
  assert (u64 n = n) as -> by (unfold u64; rewrite Z.mod_small; lia).
  assert (u64 (n + 1) = n + 1) as -> by (unfold u64; rewrite Z.mod_small; lia).
  assert (u32 ((n + 1) * b) = (n + 1) * b) as -> by (unfold u32; rewrite Z.mod_small; nia).
  by rewrite (i32_small size) by lia.
Qed.

Lemma dev_read_run (s : storage D) live size offset :
  describes (heap s) live -> dev_ok (device s) ->
  0 <= offset -> 0 <= size -> Z.of_nat (length (disk (device s))) < 2 ^ 31 ->
  read_end size offset (block_size (device s)) <= Z.of_nat (length (disk (device s))) ->
  match dev_read size offset s with
  | Ok ((r, bs), s') => r = size /\ bs = slice offset size (disk (device s)) /\
                        same_disk s s' /\ heap_step s live s'
  | Panic => exists n, 0 < n <= Z.of_nat (length (disk (device s))) /\ out_of_memory n
  | Fault => False
  end.
Proof.
  intros Hd Hok Ho Hsz Hlen Hend. pose proof (dev_ok_size _ Hok) as Hb. unfold read_end in Hend.
  destruct (block_arith (block_size (device s)) offset size) as (Hsb & Hoff & Hmod & Heb); [lia..|].
  assert (offset + size <= Z.of_nat (length (disk (device s)))) as Hin by (destruct (_ && _) in Hend; lia).
  rewrite dev_read_start; [|done|lia|lia|lia|nia]. set (n := _ - _).
  destruct (_ && _) eqn:Ha.
  - to_prop. destruct (drv_read_run s (offset / block_size (device s)) n) as (d' & Hr & Hfr);
      [done|lia|lia|subst n; lia|].
    rewrite (run_bind _ _ _ _ _ Hr). cbn. split; [done|]. split.
    + f_equal; [lia|]. subst n. pose proof (Z.div_mod (offset + size) (block_size (device s))). lia.
    + split; [done|]. by exists live.
  - assert (0 <= offset / block_size (device s) * block_size (device s) /\
      (offset / block_size (device s) + (n + 1)) * block_size (device s) <= Z.of_nat (length (disk (device s)))) as Hc1
      by (subst n; lia).
    assert (0 < (n + 1) * block_size (device s) <= Z.of_nat (length (disk (device s)))) as Hc2 by (subst n; nia).
    pose proof (grow_tmp_run s live ((n + 1) * block_size (device s)) Hd
      (conj (proj1 Hc2) (Z.le_lt_trans _ _ _ (proj2 Hc2) Hlen))) as Hg.
    unfold mbind at 1, M_bind at 1. destruct (grow_tmp _ s) as [[[] s1]| |]; [|by eexists|done].
    destruct Hg as ((live1 & Hd1 & Hl1) & Hdev1).
    destruct (drv_read_run s1 (offset / block_size (device s)) (n + 1)) as (d2 & Hr & Hok2 & Hdk2 & Hbk2);
      rewrite ?Hdev1; [done|lia|lia|lia|]. rewrite Hdev1 in Hr, Hdk2, Hbk2.
    rewrite (run_bind _ _ _ _ _ Hr). cbn [truth Z.eqb negb].
    rewrite bytes_at_slice by (rewrite slice_length; lia || (subst n; lia)).
    rewrite slice_slice, Hoff by (lia || (subst n; lia)). rewrite (run_bind _ _ _ _ _ eq_refl).
    destruct (release_tmp_run (set_device d2 s1) live1 (size, slice offset size (disk (device s))))
      as (s3 & Hr3 & Hdev3 & Ht3 & live3 & Hd3 & Hl3); [done..|].
    rewrite Hr3. split; [done|]. split; [done|]. split; [unfold same_disk; by rewrite Hdev3|].
    exists live3. split; [done|]. intros Hbuf. destruct (Hl1 Hbuf) as [Hb1 Hp1]. destruct (Hl3 Hb1) as [Hb3 Hp3].
    split; [done|]. intros p Hp Hp'. rewrite Hp3, Hp1; by rewrite ?Ht3 in *.
Qed.
End reads.

(** ** Writing *)

Lemma splice_nil l p : splice l p [] = l.
Proof. unfold splice. cbn. by rewrite Nat.add_0_r, take_drop. Qed.

(** Two adjacent pieces. *)
Lemma splice_app l p a b :
  (p + length (a ++ b) <= length l)%nat ->
  splice (splice l p a) (p + length a) b = splice l p (a ++ b).
Proof.
  intros Hle. rewrite length_app in Hle. apply list_eq. intros i.
  rewrite !splice_lookup by (rewrite ?splice_length, ?length_app; lia). rewrite length_app.
  repeat case_decide; try lia; try done.
  - rewrite lookup_app_r by lia. f_equal. lia.
  - by rewrite lookup_app_l by lia.
Qed.

(** A piece of a piece that is written back. *)
Lemma splice_within l p n pos bs :
  (pos + length bs <= n)%nat -> (p + n <= length l)%nat ->
  splice l p (splice (take n (drop p l)) pos bs) = splice l (p + pos) bs.
Proof.
  intros H1 H2. assert (length (take n (drop p l)) = n) as Hn by (rewrite length_take, length_drop; lia).
  apply list_eq. intros i.
  rewrite (splice_lookup l p) by (rewrite splice_length, Hn; rewrite ?Hn; lia). rewrite !splice_lookup by (rewrite ?Hn; lia).
  rewrite splice_length, Hn by (rewrite ?Hn; lia). repeat case_decide; try lia; try done.
  - f_equal. lia.
  - rewrite lookup_take_lt, lookup_drop by lia. f_equal. lia.
Qed.

Section writes.
Context {D : Type} `{BlockWrites D} `{KernelRanges}.

(** [m] returns 0 and puts the bytes [bs] at [off] of the device, and does nothing else. *)
Definition wrote (s : storage D) (m : M (storage D) Z) (off : Z) (bs : list Z) : Prop :=
  exists d', m s = Ok (0, set_device d' s) /\ dev_ok d' /\
    disk d' = splice (disk (device s)) (Z.to_nat off) bs /\ block_size d' = block_size (device s).

Lemma wrote_nothing (s : storage D) off : dev_ok (device s) -> wrote s (mret 0) off [].
Proof. intros Hok. exists (device s). rewrite splice_nil. by destruct s. Qed.

Lemma drv_write_wrote (s : storage D) start n bs :
  dev_ok (device s) -> 0 <= start -> 0 <= n -> Z.of_nat (length bs) = n * block_size (device s) ->
  (start + n) * block_size (device s) <= Z.of_nat (length (disk (device s))) ->
  wrote s (drv_write start n bs) (start * block_size (device s)) bs.
Proof.
  intros Hok Hs Hn Hl Hc. destruct (write_ok (device s) start n bs) as (d' & Hw & Hr); [done..|].
  exists d'. split; [|naive_solver]. unfold drv_write. by rewrite Hw.
Qed.

Lemma patch_block_wrote (s : storage D) k pos bs :
  dev_ok (device s) -> 0 <= k -> 0 <= pos -> pos + Z.of_nat (length bs) <= block_size (device s) ->
  (k + 1) * block_size (device s) <= Z.of_nat (length (disk (device s))) ->
  wrote s (patch_block k pos bs) (k * block_size (device s) + pos) bs.
Proof.
  intros Hok Hk Hpos Hlen Hc. unfold patch_block.
  destruct (drv_read_run s k 1) as (d1 & Hr & Hok1 & Hdk1 & Hbk1); [done|lia..|].
  assert (0 <= k * block_size (device s)) as Hkb by (pose proof (dev_ok_size _ Hok); nia).
  set (old := slice _ _ _) in Hr.
  assert (Z.of_nat (length old) = block_size (device s)) as Hold by (subst old; rewrite slice_length; lia).
  set (new := splice old (Z.to_nat pos) bs).
  assert (copy_to old pos bs = Some new) as Hcp.
  { unfold copy_to. rewrite Hold, (proj2 (Z.leb_le _ _)) by lia. done. }
  destruct (drv_write_wrote (set_device d1 s) k 1 new) as (d2 & Hw & Hok2 & Hdk2 & Hbk2).
  { done. } { lia. } { lia. } { cbn. subst new. rewrite splice_length, Hbk1; lia. } { cbn. rewrite Hdk1, Hbk1. lia. }
  exists d2. split_and!; [|done| |cbn in Hbk2; congruence].
  - rewrite (run_bind _ _ _ _ _ Hr). cbn [truth Z.eqb negb]. rewrite Hcp.
    by rewrite (run_bind _ _ _ _ _ eq_refl).
  - cbn in Hdk2. rewrite Hdk2, Hdk1, Hbk1. subst new old. unfold slice.
    rewrite splice_within by lia. f_equal. lia.
Qed.

Lemma grow_block_run (s : storage D) live n :
  describes (heap s) live -> 0 < n < 2 ^ 31 ->
  match grow_block n s with
  | Ok (_, s') => (exists live', describes (heap s') live') /\ device s' = device s
  | Panic => out_of_memory n
  | Fault => False
  end.
Proof.
  intros Hd Hn. unfold grow_block. rewrite (run_bind _ _ _ _ _ eq_refl).
  destruct (n >? bbufsize s); [|split; [by exists live|done]].
  destruct (replace_buffer_run (heap s) live (blockbuffer s) n Hd Hn) as (h1 & Hf & Ha).
  rewrite (run_bind _ _ _ _ _ (on_heap_run _ _ _ _ Hf)). unfold mbind at 1, M_bind, on_heap at 1.
  cbn [heap set_heap]. destruct (kmalloc n h1) as [[p h2]| |]; [|done|done].
  unfold modify. cbn. eauto.
Qed.
Lemma whole_block b k n : 0 < b -> n mod b = 0 -> k * b < n -> (k + 1) * b <= n.
Proof.
  intros Hb Hn Hk. pose proof (Z.div_mod n b ltac:(lia)) as Hdm.
  assert (k < n / b) by (apply (Z.mul_lt_mono_pos_r b); lia).
  assert ((k + 1) * b <= n / b * b) by (apply Z.mul_le_mono_nonneg_r; lia). lia.
Qed.

(** How a request is cut: [t] bytes up to the first block boundary, [nb] whole blocks, and
    the rest. *)
Lemma write_arith b offset size :
  0 < b -> 0 <= offset -> 0 <= size ->
  let u := offset mod b in
  let t := if truth u then Z.min (b - u) size else 0 in
  let block1 := if truth u then offset / b + 1 else offset / b in
  let nb := (size - t) / b in
  0 <= offset / b /\ offset = offset / b * b + u /\ 0 <= u < b /\ 0 <= t <= size /\ 0 <= nb /\
  0 <= block1 /\ (size - t - nb * b) mod b = size - t - nb * b /\ 0 <= size - t - nb * b < b /\
  (t < size -> block1 * b = offset + t).
Proof.
  intros Hb Ho Hs u t block1 nb. pose proof (Z.div_mod offset b). pose proof (Z.mod_pos_bound offset b Hb) as Hu.
  pose proof (Z.div_pos offset b Ho Hb). fold u in Hu.
  assert (0 <= t <= size) as Ht by (subst t; destruct (truth u); lia).
  pose proof (Z.div_mod (size - t) b) as Hdm. pose proof (Z.mod_pos_bound (size - t) b Hb).
  pose proof (Z.div_pos (size - t) b) as Hdp. fold nb in Hdm, Hdp.
  assert (0 <= size - t - nb * b < b) as Hr by lia.
  split_and!; try lia.
  - subst block1. destruct (truth u); lia.
  - by apply Z.mod_small.
  - intros Hlt. subst block1 t. unfold truth in *. destruct (Z.eqb_spec u 0); cbn [negb] in *; subst u; lia.
Qed.

Lemma wrote_chain (s : storage D) d1 off a (m : M (storage D) Z) b :
  disk d1 = splice (disk (device s)) (Z.to_nat off) a -> block_size d1 = block_size (device s) ->
  0 <= off -> off + Z.of_nat (length (a ++ b)) <= Z.of_nat (length (disk (device s))) ->
  wrote (set_device d1 s) m (off + Z.of_nat (length a)) b ->
  exists d', m (set_device d1 s) = Ok (0, set_device d' s) /\ dev_ok d' /\
    disk d' = splice (disk (device s)) (Z.to_nat off) (a ++ b) /\ block_size d' = block_size (device s).
Proof.
  intros Hd1 Hb1 Hoff Hle (d' & Hm & Hok & Hdk & Hbk). exists d'. split_and!; [exact Hm|done| |cbn in Hbk; congruence].
  cbn in Hdk. rewrite Hdk, Hd1. replace (Z.to_nat (off + Z.of_nat (length a))) with (Z.to_nat off + length a)%nat by lia.
  apply splice_app. lia.
Qed.

(** The three pieces, each of which may be empty. *)
Lemma first_piece (s : storage D) src offset :
  dev_ok (device s) -> 0 <= offset ->
  offset + Z.of_nat (length src) <= Z.of_nat (length (disk (device s))) ->
  let b := block_size (device s) in
  let u := offset mod b in
  let t := if truth u then Z.min (b - u) (Z.of_nat (length src)) else 0 in
  wrote s (if truth u then patch_block (offset / b) u (take (Z.to_nat t) src) else mret 0)
    offset (take (Z.to_nat t) src).
Proof.
  intros Hok Ho Hin b u t. pose proof (dev_ok_size _ Hok) as Hb. fold b in Hb.
  destruct (write_arith b offset (Z.of_nat (length src))) as (Hsb & Hoff & Hu & Ht & _); [lia..|].
  fold u in Hoff, Hu, Ht. fold t in Ht. unfold truth in *. destruct (Z.eqb_spec u 0) as [|Hne].
  - subst t. by apply wrote_nothing.
  - replace offset with (offset / b * b + u) at 2 by lia. apply patch_block_wrote; fold b; [done|lia|lia| |].
    + rewrite length_take. subst t. cbn [negb] in *. lia.
    + apply whole_block; [lia|by apply dev_ok_whole|lia].
Qed.

Lemma mid_piece (s : storage D) k nb off bs :
  dev_ok (device s) -> 0 <= k -> 0 <= nb -> Z.of_nat (length bs) = nb * block_size (device s) ->
  (0 < nb -> k * block_size (device s) = off) ->
  off + Z.of_nat (length bs) <= Z.of_nat (length (disk (device s))) ->
  wrote s (if truth nb then drv_write k nb bs else mret 0) off bs.
Proof.
  intros Hok Hk Hnb Hl Hoff Hin. unfold truth. destruct (Z.eqb_spec nb 0) as [->|].
  - destruct bs; [by apply wrote_nothing|]. cbn in Hl. lia.
  - rewrite <- Hoff by lia. apply drv_write_wrote; [done|lia|lia|done|]. rewrite <- Hoff in Hin by lia. lia.
Qed.

Lemma last_piece (s : storage D) k off bs :
  dev_ok (device s) -> 0 <= k -> Z.of_nat (length bs) < block_size (device s) ->
  (0 < Z.of_nat (length bs) -> k * block_size (device s) = off) ->
  off + Z.of_nat (length bs) <= Z.of_nat (length (disk (device s))) ->
  wrote s (if truth (Z.of_nat (length bs))
           then kassert (Z.of_nat (length bs) <? block_size (device s));; patch_block k 0 bs
           else mret 0) off bs.
Proof.
  intros Hok Hk Hl Hoff Hin. unfold truth. destruct (Z.eqb_spec (Z.of_nat (length bs)) 0).
  - destruct bs; [by apply wrote_nothing|]. cbn in *. lia.
  - cbn [negb]. rewrite <- (Z.add_0_r off), <- Hoff by lia.
    destruct (patch_block_wrote s k 0 bs) as (d' & Hr & Hd'); [done|lia|lia|lia| |].
    + apply whole_block; [lia|by apply dev_ok_whole|]. rewrite Hoff by lia. lia.
    + exists d'. split; [|done]. by rewrite (proj2 (Z.ltb_lt _ _) Hl).
Qed.

Lemma dev_write_run (s : storage D) live src offset :
  describes (heap s) live -> dev_ok (device s) -> 0 <= offset ->
  offset + Z.of_nat (length src) <= Z.of_nat (length (disk (device s))) ->
  Z.of_nat (length (disk (device s))) < 2 ^ 31 ->
  match dev_write src offset s with
  | Ok (r, s') => r = Z.of_nat (length src) /\ dev_ok (device s') /\
      disk (device s') = splice (disk (device s)) (Z.to_nat offset) src /\
      block_size (device s') = block_size (device s) /\ exists live', describes (heap s') live'
  | Panic => out_of_memory (block_size (device s))
  | Fault => False
  end.
Proof.
  intros Hd Hok Ho Hin Hlen. pose proof (dev_ok_size _ Hok) as Hb.
  unfold dev_write. rewrite (run_bind _ _ _ _ _ eq_refl).
  rewrite (run_bind _ _ _ tt s) by by rewrite (dev_ok_type _ Hok). cbv zeta.
  destruct (Z.eqb_spec (block_size (device s)) 0); [lia|].
  pose proof (grow_block_run s live (block_size (device s)) Hd Hb) as Hg.
  unfold mbind at 1, M_bind at 1. destruct (grow_block _ s) as [[[] s0]| |]; [|done|done].
  destruct Hg as [[live' Hd0] Hdev0]. rewrite <- Hdev0 in *. clear Hd Hdev0 s.
  destruct (write_arith (block_size (device s0)) offset (Z.of_nat (length src)))
    as (_ & _ & _ & Ht & Hnb & Hb1 & _ & Hrest & Hblk); [lia..|].
  destruct (first_piece s0 src offset Hok Ho Hin) as (d1 & Hr1 & Hok1 & Hdk1 & Hbk1).
  rewrite (run_bind _ _ _ _ _ Hr1). cbn [truth Z.eqb negb] in *.
  set (b := block_size (device s0)) in *. set (t := if truth _ then _ `min` _ else 0) in *.
  set (block1 := if truth _ then offset / b + 1 else offset / b) in *. set (nb := (_ - t) / b) in *.
  assert (0 <= nb * b) as Hnb0 by (apply Z.mul_nonneg_nonneg; lia).
  set (a := take (Z.to_nat t) src) in *. set (mid := take (Z.to_nat (nb * b)) _).
  set (rest := drop (Z.to_nat (nb * b)) _).
  assert (length a = Z.to_nat t) as Hla by (subst a; rewrite length_take; lia).
  assert (length mid = Z.to_nat (nb * b)) as Hlm by (subst mid; rewrite length_take, length_drop; lia).
  assert (Z.of_nat (length rest) = Z.of_nat (length src) - t - nb * b) as Hlr
    by (subst rest; rewrite !length_drop; lia).
  assert (length (disk d1) = length (disk (device s0))) as Hl1 by (rewrite Hdk1; apply splice_length; lia).
  destruct (wrote_chain s0 d1 offset a (if truth nb then drv_write block1 nb mid else mret 0) mid)
    as (d2 & Hr2 & Hok2 & Hdk2 & Hbk2); [done|done|done|rewrite length_app; lia| |].
  { apply mid_piece; cbn; rewrite ?Hbk1, ?Hl1; fold b; [done|lia|lia|lia| |lia].
    intros Hpos. assert (b <= nb * b) by nia. rewrite Hla. rewrite Hblk; lia. }
  rewrite (run_bind _ _ _ _ _ Hr2). cbn [truth Z.eqb negb]. rewrite <- Hlr.
  assert (length (disk d2) = length (disk (device s0))) as Hl2
    by (rewrite Hdk2; apply splice_length; rewrite length_app; lia).
  destruct (wrote_chain s0 d2 offset (a ++ mid) (if truth (Z.of_nat (length rest))
    then kassert (Z.of_nat (length rest) <? b);; patch_block (block1 + nb) 0 rest else mret 0) rest)
    as (d3 & Hr3 & Hok3 & Hdk3 & Hbk3); [done|done|done|rewrite !length_app; lia| |].
  { fold b in Hbk2. rewrite <- Hbk2. apply (last_piece (set_device d2 s0)); cbn; rewrite ?Hbk2, ?Hl2;
      [done|lia|lia| |rewrite length_app; lia].
    intros Hpos. rewrite length_app, Hla, Hlm, Z.mul_add_distr_r, Hblk; lia. }
  rewrite (run_bind _ _ _ _ _ Hr3). cbn. rewrite i32_small by lia. split_and!; try done.
  - rewrite Hdk3. f_equal. subst a mid rest. by rewrite <- app_assoc, !take_drop.
  - by exists live'.
Qed.
End writes.

(** ** The device as an array of bytes *)

Inductive sop := SRead (size offset : Z) | SWrite (src : list Z) (offset : Z).

Section refinement.
Context {D : Type} `{BlockWrites D} `{KernelRanges}.

Definition sstep (op : sop) : M (storage D) (Z * list Z) :=
  match op with
  | SRead size offset => dev_read size offset
  | SWrite src offset => r ← dev_write src offset; mret (r, [])
  end.
Fixpoint srun (ops : list sop) : M (storage D) (list (Z * list Z)) :=
  match ops with
  | [] => mret []
  | op :: ops => r ← sstep op; rs ← srun ops; mret (r :: rs)
  end.

(** The same on an array of bytes. *)
Definition spec_step (op : sop) (l : list Z) : (Z * list Z) * list Z :=
  match op with
  | SRead size offset => ((size, slice offset size l), l)
  | SWrite src offset => ((Z.of_nat (length src), []), splice l (Z.to_nat offset) src)
  end.
Fixpoint spec_run (ops : list sop) (l : list Z) : list (Z * list Z) * list Z :=
  match ops with
  | [] => ([], l)
  | op :: ops => let '(r, l) := spec_step op l in let '(rs, l) := spec_run ops l in (r :: rs, l)
  end.

(** A request inside of a device of [n] bytes. *)
Definition sop_ok (b n : Z) (op : sop) : Prop :=
  match op with
  | SRead size offset => 0 <= offset /\ 0 <= size /\ read_end size offset b <= n
  | SWrite src offset => 0 <= offset /\ offset + Z.of_nat (length src) <= n
  end.

Lemma spec_step_length b n op l :
  sop_ok b n op -> Z.of_nat (length l) = n -> Z.of_nat (length (spec_step op l).2) = n.
Proof. destruct op; cbn; [done|]. intros [? ?] <-. rewrite splice_length; lia. Qed.

Lemma sstep_run (s : storage D) live op :
  describes (heap s) live -> dev_ok (device s) -> Z.of_nat (length (disk (device s))) < 2 ^ 31 ->
  sop_ok (block_size (device s)) (Z.of_nat (length (disk (device s)))) op ->
  match sstep op s with
  | Ok (r, s') => (r, disk (device s')) = spec_step op (disk (device s)) /\ dev_ok (device s') /\
      block_size (device s') = block_size (device s) /\ exists live', describes (heap s') live'
  | Panic => exists n, out_of_memory n
  | Fault => False
  end.
Proof.
  intros Hd Hok Hlen Hop. destruct op as [size offset|src offset]; cbn [sstep spec_step].
  - destruct Hop as (? & ? & ?). pose proof (dev_read_run s live size offset) as Hr.
    destruct (dev_read size offset s) as [[[r bs] s']| |]; [| |by apply Hr].
    + destruct Hr as (-> & -> & (? & Hdk & ?) & live' & ? & _); [done..|]. rewrite Hdk. eauto.
    + destruct Hr as (n & _ & ?); [done..|]. eauto.
  - destruct Hop as (? & ?). pose proof (dev_write_run s live src offset) as Hr. unfold mbind, M_bind.
    destruct (dev_write src offset s) as [[r s']| |]; [| |by apply Hr].
    + destruct Hr as (-> & ? & Hdk & ? & ?); [done..|]. cbn. by rewrite Hdk.
    + eexists. by apply Hr.
Qed.

End refinement.

(** ** A device in memory *)

Record ramdisk := MkRam { rd_size : Z; rd_bytes : list Z }.

#[export] Instance ram_driver : BlockDriver ramdisk := {|
  dev_type _ := CDI_STORAGE;
  block_size := rd_size;
  read_blocks start n d :=
    if (start + n) * rd_size d <=? Z.of_nat (length (rd_bytes d))
    then (0, slice (start * rd_size d) (n * rd_size d) (rd_bytes d), d) else (-1, [], d);
  write_blocks start n bs d :=
    if (start + n) * rd_size d <=? Z.of_nat (length (rd_bytes d))
    then (0, MkRam (rd_size d) (splice (rd_bytes d) (Z.to_nat (start * rd_size d)) bs)) else (-1, d);
|}.

Definition ram_ok (d : ramdisk) : Prop :=
  0 < rd_size d < 2 ^ 31 /\ Z.of_nat (length (rd_bytes d)) mod rd_size d = 0.

#[export] Program Instance ram_reads : BlockReads ramdisk := {| disk := rd_bytes; dev_ok := ram_ok |}.
Next Obligation. done. Qed.
Next Obligation. by intros d [? ?]. Qed.
Next Obligation. by intros d [? ?]. Qed.
Next Obligation.
  intros d start n Hok Hs Hn Hle. exists d. cbn in *. by rewrite (proj2 (Z.leb_le _ _) Hle).
Qed.

#[export] Instance ram_writes : BlockWrites ramdisk.
Proof.
  constructor. intros d start n bs [Hb Hm] Hs Hn Hl Hle. cbn in *. rewrite (proj2 (Z.leb_le _ _) Hle).
  eexists. split; [done|]. split_and!; try done. split; [done|]. cbn.
  rewrite splice_length; [done|]. nia.
Qed.

#[local] Existing Instance bump_ranges.
Definition ram_storage (d : ramdisk) : storage ramdisk := MkStorage empty_heap 0 0 0 0 d.

Definition ram16 : storage ramdisk := ram_storage (MkRam 4 (replicate 16 0)).
Definition ram_ops : list sop := [SWrite [1; 2; 3; 4; 5] 2; SRead 6 1].


(** The witness does not panic. *)
Lemma ram_storage_runs :
  match srun ram_ops ram16 with
  | Ok (rs, _) => rs = [(5, []); (6, [0; 1; 2; 3; 4; 5])]
  | _ => False
  end.
Proof. vm_compute. reflexivity. Qed.

(** A large buffer is freed without forgetting its pointer: the block another part of the
    kernel gets next is freed by the next read and used as its buffer. *)
Lemma dev_read_frees_foreign_block :
  match (_ ← dev_read 0x4000 1; q ← on_heap (kmalloc 0x6000); _ ← dev_read 0x2000 1; mret q)
          (ram_storage (MkRam 0x2000 (replicate (Z.to_nat 0x8000) 0))) with
  | Ok (q, s') => tmpbuffer s' = q /\ bufsize s' = 0x4000
  | _ => False
  end.
Proof. vm_compute. split; reflexivity. Qed.

(** A request that starts inside of a block and ends at the end of the device needs one block
    more than there is. *)
Lemma dev_read_last_bytes_fails :
  match dev_read 3 13 ram16 with
  | Ok ((r, _), _) => r = -1
  | _ => False
  end.
Proof. vm_compute. reflexivity. Qed.
