(* ===== verification/Scsi.v ===== *)
(** * SCSI disks

    kernel/cdi/scsi.c: a SCSI device as a block device.  The driver that carries a packet to
    the device is an interface ([ScsiDriver], [struct cdi_scsi_driver]); that a READ(12)
    command answers the sectors it names is its promise ([ScsiReads]).  From it the promise
    [BlockReads] of the storage layer is proved, so that its theorems hold on SCSI disks. *)

From S2P Require Import Prelude Page Bytes Kmalloc Storage.

Definition SCSI_OP_REQSENSE : Z := 0x03.
Definition SCSI_OP_INQUIRY : Z := 0x12.
Definition SCSI_OP_STARTSTOP : Z := 0x1B.
Definition SCSI_OP_CAPACITY : Z := 0x25.
Definition SCSI_OP_READ_12 : Z := 0xA8.
Definition SCSI_CMDSIZE : Z := 12.
Definition SCSI_OPCODE : nat := 0.
Definition SCSI_STOP_MOTOR : Z := 0x00.
Definition SCSI_START_MOTOR : Z := 0x01.
Definition sizeof_inquiry : Z := 24.
Definition sizeof_impl : Z := 28.
Definition sizeof_front : Z := 28.
Definition sizeof_inode : Z := 44.

Inductive scsi_direction := CDI_SCSI_NODATA | CDI_SCSI_READ | CDI_SCSI_WRITE.

(** [struct cdi_scsi_packet]; the buffer is the answer of the request. *)
Record cdi_scsi_packet := MkPacket {
  direction : scsi_direction;
  bufsize_ : Z;
  cmdsize : Z;
  command : list Z;
}.

(** [drv->request(dev, &packet)]: the error status and what was stored in the buffer. *)
Class ScsiDriver (C : Type) := { request : cdi_scsi_packet -> C -> Z * list Z * C }.

(** The device and its front [cdi_storage_device]. *)
Record scsi (C : Type) := MkScsi { ctl : C; front_size : Z; front_count : Z }.
Arguments MkScsi {C}.
Arguments ctl {C}.
Arguments front_size {C}.
Arguments front_count {C}.

(** [memset(&packet, 0, sizeof(packet))]. *)
Definition no_command : list Z := replicate 16 0.
(** A store of the 32-bit value [v] at [command + pos]. *)
Definition put_dword (pos : nat) (v : Z) (cmd : list Z) : list Z := splice cmd pos (le_bytes 4 v).
(** The uninitialised local of [bigendian_dword] is overwritten completely. *)
Definition be_dword (v : Z) : Z := bigendian_dword [0; 0; 0; 0] v.

Definition inquiry_packet : cdi_scsi_packet :=
  MkPacket CDI_SCSI_READ sizeof_inquiry SCSI_CMDSIZE
    (<[4%nat := sizeof_inquiry]> (<[SCSI_OPCODE := SCSI_OP_INQUIRY]> no_command)).
Definition motor_packet (ctrl : Z) : cdi_scsi_packet :=
  MkPacket CDI_SCSI_NODATA 0 SCSI_CMDSIZE
    (<[4%nat := u8 ctrl]> (<[SCSI_OPCODE := SCSI_OP_STARTSTOP]> no_command)).
Definition capacity_packet : cdi_scsi_packet :=
  MkPacket CDI_SCSI_READ 8 SCSI_CMDSIZE (<[SCSI_OPCODE := SCSI_OP_CAPACITY]> no_command).
Definition read_packet (sector bsize : Z) : cdi_scsi_packet :=
  MkPacket CDI_SCSI_READ bsize SCSI_CMDSIZE
    (put_dword 6 (be_dword 1) (put_dword 2 (be_dword sector)
       (<[SCSI_OPCODE := SCSI_OP_READ_12]> no_command))).
Definition sense_packet : cdi_scsi_packet :=
  MkPacket CDI_SCSI_READ 18 SCSI_CMDSIZE
    (<[4%nat := 18]> (<[SCSI_OPCODE := SCSI_OP_REQSENSE]> no_command)).

Section scsi.
Context {C : Type} `{ScsiDriver C}.

Definition send (p : cdi_scsi_packet) : M C (Z * list Z) := fun c =>
  let '(err, bs, c) := request p c in Ok ((err, bs), c).

(** [send_inquiry]: the inquiry data, with the identification strings cut to 7 characters. *)
Definition send_inquiry : M C (Z * list Z) :=
  '(err, inq) ← send inquiry_packet;
  mret (err, if truth err then inq else <[23%nat := 0]> (<[15%nat := 0]> inq)).

Definition ctrl_motor (ctrl : Z) : M C Z := '(err, _) ← send (motor_packet ctrl); mret err.

(** [get_capacity]: error, number and size of the sectors. *)
Definition get_capacity : M C (Z * Z * Z) :=
  '(err, data) ← send capacity_packet;
  mret (err, if truth err then 0 else be_dword (le_val (take 4 data)),
             if truth err then 0 else be_dword (le_val (take 4 (drop 4 data)))).

Definition read_sector (sector bsize : Z) : M C (Z * list Z) := send (read_packet sector bsize).

(** [request_sense]: error, key, code and qualifier. *)
Definition request_sense : M C (Z * (Z * Z * Z)) :=
  '(err, data) ← send sense_packet;
  mret (err, if truth err then (0, 0, 0) else (nth 2 data 0, nth 12 data 0, nth 13 data 0)).

(** The loop [while (count--)] of [scsi_read]. *)
Fixpoint scsi_read_loop (count : nat) (start bsize : Z) : M C (Z * list Z) :=
  match count with
  | O => mret (0, [])
  | S count =>
      '(err, bs) ← read_sector (u32 start) bsize;
      if truth err then mret (-1, [])
      else
        '(err, rest) ← scsi_read_loop count (start + 1) bsize;
        mret (err, bs ++ rest)
  end.

Definition scsi_read (start count : Z) (d : scsi C) : Z * list Z * scsi C :=
  match scsi_read_loop (Z.to_nat count) start (front_size d) (ctl d) with
  | Ok ((err, bs), c) => (err, bs, MkScsi c (front_size d) (front_count d))
  | _ => (-1, [], d)
  end.
Definition scsi_write (start count : Z) (src : list Z) (d : scsi C) : Z * scsi C := (-1, d).

Definition scsi_open : M (scsi C) Z := fun d =>
  match ctrl_motor SCSI_START_MOTOR (ctl d) with
  | Ok (err, c) =>
      if truth err then Ok (err, MkScsi c (front_size d) (front_count d))
      else if truth (front_count d) then Ok (0, MkScsi c (front_size d) (front_count d))
      else match get_capacity c with
           | Ok ((err, n, sz), c) =>
               if truth err then Ok (err, MkScsi c (front_size d) (front_count d))
               else Ok (0, MkScsi c sz n)
           | Panic => Panic
           | Fault => Fault
           end
  | Panic => Panic
  | Fault => Fault
  end.

Definition scsi_close : M (scsi C) Z := fun d =>
  match ctrl_motor SCSI_STOP_MOTOR (ctl d) with
  | Ok (err, c) => Ok (err, MkScsi c (front_size d) (front_count d))
  | Panic => Panic
  | Fault => Fault
  end.

#[export] Instance scsi_driver : BlockDriver (scsi C) := {|
  dev_type _ := CDI_STORAGE;
  block_size := front_size;
  read_blocks := scsi_read;
  write_blocks := scsi_write;
|}.

(** The kernel around the device: the heap, and the inodes registered with devfs. *)
Record host := MkHost { hheap : kheap; hctl : C; hdevs : list Z }.

Definition hkernel `{KernelRanges} {A} (m : M kheap A) : M host A := fun s =>
  match m (hheap s) with
  | Ok (a, h) => Ok (a, MkHost h (hctl s) (hdevs s))
  | Panic => Panic
  | Fault => Fault
  end.
Definition hscsi {A} (m : M C A) : M host A := fun s =>
  match m (hctl s) with
  | Ok (a, c) => Ok (a, MkHost (hheap s) c (hdevs s))
  | Panic => Panic
  | Fault => Fault
  end.

(** [cdi_storage_device_init]: a new inode is handed to devfs. *)
Definition cdi_storage_device_init `{KernelRanges} : M host unit :=
  ino ← hkernel (kmalloc sizeof_inode);
  hkernel (kmemset ino 0 sizeof_inode);;
  modify (fun s => MkHost (hheap s) (hctl s) (hdevs s ++ [ino])).

(** [init_scsi_storage(device)]: the front that is registered, and [device->impl].  An error
    of a command is fatal ([CONF_CDI_ERR_FATAL]); behind the label [error] the structure is
    released on the successful path, too. *)
Definition init_scsi_storage `{KernelRanges} : M host (scsi C * Z) :=
  impl ← hkernel (kcalloc 1 sizeof_impl);
  '(err, _) ← hscsi send_inquiry;
  if truth err then panic
  else
    err ← hscsi (ctrl_motor SCSI_START_MOTOR);
    if truth err then panic
    else
      '(_, sector_count, sector_size) ← hscsi get_capacity;
      _ ← hkernel (kcalloc 1 sizeof_front);
      cdi_storage_device_init;;
      hkernel (kfree impl);;
      s ← get;
      mret (MkScsi (hctl s) sector_size sector_count, impl).
End scsi.

(** ** What the commands say *)

(** Four bytes, most significant first. *)
Definition be_val (bs : list Z) : Z := le_val (reverse bs).

Lemma bswap4 v out : length out = 4%nat -> bswap (le_bytes 4 v) out 4 = reverse (le_bytes 4 v).
Proof. intros Hl. destruct out as [|? [|? [|? [|? [|? ?]]]]]; try done. Qed.

(** The bytes of a big-endian number in memory. *)
Lemma be_dword_bytes v : le_bytes 4 (be_dword v) = reverse (le_bytes 4 v).
Proof.
  unfold be_dword, bigendian_dword. rewrite bswap4 by done.
  rewrite <- (le_bytes_val (reverse (le_bytes 4 v))) at 2.
  - by rewrite length_reverse, le_bytes_length.
  - apply Forall_reverse, le_bytes_u8.
Qed.

(** The packet of a sector read carries a READ(12) command: the operation code, the sector
    number and the count of one, most significant byte first. *)
Lemma read_packet_encodes sector bsize :
  0 <= sector < 2 ^ 32 ->
  let cmd := command (read_packet sector bsize) in
  cmd !! 0%nat = Some SCSI_OP_READ_12 /\
  be_val (take 4 (drop 2 cmd)) = sector /\ be_val (take 4 (drop 6 cmd)) = 1.
Proof.
  intros Hs. cbn zeta. unfold read_packet. cbn [command]. unfold put_dword. rewrite !be_dword_bytes.
  pose proof (le_val_bytes 4 sector Hs) as Hv. pose proof (le_bytes_length 4 sector) as Hl.
  revert Hv Hl. generalize (le_bytes 4 sector). intros bs Hv Hl.
  destruct bs as [|a [|b [|c [|d [|? ?]]]]]; try done.
Qed.

(** What the device promises: a READ(12) command inside of the medium answers its sectors. *)
Class ScsiReads (C : Type) `{ScsiDriver C} := {
  medium : C -> list Z;
  sector_size : C -> Z;
  ctl_ok : C -> Prop;
  request_read c p lba n : ctl_ok c -> direction p = CDI_SCSI_READ ->
    command p !! 0%nat = Some SCSI_OP_READ_12 ->
    be_val (take 4 (drop 2 (command p))) = lba -> be_val (take 4 (drop 6 (command p))) = n ->
    bufsize_ p = n * sector_size c -> (lba + n) * sector_size c <= Z.of_nat (length (medium c)) ->
    exists c', request p c = (0, slice (lba * sector_size c) (n * sector_size c) (medium c), c') /\
      ctl_ok c' /\ medium c' = medium c /\ sector_size c' = sector_size c;
}.

Section blocks.
Context {C : Type} `{ScsiReads C}.

Lemma slice_app a n m (l : list Z) :
  0 <= a -> 0 <= n -> 0 <= m -> slice a n l ++ slice (a + n) m l = slice a (n + m) l.
Proof.
  intros Ha Hn Hm. unfold slice. rewrite !Z2Nat.inj_add by lia.
  by rewrite <- drop_drop, <- take_take_drop.
Qed.

Lemma read_sector_run c sector :
  ctl_ok c -> 0 <= sector < 2 ^ 32 -> (sector + 1) * sector_size c <= Z.of_nat (length (medium c)) ->
  exists c', read_sector sector (sector_size c) c =
      Ok ((0, slice (sector * sector_size c) (sector_size c) (medium c)), c') /\
    ctl_ok c' /\ medium c' = medium c /\ sector_size c' = sector_size c.
Proof.
  intros Hok Hs Hle. destruct (read_packet_encodes sector (sector_size c) Hs) as (H0' & H2 & H6).
  destruct (request_read c (read_packet sector (sector_size c)) sector 1) as (c' & Hr & Hc'); try done.
  - cbn [bufsize_ read_packet]. lia.
  - exists c'. split; [|done]. unfold read_sector, send. rewrite Hr. by rewrite Z.mul_1_l.
Qed.

Lemma scsi_read_loop_run n : forall c start,
  ctl_ok c -> 0 <= start -> 0 < sector_size c ->
  start + Z.of_nat n <= 2 ^ 32 -> (start + Z.of_nat n) * sector_size c <= Z.of_nat (length (medium c)) ->
  exists c', scsi_read_loop n start (sector_size c) c =
      Ok ((0, slice (start * sector_size c) (Z.of_nat n * sector_size c) (medium c)), c') /\
    ctl_ok c' /\ medium c' = medium c /\ sector_size c' = sector_size c.
Proof.
  induction n as [|n IH]; intros c start Hok Hs Hp Hlt Hle; [by exists c|].
  cbn [scsi_read_loop]. assert (u32 start = start) as -> by (unfold u32; rewrite Z.mod_small; lia).
  destruct (read_sector_run c start) as (c1 & Hr1 & Hok1 & Hm1 & Hb1); [done|lia|nia|].
  rewrite (run_bind _ _ _ _ _ Hr1). cbn [truth Z.eqb negb].
  destruct (IH c1 (start + 1)) as (c2 & Hr2 & Hok2 & Hm2 & Hb2); rewrite ?Hm1, ?Hb1; [done|lia..|].
  rewrite Hm1, Hb1 in Hr2. rewrite (run_bind _ _ _ _ _ Hr2).
  exists c2. split; [|split_and!; congruence].
  assert (0 <= start * sector_size c /\ 0 <= Z.of_nat n * sector_size c) as [? ?]
    by (split; apply Z.mul_nonneg_nonneg; lia).
  replace ((start + 1) * sector_size c) with (start * sector_size c + sector_size c) by lia.
  rewrite slice_app by lia. by replace (sector_size c + Z.of_nat n * sector_size c)
    with (Z.of_nat (S n) * sector_size c) by lia.
Qed.

Definition scsi_ok (d : scsi C) : Prop :=
  ctl_ok (ctl d) /\ front_size d = sector_size (ctl d) /\ 0 < front_size d < 2 ^ 31 /\
  Z.of_nat (length (medium (ctl d))) mod front_size d = 0 /\
  Z.of_nat (length (medium (ctl d))) <= 2 ^ 32 * front_size d.

(** A SCSI disk keeps the promise of a block device. *)
#[export] Program Instance scsi_reads : BlockReads (scsi C) :=
  {| disk d := medium (ctl d); dev_ok := scsi_ok |}.
Next Obligation. done. Qed.
Next Obligation. by intros d (? & ? & ? & ? & ?). Qed.
Next Obligation. by intros d (? & ? & ? & ? & ?). Qed.
Next Obligation.
  intros d start n (Hok & Hb & Hp & Hw & Hl) Hs Hn Hle. cbn in *.
  assert (start + n <= 2 ^ 32) as Hlt by nia.
  destruct (scsi_read_loop_run (Z.to_nat n) (ctl d) start) as (c' & Hr & Hc' & Hm & Hz);
    rewrite <- ?Hb, ?Z2Nat.id by lia; [done|lia..|].
  exists (MkScsi c' (front_size d) (front_count d)). rewrite <- Hb, Z2Nat.id in Hr by lia.
  unfold scsi_read. rewrite Hr. split; [done|]. split; [|done].
  unfold scsi_ok. cbn. by rewrite Hm, Hz.
Qed.
End blocks.


(** ** A disk that answers READ(12) *)

Record cdrom := MkCd { cd_sector : Z; cd_bytes : list Z }.

#[export] Instance cd_driver : ScsiDriver cdrom := {|
  request p d :=
    let lba := be_val (take 4 (drop 2 (command p))) in
    let n := be_val (take 4 (drop 6 (command p))) in
    match direction p, command p !! 0%nat with
    | CDI_SCSI_READ, Some op =>
        if (op =? SCSI_OP_READ_12) && ((lba + n) * cd_sector d <=? Z.of_nat (length (cd_bytes d)))
        then (0, slice (lba * cd_sector d) (n * cd_sector d) (cd_bytes d), d)
        else if op =? SCSI_OP_CAPACITY
        then (0, reverse (le_bytes 4 (Z.of_nat (length (cd_bytes d)) / cd_sector d)) ++
                 reverse (le_bytes 4 (cd_sector d)), d)
        else if op =? SCSI_OP_INQUIRY then (0, replicate 24 65, d) else (2, [], d)
    | CDI_SCSI_NODATA, _ => (0, [], d)
    | _, _ => (2, [], d)
    end;
|}.

#[export] Program Instance cd_reads : ScsiReads cdrom :=
  {| medium := cd_bytes; sector_size := cd_sector; ctl_ok _ := True |}.
Next Obligation.
  intros c p lba n _ Hd Hop Hl Hn Hb Hle. exists c. cbn. rewrite Hd, Hop, Hl, Hn. cbn.
  by rewrite (proj2 (Z.leb_le _ _) Hle).
Qed.

#[local] Existing Instance bump_ranges.
Definition cd : storage (scsi cdrom) :=
  MkStorage empty_heap 0 0 0 0 (MkScsi (MkCd 4 (seqZ 0 16)) 4 4).


(** The witness returns. *)
Lemma cd_read_runs : match dev_read 5 2 cd with Ok ((r, bs), _) => bs = [2; 3; 4; 5; 6] | _ => False end.
Proof. vm_compute. reflexivity. Qed.

(** After a successful initialisation [device->impl] is a freed block: the front, or whatever
    is allocated next, gets its memory. *)
Lemma init_scsi_impl_freed :
  match (r ← init_scsi_storage; q ← hkernel (kmalloc sizeof_impl); mret (r.2, q))
          (MkHost empty_heap (MkCd 4 (seqZ 0 16)) []) with
  | Ok ((impl, q), s') => impl = q /\ length (hdevs s') = 1%nat
  | _ => False
  end.
Proof. vm_compute. split; reflexivity. Qed.
