(* ===== verification/Descriptors.v ===== *)
(** * Segment and interrupt descriptors

    kernel/gdt.c and kernel/idt.c: the descriptor tables of the processor.  A descriptor is
    the structure of its fields; [seg_base], [seg_limit], [gate_handler] and the like are how
    the processor reads them.  The addresses of the assembler stubs (int.s) and of the task
    state segment are arguments. *)

From S2P Require Import Prelude Page.

(** ** gdt.c *)

Definition GDT_NULL : Z := 0x00.
Definition GDT_SEGMENT : Z := 0x10.
Definition GDT_PRESENT : Z := 0x80.
Definition GDT_CODE : Z := 0x0A.
Definition GDT_DATA : Z := 0x02.
Definition GDT_TSS : Z := 0x09.
Definition GDT_BYTE_GRAN : Z := 0x40.
Definition GDT_PAGE_GRAN : Z := 0xC0.
Definition GDT_SIZE : Z := 6.
Definition GDT_SEL_CODE : Z := 0x08.
Definition sizeof_tss : Z := 104.

Record gdt_entry := MkGdt {
  size : Z;
  base_low : Z;
  base_mid : Z;
  access : Z;
  gflags : Z;
  base_high : Z;
}.

(** The entry [gdt_set_desc(segment, size, base, access, dpl, byte_gran)] writes. *)
Definition gdt_desc (sz base acc dpl : Z) (byte_gran : bool) : gdt_entry :=
  MkGdt (Z.land sz 0xFFFF) (Z.land base 0xFFFF) (Z.land (Z.shiftr base 16) 0xFF)
    (u8 (Z.lor acc (Z.shiftl (Z.land dpl 3) 5)))
    (Z.lor (Z.land (Z.shiftr sz 16) 0xF) (if byte_gran then GDT_BYTE_GRAN else GDT_PAGE_GRAN))
    (Z.land (Z.shiftr base 24) 0xFF).
Definition gdt_set_desc (segment sz base acc dpl : Z) (byte_gran : bool) (gdt : gmap Z gdt_entry) :
    gmap Z gdt_entry := <[segment := gdt_desc sz base acc dpl byte_gran]> gdt.

(** [init_gdt]; loading the registers is left to the processor. *)
Definition init_gdt (tss_addr : Z) : gmap Z gdt_entry :=
  gdt_set_desc 5 (sizeof_tss - 1) tss_addr (Z.lor GDT_PRESENT GDT_TSS) 3 true
  (gdt_set_desc 4 0xFFFFFFFF 0 (Z.lor (Z.lor GDT_PRESENT GDT_SEGMENT) GDT_DATA) 3 false
  (gdt_set_desc 3 0xFFFFFFFF 0 (Z.lor (Z.lor GDT_PRESENT GDT_SEGMENT) GDT_CODE) 3 false
  (gdt_set_desc 2 0xFFFFFFFF 0 (Z.lor (Z.lor GDT_PRESENT GDT_SEGMENT) GDT_DATA) 0 false
  (gdt_set_desc 1 0xFFFFFFFF 0 (Z.lor (Z.lor GDT_PRESENT GDT_SEGMENT) GDT_CODE) 0 false
  (gdt_set_desc 0 0 0 GDT_NULL 0 false ∅))))).

(** How the processor reads an entry: the base, the limit in bytes and the ring. *)
Definition seg_base (e : gdt_entry) : Z :=
  base_low e + Z.shiftl (base_mid e) 16 + Z.shiftl (base_high e) 24.
Definition seg_limit (e : gdt_entry) : Z :=
  let units := size e + Z.shiftl (Z.land (gflags e) 0xF) 16 in
  if truth (Z.land (gflags e) 0x80) then units * 4096 + 4095 else units.
Definition seg_dpl (e : gdt_entry) : Z := Z.land (Z.shiftr (access e) 5) 3.
Definition seg_code (e : gdt_entry) : bool := truth (Z.land (access e) 0x08).

(** ** idt.c *)

Definition IDT_GATE_PRESENT : Z := 0x80.
Definition IDT_INTR_GATE : Z := 0xE.
Definition IRQ_BASE : Z := 0x20.
Definition SYSCALL : Z := 0x30.
Definition NUM_IRQ : Z := 0x10.
Definition IDT_SIZE : Z := 256.

Record idt_entry := MkIdt { ibase_low : Z; selector : Z; zero : Z; itype : Z; ibase_high : Z }.

Definition idt_gate (sel handler dpl type : Z) : idt_entry :=
  MkIdt (Z.land handler 0xFFFF) sel 0
    (Z.lor (Z.lor IDT_GATE_PRESENT (Z.shiftl (Z.land dpl 3) 5)) (Z.land type 0xF))
    (Z.land (Z.shiftr handler 16) 0xFFFF).
Definition idt_set_gate (intr sel handler dpl type : Z) (idt : gmap Z idt_entry) : gmap Z idt_entry :=
  <[intr := idt_gate sel handler dpl type]> idt.

(** The stubs of int.s. *)
Record stubs := MkStubs {
  isr_null_handler : Z;
  isr_stub : Z -> Z;
  irq_stub : Z -> Z;
  syscall_stub : Z;
}.

(** [init_idt] up to the programming of the interrupt controllers: a loop over the whole
    table, then the gates of the 20 exceptions, the 16 interrupts and the system call. *)
Definition init_idt (st : stubs) : gmap Z idt_entry :=
  let idt := for_each IDT_SIZE (fun i =>
    idt_set_gate i GDT_SEL_CODE (isr_null_handler st) 0 IDT_INTR_GATE) ∅ in
  let idt := for_each 20 (fun i => idt_set_gate i GDT_SEL_CODE (isr_stub st i) 0 IDT_INTR_GATE) idt in
  let idt := for_each 16 (fun i =>
    idt_set_gate (IRQ_BASE + i) GDT_SEL_CODE (irq_stub st i) 0 IDT_INTR_GATE) idt in
  idt_set_gate SYSCALL GDT_SEL_CODE (syscall_stub st) 3 IDT_INTR_GATE idt.

Definition gate_handler (e : idt_entry) : Z := ibase_low e + Z.shiftl (ibase_high e) 16.
Definition gate_dpl (e : idt_entry) : Z := Z.land (Z.shiftr (itype e) 5) 3.
Definition gate_present (e : idt_entry) : bool := truth (Z.land (itype e) 0x80).
Definition gate_type (e : idt_entry) : Z := Z.land (itype e) 0x1F.

(** ** Fields *)

(** A number is the sum of its digits. *)
Lemma word_split a : 0 <= a < 2 ^ 32 ->
  Z.land a 0xFFFF + Z.shiftl (Z.land (Z.shiftr a 16) 0xFFFF) 16 = a.
Proof.
  intros Ha. change 0xFFFF with (2 ^ 16 - 1). rewrite !land_ones_mod by lia.
  rewrite Z.shiftr_div_pow2, Z.shiftl_mul_pow2 by lia. dlia.
Qed.

Lemma byte_split a : 0 <= a < 2 ^ 32 ->
  Z.land a 0xFFFF + Z.shiftl (Z.land (Z.shiftr a 16) 0xFF) 16 +
  Z.shiftl (Z.land (Z.shiftr a 24) 0xFF) 24 = a.
Proof.
  intros Ha. change 0xFFFF with (2 ^ 16 - 1). change 0xFF with (2 ^ 8 - 1). rewrite !land_ones_mod by lia.
  rewrite !Z.shiftr_div_pow2, !Z.shiftl_mul_pow2 by lia. dlia.
Qed.

(** The possible values of the small fields, checked one by one. *)
Lemma small_cases (P : Z -> bool) n a :
  forallb P (seqZ 0 n) = true -> 0 <= a < n -> P a = true.
Proof.
  intros Hall Ha. rewrite forallb_forall in Hall. apply Hall, list_elem_of_In, elem_of_seqZ. lia.
Qed.

Lemma flags_fields k (g : Z) : 0 <= k < 16 -> g = GDT_BYTE_GRAN \/ g = GDT_PAGE_GRAN ->
  Z.land (Z.lor k g) 0xF = k /\ truth (Z.land (Z.lor k g) 0x80) = (g =? GDT_PAGE_GRAN).
Proof.
  intros Hk Hg. pose proof (small_cases (fun k =>
    (Z.land (Z.lor k GDT_BYTE_GRAN) 0xF =? k) && negb (truth (Z.land (Z.lor k GDT_BYTE_GRAN) 0x80)) &&
    (Z.land (Z.lor k GDT_PAGE_GRAN) 0xF =? k) && truth (Z.land (Z.lor k GDT_PAGE_GRAN) 0x80))
    16 k ltac:(vm_compute; reflexivity) Hk) as Hc.
  cbn beta in Hc. rewrite !andb_true_iff in Hc.
  destruct Hc as [[[H1%Z.eqb_eq H2%negb_true_iff] H3%Z.eqb_eq] H4].
  destruct Hg as [-> | ->]; split; by rewrite ?H1, ?H2, ?H3, ?H4.
Qed.

Lemma access_fields acc d : 0 <= acc < 256 -> Z.land acc 0x60 = 0 -> 0 <= d < 4 ->
  Z.land (Z.shiftr (u8 (Z.lor acc (Z.shiftl d 5))) 5) 3 = d /\
  Z.land (u8 (Z.lor acc (Z.shiftl d 5))) 0x9F = acc.
Proof.
  intros Ha H0 Hd.
  pose proof (small_cases (fun acc => negb (Z.land acc 0x60 =? 0) || forallb (fun d =>
    (Z.land (Z.shiftr (u8 (Z.lor acc (Z.shiftl d 5))) 5) 3 =? d) &&
    (Z.land (u8 (Z.lor acc (Z.shiftl d 5))) 0x9F =? acc)) (seqZ 0 4)) 256 acc
    ltac:(vm_compute; reflexivity) Ha) as Hc.
  cbn beta in Hc. rewrite H0 in Hc. cbn [Z.eqb negb orb] in Hc.
  pose proof (small_cases _ 4 d Hc Hd) as Hd'. cbn beta in Hd'. to_prop. done.
Qed.

(** C35: The processor reads back from a segment descriptor what [gdt_set_desc] was given: the
    base, the ring, the access bits, and the low 20 bits of the size, counted in bytes or in
    pages of 4 KB. *)
Theorem gdt_desc_roundtrip sz base acc dpl (byte_gran : bool) :
  0 <= sz < 2 ^ 32 -> 0 <= base < 2 ^ 32 -> 0 <= acc < 256 -> Z.land acc 0x60 = 0 -> 0 <= dpl < 4 ->
  let e := gdt_desc sz base acc dpl byte_gran in
  seg_base e = base /\ seg_dpl e = dpl /\ Z.land (access e) 0x9F = acc /\
  seg_limit e = if byte_gran then sz mod 2 ^ 20 else sz mod 2 ^ 20 * 4096 + 4095.
Proof.
  intros Hs Hb Ha Ha0 Hd e. subst e. unfold seg_base, seg_dpl, seg_limit.
  cbn [size base_low base_mid access gflags base_high gdt_desc].
  assert (Z.land dpl 3 = dpl) as -> by (change 3 with (2 ^ 2 - 1); rewrite land_ones_mod, Z.mod_small; lia).
  destruct (access_fields acc dpl Ha Ha0 Hd) as [-> ->]. rewrite byte_split by done.
  assert (0 <= Z.land (Z.shiftr sz 16) 0xF < 16) as Hk
    by (change 0xF with (2 ^ 4 - 1); rewrite land_ones_mod by lia; apply Z.mod_pos_bound; lia).
  assert (Z.land sz 0xFFFF + Z.shiftl (Z.land (Z.shiftr sz 16) 0xF) 16 = sz mod 2 ^ 20) as Hsum.
  { change 0xFFFF with (2 ^ 16 - 1). change 0xF with (2 ^ 4 - 1). rewrite !land_ones_mod by lia.
    rewrite Z.shiftr_div_pow2, Z.shiftl_mul_pow2 by lia. dlia. }
  destruct (flags_fields _ (if byte_gran then GDT_BYTE_GRAN else GDT_PAGE_GRAN) Hk) as [-> ->];
    [destruct byte_gran; auto|]. rewrite Hsum. by destruct byte_gran.
Qed.

Lemma gdt_desc_roundtrip_witness :
  let e := gdt_desc 103 0xC0123456 0x89 3 true in
  seg_base e = 0xC0123456 /\ seg_dpl e = 3 /\ Z.land (access e) 0x9F = 0x89 /\ seg_limit e = 103.
Proof.
  apply (gdt_desc_roundtrip 103 0xC0123456 0x89 3 true); (lia || reflexivity).
Defined.

(** ** The tables at boot *)

(** What a vector calls. *)
Definition vector_stub (st : stubs) (v : Z) : Z :=
  if v <? 20 then isr_stub st v
  else if (IRQ_BASE <=? v) && (v <? IRQ_BASE + 16) then irq_stub st (v - IRQ_BASE)
  else if v =? SYSCALL then syscall_stub st
  else isr_null_handler st.

Lemma gate_fields h d : 0 <= h < 2 ^ 32 -> 0 <= d < 4 ->
  let e := idt_gate GDT_SEL_CODE h d IDT_INTR_GATE in
  gate_handler e = h /\ gate_dpl e = d /\ gate_present e = true /\ gate_type e = IDT_INTR_GATE.
Proof.
  intros Hh Hd e. split; [apply (word_split h Hh)|].
  assert (d = 0 \/ d = 1 \/ d = 2 \/ d = 3) as [-> |[-> |[-> | ->]]] by lia; done.
Qed.

(** One loop over a part of the table. *)
Lemma gates_lookup (f : Z -> idt_entry) base n (m : gmap Z idt_entry) v :
  0 <= n ->
  for_each n (fun i => <[base + i := f i]>) m !! v =
  if decide (base <= v < base + n) then Some (f (v - base)) else m !! v.
Proof.
  intros Hn. apply (for_each_inv (fun i => <[base + i := f i]>) (fun k m' =>
    m' !! v = if decide (base <= v < base + k) then Some (f (v - base)) else m !! v) n m); [done| |].
  - by rewrite decide_False by lia.
  - intros i m' Hi IH. destruct (decide (v = base + i)) as [->|Hne].
    + rewrite lookup_insert_eq, decide_True by lia. do 2 f_equal. lia.
    + rewrite lookup_insert_ne, IH by done. repeat case_decide; try done; lia.
Qed.

Lemma init_idt_lookup st v : 0 <= v < IDT_SIZE ->
  init_idt st !! v =
  Some (idt_gate GDT_SEL_CODE (vector_stub st v) (if v =? SYSCALL then 3 else 0) IDT_INTR_GATE).
Proof.
  intros Hv. unfold init_idt, idt_set_gate, vector_stub.
  destruct (Z.eqb_spec v SYSCALL) as [->|Hne]; [by rewrite lookup_insert_eq|].
  rewrite lookup_insert_ne by done. rewrite gates_lookup by lia. unfold IRQ_BASE, SYSCALL, IDT_SIZE in *.
  destruct (Z.ltb_spec v 20).
  - rewrite decide_False by lia.
    rewrite (gates_lookup (fun i => idt_gate GDT_SEL_CODE (isr_stub st i) 0 IDT_INTR_GATE) 0) by lia.
    rewrite decide_True by lia. by rewrite Z.sub_0_r.
  - destruct (Z.leb_spec 32 v), (Z.ltb_spec v (32 + 16)); cbn [andb];
      [by rewrite decide_True by lia|rewrite decide_False by lia..]; try lia.
    all: rewrite (gates_lookup (fun i => idt_gate GDT_SEL_CODE (isr_stub st i) 0 IDT_INTR_GATE) 0) by lia.
    all: rewrite decide_False by lia.
    all: rewrite (gates_lookup (fun _ => idt_gate GDT_SEL_CODE (isr_null_handler st) 0 IDT_INTR_GATE) 0) by lia.
    all: by rewrite decide_True by lia.
Qed.

(** C34: After [init_idt] every vector has a present interrupt gate into the kernel's code
    segment that leads to its stub, and the system call is the only vector a user program may
    raise itself. *)
Theorem init_idt_gates st v :
  (forall i, 0 <= isr_stub st i < 2 ^ 32) -> (forall i, 0 <= irq_stub st i < 2 ^ 32) ->
  0 <= isr_null_handler st < 2 ^ 32 -> 0 <= syscall_stub st < 2 ^ 32 -> 0 <= v < IDT_SIZE ->
  exists e, init_idt st !! v = Some e /\ gate_handler e = vector_stub st v /\
    gate_present e = true /\ gate_type e = IDT_INTR_GATE /\ selector e = GDT_SEL_CODE /\
    (gate_dpl e = 3 <-> v = SYSCALL) /\ (v <> SYSCALL -> gate_dpl e = 0).
Proof.
  intros H1 H2 H3 H4 Hv. rewrite init_idt_lookup by done. eexists. split; [done|].
  assert (0 <= vector_stub st v < 2 ^ 32) as Hs by (unfold vector_stub; repeat case_match; auto).
  destruct (gate_fields (vector_stub st v) (if v =? SYSCALL then 3 else 0) Hs) as (Hh & Hd & Hp & Ht);
    [case_match; lia|]. rewrite Hd. split_and!; try done.
  - destruct (Z.eqb_spec v SYSCALL); split; (done || lia).
  - intros Hne. by rewrite (proj2 (Z.eqb_neq _ _) Hne).
Qed.

Definition flat_stubs : stubs := MkStubs 0x100000 (fun _ => 0x100100) (fun _ => 0x100200) 0x100300.

Lemma init_idt_gates_witness :
  exists e, init_idt flat_stubs !! 0x21 = Some e /\ gate_handler e = vector_stub flat_stubs 0x21 /\
    gate_present e = true /\ gate_type e = IDT_INTR_GATE /\ selector e = GDT_SEL_CODE /\
    (gate_dpl e = 3 <-> 0x21 = SYSCALL) /\ (0x21 <> SYSCALL -> gate_dpl e = 0).
Proof.
  apply (init_idt_gates flat_stubs 0x21); (intros; cbn; unfold IDT_SIZE; lia).
Defined.

(** The segments of [init_gdt]: kernel and user code and data cover all 4 GB, in their rings. *)
Lemma init_gdt_flat tss v : 1 <= v <= 4 ->
  exists e, init_gdt tss !! v = Some e /\ seg_base e = 0 /\ seg_limit e = 2 ^ 32 - 1 /\
    seg_dpl e = (if v <=? 2 then 0 else 3) /\ seg_code e = (v mod 2 =? 1).
Proof.
  intros Hv. assert (v = 1 \/ v = 2 \/ v = 3 \/ v = 4) as Hc by lia.
  destruct Hc as [->|[->|[->| ->]]]; eexists; (split; [unfold init_gdt, gdt_set_desc;
    rewrite ?lookup_insert_ne by done; apply lookup_insert_eq|]); split_and!; reflexivity.
Qed.
