(* ===== verification/Interrupts.v ===== *)
(** * Interrupts and system calls

    kernel/idt.c and kernel/syscall.c: what happens between the assembler stub and the
    return to a process.  The saved registers are a value; the [eax] slot a system call
    answers in is the field [sc_eax] of the calling process, as in [Proc].  Handlers and
    system calls are functions on the kernel state, kept in the tables of the code.  The
    contents of the terminals and the debug output are left out, and so is the heap block of
    [struct syscall_info], which [handle_syscall] allocates before the call and frees behind
    it; its two fields are the arguments of [syscall_execute]. *)

From S2P Require Import Prelude Page Kerror Proc Descriptors.

Definition NUM_SYSCALLS : Z := 35.
Definition SC_MAX_ARGS : Z := 3.

Record regs := MkRegs { r_intr : Z; r_ds : Z; r_eax : Z; r_ebx : Z; r_ecx : Z; r_edx : Z }.

Definition IS_USER (sel : Z) : bool := Z.land sel 0x03 =? 0x03.

Inductive excpt_policy := EP_DEFAULT | EP_PANIC | EP_ABORT | EP_RETRY | EP_GO_ON | EP_UNKNOWN.
Inductive excpt_type := FAULT | TRAP | ABORT | RSVD | BOTH.

#[export] Instance excpt_type_eq_dec : EqDecision excpt_type.
Proof. solve_decision. Defined.

Definition exception_type : list excpt_type :=
  [FAULT; BOTH; ABORT; TRAP; TRAP; FAULT; FAULT; FAULT;
   ABORT; FAULT; FAULT; FAULT; FAULT; FAULT; FAULT; RSVD;
   FAULT; FAULT; ABORT; FAULT; RSVD; RSVD; RSVD; RSVD;
   RSVD; RSVD; RSVD; RSVD; RSVD; RSVD; RSVD; RSVD].

(** [struct syscall_data]: the function, on its arguments, and their number. *)
Notation syscall_func := (list Z -> M kern Z).

Record cpu := MkCpu {
  ik : kern;
  irq_handlers : gmap Z (Z -> M kern unit);
  exception_handler : gmap Z (M kern excpt_policy);
  irq_counter : gmap Z Z;
  syscalls : gmap Z (syscall_func * Z);
  pic1_mask : Z;
  pic2_mask : Z;
  eois : list Z;
  icx : context;
}.

Definition set_ik v c := MkCpu v (irq_handlers c) (exception_handler c) (irq_counter c) (syscalls c)
  (pic1_mask c) (pic2_mask c) (eois c) (icx c).
Definition set_irqs v c := MkCpu (ik c) v (exception_handler c) (irq_counter c) (syscalls c)
  (pic1_mask c) (pic2_mask c) (eois c) (icx c).
Definition set_excs v c := MkCpu (ik c) (irq_handlers c) v (irq_counter c) (syscalls c)
  (pic1_mask c) (pic2_mask c) (eois c) (icx c).
Definition set_counter v c := MkCpu (ik c) (irq_handlers c) (exception_handler c) v (syscalls c)
  (pic1_mask c) (pic2_mask c) (eois c) (icx c).
Definition set_syscalls v c := MkCpu (ik c) (irq_handlers c) (exception_handler c) (irq_counter c) v
  (pic1_mask c) (pic2_mask c) (eois c) (icx c).
Definition set_pic a b e c := MkCpu (ik c) (irq_handlers c) (exception_handler c) (irq_counter c)
  (syscalls c) a b e (icx c).
Definition set_icx v c := MkCpu (ik c) (irq_handlers c) (exception_handler c) (irq_counter c)
  (syscalls c) (pic1_mask c) (pic2_mask c) (eois c) v.

Definition onk {A} (m : M kern A) : M cpu A := fun c =>
  match m (ik c) with
  | Ok (a, s) => Ok (a, set_ik s c)
  | Panic => Panic
  | Fault => Fault
  end.
Definition icx_set (v : context) : M cpu unit := modify (set_icx v).

(** ** syscall.c *)

Definition syscall_register (id : Z) (func : syscall_func) (nargs : Z) : M cpu unit :=
  kassert (id <? NUM_SYSCALLS);;
  c ← get;
  kassert (match syscalls c !! id with None => true | Some _ => false end);;
  kassert (nargs <=? SC_MAX_ARGS);;
  modify (fun c => set_syscalls (<[id := (func, nargs)]> (syscalls c)) c).

(** [syscall_execute(info)] for the calling process [p]. *)
Definition syscall_execute (r : regs) (p : Z) : M cpu unit :=
  if r_eax r >=? NUM_SYSCALLS then onk (pm_destroy p)
  else
    onk (modify (set_syscall_proc (Some p)));;
    onk (upd (Some p) (set_sc_eax (Some (r_eax r))));;
    c ← get;
    match syscalls c !! r_eax r with
    | None => onk (pm_destroy p)
    | Some (func, args) =>
        result ← (if args =? 0 then onk (func [])
                  else if args =? 1 then onk (func [i32 (r_ebx r)])
                  else if args =? 2 then onk (func [i32 (r_ebx r); i32 (r_ecx r)])
                  else if args =? 3 then onk (func [i32 (r_ebx r); i32 (r_ecx r); i32 (r_edx r)])
                  else panic);
        onk (upd (Some p) (set_sc_eax (Some (u32 result))))
    end.

Definition handle_syscall (r : regs) : M cpu unit :=
  c ← get; p ← deref (cur_proc (ik c)); syscall_execute r p.

(** ** idt.c *)

(** [print_state] (kmain.c) reads the name and the pid of the current process. *)
Definition print_state : M kern unit := s ← get; _ ← slot (cur_proc s); mret tt.

(** The default handler and those of debug.c report and leave the decision. *)
Definition default_exception_handler : M kern excpt_policy := print_state;; mret EP_DEFAULT.
Definition pf_handler : M kern excpt_policy := print_state;; mret EP_DEFAULT.
Definition gpf_handler : M kern excpt_policy := print_state;; mret EP_DEFAULT.

Definition idt_handle_exception (r : regs) : M cpu unit :=
  c ← get;
  policy ← onk (default default_exception_handler (exception_handler c !! r_intr r));
  let policy := match policy with
                | EP_DEFAULT => if IS_USER (r_ds r) then EP_ABORT else EP_PANIC
                | _ => policy
                end in
  type ← deref (exception_type !! Z.to_nat (r_intr r));
  match policy with
  | EP_ABORT => c ← get; p ← deref (cur_proc (ik c)); onk (pm_destroy p)
  | EP_RETRY => if decide (type = FAULT) then mret tt else panic
  | EP_GO_ON => if decide (type = TRAP) then mret tt else panic
  | _ => panic
  end.

Definition PIC1_CMD : Z := 0x20.
Definition PIC2_CMD : Z := 0xA0.

(** [pic_status]: what the interrupt controller answers when asked about interrupts 7 and 15. *)
Definition idt_handle_irq (r : regs) (pic_status : Z) : M cpu unit :=
  let irq := r_intr r - IRQ_BASE in
  modify (fun c => set_counter (<[irq := u32 (default 0 (irq_counter c !! irq) + 1)]> (irq_counter c)) c);;
  c ← get;
  (if ((irq =? 7) || (irq =? 15)) && truth (Z.land pic_status 0x80) then mret tt
   else match irq_handlers c !! irq with
        | Some h => onk (h irq)
        | None => mret tt
        end);;
  (if irq >=? 8 then modify (fun c => set_pic (pic1_mask c) (pic2_mask c) (PIC2_CMD :: eois c) c)
   else mret tt);;
  modify (fun c => set_pic (pic1_mask c) (pic2_mask c) (PIC1_CMD :: eois c) c).

(** [mask_irq(irq, disable)]: the mask is a byte; the processor takes shift counts modulo 32. *)
Definition mask_irq (irq : Z) (disable : bool) : M cpu unit :=
  let offs := if irq <? 8 then 0 else 8 in
  let change v := u8 (if disable then bsetn v ((irq - offs) mod 32) else bclrn v ((irq - offs) mod 32)) in
  modify (fun c =>
    if irq <? 8 then set_pic (change (pic1_mask c)) (pic2_mask c) (eois c) c
    else set_pic (pic1_mask c) (change (pic2_mask c)) (eois c) c).

(** The beginning, the middle and the end of [idt_handle_int]. *)
Definition int_enter (sp : Z) (r : regs) : M cpu unit :=
  icx_set CX_IRQ;; mask_irq (u8 (r_intr r)) true;; onk (pm_restore sp).
Definition int_dispatch (r : regs) (pic_status : Z) : M cpu unit :=
  if r_intr r <? IRQ_BASE then idt_handle_exception r
  else if r_intr r <? SYSCALL then idt_handle_irq r pic_status
  else if r_intr r =? SYSCALL then
    icx_set CX_SYSCALL;; handle_syscall r;; icx_set CX_IRQ
  else panic.
Definition int_leave (sp : Z) (r : regs) : M cpu Z :=
  sp ← onk (pm_pick sp);
  mask_irq (u8 (r_intr r)) false;;
  icx_set CX_PROC;;
  mret sp.

(** [idt_handle_int(esp)]: the stack pointer to continue with. *)
Definition idt_handle_int (sp : Z) (r : regs) (pic_status : Z) : M cpu Z :=
  int_enter sp r;; int_dispatch r pic_status;; int_leave sp r.

Definition idt_set_irq_handler (irq : Z) (h : Z -> M kern unit) : M cpu bool :=
  kassert (irq <? NUM_IRQ);;
  c ← get;
  match irq_handlers c !! irq with
  | Some _ => mret false
  | None => modify (fun c => set_irqs (<[irq := h]> (irq_handlers c)) c);; mret true
  end.
Definition idt_clr_irq_handler (irq : Z) : M cpu bool :=
  kassert (irq <? NUM_IRQ);;
  modify (fun c => set_irqs (delete irq (irq_handlers c)) c);; mret true.
Definition idt_set_exception_handler (intr : Z) (h : M kern excpt_policy) : M cpu unit :=
  kassert (intr <? IRQ_BASE);;
  modify (fun c => set_excs (<[intr := h]> (exception_handler c)) c).
(** [init_debug] (debug.c) installs the handlers of the two most common exceptions. *)
Definition PAGE_FAULT : Z := 14.
Definition GENERAL_PROTECTION_FAULT : Z := 13.
Definition init_debug : M cpu unit :=
  idt_set_exception_handler PAGE_FAULT pf_handler;;
  idt_set_exception_handler GENERAL_PROTECTION_FAULT gpf_handler.
Definition idt_reset_irq_counter (irq : Z) : M cpu unit :=
  kassert (irq <? NUM_IRQ);;
  modify (fun c => set_counter (<[irq := 0]> (irq_counter c)) c).

(** ** The calls registered at boot *)

Definition SC_TEST : Z := 0.
Definition SC_GETPID : Z := 6.

(** Number and argument count of every call, in the order [kmain] and [kinit] register them:
    init_paging, init_pm, init_ipc, init_loader, kmain and init_fs. *)
Definition boot_table : list (Z * Z) :=
  [(22, 1);
   (1, 1); (25, 0); (SC_GETPID, 0); (29, 3); (31, 0); (4, 0);
   (27, 2); (28, 2);
   (30, 2);
   (23, 0); (34, 2);
   (7, 2); (8, 1); (9, 3); (10, 3); (18, 1); (17, 2); (32, 2); (33, 3); (24, 0)].

Section boot.
(** The function of each call. *)
Context (fn : Z -> syscall_func).

Fixpoint register_all (l : list (Z * Z)) : M cpu unit :=
  match l with
  | [] => mret tt
  | (id, n) :: l => syscall_register id (fn id) n;; register_all l
  end.

Definition static_syscalls : gmap Z (syscall_func * Z) := {[ SC_TEST := (fn SC_TEST, 0) ]}.
Definition boot_syscalls : M cpu unit := register_all boot_table.

Definition table_of (l : list (Z * Z)) (m : gmap Z (syscall_func * Z)) : gmap Z (syscall_func * Z) :=
  foldl (fun m e => <[e.1 := (fn e.1, e.2)]> m) m l.

Lemma register_all_run l : forall c,
  NoDup l.*1 -> Forall (fun e => 0 <= e.1 < NUM_SYSCALLS /\ e.2 <= SC_MAX_ARGS) l ->
  (forall id, id ∈ l.*1 -> syscalls c !! id = None) ->
  register_all l c = Ok (tt, set_syscalls (table_of l (syscalls c)) c).
Proof.
  induction l as [|[id n] l IH]; intros c Hnd Hok Hfree; [by destruct c|].
  cbn [fmap list_fmap] in Hnd. apply NoDup_cons in Hnd as [Hnew Hnd]. inv Hok. cbn in *.
  rewrite (run_bind _ _ _ tt (set_syscalls (<[id := (fn id, n)]> (syscalls c)) c)).
  - rewrite IH; [done|done|done|]. intros j Hj. cbn. rewrite lookup_insert_ne; [apply Hfree; set_solver|].
    by intros ->.
  - unfold syscall_register. rewrite (proj2 (Z.ltb_lt _ _)) by lia.
    rewrite (run_bind _ _ _ tt c) by done. rewrite (run_bind _ _ _ _ _ eq_refl).
    rewrite Hfree by set_solver. rewrite (run_bind _ _ _ tt c) by done.
    rewrite (proj2 (Z.leb_le _ _)) by lia. done.
Qed.

Lemma table_of_in l : forall m id n,
  NoDup l.*1 -> (id, n) ∈ l -> table_of l m !! id = Some (fn id, n).
Proof.
  induction l as [|[j k] l IH] using rev_ind; intros m id n Hnd Hin; [by apply not_elem_of_nil in Hin|].
  unfold table_of. rewrite foldl_app. cbn [foldl fst snd]. fold (table_of l m).
  rewrite fmap_app in Hnd. apply NoDup_app in Hnd as (Hnd & Hdis & _).
  apply elem_of_app in Hin as [Hin|[= -> ->]%list_elem_of_singleton]; [|apply lookup_insert_eq].
  rewrite lookup_insert_ne; [by apply IH|]. intros ->.
  apply (Hdis id); [apply list_elem_of_fmap; by exists (id, n)|cbn; set_solver].
Qed.

Lemma table_of_Some l : forall m id f n,
  table_of l m !! id = Some (f, n) -> (id, n) ∈ l \/ m !! id = Some (f, n).
Proof.
  induction l as [|[j k] l IH]; intros m id f n Hl; [by right|]. cbn in Hl.
  apply IH in Hl as [Hl|Hl]; [left; by right|].
  apply lookup_insert_Some in Hl as [[-> [= _ ->]]|[_ Hl]]; [left; left|by right].
Qed.

Lemma boot_table_ok :
  Forall (fun e => 0 <= e.1 < NUM_SYSCALLS /\ 0 <= e.2 <= SC_MAX_ARGS) ((SC_TEST, 0) :: boot_table).
Proof.
  unfold boot_table, NUM_SYSCALLS, SC_MAX_ARGS, SC_TEST, SC_GETPID.
  repeat (apply Forall_cons_2; [cbn; lia|]). apply Forall_nil_2.
Qed.

(** C33: The system calls are registered without an assertion failing, and the table then
    holds exactly the calls of [boot_table] and [sys_test], each with its function and at most
    three arguments: no number a program passes can hit the panic about the argument count. *)
Theorem boot_registers_syscalls c :
  syscalls c = static_syscalls ->
  exists c', boot_syscalls c = Ok (tt, c') /\ ik c' = ik c /\
    (forall id n, (id, n) ∈ (SC_TEST, 0) :: boot_table -> syscalls c' !! id = Some (fn id, n)) /\
    (forall id f n, syscalls c' !! id = Some (f, n) -> (id, n) ∈ (SC_TEST, 0) :: boot_table /\
       0 <= id < NUM_SYSCALLS /\ 0 <= n <= SC_MAX_ARGS).
Proof.
  intros Hc. assert (NoDup boot_table.*1) as Hnd by (apply (bool_decide_unpack _); vm_compute; exact I).
  exists (set_syscalls (table_of boot_table (syscalls c)) c). split.
  { apply register_all_run; [done| |].
    { eapply Forall_impl; [exact (proj2 (Forall_cons_1 _ _ _ boot_table_ok))|]. cbn. lia. }
    intros id Hid. rewrite Hc. apply lookup_singleton_ne. intros <-. revert Hid.
    apply (bool_decide_unpack _). vm_compute. exact I. }
  split; [done|]. cbn [syscalls set_syscalls]. rewrite Hc. split.
  - intros id n [[= -> ->]|Hin]%elem_of_cons; [vm_compute; reflexivity|]. by apply table_of_in.
  - intros id f n Hl. assert ((id, n) ∈ (SC_TEST, 0) :: boot_table) as Hin.
    { apply table_of_Some in Hl as [Hl|Hl]; [by right|].
      unfold static_syscalls in Hl. apply lookup_singleton_Some in Hl as [<- [= _ <-]]. left. }
    split; [done|]. pose proof boot_table_ok as Hok. rewrite Forall_forall in Hok. by apply (Hok (id, n)).
Qed.
End boot.

(** ** Running a handler *)

Lemma onk_run {A} (m : M kern A) c a s : m (ik c) = Ok (a, s) -> onk m c = Ok (a, set_ik s c).
Proof. intros Hm. unfold onk. by rewrite Hm. Qed.

(** The kernel state once an interrupt of process [h] has been taken. *)
Definition restored (sp h : Z) (x : proc) (s : kern) : kern :=
  set_procs (<[h := set_esp sp x]> (procs s)) (set_cpu None (tss_esp0 s) s).

Lemma restore_run s sp h x :
  cur_proc s = Some h -> procs s !! h = Some x -> pm_restore sp s = Ok (tt, restored sp h x s).
Proof.
  intros Hc Hx. unfold pm_restore. rewrite (run_bind _ _ _ _ _ eq_refl), (run_bind _ _ _ _ _ eq_refl).
  cbn [cur_proc set_cpu]. rewrite Hc, bool_decide_eq_true_2 by done.
  rewrite (run_bind _ _ _ tt (set_cpu None (tss_esp0 s) s)) by done. exact (upd_run h (set_esp sp) (set_cpu None (tss_esp0 s) s) x Hx).
Qed.

Lemma restored_inv s l u sp h x :
  pm_inv s l u -> procs s !! h = Some x -> 0 <= h < u ->
  pm_inv (restored sp h x s) l u /\ (live s l -> live (restored sp h x s) l).
Proof.
  intros [Htab Hq Hc Hne] Hx Hu. set (s1 := set_cpu None (tss_esp0 s) s).
  assert (queue_inv s1 l u) as Hq1 by (destruct Hq; by constructor).
  destruct (upd_spec s1 l u h (set_esp sp) Htab Hq1 Hu ltac:(by intros ?)) as (y & Hy & _ & Ht' & Hq').
  cbn in Hy. assert (y = x) as -> by congruence. split; [by constructor|].
  intros Hl. apply (live_upd s1 l h (set_esp sp) Hl); [by right|done].
Qed.

(** The current process is destroyed, and nobody waits for it or is waited for by it. *)
Lemma destroy_head_alone s h t u xh :
  pm_inv s (h :: t) u -> live s (h :: t) -> t <> [] ->
  procs s !! h = Some xh -> wait_proc xh = 0 -> wait_for xh = 0 ->
  exists s', pm_destroy h s = Ok (tt, s') /\ pm_inv s' (rotate t) u /\ live s' (rotate t) /\
    globals s' = globals s /\ status <$> procs s' !! h = Some PS_SLOT_FREE /\
    forall i, core <$> procs s' !! i = core <$> procs s !! i.
Proof.
  intros [Htab Hq Hcur _] Hlive Ht Hxh Hw Hwf. pose proof (q_used _ _ _ Hq) as Hu.
  apply Forall_cons in Hu as [Hhu _]. pose proof (q_nodup _ _ _ Hq) as Hnd. apply NoDup_cons in Hnd as [Hht _].
  destruct (deactivate_head_spec s h t u Htab Hq Ht Hcur)
    as (s1 & Hrun1 & [Htab1 Hq1 Hcur1 Hne1] & Hg1 & Hsc1 & Hnf1 & _ & _).
  assert (live s1 (rotate t)) as Hl1.
  { eapply live_mono; [exact Hlive | done |]. intros i Hi. right. by apply elem_rotate. }
  assert (h ∉ rotate t) as Hhr by (intros Hi; by apply Hht, elem_rotate).
  destruct (core_fields _ _ _ _ Hsc1 Hxh) as (x1 & Hx1 & C1).
  destruct (upd_spec s1 _ u h (set_status PS_SLOT_FREE) Htab1 Hq1 Hhu ltac:(by intros ?))
    as (x & Hx & Hupd & Htab2 & Hq2). assert (x = x1) as -> by congruence.
  pose proof (live_upd s1 _ h (set_status PS_SLOT_FREE) Hl1 (or_introl Hhr) _ Hx) as Hl2.
  set (s2 := set_procs (<[h := set_status PS_SLOT_FREE x1]> (procs s1)) s1) in *.
  assert (procs s2 !! h = Some (set_status PS_SLOT_FREE x1)) as Hh2 by apply lookup_insert_eq.
  assert (wait_proc x1 = 0 /\ wait_for x1 = 0) as [W1 W2] by (unfold core in C1; simplify_eq C1; lia).
  exists s2. split; [|split; [by constructor|split; [done|split; [exact Hg1|split; [by rewrite Hh2|]]]]].
  - unfold pm_destroy. rewrite (run_bind _ _ _ _ _ Hrun1), (run_bind _ _ _ _ _ Hupd).
    rewrite (run_bind _ _ _ _ _ (slot_run _ _ _ Hh2)). cbn [wait_proc set_status]. rewrite W1.
    rewrite (run_bind _ _ _ tt s2) by done. rewrite (run_bind _ _ _ _ _ (slot_run _ _ _ Hh2)).
    cbn [wait_for set_status]. by rewrite W2.
  - intros i. rewrite <- Hsc1. cbn. destruct (decide (i = h)) as [->|]; [|by rewrite lookup_insert_ne].
    by rewrite lookup_insert_eq, Hx1.
Qed.

(** Returning to another process than the one that was interrupted. *)
Lemma pick_run s sp n x a :
  cur_proc s = Some n -> procs s !! n = Some x -> as_ x = Some a -> last_proc s <> Some n ->
  exists s', pm_pick sp s = Ok (esp x, s') /\ procs s' = procs s /\ cur_as s' = Some a /\
    tss_esp0 s' = kstack x /\ last_proc s' = Some n /\ cur_proc s' = Some n /\
    forall l u, (pm_inv s l u -> pm_inv s' l u) /\ (live s l -> live s' l).
Proof.
  intros Hc Hx Ha Hl. unfold pm_pick. rewrite (run_bind _ _ _ _ _ eq_refl), Hc.
  rewrite (run_bind _ _ _ _ _ (slot_run _ _ _ Hx)), Ha. rewrite (run_bind _ _ _ _ _ eq_refl).
  rewrite (run_bind _ _ _ _ _ eq_refl), decide_True by congruence.
  rewrite (run_bind _ _ _ _ _ eq_refl), (run_bind _ _ _ _ _ eq_refl).
  eexists. split; [done|]. cbn. split_and!; try done. intros l u. split; [|done].
  intros [Htab [Hch Hnd Htl Hus] Hcu Hne]. constructor; [exact Htab|by constructor|exact Hcu|exact Hne].
Qed.

Lemma mask_irq_run v b c : exists c', mask_irq v b c = Ok (tt, c') /\ ik c' = ik c /\
  exception_handler c' = exception_handler c /\ syscalls c' = syscalls c.
Proof. unfold mask_irq, modify. eexists. split; [done|]. by destruct (v <? 8). Qed.

Lemma int_enter_run c sp r h x :
  cur_proc (ik c) = Some h -> procs (ik c) !! h = Some x ->
  exists c', int_enter sp r c = Ok (tt, c') /\ ik c' = restored sp h x (ik c) /\
    exception_handler c' = exception_handler c /\ syscalls c' = syscalls c.
Proof.
  intros Hc Hx. unfold int_enter, icx_set. rewrite (run_bind _ _ _ _ _ eq_refl).
  destruct (mask_irq_run (u8 (r_intr r)) true (set_icx CX_IRQ c)) as (c1 & Hr & Hk & He & Hs).
  rewrite (run_bind _ _ _ _ _ Hr). exists (set_ik (restored sp h x (ik c)) c1).
  split; [|done]. apply onk_run. rewrite Hk. by apply restore_run.
Qed.

Lemma int_leave_run c sp r sp' s' :
  pm_pick sp (ik c) = Ok (sp', s') -> exists c', int_leave sp r c = Ok (sp', c') /\ ik c' = s'.
Proof.
  intros Hp. unfold int_leave. rewrite (run_bind _ _ _ _ _ (onk_run _ _ _ _ Hp)).
  destruct (mask_irq_run (u8 (r_intr r)) false (set_ik s' c)) as (c1 & Hr & Hk & _).
  rewrite (run_bind _ _ _ _ _ Hr). unfold icx_set. rewrite (run_bind _ _ _ _ _ eq_refl).
  by eexists.
Qed.

(** The handlers there are behind [init_debug]. *)
Definition debug_handlers : gmap Z (M kern excpt_policy) :=
  <[GENERAL_PROTECTION_FAULT := gpf_handler]> {[PAGE_FAULT := pf_handler]}.

Lemma init_debug_run c : exception_handler c = ∅ -> init_debug c = Ok (tt, set_excs debug_handlers c).
Proof. intros He. unfold init_debug, idt_set_exception_handler. rewrite !(run_bind _ _ _ _ _ eq_refl). cbn. by rewrite He. Qed.

(** All of them only report. *)
Lemma debug_handlers_report i (s : kern) h x :
  cur_proc s = Some h -> procs s !! h = Some x ->
  default default_exception_handler (debug_handlers !! i) s = Ok (EP_DEFAULT, s).
Proof.
  intros Hc Hx. assert ((print_state;; mret EP_DEFAULT) s = Ok (EP_DEFAULT, s)) as Hrep.
  { rewrite (run_bind _ _ _ tt s); [done|]. unfold print_state.
    rewrite (run_bind _ _ _ _ _ eq_refl), Hc. by rewrite (run_bind _ _ _ _ _ (slot_run _ _ _ Hx)). }
  unfold debug_handlers. destruct (decide (i = GENERAL_PROTECTION_FAULT)) as [->|];
    [by rewrite lookup_insert_eq|rewrite lookup_insert_ne by done].
  destruct (decide (i = PAGE_FAULT)) as [->|];
    [by rewrite lookup_singleton_eq|by rewrite lookup_singleton_ne].
Qed.

(** An exception of a user program destroys the current process. *)
Lemma user_exception_run c r h x s' :
  0 <= r_intr r < IRQ_BASE -> exception_handler c = debug_handlers -> IS_USER (r_ds r) = true ->
  cur_proc (ik c) = Some h -> procs (ik c) !! h = Some x -> pm_destroy h (ik c) = Ok (tt, s') ->
  forall st, int_dispatch r st c = Ok (tt, set_ik s' c).
Proof.
  intros Hr He Hu Hc Hx Hd st. unfold int_dispatch. rewrite (proj2 (Z.ltb_lt _ _)) by lia.
  unfold idt_handle_exception. rewrite (run_bind _ _ _ _ _ eq_refl), He.
  rewrite (run_bind _ _ _ EP_DEFAULT c).
  2:{ unfold onk. rewrite (debug_handlers_report _ _ _ _ Hc Hx). by destruct c. }
  rewrite Hu. cbv zeta.
  destruct (lookup_lt_is_Some_2 exception_type (Z.to_nat (r_intr r))) as [ty Hty];
    [unfold IRQ_BASE in *; cbn; lia|].
  rewrite Hty, (run_bind _ _ _ _ _ eq_refl), (run_bind _ _ _ _ _ eq_refl), Hc.
  rewrite (run_bind _ _ _ _ _ eq_refl). by apply onk_run.
Qed.

(** The process behind the one at the head of the queue. *)
Lemma next_process s h t u :
  pm_inv s (h :: t) u -> t <> [] ->
  exists n x, head (rotate t) = Some n /\ n ∈ t /\ n <> h /\ procs s !! n = Some x.
Proof.
  intros [Htab Hq _ _] Ht. pose proof (q_used _ _ _ Hq) as Hu. apply Forall_cons in Hu as [_ Htu].
  pose proof (q_nodup _ _ _ Hq) as Hnd. apply NoDup_cons in Hnd as [Hht _].
  destruct (head (rotate t)) as [n|] eqn:Hn; [|by destruct t as [|? []]].
  assert (n ∈ t) as Hnt by (apply elem_rotate; destruct (rotate t); simplify_eq/=; by left).
  rewrite Forall_forall in Htu. pose proof (tab_u _ _ _ Htab). specialize (Htu n Hnt).
  destruct (tab_all _ _ _ Htab n) as [x Hx]; [lia|]. exists n, x. split_and!; try done. by intros ->.
Qed.


(** ** A system call *)

(** The kernel state in which the function of a system call runs. *)
Definition called (sp eax h : Z) (x : proc) (s : kern) : kern :=
  set_procs (<[h := set_sc_eax (Some eax) (set_esp sp x)]> (procs s))
    (set_syscall_proc (Some h) (restored sp h x s)).

Definition call_args (r : regs) (n : Z) : list Z :=
  take (Z.to_nat n) [i32 (r_ebx r); i32 (r_ecx r); i32 (r_edx r)].

Lemma syscall_execute_run c r h x sp s0 (f : syscall_func) n v s2 x2 :
  ik c = restored sp h x s0 -> 0 <= r_eax r < NUM_SYSCALLS -> 0 <= n <= SC_MAX_ARGS ->
  syscalls c !! r_eax r = Some (f, n) ->
  f (call_args r n) (called sp (r_eax r) h x s0) = Ok (v, s2) -> procs s2 !! h = Some x2 ->
  syscall_execute r h c = Ok (tt, set_ik (set_procs (<[h := set_sc_eax (Some (u32 v)) x2]> (procs s2)) s2) c).
Proof.
  intros Hk He Hn Hf Hrun Hx2. unfold syscall_execute.
  destruct (Z.geb_spec (r_eax r) NUM_SYSCALLS); [lia|].
  rewrite (run_bind _ _ _ tt (set_ik (set_syscall_proc (Some h) (restored sp h x s0)) c))
    by (apply onk_run; by rewrite Hk).
  rewrite (run_bind _ _ _ tt (set_ik (called sp (r_eax r) h x s0) c)).
  2:{ apply (onk_run _ (set_ik (set_syscall_proc (Some h) (restored sp h x s0)) c)). cbn [ik set_ik].
      rewrite (upd_run h _ _ (set_esp sp x)) by apply lookup_insert_eq. cbn. unfold called.
      by rewrite insert_insert_eq. }
  rewrite (run_bind _ _ _ _ _ eq_refl). cbn [syscalls set_ik]. rewrite Hf.
  rewrite (run_bind _ _ _ v (set_ik s2 c)).
  - apply (onk_run _ (set_ik s2 c)). by apply upd_run.
  - pose proof (onk_run (f (call_args r n)) (set_ik (called sp (r_eax r) h x s0) c) v s2 Hrun) as Hc.
    unfold SC_MAX_ARGS in Hn. assert (n = 0 \/ n = 1 \/ n = 2 \/ n = 3) as Hcase by lia.
    destruct Hcase as [->|[->|[->| ->]]]; exact Hc.
Qed.

(** C31: A system call returns to its caller with the result of the function in [eax]: the
    function is called with the number of arguments it was registered with, for the process
    that raised the interrupt, and the processor goes on where the process was interrupted. *)
Theorem syscall_returns c h x sp r st (f : syscall_func) n v s2 x2 a :
  cur_proc (ik c) = Some h -> procs (ik c) !! h = Some x ->
  r_intr r = SYSCALL -> 0 <= r_eax r < NUM_SYSCALLS -> 0 <= n <= SC_MAX_ARGS ->
  syscalls c !! r_eax r = Some (f, n) ->
  f (call_args r n) (called sp (r_eax r) h x (ik c)) = Ok (v, s2) ->
  cur_proc s2 = Some h -> last_proc s2 = Some h -> procs s2 !! h = Some x2 -> as_ x2 = Some a ->
  exists c', idt_handle_int sp r st c = Ok (sp, c') /\
    procs (ik c') = <[h := set_sc_eax (Some (u32 v)) x2]> (procs s2) /\
    cur_proc (ik c') = Some h /\ cur_as (ik c') = Some a.
Proof.
  intros Hcur Hx Hi He Hn Hf Hrun Hc2 Hl2 Hx2 Ha.
  destruct (int_enter_run c sp r h x Hcur Hx) as (c1 & Hr1 & Hk1 & _ & Hs1).
  set (s3 := set_procs (<[h := set_sc_eax (Some (u32 v)) x2]> (procs s2)) s2).
  assert (int_dispatch r st c1 = Ok (tt, set_icx CX_IRQ (set_ik s3 (set_icx CX_SYSCALL c1)))) as Hd.
  { unfold int_dispatch. rewrite Hi. cbn [Z.ltb SYSCALL IRQ_BASE Z.compare Pos.compare Pos.compare_cont Z.eqb Pos.eqb].
    unfold icx_set. rewrite (run_bind _ _ _ _ _ eq_refl). rewrite (run_bind _ _ _ tt (set_ik s3 (set_icx CX_SYSCALL c1))); [done|].
    unfold handle_syscall. rewrite (run_bind _ _ _ _ _ eq_refl). cbn [ik set_icx]. rewrite Hk1.
    cbn [cur_proc restored set_procs set_cpu]. rewrite Hcur, (run_bind _ _ _ _ _ eq_refl).
    eapply (syscall_execute_run (set_icx CX_SYSCALL c1) r h x sp (ik c) f n v s2 x2); try done.
    cbn. by rewrite Hs1. }
  set (s4 := set_cpu (Some a) (tss_esp0 s3) s3).
  assert (pm_pick sp s3 = Ok (sp, s4)) as Hp.
  { unfold pm_pick. rewrite (run_bind _ _ _ _ _ eq_refl). cbn [cur_proc s3 set_procs]. rewrite Hc2.
    rewrite (run_bind _ _ _ (set_sc_eax (Some (u32 v)) x2) s3) by (apply slot_run, lookup_insert_eq).
    cbn [as_ set_sc_eax]. rewrite Ha, (run_bind _ _ _ _ _ eq_refl), (run_bind _ _ _ _ _ eq_refl).
    by rewrite decide_False by (cbn; congruence). }
  destruct (int_leave_run (set_icx CX_IRQ (set_ik s3 (set_icx CX_SYSCALL c1))) sp r sp s4 Hp) as (c4 & Hr4 & Hk4).
  exists c4. unfold idt_handle_int. rewrite (run_bind _ _ _ _ _ Hr1), (run_bind _ _ _ _ _ Hd), Hr4, Hk4.
  by split_and!.
Qed.

(** ** Witnesses *)

(** The calls of the process manager; other components' calls answer -1 here. *)
Definition proc_calls (id : Z) : syscall_func := fun args =>
  if id =? SC_GETPID then sys_getpid
  else if id =? 25 then sys_yield
  else mret (-1).

(** The current process has just been switched to. *)
Definition running3 : kern := set_last (cur_proc booted3) booted3.
Definition cpu0 : cpu :=
  MkCpu running3 ∅ ∅ ∅ (static_syscalls proc_calls) 0 0 [] CX_PROC.
Definition cpu3 : cpu := match (init_debug;; boot_syscalls proc_calls) cpu0 with Ok (_, c) => c | _ => cpu0 end.
Definition the_proc : Z := default 0 (cur_proc running3).

Lemma boot_registers_syscalls_witness :
  exists c', boot_syscalls proc_calls cpu0 = Ok (tt, c') /\ ik c' = ik cpu0 /\
    (forall id n, (id, n) ∈ (SC_TEST, 0) :: boot_table -> syscalls c' !! id = Some (proc_calls id, n)) /\
    (forall id f n, syscalls c' !! id = Some (f, n) -> (id, n) ∈ (SC_TEST, 0) :: boot_table /\
       0 <= id < NUM_SYSCALLS /\ 0 <= n <= SC_MAX_ARGS).
Proof. apply (boot_registers_syscalls proc_calls cpu0). reflexivity. Defined.

(** The result of the call in the witness, and the state behind it. *)
Definition pid_call : outcome (Z * kern) :=
  proc_calls SC_GETPID [] (called 0x1000 SC_GETPID the_proc (default zero_proc (procs running3 !! the_proc)) running3).
Definition pid_state : kern := match pid_call with Ok (_, s) => s | _ => no_kern end.
Definition getpid_regs : regs := MkRegs SYSCALL 0x23 SC_GETPID 0 0 0.

Lemma syscall_returns_witness :
  exists c', idt_handle_int 0x1000 getpid_regs 0 cpu3 = Ok (0x1000, c') /\
    procs (ik c') = <[the_proc := set_sc_eax (Some (u32 0)) (default zero_proc (procs pid_state !! the_proc))]>
                      (procs pid_state) /\
    cur_proc (ik c') = Some the_proc /\ cur_as (ik c') = Some 0x200000.
Proof.
  apply (syscall_returns cpu3 the_proc (default zero_proc (procs running3 !! the_proc)) 0x1000 getpid_regs 0
    (proc_calls SC_GETPID) 0 0 pid_state (default zero_proc (procs pid_state !! the_proc)) 0x200000);
    (lia || (vm_compute; reflexivity) || (vm_compute; split; [discriminate|reflexivity])
      || (vm_compute; split; discriminate)).
Defined.


(** [mask_irq] is given the number of the interrupt instead of that of the IRQ: for the IRQs
    of the first controller it changes no mask bit at all. *)
Lemma mask_irq_ineffective irq b c :
  0 <= irq < 8 -> 0 <= pic2_mask c < 256 ->
  exists c', mask_irq (u8 (IRQ_BASE + irq)) b c = Ok (tt, c') /\
    pic1_mask c' = pic1_mask c /\ pic2_mask c' = pic2_mask c.
Proof.
  intros Hi Hm. unfold mask_irq, modify. eexists. split; [done|].
  assert (u8 (IRQ_BASE + irq) = 32 + irq) as -> by (unfold u8, IRQ_BASE; rewrite Z.mod_small; lia).
  destruct (Z.ltb_spec (32 + irq) 8); [lia|]. cbn. split; [done|].
  replace ((32 + irq - 8) mod 32) with (24 + irq) by (rewrite Z.mod_small; lia).
  pose proof (small_cases (fun m => forallb (fun i =>
    (u8 (bsetn m (24 + i)) =? m) && (u8 (bclrn m (24 + i)) =? m)) (seqZ 0 8)) 256 (pic2_mask c)
    ltac:(vm_compute; reflexivity) Hm) as Hc.
  pose proof (small_cases _ 8 irq Hc Hi) as Hc'. cbn beta in Hc'.
  apply andb_true_iff in Hc' as [H1%Z.eqb_eq H2%Z.eqb_eq]. by destruct b.
Qed.
