(* ===== verification/Params.v ===== *)
(** * Boot parameters

    kernel/params.c: the command line of the boot loader is cut at spaces, every piece at its
    first equals sign, and the function registered under the name is called with the value.
    A string is the list of its characters in front of the terminating zero; the pieces, which
    the code marks by writing zeros into the line, are values.  The registered functions act
    on a state of their own. *)

From S2P Require Import Prelude.

Definition ENOENT : Z := 2.

Section params.
Context {S : Type}.

(** [struct parameter]: a function gets the value, NULL when there is none. *)
Definition parameter : Type := list Z * (option (list Z) -> M S Z).

Fixpoint exec (cmd : list Z) (val : option (list Z)) (params : list parameter) : M S Z :=
  match params with
  | [] => mret (- ENOENT)
  | (name, func) :: params =>
      if decide (cmd = name) then func val else exec cmd val params
  end.

(** The loop of [next]: the end of the piece and [val_delim]. *)
Fixpoint scan (l : list Z) (i val_delim : nat) : nat * nat :=
  match l with
  | [] => (i, val_delim)
  | c :: l =>
      if c =? 32 then (i, val_delim)
      else scan l (i + 1) (if (val_delim =? 0)%nat && (c =? 61) then i else val_delim)
  end.

Fixpoint skip_spaces (l : list Z) : list Z :=
  match l with
  | c :: l' => if c =? 32 then skip_spaces l' else l
  | [] => []
  end.

(** [next(cmdline, &cmd, &val)]: the name, the value and the rest of the line. *)
Definition next (cmdline : list Z) : list Z * option (list Z) * list Z :=
  let '(i, d) := scan cmdline 0 0 in
  let cmd := take (if (d =? 0)%nat then i else d) cmdline in
  let val := if (d =? 0)%nat then None else Some (take (i - (d + 1)) (drop (d + 1) cmdline)) in
  let rest := match drop i cmdline with [] => [] | _ :: r => r end in
  (cmd, val, skip_spaces rest).

(** The loop of [parse_params]; every turn takes at least one character. *)
Fixpoint parse_loop (fuel : nat) (cmdline : list Z) (params : list parameter) (noerror : bool) : M S Z :=
  match fuel with
  | O => fault
  | Datatypes.S fuel =>
      match cmdline with
      | [] => mret 0
      | _ =>
          let '(cmd, val, rest) := next cmdline in
          err ← exec cmd val params;
          if truth err && noerror then mret err else parse_loop fuel rest params noerror
      end
  end.

Definition parse_params (cmdline : list Z) (params : list parameter) (noerror : bool) : M S Z :=
  parse_loop (Datatypes.S (length cmdline)) (skip_spaces cmdline) params noerror.

(** ** Reference: words of a line, and options *)

(** The words between spaces; [w] is the word being read. *)
Fixpoint words_of (l w : list Z) : list (list Z) :=
  match l with
  | [] => match w with [] => [] | _ => [w] end
  | c :: l => if c =? 32 then match w with [] => words_of l [] | _ => w :: words_of l [] end
              else words_of l (w ++ [c])
  end.
Definition words (l : list Z) : list (list Z) := words_of l [].

(** What stands before and behind the first equals sign. *)
Fixpoint cut (w : list Z) : option (list Z * list Z) :=
  match w with
  | [] => None
  | c :: w => if c =? 61 then Some ([], w) else '(a, b) ← cut w; Some (c :: a, b)
  end.

(** An option is [name=value], with a name that is not empty, or a name alone. *)
Definition option_of (w : list Z) : list Z * option (list Z) :=
  match w with
  | [] => ([], None)
  | c :: w => match cut w with Some (a, b) => (c :: a, Some b) | None => (c :: w, None) end
  end.

Fixpoint run_options (opts : list (list Z * option (list Z))) (params : list parameter)
    (noerror : bool) : M S Z :=
  match opts with
  | [] => mret 0
  | (cmd, val) :: opts =>
      err ← exec cmd val params;
      if truth err && noerror then mret err else run_options opts params noerror
  end.

(** ** The scan *)

Definition no_space (w : list Z) : Prop := Forall (fun c => c <> 32) w.
(** The end of the line, or a space. *)
Definition boundary (r : list Z) : Prop := match r with [] => True | c :: _ => c = 32 end.

Lemma scan_found w r : forall i d, no_space w -> boundary r -> d <> 0%nat ->
  scan (w ++ r) i d = ((i + length w)%nat, d).
Proof.
  induction w as [|c w IH]; intros i d Hw Hr Hd; cbn [app scan length].
  - destruct r as [|c r]; cbn; [f_equal; lia|]. cbn in Hr. subst. cbn. f_equal. lia.
  - inv Hw. rewrite (proj2 (Z.eqb_neq _ _)) by done.
    rewrite (proj2 (Nat.eqb_neq _ _) Hd). cbn. rewrite IH by done. f_equal. lia.
Qed.

Lemma scan_word w r : forall i, no_space w -> boundary r -> (0 < i)%nat ->
  scan (w ++ r) i 0 = ((i + length w)%nat, match cut w with Some (a, _) => (i + length a)%nat | None => 0%nat end).
Proof.
  induction w as [|c w IH]; intros i Hw Hr Hi; cbn [app scan length cut].
  - destruct r as [|c r]; cbn; [f_equal; lia|]. cbn in Hr. subst. cbn. f_equal. lia.
  - inv Hw. rewrite (proj2 (Z.eqb_neq _ _)) by done. cbn [Nat.eqb andb].
    destruct (Z.eqb_spec c 61) as [->|].
    + rewrite scan_found by (done || lia). cbn. f_equal; lia.
    + rewrite IH by (done || lia). f_equal; [lia|]. destruct (cut w) as [[a b]|]; cbn; lia.
Qed.

Lemma cut_app w a b : cut w = Some (a, b) -> w = a ++ 61 :: b.
Proof.
  revert a b. induction w as [|c w IH]; intros a b Hc; [done|]. cbn [cut] in Hc.
  destruct (Z.eqb_spec c 61) as [->|]; [by simplify_eq|].
  destruct (cut w) as [[a' b']|] eqn:Hw; [|done]. cbn in Hc. injection Hc as <- <-. cbn. by rewrite (IH a' b').
Qed.

(** [next] on a line that starts with a word answers its option and goes to the next word. *)
Lemma next_word w r : w <> [] -> no_space w -> boundary r ->
  next (w ++ r) = (option_of w, skip_spaces r).
Proof.
  intros Hne Hw Hr. destruct w as [|c w]; [done|]. inv Hw. unfold next, option_of.
  cbn [app scan]. rewrite (proj2 (Z.eqb_neq _ _)) by done. cbn [Nat.eqb andb].
  assert ((if (c =? 61)%Z then 0 else 0)%nat = 0%nat) as -> by by destruct (c =? 61).
  rewrite scan_word by (done || lia).
  assert (match drop (0 + 1 + length w) (c :: w ++ r) with [] => [] | _ :: r0 => r0 end = tail r) as ->.
  { cbn. rewrite drop_app_length. by destruct r. }
  assert (skip_spaces (tail r) = skip_spaces r) as ->.
  { destruct r as [|s r]; [done|]. cbn in Hr. by subst. }
  destruct (cut w) as [[a b]|] eqn:Hc.
  - apply cut_app in Hc. subst w. cbn [Nat.add Nat.eqb]. f_equal. f_equal.
    + cbn. by rewrite <- app_assoc, take_app_length.
    + f_equal. cbn. rewrite Nat.add_1_r. cbn.
      replace ((a ++ 61 :: b) ++ r) with ((a ++ [61]) ++ b ++ r) by (by rewrite <- !app_assoc).
      replace (Datatypes.S (length a)) with (length (a ++ [61])) by (rewrite length_app; cbn; lia).
      rewrite drop_app_length. replace (_ - _)%nat with (length b) by (rewrite !length_app; cbn; lia).
      apply take_app_length.
  - cbn. by rewrite take_app_length.
Qed.

(** ** Words *)

Lemma words_of_word w r : forall acc, no_space w -> words_of (w ++ r) acc = words_of r (acc ++ w).
Proof.
  induction w as [|c w IH]; intros acc Hw; [by rewrite app_nil_r|]. inv Hw. cbn [app words_of].
  rewrite (proj2 (Z.eqb_neq _ _)) by done. by rewrite IH, <- app_assoc by done.
Qed.

Lemma words_word w r : w <> [] -> no_space w -> boundary r -> words (w ++ r) = w :: words r.
Proof.
  intros Hne Hw Hr. unfold words. rewrite words_of_word by done. cbn [app].
  destruct r as [|c r]; cbn in *; [by destruct w|]. subst. cbn. by destruct w.
Qed.

Lemma words_skip l : words (skip_spaces l) = words l.
Proof.
  induction l as [|c l IH]; [done|]. cbn [skip_spaces]. destruct (Z.eqb_spec c 32) as [->|]; [|done].
  by rewrite IH.
Qed.

Lemma skip_spaces_length l : (length (skip_spaces l) <= length l)%nat.
Proof. induction l as [|c l IH]; cbn; [lia|]. destruct (c =? 32); cbn; lia. Qed.

Lemma skip_spaces_head l : match skip_spaces l with [] => True | c :: _ => c <> 32 end.
Proof. induction l as [|c l IH]; cbn; [done|]. by destruct (Z.eqb_spec c 32). Qed.

Lemma line_word l : exists w r, l = w ++ r /\ no_space w /\ boundary r.
Proof.
  induction l as [|c l (w & r & -> & Hw & Hr)]; [by exists [], []; repeat constructor|].
  destruct (Z.eqb_spec c 32) as [->|]; [by exists [], (32 :: w ++ r); repeat constructor|].
  exists (c :: w), r. split_and!; [done| |done]. by constructor.
Qed.

Lemma parse_loop_run params noerror fuel : forall l s,
  (length l < fuel)%nat -> match l with [] => True | c :: _ => c <> 32 end ->
  parse_loop fuel l params noerror s = run_options (option_of <$> words l) params noerror s.
Proof.
  induction fuel as [|fuel IH]; intros l s Hlen Hl; [lia|].
  destruct l as [|c l]; [done|]. cbn [parse_loop].
  destruct (line_word (c :: l)) as (w & r & Hwr & Hw & Hr).
  assert (w <> []) as Hne by (intros ->; cbn in Hwr; subst r; done).
  rewrite Hwr. rewrite next_word, words_word by done. cbn [fmap list_fmap run_options].
  destruct (option_of w) as [cmd val]. unfold mbind, M_bind.
  destruct (exec cmd val params s) as [[err s1]| |]; [|done|done].
  destruct (truth err && noerror); [done|].
  rewrite IH.
  - by rewrite words_skip.
  - pose proof (skip_spaces_length r). rewrite Hwr, length_app in Hlen. destruct w; [done|]. cbn in Hlen. lia.
  - apply skip_spaces_head.
Qed.

(** C38: Parsing the command line is the same as cutting it into the words between spaces, each
    of them at the first equals sign behind its first character, and calling the function
    registered under each name with its value, in order; with [noerror] up to the first one
    that answers an error.  The parser ends for every line. *)
Theorem parse_params_equiv cmdline params noerror s :
  parse_params cmdline params noerror s =
  run_options (option_of <$> words cmdline) params noerror s.
Proof.
  unfold parse_params. rewrite parse_loop_run.
  - by rewrite words_skip.
  - pose proof (skip_spaces_length cmdline). lia.
  - apply skip_spaces_head.
Qed.
End params.

(** A line with two options and a flag, the way the boot loader passes it. *)
Example parse_example :
  let log name := (name, fun v s => Ok (0, s ++ [(name, v)])) in
  parse_params [32; 97; 61; 98; 61; 32; 32; 99; 32; 61; 100; 32]
    [log [97]; log [99]; log [61; 100]] false [] =
  Ok (0, [([97], Some [98; 61]); ([99], None); ([61; 100], None)]).
Proof. reflexivity. Qed.
