(* ===== verification/Devfs.v ===== *)
(** * The device file system

    kernel/fs/devfs.c: one flat directory whose entries are the inodes that drivers register.
    The static list [devices] is a list object of [Vfs], created by [init_devfs]; the functions
    that use it take its address.  The device driver tables of both file systems of the kernel
    together are [kos_drivers]. *)

From S2P Require Import Prelude Vfs Initrd InitrdFiles.

(** Addresses of the static objects [devfs_root], [iops], [sbops] and [devfs]. *)
Definition DEV_ROOT : Z := 7.
Definition DEV_IOPS : Z := 8.
Definition DEV_SBOPS : Z := 9.
Definition DEV_TYPE : Z := 10.

Definition devfs_root : inode :=
  MkInode (str "dev") FS_DIR 0 0 0 0 0 0 None (Some DEV_IOPS) None.

Definition dev_mount (sb : Z) (dev : option cstring) (flags : Z) : M fsys Z :=
  modify (fun s => set_supers
    (alter (fun b => MkSuper (Some DEV_ROOT) (sb_flags b) (Some DEV_SBOPS)) sb (supers s)) s);;
  x ← inode_at DEV_ROOT;
  put_inode DEV_ROOT (iset_sb (Some sb) x);;
  mret 0.

(** [list_size] of a list from which [list_del_entry] removed entries is too large; the loop
    then runs to its end, and the entry allocated for the answer is freed again. *)
Definition dev_readdir (devices : Z) (ino index : Z) : M fsys (option Z) :=
  if negb (ino =? DEV_ROOT) then mret None
  else
    ds ← list_at (Some devices);
    if index >=? Z.of_nat (length ds) then mret None
    else
      d ← kmalloc;
      match nth_entry ds 0 index with
      | Some e =>
          y ← inode_at e;
          put_dirent d (MkDirent (i_name y) (Some e));;
          mret (Some d)
      | None => mret None
      end.

Definition dev_finddir (devices : Z) (ino : Z) (name : cstring) : M fsys (option Z) :=
  if negb (ino =? DEV_ROOT) then mret None
  else ds ← list_at (Some devices); find_name ds name.

Definition devfs_register (devices ino : Z) : M fsys Z :=
  r ← inode_at DEV_ROOT;
  x ← inode_at ino;
  put_inode ino (iset_sb (i_sb r) x);;
  ds ← list_at (Some devices);
  put_list devices (ds ++ [ino]);;
  mret 0.

Definition devfs_unregister (devices ino : Z) : M fsys Z :=
  ds ← list_at (Some devices);
  match remove_first ino ds with
  | Some ds' => put_list devices ds';; mret 0
  | None => mret (- ENOENT)
  end.

Definition dev_iops (devices : Z) : inode_ops :=
  MkIops None None None (Some (dev_readdir devices)) (Some (dev_finddir devices)).
Definition dev_type : fstype := MkType (str "devfs") 0 dev_mount.

(** The tables of the kernel: the ram disk with the directory [root], and the devices. *)
Definition kos_drivers (root : option Z) (devices : Z) : Drivers := {|
  inode_table o := if o =? ID_IOPS then id_iops
                   else if o =? DEV_IOPS then dev_iops devices else no_iops;
  file_table o := if o =? ID_FOPS then id_fops else no_fops;
  remount_of o := if o =? ID_SBOPS then Some id_remount else None;
  type_at t := if t =? ID_TYPE then id_type root
               else if t =? DEV_TYPE then dev_type
               else MkType [] 0 (fun _ _ _ => mret (- ENOSYS));
|}.

(** [init_devfs()]: the address of the new list. *)
Definition init_devfs : M fsys Z :=
  devices ← kmalloc;
  put_list devices [];;
  vfs_register (Some DEV_TYPE);;
  mret devices.

(** The part of [kinit_fs] (kmain.c) that mounts the devices, after [/dev] was looked up twice;
    [None] when there is no such directory, else the answer of [vfs_mount]. *)
Definition mount_dev (root : option Z) (devices : Z) : M fsys (option Z) :=
  let D := kos_drivers root devices in
  dev ← @vfs_lookup D (Some (str "/dev")) (Some fs_root);
  match dev with
  | None => mret None
  | Some _ =>
      t ← @vfs_gettype D (Some (str "devfs"));
      p ← @vfs_lookup D (Some (str "/dev")) (Some fs_root);
      err ← @vfs_mount D t p None (Z.lor FSM_READ FSM_WRITE);
      mret (Some err)
  end.

(** Drivers register their inodes one after the other. *)
Fixpoint register_devices (devices : Z) (inos : list Z) : M fsys unit :=
  match inos with
  | [] => mret tt
  | i :: inos => devfs_register devices i;; register_devices devices inos
  end.

(** ** Both file systems keep the interface of path lookup *)

Section kos.
Context (root : option Z) (devices : Z).

Definition live_inode (s : fsys) (j : Z) : bool := bool_decide (is_Some (inodes s !! j)).

Definition dev_child (s : fsys) (d : Z) (n : cstring) : option Z :=
  if d =? DEV_ROOT then ds ← lists s !! devices; find_named s ds n else None.
Definition kos_child (s : fsys) (d : Z) (n : cstring) : option Z :=
  x ← inodes s !! d;
  if bool_decide (i_ops x = Some DEV_IOPS) then dev_child s d n else id_child s d n.

Definition dev_wf (s : fsys) : Prop :=
  exists ds, lists s !! devices = Some ds /\ forallb (live_inode s) ds = true.

#[export] Program Instance kos_dirs : DirLaws (kos_drivers root devices) := {|
  dir_child := kos_child;
  driver_wf s := id_wf s /\ dev_wf s;
|}.
Next Obligation.
  intros s d x f n [Hid (ds & Hds & Hlive)] Hx Hdir Hop. unfold kos_child. rewrite Hx. cbn [mbind option_bind].
  unfold inode_op in Hop. destruct (i_ops x) as [o|] eqn:Ho; [|done]. cbn in Hop.
  destruct (Z.eqb_spec o ID_IOPS) as [->|].
  - rewrite bool_decide_false by done.
    apply (@finddir_law _ (initrd_dirs root) s d x f n); [done|done|done|].
    unfold inode_op. by rewrite Ho.
  - destruct (Z.eqb_spec o DEV_IOPS) as [->|]; [|done]. injection Hop as <-.
    rewrite bool_decide_true by done. unfold dev_finddir, dev_child. exists (fs_error s).
    rewrite set_error_same. split; [|done]. destruct (Z.eqb_spec d DEV_ROOT); [|done]. cbn [negb].
    rewrite (run_bind _ _ _ _ _ (list_at_run _ _ _ Hds)), Hds. by apply find_name_run.
Qed.
Next Obligation.
  intros s d n j [Hid (ds & Hds & Hlive)]. unfold kos_child.
  destruct (inodes s !! d) as [x|] eqn:Hx; [|done]. cbn [mbind option_bind]. case_bool_decide.
  - unfold dev_child. destruct (d =? DEV_ROOT); [|done]. rewrite Hds. cbn [mbind option_bind].
    intros Hj%find_named_in%list_elem_of_In. rewrite forallb_forall in Hlive.
    by apply Hlive, bool_decide_eq_true in Hj.
  - by apply (@dir_child_live _ (initrd_dirs root)).
Qed.

(** ** States that keep the name space *)

(** Inodes keep what a search looks at, and lists only get further live inodes. *)
Record extended (s s' : fsys) : Prop := {
  ext_inode i x : inodes s !! i = Some x -> exists y, inodes s' !! i = Some y /\
    i_name y = i_name x /\ i_ops y = i_ops x /\ impl y = impl x /\
    bisset (i_flags y) FS_DIR = bisset (i_flags x) FS_DIR;
  ext_old i y : inodes s' !! i = Some y -> is_Some (inodes s !! i);
  ext_list a xs : lists s !! a = Some xs ->
    exists ys, lists s' !! a = Some (xs ++ ys) /\ forallb (live_inode s) ys = true;
}.

Lemma ext_live s s' j : extended s s' -> live_inode s j = true -> live_inode s' j = true.
Proof.
  intros He [x Hx]%bool_decide_eq_true. destruct (ext_inode _ _ He j x Hx) as (y & Hy & _).
  apply bool_decide_eq_true. eauto.
Qed.

Lemma ext_lives s s' xs : extended s s' -> forallb (live_inode s) xs = true -> forallb (live_inode s') xs = true.
Proof. intros He. rewrite !forallb_forall. eauto using ext_live. Qed.

Lemma ext_driver_wf s s' : extended s s' -> id_wf s /\ dev_wf s -> id_wf s' /\ dev_wf s'.
Proof.
  intros He [Hid (ds & Hds & Hl)]. split.
  - intros i y Hy. destruct (ext_old _ _ He i y Hy) as [x Hx].
    destruct (ext_inode _ _ He i x Hx) as (y' & Hy' & _ & Ho & Hi & Hf). simplify_eq.
    pose proof (Hid i x Hx) as Hok. cbn beta in *. unfold id_dir_ok in *. rewrite Ho, Hi, Hf.
    destruct (_ && _); [|done]. destruct (lists s !! impl x) as [xs|] eqn:Hxs; [|done].
    destruct (ext_list _ _ He _ _ Hxs) as (ys & -> & Hys). rewrite forallb_app. apply andb_true_iff.
    split; by apply (ext_lives s).
  - destruct (ext_list _ _ He _ _ Hds) as (ys & Hys & Hly). exists (ds ++ ys). split; [done|].
    rewrite forallb_app. apply andb_true_iff. split; by apply (ext_lives s).
Qed.

Lemma find_named_ext s s' xs ys n j :
  extended s s' -> forallb (live_inode s) xs = true ->
  find_named s xs n = Some j -> find_named s' (xs ++ ys) n = Some j.
Proof.
  intros He. induction xs as [|k xs IH]; [done|]. cbn [app find_named forallb].
  intros [[x Hx]%bool_decide_eq_true Hl]%andb_true_iff.
  destruct (ext_inode _ _ He k x Hx) as (y & Hy & Hn & _). unfold named. rewrite Hx, Hy, Hn.
  destruct (bool_decide (i_name x = n)); auto.
Qed.

Lemma ext_child s s' d n j :
  extended s s' -> id_wf s /\ dev_wf s ->
  @child _ kos_dirs s d n = Some j -> @child _ kos_dirs s' d n = Some j.
Proof.
  intros He [Hid (ds & Hds & Hl)]. unfold child.
  destruct (inodes s !! d) as [x|] eqn:Hx; [|done]. cbn [mbind option_bind].
  destruct (ext_inode _ _ He d x Hx) as (y & Hy & _ & Ho & Hi & Hf). rewrite Hy. cbn [mbind option_bind].
  rewrite Hf. destruct (bisset (i_flags x) FS_DIR) eqn:Hdir; [|done]. unfold inode_op. rewrite Ho.
  destruct (i_ops x ≫= _) eqn:Hop; [|done]. cbn [dir_child kos_dirs]. unfold kos_child.
  rewrite Hx, Hy. cbn [mbind option_bind]. rewrite Ho. case_bool_decide as Hdev.
  - unfold dev_child. destruct (d =? DEV_ROOT); [|done]. rewrite Hds.
    destruct (ext_list _ _ He _ _ Hds) as (ys & -> & _). cbn [mbind option_bind].
    by apply (find_named_ext s).
  - unfold id_child. rewrite Hx, Hy. cbn [mbind option_bind]. rewrite Hi, Ho, Hf, Hdir.
    destruct (lists s !! impl x) as [xs|] eqn:Hxs; [|done].
    destruct (ext_list _ _ He _ _ Hxs) as (ys & -> & _). cbn [mbind option_bind].
    case_bool_decide as Hidops; [|done]. cbn [andb]. apply (find_named_ext s); [done|].
    pose proof (Hid d x Hx) as Hok. cbn beta in Hok. unfold id_dir_ok in Hok.
    by rewrite bool_decide_true, Hdir, Hxs in Hok by done.
Qed.

Lemma extended_refl s : extended s s.
Proof.
  constructor; [naive_solver|eauto|]. intros a xs Ha. exists []. by rewrite app_nil_r.
Qed.

Lemma extended_trans s1 s2 s3 : extended s1 s2 -> extended s2 s3 -> extended s1 s3.
Proof.
  intros H1 H2. constructor.
  - intros i x Hx. destruct (ext_inode _ _ H1 i x Hx) as (y & Hy & ? & ? & ? & ?).
    destruct (ext_inode _ _ H2 i y Hy) as (z & Hz & ? & ? & ? & ?). exists z. split_and!; congruence.
  - intros i y Hy. destruct (ext_old _ _ H2 i y Hy) as [x Hx]. by apply (ext_old _ _ H1) in Hx.
  - intros a xs Ha. destruct (ext_list _ _ H1 a xs Ha) as (ys & Hys & Hl).
    destruct (ext_list _ _ H2 a _ Hys) as (zs & Hzs & Hlz). exists (ys ++ zs). rewrite app_assoc.
    split; [done|]. rewrite forallb_app. apply andb_true_iff. split; [done|].
    rewrite forallb_forall in *. intros j Hj. specialize (Hlz j Hj).
    apply bool_decide_eq_true in Hlz as [y Hy]. apply bool_decide_eq_true. by apply (ext_old _ _ H1) in Hy.
Qed.

(** An inode is overwritten by one with the same name, operations and list. *)
Lemma extended_inode s i x y :
  inodes s !! i = Some x -> i_name y = i_name x -> i_ops y = i_ops x -> impl y = impl x ->
  bisset (i_flags y) FS_DIR = bisset (i_flags x) FS_DIR ->
  extended s (set_inodes (<[i := y]> (inodes s)) s).
Proof.
  intros Hx Hn Ho Hi Hf. constructor; cbn.
  - intros j z Hz. destruct (decide (j = i)) as [->|]; [rewrite lookup_insert_eq|rewrite lookup_insert_ne by done].
    + simplify_eq. eauto 6.
    + eauto 6.
  - intros j z. destruct (decide (j = i)) as [->|]; [eauto|]. rewrite lookup_insert_ne by done. eauto.
  - intros a xs Ha. exists []. by rewrite app_nil_r.
Qed.

Lemma extended_list s i ds :
  lists s !! devices = Some ds -> live_inode s i = true ->
  extended s (set_lists (<[devices := ds ++ [i]]> (lists s)) s).
Proof.
  intros Hds Hi. constructor; cbn; [naive_solver|eauto|]. intros a xs Ha.
  destruct (decide (a = devices)) as [->|]; [rewrite lookup_insert_eq|rewrite lookup_insert_ne by done].
  - simplify_eq. exists [i]. cbn. by rewrite Hi.
  - exists []. by rewrite app_nil_r.
Qed.

(** Live names are the same in an extended state. *)
Lemma find_named_same s s' xs n :
  extended s s' -> forallb (live_inode s) xs = true -> find_named s' xs n = find_named s xs n.
Proof.
  intros He. induction xs as [|k xs IH]; [done|]. cbn [find_named forallb].
  intros [[x Hx]%bool_decide_eq_true Hl]%andb_true_iff.
  destruct (ext_inode _ _ He k x Hx) as (y & Hy & Hn & _). unfold named. rewrite Hx, Hy, Hn.
  by rewrite IH.
Qed.

(** ** Mounted devices *)

Definition DEV : cstring := str "dev".

(** The directory [d] is the entry [dev] of the root; [flags] and [target] are what it has. *)
Definition dev_entry (s : fsys) (r d : Z) : Prop :=
  is_symlink s fs_root = false /\ dir_of s fs_root = Some r /\ @child _ kos_dirs s r DEV = Some d.

(** The devices [ds] are mounted there. *)
Record devs_mounted (s : fsys) (r d : Z) (ds : list Z) : Prop := {
  dm_wf : @fs_wf _ kos_dirs s;
  dm_entry : dev_entry s r d;
  dm_point : exists x, inodes s !! d = Some x /\ bisset (i_flags x) FS_SYMLINK = false /\
    bisset (i_flags x) FS_MOUNTP = true /\ link x = Some DEV_ROOT;
  dm_root : exists x, inodes s !! DEV_ROOT = Some x /\ i_flags x = FS_DIR /\ i_ops x = Some DEV_IOPS;
  dm_list : lists s !! devices = Some ds;
}.

(** A device: an inode nothing is mounted on. *)
Definition is_device (s : fsys) (j : Z) : Prop :=
  exists x, inodes s !! j = Some x /\ bisset (i_flags x) FS_MOUNTP = false.

Lemma devs_resolve s r d ds n :
  devs_mounted s r d ds -> (forall j, j ∈ ds -> is_device s j) ->
  @resolve _ kos_dirs s 19 fs_root [DEV; n] = find_named s ds n.
Proof.
  intros [_ (Hs & Hr & Hc) (x & Hx & Hxs & Hxm & Hxl) (y & Hy & Hyf & Hyo) Hds] Hdev.
  cbn [resolve]. rewrite Hs, Hr. cbn [mbind option_bind]. rewrite Hc. cbn [mbind option_bind].
  unfold is_symlink at 1, dir_of. rewrite Hx. cbn [mbind option_bind]. unfold redirected.
  rewrite Hxs, Hxm. cbn [orb]. rewrite Hxl. cbn [mbind option_bind].
  assert (@child _ kos_dirs s DEV_ROOT n = find_named s ds n) as ->.
  { unfold child. rewrite Hy. cbn [mbind option_bind]. rewrite Hyf. unfold inode_op. rewrite Hyo.
    cbn. unfold kos_child. rewrite Hy. cbn. rewrite Hyo. cbn. by rewrite Hds. }
  destruct (find_named s ds n) as [j|] eqn:Hj; [|done]. cbn [mbind option_bind].
  destruct (Hdev j (find_named_in _ _ _ _ Hj)) as (z & Hz & Hm). rewrite Hz. cbn. by rewrite Hm.
Qed.

(** Registering a device keeps all of it. *)
Lemma register_run s r d ds i :
  devs_mounted s r d ds -> live_inode s i = true ->
  exists s', devfs_register devices i s = Ok (0, s') /\ devs_mounted s' r d (ds ++ [i]) /\
    extended s s' /\
    (forall j y, inodes s' !! j = Some y -> exists x, inodes s !! j = Some x /\ i_flags y = i_flags x /\ link y = link x).
Proof.
  intros Hm Hi. pose proof Hm as [Hwf Hent Hpt (q & Hq & Hqf & Hqo) Hds].
  pose proof Hi as [x Hx]%bool_decide_eq_true.
  set (s1 := set_inodes (<[i := iset_sb (i_sb q) x]> (inodes s)) s).
  set (s2 := set_lists (<[devices := ds ++ [i]]> (lists s1)) s1).
  assert (extended s s2) as He.
  { apply (extended_trans _ s1); [by apply (extended_inode s i x)|apply extended_list; [done|]].
    apply bool_decide_eq_true. unfold s1. cbn. rewrite lookup_insert_eq. eauto. }
  assert (forall j y, inodes s2 !! j = Some y -> exists x, inodes s !! j = Some x /\
            i_flags y = i_flags x /\ link y = link x /\ i_ops y = i_ops x) as Hback.
  { intros j y Hy. unfold s2, s1 in Hy. cbn in Hy.
    apply lookup_insert_Some in Hy as [[<- <-]|[_ Hy]]; eauto. }
  assert (forall j x, inodes s !! j = Some x -> exists y, inodes s2 !! j = Some y /\
            i_flags y = i_flags x /\ link y = link x /\ i_ops y = i_ops x) as Hfwd.
  { intros j z Hz. destruct (ext_inode _ _ He j z Hz) as (y & Hy & _).
    destruct (Hback j y Hy) as (z' & Hz' & ?). simplify_eq. eauto. }
  exists s2. split; [|split; [|split; [done|]]].
  - unfold devfs_register. rewrite (run_bind _ _ _ _ _ (inode_at_run _ _ _ Hq)).
    rewrite (run_bind _ _ _ _ _ (inode_at_run _ _ _ Hx)), (run_bind _ _ _ tt s1) by done.
    by rewrite (run_bind _ _ _ _ _ (list_at_run s1 _ _ Hds)).
  - destruct Hwf as (Hd & [x0 Hx0] & Hl). destruct Hent as (Hs & Hr & Hc).
    destruct (Hfwd _ _ Hx0) as (y0 & Hy0 & Hf0 & Hl0 & _). constructor.
    + split; [by apply (ext_driver_wf s)|]. split; [eauto|]. intros j y Hy Hrd.
      destruct (Hback j y Hy) as (z & Hz & Hf & Hlk & _).
      destruct (Hl j z Hz) as (l & Hl' & [w Hw]); [unfold redirected in *; by rewrite <- Hf|].
      exists l. split; [congruence|]. destruct (Hfwd _ _ Hw) as (? & ? & _). eauto.
    + split_and!; [| |by apply (ext_child s)].
      * unfold is_symlink in *. rewrite Hy0, Hf0. by rewrite Hx0 in Hs.
      * unfold dir_of in *. rewrite Hy0. rewrite Hx0 in Hr. cbn in *. unfold redirected in *. by rewrite Hf0, Hl0.
    + destruct Hpt as (p & Hp & Hps & Hpm & Hpl). destruct (Hfwd _ _ Hp) as (y & Hy & Hf & Hlk & _).
      exists y. split; [done|]. rewrite Hf, Hlk. done.
    + destruct (Hfwd _ _ Hq) as (y & Hy & Hf & _ & Ho). exists y. split; [done|]. by rewrite Hf, Ho.
    + unfold s2. cbn. apply lookup_insert_eq.
  - intros j y Hy. destruct (Hback j y Hy) as (z & ? & ? & ? & _). eauto.
Qed.

Lemma register_devices_run ids : forall s r d ds,
  devs_mounted s r d ds -> forallb (live_inode s) ids = true ->
  exists s', register_devices devices ids s = Ok (tt, s') /\ devs_mounted s' r d (ds ++ ids) /\
    extended s s' /\
    (forall j y, inodes s' !! j = Some y -> exists x, inodes s !! j = Some x /\ i_flags y = i_flags x).
Proof.
  induction ids as [|i ids IH]; intros s r d ds Hm Hl; cbn [register_devices].
  { exists s. rewrite app_nil_r. split; [done|]. split; [done|]. split; [apply extended_refl|]. eauto. }
  apply andb_true_iff in Hl as [Hi Hl].
  destruct (register_run s r d ds i Hm Hi) as (s1 & Hr1 & Hm1 & He1 & Hb1).
  destruct (IH s1 r d (ds ++ [i]) Hm1 (ext_lives _ _ _ He1 Hl)) as (s2 & Hr2 & Hm2 & He2 & Hb2).
  exists s2. rewrite (run_bind _ _ _ _ _ Hr1). rewrite <- app_assoc in Hm2.
  split; [done|]. split; [done|]. split; [by apply (extended_trans _ s1)|].
  intros j y Hy. destruct (Hb2 j y Hy) as (z & Hz & ->). destruct (Hb1 j z Hz) as (w & Hw & -> & _). eauto.
Qed.

(** ** The mount *)

(** What there is before the devices are mounted: a name space with a plain directory [/dev],
    the root directory of the device file system as it is initialised, its registration, and
    the empty list of devices. *)
Record before_mount (s : fsys) (r d : Z) : Prop := {
  bm_wf : @fs_wf _ kos_dirs s;
  bm_entry : dev_entry s r d;
  bm_point : exists x, inodes s !! d = Some x /\ bisset (i_flags x) FS_DIR = true /\ redirected x = false;
  bm_root : inodes s !! DEV_ROOT = Some devfs_root;
  bm_other : d <> DEV_ROOT;
  bm_notroot : d <> fs_root;
  bm_types : exists l, fslist s = Some l /\ lists s !! l = Some [ID_TYPE; DEV_TYPE];
  bm_list : lists s !! devices = Some [];
}.

Lemma dev_lookup s r d : before_mount s r d ->
  @vfs_lookup (kos_drivers root devices) (Some (str "/dev")) (Some fs_root) s = Ok (Some d, s).
Proof.
  intros [Hwf (Hs & Hr & Hc) (x & Hx & Hxd & Hxr) _ _ _ _ _].
  destruct (vfs_lookup_run s (str "/dev") fs_root Hwf) as (e & He & Hsame).
  - apply Hwf.
  - apply (bool_decide_unpack _). vm_compute. exact I.
  - apply (bool_decide_unpack _). vm_compute. exact I.
  - change (names (str "/dev")) with [DEV] in *. change (origin (str "/dev") fs_root) with fs_root in *.
    assert (@resolve _ kos_dirs s 19 fs_root [DEV] = Some d) as Hres.
    { cbn [resolve]. rewrite Hs, Hr. cbn [mbind option_bind]. rewrite Hc. cbn [mbind option_bind].
      rewrite Hx. cbn. by apply orb_false_iff in Hxr as [_ ->]. }
    rewrite Hres in *. rewrite Hsame, set_error_same in He by eauto. exact He.
Qed.

Definition dev_root_mounted (sb : Z) : inode := iset_sb (Some sb) devfs_root.
Definition mount_point (x : inode) : inode :=
  iset_link (Some DEV_ROOT) (iset_flags (bset (i_flags x) FS_MOUNTP) x).

Lemma mount_dev_inodes s r d x :
  before_mount s r d -> inodes s !! d = Some x ->
  exists s', mount_dev root devices s = Ok (Some 0, s') /\ lists s' = lists s /\
    inodes s' = <[d := mount_point x]> (<[DEV_ROOT := dev_root_mounted (brk s)]> (inodes s)).
Proof.
  intros Hb Hx. pose proof Hb as [_ _ (x' & Hx' & Hd & _) Hroot Hne _ (l & Hl & Hts) _]. simplify_eq.
  unfold mount_dev. rewrite (run_bind _ _ _ _ _ (dev_lookup _ _ _ Hb)).
  rewrite (run_bind _ _ _ (Some DEV_TYPE) s).
  2:{ unfold vfs_gettype. rewrite (run_bind _ _ _ _ _ eq_refl), Hl.
      by rewrite (run_bind _ _ _ _ _ (list_at_run _ _ _ Hts)). }
  rewrite (run_bind _ _ _ _ _ (dev_lookup _ _ _ Hb)).
  set (sb := brk s).
  set (s1 := set_supers (<[sb := MkSuper None 0 None]> (supers s)) (set_brk (sb + 1) s)).
  set (b := MkSuper (Some DEV_ROOT) 0 (Some DEV_SBOPS)).
  set (s2 := set_inodes (<[DEV_ROOT := dev_root_mounted sb]> (inodes s))
               (set_supers (<[sb := b]> (supers s)) (set_brk (sb + 1) s))).
  assert (dev_mount sb None (Z.lor FSM_READ FSM_WRITE) s1 = Ok (0, s2)) as Hmnt.
  { unfold dev_mount. rewrite (run_bind _ _ _ _ _ eq_refl).
    erewrite run_bind by (apply inode_at_run; exact Hroot). rewrite (run_bind _ _ _ _ _ eq_refl).
    unfold s1, s2. cbn. by rewrite alter_insert_eq. }
  assert (inodes s2 !! d = Some x) as Hx2 by (cbn; by rewrite lookup_insert_ne).
  rewrite (run_bind _ _ _ 0 (set_inodes (<[d := mount_point x]> (inodes s2)) s2)); [eexists; done|].
  unfold vfs_mount. rewrite (run_bind _ _ _ _ _ (inode_at_run _ _ _ Hx)). unfold bnotset. rewrite Hd.
  cbn [negb]. change (bisset (t_flags (type_at DEV_TYPE)) FST_NEED_DEV) with false. cbn [andb].
  rewrite (run_bind _ _ s sb (set_brk (sb + 1) s)) by done.
  rewrite (run_bind _ _ _ tt s1) by done. rewrite (run_bind _ _ _ 0 s2) by exact Hmnt.
  cbn [truth Z.eqb negb]. rewrite (run_bind _ _ _ _ _ (inode_at_run _ _ _ Hx2)).
  rewrite (run_bind _ _ _ _ _ eq_refl), (run_bind _ _ _ _ _ eq_refl).
  rewrite (run_bind _ _ _ b _) by (cbn; by rewrite lookup_insert_eq).
  rewrite (run_bind _ _ _ _ _ (inode_at_run _ _ _ (lookup_insert_eq _ _ _))).
  rewrite (run_bind _ _ _ _ _ eq_refl). cbn. by rewrite insert_insert_eq.
Qed.

(** The bit for a mount point leaves the others. *)
Lemma mountp_bits f b : b = FS_DIR \/ b = FS_SYMLINK -> bisset (bset f FS_MOUNTP) b = bisset f b.
Proof.
  intros Hb. unfold bisset, bset. rewrite Z.land_lor_distr_l.
  assert (Z.land FS_MOUNTP b = 0) as -> by (destruct Hb as [->| ->]; done). by rewrite Z.lor_0_r.
Qed.
Lemma mountp_set f : bisset (bset f FS_MOUNTP) FS_MOUNTP = true.
Proof.
  unfold bisset, bset, truth. rewrite Z.land_lor_distr_l. change (Z.land FS_MOUNTP FS_MOUNTP) with FS_MOUNTP.
  destruct (Z.eqb_spec (Z.lor (Z.land f FS_MOUNTP) FS_MOUNTP) 0) as [Hz|]; [|done].
  apply Z.lor_eq_0_iff in Hz as [_ Hz]. done.
Qed.

Lemma mount_dev_run s r d :
  before_mount s r d ->
  exists s', mount_dev root devices s = Ok (Some 0, s') /\ devs_mounted s' r d [] /\ extended s s' /\
    (forall j y, j <> d -> inodes s' !! j = Some y -> exists x, inodes s !! j = Some x /\ i_flags y = i_flags x).
Proof.
  intros Hb. pose proof Hb as [Hwf Hent (x & Hx & Hd & Hrd) Hroot Hne Hnr _ Hds].
  destruct (mount_dev_inodes s r d x Hb Hx) as (s' & Hrun & Hl & Hi). exists s'. split; [done|].
  assert (extended s s') as He.
  { set (s1 := set_inodes (<[DEV_ROOT := dev_root_mounted (brk s)]> (inodes s)) s).
    apply (extended_trans _ s1); [by apply (extended_inode s _ devfs_root)|].
    assert (inodes s1 !! d = Some x) as Hx1 by (cbn; by rewrite lookup_insert_ne).
    destruct (extended_inode s1 d x (mount_point x) Hx1) as [H1 H2 H3]; [done|done|done|apply mountp_bits; auto|].
    constructor; rewrite ?Hi, ?Hl; done. }
  assert (forall j y, inodes s' !! j = Some y -> (j = d /\ y = mount_point x) \/
            exists z, j <> d /\ inodes s !! j = Some z /\ i_flags y = i_flags z /\ link y = link z) as Hback.
  { intros j y. rewrite Hi. intros [[<- <-]|[Hj Hy]]%lookup_insert_Some; [by left|right].
    apply lookup_insert_Some in Hy as [[<- <-]|[_ Hy]]; [exists devfs_root|exists y]; done. }
  assert (inodes s' !! DEV_ROOT = Some (dev_root_mounted (brk s))) as Hroot'
    by (rewrite Hi, lookup_insert_ne by done; apply lookup_insert_eq).
  split_and!; [|done|].
  2:{ intros j y Hj Hy. destruct (Hback j y Hy) as [[-> _]|(z & ? & ? & ? & _)]; [done|eauto]. }
  destruct Hent as (Hs & Hr & Hc). destruct Hwf as (Hdw & [x0 Hx0] & Hlk). constructor.
  - split; [by apply (ext_driver_wf s)|]. split.
    { destruct (ext_inode _ _ He _ _ Hx0) as (? & ? & _). eauto. }
    intros j y Hy Hyr. destruct (Hback j y Hy) as [[-> ->]|(z & _ & Hz & Hf & Hlz)].
    + exists DEV_ROOT. split; [done|]. rewrite Hroot'. eauto.
    + destruct (Hlk j z Hz) as (l & Hl' & [w Hw]); [unfold redirected in *; by rewrite <- Hf|].
      exists l. split; [congruence|]. destruct (ext_inode _ _ He _ _ Hw) as (? & ? & _). eauto.
  - destruct (ext_inode _ _ He _ _ Hx0) as (y0 & Hy0 & _).
    destruct (Hback _ _ Hy0) as [[? _]|(z & _ & Hz & Hf & Hlz)]; [congruence|]. simplify_eq.
    split_and!; [| |by apply (ext_child s)].
    + unfold is_symlink in *. rewrite Hy0, Hf. by rewrite Hx0 in Hs.
    + unfold dir_of in *. rewrite Hy0. rewrite Hx0 in Hr. cbn in *. unfold redirected in *. by rewrite Hf, Hlz.
  - exists (mount_point x). rewrite Hi. split; [apply lookup_insert_eq|]. cbn.
    rewrite mountp_set, mountp_bits by auto. apply orb_false_iff in Hrd as [-> _]. done.
  - exists (dev_root_mounted (brk s)). done.
  - by rewrite Hl.
Qed.

Definition no_slash (n : cstring) : Prop := Forall (fun c => c <> SLASH) n.

Lemma word_no_slash n : no_slash n -> word n = n.
Proof. induction 1 as [|c n Hc _ IH]; [done|]. cbn. by rewrite (proj2 (Z.eqb_neq _ _) Hc), IH. Qed.

Lemma names_dev n : n <> [] -> no_slash n -> names (str "/dev/" ++ n) = [DEV; n].
Proof.
  intros Hne Hn. change (names (str "/dev/" ++ n)) with (components (str "dev/" ++ n)).
  assert (components (str "dev/" ++ n) = DEV :: components n) as ->.
  { rewrite components_word. done. }
  rewrite components_word, word_no_slash by done. destruct n as [|c n]; [done|]. cbn. by rewrite drop_all.
Qed.

(** C39: Once the devices are mounted and registered, [vfs_lookup] of a name below [/dev]
    answers the first device registered under the name, and NULL when there is none; the mount
    and the registrations succeed and keep the name space well formed. *)
Theorem devfs_lookup s r d ids :
  before_mount s r d -> forallb (live_inode s) ids = true ->
  (forall j, j ∈ ids -> j <> d /\ is_device s j) ->
  exists s1 s', mount_dev root devices s = Ok (Some 0, s1) /\
    register_devices devices ids s1 = Ok (tt, s') /\ @fs_wf _ kos_dirs s' /\
    forall n, n <> [] -> no_slash n -> string_ok n -> short n ->
    exists e, @vfs_lookup (kos_drivers root devices) (Some (str "/dev/" ++ n)) (Some fs_root) s' =
      Ok (find_named s ids n, set_error e s').
Proof.
  intros Hb Hl Hdev. destruct (mount_dev_run s r d Hb) as (s1 & Hr1 & Hm1 & He1 & Hf1).
  destruct (register_devices_run ids s1 r d [] Hm1 (ext_lives _ _ _ He1 Hl)) as (s2 & Hr2 & Hm2 & He2 & Hf2).
  pose proof (extended_trans _ _ _ He1 He2) as He. pose proof (dm_wf _ _ _ _ Hm2) as Hwf.
  exists s1, s2. split_and!; [done|done|done|]. intros n Hne Hns Hok Hsh.
  destruct (vfs_lookup_run s2 (str "/dev/" ++ n) fs_root Hwf) as (e & Hrun & _).
  - apply Hwf.
  - apply Forall_app. split; [|done]. apply (bool_decide_unpack _). vm_compute. exact I.
  - rewrite names_dev by done. repeat constructor. done.
  - exists e. rewrite names_dev in Hrun by done.
    change (origin (str "/dev/" ++ n) fs_root) with fs_root in Hrun.
    rewrite (devs_resolve s2 r d ids n Hm2), (find_named_same s s2) in Hrun; [done|done|done|].
    intros j Hj. destruct (Hdev j Hj) as [Hjd (x & Hx & Hxm)].
    destruct (ext_inode _ _ He j x Hx) as (y & Hy & _). exists y. split; [done|].
    destruct (Hf2 j y Hy) as (z & Hz & ->). destruct (Hf1 j z Hjd Hz) as (w & Hw & ->). by simplify_eq.
Qed.
End kos.

(** ** Listing and removing *)

Lemma nth_entry_lookup xs : forall i index, i <= index ->
  nth_entry xs i index = xs !! Z.to_nat (index - i).
Proof.
  induction xs as [|x xs IH]; intros i index Hi; [done|]. cbn [nth_entry].
  destruct (Z.eqb_spec i index) as [->|]; [by replace (index - index) with 0 by lia|].
  rewrite IH by lia. replace (Z.to_nat (index - i)) with (S (Z.to_nat (index - (i + 1)))) by lia. done.
Qed.

(** Listing the directory by index answers the devices in the order of registration, each with
    its name, and NULL behind the last one. *)
Lemma dev_readdir_run devices s ds index :
  lists s !! devices = Some ds -> forallb (live_inode s) ds = true -> 0 <= index ->
  exists r s', dev_readdir devices DEV_ROOT index s = Ok (r, s') /\ inodes s' = inodes s /\ lists s' = lists s /\
    (r ≫= fun a => dirents s' !! a) =
    (j ← ds !! Z.to_nat index; y ← inodes s !! j; Some (MkDirent (i_name y) (Some j))).
Proof.
  intros Hds Hl Hi. unfold dev_readdir. rewrite Z.eqb_refl. cbn [negb].
  rewrite (run_bind _ _ _ _ _ (list_at_run _ _ _ Hds)).
  destruct (Z.geb_spec index (Z.of_nat (length ds))).
  { exists None, s. split_and!; [done|done|done|]. by rewrite lookup_ge_None_2 by lia. }
  rewrite (run_bind _ _ s (brk s) (set_brk (brk s + 1) s)) by done.
  rewrite nth_entry_lookup by done. rewrite Z.sub_0_r.
  destruct (lookup_lt_is_Some_2 ds (Z.to_nat index)) as [j Hj]; [lia|]. rewrite Hj.
  rewrite forallb_forall in Hl. pose proof (list_elem_of_lookup_2 _ _ _ Hj) as Hin.
  apply list_elem_of_In, Hl, bool_decide_eq_true in Hin as [y Hy].
  erewrite run_bind by (apply inode_at_run; exact Hy). eexists _, _. split; [done|].
  split_and!; [done|done|]. cbn. rewrite lookup_insert_eq. by rewrite Hy.
Qed.

(** A device that was registered once is gone after [devfs_unregister]; the others stay, in
    their order. *)
Lemma devfs_unregister_run devices s ds i :
  lists s !! devices = Some ds -> i ∈ ds -> NoDup ds ->
  exists ds', devfs_unregister devices i s = Ok (0, set_lists (<[devices := ds']> (lists s)) s) /\
    ds' = filter (fun j => j <> i) ds.
Proof.
  intros Hds Hin Hnd. unfold devfs_unregister. rewrite (run_bind _ _ _ _ _ (list_at_run _ _ _ Hds)).
  assert (remove_first i ds = Some (filter (fun j => j <> i) ds)) as ->; [|eauto].
  clear Hds. induction ds as [|j ds IH]; [by apply elem_of_nil in Hin|].
  apply NoDup_cons in Hnd as [Hj Hnd]. cbn [remove_first]. rewrite filter_cons.
  destruct (Z.eqb_spec j i) as [->|Hji].
  - rewrite decide_False by tauto. f_equal. clear IH Hin Hnd. induction ds as [|k ds IH]; [done|].
    rewrite filter_cons, decide_True by (intros ->; apply Hj; left). f_equal. apply IH.
    intros Hi. apply Hj. by right.
  - rewrite decide_True by done. apply elem_of_cons in Hin as [->|Hin]; [done|]. by rewrite (IH Hin Hnd).
Qed.

(** ** A name space with two terminals *)

Definition tty_inode (n : cstring) : inode := MkInode n FS_CHARDEV 0 0 0 0 0 0 None (Some 30) None.
Definition dev_tree : node := NDir [] [NFile (str "a") [1; 2]; NDir DEV []].
Definition dev_start : fsys :=
  MkFs (bytes_from demo_disk (enc_image dev_tree))
    {[fs_root := root_inode; DEV_ROOT := devfs_root; 21 := tty_inode (str "tty0"); 22 := tty_inode (str "tty1")]}
    ∅ ∅ ∅ ∅ ∅ None 0 100.
Definition dev_boot : outcome ((Z * Z) * Z * fsys) := (x ← boot_fs 200 demo_disk; d ← init_devfs; mret (x, d)) dev_start.
Definition dev_state : fsys := state_of dev_boot.
Definition dev_devices : Z := (value_of ((0, 0), 0) dev_boot).2.
Definition dev_root : Z := (value_of ((0, 0), 0) dev_boot).1.1.
Definition dev_point : Z := default 0 (id_child dev_state dev_root DEV).

Lemma dev_ready : before_mount (Some dev_root) dev_devices dev_state dev_root dev_point.
Proof.
  constructor.
  - destruct (wf_check_ok (Some dev_root) dev_state) as (H1 & H2 & H3); [vm_compute; reflexivity|].
    split; [split; [exact H1|]|done]. exists []. split; vm_compute; reflexivity.
  - vm_compute. done.
  - exists (default (tty_inode []) (inodes dev_state !! dev_point)). vm_compute. done.
  - vm_compute. reflexivity.
  - vm_compute. discriminate.
  - vm_compute. discriminate.
  - exists (default 0 (fslist dev_state)). vm_compute. done.
  - vm_compute. reflexivity.
Qed.

Lemma devfs_lookup_witness :
  exists s1 s', mount_dev (Some dev_root) dev_devices dev_state = Ok (Some 0, s1) /\
    register_devices dev_devices [21; 22] s1 = Ok (tt, s') /\ @fs_wf _ (kos_dirs (Some dev_root) dev_devices) s' /\
    forall n, n <> [] -> no_slash n -> string_ok n -> short n ->
    exists e, @vfs_lookup (kos_drivers (Some dev_root) dev_devices) (Some (str "/dev/" ++ n)) (Some fs_root) s' =
      Ok (find_named dev_state [21; 22] n, set_error e s').
Proof.
  assert (forallb (live_inode dev_state) [21; 22] = true) as Hl by (vm_compute; reflexivity).
  assert (forall j, j ∈ [21; 22] -> j <> dev_point /\ is_device dev_state j) as Hd.
  { intros j Hj. apply elem_of_cons in Hj as [->|[->|[]%not_elem_of_nil]%elem_of_cons];
      (split; [vm_compute; discriminate|]).
    - exists (tty_inode (str "tty0")). split; vm_compute; reflexivity.
    - exists (tty_inode (str "tty1")). split; vm_compute; reflexivity. }
  pose proof (devfs_lookup (Some dev_root) dev_devices dev_state dev_root dev_point [21; 22] dev_ready Hl Hd) as H.
  exact H.
Defined.

(** The two terminals are found, and nothing else. *)
Example devfs_lookup_ttys :
  (find_named dev_state [21; 22] (str "tty0"), find_named dev_state [21; 22] (str "tty1"),
   find_named dev_state [21; 22] (str "tty")) = (Some 21, Some 22, None).
Proof. vm_compute. reflexivity. Qed.
