(* ===== verification/UserMem.v ===== *)
(** * Memory of other address spaces

    kernel/mm/util.c: the kernel reaches memory of a process through windows, pages of the
    kernel directory that it maps to the frame in question and unmaps again.  The bytes of
    physical memory are the bytes of the words of [VirtMem]; a store to a kernel address goes
    through the entry the kernel directory has for it. *)

From S2P Require Import Prelude Page VirtMem.

(** ** Bytes of physical memory *)

Definition get_byte (m : gmap Z Z) (a : Z) : Z :=
  word m (a - a mod 4) / 2 ^ (8 * (a mod 4)) mod 256.
Definition put_byte (a b : Z) (m : gmap Z Z) : gmap Z Z :=
  <[a - a mod 4 := word m (a - a mod 4) + (b - get_byte m a) * 2 ^ (8 * (a mod 4))]> m.

Section util.
Context {S : Type} `{FrameSource S}.

(** Where the processor finds a kernel address; an address without an entry is a page fault. *)
Definition kernel_addr (v : Z) : M (vm S) Z :=
  s ← get;
  let e := pte (mem s) (kernel_pdir s) v in
  if present e then mret (getaddr e + v mod 4096) else fault.

Definition store_byte (v b : Z) : M (vm S) unit :=
  a ← kernel_addr v; modify (fun s => set_mem (put_byte a b (mem s)) s).
Definition load_byte (v : Z) : M (vm S) Z :=
  a ← kernel_addr v; gets (fun s => get_byte (mem s) a).

(** [memcpy] to and from a kernel address, and [memset]. *)
Fixpoint vstore (v : Z) (bs : list Z) : M (vm S) unit :=
  match bs with
  | [] => mret tt
  | b :: bs => store_byte v b;; vstore (v + 1) bs
  end.
Fixpoint vload (v : Z) (n : nat) : M (vm S) (list Z) :=
  match n with
  | O => mret []
  | Datatypes.S n => b ← load_byte v; bs ← vload (v + 1) n; mret (b :: bs)
  end.

(** ** util.c *)

Definition km_alloc_addr (pstart flags size : Z) : M (vm S) Z :=
  s ← get; vm_alloc_addr (kernel_pdir s) pstart flags size.
Definition km_free_addr (vstart size : Z) : M (vm S) unit :=
  s ← get; vm_free_addr (kernel_pdir s) vstart size.

(** The bytes at the source are a value. *)
Definition vm_cpy_pv (dst : Z) (src : list Z) : M (vm S) unit :=
  let size := Z.of_nat (length src) in
  vdst ← km_alloc_addr dst VM_COMMON_FLAGS size;
  vstore vdst src;;
  km_free_addr vdst size.

Definition vm_cpy_vp (src size : Z) : M (vm S) (list Z) :=
  vsrc ← km_alloc_addr src VM_COMMON_FLAGS size;
  bs ← vload vsrc (Z.to_nat size);
  km_free_addr vsrc size;;
  mret bs.

Definition vm_cpy_pp (dst src size : Z) : M (vm S) unit :=
  vdst ← km_alloc_addr dst VM_COMMON_FLAGS size;
  vsrc ← km_alloc_addr src VM_COMMON_FLAGS size;
  bs ← vload vsrc (Z.to_nat size);
  vstore vdst bs;;
  km_free_addr vdst size;;
  km_free_addr vsrc size.

Definition vm_set_p (dst val size : Z) : M (vm S) unit :=
  vdst ← km_alloc_addr dst VM_COMMON_FLAGS size;
  vstore vdst (replicate (Z.to_nat size) (u8 val));;
  km_free_addr vdst size.

Definition vm_user_to_kernel (pdir vaddr size : Z) : M (vm S) Z :=
  paddr ← vm_resolve_virt pdir vaddr;
  km_alloc_addr paddr VM_COMMON_FLAGS size.

Definition vm_kernel_to_user (pdir vaddr size : Z) : M (vm S) Z :=
  s ← get;
  paddr ← vm_resolve_virt (kernel_pdir s) vaddr;
  vm_alloc_addr pdir paddr VM_USER_FLAGS size.

Definition sizeof_strparam : Z := 8.

(** [vm_map_string(pdir, vaddr, &length)]: the kernel address of the string, and its length. *)
Definition vm_map_string (pdir vaddr : Z) : M (vm S) (Z * Z) :=
  info_addr ← vm_resolve_virt pdir vaddr;
  info ← km_alloc_addr info_addr VM_COMMON_FLAGS sizeof_strparam;
  len ← vload info 4;
  p ← vload (info + 4) 4;
  str ← vm_user_to_kernel pdir (le_val p) (u32 (le_val len + 1));
  km_free_addr info sizeof_strparam;;
  mret (str, u32 (le_val len + 1)).

Definition vm_alloc_page (pdir : Z) (user : bool) : M (vm S) Z :=
  page ← alloc_frame;
  if page =? NO_PAGE then panic
  else
    let flags := Z.lor PE_PRESENT PE_READWRITE in
    let flags := if user then Z.lor flags PE_USERMODE else flags in
    vm_alloc_addr pdir page flags PAGE_SIZE.

Definition free_frame (p : Z) : M (vm S) unit :=
  modify (fun s => set_phys (fs_free p (phys s)) s).

Definition vm_free_page (pdir page : Z) : M (vm S) unit :=
  paddr ← vm_resolve_virt pdir page;
  vm_free_addr pdir page PAGE_SIZE;;
  free_frame paddr.

(** [struct addrspace]: the frame of the directory and the kernel address it is mapped at. *)
Record addrspace := MkAs { as_phys : Z; as_window : Z }.

(** [memcpy(dst, src, PAGE_SIZE)] of two tables of words. *)
Definition copy_words (dst src : Z) (m : gmap Z Z) : gmap Z Z :=
  for_each PTAB_LEN (fun i m => <[cell dst i := word m (cell src i)]> m) m.

Definition vm_create_addrspace : M (vm S) (option addrspace) :=
  p ← alloc_frame;
  if p =? NO_PAGE then mret None
  else
    w ← km_alloc_addr p VM_COMMON_FLAGS PAGE_SIZE;
    clear_page p;;
    modify (fun s => set_mem (copy_words p (kernel_pdir s) (mem s)) s);;
    mret (Some (MkAs p w)).

Definition vm_destroy_addrspace (a : addrspace) : M (vm S) unit :=
  km_free_addr (as_window a) PAGE_SIZE;;
  free_frame (as_phys a).

Definition clone_entry (newpd vaddr e : Z) : M (vm S) bool :=
  newphys ← alloc_frame;
  if newphys =? NO_PAGE then mret false
  else
    vm_force_map newpd newphys vaddr (getflags e);;
    vm_cpy_pp newphys (getaddr e) PAGE_SIZE;;
    mret true.

(** The loop of [vm_clone_addrspace] over the pages from [addr] on, of which there are [pages]
    below a break that is not in the last page of memory. *)
Fixpoint clone_pages (pages : nat) (newpd oldpd addr brk_page : Z) : M (vm S) bool :=
  match pages with
  | O => mret true
  | Datatypes.S pages =>
      if addr <? brk_page then
        e ← get_ptab_entry oldpd addr;
        ok ← (if truth e then clone_entry newpd addr e else mret true);
        if ok : bool then clone_pages pages newpd oldpd (u32 (addr + PAGE_SIZE)) brk_page
        else mret false
      else mret true
  end.

Definition vm_clone_addrspace (brk_page : Z) (a : addrspace) : M (vm S) (option addrspace) :=
  r ← vm_create_addrspace;
  match r with
  | None => mret None
  | Some newas =>
      let start := KERN_SPACE_END + 1 in
      ok ← clone_pages (Z.to_nat ((brk_page - start) / PAGE_SIZE + 1)) (as_phys newas) (as_phys a) start brk_page;
      if negb ok then mret None
      else
        e ← get_ptab_entry (as_phys a) (USER_STACK_ADDR - PAGE_SIZE);
        (if truth e then clone_entry (as_phys newas) (USER_STACK_ADDR - PAGE_SIZE) e
         else mret false);;
        mret (Some newas)
  end.
End util.

(** ** Bytes and words *)

Lemma replace_byte w b k j :
  0 <= b < 256 -> 0 <= k < 4 -> 0 <= j < 4 ->
  (w + (b - w / 2 ^ (8 * k) mod 256) * 2 ^ (8 * k)) / 2 ^ (8 * j) mod 256 =
  if k =? j then b else w / 2 ^ (8 * j) mod 256.
Proof.
  intros Hb Hk Hj.
  assert (k = 0 \/ k = 1 \/ k = 2 \/ k = 3) as Ck by lia.
  assert (j = 0 \/ j = 1 \/ j = 2 \/ j = 3) as Cj by lia.
  destruct Ck as [-> |[-> |[-> | ->]]], Cj as [-> |[-> |[-> | ->]]]; cbn [Z.eqb Pos.eqb];
    change (2 ^ (8 * 0)) with 1; change (2 ^ (8 * 1)) with 256;
    change (2 ^ (8 * 2)) with 65536; change (2 ^ (8 * 3)) with 16777216; dlia.
Qed.

Lemma get_put_byte m a b c :
  0 <= b < 256 -> get_byte (put_byte a b m) c = if a =? c then b else get_byte m c.
Proof.
  intros Hb. unfold put_byte. unfold get_byte at 1. rewrite word_insert.
  destruct (Z.eqb_spec (a - a mod 4) (c - c mod 4)) as [E|E].
  2:{ destruct (Z.eqb_spec a c) as [->|]; done. }
  unfold get_byte. rewrite <- E, replace_byte by (done || apply Z.mod_pos_bound; lia).
  destruct (Z.eqb_spec (a mod 4) (c mod 4)), (Z.eqb_spec a c); subst; try done; exfalso; dlia.
Qed.

Lemma get_byte_range m a : 0 <= get_byte m a < 256.
Proof. apply Z.mod_pos_bound. lia. Qed.

(** A byte of a frame lies in a word of it. *)
Lemma byte_word q o : q mod 4096 = 0 -> 0 <= o < 4096 -> q + o - (q + o) mod 4 = cell q (o / 4).
Proof. intros Hq Ho. unfold cell. dlia. Qed.

Lemma get_byte_frame m m' q o :
  q mod 4096 = 0 -> 0 <= o < 4096 ->
  (forall j, 0 <= j < 1024 -> word m' (cell q j) = word m (cell q j)) ->
  get_byte m' (q + o) = get_byte m (q + o).
Proof. intros Hq Ho Hw. unfold get_byte. rewrite byte_word by done. rewrite Hw; [done|dlia]. Qed.

Lemma put_byte_frame m q o b g j :
  q mod 4096 = 0 -> g mod 4096 = 0 -> 0 <= o < 4096 -> 0 <= j < 1024 -> q <> g ->
  word (put_byte (q + o) b m) (cell g j) = word m (cell g j).
Proof.
  intros Hq Hg Ho Hj Hne. unfold put_byte. rewrite byte_word by done.
  rewrite word_cell_insert by (done || dlia). by rewrite (proj2 (Z.eqb_neq q g)).
Qed.

(** ** What an operation on a directory touches *)

Section steps.
Context {S : Type} `{FrameSourceLaws S}.
Implicit Types (s : vm S).

Definition same_frame (g : Z) (s s' : vm S) : Prop :=
  forall j, 0 <= j < 1024 -> word (mem s') (cell g j) = word (mem s) (cell g j).

(** From [s] to [s'] only frames of [D] changed; the allocator only handed out frames. *)
Record step (D : Z -> Prop) (s s' : vm S) : Prop := {
  st_same g : frame_addr g -> ~ D g -> same_frame g s s';
  st_avail q : fs_avail (phys s') q -> fs_avail (phys s) q;
  st_inv : fs_inv (phys s) -> fs_inv (phys s');
  st_wtm : working_table_map s' = working_table_map s;
  st_kernel : kernel_pdir s' = kernel_pdir s;
  st_paging : paging_enabled s' = paging_enabled s;
}.

Lemma step_refl D s : step D s s.
Proof. by constructor. Qed.

Lemma step_trans D s1 s2 s3 : step D s1 s2 -> step D s2 s3 -> step D s1 s3.
Proof.
  intros [A1 A2 A3 A4 A5 A6] [B1 B2 B3 B4 B5 B6]. constructor; try congruence; auto.
  intros g Hg Hd j Hj. by rewrite B1, A1.
Qed.

Lemma step_weaken (D D' : Z -> Prop) s s' : (forall g, D g -> D' g) -> step D s s' -> step D' s s'.
Proof. intros HD [A1 A2 A3 A4 A5 A6]. constructor; auto. Qed.

Lemma working_step tab s :
  frame_addr (working_table_map s) -> step (fun g => g = working_table_map s) s (working tab s).
Proof.
  intros [Hwu Hwa]. destruct (working_fields tab s) as (E1 & E2 & E3 & E4 & E5).
  constructor; rewrite ?E1; auto. intros g [Hgu Hga] Hd j Hj. unfold working.
  destruct (paging_enabled s); [|done]. cbn. rewrite word_cell_insert by (done || lia).
  by rewrite (proj2 (Z.eqb_neq _ g)) by congruence.
Qed.

(** One word of a frame of [D] is written. *)
Lemma write_step (D : Z -> Prop) t i v s :
  frame_addr t -> 0 <= i < 1024 -> D t -> step D s (set_mem (<[cell t i := v]> (mem s)) s).
Proof.
  intros [Htu Hta] Hi Ht. constructor; auto. intros g [Hgu Hga] Hd j Hj. cbn.
  rewrite word_cell_insert by done. rewrite (proj2 (Z.eqb_neq t g)); [done|]. by intros ->.
Qed.

Lemma clear_step (D : Z -> Prop) t s : frame_addr t -> D t -> step D s (set_mem (clear_words t (mem s)) s).
Proof.
  intros [Htu Hta] Ht. constructor; auto. intros g [Hgu Hga] Hd j Hj. cbn.
  rewrite word_clear by done. rewrite (proj2 (Z.eqb_neq t g)); [done|]. by intros ->.
Qed.

Lemma alloc_step s : fs_inv (phys s) -> step (fun _ => False) s (set_phys (fs_alloc (phys s)).2 s).
Proof.
  intros Hi. constructor; try done; cbn.
  - destruct (fs_alloc_spec (phys s) Hi) as [[_ Hq]|(p & _ & _ & _ & Hq)]; intros q Hin; apply Hq in Hin; tauto.
  - intros _. by apply fs_alloc_inv.
Qed.

(** The frames [do_map] may write: the directory, the working table, the table of the page,
    and frames nobody has. *)
Definition map_touches (pdir v : Z) (s : vm S) (g : Z) : Prop :=
  g = working_table_map s \/ g = pdir \/ fs_avail (phys s) (g / 4096) \/
  (present (word (mem s) (cell pdir (pdir_index v))) = true /\
   g = getaddr (word (mem s) (cell pdir (pdir_index v)))).

(** What becomes of the slots of the directory. *)
Definition slots_grow (pdir v flags : Z) (s s' : vm S) : Prop :=
  forall i, 0 <= i < 1024 ->
    word (mem s') (cell pdir i) = word (mem s) (cell pdir i) \/
    (i = pdir_index v /\ present (word (mem s) (cell pdir i)) = false /\
     exists p, fs_avail (phys s) p /\ 0 < p < 2 ^ 20 /\
       word (mem s') (cell pdir i) = Z.lor (p * 4096) flags).

(** The allocator was asked once if the page had no table, else not at all. *)
Definition one_alloc (pdir v : Z) (s s' : vm S) : Prop :=
  phys s' = if present (word (mem s) (cell pdir (pdir_index v))) then phys s else (fs_alloc (phys s)).2.

Lemma do_map_table_step pdir v flags s t s' :
  pdir_wf pdir s -> is_u32 v -> 0 <= flags < 4096 -> do_map_table pdir v flags s = Ok (t, s') ->
  step (map_touches pdir v s) s s' /\ map_touches pdir v s t /\ frame_addr t /\
  slots_grow pdir v flags s s' /\ one_alloc pdir v s s'.
Proof.
  intros Hwf Hv Hf. pose proof (pdir_index_range v Hv) as Hpi. pose proof (wf_wtm _ _ Hwf) as Hwt.
  pose proof (wf_pdir _ _ Hwf) as [Hpu Hpa].
  unfold do_map_table, rd, gets, mbind, M_bind. cbn beta iota. rewrite bnotset_present.
  destruct (present (word (mem s) (cell pdir (pdir_index v)))) eqn:Hp; cbn [negb].
  - destruct (wf_tab _ _ Hwf _ Hpi Hp) as (Hu & _). rewrite map_working_run by auto with kos.
    intros [= <- <-]. split_and!; [| | |intros i Hi; left; by apply working_pdir|].
    + eapply step_weaken; [|by apply working_step]. intros g ->. by left.
    + right; right; right. done.
    + by apply getaddr_frame.
    + unfold one_alloc. rewrite Hp. apply (working_fields _ s).
  - unfold alloc_frame. pose proof (fs_alloc_spec (phys s) (wf_inv _ _ Hwf)) as Hspec.
    pose proof (alloc_step s (wf_inv _ _ Hwf)) as Hal.
    destruct (fs_alloc (phys s)) as [r ph] eqn:Ea. cbn [fst snd] in *.
    destruct Hspec as [[-> _]|(p & -> & Hpr & Hav & Hav')]; [done|].
    rewrite (proj2 (Z.eqb_neq _ _) (NO_PAGE_not_frame p)).
    unfold wr, modify. assert (frame_addr (p * 4096)) as Hfr by (unfold frame_addr, is_u32; dlia).
    destruct (fresh_frame _ _ _ Hwf Hav) as (Hpd & Hwtp & _).
    set (s1 := set_phys ph s) in *.
    set (s2 := set_mem (<[cell pdir (pdir_index v) := Z.lor (p * 4096) flags]> (mem s1)) s1).
    rewrite map_working_run by done. intros [= <- <-].
    assert (map_touches pdir v s (p * 4096)) as Htp by (right; right; left; by rewrite Z.div_mul).
    split_and!; [| done | done | |unfold one_alloc; rewrite Hp; cbn; rewrite (proj1 (working_fields _ s2)); by rewrite Ea].
    + eapply step_trans; [eapply step_weaken; [|exact Hal]; done|].
      eapply step_trans; [apply (write_step _ pdir (pdir_index v) (Z.lor (p * 4096) flags)); [done|done|]; by right; left|].
      eapply step_trans; [eapply step_weaken; [|by apply (working_step (p * 4096) s2)]; intros g ->; by left|].
      by apply clear_step.
    + intros i Hi. cbn [mem set_mem]. destruct Hfr as [_ Hfa]. rewrite word_clear by done.
      rewrite (proj2 (Z.eqb_neq _ pdir)) by done.
      rewrite working_word; [|done|done|done|intros _ _; apply not_eq_sym, (wf_wtm_pdir _ _ Hwf)].
      cbn [mem set_mem s2]. rewrite word_cell_insert, Z.eqb_refl by done. cbn [andb].
      destruct (Z.eqb_spec (pdir_index v) i) as [<-|]; [right|by left]. split; [done|]. split; [done|]. exists p. done.
Qed.

Lemma bump_rev_run pdir s s' :
  bump_rev pdir s = Ok (tt, s') ->
  s' = if pdir =? kernel_pdir s then set_rev (u32 (kpdir_rev s + 1)) s else s.
Proof.
  unfold bump_rev, mbind, M_bind, get, modify, mret, M_ret, panic. cbn.
  destruct (pdir =? kernel_pdir s); [|by intros [= <-]].
  destruct (_ <? _); [done|by intros [= <-]].
Qed.

Lemma set_rev_step D r s : step D s (set_rev r s).
Proof. by constructor. Qed.

Lemma do_map_step pdir p v flags force s s' :
  pdir_wf pdir s -> is_u32 v -> 0 <= flags < 4096 -> do_map pdir p v flags force s = Ok (tt, s') ->
  step (map_touches pdir v s) s s' /\ slots_grow pdir v flags s s' /\ one_alloc pdir v s s' /\
  (kpdir_rev s' = kpdir_rev s \/ (pdir = kernel_pdir s /\ kpdir_rev s' = u32 (kpdir_rev s + 1))).
Proof.
  intros Hwf Hv Hf. unfold do_map, kassert.
  destruct (IS_PAGE_ALIGNED v); [|done]. destruct (IS_PAGE_ALIGNED p); [|done].
  rewrite !(run_bind _ _ _ _ _ eq_refl). intros Hrun.
  apply bind_Ok in Hrun as (t & s1 & Ht & Hrun). pose proof (do_map_table_spec pdir v flags s Hwf Hv Hf) as Hspec.
  rewrite Ht in Hspec. destruct Hspec as [Hr _].
  destruct (do_map_table_step _ _ _ _ _ _ Hwf Hv Hf Ht) as (Hst & Htt & Htf & Hsl & Hal).
  apply bind_Ok in Hrun as (e & s2 & [= <- <-] & Hrun).
  destruct (negb force && _ && _).
  { destruct (negb _); [done|]. injection Hrun as <-. split_and!; [done..|left; apply (tr_rev _ _ _ _ _ Hr)]. }
  apply bind_Ok in Hrun as ([] & s3 & [= <-] & Hrun). apply bump_rev_run in Hrun.
  set (s3 := set_mem (<[cell t (ptab_index v) := Z.lor p flags]> (mem s1)) s1) in *.
  assert (step (map_touches pdir v s) s s3) as Hst3
    by (eapply step_trans; [done|]; apply write_step; auto with kos).
  assert (forall i, 0 <= i < 1024 -> word (mem s3) (cell pdir i) = word (mem s1) (cell pdir i)) as Hdir.
  { intros i Hi. cbn. destruct Htf as [_ Hta]. destruct (wf_pdir _ _ Hwf) as [_ Hpa].
    rewrite word_cell_insert by auto with kos. by rewrite (proj2 (Z.eqb_neq t pdir)) by apply (tr_pdir _ _ _ _ _ Hr). }
  assert (slots_grow pdir v flags s s3) as Hsl3 by (intros i Hi; rewrite Hdir by done; by apply Hsl).
  change (kernel_pdir s3) with (kernel_pdir s1) in Hrun. rewrite (tr_kernel _ _ _ _ _ Hr) in Hrun.
  change (kpdir_rev s3) with (kpdir_rev s1) in Hrun. rewrite (tr_rev _ _ _ _ _ Hr) in Hrun.
  destruct (Z.eqb_spec pdir (kernel_pdir s)); subst s'.
  - split_and!; [|done|done|right; done]. eapply step_trans; [done|apply set_rev_step].
  - split_and!; [done..|left; apply (tr_rev _ _ _ _ _ Hr)].
Qed.

(** ** Two address spaces: the kernel's and that of a process *)

Definition is_table (s : vm S) (d i t : Z) : Prop :=
  0 <= i < 1024 /\ present (word (mem s) (cell d i)) = true /\ getaddr (word (mem s) (cell d i)) = t.

(** The kernel directory has tables below the user space only; the tables of the process in
    the user space are its own. *)
Record spaces (P : Z) (s : vm S) : Prop := {
  sp_K : pdir_wf (kernel_pdir s) s;
  sp_P : pdir_wf P s;
  sp_KP : kernel_pdir s <> P;
  sp_Kslots i t : is_table s (kernel_pdir s) i t -> i < 256 /\ t <> P;
  sp_Pslots i t : 256 <= i -> is_table s P i t ->
    t <> kernel_pdir s /\ forall j, ~ is_table s (kernel_pdir s) j t;
}.

(** A frame that holds neither directory nor table. *)
Record data_frame (P : Z) (s : vm S) (q : Z) : Prop := {
  df_frame : frame_addr q;
  df_used : ~ fs_avail (phys s) (q / 4096);
  df_K : q <> kernel_pdir s;
  df_P : q <> P;
  df_wtm : q <> working_table_map s;
  df_Ktab j : ~ is_table s (kernel_pdir s) j q;
  df_Ptab j : 256 <= j -> ~ is_table s P j q;
}.

Lemma wf_step D Q s s' : pdir_wf Q s -> step D s s' -> same_frame Q s s' -> pdir_wf Q s'.
Proof.
  intros [W1 W2 W3 W4 W5 W6 Wt Wi] [S1 S2 S3 S4 S5 S6] Hs. constructor; rewrite ?S4; auto.
  - intros i Hi. rewrite Hs by done. intros Hp. destruct (Wt i Hi Hp) as (? & ? & ? & ?). split_and!; auto.
  - intros i j Hi Hj. rewrite !Hs by done. auto.
Qed.

Lemma same_table Q s s' i t : same_frame Q s s' -> is_table s' Q i t <-> is_table s Q i t.
Proof.
  intros Hs. unfold is_table. split; intros (Hi & Hp & Ht); rewrite Hs in *; done.
Qed.

(** Growing slots: a table of the new state is an old one or was free. *)
Lemma slots_table Q v flags s s' i t :
  0 <= flags < 4096 -> slots_grow Q v flags s s' -> is_table s' Q i t ->
  is_table s Q i t \/ (fs_avail (phys s) (t / 4096) /\ present (word (mem s) (cell Q i)) = false).
Proof.
  intros Hf Hg (Hi & Hp & Ht). destruct (Hg i Hi) as [E|(_ & Hn & p & Hav & Hpr & E)]; rewrite E in *.
  - by left.
  - right. split; [|done]. rewrite getaddr_entry in Ht by (unfold is_u32; dlia). subst t. by rewrite Z.div_mul.
Qed.

Lemma same_pte Q s s' w :
  is_u32 w -> same_frame Q s s' -> (forall t, is_table s Q (pdir_index w) t -> same_frame t s s') ->
  pte (mem s') Q w = pte (mem s) Q w.
Proof.
  intros Hw Hq Ht. pose proof (pdir_index_range w Hw) as Hi. unfold pte. rewrite Hq by done.
  destruct (present _) eqn:Hp; [|done]. apply Ht; [done|apply ptab_index_range].
Qed.

Lemma same_slots Q v flags s s' : same_frame Q s s' -> slots_grow Q v flags s s'.
Proof. intros Hs i Hi. left. by apply Hs. Qed.

Lemma table_used Q s i t : pdir_wf Q s -> is_table s Q i t -> ~ fs_avail (phys s) (t / 4096) /\ frame_addr t.
Proof.
  intros Hwf (Hi & Hp & <-). destruct (wf_tab _ _ Hwf i Hi Hp) as (Hu & Hn & _). auto with kos.
Qed.

(** A step in which at most one of the two directories gets a new table keeps everything. *)
Lemma spaces_grow P vK vP fK fP D s s' :
  0 <= fK < 4096 -> 0 <= fP < 4096 -> spaces P s -> step D s s' ->
  pdir_wf (kernel_pdir s) s' -> pdir_wf P s' ->
  slots_grow (kernel_pdir s) vK fK s s' -> slots_grow P vP fP s s' ->
  (forall i t, is_table s' (kernel_pdir s) i t -> i < 256) ->
  same_frame (kernel_pdir s) s s' \/ same_frame P s s' ->
  spaces P s' /\ forall q, data_frame P s q -> data_frame P s' q.
Proof.
  intros HfK HfP [WK WP HKP HKs HPs] St WK' WP' GK GP Hlow Hone.
  pose proof (st_kernel _ _ _ St) as EK. pose proof (st_wtm _ _ _ St) as EW.
  assert (forall i t, is_table s' (kernel_pdir s) i t ->
    is_table s (kernel_pdir s) i t \/ fs_avail (phys s) (t / 4096)) as TK
    by (intros i t Ht; destruct (slots_table _ _ _ _ _ _ _ HfK GK Ht) as [|[]]; auto).
  assert (forall i t, is_table s' P i t -> is_table s P i t \/ fs_avail (phys s) (t / 4096)) as TP
    by (intros i t Ht; destruct (slots_table _ _ _ _ _ _ _ HfP GP Ht) as [|[]]; auto).
  split.
  - constructor; rewrite ?EK; try done.
    + intros i t Ht. split; [by apply (Hlow i t)|]. destruct (TK i t Ht) as [Ho|Ha]; [by apply (HKs i t)|].
      intros ->. by apply (wf_pdir_used _ _ WP).
    + intros i t Hi Ht. destruct (TP i t Ht) as [Ho|Ha].
      * destruct (HPs i t Hi Ho) as [Hn Hj]. split; [done|]. intros j Htj.
        destruct (TK j t Htj) as [|Ha]; [by apply (Hj j)|]. by destruct (table_used _ _ _ _ WP Ho).
      * split; [intros ->; by apply (wf_pdir_used _ _ WK)|]. intros j Htj. destruct Hone as [Hs|Hs].
        -- apply (same_table _ s s') in Htj; [|done]. by destruct (table_used _ _ _ _ WK Htj).
        -- apply (same_table _ s s') in Ht; [|done]. by destruct (table_used _ _ _ _ WP Ht).
  - intros q [F1 F2 F3 F4 F5 F6 F7]. constructor; rewrite ?EK, ?EW; try done.
    + intros Ha. by apply F2, (st_avail _ _ _ St).
    + intros j Ht. destruct (TK j q Ht) as [Ho|]; [by apply (F6 j)|done].
    + intros j Hj Ht. destruct (TP j q Ht) as [Ho|]; [by apply (F7 j)|done].
Qed.

(** A page of the process is mapped. *)
Lemma map_user_spaces P p v flags force s s' :
  spaces P s -> is_u32 v -> 256 <= pdir_index v -> 0 <= flags < 4096 ->
  pdir_wf P s' -> do_map P p v flags force s = Ok (tt, s') ->
  spaces P s' /\ kpdir_rev s' = kpdir_rev s /\ one_alloc P v s s' /\ step (map_touches P v s) s s' /\
  (forall q, data_frame P s q -> data_frame P s' q /\ same_frame q s s') /\
  (forall i t, i <> 255 -> is_table s (kernel_pdir s) i t -> same_frame t s s') /\
  same_frame (kernel_pdir s) s s'.
Proof.
  intros Hsp Hv Hpi Hf WP' Hrun. pose proof Hsp as [WK WP HKP HKs HPs].
  destruct (do_map_step _ _ _ _ _ _ _ WP Hv Hf Hrun) as (St & Gr & Hal & Hrev).
  pose proof (pdir_index_range v Hv) as Hpr.
  assert (forall t, (present (word (mem s) (cell P (pdir_index v))) = true /\
     t = getaddr (word (mem s) (cell P (pdir_index v)))) -> is_table s P (pdir_index v) t) as Htab
    by (intros t [Hp ->]; done).
  assert (same_frame (kernel_pdir s) s s') as SK.
  { apply (st_same _ _ _ St); [apply (wf_pdir _ _ WK)|]. intros [E|[E|[E|E]]].
    - by apply (wf_wtm_pdir _ _ WK).
    - done.
    - by apply (wf_pdir_used _ _ WK).
    - by apply (HPs (pdir_index v) (kernel_pdir s)); [|apply Htab|]. }
  pose proof (wf_step _ _ _ _ WK St SK) as WK'.
  destruct (spaces_grow P v v flags flags _ s s' Hf Hf Hsp St WK' WP' (same_slots _ _ _ _ _ SK) Gr) as [Hsp' Hd'].
  { intros i t Ht. apply (HKs i t). by apply (same_table _ s s'). }
  { by left. }
  split_and!; [done| |done|done| | |done].
  - destruct Hrev as [|[E _]]; [done|by destruct HKP].
  - intros q Hq. split; [by apply Hd'|]. destruct Hq as [F1 F2 F3 F4 F5 F6 F7].
    apply (st_same _ _ _ St); [done|]. intros [E|[E|[E|E]]]; try done. by apply (F7 (pdir_index v)); [|apply Htab].
  - intros i t Hi Ht. pose proof (table_used _ _ _ _ WK Ht) as [Hn Hfr]. apply (st_same _ _ _ St); [done|].
    destruct (HKs i t Ht) as [_ HtP]. pose proof Ht as (Hir & Hp & E).
    destruct (wf_tab _ _ WK i Hir Hp) as (_ & _ & _ & Hw). rewrite E in Hw. specialize (Hw Hi).
    intros [E'|[E'|[E'|E']]]; try done. destruct (HPs (pdir_index v) t Hpi (Htab t E')) as [_ Hj]. by apply (Hj i).
Qed.

(** A page of the kernel is mapped. *)
Lemma map_kernel_spaces P p v flags force s s' :
  spaces P s -> is_u32 v -> pdir_index v < 255 -> 0 <= flags < 4096 ->
  pdir_wf (kernel_pdir s) s' -> do_map (kernel_pdir s) p v flags force s = Ok (tt, s') ->
  spaces P s' /\ (kpdir_rev s' = kpdir_rev s \/ kpdir_rev s' = u32 (kpdir_rev s + 1)) /\
  (forall q, data_frame P s q -> data_frame P s' q /\ same_frame q s s') /\
  (forall i t, 256 <= i -> is_table s P i t -> same_frame t s s') /\ same_frame P s s' /\
  slots_grow (kernel_pdir s) v flags s s' /\ one_alloc (kernel_pdir s) v s s' /\
  step (map_touches (kernel_pdir s) v s) s s'.
Proof.
  intros Hsp Hv Hpi Hf WK' Hrun. pose proof Hsp as [WK WP HKP HKs HPs].
  destruct (do_map_step _ _ _ _ _ _ _ WK Hv Hf Hrun) as (St & Gr & Hal & Hrev).
  pose proof (pdir_index_range v Hv) as Hpr.
  assert (forall t, (present (word (mem s) (cell (kernel_pdir s) (pdir_index v))) = true /\
     t = getaddr (word (mem s) (cell (kernel_pdir s) (pdir_index v)))) ->
     is_table s (kernel_pdir s) (pdir_index v) t) as Htab by (intros t [Hp ->]; done).
  assert (same_frame P s s') as SP.
  { apply (st_same _ _ _ St); [apply (wf_pdir _ _ WP)|]. intros [E|[E|[E|E]]].
    - by apply (wf_wtm_pdir _ _ WP).
    - by symmetry in E.
    - by apply (wf_pdir_used _ _ WP).
    - by apply (HKs (pdir_index v) P); [apply Htab|]. }
  pose proof (wf_step _ _ _ _ WP St SP) as WP'.
  assert (forall i, 0 <= i < 1024 -> i <> pdir_index v ->
    word (mem s') (cell (kernel_pdir s) i) = word (mem s) (cell (kernel_pdir s) i)) as Hother
    by (intros i Hi Hne; destruct (Gr i Hi) as [|(E & _)]; [done|by destruct Hne]).
  destruct (spaces_grow P v v flags flags _ s s' Hf Hf Hsp St WK' WP' Gr (same_slots _ _ _ _ _ SP)) as [Hsp' Hd'].
  { intros i t Ht. destruct (decide (i = pdir_index v)) as [->|Hi]; [lia|]. pose proof Ht as (Hir & Hp & E).
    rewrite Hother in Hp, E by done. by apply (HKs i t). }
  { by right. }
  split_and!; [done|naive_solver| | |done|done|done|done].
  - intros q Hq. split; [by apply Hd'|]. destruct Hq as [F1 F2 F3 F4 F5 F6 F7].
    apply (st_same _ _ _ St); [done|]. intros [E|[E|[E|E]]]; try done. by apply (F6 (pdir_index v)); apply Htab.
  - intros i t Hi Ht. pose proof (table_used _ _ _ _ WP Ht) as [Hn Hfr]. apply (st_same _ _ _ St); [done|].
    pose proof Ht as (Hir & Hp & E). destruct (wf_tab _ _ WP i Hir Hp) as (_ & _ & _ & Hw). rewrite E in Hw.
    destruct (HPs i t Hi Ht) as [HtK HtKt]. intros [E'|[E'|[E'|E']]]; try done; [|by apply (HtKt _ (Htab _ E'))].
    apply Hw; [lia|done].
Qed.

(** Neither directory is written. *)
Lemma spaces_touch P D s s' :
  spaces P s -> step D s s' -> same_frame (kernel_pdir s) s s' -> same_frame P s s' ->
  spaces P s' /\ forall q, data_frame P s q -> data_frame P s' q.
Proof.
  intros Hsp St SK SP. pose proof Hsp as [WK WP HKP HKs HPs].
  refine (spaces_grow P 0 0 0 0 D s s' _ _ Hsp St (wf_step D _ s s' WK St SK) (wf_step D _ s s' WP St SP)
    (same_slots _ _ _ _ _ SK) (same_slots _ _ _ _ _ SP) _ (or_introl SK)); [lia|lia|].
  intros i t Ht. apply (HKs i t). by apply (same_table _ s s').
Qed.

Lemma store_step q o b s :
  frame_addr q -> 0 <= o < 4096 -> step (fun g => g = q) s (set_mem (put_byte (q + o) b (mem s)) s).
Proof.
  intros [Hqu Hqa] Ho. constructor; try done. intros g [Hgu Hga] Hd j Hj. cbn.
  by apply put_byte_frame.
Qed.

(** ** One free page *)

Lemma range_entries_one m tab n : forall pti pts,
  range_entries m tab 1 n pti 0 pts =
  match find_entry m tab n pti with Some k => (1, k) | None => (0, pts) end.
Proof.
  induction n as [|n IH]; intros pti pts; [done|]. cbn [range_entries find_entry].
  destruct (bnotset _ _); [done|]. apply IH.
Qed.

Lemma find_entry_first m tab n : forall pti k j,
  find_entry m tab n pti = Some k -> pti <= j < k -> present (word m (cell tab j)) = true.
Proof.
  induction n as [|n IH]; intros pti k j Hk Hj; [done|]. cbn [find_entry] in Hk.
  rewrite bnotset_present in Hk. destruct (present (word m (cell tab pti))) eqn:Hp; cbn [negb] in Hk.
  - destruct (Z.eq_dec j pti) as [->|]; [done|]. apply (IH (pti + 1) k); [done|lia].
  - injection Hk as ->. lia.
Qed.

(** The free pages of a directory from slot [pdi] on. *)
Definition free_page (pdir pdi : Z) (s : vm S) (w : Z) : Prop :=
  user_page w /\ 4096 <= w /\ pdi <= pdir_index w /\ present (pte (mem s) pdir w) = false.

Lemma page_order v w :
  is_u32 v -> is_u32 w -> v mod 4096 = 0 ->
  (pdir_index v < pdir_index w \/ (pdir_index v = pdir_index w /\ ptab_index v <= ptab_index w)) -> v <= w.
Proof.
  intros Hv Hw Ha. unfold is_u32, pdir_index, ptab_index, addr2page in *. rewrite PAGE_SIZE_eq.
  unfold PDIR_LEN, PTAB_LEN. dlia.
Qed.

Lemma safe_pti_page pdi w : is_u32 w -> 4096 <= w -> pdi = pdir_index w -> safe_pti pdi <= ptab_index w.
Proof.
  intros Hw Hge ->. unfold safe_pti. pose proof (ptab_index_range w). destruct (Z.eqb_spec (pdir_index w) 0) as [E|]; [|lia].
  unfold is_u32, pdir_index, ptab_index, addr2page in *. rewrite PAGE_SIZE_eq in *. unfold PDIR_LEN, PTAB_LEN in *. dlia.
Qed.

Record found_free (pdir pdi a : Z) (s s' : vm S) : Prop := {
  ff_step : step (fun g => g = working_table_map s) s s';
  ff_phys : phys s' = phys s;
  ff_rev : kpdir_rev s' = kpdir_rev s;
  ff_pte w : user_page w -> pte (mem s') pdir w = pte (mem s) pdir w;
  ff_frame : frame_addr a;
  ff_nonzero : 4096 <= a;
  ff_free : present (pte (mem s') pdir a) = false;
  ff_first w : free_page pdir pdi s w -> a <= w;
}.

Lemma found_at_slot pdir pdi pti s t :
  pdir_wf pdir s -> 0 <= pdi < 1024 -> is_table s pdir pdi t ->
  find_entry (mem (working t s)) t (Z.to_nat (PTAB_LEN - safe_pti pdi)) (safe_pti pdi) = Some pti ->
  found_free pdir pdi (create_addr pdi pti 0) s (working t s).
Proof.
  intros Hwf Hpd (_ & Hp & Ht) Hfe. pose proof (safe_pti_range pdi) as Hs.
  pose proof (find_entry_spec (mem (working t s)) t (Z.to_nat (PTAB_LEN - safe_pti pdi)) (safe_pti pdi)) as Hsp.
  rewrite Hfe in Hsp. unfold PTAB_LEN in *. rewrite Z2Nat.id in Hsp by lia. destruct Hsp as [Hk Hnp].
  destruct (create_addr_eq pdi pti) as (Ec & Hfr & Ei & Et); [lia..|].
  pose proof (nonzero_addr pdi pti ltac:(lia) ltac:(lia)) as Hnz%Z.eqb_neq.
  destruct (working_fields t s) as (E1 & E2 & E3 & E4 & E5). pose proof (wf_wtm _ _ Hwf) as Hwt.
  assert (4096 <= create_addr pdi pti 0) as Hge by (rewrite Ec in *; lia).
  constructor; try done.
  - by apply working_step.
  - intros w Hw. by apply working_pte.
  - unfold pte. rewrite Ei, Et, working_pdir, Hp, Ht by done. done.
  - intros w (Hw & Hwge & Hwp & Hwf'). pose proof (proj1 Hw) as Hwu.
    apply page_order; [apply Hfr|done|apply Hfr|]. rewrite Ei, Et.
    destruct (Z.eq_dec pdi (pdir_index w)) as [E|]; [right|left; lia]. split; [done|].
    destruct (Z.lt_ge_cases (ptab_index w) pti) as [Hlt|]; [|lia]. exfalso.
    pose proof (safe_pti_page pdi w Hwu Hwge E) as Hsw.
    pose proof (find_entry_first _ _ _ _ _ (ptab_index w) Hfe ltac:(lia)) as Hpw.
    rewrite <- (working_pte pdir t) in Hwf' by done. unfold pte in Hwf'.
    rewrite <- E, working_pdir, Hp, Ht in Hwf' by (done || lia). congruence.
Qed.

(** A slot whose table is full. *)
Lemma full_slot pdir pdi s t w :
  pdir_wf pdir s -> 0 <= pdi < 1024 -> is_table s pdir pdi t ->
  find_entry (mem (working t s)) t (Z.to_nat (PTAB_LEN - safe_pti pdi)) (safe_pti pdi) = None ->
  free_page pdir pdi s w -> free_page pdir (pdi + 1) (working t s) w.
Proof.
  intros Hwf Hpd (_ & Hp & Ht) Hfe (Hw & Hge & Hi & Hf). pose proof (safe_pti_range pdi) as Hs.
  rewrite <- (working_pte pdir t) in Hf by done. split_and!; [done|done| |done].
  destruct (Z.eq_dec pdi (pdir_index w)) as [E|]; [exfalso|lia].
  pose proof (find_entry_spec (mem (working t s)) t (Z.to_nat (PTAB_LEN - safe_pti pdi)) (safe_pti pdi)) as Hsp.
  rewrite Hfe in Hsp. unfold PTAB_LEN in *. rewrite Z2Nat.id in Hsp by lia.
  unfold pte in Hf. rewrite <- E, working_pdir, Hp, Ht in Hf by done.
  rewrite Hsp in Hf; [done|]. pose proof (ptab_index_range w). split; [|lia].
  apply (safe_pti_page pdi w); [apply Hw|done|done].
Qed.

(** A slot without a table. *)
Lemma found_no_table pdir pdi s :
  0 <= pdi < 1024 -> present (word (mem s) (cell pdir pdi)) = false ->
  found_free pdir pdi (create_addr pdi (safe_pti pdi) 0) s s.
Proof.
  intros Hpd Hp. pose proof (safe_pti_range pdi) as Hs.
  destruct (create_addr_eq pdi (safe_pti pdi)) as (Ec & Hfr & Ei & Et); [lia..|].
  pose proof (nonzero_addr pdi (safe_pti pdi) ltac:(lia) ltac:(lia)) as Hnz%Z.eqb_neq.
  constructor; try done.
  - rewrite Ec in *. lia.
  - unfold pte. by rewrite Ei, Hp.
  - intros w (Hw & Hge & Hi & Hf). apply page_order; [apply Hfr|apply Hw|apply Hfr|]. rewrite Ei, Et.
    destruct (Z.eq_dec pdi (pdir_index w)) as [E|]; [right|left; lia]. split; [done|].
    apply safe_pti_page; [apply Hw|done|done].
Qed.

Lemma find_one n pdir : forall pdi pds pts s,
  pdir_wf pdir s -> 0 <= pdi -> pdi + Z.of_nat n = 1024 -> (exists w, free_page pdir pdi s w) ->
  exists a s', vm_find_range_from n pdir 1 pdi 0 pds pts s = Ok (a, s') /\ found_free pdir pdi a s s'.
Proof.
  induction n as [|n IH]; intros pdi pds pts s Hwf Hpd Hn Hfree.
  { destruct Hfree as (w & (Hw & _) & _ & Hwi & _). pose proof (pdir_index_range w Hw). lia. }
  cbn [vm_find_range_from]. unfold rd, gets, mbind, M_bind. cbn beta iota. rewrite Z.eqb_refl, bisset_present.
  pose proof (safe_pti_range pdi) as Hs.
  destruct (present (word (mem s) (cell pdir pdi))) eqn:Hp.
  - destruct (wf_tab _ _ Hwf pdi ltac:(lia) Hp) as (Hu & _).
    set (t := getaddr (word (mem s) (cell pdir pdi))) in *.
    rewrite (map_working_run t) by (unfold t; auto with kos). unfold get, mret, M_ret.
    rewrite range_entries_one.
    destruct (find_entry (mem (working t s)) t (Z.to_nat (PTAB_LEN - safe_pti pdi)) (safe_pti pdi)) as [pti|] eqn:Hfe.
    + cbn [Z.leb Z.compare Pos.compare Pos.compare_cont]. eexists _, _. split; [done|].
      apply found_at_slot; [done|lia| |done]. split; [lia|done].
    + cbn [Z.leb Z.compare]. pose proof (working_wf _ t _ Hwf) as Hwf1.
      assert (forall w, free_page pdir pdi s w -> free_page pdir (pdi + 1) (working t s) w) as Hnext.
      { intros w Hw. apply (full_slot pdir pdi s t w); try done; [lia|split; [lia|done]]. }
      destruct (IH (pdi + 1) pdi pts (working t s) Hwf1 ltac:(lia) ltac:(lia)) as (a & s' & Hrun & Hff).
      { destruct Hfree as [w Hw]. eauto. }
      exists a, s'. split; [exact Hrun|]. destruct Hff as [F1 F2 F3 F4 F5 F6 F7 F8].
      destruct (working_fields t s) as (E1 & E2 & E3 & E4 & E5). constructor; try done; try congruence.
      * eapply step_trans; [apply working_step, (wf_wtm _ _ Hwf)|]. by rewrite E3 in F1.
      * intros w Hw. rewrite F4 by done. by apply working_pte.
      * intros w Hw. apply F8. by apply Hnext.
  - cbn beta iota. unfold mret, M_ret. assert ((1 <=? 0 + (PTAB_LEN - safe_pti pdi)) = true) as ->
      by (apply Z.leb_le; unfold PTAB_LEN; lia).
    eexists _, s. split; [done|]. by apply found_no_table; [lia|].
Qed.

(** ** Windows *)

(** The kernel has tables up to the page [w] of the kernel space. *)
Record window_tables (s : vm S) (w : Z) : Prop := {
  wr_page : user_page w;
  wr_low : 4096 <= w;
  wr_slot : pdir_index w < 255;
  wr_tables i : 0 <= i <= pdir_index w -> present (word (mem s) (cell (kernel_pdir s) i)) = true;
}.

(** ... and the page is free. *)
Definition window_room (s : vm S) (w : Z) : Prop :=
  window_tables s w /\ present (pte (mem s) (kernel_pdir s) w) = false.

Lemma tables_keep w s s' :
  window_tables s w -> kernel_pdir s' = kernel_pdir s -> same_frame (kernel_pdir s) s s' -> window_tables s' w.
Proof.
  intros [R1 R2 R3 R4] EK SK. pose proof (pdir_index_range w (proj1 R1)) as Hw.
  constructor; rewrite ?EK; try done. intros i Hi. rewrite SK by lia. by apply R4.
Qed.

Lemma below_window a w :
  frame_addr a -> a <= w -> pdir_index w < 255 -> user_page a /\ pdir_index a <= pdir_index w.
Proof.
  intros [Hau Ha] Haw Hw. assert (pdir_index a <= pdir_index w) as Hi.
  { unfold pdir_index, addr2page. rewrite PAGE_SIZE_eq. unfold PDIR_LEN.
    apply Z.div_le_mono; [lia|]. apply Z.div_le_mono; lia. }
  split; [|done]. split; [done|]. intros E. apply page_indices in E as [E _].
  change (pdir_index MAP_TABLE_VADDR) with 255 in E. lia.
Qed.

(** What the process [P] sees of a step of the kernel on its own directory. *)
Record kstep (P : Z) (s s' : vm S) : Prop := {
  ks_spaces : spaces P s';
  ks_data q : data_frame P s q -> data_frame P s' q;
  ks_user v : is_u32 v -> 256 <= pdir_index v -> pte (mem s') P v = pte (mem s) P v;
  ks_phys : phys s' = phys s;
  ks_kernel : kernel_pdir s' = kernel_pdir s;
  ks_wtm : working_table_map s' = working_table_map s;
  ks_paging : paging_enabled s' = paging_enabled s;
  ks_slots : same_frame P s s';
}.

Lemma kstep_trans P s1 s2 s3 : kstep P s1 s2 -> kstep P s2 s3 -> kstep P s1 s3.
Proof.
  intros [A1 A2 A3 A4 A5 A6 A7 A8] [B1 B2 B3 B4 B5 B6 B7 B8]. constructor; try congruence; auto.
  - intros v Hv Hi. by rewrite B3, A3.
  - intros i Hi. by rewrite B8, A8.
Qed.

Lemma kstep_refl P s : spaces P s -> kstep P s s.
Proof. by constructor. Qed.

Lemma map_range_one pdir p v flags s :
  frame_addr p -> frame_addr v -> vm_map_range pdir p v flags 1 s = do_map pdir p v flags false s.
Proof.
  intros [Hpu Hpa] [Hvu Hva]. unfold vm_map_range.
  rewrite (proj2 (aligned_spec v)), (proj2 (aligned_spec p)) by done.
  rewrite !(run_bind _ _ s tt s) by done. change (mfor 1) with (fun body : Z -> M (vm S) unit => body 0;; mret tt).
  cbn beta. unfold mbind, M_bind, vm_map_page. rewrite !Z.add_0_r, !u32_small by done.
  by destruct (do_map pdir p v flags false s) as [[[] ?]| |].
Qed.

(** A mapping in the kernel space below the room that is there already. *)
Lemma kernel_map P w p a flags s :
  spaces P s -> window_tables s w -> frame_addr p -> frame_addr a -> 4096 <= a <= w -> 0 <= flags < 4096 ->
  (present flags = true -> present (pte (mem s) (kernel_pdir s) a) = false) ->
  kpdir_rev s + 1 < 2 ^ 32 -> 0 <= kpdir_rev s ->
  exists s', do_map (kernel_pdir s) p a flags false s = Ok (tt, s') /\ kstep P s s' /\
    (forall q, data_frame P s q -> same_frame q s s') /\ same_frame (kernel_pdir s) s s' /\
    (if present flags then maps_to (pte (mem s') (kernel_pdir s) a) p flags
     else present (pte (mem s') (kernel_pdir s) a) = false) /\
    (forall v, user_page v -> v / 4096 <> a / 4096 ->
       pte (mem s') (kernel_pdir s) v = pte (mem s) (kernel_pdir s) v) /\
    0 <= kpdir_rev s' <= kpdir_rev s + 1.
Proof.
  intros Hsp [Hw Hlow Hslot Htabs] Hp Ha Haw Hf Habs Hrev Hrev0. pose proof Hsp as [WK WP HKP HKs HPs].
  destruct (below_window a w Ha ltac:(lia) Hslot) as [Hua Hia].
  pose proof (pdir_index_range a (proj1 Ha)) as Hra.
  assert (present (word (mem s) (cell (kernel_pdir s) (pdir_index a))) = true) as Hpa by (apply Htabs; lia).
  pose proof (do_map_spec (kernel_pdir s) p a flags false s WK Hp Ha Hua Hf) as Hm.
  destruct (do_map (kernel_pdir s) p a flags false s) as [[[] s']| |] eqn:Hrun; [| |done].
  2:{ destruct Hm as [[E _]|[(_ & Hpf & E & _)|[_ E]]]; [congruence|rewrite Habs in E by done; done|].
      rewrite u32_small in E by (unfold is_u32; lia). lia. }
  destruct Hm as (WK' & EK & _ & Hmap & Hout). exists s'. split; [done|].
  destruct (map_kernel_spaces P p a flags false s s' Hsp (proj1 Ha) ltac:(lia) Hf WK' Hrun)
    as (Hsp' & Hrv & Hd & Ht & SP & Gr & Hal & St).
  assert (same_frame (kernel_pdir s) s s') as SK.
  { intros i Hi. destruct (Gr i Hi) as [|(-> & E & _)]; [done|congruence]. }
  split; [|split_and!; [intros q Hq; by apply Hd|done|done|done| |]].
  - constructor; [done|intros q Hq; by apply Hd| | |done|apply St|apply St|done].
    + intros v Hv Hi. apply same_pte; [done|done|]. intros t Htv. by apply (Ht (pdir_index v)).
    + unfold one_alloc in Hal. by rewrite Hpa in Hal.
  - destruct Hrv as [-> | ->]; [lia|]. rewrite u32_small by (unfold is_u32; lia). lia.
  - destruct Hrv as [-> | ->]; [lia|]. rewrite u32_small by (unfold is_u32; lia). lia.
Qed.

Lemma one_page o size : 0 <= o -> 0 < size -> o + size <= 4096 -> NUM_PAGES (u32 (size + o)) = 1.
Proof.
  intros Ho Hs Hfit. rewrite u32_small by (unfold is_u32; lia). rewrite NUM_PAGES_eq by lia. dlia.
Qed.

Lemma align_frame q o : frame_addr q -> 0 <= o < 4096 ->
  align_addr (q + o) = q /\ PAGE_OFFSET (q + o) = o /\ u32 (q + o) = q + o.
Proof.
  intros [Hqu Hqa] Ho. unfold align_addr, PAGE_OFFSET, is_u32 in *. rewrite PAGE_SIZE_eq.
  assert ((q + o) mod 4096 = o) as -> by dlia. rewrite !u32_small by (unfold is_u32; dlia).
  split_and!; dlia.
Qed.

(** [km_alloc_addr] of some bytes of a frame. *)
Lemma window_open P w q o size s :
  spaces P s -> window_room s w -> frame_addr q -> 0 <= o -> 0 < size -> o + size <= 4096 ->
  0 <= kpdir_rev s -> kpdir_rev s + 1 < 2 ^ 32 ->
  exists a s', km_alloc_addr (q + o) VM_COMMON_FLAGS size s = Ok (a + o, s') /\ kstep P s s' /\
    (forall q', data_frame P s q' -> same_frame q' s s') /\ same_frame (kernel_pdir s) s s' /\
    frame_addr a /\ 4096 <= a <= w /\ maps_to (pte (mem s') (kernel_pdir s) a) q VM_COMMON_FLAGS /\
    present (pte (mem s) (kernel_pdir s) a) = false /\
    (forall v, user_page v -> v / 4096 <> a / 4096 ->
       pte (mem s') (kernel_pdir s) v = pte (mem s) (kernel_pdir s) v) /\
    0 <= kpdir_rev s' <= kpdir_rev s + 1.
Proof.
  intros Hsp [Hr Hrf] Hq Ho Hs Hfit Hrev0 Hrev. destruct (align_frame q o Hq ltac:(lia)) as (Ea & Eo & Eu).
  pose proof Hsp as [WK WP HKP _ _].
  unfold km_alloc_addr. rewrite (run_bind _ _ _ _ _ eq_refl). unfold vm_alloc_addr, align_size.
  rewrite Ea, Eo, one_page by lia.
  destruct (find_one (Z.to_nat PDIR_LEN) (kernel_pdir s) 0 0 0 s WK ltac:(lia) ltac:(done)) as (a & s1 & Hrun & Hff).
  { exists w. destruct Hr as [R1 R2 R3 R4]. split_and!; try done. apply (pdir_index_range w). apply R1. }
  unfold vm_find_range. rewrite (run_bind _ _ _ _ _ Hrun).
  destruct Hff as [F1 F2 F3 F4 F5 F6 F7 F8].
  assert (a <= w) as Haw.
  { apply F8. destruct Hr as [R1 R2 R3 R4]. split_and!; try done. apply (pdir_index_range w). apply R1. }
  rewrite (proj2 (Z.eqb_neq a 0)) by lia. cbn [Z.eqb].
  pose proof (st_kernel _ _ _ F1) as EK1.
  assert (same_frame (kernel_pdir s) s s1) as SK1.
  { apply (st_same _ _ _ F1); [apply (wf_pdir _ _ WK)|]. intros E. by apply (wf_wtm_pdir _ _ WK). }
  assert (same_frame P s s1) as SP1.
  { apply (st_same _ _ _ F1); [apply (wf_pdir _ _ WP)|]. intros E. by apply (wf_wtm_pdir _ _ WP). }
  destruct (spaces_touch P _ s s1 Hsp F1 SK1 SP1) as [Hsp1 Hd1].
  assert (kstep P s s1) as K1.
  { constructor; try done; [|apply F1|apply F1]. intros v Hv Hi. apply same_pte; [done|done|]. intros t Ht.
    pose proof (table_used _ _ _ _ WP Ht) as [_ Hfr]. apply (st_same _ _ _ F1); [done|]. intros E.
    destruct Ht as (Hi' & Hp & Et). destruct (wf_tab _ _ WP _ Hi' Hp) as (_ & _ & _ & Hw).
    rewrite Et in Hw. apply Hw; [lia|done]. }
  pose proof (tables_keep w s s1 Hr EK1 SK1) as Hr1.
  destruct (kernel_map P w q a VM_COMMON_FLAGS s1 Hsp1 Hr1 Hq F5 ltac:(lia) ltac:(done))
    as (s2 & Hmap & K2 & Hd2 & SK2 & Hto & Hout & Hrv); rewrite ?EK1, ?F3 in *; [done|lia|lia|].
  rewrite (run_bind _ _ _ tt s2) by (by rewrite map_range_one).
  destruct (align_frame a o F5 ltac:(lia)) as (_ & _ & ->).
  exists a, s2. split; [done|]. split; [by apply (kstep_trans _ _ s1)|]. split_and!; try done; try lia.
  - intros q' Hq' j Hj. rewrite (Hd2 q') by (done || by apply Hd1).
    apply (st_same _ _ _ F1); [apply Hq'|intros E; by apply (df_wtm _ _ _ Hq')|done].
  - intros i Hi. by rewrite SK2, SK1.
  - rewrite <- (F4 a); [done|]. by apply (below_window a w F5 Haw (wr_slot _ _ Hr)).
  - intros v Hv Hva. rewrite Hout by done. by apply F4.
Qed.

Lemma in_page a x : a mod 4096 = 0 -> 0 <= x < 4096 -> (a + x) / 4096 = a / 4096 /\ (a + x) mod 4096 = x.
Proof. intros. dlia. Qed.

(** A byte of a data frame is stored through its window. *)
Lemma store_byte_run P q a o b s :
  spaces P s -> data_frame P s q -> frame_addr a -> maps_to (pte (mem s) (kernel_pdir s) a) q VM_COMMON_FLAGS ->
  0 <= o < 4096 ->
  store_byte (a + o) b s = Ok (tt, set_mem (put_byte (q + o) b (mem s)) s).
Proof.
  intros Hsp Hq [Hau Ha] Hm Ho. destruct (in_page a o Ha Ho) as [E1 E2]. unfold store_byte, kernel_addr.
  assert (pte (mem s) (kernel_pdir s) (a + o) = pte (mem s) (kernel_pdir s) a) as Epte.
  { unfold pte. apply page_indices in E1 as [-> ->]. done. }
  rewrite (run_bind _ _ _ (q + o) s); [done|]. rewrite (run_bind _ _ _ _ _ eq_refl). cbv zeta.
  rewrite Epte, (maps_to_present _ _ _ Hm) by done.
  rewrite (maps_to_getaddr _ q VM_COMMON_FLAGS (df_frame _ _ _ Hq) ltac:(done) Hm), E2. done.
Qed.

(** Bytes stored from [o] on in the data frame [q]. *)
Definition stored (q o : Z) (bs : list Z) (s s' : vm S) : Prop :=
  step (fun g => g = q) s s' /\ phys s' = phys s /\ kpdir_rev s' = kpdir_rev s /\
  forall x, 0 <= x < 4096 -> get_byte (mem s') (q + x) =
    match (if o <=? x then bs !! Z.to_nat (x - o) else None) with
    | Some b => b
    | None => get_byte (mem s) (q + x)
    end.

(** Only the data frame [q] is written. *)
Lemma data_kstep P q s s' :
  spaces P s -> data_frame P s q -> step (fun g => g = q) s s' -> phys s' = phys s ->
  kstep P s s' /\ (forall v, is_u32 v -> pte (mem s') (kernel_pdir s) v = pte (mem s) (kernel_pdir s) v) /\
  same_frame (kernel_pdir s) s s' /\ same_frame P s s'.
Proof.
  intros Hsp Hq St Hph. pose proof Hsp as [WK WP HKP HKs HPs].
  pose proof Hq as [F1 F2 F3 F4 F5 F6 F7].
  assert (same_frame (kernel_pdir s) s s') as SK by (apply (st_same _ _ _ St); [apply (wf_pdir _ _ WK)|congruence]).
  assert (same_frame P s s') as SP by (apply (st_same _ _ _ St); [apply (wf_pdir _ _ WP)|congruence]).
  destruct (spaces_touch P _ s s' Hsp St SK SP) as [Hsp' Hd']. split_and!; [constructor; try done| |done|done].
  - intros v Hv Hi. apply same_pte; [done|done|]. intros t Ht. apply (st_same _ _ _ St).
    + apply (table_used _ _ _ _ WP Ht).
    + intros ->. by apply (F7 (pdir_index v)).
  - by apply (st_kernel _ _ _ St).
  - by apply (st_wtm _ _ _ St).
  - by apply (st_paging _ _ _ St).
  - intros v Hv. apply same_pte; [done|done|]. intros t Ht. apply (st_same _ _ _ St).
    + apply (table_used _ _ _ _ WK Ht).
    + intros ->. by apply (F6 (pdir_index v)).
Qed.

Lemma stored_spaces P q o bs s s' :
  spaces P s -> data_frame P s q -> stored q o bs s s' ->
  kstep P s s' /\ (forall v, is_u32 v -> pte (mem s') (kernel_pdir s) v = pte (mem s) (kernel_pdir s) v) /\
  same_frame (kernel_pdir s) s s'.
Proof.
  intros Hsp Hq (St & Hph & _). by destruct (data_kstep P q s s' Hsp Hq St Hph) as (? & ? & ? & _).
Qed.

Lemma vstore_run P q a bs : forall o s,
  spaces P s -> data_frame P s q -> frame_addr a -> maps_to (pte (mem s) (kernel_pdir s) a) q VM_COMMON_FLAGS ->
  0 <= o -> o + Z.of_nat (length bs) <= 4096 -> Forall is_u8 bs ->
  exists s', vstore (a + o) bs s = Ok (tt, s') /\ stored q o bs s s'.
Proof.
  induction bs as [|b bs IH]; intros o s Hsp Hq Ha Hm Ho Hfit Hbs; cbn [vstore length] in *.
  { exists s. split; [done|]. split_and!; [apply step_refl|done|done|]. intros x Hx. by destruct (o <=? x). }
  inv Hbs. set (s1 := set_mem (put_byte (q + o) b (mem s)) s).
  assert (stored q o [b] s s1) as H1.
  { split_and!; [apply store_step; [apply Hq|lia]|done|done|]. intros x Hx. cbn [mem set_mem s1].
    rewrite get_put_byte by done. destruct (Z.eqb_spec (q + o) (q + x)).
    - assert (x = o) as -> by lia. by rewrite Z.leb_refl, Z.sub_diag.
    - destruct (Z.leb_spec o x); [|done]. by rewrite lookup_ge_None_2 by (cbn; lia). }
  destruct (stored_spaces P q o [b] s s1 Hsp Hq H1) as (K1 & Hp1 & _).
  rewrite (run_bind _ _ _ tt s1) by (apply (store_byte_run P); (done || lia)).
  destruct (IH (o + 1) s1) as (s' & Hrun & H2); [apply K1|by apply K1|done| |lia|lia|done|].
  { change (kernel_pdir s1) with (kernel_pdir s). rewrite Hp1 by apply Ha. done. }
  exists s'. rewrite <- Z.add_assoc. split; [done|]. destruct H1 as (A1 & A2 & A3 & A4), H2 as (B1 & B2 & B3 & B4).
  split_and!; [by apply (step_trans _ _ s1)|congruence|congruence|]. intros x Hx. rewrite B4, A4 by done.
  destruct (Z.leb_spec (o + 1) x), (Z.leb_spec o x); try lia; try done.
  - replace (Z.to_nat (x - o)) with (Datatypes.S (Z.to_nat (x - (o + 1)))) by lia. cbn [lookup list_lookup].
    by destruct (bs !! Z.to_nat (x - (o + 1))), (Z.to_nat (x - (o + 1))).
  - assert (x = o) as -> by lia. by rewrite Z.sub_diag.
Qed.

(** [km_free_addr] of a window. *)
Lemma window_close P w a o size s :
  spaces P s -> window_tables s w -> frame_addr a -> 4096 <= a <= w -> 0 <= o -> 0 < size -> o + size <= 4096 ->
  0 <= kpdir_rev s -> kpdir_rev s + 1 < 2 ^ 32 ->
  exists s', km_free_addr (a + o) size s = Ok (tt, s') /\ kstep P s s' /\
    (forall q, data_frame P s q -> same_frame q s s') /\ same_frame (kernel_pdir s) s s' /\
    present (pte (mem s') (kernel_pdir s) a) = false /\
    (forall v, user_page v -> v / 4096 <> a / 4096 ->
       pte (mem s') (kernel_pdir s) v = pte (mem s) (kernel_pdir s) v) /\
    0 <= kpdir_rev s' <= kpdir_rev s + 1.
Proof.
  intros Hsp Hr Ha Haw Ho Hs Hfit Hrev0 Hrev. destruct (align_frame a o Ha ltac:(lia)) as (Ea & Eo & _).
  destruct (kernel_map P w 0 a 0 s Hsp Hr ltac:(done) Ha Haw ltac:(lia) ltac:(done) Hrev Hrev0)
    as (s' & Hrun & K & Hd & SK & Hto & Hout & Hrv).
  exists s'. split; [|done]. unfold km_free_addr. rewrite (run_bind _ _ _ _ _ eq_refl).
  unfold vm_free_addr, align_size. rewrite Ea, Eo, one_page by lia. unfold vm_unmap_range.
  rewrite (proj2 (aligned_spec a)) by apply Ha. rewrite (run_bind _ _ s tt s) by done.
  by rewrite map_range_one.
Qed.

(** What a write to the data frame [q] through a window leaves. *)
Record wrote_frame (P w q o : Z) (bs : list Z) (s s' : vm S) : Prop := {
  wf_kstep : kstep P s s';
  wf_room : window_room s' w;
  wf_rev : 0 <= kpdir_rev s' <= kpdir_rev s + 2;
  wf_other q' : data_frame P s q' -> q' <> q -> same_frame q' s s';
  wf_bytes x : 0 <= x < 4096 -> get_byte (mem s') (q + x) =
    match (if o <=? x then bs !! Z.to_nat (x - o) else None) with
    | Some b => b
    | None => get_byte (mem s) (q + x)
    end;
}.

Lemma vm_cpy_pv_run P w q o bs s :
  spaces P s -> window_room s w -> data_frame P s q -> 0 <= o -> 0 < Z.of_nat (length bs) ->
  o + Z.of_nat (length bs) <= 4096 -> Forall is_u8 bs -> 0 <= kpdir_rev s -> kpdir_rev s + 2 < 2 ^ 32 ->
  exists s', vm_cpy_pv (q + o) bs s = Ok (tt, s') /\ wrote_frame P w q o bs s s'.
Proof.
  intros Hsp Hr Hq Ho Hlen Hfit Hbs Hrev0 Hrev. pose proof (df_frame _ _ _ Hq) as Hqf.
  destruct (window_open P w q o _ s Hsp Hr Hqf Ho Hlen Hfit Hrev0 ltac:(lia))
    as (a & s1 & Hopen & K1 & D1 & SK1 & Ha & Haw & Hto & Hfree & Hout1 & Hrv1).
  pose proof (ks_kernel _ _ _ K1) as EK1. rewrite <- EK1 in Hto, Hout1.
  pose proof (ks_spaces _ _ _ K1) as Hsp1. pose proof (ks_data _ _ _ K1 q Hq) as Hq1.
  destruct (vstore_run P q a bs o s1 Hsp1 Hq1 Ha Hto Ho Hfit Hbs) as (s2 & Hstore & H2).
  destruct (stored_spaces P q o bs s1 s2 Hsp1 Hq1 H2) as (K2 & Hpte2 & SK2).
  destruct H2 as (St2 & Hph2 & Hrev2 & Hb2). pose proof (ks_kernel _ _ _ K2) as EK2.
  assert (forall v, user_page v -> v / 4096 <> a / 4096 ->
    pte (mem s2) (kernel_pdir s) v = pte (mem s) (kernel_pdir s) v) as Hout2.
  { intros v Hv Hva. rewrite <- EK1, Hpte2 by apply Hv. rewrite Hout1 by done. by rewrite EK1. }
  pose proof (tables_keep w s s1 (proj1 Hr) EK1 SK1) as Hr1. rewrite <- EK1 in SK1.
  pose proof (tables_keep w s1 s2 Hr1 EK2 SK2) as Hr2.
  destruct (window_close P w a o (Z.of_nat (length bs)) s2 (ks_spaces _ _ _ K2) Hr2 Ha Haw Ho Hlen Hfit
    ltac:(lia) ltac:(lia)) as (s3 & Hclose & K3 & D3 & SK3 & Hpa & Hout3 & Hrv3).
  exists s3. split; [unfold vm_cpy_pv; by rewrite (run_bind _ _ _ _ _ Hopen), (run_bind _ _ _ _ _ Hstore)|].
  pose proof (ks_data _ _ _ K2 q Hq1) as Hq2. constructor.
  - by apply (kstep_trans _ _ s1), (kstep_trans _ _ s2).
  - split; [by apply (tables_keep w s2 s3 Hr2 (ks_kernel _ _ _ K3))|].
    rewrite (ks_kernel _ _ _ K3). destruct Hr as [[R1 R2 R3 R4] Rf].
    destruct (Z.eq_dec (w / 4096) (a / 4096)) as [E|Hne]; [by rewrite (same_page_pte _ _ _ _ E)|].
    rewrite Hout3 by done. rewrite EK2, EK1. by rewrite Hout2.
  - lia.
  - intros q' Hq' Hne j Hj. rewrite (D3 q'); [|by apply K2, K1|done].
    rewrite (st_same _ _ _ St2 q'); [|apply Hq'|done|done]. by apply D1.
  - intros x Hx. rewrite (get_byte_frame (mem s2) (mem s3)) by (apply Hqf || done || by apply D3).
    rewrite Hb2 by done. by rewrite (get_byte_frame (mem s) (mem s1)) by (apply Hqf || done || by apply D1).
Qed.

Lemma vm_set_p_cpy dst val size s :
  0 <= size -> vm_set_p dst val size s = vm_cpy_pv dst (replicate (Z.to_nat size) (u8 val)) s.
Proof. intros Hs. unfold vm_set_p, vm_cpy_pv. by rewrite length_replicate, Z2Nat.id. Qed.

(** ** Writing to a process *)

Lemma user_slot v : is_u32 v -> 0x40000000 <= v -> 256 <= pdir_index v /\ user_page v.
Proof.
  intros Hv Hge. assert (256 <= pdir_index v) as Hi.
  { unfold pdir_index, addr2page. rewrite PAGE_SIZE_eq. unfold PDIR_LEN. dlia. }
  split; [done|]. split; [done|]. intros E. apply page_indices in E as [E _].
  change (pdir_index MAP_TABLE_VADDR) with 255 in E. lia.
Qed.

(** A step that changes nothing but the slot of the working table. *)
Record quiet (P w : Z) (s s' : vm S) : Prop := {
  qt_kstep : kstep P s s';
  qt_room : window_room s' w;
  qt_rev : kpdir_rev s' = kpdir_rev s;
  qt_data q : data_frame P s q -> same_frame q s s';
}.

Lemma working_quiet P w t s : spaces P s -> window_room s w -> quiet P w s (working t s).
Proof.
  intros Hsp [Hr Hf]. pose proof Hsp as [WK WP HKP HKs HPs].
  pose proof (working_step t s (wf_wtm _ _ WK)) as St.
  destruct (working_fields t s) as (E1 & E2 & E3 & E4 & E5).
  assert (same_frame (kernel_pdir s) s (working t s)) as SK by (intros i Hi; by apply working_pdir).
  assert (same_frame P s (working t s)) as SP by (intros i Hi; by apply working_pdir).
  destruct (spaces_touch P _ s _ Hsp St SK SP) as [Hsp' Hd']. constructor; [constructor; try done| |done|].
  - intros v Hv Hi. apply working_pte; [done|]. split; [done|]. intros E. apply page_indices in E as [E _].
    change (pdir_index MAP_TABLE_VADDR) with 255 in E. lia.
  - split; [by apply (tables_keep w s)|]. rewrite E4, working_pte by (done || apply Hr). done.
  - intros q Hq. apply (st_same _ _ _ St); [apply Hq|]. apply (df_wtm _ _ _ Hq).
Qed.

Lemma resolve_user P w v q s :
  spaces P s -> window_room s w -> is_u32 v -> 0x40000000 <= v -> frame_addr q ->
  maps_to (pte (mem s) P v) q VM_USER_FLAGS ->
  exists s', vm_resolve_virt P v s = Ok (q + v mod 4096, s') /\ quiet P w s s'.
Proof.
  intros Hsp Hr Hv Hge Hq Hm. destruct (user_slot v Hv Hge) as [Hi Hu]. pose proof Hsp as [WK WP HKP HKs HPs].
  pose proof (maps_to_present _ _ _ Hm ltac:(done)) as Hpr.
  pose proof (maps_to_getaddr _ q VM_USER_FLAGS Hq ltac:(done) Hm) as Hga.
  unfold vm_resolve_virt, get_ptab_entry, rd, gets. pose proof (pdir_index_range v Hv) as Hpi.
  unfold mbind, M_bind. cbn beta iota. rewrite bnotset_present. unfold pte in Hpr, Hga.
  destruct (present (word (mem s) (cell P (pdir_index v)))) eqn:Hp; [|done]. cbn [negb].
  destruct (wf_tab _ _ WP _ Hpi Hp) as (Hpu & _). set (t := getaddr (word (mem s) (cell P (pdir_index v)))) in *.
  rewrite (map_working_run t) by (unfold t; auto with kos).
  assert (word (mem (working t s)) (cell t (ptab_index v)) = word (mem s) (cell t (ptab_index v))) as ->.
  { pose proof (working_pte P t s v WP Hu) as E. unfold pte in E. rewrite working_pdir, Hp in E by done. done. }
  exists (working t s). split; [|by apply working_quiet].
  pose proof (bisset_present (word (mem s) (cell t (ptab_index v)))) as Hb. unfold bisset in Hb.
  rewrite Hb, Hpr. unfold mret, M_ret. rewrite bnotset_present, Hpr, Hga. cbn [negb].
  do 2 f_equal. destruct Hq as [Hqu Hqa]. unfold PAGE_OFFSET. rewrite PAGE_SIZE_eq.
  apply u32_small. unfold is_u32 in *. dlia.
Qed.

(** The pages of the process from [base] on are mapped to data frames of their own. *)
Record pages (P w base n : Z) (fr : Z -> Z) (s : vm S) : Prop := {
  pg_spaces : spaces P s;
  pg_room : window_room s w;
  pg_rev : 0 <= kpdir_rev s;
  pg_base : frame_addr base;
  pg_user : 0x40000000 <= base;
  pg_end : base + n * 4096 <= 2 ^ 32;
  pg_data i : 0 <= i < n -> data_frame P s (fr i);
  pg_maps i : 0 <= i < n -> maps_to (pte (mem s) P (base + i * 4096)) (fr i) VM_USER_FLAGS;
  pg_inj i j : 0 <= i < n -> 0 <= j < n -> fr i = fr j -> i = j;
}.

(** The byte a process finds at an address. *)
Definition user_byte (P : Z) (s : vm S) (v : Z) : Z :=
  get_byte (mem s) (getaddr (pte (mem s) P v) + v mod 4096).

Lemma pages_byte P w base n fr s v :
  pages P w base n fr s -> base <= v < base + n * 4096 ->
  user_byte P s v = get_byte (mem s) (fr ((v - base) / 4096) + v mod 4096).
Proof.
  intros Hp Hv. destruct Hp as [Hsp _ _ [Hbu Hba] Hbge Hend Hd Hm Hi]. unfold user_byte.
  assert (0 <= (v - base) / 4096 < n) as Hr by (unfold is_u32 in *; dlia).
  rewrite (same_page_pte _ _ v (base + (v - base) / 4096 * 4096)) by (unfold is_u32 in *; dlia).
  rewrite (maps_to_getaddr _ (fr ((v - base) / 4096)) VM_USER_FLAGS); [done|apply (Hd _ Hr)|done|by apply Hm].
Qed.

Lemma pages_keep P w base n fr s s' :
  pages P w base n fr s -> kstep P s s' -> window_room s' w -> 0 <= kpdir_rev s' -> pages P w base n fr s'.
Proof.
  intros [G1 G2 G3 G4 G5 G6 G7 G8 G9] K Hr Hrev. constructor; try done.
  - apply K.
  - intros i Hi. by apply K, G7.
  - intros i Hi. rewrite (ks_user _ _ _ K); [by apply G8| |].
    + destruct G4. unfold is_u32 in *. lia.
    + apply user_slot; destruct G4; unfold is_u32 in *; lia.
Qed.

Lemma user_write P w base n fr s v bs :
  pages P w base n fr s -> base <= v < base + n * 4096 -> 0 < Z.of_nat (length bs) ->
  v mod 4096 + Z.of_nat (length bs) <= 4096 -> Forall is_u8 bs -> kpdir_rev s + 2 < 2 ^ 32 ->
  exists s1 s', vm_resolve_virt P v s = Ok (fr ((v - base) / 4096) + v mod 4096, s1) /\
    vm_cpy_pv (fr ((v - base) / 4096) + v mod 4096) bs s1 = Ok (tt, s') /\
    pages P w base n fr s' /\ kpdir_rev s' <= kpdir_rev s + 2 /\ kstep P s s' /\
    forall u, base <= u < base + n * 4096 -> user_byte P s' u =
      match (if v <=? u then bs !! Z.to_nat (u - v) else None) with
      | Some b => b
      | None => user_byte P s u
      end.
Proof.
  intros Hp Hv Hlen Hfit Hbs Hrev. pose proof Hp as [G1 G2 G3 [Hbu Hba] G5 G6 G7 G8 G9].
  set (i := (v - base) / 4096). assert (0 <= i < n) as Hi by (unfold i, is_u32 in *; dlia).
  set (q := fr i). pose proof (G7 i Hi) as Hq. fold q in Hq.
  destruct (resolve_user P w v q s) as (s1 & Hres & [K1 R1 V1 D1]); try done.
  { unfold is_u32 in *. lia. }
  { lia. }
  { apply Hq. }
  { rewrite (same_page_pte _ _ v (base + i * 4096)) by (unfold i, is_u32 in *; dlia). by apply G8. }
  destruct (vm_cpy_pv_run P w q (v mod 4096) bs s1) as (s2 & Hcpy & [K2 R2 V2 O2 B2]); try done.
  { apply K1. }
  { by apply K1. }
  { apply Z.mod_pos_bound. lia. }
  { lia. }
  { lia. }
  pose proof (kstep_trans _ _ _ _ K1 K2) as K.
  assert (pages P w base n fr s2) as Hp2 by (apply (pages_keep P w base n fr s); (done || lia)).
  exists s1, s2. split_and!; try done; [lia|].
  intros u Hu. rewrite (pages_byte _ _ _ _ _ _ _ Hp2 Hu), (pages_byte _ _ _ _ _ _ _ Hp Hu).
  set (k := (u - base) / 4096). assert (0 <= k < n) as Hk by (unfold k, is_u32 in *; dlia).
  assert (0 <= u mod 4096 < 4096) as Hum by (apply Z.mod_pos_bound; lia).
  assert (forall m m', same_frame (fr k) m m' ->
    get_byte (mem m') (fr k + u mod 4096) = get_byte (mem m) (fr k + u mod 4096)) as Hsame
    by (intros m m' Hm; apply get_byte_frame; [apply (G7 k Hk)|done|done]).
  destruct (Z.eq_dec k i) as [E|Hne].
  - rewrite E in *. fold q. rewrite B2 by done. fold q in Hsame. rewrite (Hsame s s1) by by apply D1.
    assert (u mod 4096 - v mod 4096 = u - v) as E2 by (unfold k, i in *; dlia).
    rewrite E2. destruct (Z.leb_spec (v mod 4096) (u mod 4096)), (Z.leb_spec v u); try done; lia.
  - assert (fr k <> q) as Hkq by (intros E; by apply Hne, G9).
    rewrite (Hsame s1 s2) by (apply O2; [apply K1, G7, Hk|done]). rewrite (Hsame s s1) by apply D1, G7, Hk.
    destruct (Z.leb_spec v u); [|done]. rewrite lookup_ge_None_2; [done|]. unfold k, i in *. dlia.
Qed.
(** ** Frames handed out *)

(** The allocator has at least [n] frames to hand out. *)
Fixpoint supplies (n : nat) (ph : S) : Prop :=
  match n with
  | O => True
  | Datatypes.S n => (fs_alloc ph).1 <> NO_PAGE /\ supplies n (fs_alloc ph).2
  end.

Lemma supplies_less n k ph : (k <= n)%nat -> supplies n ph -> supplies k ph.
Proof.
  revert k ph. induction n as [|n IH]; intros [|k] ph Hk; cbn; [done|lia|done|].
  intros [? ?]. split; [done|]. apply IH; [lia|done].
Qed.

(** A frame just handed out holds no table. *)
Lemma fresh_data P s p :
  spaces P s -> fs_avail (phys s) p -> 0 < p < 2 ^ 20 -> (fs_alloc (phys s)).1 = p * 4096 ->
  (forall q, fs_avail (fs_alloc (phys s)).2 q <-> fs_avail (phys s) q /\ q <> p) ->
  let s1 := set_phys (fs_alloc (phys s)).2 s in
  spaces P s1 /\ data_frame P s1 (p * 4096) /\ (forall q, data_frame P s q -> data_frame P s1 q) /\
  (forall q, data_frame P s q -> q <> p * 4096).
Proof.
  intros Hsp Hav Hp Hal Hq s1. pose proof Hsp as [WK WP HKP HKs HPs].
  pose proof (alloc_step s (wf_inv _ _ WK)) as St.
  destruct (spaces_touch P _ s s1 Hsp St) as [Hsp1 Hd1]; [done|done|].
  assert (forall q, ~ fs_avail (phys s) (q / 4096) -> q <> p * 4096) as Hne.
  { intros q Hn ->. by rewrite Z.div_mul in Hn. }
  split_and!; [done| |done|intros q Hq'; apply Hne, Hq'].
  constructor.
  - unfold frame_addr, is_u32. dlia.
  - rewrite Z.div_mul by done. intros [_ []]%Hq. done.
  - apply not_eq_sym, Hne, (wf_pdir_used _ _ WK).
  - apply not_eq_sym, Hne, (wf_pdir_used _ _ WP).
  - apply not_eq_sym, Hne, (wf_wtm_used _ _ WK).
  - intros j Ht. destruct (table_used _ _ _ _ WK Ht) as [Hn _]. by apply (Hne _ Hn).
  - intros j _ Ht. destruct (table_used _ _ _ _ WP Ht) as [Hn _]. by apply (Hne _ Hn).
Qed.
End steps.
