(* ===== verification/Fork.v ===== *)
(** * Cloning an address space

    The functional behaviour of [vm_create_addrspace] and [vm_clone_addrspace] of
    kernel/mm/util.c, which [sys_fork] calls: the child finds the bytes of its parent, in frames
    of its own. *)

From S2P Require Import Prelude Page PhysMem VirtMem UserMem.

Section fork.
Context {S : Type} `{FrameSourceLaws S}.
Implicit Types (s : vm S).

(** ** Copying a frame through two windows *)

Lemma load_byte_run a q o s :
  frame_addr a -> frame_addr q -> maps_to (pte (mem s) (kernel_pdir s) a) q VM_COMMON_FLAGS -> 0 <= o < 4096 ->
  load_byte (a + o) s = Ok (get_byte (mem s) (q + o), s).
Proof.
  intros [Hau Ha] Hq Hm Ho. destruct (in_page a o Ha Ho) as [E1 E2]. unfold load_byte, kernel_addr.
  rewrite (run_bind _ _ _ (q + o) s); [done|]. rewrite (run_bind _ _ _ _ _ eq_refl). cbv zeta.
  rewrite (same_page_pte _ _ _ _ E1), (maps_to_present _ _ _ Hm) by done.
  by rewrite (maps_to_getaddr _ q VM_COMMON_FLAGS Hq ltac:(done) Hm), E2.
Qed.

Lemma vload_run a q n s : forall o,
  frame_addr a -> frame_addr q -> maps_to (pte (mem s) (kernel_pdir s) a) q VM_COMMON_FLAGS ->
  0 <= o -> o + Z.of_nat n <= 4096 ->
  vload (a + o) n s = Ok ((fun x => get_byte (mem s) (q + x)) <$> seqZ o (Z.of_nat n), s).
Proof.
  induction n as [|n IH]; intros o Ha Hq Hm Ho Hn; [done|]. cbn [vload].
  rewrite (run_bind _ _ _ _ _ (load_byte_run a q o s Ha Hq Hm ltac:(lia))).
  rewrite <- Z.add_assoc, (run_bind _ _ _ _ _ (IH (o + 1) Ha Hq Hm ltac:(lia) ltac:(lia))).
  rewrite (seqZ_cons o) by lia. replace (Z.pred (Z.of_nat (Datatypes.S n))) with (Z.of_nat n) by lia. done.
Qed.

(** Two pages of the kernel space to open windows at. *)
Record rooms (w1 w2 : Z) (s : vm S) : Prop := {
  rm_1 : window_room s w1;
  rm_2 : window_room s w2;
  rm_ne : w1 / 4096 <> w2 / 4096;
}.

(** The kernel directory has kept its tables, and its free pages are free. *)
Record kept_free (s s' : vm S) : Prop := {
  kf_kernel : kernel_pdir s' = kernel_pdir s;
  kf_slots : same_frame (kernel_pdir s) s s';
  kf_free v : user_page v -> pdir_index v < 255 -> present (pte (mem s) (kernel_pdir s) v) = false ->
    present (pte (mem s') (kernel_pdir s) v) = false;
}.

Lemma kept_free_trans s1 s2 s3 : kept_free s1 s2 -> kept_free s2 s3 -> kept_free s1 s3.
Proof.
  intros [A1 A2 A3] [B1 B2 B3]. rewrite A1 in *. constructor; [congruence| |auto].
  intros i Hi. by rewrite B2, A2.
Qed.

Lemma room_keep w s s' : window_room s w -> kept_free s s' -> window_room s' w.
Proof.
  intros [Hr Hf] [E1 E2 E3]. split; [by apply (tables_keep w s)|]. rewrite E1. apply E3; [apply Hr|apply Hr|done].
Qed.

Lemma rooms_keep w1 w2 s s' : rooms w1 w2 s -> kept_free s s' -> rooms w1 w2 s'.
Proof. intros [R1 R2 R3] K. constructor; [by eapply room_keep..|done]. Qed.

(** A window that is open takes at most one of the rooms. *)
Lemma room_left w1 w2 a s s1 :
  rooms w1 w2 s -> kernel_pdir s1 = kernel_pdir s -> same_frame (kernel_pdir s) s s1 ->
  (forall v, user_page v -> v / 4096 <> a / 4096 ->
     pte (mem s1) (kernel_pdir s) v = pte (mem s) (kernel_pdir s) v) ->
  exists w, window_room s1 w.
Proof.
  intros [[R1 F1] [R2 F2] Hne] EK SK Hout.
  destruct (Z.eq_dec (w1 / 4096) (a / 4096)) as [E|E]; [exists w2|exists w1];
    (split; [by eapply tables_keep|]); rewrite EK, Hout; (done || apply R1 || apply R2 || congruence).
Qed.

(** What copying a frame to the data frame [d] leaves, seen by the process [P]. *)
Record copied (P d src : Z) (s s' : vm S) : Prop := {
  cp_kstep : kstep P s s';
  cp_kept : kept_free s s';
  cp_rev : 0 <= kpdir_rev s' <= kpdir_rev s + 4;
  cp_other q : data_frame P s q -> q <> d -> same_frame q s s';
  cp_bytes x : data_frame P s src -> src <> d -> 0 <= x < 4096 ->
    get_byte (mem s') (d + x) = get_byte (mem s) (src + x);
}.

(** Two windows are open, [a] to the frame [d] and [b] to the frame [src]. *)
Record opened (P a b d src : Z) (s s' : vm S) : Prop := {
  op_kstep : kstep P s s';
  op_data q : data_frame P s q -> same_frame q s s';
  op_slots : same_frame (kernel_pdir s) s s';
  op_a : frame_addr a;
  op_b : frame_addr b;
  op_below : exists wa wb, window_tables s' wa /\ 4096 <= a <= wa /\ window_tables s' wb /\ 4096 <= b <= wb;
  op_to_a : maps_to (pte (mem s') (kernel_pdir s) a) d VM_COMMON_FLAGS;
  op_to_b : maps_to (pte (mem s') (kernel_pdir s) b) src VM_COMMON_FLAGS;
  op_ne : a / 4096 <> b / 4096;
  op_out v : user_page v -> v / 4096 <> a / 4096 -> v / 4096 <> b / 4096 ->
    pte (mem s') (kernel_pdir s) v = pte (mem s) (kernel_pdir s) v;
  op_rev : 0 <= kpdir_rev s' <= kpdir_rev s + 2;
}.

Lemma open_two P w1 w2 d src s :
  spaces P s -> rooms w1 w2 s -> frame_addr d -> frame_addr src -> 0 <= kpdir_rev s -> kpdir_rev s + 2 < 2 ^ 32 ->
  exists a b s1 s2, km_alloc_addr d VM_COMMON_FLAGS 4096 s = Ok (a, s1) /\
    km_alloc_addr src VM_COMMON_FLAGS 4096 s1 = Ok (b, s2) /\ opened P a b d src s s2.
Proof.
  intros Hsp Hr Hdf Hsrc Hrev0 Hrev.
  destruct (window_open P w1 d 0 4096 s Hsp (rm_1 _ _ _ Hr) Hdf ltac:(lia) ltac:(lia) ltac:(lia) Hrev0 ltac:(lia))
    as (a & s1 & Hop1 & K1 & D1 & SK1 & Ha & Haw & Hto1 & Hfr1 & Hout1 & Hrv1).
  pose proof (ks_kernel _ _ _ K1) as EK1.
  destruct (room_left w1 w2 a s s1 Hr EK1 SK1 Hout1) as [w Hw].
  destruct (window_open P w src 0 4096 s1 (ks_spaces _ _ _ K1) Hw Hsrc ltac:(lia) ltac:(lia) ltac:(lia) ltac:(lia) ltac:(lia))
    as (b & s2 & Hop2 & K2 & D2 & SK2 & Hb & Hbw & Hto2 & Hfr2 & Hout2 & Hrv2).
  pose proof (ks_kernel _ _ _ K2) as EK2. rewrite !Z.add_0_r in Hop1, Hop2.
  exists a, b, s1, s2. split; [done|]. split; [done|]. rewrite EK1 in *.
  assert (user_page a) as Hua.
  { destruct (rm_1 _ _ _ Hr) as [[_ _ R _] _]. apply (below_window a w1); (done || lia). }
  assert (a / 4096 <> b / 4096) as Hab.
  { intros E. rewrite (same_page_pte _ _ b a), (maps_to_present _ _ _ Hto1) in Hfr2 by done. done. }
  constructor; try done; [by apply (kstep_trans _ _ s1)| | | | | |lia].
  - intros q Hq j Hj. rewrite (D2 q); [by apply D1|by apply K1|done].
  - intros i Hi. by rewrite SK2, SK1.
  - exists w1, w. split_and!; try lia.
    + apply (tables_keep w1 s1 s2); [|congruence|by rewrite EK1]. apply (tables_keep w1 s s1); [apply Hr|done|done].
    + apply (tables_keep w s1 s2); [apply Hw|congruence|by rewrite EK1].
  - by rewrite Hout2.
  - intros v Hv Hva Hvb. by rewrite Hout2, Hout1.
Qed.

Lemma close_two P a b wa wb s :
  spaces P s -> window_tables s wa -> window_tables s wb -> frame_addr a -> frame_addr b ->
  4096 <= a <= wa -> 4096 <= b <= wb -> 0 <= kpdir_rev s -> kpdir_rev s + 2 < 2 ^ 32 ->
  exists s1 s', km_free_addr a 4096 s = Ok (tt, s1) /\ km_free_addr b 4096 s1 = Ok (tt, s') /\ kstep P s s' /\
    (forall q, data_frame P s q -> same_frame q s s') /\ same_frame (kernel_pdir s) s s' /\
    0 <= kpdir_rev s' <= kpdir_rev s + 2 /\
    (forall v, user_page v -> v / 4096 = a / 4096 \/ v / 4096 = b / 4096 \/ present (pte (mem s) (kernel_pdir s) v) = false ->
       present (pte (mem s') (kernel_pdir s) v) = false).
Proof.
  intros Hsp Rwa Rwb Ha Hb Haw Hbw Hrev0 Hrev.
  destruct (window_close P wa a 0 4096 s Hsp Rwa Ha Haw ltac:(lia) ltac:(lia) ltac:(lia) Hrev0 ltac:(lia))
    as (s1 & Hc1 & K1 & D1 & SK1 & Hp1 & Hout1 & Hrv1). pose proof (ks_kernel _ _ _ K1) as EK1.
  pose proof (tables_keep wb s s1 Rwb EK1 SK1) as Rwb1.
  destruct (window_close P wb b 0 4096 s1 (ks_spaces _ _ _ K1) Rwb1 Hb Hbw ltac:(lia) ltac:(lia) ltac:(lia) ltac:(lia) ltac:(lia))
    as (s2 & Hc2 & K2 & D2 & SK2 & Hp2 & Hout2 & Hrv2). rewrite EK1 in *. rewrite Z.add_0_r in Hc1, Hc2.
  exists s1, s2. split_and!; try done; [by apply (kstep_trans _ _ s1)| | |lia|lia|].
  - intros q Hq j Hj. rewrite (D2 q); [by apply D1|by apply K1|done].
  - intros i Hi. by rewrite SK2, SK1.
  - intros v Hv Hc. destruct (Z.eq_dec (v / 4096) (b / 4096)) as [E|E]; [by rewrite (same_page_pte _ _ _ _ E)|].
    rewrite Hout2 by done. destruct (Z.eq_dec (v / 4096) (a / 4096)) as [E'|E']; [by rewrite (same_page_pte _ _ _ _ E')|].
    rewrite Hout1 by done. tauto.
Qed.

Lemma vm_cpy_pp_run P w1 w2 d src s :
  spaces P s -> rooms w1 w2 s -> data_frame P s d -> frame_addr src ->
  0 <= kpdir_rev s -> kpdir_rev s + 4 < 2 ^ 32 ->
  exists s', vm_cpy_pp d src PAGE_SIZE s = Ok (tt, s') /\ copied P d src s s'.
Proof.
  intros Hsp Hr Hd Hsrc Hrev0 Hrev. pose proof (df_frame _ _ _ Hd) as Hdf. rewrite PAGE_SIZE_eq.
  destruct (open_two P w1 w2 d src s Hsp Hr Hdf Hsrc Hrev0 ltac:(lia)) as (a & b & s1 & s2 & Hop1 & Hop2 & Ho).
  pose proof Ho as [K2 D2 SK2 Ha Hb (wa & wb & Rwa & Haw & Rwb & Hbw) Hta Htb Hab Hout Hrv2].
  pose proof (ks_kernel _ _ _ K2) as EK2. rewrite <- EK2 in Hta, Htb.
  pose proof (ks_spaces _ _ _ K2) as Hsp2. pose proof (ks_data _ _ _ K2 _ Hd) as Hd2.
  pose proof (vload_run b src (Z.to_nat 4096) s2 0 Hb Hsrc Htb ltac:(lia) ltac:(lia)) as Hld. rewrite Z.add_0_r in Hld.
  change (Z.of_nat (Z.to_nat 4096)) with 4096 in Hld.
  set (bs := (fun x => get_byte (mem s2) (src + x)) <$> seqZ 0 4096) in *.
  assert (length bs = 4096%nat) as Hlen by (unfold bs; by rewrite length_fmap, length_seqZ).
  destruct (vstore_run P d a bs 0 s2 Hsp2 Hd2 Ha Hta) as (s3 & Hst & H3); [lia|rewrite Hlen; lia| |].
  { unfold bs. apply Forall_fmap, Forall_true. intros x. apply get_byte_range. }
  destruct (stored_spaces P d 0 bs s2 s3 Hsp2 Hd2 H3) as (K3 & Hpte3 & SK3). rewrite Z.add_0_r in Hst.
  destruct H3 as (St3 & Hph3 & Hrev3 & Hb3). pose proof (ks_kernel _ _ _ K3) as EK3.
  destruct (close_two P a b wa wb s3 (ks_spaces _ _ _ K3) (tables_keep wa s2 s3 Rwa EK3 SK3)
    (tables_keep wb s2 s3 Rwb EK3 SK3) Ha Hb Haw Hbw ltac:(lia) ltac:(lia))
    as (s4 & s5 & Hc1 & Hc2 & K5 & D5 & SK5 & Hrv5 & Hfree5).
  pose proof (ks_kernel _ _ _ K5) as EK5. rewrite EK3, EK2 in *.
  exists s5. split.
  { unfold vm_cpy_pp. rewrite (run_bind _ _ _ _ _ Hop1), (run_bind _ _ _ _ _ Hop2), (run_bind _ _ _ _ _ Hld).
    by rewrite (run_bind _ _ _ _ _ Hst), (run_bind _ _ _ _ _ Hc1). }
  pose proof (ks_data _ _ _ K3 _ Hd2) as Hd3.
  constructor; [by apply (kstep_trans _ _ s2), (kstep_trans _ _ s3)| |lia| |].
  - constructor; [congruence| |].
    + intros i Hi. by rewrite SK5, SK3, SK2.
    + intros v Hv _ Hfv. apply Hfree5; [done|].
      destruct (Z.eq_dec (v / 4096) (a / 4096)); [tauto|]. destruct (Z.eq_dec (v / 4096) (b / 4096)); [tauto|].
      rewrite Hpte3, Hout by (done || apply Hv). tauto.
  - intros q Hq Hne j Hj. rewrite (D5 q); [|by apply K3, K2|done].
    rewrite (st_same _ _ _ St3 q); [by apply D2|apply Hq|done|done].
  - intros x Hs Hsd Hx. rewrite (get_byte_frame (mem s3) (mem s5)) by (apply Hdf || done || by apply D5).
    rewrite Hb3 by done. decide_cmp. rewrite Z.sub_0_r. unfold bs. rewrite list_lookup_fmap.
    rewrite lookup_seqZ_lt by lia. cbn [fmap option_fmap option_map].
    rewrite Z2Nat.id by lia. apply get_byte_frame; [apply Hsrc|done|by apply D2].
Qed.

(** ** Parent and child *)

(** Two processes beside the kernel: the directory and the tables of one are frames like any
    other to the other. *)
Record pair (P N : Z) (s : vm S) : Prop := {
  pr_P : spaces P s;
  pr_N : spaces N s;
  pr_dirP : data_frame N s P;
  pr_dirN : data_frame P s N;
  pr_tabP i t : 256 <= i -> is_table s P i t -> data_frame N s t;
  pr_tabN i t : 256 <= i -> is_table s N i t -> data_frame P s t;
}.

Lemma pair_sym P N s : pair P N s -> pair N P s.
Proof. intros []. by constructor. Qed.

(** A step of the kernel that leaves both directories alone. *)
Lemma pair_kstep P N s s' :
  pair P N s -> kstep P s s' -> kstep N s s' -> same_frame P s s' -> same_frame N s s' -> pair P N s'.
Proof.
  intros [A1 A2 A3 A4 A5 A6] KP KN SP SN.
  constructor; [apply KP|apply KN|by apply KN|by apply KP| |].
  - intros i t Hi Ht. apply KN, (A5 i); [done|]. by apply (same_table _ s s').
  - intros i t Hi Ht. apply KP, (A6 i); [done|]. by apply (same_table _ s s').
Qed.

(** What the kernel may do for the child: to both, the directories and tables are in order, free
    frames only get fewer, the frames that hold data to both are untouched but for those of [D],
    and the parent keeps its mappings.  The directory of the kernel changes at most [k] times. *)
Record sides (P N : Z) (D : Z -> Prop) (k : Z) (s s' : vm S) : Prop := {
  sd_pair : pair P N s';
  sd_kept : kept_free s s';
  sd_rev : (0 <= kpdir_rev s -> 0 <= kpdir_rev s') /\ kpdir_rev s' <= kpdir_rev s + k;
  sd_avail p : fs_avail (phys s') p -> fs_avail (phys s) p;
  sd_data q : data_frame P s q -> data_frame N s q -> data_frame P s' q /\ data_frame N s' q;
  sd_same q : data_frame P s q -> data_frame N s q -> ~ D q -> same_frame q s s';
  sd_parent v : is_u32 v -> 256 <= pdir_index v -> pte (mem s') P v = pte (mem s) P v;
  sd_slots : same_frame P s s';
  sd_wtm : working_table_map s' = working_table_map s;
  sd_paging : paging_enabled s' = paging_enabled s;
}.

Lemma kept_free_refl s : kept_free s s.
Proof. by constructor. Qed.

Lemma sides_refl P N D s : pair P N s -> sides P N D 0 s s.
Proof. intros Hp. constructor; (done || lia || apply kept_free_refl). Qed.

Lemma sides_trans P N D k1 k2 s1 s2 s3 :
  sides P N D k1 s1 s2 -> sides P N D k2 s2 s3 -> sides P N D (k1 + k2) s1 s3.
Proof.
  intros [A1 A2 A3 A4 A5 A6 A7 A8 A9 A0] [B1 B2 B3 B4 B5 B6 B7 B8 B9 B0]. constructor; try congruence; auto.
  - by eapply kept_free_trans.
  - lia.
  - intros q HP HN. destruct (A5 q HP HN). auto.
  - intros q HP HN Hd j Hj. destruct (A5 q HP HN). rewrite B6 by done. by apply A6.
  - intros v Hv Hi. by rewrite B7, A7.
  - intros i Hi. by rewrite B8, A8.
Qed.

Lemma sides_weaken P N (D D' : Z -> Prop) k k' s s' :
  (forall q, D q -> data_frame P s q -> D' q) -> k <= k' -> sides P N D k s s' -> sides P N D' k' s s'.
Proof.
  intros HD Hk [A1 A2 A3 A4 A5 A6 A7 A8 A9 A0]. constructor; try done; [lia|]. intros q HP HN Hn. apply A6; auto.
Qed.

(** A step both sides see as a step of the kernel alone. *)
Lemma sides_kstep P N (D : Z -> Prop) k s s' :
  pair P N s -> kstep P s s' -> kstep N s s' -> kept_free s s' ->
  (0 <= kpdir_rev s -> 0 <= kpdir_rev s') /\ kpdir_rev s' <= kpdir_rev s + k ->
  (forall q, data_frame P s q -> ~ D q -> same_frame q s s') ->
  (forall q, data_frame N s q -> ~ D q -> same_frame q s s') -> ~ D P -> ~ D N ->
  sides P N D k s s' /\ forall v, is_u32 v -> 256 <= pdir_index v -> pte (mem s') N v = pte (mem s) N v.
Proof.
  intros Hp KP KN Kf Hrev DP DN HP HN. pose proof Hp as [A1 A2 A3 A4 A5 A6].
  assert (same_frame P s s') as SP by by apply DN. assert (same_frame N s s') as SN by by apply DP.
  split; [|exact (ks_user _ _ _ KN)]. constructor; try done.
  - by apply (pair_kstep P N s).
  - intros p. by rewrite (ks_phys _ _ _ KP).
  - intros q Hq1 Hq2. split; [by apply KP|by apply KN].
  - intros q Hq1 Hq2 Hq. by apply DP.
  - exact (ks_user _ _ _ KP).
  - exact (ks_wtm _ _ _ KP).
  - exact (ks_paging _ _ _ KP).
Qed.

Lemma sides_working P N w t s : pair P N s -> window_room s w -> sides P N (fun _ => False) 0 s (working t s) /\
  forall v, is_u32 v -> 256 <= pdir_index v -> pte (mem (working t s)) N v = pte (mem s) N v.
Proof.
  intros Hp Hw. pose proof (pr_P _ _ _ Hp) as HP. pose proof (pr_N _ _ _ Hp) as HN.
  destruct (working_quiet P w t s HP Hw) as [K1 _ V1 D1], (working_quiet N w t s HN Hw) as [K2 _ _ D2].
  apply sides_kstep; try done; [| |intros q Hq _; by apply D1|intros q Hq _; by apply D2|tauto|tauto].
  - pose proof (sp_K _ _ HP) as WK. constructor; [exact (ks_kernel _ _ _ K1)|intros i Hi; by apply working_pdir|].
    intros v Hv _. by rewrite working_pte.
  - lia.
Qed.

(** The entry of a page of the parent. *)
Lemma sides_entry P N w v s :
  pair P N s -> window_room s w -> is_u32 v ->
  exists s', get_ptab_entry P v s = Ok (if present (pte (mem s') P v) then pte (mem s') P v else 0, s') /\
    sides P N (fun _ => False) 0 s s' /\
    (forall u, is_u32 u -> 256 <= pdir_index u -> pte (mem s') N u = pte (mem s) N u) /\
    phys s' = phys s.
Proof.
  intros Hp Hw Hv. pose proof (sp_P _ _ (pr_P _ _ _ Hp)) as WP. pose proof (pdir_index_range v Hv) as Hpi.
  unfold get_ptab_entry, rd, gets, mbind, M_bind. cbn beta iota. rewrite bnotset_present.
  destruct (present (word (mem s) (cell P (pdir_index v)))) eqn:Hpr; cbn [negb].
  - destruct (wf_tab _ _ WP _ Hpi Hpr) as (Hu & _). set (t := getaddr _) in *.
    rewrite (map_working_run t) by (unfold t; auto with kos). exists (working t s).
    destruct (sides_working P N w t s Hp Hw) as [Hs HN]. split_and!; [|done|done|apply (working_fields t s)].
    unfold pte. rewrite (working_pdir P), Hpr by done. fold t.
    pose proof (bisset_present (word (mem (working t s)) (cell t (ptab_index v)))) as Hb. unfold bisset in Hb.
    by rewrite Hb.
  - exists s. split_and!; [|by apply sides_refl|done|done]. unfold pte. by rewrite Hpr.
Qed.

(** A frame is handed out. *)
Lemma sides_alloc P N s :
  pair P N s -> (fs_alloc (phys s)).1 <> NO_PAGE ->
  exists q s1, alloc_frame s = Ok (q, s1) /\ q <> NO_PAGE /\ s1 = set_phys (fs_alloc (phys s)).2 s /\
    sides P N (fun _ => False) 0 s s1 /\ data_frame P s1 q /\ data_frame N s1 q /\ fs_avail (phys s) (q / 4096).
Proof.
  intros Hp Hno. pose proof Hp as [A1 A2 A3 A4 A5 A6].
  destruct (fs_alloc_spec (phys s) (wf_inv _ _ (sp_K _ _ A1))) as [[E _]|(p & Ep & Hpr & Hav & Hav')]; [done|].
  destruct (fresh_data P s p A1 Hav Hpr Ep Hav') as (SP1 & QP & DP & _).
  destruct (fresh_data N s p A2 Hav Hpr Ep Hav') as (SN1 & QN & DN & _).
  exists (p * 4096), (set_phys (fs_alloc (phys s)).2 s). set (s1 := set_phys (fs_alloc (phys s)).2 s) in *.
  split_and!; try done.
  - unfold alloc_frame, s1. by destruct (fs_alloc (phys s)) as [r ph]; cbn in *; subst.
  - unfold NO_PAGE. lia.
  - constructor; try done.
    + constructor; auto; intros i t Hi Ht; [by apply DN, (A5 i)|by apply DP, (A6 i)].
    + cbn. lia.
    + intros q [Hq _]%Hav'. done.
    + auto.
  - by rewrite Z.div_mul.
Qed.

(** A frame nobody had that became a table of the other process. *)
Lemma new_table_data P D t s s' :
  spaces P s -> step D s s' -> same_frame (kernel_pdir s) s s' -> same_frame P s s' ->
  fs_avail (phys s) (t / 4096) -> ~ fs_avail (phys s') (t / 4096) -> frame_addr t -> data_frame P s' t.
Proof.
  intros [WK WP HKP HKs HPs] St SK SP Hav Hno Hf.
  assert (forall g, ~ fs_avail (phys s) (g / 4096) -> t <> g) as Hne by (intros g Hg ->; done).
  constructor; rewrite ?(st_kernel _ _ _ St), ?(st_wtm _ _ _ St); try done.
  - apply Hne, (wf_pdir_used _ _ WK).
  - apply Hne, (wf_pdir_used _ _ WP).
  - apply Hne, (wf_wtm_used _ _ WK).
  - intros j Ht. apply (same_table _ s s') in Ht; [|done]. by destruct (table_used _ _ _ _ WK Ht).
  - intros j _ Ht. apply (same_table _ s s') in Ht; [|done]. by destruct (table_used _ _ _ _ WP Ht).
Qed.

(** A page of the child is mapped to a frame. *)
Lemma sides_map P N q v flags s :
  pair P N s -> frame_addr q -> frame_addr v -> 0x40000000 <= v -> 0 <= flags < 4096 -> present flags = true ->
  (fs_alloc (phys s)).1 <> NO_PAGE ->
  exists s', vm_force_map N q v flags s = Ok (tt, s') /\ sides P N (fun _ => False) 0 s s' /\
    maps_to (pte (mem s') N v) q flags /\
    (forall u, is_u32 u -> 256 <= pdir_index u -> u / 4096 <> v / 4096 -> pte (mem s') N u = pte (mem s) N u) /\
    (phys s' = phys s \/ phys s' = (fs_alloc (phys s)).2).
Proof.
  intros Hp Hq Hv Hge Hf Hpf Hno. pose proof Hp as [A1 A2 A3 A4 A5 A6].
  pose proof A2 as [WK WN HKN HKs HNs]. destruct (user_slot v (proj1 Hv) Hge) as [Hvi Hvu].
  unfold vm_force_map. pose proof (do_map_spec N q v flags true s WN Hq Hv Hvu Hf) as Hm.
  destruct (do_map N q v flags true s) as [[[] s']| |] eqn:Hrun; [|exfalso|done].
  2:{ destruct Hm as [[_ E]|[(E & _)|[E _]]]; [done|done|by symmetry in E]. }
  destruct Hm as (WN' & EK & EP & Hto & Hout). rewrite Hpf in Hto.
  destruct (map_user_spaces N q v flags true s s' A2 (proj1 Hv) Hvi Hf WN' Hrun)
    as (SN' & Hrev & Hal & St & Hd & Htab & SK).
  destruct (do_map_step N q v flags true s s' WN (proj1 Hv) Hf Hrun) as (_ & Gr & _ & _).
  assert (same_frame P s s') as SP by by apply Hd.
  destruct (spaces_touch P _ s s' A1 St SK SP) as [SP' HdP].
  exists s'. split; [done|]. split_and!; [|done| |].
  - constructor; try done; [| |rewrite Hrev; lia| | | | |].
    + constructor; try done; [by apply Hd|by apply HdP| |].
      * intros i t Hi Ht. apply Hd, (A5 i); [done|]. by apply (same_table _ s s').
      * intros i t Hi Ht. destruct (slots_table N v flags s s' i t Hf Gr Ht) as [Ho|[Hav _]]; [by apply HdP, (A6 i)|].
        destruct (table_used _ _ _ _ WN' Ht) as [Hn Hfr]. by apply (new_table_data P _ t s s' A1 St).
    + constructor; [done|done|]. intros u Hu Hi Hfree. rewrite (same_pte _ s s'); [done|apply Hu|done|].
      intros t Ht. apply (Htab (pdir_index u)); [lia|done].
    + exact (st_avail _ _ _ St).
    + intros g HgP HgN. split; [by apply HdP|by apply Hd].
    + intros g _ HgN _. by apply Hd.
    + intros u Hu Hi. apply same_pte; [done|done|]. intros t Ht. by apply Hd, (A5 (pdir_index u)).
    + exact (st_wtm _ _ _ St).
  - intros u Hu Hi Hne. apply Hout; [|done]. split; [done|]. intros E. apply page_indices in E as [E _].
    change (pdir_index MAP_TABLE_VADDR) with 255 in E. lia.
  - unfold one_alloc in Hal. destruct (present (word _ _)); auto.
Qed.

(** A frame is copied to [d]. *)
Lemma sides_copy P N w1 w2 d src s :
  pair P N s -> rooms w1 w2 s -> data_frame P s d -> data_frame N s d -> frame_addr src ->
  0 <= kpdir_rev s -> kpdir_rev s + 4 < 2 ^ 32 ->
  exists s', vm_cpy_pp d src PAGE_SIZE s = Ok (tt, s') /\ sides P N (fun g => g = d) 4 s s' /\
    (forall v, is_u32 v -> 256 <= pdir_index v -> pte (mem s') N v = pte (mem s) N v) /\ phys s' = phys s /\
    (data_frame P s src -> src <> d ->
     forall x, 0 <= x < 4096 -> get_byte (mem s') (d + x) = get_byte (mem s) (src + x)).
Proof.
  intros Hp Hr HdP HdN Hsrc Hrev0 Hrev.
  destruct (vm_cpy_pp_run P w1 w2 d src s (pr_P _ _ _ Hp) Hr HdP Hsrc Hrev0 Hrev) as (s' & Hrun & [K1 F1 V1 O1 B1]).
  destruct (vm_cpy_pp_run N w1 w2 d src s (pr_N _ _ _ Hp) Hr HdN Hsrc Hrev0 Hrev) as (s'' & Hrun' & [K2 F2 V2 O2 B2]).
  assert (s'' = s') as -> by congruence. exists s'. split; [done|].
  destruct (sides_kstep P N (fun g => g = d) 4 s s') as [Hs HN]; try done.
  - lia.
  - intros E. by apply (df_P _ _ _ HdP).
  - intros E. by apply (df_P _ _ _ HdN).
  - split_and!; [done|done|exact (ks_phys _ _ _ K1)|auto].
Qed.

(** ** One page *)

Lemma flags_of e : 0 <= getflags e < 4096 /\ present (getflags e) = present e.
Proof.
  rewrite getflags_eq. split; [apply Z.mod_pos_bound; lia|]. unfold present.
  change 4096 with (2 ^ 12). by rewrite Z.mod_pow2_bits_low by lia.
Qed.

Lemma supplies_after k ph ph' :
  supplies (Datatypes.S k) ph -> ph' = ph \/ ph' = (fs_alloc ph).2 -> supplies k ph'.
Proof. intros Hs [-> | ->]; [by apply (supplies_less (Datatypes.S k)); [lia|]|apply Hs]. Qed.

(** The page [v] of the child is the frame [q], with the bytes of [src]. *)
Record cloned (P N v q src flags : Z) (s s' : vm S) : Prop := {
  cl_sides : sides P N (fun _ => False) 4 s s';
  cl_fresh : fs_avail (phys s) (q / 4096);
  cl_P : data_frame P s' q;
  cl_N : data_frame N s' q;
  cl_maps : maps_to (pte (mem s') N v) q flags;
  cl_out u : is_u32 u -> 256 <= pdir_index u -> u / 4096 <> v / 4096 -> pte (mem s') N u = pte (mem s) N u;
  cl_bytes x : 0 <= x < 4096 -> get_byte (mem s') (q + x) = get_byte (mem s) (src + x);
}.

Lemma clone_entry_run P N w1 w2 v e s :
  pair P N s -> rooms w1 w2 s -> frame_addr v -> 0x40000000 <= v -> present e = true ->
  data_frame P s (getaddr e) -> data_frame N s (getaddr e) -> supplies 2 (phys s) ->
  0 <= kpdir_rev s -> kpdir_rev s + 4 < 2 ^ 32 ->
  exists q s', clone_entry N v e s = Ok (true, s') /\ cloned P N v q (getaddr e) (getflags e) s s' /\
    forall k, supplies (2 + k) (phys s) -> supplies k (phys s').
Proof.
  intros Hp Hr Hv Hge He SrcP SrcN (Hs1 & Hs2 & _) Hrev0 Hrev. destruct (flags_of e) as [Hf Hpf].
  destruct (sides_alloc P N s Hp Hs1) as (q & s1 & Hal & Hq & E1 & Sd1 & QP1 & QN1 & Hav).
  assert (phys s1 = (fs_alloc (phys s)).2) as Ep1 by (by rewrite E1).
  destruct (sides_map P N q v (getflags e) s1 (sd_pair _ _ _ _ _ _ Sd1) (df_frame _ _ _ QP1) Hv Hge Hf)
    as (s2 & Hmap & Sd2 & Hto & Hout & Hph2); [congruence|by rewrite Ep1|].
  destruct (sd_data _ _ _ _ _ _ Sd2 q QP1 QN1) as [QP2 QN2].
  pose proof (sides_trans _ _ _ _ _ _ _ _ Sd1 Sd2) as Sd12. pose proof (sd_rev _ _ _ _ _ _ Sd12) as Hrv.
  destruct (sides_copy P N w1 w2 q (getaddr e) s2 (sd_pair _ _ _ _ _ _ Sd2)
    (rooms_keep _ _ _ _ Hr (sd_kept _ _ _ _ _ _ Sd12)) QP2 QN2 (df_frame _ _ _ SrcP)) as (s3 & Hcp & Sd3 & HN3 & Hph3 & Hb3);
    [lia|lia|].
  assert (~ data_frame P s q) as Hnq by (intros Hd; by apply (df_used _ _ _ Hd)).
  assert (sides P N (fun _ => False) 4 s s3) as Sd.
  { apply (sides_weaken P N (fun g => g = q) _ 4 4); [by intros g -> Hd|lia|].
    apply (sides_trans P N _ 0 4 s s2); [|done]. by apply (sides_weaken P N (fun _ => False) (fun g => g = q) 0 0). }
  exists q, s3. split; [|split; [constructor; try done|]].
  - unfold clone_entry. rewrite (run_bind _ _ _ _ _ Hal), (proj2 (Z.eqb_neq _ _) Hq).
    by rewrite (run_bind _ _ _ _ _ Hmap), (run_bind _ _ _ _ _ Hcp).
  - by apply (sd_data _ _ _ _ _ _ Sd3).
  - by apply (sd_data _ _ _ _ _ _ Sd3).
  - rewrite HN3; [done|apply Hv|]. by apply user_slot; [apply Hv|].
  - intros u Hu Hi Hne. rewrite HN3 by done. rewrite Hout by done. by rewrite E1.
  - intros x Hx. destruct (sd_data _ _ _ _ _ _ Sd12 _ SrcP SrcN) as [SrcP2 _].
    assert (getaddr e <> q) as Hsq by (intros E; apply Hnq; by rewrite <- E). rewrite Hb3 by done.
    apply get_byte_frame; [apply SrcP|done|]. exact (sd_same _ _ _ _ _ _ Sd12 _ SrcP SrcN id).
  - intros k Hk. rewrite Hph3. apply (supplies_after k (phys s1)); [|done]. rewrite Ep1. apply Hk.
Qed.

(** ** The page of the working table *)

Lemma table_not_wtm Q s i t : pdir_wf Q s -> i <> 255 -> is_table s Q i t -> t <> working_table_map s.
Proof.
  intros Hwf Hi (Hir & Hp & <-). destruct (wf_tab _ _ Hwf i Hir Hp) as (_ & _ & _ & Hw). by apply Hw.
Qed.

Lemma wtm_kstep P s s' :
  spaces P s -> step (fun g => g = working_table_map s) s s' -> phys s' = phys s -> kstep P s s' /\ kept_free s s'.
Proof.
  intros Hsp St Hph. pose proof Hsp as [WK WP HKP HKs HPs].
  assert (forall Q, pdir_wf Q s -> same_frame Q s s') as Hdir.
  { intros Q WQ. apply (st_same _ _ _ St); [apply (wf_pdir _ _ WQ)|]. intros E. by apply (wf_wtm_pdir _ _ WQ). }
  assert (forall Q v, pdir_wf Q s -> is_u32 v -> pdir_index v <> 255 -> pte (mem s') Q v = pte (mem s) Q v) as Hpte.
  { intros Q v WQ Hv Hi. apply same_pte; [done|by apply Hdir|]. intros t Ht.
    apply (st_same _ _ _ St); [apply (table_used _ _ _ _ WQ Ht)|]. by apply (table_not_wtm Q s (pdir_index v)). }
  destruct (spaces_touch P _ s s' Hsp St (Hdir _ WK) (Hdir _ WP)) as [Hsp' Hd].
  split; [constructor; try done|constructor].
  - intros v Hv Hi. apply Hpte; [done|done|lia].
  - exact (st_kernel _ _ _ St).
  - exact (st_wtm _ _ _ St).
  - exact (st_paging _ _ _ St).
  - by apply Hdir.
  - exact (st_kernel _ _ _ St).
  - by apply Hdir.
  - intros v Hv Hi Hf. rewrite Hpte; [done|done|apply Hv|lia].
Qed.

Lemma sides_wtm P N s s' :
  pair P N s -> step (fun g => g = working_table_map s) s s' -> phys s' = phys s -> kpdir_rev s' = kpdir_rev s ->
  sides P N (fun _ => False) 0 s s' /\
  forall v, is_u32 v -> 256 <= pdir_index v -> pte (mem s') N v = pte (mem s) N v.
Proof.
  intros Hp St Hph Hrev. destruct (wtm_kstep P s s' (pr_P _ _ _ Hp) St Hph) as [KP Kf].
  destruct (wtm_kstep N s s' (pr_N _ _ _ Hp) St Hph) as [KN _].
  assert (forall Q q, data_frame Q s q -> ~ False -> same_frame q s s') as Hd.
  { intros Q q Hq _. apply (st_same _ _ _ St); [apply Hq|]. apply (df_wtm _ _ _ Hq). }
  apply sides_kstep; try done; [lia|by apply Hd|by apply Hd|tauto|tauto].
Qed.

Lemma map_working_page P N q flags s :
  pair P N s -> frame_addr q -> is_table s N 255 (working_table_map s) ->
  exists s', vm_force_map N q MAP_TABLE_VADDR flags s = Ok (tt, s') /\ phys s' = phys s /\
    sides P N (fun _ => False) 0 s s' /\
    forall v, is_u32 v -> 256 <= pdir_index v -> pte (mem s') N v = pte (mem s) N v.
Proof.
  intros Hp [_ Hqa] (_ & Hpr & Ht). pose proof (pr_N _ _ _ Hp) as [_ WN HKN _ _]. set (t := working_table_map s) in *.
  pose proof (wf_wtm _ _ WN) as Hwt. fold t in Hwt.
  destruct (working_fields t s) as (E1 & E2 & E3 & E4 & E5).
  set (s1 := working t s) in *. set (s2 := set_mem (<[cell t 1023 := Z.lor q flags]> (mem s1)) s1).
  exists s2. split.
  - unfold vm_force_map, do_map. rewrite (proj2 (aligned_spec q)) by done.
    change (IS_PAGE_ALIGNED MAP_TABLE_VADDR) with true. rewrite !(run_bind _ _ s tt s) by done.
    rewrite (run_bind _ _ s t s1).
    + rewrite (run_bind _ _ _ _ _ eq_refl). cbn [negb andb]. change (ptab_index MAP_TABLE_VADDR) with 1023.
      rewrite (run_bind _ _ s1 tt s2) by done. unfold bump_rev. rewrite (run_bind _ _ _ _ _ eq_refl).
      rewrite (proj2 (Z.eqb_neq N (kernel_pdir s2))); [done|]. change (kernel_pdir s2) with (kernel_pdir s1). congruence.
    + unfold do_map_table. rewrite (run_bind _ _ s _ s eq_refl). change (pdir_index MAP_TABLE_VADDR) with 255.
      rewrite bnotset_present, Hpr, Ht. by apply map_working_run.
  - split; [done|]. apply sides_wtm; try done. fold t. eapply step_trans; [by apply working_step|].
    fold s1. apply write_step; [done|lia|done].
Qed.

(** The loop comes across the page the working table is mapped at; its copy is lost with the next
    table that is mapped there. *)
Lemma clone_working_run P N w1 w2 e s :
  pair P N s -> rooms w1 w2 s -> is_table s N 255 (working_table_map s) -> getaddr e = working_table_map s ->
  supplies 1 (phys s) -> 0 <= kpdir_rev s -> kpdir_rev s + 4 < 2 ^ 32 ->
  exists s', clone_entry N MAP_TABLE_VADDR e s = Ok (true, s') /\ sides P N (fun _ => False) 4 s s' /\
    (forall v, is_u32 v -> 256 <= pdir_index v -> pte (mem s') N v = pte (mem s) N v) /\
    forall k, supplies (1 + k) (phys s) -> supplies k (phys s').
Proof.
  intros Hp Hr Ht He (Hs1 & _) Hrev0 Hrev. pose proof (wf_wtm _ _ (sp_K _ _ (pr_P _ _ _ Hp))) as Hwt.
  destruct (sides_alloc P N s Hp Hs1) as (q & s1 & Hal & Hq & E1 & Sd1 & QP1 & QN1 & Hav).
  destruct (map_working_page P N q (getflags e) s1 (sd_pair _ _ _ _ _ _ Sd1) (df_frame _ _ _ QP1))
    as (s2 & Hmap & Hph2 & Sd2 & HN2); [by rewrite E1|].
  destruct (sd_data _ _ _ _ _ _ Sd2 q QP1 QN1) as [QP2 QN2].
  pose proof (sides_trans _ _ _ _ _ _ _ _ Sd1 Sd2) as Sd12. pose proof (sd_rev _ _ _ _ _ _ Sd12) as Hrv.
  destruct (sides_copy P N w1 w2 q (getaddr e) s2 (sd_pair _ _ _ _ _ _ Sd2)
    (rooms_keep _ _ _ _ Hr (sd_kept _ _ _ _ _ _ Sd12)) QP2 QN2) as (s3 & Hcp & Sd3 & HN3 & Hph3 & _);
    [by rewrite He|lia|lia|].
  exists s3. split_and!.
  - unfold clone_entry. rewrite (run_bind _ _ _ _ _ Hal), (proj2 (Z.eqb_neq _ _) Hq).
    by rewrite (run_bind _ _ _ _ _ Hmap), (run_bind _ _ _ _ _ Hcp).
  - apply (sides_weaken P N (fun g => g = q) _ 4 4); [intros g -> Hd; by apply (df_used _ _ _ Hd)|lia|].
    apply (sides_trans P N _ 0 4 s s2); [|done]. by apply (sides_weaken P N (fun _ => False) (fun g => g = q) 0 0).
  - intros v Hv Hi. rewrite HN3, HN2 by done. by rewrite E1.
  - intros k Hk. rewrite Hph3, Hph2, E1. apply Hk.
Qed.

(** ** All pages *)

Definition user_addr (v : Z) : Prop := is_u32 v /\ 0x40000000 <= v.

Lemma user_addr_slot v : user_addr v -> is_u32 v /\ 256 <= pdir_index v.
Proof. intros [Hv Hge]. split; [done|]. by apply user_slot. Qed.

(** The pages of the process are mapped to frames that hold data. *)
Definition user_frames (P : Z) (s : vm S) : Prop :=
  forall v, user_addr v -> present (pte (mem s) P v) = true -> data_frame P s (getaddr (pte (mem s) P v)).

(** The page of the child at [v] is a copy in [s] of the page the parent has in [s0]. *)
Record copy_of (P N : Z) (s0 s : vm S) (v : Z) : Prop := {
  co_maps : maps_to (pte (mem s) N v) (getaddr (pte (mem s) N v)) (getflags (pte (mem s0) P v));
  co_P : data_frame P s (getaddr (pte (mem s) N v));
  co_N : data_frame N s (getaddr (pte (mem s) N v));
  co_fresh : fs_avail (phys s0) (getaddr (pte (mem s) N v) / 4096);
  co_bytes x : 0 <= x < 4096 ->
    get_byte (mem s) (getaddr (pte (mem s) N v) + x) = get_byte (mem s0) (getaddr (pte (mem s0) P v) + x);
}.

(** The child has copies of the pages of [X], each in a frame of its own, and nothing else. *)
Record child (P N : Z) (X : Z -> Prop) (k : Z) (s0 s : vm S) : Prop := {
  ch_sides : sides P N (fun _ => False) k s0 s;
  ch_copy v : user_addr v -> X (v / 4096) -> present (pte (mem s0) P v) = true -> copy_of P N s0 s v;
  ch_absent v : user_addr v -> ~ (X (v / 4096) /\ present (pte (mem s0) P v) = true) ->
    present (pte (mem s) N v) = false;
  ch_inj u v : user_addr u -> user_addr v -> present (pte (mem s) N u) = true -> present (pte (mem s) N v) = true ->
    getaddr (pte (mem s) N u) = getaddr (pte (mem s) N v) -> u / 4096 = v / 4096;
}.

Lemma child_ext P N (X Y : Z -> Prop) k s0 s :
  (forall v, user_addr v -> X (v / 4096) <-> Y (v / 4096)) -> child P N X k s0 s -> child P N Y k s0 s.
Proof.
  intros HX [C1 C2 C3 C4]. constructor; [done| | |done].
  - intros v Hv Hy. apply C2; [done|]. by apply HX.
  - intros v Hv Hn. apply C3; [done|]. intros [Hx Hp]. apply Hn. split; [by apply HX|done].
Qed.

(** Steps that leave the pages of the child alone. *)
Lemma child_quiet P N X k k' s0 s s' :
  child P N X k s0 s -> sides P N (fun _ => False) k' s s' ->
  (forall v, is_u32 v -> 256 <= pdir_index v -> pte (mem s') N v = pte (mem s) N v) ->
  child P N X (k + k') s0 s'.
Proof.
  intros [C1 C2 C3 C4] Sd HN.
  assert (forall v, user_addr v -> pte (mem s') N v = pte (mem s) N v) as HN'
    by (intros v Hv; apply HN; by apply user_addr_slot).
  constructor; [by apply (sides_trans P N _ k k' s0 s)| | |].
  - intros v Hv Hx Hp. destruct (C2 v Hv Hx Hp) as [D1 D2 D3 D4 D5]. constructor; rewrite HN' by done; try done.
    + by apply (sd_data _ _ _ _ _ _ Sd).
    + by apply (sd_data _ _ _ _ _ _ Sd).
    + intros x Hxr. rewrite <- D5 by done.
      apply get_byte_frame; [apply D2|done|exact (sd_same _ _ _ _ _ _ Sd _ D2 D3 id)].
  - intros v Hv Hn. rewrite HN' by done. by apply C3.
  - intros u v Hu Hv. rewrite !HN' by done. by apply C4.
Qed.

(** A page the parent does not have. *)
Lemma child_skip P N X k s0 s a :
  child P N X k s0 s -> present (pte (mem s0) P a) = false -> child P N (fun p => X p \/ p = a / 4096) k s0 s.
Proof.
  intros [C1 C2 C3 C4] Ha. assert (forall v, v / 4096 = a / 4096 -> present (pte (mem s0) P v) = false) as Hpg
    by (intros v E; by rewrite (same_page_pte _ _ v a E)).
  constructor; try done.
  - intros v Hv [Hx|E] Hp; [by apply C2|]. rewrite Hpg in Hp by done. done.
  - intros v Hv Hn. apply C3; [done|]. tauto.
Qed.

(** A page the parent has is cloned. *)
Lemma child_add P N (X : Z -> Prop) k s0 s s' a q :
  child P N X k s0 s -> user_addr a -> ~ X (a / 4096) -> present (pte (mem s0) P a) = true ->
  data_frame P s0 (getaddr (pte (mem s0) P a)) -> data_frame N s0 (getaddr (pte (mem s0) P a)) ->
  cloned P N a q (getaddr (pte (mem s0) P a)) (getflags (pte (mem s0) P a)) s s' ->
  child P N (fun p => X p \/ p = a / 4096) (k + 4) s0 s'.
Proof.
  intros [C1 C2 C3 C4] Ha Hna Hpa SrcP SrcN [L1 L2 L3 L4 L5 L6 L7].
  destruct (flags_of (pte (mem s0) P a)) as [Hf Hpf].
  pose proof (maps_to_getaddr _ q _ (df_frame _ _ _ L3) Hf L5) as Hga.
  assert (forall v, user_addr v -> v / 4096 <> a / 4096 -> pte (mem s') N v = pte (mem s) N v) as Hout
    by (intros v Hv Hne; apply L6; [apply Hv|by apply user_addr_slot|done]).
  assert (forall v, user_addr v -> v / 4096 <> a / 4096 -> present (pte (mem s') N v) = true ->
    getaddr (pte (mem s') N v) <> q) as Hdiff.
  { intros v Hv Hne Hp E. rewrite Hout in Hp, E by done.
    destruct (present (pte (mem s0) P v)) eqn:Hpv; [|rewrite C3 in Hp; [done|done|intros [_ ?]; congruence]].
    assert (~ ~ X (v / 4096)) as Hx by (intros Hx; rewrite C3 in Hp; [done|done|tauto]).
    apply Hx. intros HX. pose proof (co_P _ _ _ _ _ (C2 v Hv HX Hpv)) as Hd. rewrite E in Hd.
    by apply (df_used _ _ _ Hd). }
  constructor; [by apply (sides_trans P N _ k 4 s0 s)| | |].
  - intros v Hv Hx Hp. destruct (Z.eq_dec (v / 4096) (a / 4096)) as [E|Hne].
    + assert (forall m Q, pte m Q v = pte m Q a) as Epg by (intros; by apply same_page_pte).
      constructor; rewrite !Epg, ?Hga; try done; [by apply (sd_avail _ _ _ _ _ _ C1)|].
      intros x Hxr. rewrite L7 by done. apply get_byte_frame; [apply SrcP|done|].
      exact (sd_same _ _ _ _ _ _ C1 _ SrcP SrcN id).
    + destruct Hx as [Hx|]; [|done]. destruct (C2 v Hv Hx Hp) as [D1 D2 D3 D4 D5].
      constructor; rewrite Hout by done; try done.
      * by apply (sd_data _ _ _ _ _ _ L1).
      * by apply (sd_data _ _ _ _ _ _ L1).
      * intros x Hxr. rewrite <- D5 by done.
        apply get_byte_frame; [apply D2|done|exact (sd_same _ _ _ _ _ _ L1 _ D2 D3 id)].
  - intros v Hv Hn. destruct (Z.eq_dec (v / 4096) (a / 4096)) as [E|Hne].
    + exfalso. apply Hn. split; [by right|]. by rewrite (same_page_pte _ _ v a E).
    + rewrite Hout by done. apply C3; [done|tauto].
  - intros u v Hu Hv Hpu Hpv E.
    destruct (Z.eq_dec (u / 4096) (a / 4096)) as [Eu|Hu'], (Z.eq_dec (v / 4096) (a / 4096)) as [Ev|Hv']; [congruence| | |].
    + exfalso. apply (Hdiff v Hv Hv' Hpv). by rewrite <- E, (same_page_pte _ _ u a Eu).
    + exfalso. apply (Hdiff u Hu Hu' Hpu). by rewrite E, (same_page_pte _ _ v a Ev).
    + rewrite !Hout in * by done. by apply C4.
Qed.

Lemma bind_seq {A B C} (m : M (vm S) A) (f : A -> M (vm S) B) (g : B -> M (vm S) C) s :
  (a ← m; b ← f a; g b) s = (b ← (a ← m; f a); g b) s.
Proof. unfold mbind, M_bind. by destruct (m s) as [[a s1]| |]. Qed.

Lemma present_truth e : present e = true -> truth e = true.
Proof. intros He. unfold truth. destruct (Z.eqb_spec e 0) as [->|]; done. Qed.

(** The frames of the parent hold data to the child, too. *)
Definition shared_frames (P N : Z) (s : vm S) : Prop :=
  forall v, user_addr v -> present (pte (mem s) P v) = true ->
    data_frame P s (getaddr (pte (mem s) P v)) /\ data_frame N s (getaddr (pte (mem s) P v)).

(** The turn of the loop for the page at [a]; [b] is answered for a page that is not there. *)
Lemma clone_page_run P N X k s0 s w1 w2 a b :
  child P N X k s0 s -> shared_frames P N s0 -> rooms w1 w2 s -> frame_addr a -> 0x40000000 <= a -> ~ X (a / 4096) ->
  supplies 2 (phys s) -> 0 <= kpdir_rev s -> kpdir_rev s + 4 < 2 ^ 32 ->
  exists ok s', (e ← get_ptab_entry P a; if truth e then clone_entry N a e else mret b) s = Ok (ok, s') /\
    (ok = true \/ ok = b) /\ child P N (fun p => X p \/ p = a / 4096) (k + 4) s0 s' /\ rooms w1 w2 s' /\
    0 <= kpdir_rev s' <= kpdir_rev s + 4 /\ forall j, supplies (2 + j) (phys s) -> supplies j (phys s').
Proof.
  intros Hc Hsh Hr Ha Hge Hna Hsup Hrev0 Hrev. assert (user_addr a) as Hu by (split; [apply Ha|done]).
  destruct (user_addr_slot a Hu) as [Hau Hai]. pose proof (ch_sides _ _ _ _ _ _ Hc) as Sd0.
  destruct (sides_entry P N w1 a s (sd_pair _ _ _ _ _ _ Sd0) (rm_1 _ _ _ Hr) Hau) as (s1 & Hge1 & Sd1 & HN1 & Hph1).
  rewrite (run_bind _ _ _ _ _ Hge1). pose proof (sides_trans _ _ _ _ _ _ _ _ Sd0 Sd1) as Sd01.
  rewrite (sd_parent _ _ _ _ _ _ Sd01 a Hau Hai). pose proof (child_quiet _ _ _ _ _ _ _ _ Hc Sd1 HN1) as Hc1.
  pose proof (rooms_keep _ _ _ _ Hr (sd_kept _ _ _ _ _ _ Sd1)) as Hr1.
  destruct (sd_rev _ _ _ _ _ _ Sd1) as [Hrv0 Hrv1]. specialize (Hrv0 Hrev0).
  destruct (present (pte (mem s0) P a)) eqn:Hp.
  - rewrite present_truth by done. destruct (Hsh a Hu Hp) as [SrcP SrcN].
    destruct (sd_data _ _ _ _ _ _ Sd01 _ SrcP SrcN) as [SrcP1 SrcN1].
    destruct (clone_entry_run P N w1 w2 a (pte (mem s0) P a) s1 (sd_pair _ _ _ _ _ _ Sd1) Hr1 Ha Hge Hp SrcP1 SrcN1)
      as (q & s2 & Hcl & Hcd & Hsup2); [by rewrite Hph1|lia|lia|].
    pose proof (cl_sides _ _ _ _ _ _ _ _ Hcd) as Sd2. destruct (sd_rev _ _ _ _ _ _ Sd2) as [Hrv2 Hrv3].
    exists true, s2. split_and!; [done|by left| |by eapply rooms_keep; [|apply Sd2]|lia|lia|by rewrite <- Hph1].
    replace (k + 4) with (k + 0 + 4) by lia. by apply (child_add P N X (k + 0) s0 s1 s2 a q).
  - change (truth 0) with false. exists b, s1. split_and!; [done|by right| |done|lia|lia|].
    + pose proof (child_skip _ _ _ _ _ _ _ Hc1 Hp) as [C1 C2 C3 C4].
      constructor; try done. apply (sides_weaken P N (fun _ => False) _ (k + 0) (k + 4)); [done|lia|done].
    + intros j Hj. rewrite Hph1. apply (supplies_less (2 + j)); [lia|done].
Qed.

(** The pages of the user space, from [a] on up to the break. *)
Lemma clone_user_run P N w1 w2 brk s0 m : forall n a k s,
  child P N (fun p => 0x40000 <= p < a / 4096) k s0 s -> shared_frames P N s0 -> rooms w1 w2 s ->
  frame_addr a -> frame_addr brk -> 0x40000000 <= a -> a + Z.of_nat m * 4096 = brk -> (m < n)%nat ->
  supplies (2 * m) (phys s) -> 0 <= kpdir_rev s -> kpdir_rev s + 4 * Z.of_nat m < 2 ^ 32 ->
  exists s', clone_pages n N P a brk s = Ok (true, s') /\
    child P N (fun p => 0x40000 <= p < brk / 4096) (k + 4 * Z.of_nat m) s0 s' /\ rooms w1 w2 s' /\
    0 <= kpdir_rev s' <= kpdir_rev s + 4 * Z.of_nat m /\
    forall j, supplies (2 * m + j) (phys s) -> supplies j (phys s').
Proof.
  induction m as [|m IH]; intros [|n] a k s Hc Hsh Hr Ha Hb Hge Hend Hn Hsup Hrev0 Hrev; try lia; cbn [clone_pages].
  { assert (a = brk) as -> by lia. rewrite Z.ltb_irrefl. exists s.
    split_and!; [done| |done|lia|lia|done]. by replace (k + 4 * Z.of_nat 0) with k by lia. }
  rewrite (proj2 (Z.ltb_lt a brk)) by lia. rewrite bind_seq.
  destruct (clone_page_run P N _ k s0 s w1 w2 a true Hc Hsh Hr Ha Hge) as (ok & s1 & Hrun & Hok & Hc1 & Hr1 & Hrv1 & Hs1);
    [lia|by apply (supplies_less (2 * Datatypes.S m)); [lia|]|lia|lia|].
  assert (ok = true) as -> by (by destruct Hok). rewrite (run_bind _ _ _ _ _ Hrun), PAGE_SIZE_eq.
  destruct Ha as [Hau Haa], Hb as [Hbu Hba]. rewrite u32_small by (unfold is_u32 in *; lia).
  destruct (IH n (a + 4096) (k + 4) s1) as (s2 & Hrun2 & Hc2 & Hr2 & Hrv2 & Hs2); try done; try lia.
  - apply (child_ext P N (fun p => 0x40000 <= p < a / 4096 \/ p = a / 4096)); [|done].
    intros v Hv. dlia.
  - split; [unfold is_u32 in *; lia|dlia].
  - apply Hs1. by replace (2 + 2 * m)%nat with (2 * Datatypes.S m)%nat by lia.
  - exists s2. split_and!; [done| |done|lia|lia|].
    + by replace (k + 4 * Z.of_nat (Datatypes.S m)) with (k + 4 + 4 * Z.of_nat m) by lia.
    + intros j Hj. apply Hs2, Hs1. by replace (2 + (2 * m + j))%nat with (2 * Datatypes.S m + j)%nat by lia.
Qed.

(** ** The info space

    The loop starts behind the kernel space.  Up to the user space there is the page of the
    working table and the page [sys_getcmdline] maps on demand; here no command line is mapped. *)
Record info_empty (P : Z) (s : vm S) : Prop := {
  ie_paging : paging_enabled s = true;
  ie_slots i : 192 <= i < 255 -> present (word (mem s) (cell P i)) = false;
  ie_P : is_table s P 255 (working_table_map s);
  ie_K : is_table s (kernel_pdir s) 255 (working_table_map s);
  ie_pages v : 0x3FC00000 <= v < MAP_TABLE_VADDR -> present (pte (mem s) (kernel_pdir s) v) = false;
}.

Lemma slot_255 v : 0x3FC00000 <= v < 0x40000000 -> is_u32 v /\ pdir_index v = 255.
Proof.
  intros Hv. split; [unfold is_u32; lia|]. unfold pdir_index, addr2page. rewrite PAGE_SIZE_eq. unfold PDIR_LEN. dlia.
Qed.

Lemma info_page v : 0x3FC00000 <= v < MAP_TABLE_VADDR -> user_page v.
Proof.
  intros Hv. unfold MAP_TABLE_VADDR in *. split; [unfold is_u32; lia|]. unfold MAP_TABLE_VADDR. dlia.
Qed.

Lemma info_keep P s s' :
  info_empty P s -> same_frame P s s' -> same_frame (kernel_pdir s) s s' -> kernel_pdir s' = kernel_pdir s ->
  working_table_map s' = working_table_map s -> paging_enabled s' = paging_enabled s ->
  (forall v, 0x3FC00000 <= v < MAP_TABLE_VADDR -> pte (mem s') (kernel_pdir s) v = pte (mem s) (kernel_pdir s) v) ->
  info_empty P s'.
Proof.
  intros [I1 I2 I3 I4 I5] SP SK EK EW EP Hpte. constructor; rewrite ?EK, ?EW; [congruence| | | |].
  - intros i Hi. rewrite SP by lia. by apply I2.
  - by apply (same_table _ s s').
  - by apply (same_table _ s s').
  - intros v Hv. rewrite Hpte by done. by apply I5.
Qed.

Lemma working_info P N t s : pair P N s -> info_empty P s -> info_empty P (working t s).
Proof.
  intros Hp Hi. pose proof (pr_P _ _ _ Hp) as [WK WP _ _ _]. destruct (working_fields t s) as (E1 & E2 & E3 & E4 & E5).
  apply (info_keep P s); try done.
  - intros i Hir. by apply working_pdir.
  - intros i Hir. by apply working_pdir.
  - intros v Hv. apply working_pte; [done|]. by apply info_page.
Qed.

(** A page of the info space that is not there. *)
Lemma info_entry P N a s :
  pair P N s -> info_empty P s -> 0x30000000 <= a < MAP_TABLE_VADDR ->
  exists s', get_ptab_entry P a s = Ok (0, s') /\ (s' = s \/ s' = working (working_table_map s) s).
Proof.
  intros Hp Hi Ha. pose proof (pr_P _ _ _ Hp) as [WK WP _ _ _]. pose proof Hi as [I1 I2 [_ [IP1 IP2]] [_ [IK1 IK2]] I5].
  unfold MAP_TABLE_VADDR in Ha. assert (192 <= pdir_index a <= 255) as Hsl.
  { unfold pdir_index, addr2page. rewrite PAGE_SIZE_eq. unfold PDIR_LEN. dlia. }
  unfold get_ptab_entry, rd, gets, mbind, M_bind. cbn beta iota. rewrite bnotset_present.
  destruct (Z.eq_dec (pdir_index a) 255) as [E|]; [|rewrite I2 by lia; exists s; split; [done|by left]].
  assert (0x3FC00000 <= a) as Hge.
  { revert E. unfold pdir_index, addr2page. rewrite PAGE_SIZE_eq. unfold PDIR_LEN. dlia. }
  rewrite E, IP1, IP2. cbn [negb]. set (t := working_table_map s) in *. rewrite map_working_run by apply (wf_wtm _ _ WK).
  exists (working t s). split; [|by right].
  assert (pte (mem (working t s)) (kernel_pdir s) a = word (mem (working t s)) (cell t (ptab_index a))) as Epte.
  { unfold pte. by rewrite E, (working_pdir (kernel_pdir s)), IK1, IK2. }
  pose proof (bisset_present (word (mem (working t s)) (cell t (ptab_index a)))) as Hb. unfold bisset in Hb.
  rewrite Hb, <- Epte, working_pte; [|done|apply info_page; unfold MAP_TABLE_VADDR; lia].
  by rewrite I5 by (unfold MAP_TABLE_VADDR; lia).
Qed.

Lemma clone_gap_run P N w1 w2 brk s0 X k n m : forall a s,
  child P N X k s0 s -> rooms w1 w2 s -> info_empty P s -> is_table s N 255 (working_table_map s) ->
  0x30000000 <= a -> a + Z.of_nat m * 4096 = MAP_TABLE_VADDR -> MAP_TABLE_VADDR <= brk ->
  exists s', clone_pages (m + n) N P a brk s = clone_pages n N P MAP_TABLE_VADDR brk s' /\
    child P N X k s0 s' /\ rooms w1 w2 s' /\ info_empty P s' /\ is_table s' N 255 (working_table_map s') /\
    phys s' = phys s /\ kpdir_rev s' = kpdir_rev s.
Proof.
  induction m as [|m IH]; intros a s Hc Hr Hi HN Ha Hend Hb; cbn [Nat.add clone_pages].
  { exists s. by replace a with MAP_TABLE_VADDR by lia. }
  unfold MAP_TABLE_VADDR in Hb, Hend. rewrite (proj2 (Z.ltb_lt a brk)) by lia.
  pose proof (ch_sides _ _ _ _ _ _ Hc) as Sd0. pose proof (sd_pair _ _ _ _ _ _ Sd0) as Hp.
  destruct (info_entry P N a s Hp Hi) as (s1 & Hrun & Hs1); [unfold MAP_TABLE_VADDR; lia|].
  rewrite (run_bind _ _ _ _ _ Hrun). change (truth 0) with false. rewrite (run_bind _ _ _ _ _ eq_refl).
  rewrite PAGE_SIZE_eq, u32_small by (unfold is_u32; lia).
  assert (child P N X k s0 s1 /\ rooms w1 w2 s1 /\ info_empty P s1 /\ is_table s1 N 255 (working_table_map s1) /\
    phys s1 = phys s /\ kpdir_rev s1 = kpdir_rev s) as (Hc1 & Hr1 & Hi1 & HN1 & Eph & Erv).
  { destruct Hs1 as [-> | ->]; [done|]. set (t := working_table_map s) in *.
    destruct (working_fields t s) as (E1 & E2 & E3 & E4 & E5). destruct (sides_working P N w1 t s Hp (rm_1 _ _ _ Hr)) as [Sd HNp].
    split_and!; try done.
    - replace k with (k + 0) by lia. by apply (child_quiet P N X k 0 s0 s).
    - eapply rooms_keep; [done|apply Sd].
    - by apply (working_info P N).
    - rewrite E3. apply (same_table _ s (working t s)); [|done]. intros i Hir.
      apply working_pdir; [apply (sp_P _ _ (pr_N _ _ _ Hp))|done]. }
  destruct (IH (a + 4096) s1 Hc1 Hr1 Hi1 HN1) as (s2 & Hrun2 & R1 & R2 & R3 & R4 & R5 & R6);
    [lia|unfold MAP_TABLE_VADDR; lia|unfold MAP_TABLE_VADDR; lia|].
  exists s2. split_and!; try done; congruence.
Qed.

(** The turn of the loop for the page of the working table. *)
Lemma clone_map_page_run P N w1 w2 brk s0 X k n s :
  child P N X k s0 s -> rooms w1 w2 s -> info_empty P s -> is_table s N 255 (working_table_map s) ->
  0x40000000 <= brk -> supplies 1 (phys s) -> 0 <= kpdir_rev s -> kpdir_rev s + 4 < 2 ^ 32 ->
  exists s', clone_pages (Datatypes.S n) N P MAP_TABLE_VADDR brk s = clone_pages n N P 0x40000000 brk s' /\
    child P N X (k + 4) s0 s' /\ rooms w1 w2 s' /\ 0 <= kpdir_rev s' <= kpdir_rev s + 4 /\
    forall j, supplies (1 + j) (phys s) -> supplies j (phys s').
Proof.
  intros Hc Hr [I1 _ [_ [IP1 IP2]] _ _] HN Hb Hsup Hrev0 Hrev. cbn [clone_pages].
  pose proof (sd_pair _ _ _ _ _ _ (ch_sides _ _ _ _ _ _ Hc)) as Hp. set (t := working_table_map s) in *.
  pose proof (wf_wtm _ _ (sp_K _ _ (pr_P _ _ _ Hp))) as Hwt. fold t in Hwt.
  destruct (working_fields t s) as (E1 & E2 & E3 & E4 & E5).
  destruct (sides_working P N w1 t s Hp (rm_1 _ _ _ Hr)) as [Sd1 HN1].
  set (e := Z.lor (Z.lor (Z.lor t PE_PRESENT) PE_READWRITE) PE_CACHEDISABLE).
  assert (getaddr e = t) as Ega by (unfold e; rewrite <- !Z.lor_assoc; by apply getaddr_entry; destruct Hwt).
  assert (present e = true) as Epr by (unfold e; by rewrite !present_lor, orb_true_r).
  assert (get_ptab_entry P MAP_TABLE_VADDR s = Ok (e, working t s)) as Hge.
  { unfold get_ptab_entry, rd, gets, mbind, M_bind. cbn beta iota. change (pdir_index MAP_TABLE_VADDR) with 255.
    rewrite bnotset_present, IP1, IP2. cbn [negb]. rewrite map_working_run by done.
    assert (word (mem (working t s)) (cell t (ptab_index MAP_TABLE_VADDR)) = e) as ->.
    { unfold working. rewrite I1. cbn [mem set_mem]. change (ptab_index MAP_TABLE_VADDR) with 1023.
      rewrite word_insert. fold t. by rewrite Z.eqb_refl. }
    pose proof (bisset_present e) as Hbp. unfold bisset in Hbp. by rewrite Hbp, Epr. }
  unfold MAP_TABLE_VADDR at 1. rewrite (proj2 (Z.ltb_lt _ brk)) by lia.
  rewrite (run_bind _ _ _ _ _ Hge), (present_truth e Epr). set (s1 := working t s) in *.
  destruct (clone_working_run P N w1 w2 e s1 (sd_pair _ _ _ _ _ _ Sd1) (rooms_keep _ _ _ _ Hr (sd_kept _ _ _ _ _ _ Sd1)))
    as (s2 & Hcl & Sd2 & HN2 & Hs2); [| |by rewrite E1|lia|lia|].
  { rewrite E3. apply (same_table _ s s1); [|done]. intros i Hir. apply working_pdir; [apply (sp_P _ _ (pr_N _ _ _ Hp))|done]. }
  { by rewrite Ega. }
  rewrite (run_bind _ _ _ _ _ Hcl). change (u32 (MAP_TABLE_VADDR + PAGE_SIZE)) with 0x40000000.
  pose proof (rooms_keep _ _ _ _ Hr (sd_kept _ _ _ _ _ _ Sd1)) as Hr1. destruct (sd_rev _ _ _ _ _ _ Sd2) as [Hrv1 Hrv2].
  exists s2. split_and!; [done| |by eapply rooms_keep; [|apply Sd2]|lia|lia|by rewrite <- E1].
  replace (k + 4) with (k + 0 + 4) by lia. eapply child_quiet; [|done|done]. by apply (child_quiet P N X k 0 s0 s).
Qed.

(** ** Creating an address space *)

Lemma copy_words_word dst src m g j :
  dst mod 4096 = 0 -> src mod 4096 = 0 -> g mod 4096 = 0 -> dst <> src -> 0 <= j < 1024 ->
  word (copy_words dst src m) (cell g j) = if dst =? g then word m (cell src j) else word m (cell g j).
Proof.
  intros Hd Hs Hg Hne Hj. unfold copy_words, PTAB_LEN.
  set (body := fun i m => <[cell dst i := word m (cell src i)]> m).
  cut (forall g i, g mod 4096 = 0 -> 0 <= i < 1024 ->
    word (for_each 1024 body m) (cell g i) = if (dst =? g) && (i <? 1024) then word m (cell src i) else word m (cell g i)).
  { intros ->; [|done|done]. rewrite (proj2 (Z.ltb_lt j 1024)) by lia. by rewrite andb_true_r. }
  apply (for_each_inv body (fun k m' => forall g i, g mod 4096 = 0 -> 0 <= i < 1024 ->
    word m' (cell g i) = if (dst =? g) && (i <? k) then word m (cell src i) else word m (cell g i))); [lia| |].
  - intros g' i _ Hi. rewrite (proj2 (Z.ltb_ge i 0)) by lia. by rewrite andb_false_r.
  - intros k m' Hk IH g' i Hg' Hi. unfold body. rewrite word_cell_insert by done. rewrite !IH by done.
    rewrite (proj2 (Z.eqb_neq dst src)) by done. cbn [andb].
    destruct (Z.eqb_spec dst g') as [->|]; cbn [andb]; [|done].
    destruct (Z.eqb_spec k i), (Z.ltb_spec i k), (Z.ltb_spec i (k + 1)); subst; (done || lia).
Qed.

(** The frame [N] holds a copy of the directory of the kernel. *)
Definition dir_copy (N : Z) (s : vm S) : Prop :=
  forall i, 0 <= i < 1024 -> word (mem s) (cell N i) = word (mem s) (cell (kernel_pdir s) i).

Lemma copy_table N s i t : dir_copy N s -> is_table s N i t <-> is_table s (kernel_pdir s) i t.
Proof. intros Hc. unfold is_table. split; intros (Hi & Hp & Ht); rewrite Hc in * by done; done. Qed.

Lemma copy_wf P N s : spaces P s -> data_frame P s N -> dir_copy N s -> pdir_wf N s.
Proof.
  intros [WK WP HKP HKs HPs] HN Hc. destruct WK as [W1 W2 W3 W4 W5 W6 Wt Wi]. constructor; try done.
  - apply HN.
  - apply (df_used _ _ _ HN).
  - apply not_eq_sym, (df_wtm _ _ _ HN).
  - intros i Hi. rewrite Hc by done. intros Hp. destruct (Wt i Hi Hp) as (? & ? & ? & ?). split_and!; try done.
    intros E. by apply (df_Ktab _ _ _ HN i).
  - intros i j Hi Hj. rewrite !Hc by done. by apply Wi.
Qed.

Lemma copy_data P N s q : spaces P s -> dir_copy N s -> data_frame P s q -> q <> N -> data_frame N s q.
Proof.
  intros Hsp Hc [D1 D2 D3 D4 D5 D6 D7] Hne. constructor; try done. intros j _ Ht%copy_table; [|done]. by apply (D6 j).
Qed.

Lemma copy_pair P N s : spaces P s -> data_frame P s N -> dir_copy N s -> pair P N s.
Proof.
  intros Hsp HN Hc. pose proof (copy_wf P N s Hsp HN Hc) as WN. pose proof Hsp as [WK WP HKP HKs HPs].
  assert (forall i t, 256 <= i -> ~ is_table s N i t) as Hno.
  { intros i t Hi Ht%copy_table; [|done]. destruct (HKs i t Ht). lia. }
  constructor; [done| | |done| |].
  - constructor; try done; [apply not_eq_sym, (df_K _ _ _ HN)| |].
    + intros i t Ht. split; [apply (HKs i t Ht)|]. intros ->. by apply (df_Ktab _ _ _ HN i).
    + intros i t Hi Ht. by destruct (Hno i t Hi).
  - constructor; try apply (wf_pdir _ _ WP); try apply (wf_pdir_used _ _ WP).
    + by apply not_eq_sym.
    + apply not_eq_sym, (df_P _ _ _ HN).
    + apply not_eq_sym, (wf_wtm_pdir _ _ WP).
    + intros j Ht. by destruct (HKs j P Ht).
    + intros j Hj Ht. by destruct (Hno j P Hj).
  - intros i t Hi Ht. destruct (table_used _ _ _ _ WP Ht) as [Hn Hf], (HPs i t Hi Ht) as [HtK Htab].
    constructor; try done.
    + intros ->. by apply (df_Ptab _ _ _ HN i).
    + apply (table_not_wtm P s i); [done|lia|done].
    + intros j Hj Ht'. by destruct (Hno j t Hj).
  - intros i t Hi Ht. by destruct (Hno i t Hi).
Qed.

(** A new address space: a copy of the kernel's in a frame of its own. *)
Record created (P N : Z) (s s' : vm S) : Prop := {
  cr_pair : pair P N s';
  cr_copy : dir_copy N s';
  cr_fresh : fs_avail (phys s) (N / 4096);
  cr_phys : phys s' = (fs_alloc (phys s)).2;
  cr_kernel : kernel_pdir s' = kernel_pdir s;
  cr_wtm : working_table_map s' = working_table_map s;
  cr_paging : paging_enabled s' = paging_enabled s;
  cr_slotsK : same_frame (kernel_pdir s) s s';
  cr_slotsP : same_frame P s s';
  cr_parent v : is_u32 v -> 256 <= pdir_index v -> pte (mem s') P v = pte (mem s) P v;
  cr_info v : user_page v -> 255 <= pdir_index v -> pte (mem s') (kernel_pdir s) v = pte (mem s) (kernel_pdir s) v;
  cr_data q : data_frame P s q -> data_frame P s' q /\ data_frame N s' q /\ same_frame q s s';
  cr_rooms : exists w1 w2, rooms w1 w2 s';
  cr_rev : 0 <= kpdir_rev s' <= kpdir_rev s + 1;
}.

(** The words of a frame are cleared and then copied. *)
Lemma copy_step N s :
  frame_addr N -> frame_addr (kernel_pdir s) -> N <> kernel_pdir s ->
  let s' := set_mem (copy_words N (kernel_pdir s) (clear_words N (mem s))) s in
  step (fun g => g = N) s s' /\ dir_copy N s'.
Proof.
  intros [HNu HNa] [HKu HKa] Hne s'. split.
  - constructor; try done. intros g [Hgu Hga] Hg j Hj. cbn. rewrite copy_words_word, !word_clear by done.
    by rewrite (proj2 (Z.eqb_neq N g)) by congruence.
  - intros i Hi. cbn [mem set_mem s' kernel_pdir]. rewrite !copy_words_word, !word_clear by done.
    rewrite Z.eqb_refl. by rewrite (proj2 (Z.eqb_neq N (kernel_pdir s))).
Qed.

(** Of three rooms one window leaves two. *)
Lemma rooms_left w1 w2 w3 a s s1 :
  rooms w1 w2 s -> rooms w1 w3 s -> rooms w2 w3 s -> kernel_pdir s1 = kernel_pdir s -> same_frame (kernel_pdir s) s s1 ->
  (forall v, user_page v -> v / 4096 <> a / 4096 -> pte (mem s1) (kernel_pdir s) v = pte (mem s) (kernel_pdir s) v) ->
  exists u1 u2, rooms u1 u2 s1.
Proof.
  intros [R1 R2 H12] [_ R3 H13] [_ _ H23] EK SK Hout.
  assert (forall w, window_room s w -> w / 4096 <> a / 4096 -> window_room s1 w) as Hk.
  { intros w [R F] Hne. split; [by apply (tables_keep w s)|]. rewrite EK, Hout; [done|apply R|done]. }
  destruct (Z.eq_dec (w1 / 4096) (a / 4096)) as [E1|E1].
  - exists w2, w3. constructor; [apply Hk; [done|congruence]..|done].
  - destruct (Z.eq_dec (w2 / 4096) (a / 4096)) as [E2|E2].
    + exists w1, w3. constructor; [apply Hk; [done|congruence]..|done].
    + exists w1, w2. by constructor; [apply Hk..|].
Qed.

Lemma vm_create_addrspace_run P w1 w2 w3 s :
  spaces P s -> rooms w1 w2 s -> rooms w1 w3 s -> rooms w2 w3 s -> (fs_alloc (phys s)).1 <> NO_PAGE ->
  0 <= kpdir_rev s -> kpdir_rev s + 1 < 2 ^ 32 ->
  exists N w s', vm_create_addrspace s = Ok (Some (MkAs N w), s') /\ created P N s s'.
Proof.
  intros Hsp R12 R13 R23 Hno Hrev0 Hrev. pose proof Hsp as [WK WP HKP HKs HPs].
  destruct (fs_alloc_spec (phys s) (wf_inv _ _ WK)) as [[E _]|(p & Ep & Hpr & Hav & Hav')]; [done|].
  destruct (fresh_data P s p Hsp Hav Hpr Ep Hav') as (Hsp1 & HN1 & Hd1 & Hne1).
  set (s1 := set_phys (fs_alloc (phys s)).2 s) in *. set (N := p * 4096) in *.
  assert (forall w, window_room s w -> window_room s1 w) as Hw1 by (intros w [[] ?]; by split; [constructor|]).
  destruct (window_open P w1 N 0 PAGE_SIZE s1 Hsp1 (Hw1 _ (rm_1 _ _ _ R12)) (df_frame _ _ _ HN1) ltac:(lia) ltac:(done)
    ltac:(done) Hrev0 Hrev) as (a & s2 & Hop & K2 & D2 & SK2 & Ha & Haw & _ & _ & Hout & Hrv2).
  pose proof (ks_kernel _ _ _ K2) as EK2. pose proof (ks_data _ _ _ K2 _ HN1) as HN2.
  destruct (copy_step N s2 (df_frame _ _ _ HN2) (wf_pdir _ _ (sp_K _ _ (ks_spaces _ _ _ K2))) (df_K _ _ _ HN2)) as [St3 Hc].
  set (s3 := set_mem (copy_words N (kernel_pdir s2) (clear_words N (mem s2))) s2) in *.
  destruct (data_kstep P N s2 s3 (ks_spaces _ _ _ K2) HN2 St3 eq_refl) as (K3 & Hpte3 & SK3 & SP3).
  rewrite EK2 in Hpte3, SK3. change (kernel_pdir s1) with (kernel_pdir s) in *. change (mem s1) with (mem s) in *.
  pose proof (kstep_trans _ _ _ _ K2 K3) as K13. rewrite Z.add_0_r, Z.add_0_r in Hop.
  assert (forall q, data_frame P s q -> same_frame q s s3) as Hsame.
  { intros q Hq j Hj. rewrite (st_same _ _ _ St3 q); [|apply Hq|by apply Hne1|done]. exact (D2 q (Hd1 q Hq) j Hj). }
  exists N, a, s3. split.
  { unfold vm_create_addrspace. rewrite (run_bind _ _ s N s1).
    - rewrite (proj2 (Z.eqb_neq N NO_PAGE)) by (unfold N, NO_PAGE; lia).
      rewrite (run_bind _ _ _ _ _ Hop), (run_bind _ _ _ _ _ eq_refl), (run_bind _ _ _ _ _ eq_refl). done.
    - unfold alloc_frame, s1, N. by destruct (fs_alloc (phys s)) as [r ph]; cbn in *; subst. }
  assert (forall v, user_page v -> v / 4096 <> a / 4096 -> pte (mem s3) (kernel_pdir s) v = pte (mem s) (kernel_pdir s) v) as Hout3
    by (intros v Hv Hne; rewrite Hpte3 by apply Hv; by apply Hout).
  assert (same_frame (kernel_pdir s) s s3) as SK by (intros i Hi; rewrite SK3 by done; by apply SK2).
  assert (0 <= kpdir_rev s3 <= kpdir_rev s + 1) as Hrv3 by exact Hrv2.
  clearbody s3. constructor.
  - apply copy_pair; [exact (ks_spaces _ _ _ K3)|exact (ks_data _ _ _ K3 _ HN2)|exact Hc].
  - exact Hc.
  - unfold N. by rewrite Z.div_mul.
  - exact (ks_phys _ _ _ K13).
  - exact (ks_kernel _ _ _ K13).
  - exact (ks_wtm _ _ _ K13).
  - exact (ks_paging _ _ _ K13).
  - exact SK.
  - exact (ks_slots _ _ _ K13).
  - exact (ks_user _ _ _ K13).
  - intros v Hv Hi. apply Hout3; [done|]. intros E. apply page_indices in E as [E _].
    destruct (below_window a w1 Ha ltac:(lia)) as [_ Hle]; [apply R12|]. pose proof (wr_slot _ _ (proj1 (rm_1 _ _ _ R12))). lia.
  - intros q Hq. pose proof (ks_data _ _ _ K13 _ (Hd1 q Hq)) as Hq3. split; [exact Hq3|]. split; [|exact (Hsame q Hq)].
    exact (copy_data P N s3 q (ks_spaces _ _ _ K13) Hc Hq3 (Hne1 q Hq)).
  - exact (rooms_left w1 w2 w3 a s s3 R12 R13 R23 (ks_kernel _ _ _ K13) SK Hout3).
  - exact Hrv3.
Qed.

(** ** The clone *)

Lemma no_child P N s :
  pair P N s -> dir_copy N s -> child P N (fun p => 0x40000 <= p < 0x40000000 / 4096) 0 s s.
Proof.
  intros Hp Hc. pose proof (pr_P _ _ _ Hp) as [WK _ _ HKs _].
  assert (forall v, user_addr v -> present (pte (mem s) N v) = false) as Hno.
  { intros v Hv. destruct (user_addr_slot v Hv) as [Hvu Hvi]. unfold pte.
    destruct (present (word (mem s) (cell N (pdir_index v)))) eqn:E; [|done].
    assert (is_table s N (pdir_index v) (getaddr (word (mem s) (cell N (pdir_index v))))) as Ht%copy_table
      by (split; [by apply pdir_index_range|done]); [|done]. destruct (HKs _ _ Ht). lia. }
  constructor; [by apply sides_refl| |auto|].
  - intros v Hv Hx. change (0x40000000 / 4096) with 0x40000 in Hx. lia.
  - intros u v Hu Hv Hpu. by rewrite Hno in Hpu.
Qed.

(** The pages [vm_clone_addrspace] copies: those below the break and the stack. *)
Definition clone_range (brk v : Z) : Prop := v < brk \/ v / 4096 = 0xFFFEF.

Definition user_store (Q v b : Z) (s : vm S) : vm S :=
  set_mem (put_byte (getaddr (pte (mem s) Q v) + v mod 4096) b (mem s)) s.

(** A byte stored to a frame of one process, seen by another that maps other frames. *)
Lemma store_elsewhere P q o b s v :
  spaces P s -> data_frame P s q -> 0 <= o < 4096 -> is_u8 b -> user_addr v ->
  data_frame P s (getaddr (pte (mem s) P v)) -> q <> getaddr (pte (mem s) P v) ->
  user_byte P (set_mem (put_byte (q + o) b (mem s)) s) v = user_byte P s v.
Proof.
  intros Hsp Hq Ho Hb Hv Hf Hne. destruct (user_addr_slot v Hv) as [Hvu Hvi].
  pose proof (store_step q o b s (df_frame _ _ _ Hq) Ho) as St.
  destruct (data_kstep P q s _ Hsp Hq St eq_refl) as (K & _). unfold user_byte.
  rewrite (ks_user _ _ _ K v Hvu Hvi). cbn [mem set_mem]. rewrite get_put_byte by done.
  destruct (df_frame _ _ _ Hq) as [_ Hqa], (df_frame _ _ _ Hf) as [_ Hfa].
  pose proof (Z.mod_pos_bound v 4096 ltac:(lia)).
  rewrite (proj2 (Z.eqb_neq _ _)); [done|]. intros E. apply Hne. dlia.
Qed.

Lemma created_info P N s s' :
  created P N s s' -> info_empty P s -> info_empty P s' /\ is_table s' N 255 (working_table_map s').
Proof.
  intros Hc Hi. assert (info_empty P s') as Hi'.
  { pose proof Hc as [_ _ _ _ EK EW EP SK SP _ _ _ _ _]. apply (info_keep P s s' Hi SP SK EK EW EP). intros v Hv. apply (cr_info _ _ _ _ Hc); [by apply info_page|].
    destruct (slot_255 v) as [_ ->]; [|done]. unfold MAP_TABLE_VADDR in Hv. lia. }
  split; [done|]. apply (copy_table N s'); [apply Hc|apply Hi'].
Qed.

Lemma created_frames P N s s' : created P N s s' -> user_frames P s -> shared_frames P N s'.
Proof.
  intros Hc Hu v Hv. destruct (user_addr_slot v Hv) as [Hvu Hvi]. rewrite (cr_parent _ _ _ _ Hc v Hvu Hvi).
  intros Hp. destruct (cr_data _ _ _ _ Hc _ (Hu v Hv Hp)) as (? & ? & _). done.
Qed.

(** What is needed to clone the address space [P] with the break [brk]: room for three windows of
    the kernel, frames, and a revision number of the kernel directory that does not overflow. *)
Record clonable (P brk : Z) (s : vm S) : Prop := {
  cn_spaces : spaces P s;
  cn_rooms : exists w1 w2 w3, rooms w1 w2 s /\ rooms w1 w3 s /\ rooms w2 w3 s;
  cn_info : info_empty P s;
  cn_frames : user_frames P s;
  cn_brk : frame_addr brk;
  cn_low : 0x40000000 <= brk <= USER_STACK_ADDR - PAGE_SIZE;
  cn_supply : supplies (Z.to_nat (2 * ((brk - 0x40000000) / 4096) + 4)) (phys s);
  cn_rev0 : 0 <= kpdir_rev s;
  cn_rev : kpdir_rev s + 4 * ((brk - 0x40000000) / 4096) + 9 < 2 ^ 32;
}.

Lemma vm_clone_addrspace_run P w brk s :
  clonable P brk s ->
  exists N wn s0 s' k, vm_clone_addrspace brk (MkAs P w) s = Ok (Some (MkAs N wn), s') /\ created P N s s0 /\
    child P N (fun p => 0x40000 <= p < brk / 4096 \/ p = 0xFFFEF) k s0 s'.
Proof.
  intros [Hsp (w1 & w2 & w3 & R12 & R13 & R23) Hi Hu Hb Hlow Hsup Hrev0 Hrev].
  change (USER_STACK_ADDR - PAGE_SIZE) with 0xFFFEF000 in Hlow.
  set (n := (brk - 0x40000000) / 4096) in *. assert (0x40000000 + n * 4096 = brk) as En by (destruct Hb; unfold n; dlia).
  destruct (vm_create_addrspace_run P w1 w2 w3 s Hsp R12 R13 R23) as (N & wn & s0 & Hcr & Hc); [|lia|lia|].
  { apply (supplies_less _ 1) in Hsup; [apply Hsup|lia]. }
  destruct (created_info P N s s0 Hc Hi) as [Hi0 HN0]. pose proof (created_frames P N s s0 Hc Hu) as Hsh.
  destruct (cr_rooms _ _ _ _ Hc) as (u1 & u2 & Hr0). pose proof (cr_rev _ _ _ _ Hc) as Hrv0.
  pose proof (no_child P N s0 (cr_pair _ _ _ _ Hc) (cr_copy _ _ _ _ Hc)) as Hch0.
  assert (supplies (1 + (2 * Z.to_nat n + 2)) (phys s0)) as Hsup0.
  { rewrite (cr_phys _ _ _ _ Hc). replace (Z.to_nat (2 * n + 4)) with (Datatypes.S (1 + (2 * Z.to_nat n + 2))) in Hsup by lia.
    apply Hsup. }
  assert (exists g, Z.of_nat g = 0xFFFF /\
    Z.to_nat ((brk - (KERN_SPACE_END + 1)) / PAGE_SIZE + 1) = (g + Datatypes.S (Datatypes.S (Z.to_nat n)))%nat) as (g & Eg & Efuel).
  { exists (Z.to_nat 0xFFFF). change (KERN_SPACE_END + 1) with 0x30000000. rewrite PAGE_SIZE_eq. split; [lia|].
    rewrite <- En. replace ((0x40000000 + n * 4096 - 0x30000000) / 4096) with (0x10000 + n) by dlia. lia. }
  destruct (clone_gap_run P N u1 u2 brk s0 _ 0 (Datatypes.S (Datatypes.S (Z.to_nat n))) g 0x30000000 s0 Hch0 Hr0 Hi0 HN0)
    as (s1 & Hrun1 & Hch1 & Hr1 & Hi1 & HN1 & Hph1 & Hrv1); [lia|rewrite Eg; done|unfold MAP_TABLE_VADDR; lia|].
  rewrite <- Hph1 in Hsup0.
  destruct (clone_map_page_run P N u1 u2 brk s0 _ 0 (Datatypes.S (Z.to_nat n)) s1 Hch1 Hr1 Hi1 HN1)
    as (s2 & Hrun2 & Hch2 & Hr2 & Hrv2 & Hs2); [lia|by apply (supplies_less _ 1) in Hsup0; [|lia]|lia|lia|].
  apply Hs2 in Hsup0.
  destruct (clone_user_run P N u1 u2 brk s0 (Z.to_nat n) (Datatypes.S (Z.to_nat n)) 0x40000000 4 s2 Hch2 Hsh Hr2)
    as (s3 & Hrun3 & Hch3 & Hr3 & Hrv3 & Hs3); [done|done|lia|lia|lia|by apply (supplies_less _ (2 * Z.to_nat n)) in Hsup0; [|lia]|lia|lia|].
  apply Hs3 in Hsup0.
  destruct (clone_page_run P N _ _ s0 s3 u1 u2 0xFFFEF000 false Hch3 Hsh Hr3) as (ok & s4 & Hrun4 & _ & Hch4 & _);
    [done|lia|change (0xFFFEF000 / 4096) with 0xFFFEF; destruct Hb; dlia|done|lia|lia|].
  exists N, wn, s0, s4, (4 + 4 * Z.of_nat (Z.to_nat n) + 4). split_and!; [|done|done].
  unfold vm_clone_addrspace. rewrite (run_bind _ _ _ _ _ Hcr). cbv zeta. cbn [as_phys]. rewrite Efuel.
  change (KERN_SPACE_END + 1) with 0x30000000. rewrite (run_bind _ _ _ true s3) by (by rewrite Hrun1, Hrun2).
  cbn [negb]. change (USER_STACK_ADDR - PAGE_SIZE) with 0xFFFEF000. rewrite bind_seq. by rewrite (run_bind _ _ _ _ _ Hrun4).
Qed.

Lemma range_pages brk v :
  user_addr v -> frame_addr brk -> clone_range brk v <-> (0x40000 <= v / 4096 < brk / 4096 \/ v / 4096 = 0xFFFEF).
Proof.
  intros [Hv Hge] [Hbu Hba]. unfold clone_range, is_u32 in *.
  assert (v < brk <-> 0x40000 <= v / 4096 < brk / 4096) as -> by dlia. done.
Qed.

(** A page of the child, against the parent before the clone. *)
Lemma child_byte P N X k s s0 s' v :
  created P N s s0 -> child P N X k s0 s' -> user_frames P s -> user_addr v -> X (v / 4096) ->
  present (pte (mem s) P v) = true ->
  maps_to (pte (mem s') N v) (getaddr (pte (mem s') N v)) (getflags (pte (mem s) P v)) /\
  user_byte N s' v = user_byte P s v.
Proof.
  intros Hc Hch Hu Hv Hx Hp. destruct (user_addr_slot v Hv) as [Hvu Hvi].
  pose proof (cr_parent _ _ _ _ Hc v Hvu Hvi) as Epte. rewrite <- Epte in Hp.
  destruct (ch_copy _ _ _ _ _ _ Hch v Hv Hx Hp) as [D1 D2 D3 D4 D5]. rewrite Epte in *.
  split; [done|]. unfold user_byte. pose proof (Z.mod_pos_bound v 4096 ltac:(lia)) as Hm. rewrite D5 by done.
  destruct (cr_data _ _ _ _ Hc _ (Hu v Hv Hp)) as (_ & _ & Hs). apply get_byte_frame; [|done|done].
  apply (df_frame _ _ _ (Hu v Hv Hp)).
Qed.

(** The frames the parent maps, after the clone. *)
Lemma parent_after P N X k s s0 s' v :
  created P N s s0 -> child P N X k s0 s' -> user_frames P s -> user_addr v ->
  pte (mem s') P v = pte (mem s) P v /\
  (present (pte (mem s) P v) = true ->
    data_frame P s' (getaddr (pte (mem s) P v)) /\ data_frame N s' (getaddr (pte (mem s) P v)) /\
    data_frame P s0 (getaddr (pte (mem s) P v)) /\ user_byte P s' v = user_byte P s v).
Proof.
  intros Hc Hch Hu Hv. destruct (user_addr_slot v Hv) as [Hvu Hvi]. pose proof (ch_sides _ _ _ _ _ _ Hch) as Sd.
  assert (pte (mem s') P v = pte (mem s) P v) as E
    by (rewrite (sd_parent _ _ _ _ _ _ Sd v Hvu Hvi); exact (cr_parent _ _ _ _ Hc v Hvu Hvi)).
  split; [done|]. intros Hp. destruct (cr_data _ _ _ _ Hc _ (Hu v Hv Hp)) as (DP & DN & Hs).
  destruct (sd_data _ _ _ _ _ _ Sd _ DP DN) as [DP' DN']. split_and!; try done.
  unfold user_byte. rewrite E. pose proof (Z.mod_pos_bound v 4096 ltac:(lia)) as Hm.
  pose proof (df_frame _ _ _ DP) as [_ Hqa].
  rewrite (get_byte_frame (mem s0) (mem s')); [|done|done|exact (sd_same _ _ _ _ _ _ Sd _ DP DN id)].
  by apply get_byte_frame.
Qed.

(** A store of one process is not seen by the other. *)
Lemma stores_apart P N X k s s0 s' u v b :
  (X (u / 4096) \/ ~ X (u / 4096)) -> created P N s s0 -> child P N X k s0 s' -> user_frames P s ->
  user_addr u -> user_addr v -> is_u8 b ->
  present (pte (mem s') N u) = true -> present (pte (mem s') P v) = true ->
  user_byte P (user_store N u b s') v = user_byte P s' v /\ user_byte N (user_store P v b s') u = user_byte N s' u.
Proof.
  intros Hdec Hc Hch Hu Huu Huv Hb HpN HpP. pose proof (sd_pair _ _ _ _ _ _ (ch_sides _ _ _ _ _ _ Hch)) as Hp.
  destruct (parent_after _ _ _ _ _ _ _ v Hc Hch Hu Huv) as [E HP]. rewrite E in HpP.
  destruct (HP HpP) as (DP & DN & DP0 & _). rewrite <- E in DP, DN, DP0.
  assert (copy_of P N s0 s' u) as [C1 C2 C3 C4 C5].
  { destruct (present (pte (mem s0) P u)) eqn:Hpu.
    - apply (ch_copy _ _ _ _ _ _ Hch u Huu); [|done]. destruct Hdec as [|Hn]; [done|].
      rewrite (ch_absent _ _ _ _ _ _ Hch u Huu) in HpN; [done|tauto].
    - rewrite (ch_absent _ _ _ _ _ _ Hch u Huu) in HpN; [done|]. intros [_ ?]. congruence. }
  assert (getaddr (pte (mem s') N u) <> getaddr (pte (mem s') P v)) as Hne.
  { intros Eq. apply (df_used _ _ _ DP0). by rewrite <- Eq. }
  pose proof (Z.mod_pos_bound u 4096 ltac:(lia)). pose proof (Z.mod_pos_bound v 4096 ltac:(lia)).
  unfold user_store. split; apply store_elsewhere; try done; [apply Hp|apply Hp].
Qed.

End fork.

(** ** A process to clone

    The kernel directory at 3 MB with one table and the working table; a process with a page of
    data, whose first word is 0x12345678, and a stack. *)
Definition demo_fork : vm mm_state :=
  MkVm (demo_mm 0x200000)
    (<[cell 0x300000 0 := 0x302003]> (<[cell 0x300000 255 := 0x301003]>
    (<[cell 0x303000 0 := 0x302003]> (<[cell 0x303000 255 := 0x301003]>
    (<[cell 0x303000 256 := 0x304007]> (<[cell 0x303000 1023 := 0x306007]>
    (<[cell 0x304000 0 := 0x305007]> (<[cell 0x306000 1007 := 0x307007]>
    (<[0x305000 := 0x12345678]> ∅)))))))))
    true 0x300000 0x301000 0.

Ltac demo_words :=
  cbn [mem demo_fork]; rewrite !word_insert; unfold cell;
  repeat match goal with
  | |- context [?a =? ?b] =>
      first [rewrite (proj2 (Z.eqb_eq a b)) by lia | rewrite (proj2 (Z.eqb_neq a b)) by lia]
  end.

Lemma demo_K i : 0 <= i < 1024 ->
  word (mem demo_fork) (cell 0x300000 i) = if i =? 0 then 0x302003 else if i =? 255 then 0x301003 else 0.
Proof.
  intros Hi. destruct (Z.eqb_spec i 0) as [->|]; [done|]. destruct (Z.eqb_spec i 255) as [->|]; [done|].
  by demo_words.
Qed.

Lemma demo_P i : 0 <= i < 1024 ->
  word (mem demo_fork) (cell 0x303000 i) =
  if i =? 0 then 0x302003 else if i =? 255 then 0x301003 else
  if i =? 256 then 0x304007 else if i =? 1023 then 0x306007 else 0.
Proof.
  intros Hi. destruct (Z.eqb_spec i 0) as [->|]; [done|]. destruct (Z.eqb_spec i 255) as [->|]; [done|].
  destruct (Z.eqb_spec i 256) as [->|]; [done|]. destruct (Z.eqb_spec i 1023) as [->|]; [done|]. by demo_words.
Qed.

(** The tables of the two directories. *)
Lemma demo_K_table i t : is_table demo_fork 0x300000 i t -> (i = 0 /\ t = 0x302000) \/ (i = 255 /\ t = 0x301000).
Proof.
  intros (Hi & Hp & <-). rewrite demo_K in Hp |- * by done. revert Hp.
  destruct (Z.eqb_spec i 0) as [->|]; [by left|]. destruct (Z.eqb_spec i 255) as [->|]; [by right|done].
Qed.

Lemma demo_P_table i t : is_table demo_fork 0x303000 i t ->
  (i = 0 /\ t = 0x302000) \/ (i = 255 /\ t = 0x301000) \/ (i = 256 /\ t = 0x304000) \/ (i = 1023 /\ t = 0x306000).
Proof.
  intros (Hi & Hp & <-). rewrite demo_P in Hp |- * by done. revert Hp.
  destruct (Z.eqb_spec i 0) as [->|]; [by left|]. destruct (Z.eqb_spec i 255) as [->|]; [by right; left|].
  destruct (Z.eqb_spec i 256) as [->|]; [by right; right; left|].
  destruct (Z.eqb_spec i 1023) as [->|]; [by right; right; right|done].
Qed.

(** A directory whose tables are known is well formed. *)
Lemma demo_dir_wf d (f : Z -> option Z) :
  d = 0x300000 \/ d = 0x303000 ->
  (forall i t, is_table demo_fork d i t -> f i = Some t /\ is_u32 (word (mem demo_fork) (cell d i))) ->
  (forall i j t, f i = Some t -> f j = Some t -> i = j) ->
  (forall i t, f i = Some t -> t <> d /\ (i <> 255 -> t <> 0x301000) /\ ~ fs_avail (phys demo_fork) (t / 4096)) ->
  pdir_wf d demo_fork.
Proof.
  intros Hd Hf Hinj Hok. constructor; [apply demo_mm_inv; [done|lia]| | |done|by vm_compute| | |].
  - destruct Hd as [-> | ->]; done.
  - destruct Hd as [-> | ->]; by vm_compute.
  - destruct Hd as [-> | ->]; done.
  - intros i Hi Hp. destruct (Hf i _ (conj Hi (conj Hp eq_refl))) as [E Hu]. destruct (Hok _ _ E) as (H1 & H2 & H3). done.
  - intros i j Hi Hj Hpi Hpj E. destruct (Hf i _ (conj Hi (conj Hpi eq_refl))) as [Ei _].
    destruct (Hf j _ (conj Hj (conj Hpj eq_refl))) as [Ej _]. rewrite E in Ei. by apply (Hinj i j _ Ei).
Qed.

Definition demo_tab_K (i : Z) : option Z :=
  if i =? 0 then Some 0x302000 else if i =? 255 then Some 0x301000 else None.
Definition demo_tab_P (i : Z) : option Z :=
  if i =? 256 then Some 0x304000 else if i =? 1023 then Some 0x306000 else demo_tab_K i.

Ltac tab_cases :=
  repeat match goal with
  | H : context [?a =? ?b] |- _ => destruct (Z.eqb_spec a b); simplify_eq
  end.

Lemma demo_wf_K : pdir_wf 0x300000 demo_fork.
Proof.
  apply (demo_dir_wf _ demo_tab_K); [by left| | |].
  - intros i t Ht. destruct (demo_K_table i t Ht) as [[-> ->]|[-> ->]]; done.
  - unfold demo_tab_K. intros i j t Hi Hj. tab_cases; done.
  - unfold demo_tab_K. intros i t Hi. tab_cases; (split_and!; [done|done|by vm_compute]).
Qed.

Lemma demo_wf_P : pdir_wf 0x303000 demo_fork.
Proof.
  apply (demo_dir_wf _ demo_tab_P); [by right| | |].
  - intros i t Ht. destruct (demo_P_table i t Ht) as [[-> ->]|[[-> ->]|[[-> ->]|[-> ->]]]]; done.
  - unfold demo_tab_P, demo_tab_K. intros i j t Hi Hj. tab_cases; done.
  - unfold demo_tab_P, demo_tab_K. intros i t Hi. tab_cases; (split_and!; [done|done|by vm_compute]).
Qed.

Lemma demo_fork_spaces : spaces 0x303000 demo_fork.
Proof.
  constructor; [exact demo_wf_K|exact demo_wf_P|done| |].
  - intros i t Ht. destruct (demo_K_table i t Ht) as [[-> ->]|[-> ->]]; done.
  - intros i t Hi Ht. destruct (demo_P_table i t Ht) as [[-> ->]|[[-> ->]|[[-> ->]|[-> ->]]]]; try lia;
      (split; [done|]; intros j Hj; by destruct (demo_K_table j _ Hj) as [[_ ?]|[_ ?]]).
Qed.

Lemma demo_data q : q = 0x305000 \/ q = 0x307000 -> data_frame 0x303000 demo_fork q.
Proof.
  intros Hq. constructor.
  - destruct Hq as [-> | ->]; done.
  - destruct Hq as [-> | ->]; by vm_compute.
  - cbn [kernel_pdir demo_fork]. lia.
  - lia.
  - cbn [working_table_map demo_fork]. lia.
  - intros j Hj. destruct (demo_K_table j _ Hj) as [[_ ->]|[_ ->]], Hq; done.
  - intros j _ Hj. destruct (demo_P_table j _ Hj) as [[_ ->]|[[_ ->]|[[_ ->]|[_ ->]]]], Hq; done.
Qed.

Lemma demo_frames : user_frames 0x303000 demo_fork.
Proof.
  intros v Hv. destruct (user_addr_slot v Hv) as [Hvu Hvi]. pose proof (pdir_index_range v Hvu) as Hr.
  pose proof (ptab_index_range v) as Hj. unfold pte. rewrite demo_P by done.
  rewrite (proj2 (Z.eqb_neq _ 0)), (proj2 (Z.eqb_neq _ 255)) by lia.
  destruct (Z.eqb_spec (pdir_index v) 256); [|destruct (Z.eqb_spec (pdir_index v) 1023); [|done]]; cbn [present Z.testbit].
  - change (getaddr 0x304007) with 0x304000. destruct (Z.eq_dec (ptab_index v) 0) as [->|].
    + intros _. apply demo_data. by left.
    + assert (word (mem demo_fork) (cell 0x304000 (ptab_index v)) = 0) as ->; [by demo_words|done].
  - change (getaddr 0x306007) with 0x306000. destruct (Z.eq_dec (ptab_index v) 1007) as [->|].
    + intros _. apply demo_data. by right.
    + assert (word (mem demo_fork) (cell 0x306000 (ptab_index v)) = 0) as ->; [by demo_words|done].
Qed.

Lemma demo_window w : w = 0x1000 \/ w = 0x2000 \/ w = 0x3000 -> window_room demo_fork w.
Proof.
  intros Hw. split; [constructor|].
  - destruct Hw as [-> |[-> | ->]]; (split; [done|]; by vm_compute).
  - lia.
  - destruct Hw as [-> |[-> | ->]]; done.
  - intros i Hi. assert (i = 0) as ->; [|reflexivity]. destruct Hw as [-> |[-> | ->]]; unfold pdir_index, addr2page in Hi;
      rewrite PAGE_SIZE_eq in Hi; unfold PDIR_LEN in Hi; dlia.
  - destruct Hw as [-> |[-> | ->]]; reflexivity.
Qed.

Lemma demo_map_words j : 0 <= j < 1024 -> word (mem demo_fork) (cell 0x301000 j) = 0.
Proof. intros Hj. by demo_words. Qed.

Lemma demo_info : info_empty 0x303000 demo_fork.
Proof.
  constructor; try done.
  - intros i Hi. rewrite demo_P by lia. rewrite !(proj2 (Z.eqb_neq i _)) by lia. done.
  - intros v Hv. unfold MAP_TABLE_VADDR in Hv. destruct (slot_255 v) as [_ E]; [lia|]. unfold pte. rewrite E.
    change (present (word (mem demo_fork) (cell (kernel_pdir demo_fork) 255))) with true.
    change (getaddr (word (mem demo_fork) (cell (kernel_pdir demo_fork) 255))) with 0x301000. cbv iota.
    by rewrite demo_map_words by apply ptab_index_range.
Qed.

Lemma demo_clonable : clonable 0x303000 0x40001000 demo_fork.
Proof.
  constructor; [exact demo_fork_spaces| |exact demo_info|exact demo_frames|done|vm_compute; split; discriminate| |done|done].
  - exists 0x1000, 0x2000, 0x3000. split_and!; (constructor; [apply demo_window; tauto..|done]).
  - vm_compute. repeat split; discriminate.
Qed.

