(* ===== verification/Loader.v ===== *)
(** * The program loader

    kernel/loader.c: the header of an ELF image is checked, a process is created, and every
    segment to load gets frames of its own in the address space of the process, into which its
    bytes are copied through windows of the kernel ([UserMem]).  The image is the list of the
    bytes of the file in the kernel heap; reading behind it is an access C leaves undefined.
    [list_add_front] of the pages of a segment conses them to the list kept for the process. *)

From S2P Require Import Prelude Page PhysMem VirtMem UserMem Bytes Proc.

Definition CONF_PROG_BASE_MIN : Z := 0x40000000.
Definition ELFMAG : list Z := [0x7f; 69; 76; 70].
Definition ET_EXEC : Z := 2.
Definition PT_LOAD : Z := 1.
Definition sizeof_phdr : Z := 32.

Record Elf32_Phdr := MkPhdr {
  p_type : Z; p_offset : Z; p_vaddr : Z; p_paddr : Z;
  p_filesz : Z; p_memsz : Z; p_flags : Z; p_align : Z;
}.

(** The members of [Elf32_Ehdr] the loader reads. *)
Record Elf32_Ehdr := MkEhdr { e_type : Z; e_entry : Z; e_phoff : Z; e_phnum : Z }.

(** A little-endian number of [n] bytes of the image. *)
Definition field (img : list Z) (pos n : Z) : option Z := le_val <$> bytes_at img pos n.

Definition ehdr_at (img : list Z) : option Elf32_Ehdr :=
  t ← field img 16 2; e ← field img 24 4; o ← field img 28 4; n ← field img 44 2;
  Some (MkEhdr t e o n).
Definition phdr_at (img : list Z) (pos : Z) : option Elf32_Phdr :=
  a ← field img pos 4; b ← field img (pos + 4) 4; c ← field img (pos + 8) 4; d ← field img (pos + 12) 4;
  e ← field img (pos + 16) 4; f ← field img (pos + 20) 4; g ← field img (pos + 24) 4; h ← field img (pos + 28) 4;
  Some (MkPhdr a b c d e f g h).

Inductive exec_type := ET_UNKNOWN | ET_ELF32_EXEC.

Definition elf32_check (img : list Z) : option bool :=
  m ← bytes_at img 0 4; Some (bool_decide (m = ELFMAG)).
Definition elf32_check_type (img : list Z) (type : Z) : option bool :=
  t ← field img 16 2; Some (t =? type).
Definition get_exec_type (img : list Z) : option exec_type :=
  c ← elf32_check img;
  if c : bool then
    t ← elf32_check_type img ET_EXEC;
    Some (if t : bool then ET_ELF32_EXEC else ET_UNKNOWN)
  else Some ET_UNKNOWN.

Definition elf32_has_entry (ph : Elf32_Phdr) (hdr : Elf32_Ehdr) : bool :=
  (p_vaddr ph <=? e_entry hdr) && (e_entry hdr <? u32 (p_vaddr ph + p_memsz ph)).

Definition elf32_first_page_bytes (ph : Elf32_Phdr) : Z :=
  if p_filesz ph >? PAGE_SIZE - p_vaddr ph mod PAGE_SIZE
  then PAGE_SIZE - p_vaddr ph mod PAGE_SIZE else p_filesz ph.

(** [elf32_getbrk(phdr, &brk, &page)]: the break and the end of the pages. *)
Definition elf32_getbrk (ph : Elf32_Phdr) : Z * Z :=
  let base := PAGE_ALIGN_ROUND_DOWN (p_vaddr ph) in
  (u32 (p_vaddr ph + p_memsz ph), u32 (base + NUM_PAGES (p_memsz ph) * PAGE_SIZE)).

Section loader.
Context {S : Type} `{FrameSource S}.

(** Pages [i] to [pages - 1]; those allocated before a failure stay. *)
Fixpoint alloc_from (n : nat) (pdir base i : Z) : M (vm S) bool :=
  match n with
  | O => mret true
  | Datatypes.S n =>
      page ← alloc_frame;
      if page =? NO_PAGE then mret false
      else
        vm_map_page pdir page (u32 (base + i * PAGE_SIZE)) VM_USER_FLAGS;;
        alloc_from n pdir base (i + 1)
  end.
Definition elf32_alloc_mem (pdir base pages : Z) : M (vm S) bool := alloc_from (Z.to_nat pages) pdir base 0.

Definition elf32_free_mem (pdir base pages : Z) : M (vm S) unit :=
  mfor pages (fun i =>
    page ← vm_resolve_virt pdir (u32 (base + i * PAGE_SIZE));
    free_frame page).

Fixpoint elf32_cleanup (pdir : Z) (ldata : list (Z * Z)) : M (vm S) unit :=
  match ldata with
  | [] => mret tt
  | (base, pages) :: ldata => elf32_free_mem pdir base pages;; elf32_cleanup pdir ldata
  end.

(** [n] whole pages of the image, from [src] to page [i] on. *)
Fixpoint copy_pages (n : nat) (pdir base : Z) (img : list Z) (i src : Z) : M (vm S) unit :=
  match n with
  | O => mret tt
  | Datatypes.S n =>
      pdst ← vm_resolve_virt pdir (u32 (base + i * PAGE_SIZE));
      bs ← deref (bytes_at img src PAGE_SIZE);
      vm_cpy_pv pdst bs;;
      copy_pages n pdir base img (i + 1) (src + PAGE_SIZE)
  end.

(** [n] pages of zeros. *)
Fixpoint zero_pages (n : nat) (pdir base i : Z) : M (vm S) unit :=
  match n with
  | O => mret tt
  | Datatypes.S n =>
      pdst ← vm_resolve_virt pdir (u32 (base + i * PAGE_SIZE));
      vm_set_p pdst 0 PAGE_SIZE;;
      zero_pages n pdir base (i + 1)
  end.

(** The part of [elf32_map_segment] behind the allocation. *)
Definition fill_segment (pdir : Z) (ph : Elf32_Phdr) (img : list Z) : M (vm S) unit :=
  let base := PAGE_ALIGN_ROUND_DOWN (p_vaddr ph) in
  let memsz_pages := NUM_PAGES (p_memsz ph) in
  let first_page_bytes := elf32_first_page_bytes ph in
  pdst ← vm_resolve_virt pdir (p_vaddr ph);
  bs ← deref (bytes_at img (p_offset ph) first_page_bytes);
  vm_cpy_pv pdst bs;;
  let filesz_pages := NUM_PAGES (p_filesz ph) in
  copy_pages (Z.to_nat (filesz_pages - 1)) pdir base img 1 (p_offset ph + first_page_bytes);;
  let last_page_padding := PAGE_SIZE - u32 (p_offset ph + p_filesz ph) mod PAGE_SIZE in
  (if truth last_page_padding then
     let data_end := u32 (base + (filesz_pages - 1) * PAGE_SIZE + (PAGE_SIZE - last_page_padding)) in
     pdst ← vm_resolve_virt pdir data_end;
     vm_set_p pdst 0 last_page_padding
   else mret tt);;
  zero_pages (Z.to_nat (memsz_pages - filesz_pages)) pdir base filesz_pages.

Definition elf32_map_segment (pdir : Z) (ph : Elf32_Phdr) (img : list Z) (linfo : list (Z * Z))
    : M (vm S) (bool * list (Z * Z)) :=
  if p_memsz ph =? 0 then mret (true, linfo)
  else
    let base := PAGE_ALIGN_ROUND_DOWN (p_vaddr ph) in
    if base <? CONF_PROG_BASE_MIN then mret (false, linfo)
    else
      let memsz_pages := NUM_PAGES (p_memsz ph) in
      ok ← elf32_alloc_mem pdir base memsz_pages;
      if negb ok then mret (false, linfo)
      else fill_segment pdir ph img;; mret (true, (base, memsz_pages) :: linfo).

(** ** Starting a program *)

(** The process table, the memory, and per process the pages of its segments and its heap. *)
Record machine := MkMachine {
  mkern : kern;
  mvm : vm S;
  ldatas : gmap Z (list (Z * Z));
  heaps : gmap Z proc_heap;
}.

Definition on_kern {A} (m : M kern A) : M machine A := fun c =>
  match m (mkern c) with
  | Ok (a, k) => Ok (a, MkMachine k (mvm c) (ldatas c) (heaps c))
  | Panic => Panic
  | Fault => Fault
  end.
Definition on_vm {A} (m : M (vm S) A) : M machine A := fun c =>
  match m (mvm c) with
  | Ok (a, v) => Ok (a, MkMachine (mkern c) v (ldatas c) (heaps c))
  | Panic => Panic
  | Fault => Fault
  end.
Definition put_ldata (p : Z) (l : list (Z * Z)) : M machine unit :=
  modify (fun c => MkMachine (mkern c) (mvm c) (<[p := l]> (ldatas c)) (heaps c)).
Definition put_heap (p : Z) (h : proc_heap) : M machine unit :=
  modify (fun c => MkMachine (mkern c) (mvm c) (ldatas c) (<[p := h]> (heaps c))).

(** The loop over the program headers; [false] after a segment that could not be mapped. *)
Fixpoint load_segments (n : nat) (p pdir : Z) (img : list Z) (pos : Z) : M machine bool :=
  match n with
  | O => mret true
  | Datatypes.S n =>
      ph ← deref (phdr_at img pos);
      if p_type ph =? PT_LOAD then
        c ← get;
        r ← on_vm (elf32_map_segment pdir ph img (default [] (ldatas c !! p)));
        put_ldata p r.2;;
        if negb r.1 then on_kern (pm_destroy p);; mret false
        else
          let '(brk, page) := elf32_getbrk ph in
          put_heap p (MkHeap pdir page brk);;
          load_segments n p pdir img (pos + sizeof_phdr)
      else load_segments n p pdir img (pos + sizeof_phdr)
  end.

(** [elf32_exec(mem, args, parent)]: the pid, 0 on an error; [res] is what [init_proc] gets
    from the memory components. *)
Definition elf32_exec (img : list Z) (args : string) (par : Z) (res : resources) : M machine Z :=
  hdr ← deref (ehdr_at img);
  p ← on_kern (pm_create (e_entry hdr) args PM_USER par PS_BLOCKED res);
  put_ldata p [];;
  x ← on_kern (slot (Some p));
  pdir ← deref (as_ x);
  ok ← load_segments (Z.to_nat (e_phnum hdr)) p pdir img (e_phoff hdr);
  if negb ok then mret 0
  else
    on_kern (pm_unblock p);;
    x ← on_kern (slot (Some p));
    mret (pid x).

Definition exec_mem (img : list Z) (args : string) (par : Z) (res : resources) : M machine Z :=
  t ← deref (get_exec_type img);
  match t with
  | ET_ELF32_EXEC => elf32_exec img args par res
  | ET_UNKNOWN => mret 0
  end.
End loader.

(** ** Frames for a segment *)

Section alloc.
Context {S : Type} `{FrameSourceLaws S}.
Implicit Types (s : vm S).

(** The pages from [v] on are not mapped yet. *)
Definition unmapped (P v n : Z) (s : vm S) : Prop :=
  forall i, 0 <= i < n -> present (pte (mem s) P (v + i * 4096)) = false.

(** What the pages outside of the new ones keep. *)
Definition others_same (P base n : Z) (s s' : vm S) : Prop :=
  forall v, is_u32 v -> 0x40000000 <= v -> ~ base <= v < base + n * 4096 -> pte (mem s') P v = pte (mem s) P v.

Lemma alloc_page P w base n fr s :
  pages P w base n fr s -> base + (n + 1) * 4096 <= 2 ^ 32 -> 0 <= n ->
  present (pte (mem s) P (base + n * 4096)) = false -> supplies 2 (phys s) ->
  exists p s', (page ← alloc_frame; if page =? NO_PAGE then mret false
       else vm_map_page P page (u32 (base + n * PAGE_SIZE)) VM_USER_FLAGS;; mret true) s = Ok (true, s') /\
    pages P w base (n + 1) (fun i => if i =? n then p else fr i) s' /\
    (forall v, is_u32 v -> 0x40000000 <= v -> v / 4096 <> (base + n * 4096) / 4096 ->
       pte (mem s') P v = pte (mem s) P v) /\
    kpdir_rev s' = kpdir_rev s /\ (forall k, supplies (2 + k) (phys s) -> supplies k (phys s')).
Proof.
  intros Hpg Hend Hn Hfree (Hs1 & Hs2 & _). pose proof Hpg as [G1 G2 G3 G4 G5 G6 G7 G8 G9].
  pose proof G1 as [WK WP HKP HKs HPs].
  destruct (fs_alloc_spec (phys s) (wf_inv _ _ WK)) as [[E _]|(p & Ep & Hpr & Hav & Hav')]; [done|].
  destruct (fresh_data P s p G1 Hav Hpr Ep Hav') as (Hsp1 & Hq1 & Hd1 & Hne1).
  set (s1 := set_phys (fs_alloc (phys s)).2 s) in *. set (q := p * 4096) in *. set (v := base + n * 4096).
  assert (u32 (base + n * PAGE_SIZE) = v) as Ev.
  { rewrite PAGE_SIZE_eq. apply u32_small. destruct G4. unfold is_u32 in *. lia. }
  assert (frame_addr v) as Hv.
  { destruct G4. unfold v, frame_addr, is_u32 in *. split; [lia|]. by rewrite Z_mod_plus_full. }
  destruct (user_slot v (proj1 Hv)) as [Hvi Hvu]; [unfold v; lia|].
  pose proof Hsp1 as [WK1 WP1 _ _ _].
  pose proof (do_map_spec P q v VM_USER_FLAGS false s1 WP1 (df_frame _ _ _ Hq1) Hv Hvu ltac:(done)) as Hm.
  destruct (do_map P q v VM_USER_FLAGS false s1) as [[[] s2]| |] eqn:Hrun; [| |done].
  2:{ exfalso. destruct Hm as [[_ E]|[(_ & _ & E & _)|[E _]]]; [done| |].
      - change (pte (mem s1) P v) with (pte (mem s) P v) in E. unfold v in E. congruence.
      - by symmetry in E. }
  destruct Hm as (WP2 & EK2 & _ & Hto & Hout).
  destruct (map_user_spaces P q v VM_USER_FLAGS false s1 s2 Hsp1 (proj1 Hv) Hvi ltac:(done) WP2 Hrun)
    as (Hsp2 & Hrev & Hal & St & Hd2 & Ht2 & SK).
  exists q, s2. split_and!.
  - rewrite (run_bind _ _ s q s1).
    + rewrite (proj2 (Z.eqb_neq q NO_PAGE)) by (unfold q, NO_PAGE; lia).
      rewrite Ev. by rewrite (run_bind _ _ _ _ _ Hrun).
    + unfold alloc_frame, s1. by destruct (fs_alloc (phys s)) as [r ph]; cbn in *; subst.
  - constructor; [done| |rewrite Hrev; done|done|done|done| | |].
    + destruct G2 as [Hr Hf]. assert (window_tables s1 w) as Hr1 by (destruct Hr; by constructor).
      split; [by apply (tables_keep w s1)|]. rewrite EK2.
      rewrite (same_pte _ s1 s2); [done|apply Hr|done|]. intros t Htw. apply (Ht2 (pdir_index w)); [|done].
      pose proof (wr_slot _ _ Hr). lia.
    + intros i Hi. destruct (Z.eqb_spec i n) as [->|]; [by apply Hd2|]. apply Hd2, Hd1, G7. lia.
    + intros i Hi. destruct (Z.eqb_spec i n) as [->|].
      * change (present VM_USER_FLAGS) with true in Hto. done.
      * rewrite Hout; [apply (G8 i); lia| |].
        -- apply user_slot; destruct G4; unfold is_u32 in *; lia.
        -- unfold v. rewrite !Z.div_add by done. lia.
    + intros i j Hi Hj. destruct (Z.eqb_spec i n) as [->|], (Z.eqb_spec j n) as [->|]; [done| | |].
      * intros E. exfalso. apply (Hne1 (fr j)); [apply G7; lia|done].
      * intros E. exfalso. apply (Hne1 (fr i)); [apply G7; lia|done].
      * apply G9; lia.
  - intros u Hu Hge Hne. rewrite Hout; [done|by apply user_slot|done].
  - done.
  - intros k Hk. unfold one_alloc in Hal. destruct Hk as (_ & Hk).
    change (phys s1) with ((fs_alloc (phys s)).2) in Hal.
    rewrite Hal. destruct (present (word (mem s1) _)); [|apply Hk].
    apply (supplies_less (Datatypes.S k)); [lia|done].
Qed.
Lemma alloc_run P w base m : forall n fr s,
  pages P w base n fr s -> base + (n + Z.of_nat m) * 4096 <= 2 ^ 32 -> 0 <= n ->
  unmapped P (base + n * 4096) (Z.of_nat m) s -> supplies (2 * m) (phys s) ->
  exists fr' s', alloc_from m P base n s = Ok (true, s') /\ pages P w base (n + Z.of_nat m) fr' s' /\
    others_same P (base + n * 4096) (Z.of_nat m) s s' /\ kpdir_rev s' = kpdir_rev s.
Proof.
  induction m as [|m IH]; intros n fr s Hpg Hend Hn Hun Hsup.
  { exists fr, s. rewrite Z.add_0_r. split_and!; try done. }
  assert (pg_base_u : is_u32 base) by apply Hpg. pose proof (pg_user _ _ _ _ _ _ Hpg) as Hb.
  pose proof (pg_base _ _ _ _ _ _ Hpg) as [_ Hba].
  destruct (alloc_page P w base n fr s) as (p & s1 & Hrun & Hpg1 & Hout & Hrev & Hnext); [done|lia|lia| | |].
  { pose proof (Hun 0 ltac:(lia)) as E. by rewrite Z.mul_0_l, Z.add_0_r in E. }
  { apply (supplies_less (2 * Datatypes.S m)); [lia|done]. }
  destruct (IH (n + 1) _ s1 Hpg1) as (fr' & s2 & Hrun2 & Hpg2 & Hout2 & Hrev2); [lia|lia| | |].
  { intros i Hi. rewrite Hout.
    - replace (base + (n + 1) * 4096 + i * 4096) with (base + n * 4096 + (i + 1) * 4096) by lia. apply Hun. lia.
    - unfold is_u32 in *. lia.
    - lia.
    - rewrite !Z.div_add by done. lia. }
  { apply Hnext. eapply supplies_less; [|exact Hsup]. lia. }
  exists fr', s2. replace (n + Z.of_nat (Datatypes.S m)) with (n + 1 + Z.of_nat m) by lia.
  split_and!; [|done| |congruence].
  - cbn [alloc_from]. apply bind_Ok in Hrun as (pg & sa & Ha & Hrun). rewrite (run_bind _ _ _ _ _ Ha).
    destruct (pg =? NO_PAGE); [done|]. apply bind_Ok in Hrun as ([] & sb & Hmp & [= ->]).
    by rewrite (run_bind _ _ _ _ _ Hmp).
  - intros v Hv Hge Hno. rewrite Hout2 by (done || lia). apply Hout; [done|done|].
    rewrite Z.div_add by done. unfold is_u32 in *. dlia.
Qed.
End alloc.

(** ** The contents of a segment *)

Section fill.
Context {S : Type} `{FrameSourceLaws S}.
Implicit Types (s : vm S).

Definition byte_at (img : list Z) (k : Z) : Z := nth (Z.to_nat k) img 0.

Lemma bytes_at_some img pos len :
  0 <= pos -> 0 <= len -> pos + len <= Z.of_nat (length img) ->
  exists bs, bytes_at img pos len = Some bs /\ Z.of_nat (length bs) = len /\
    (forall P, Forall P img -> Forall P bs) /\ forall k, 0 <= k < len -> byte_at bs k = byte_at img (pos + k).
Proof.
  intros Hp Hl Hfit. unfold bytes_at. rewrite (proj2 (Z.leb_le _ _)) by lia. eexists. split; [done|]. split_and!.
  - rewrite length_take, length_drop. lia.
  - intros Q HQ. by apply Forall_take, Forall_drop.
  - intros k Hk. unfold byte_at. rewrite !nth_lookup, lookup_take_lt, lookup_drop by lia.
    do 2 f_equal. lia.
Qed.

(** The bytes of a process behind a write: [f] between [a] and [b], the old ones elsewhere. *)
Definition bytes_set (P base n a b : Z) (f : Z -> Z) (s s' : vm S) : Prop :=
  forall u, base <= u < base + n * 4096 ->
    user_byte P s' u = if (a <=? u) && (u <? b) then f u else user_byte P s u.

(** The state a write of the loader leaves. *)
Definition wrote (P w base n : Z) (fr : Z -> Z) (k a b : Z) (f : Z -> Z) (s s' : vm S) : Prop :=
  pages P w base n fr s' /\ kpdir_rev s' <= kpdir_rev s + k /\ kstep P s s' /\
  bytes_set P base n a b f s s'.

Lemma write_run P w base n fr s v bs :
  pages P w base n fr s -> base <= v < base + n * 4096 -> 0 < Z.of_nat (length bs) ->
  v mod 4096 + Z.of_nat (length bs) <= 4096 -> Forall is_u8 bs -> kpdir_rev s + 2 < 2 ^ 32 ->
  exists pa s1 s', vm_resolve_virt P v s = Ok (pa, s1) /\ vm_cpy_pv pa bs s1 = Ok (tt, s') /\
    wrote P w base n fr 2 v (v + Z.of_nat (length bs)) (fun u => byte_at bs (u - v)) s s'.
Proof.
  intros Hp Hv Hl Hfit Hb Hrev.
  destruct (user_write P w base n fr s v bs Hp Hv Hl Hfit Hb Hrev) as (s1 & s' & H1 & H2 & H3 & H4 & H5 & H6).
  eexists _, s1, s'. split_and!; [done|done|]. split_and!; [done|done|done|]. intros u Hu. rewrite H6 by done.
  unfold byte_at. rewrite nth_lookup.
  destruct (Z.leb_spec v u), (Z.ltb_spec u (v + Z.of_nat (length bs))); cbn [andb]; try done.
  - destruct (lookup_lt_is_Some_2 bs (Z.to_nat (u - v))) as [b ->]; [lia|]. done.
  - rewrite lookup_ge_None_2 by lia. done.
Qed.

Lemma set_run P w base n fr s v len :
  pages P w base n fr s -> base <= v < base + n * 4096 -> 0 < len -> v mod 4096 + len <= 4096 ->
  kpdir_rev s + 2 < 2 ^ 32 ->
  exists pa s1 s', vm_resolve_virt P v s = Ok (pa, s1) /\ vm_set_p pa 0 len s1 = Ok (tt, s') /\
    wrote P w base n fr 2 v (v + len) (fun _ => 0) s s'.
Proof.
  intros Hp Hv Hl Hfit Hrev. set (bs := replicate (Z.to_nat len) (u8 0)).
  assert (Z.of_nat (length bs) = len) as Hbs by (unfold bs; rewrite length_replicate; lia).
  destruct (write_run P w base n fr s v bs) as (pa & s1 & s' & H1 & H2 & H3 & H4 & H5 & H6); try done; try lia.
  { apply Forall_replicate. done. }
  exists pa, s1, s'. rewrite vm_set_p_cpy by lia. rewrite Hbs in H6. split_and!; [done|done|].
  split_and!; [done|done|done|]. intros u Hu. rewrite H6 by done.
  destruct ((v <=? u) && (u <? v + len)) eqn:E; [|done].
  apply andb_true_iff in E as [E1%Z.leb_le E2%Z.ltb_lt]. unfold byte_at, bs.
  rewrite nth_lookup, lookup_replicate_2 by lia. done.
Qed.

Lemma wrote_join P w base n fr j k a b c f g s1 s2 s3 :
  a <= b <= c -> wrote P w base n fr j a b f s1 s2 -> wrote P w base n fr k b c g s2 s3 ->
  wrote P w base n fr (j + k) a c (fun u => if u <? b then f u else g u) s1 s3.
Proof.
  intros Hab (A1 & A2 & A3 & A4) (B1 & B2 & B3 & B4). split_and!; [done|lia|by apply (kstep_trans _ _ s2)|].
  intros u Hu. rewrite B4, A4 by done.
  destruct (Z.leb_spec a u), (Z.leb_spec b u), (Z.ltb_spec u b), (Z.ltb_spec u c); cbn [andb]; try done; lia.
Qed.

Lemma wrote_ext P w base n fr k j a b f g s s' :
  wrote P w base n fr k a b f s s' -> k <= j -> (forall u, a <= u < b -> f u = g u) ->
  wrote P w base n fr j a b g s s'.
Proof.
  intros (A1 & A2 & A3 & A4) Hk Hfg. split_and!; [done|lia|done|]. intros u Hu. rewrite A4 by done.
  destruct (Z.leb_spec a u), (Z.ltb_spec u b); cbn [andb]; try done. by apply Hfg.
Qed.

Lemma seg_wrote_nothing P w base n fr a f s : pages P w base n fr s -> wrote P w base n fr 0 a a f s s.
Proof.
  intros Hp. split_and!; [done|lia|apply kstep_refl, Hp|]. intros u Hu.
  destruct (Z.leb_spec a u), (Z.ltb_spec u a); cbn [andb]; (done || lia).
Qed.

Lemma page_at P w base n fr s i :
  pages P w base n fr s -> 0 <= i < n ->
  u32 (base + i * PAGE_SIZE) = base + i * 4096 /\ base <= base + i * 4096 < base + n * 4096 /\
  (base + i * 4096) mod 4096 = 0.
Proof.
  intros Hp Hi. destruct (pg_base _ _ _ _ _ _ Hp) as [Hu Ha]. pose proof (pg_end _ _ _ _ _ _ Hp).
  rewrite PAGE_SIZE_eq, Z_mod_plus_full. unfold is_u32 in *.
  rewrite u32_small by (unfold is_u32; lia). split_and!; (done || lia).
Qed.

Lemma copy_pages_run P w base n fr img m : forall i src s,
  pages P w base n fr s -> 0 <= i -> i + Z.of_nat m <= n -> 0 <= src ->
  src + Z.of_nat m * 4096 <= Z.of_nat (length img) -> Forall is_u8 img ->
  kpdir_rev s + 2 * Z.of_nat m < 2 ^ 32 ->
  exists s', copy_pages m P base img i src s = Ok (tt, s') /\
    wrote P w base n fr (2 * Z.of_nat m) (base + i * 4096) (base + (i + Z.of_nat m) * 4096)
      (fun u => byte_at img (src + (u - (base + i * 4096)))) s s'.
Proof.
  induction m as [|m IH]; intros i src s Hp Hi Hn Hsrc Hfit Hu8 Hrev; cbn [copy_pages].
  { exists s. rewrite Z.add_0_r. split; [done|]. by apply seg_wrote_nothing. }
  destruct (page_at P w base n fr s i Hp ltac:(lia)) as (-> & Hv & Hva).
  destruct (bytes_at_some img src 4096) as (bs & Hbs & Hlen & Hall & Hbyte); [lia..|].
  destruct (write_run P w base n fr s (base + i * 4096) bs) as (pa & s1 & s2 & Hr & Hc & Hw);
    [done|done|lia|lia|by apply Hall|lia|].
  rewrite (run_bind _ _ _ _ _ Hr), PAGE_SIZE_eq, Hbs, (run_bind _ _ _ _ _ eq_refl), (run_bind _ _ _ _ _ Hc).
  rewrite Hlen in Hw. pose proof Hw as (Hp2 & Hrev2 & _).
  destruct (IH (i + 1) (src + 4096) s2 Hp2) as (s3 & Hrun & Hw3); [lia..|done|lia|].
  exists s3. split; [done|].
  replace (base + (i + 1) * 4096) with (base + i * 4096 + 4096) in Hw3 by lia.
  replace (base + (i + Z.of_nat (Datatypes.S m)) * 4096) with (base + (i + 1 + Z.of_nat m) * 4096) by lia.
  refine (wrote_ext _ _ _ _ _ _ _ _ _ _ _ _ _ (wrote_join _ _ _ _ _ _ _ _ _ _ _ _ _ _ _ _ Hw Hw3) _ _); [lia|lia|].
  intros u Hu. cbn beta. destruct (Z.ltb_spec u (base + i * 4096 + 4096)).
  - apply Hbyte. lia.
  - f_equal. lia.
Qed.

Lemma zero_pages_run P w base n fr m : forall i s,
  pages P w base n fr s -> 0 <= i -> i + Z.of_nat m <= n -> kpdir_rev s + 2 * Z.of_nat m < 2 ^ 32 ->
  exists s', zero_pages m P base i s = Ok (tt, s') /\
    wrote P w base n fr (2 * Z.of_nat m) (base + i * 4096) (base + (i + Z.of_nat m) * 4096) (fun _ => 0) s s'.
Proof.
  induction m as [|m IH]; intros i s Hp Hi Hn Hrev; cbn [zero_pages].
  { exists s. rewrite Z.add_0_r. split; [done|]. by apply seg_wrote_nothing. }
  destruct (page_at P w base n fr s i Hp ltac:(lia)) as (-> & Hv & Hva).
  destruct (set_run P w base n fr s (base + i * 4096) 4096) as (pa & s1 & s2 & Hr & Hc & Hw); [done|done|lia|lia|lia|].
  rewrite (run_bind _ _ _ _ _ Hr), PAGE_SIZE_eq, (run_bind _ _ _ _ _ Hc).
  pose proof Hw as (Hp2 & Hrev2 & _).
  destruct (IH (i + 1) s2 Hp2) as (s3 & Hrun & Hw3); [lia..|].
  exists s3. split; [done|].
  replace (base + (i + 1) * 4096) with (base + i * 4096 + 4096) in Hw3 by lia.
  replace (base + (i + Z.of_nat (Datatypes.S m)) * 4096) with (base + (i + 1 + Z.of_nat m) * 4096) by lia.
  refine (wrote_ext _ _ _ _ _ _ _ _ _ _ _ _ _ (wrote_join _ _ _ _ _ _ _ _ _ _ _ _ _ _ _ _ Hw Hw3) _ _); [lia|lia|].
  intros u Hu. cbn beta. by destruct (_ <? _).
Qed.

(** A segment the loader can load: the offset in the file and the address agree modulo the
    page size, there are bytes in the file, they end inside a page that is counted, and the
    image goes on to the end of that page. *)
Record loadable (ph : Elf32_Phdr) (img : list Z) : Prop := {
  lo_off : p_offset ph mod 4096 = p_vaddr ph mod 4096;
  lo_start : 0 <= p_offset ph;
  lo_size : 0 < p_filesz ph <= p_memsz ph;
  lo_base : CONF_PROG_BASE_MIN <= p_vaddr ph;
  lo_end : p_vaddr ph + p_memsz ph + 4096 <= 2 ^ 32;
  lo_file : (p_vaddr ph mod 4096 + p_filesz ph + 4095) / 4096 = (p_filesz ph + 4095) / 4096;
  lo_mem : (p_vaddr ph mod 4096 + p_memsz ph + 4095) / 4096 = (p_memsz ph + 4095) / 4096;
  lo_tail : (p_vaddr ph mod 4096 + p_filesz ph) mod 4096 <> 0;
  lo_img : p_offset ph - p_vaddr ph mod 4096 + (p_filesz ph + 4095) / 4096 * 4096 <= Z.of_nat (length img);
  lo_len : Z.of_nat (length img) < 2 ^ 32;
  lo_bytes : Forall is_u8 img;
}.

(** The bytes of a loaded segment: those of the file, then zeros. *)
Definition segment_byte (ph : Elf32_Phdr) (img : list Z) (u : Z) : Z :=
  if u <? p_vaddr ph + p_filesz ph then byte_at img (p_offset ph + (u - p_vaddr ph)) else 0.

Lemma fill_segment_run P w fr s ph img :
  let base := p_vaddr ph - p_vaddr ph mod 4096 in
  let n := (p_memsz ph + 4095) / 4096 in
  loadable ph img -> pages P w base n fr s -> kpdir_rev s + 2 * (n + 1) < 2 ^ 32 ->
  exists s', fill_segment P ph img s = Ok (tt, s') /\
    wrote P w base n fr (2 * (n + 1)) (p_vaddr ph) (base + n * 4096) (segment_byte ph img) s s'.
Proof.
  intros base n [Loff Lst Lsz Lb Le Lf Lm Lt Li Ll Lu] Hp Hrev. unfold CONF_PROG_BASE_MIN in Lb.
  set (v := p_vaddr ph) in *. set (off := v mod 4096) in *. set (k := (p_filesz ph + 4095) / 4096) in *.
  assert (0 <= off < 4096) as Ho by (apply Z.mod_pos_bound; lia).
  assert (1 <= k <= n) as Hk by (unfold k, n; dlia).
  assert (PAGE_ALIGN_ROUND_DOWN v = base) as Ebase.
  { rewrite round_down_eq by (unfold is_u32; lia). unfold base, off. dlia. }
  assert (NUM_PAGES (p_memsz ph) = n /\ NUM_PAGES (p_filesz ph) = k) as [En Ek] by (split; apply NUM_PAGES_eq; lia).
  set (first := elf32_first_page_bytes ph).
  assert (first = Z.min (p_filesz ph) (4096 - off)) as Ef.
  { unfold first, elf32_first_page_bytes. rewrite PAGE_SIZE_eq. fold v off. destruct (Z.gtb_spec (p_filesz ph) (4096 - off)); lia. }
  assert (2 <= k -> first = 4096 - off) as Ef2 by (intros; unfold k in *; dlia).
  set (r := (off + p_filesz ph) mod 4096) in *.
  assert (v + p_filesz ph = base + (k - 1) * 4096 + r /\ 0 < r < 4096) as [Eend Hr] by (unfold base, r, k in *; dlia).
  assert (PAGE_SIZE - u32 (p_offset ph + p_filesz ph) mod PAGE_SIZE = 4096 - r) as Epad.
  { rewrite PAGE_SIZE_eq, u32_small by (unfold is_u32, k in *; dlia). unfold r. rewrite <- Loff.
    by rewrite Zplus_mod_idemp_l. }
  unfold fill_segment. fold v first. rewrite Ebase, En, Ek, Epad. cbv zeta.
  destruct (bytes_at_some img (p_offset ph) first) as (bs & Hbs & Hlen & Hall & Hbyte); [lia|lia|unfold k in *; dlia|].
  destruct (write_run P w base n fr s v bs) as (pa & s1 & s2 & Hres & Hcpy & Hp2 & Hr2 & Hph2 & Hb2);
    [done|unfold base; lia|lia|fold off; lia|by apply Hall|lia|].
  rewrite (run_bind _ _ _ _ _ Hres), Hbs, (run_bind _ _ _ _ _ eq_refl), (run_bind _ _ _ _ _ Hcpy).
  destruct (copy_pages_run P w base n fr img (Z.to_nat (k - 1)) 1 (p_offset ph + first) s2 Hp2)
    as (s3 & Hcp & Hp3 & Hr3 & Hph3 & Hb3); [lia|lia|lia|unfold k in *; dlia|done|lia|].
  rewrite (run_bind _ _ _ _ _ Hcp). rewrite Z2Nat.id in * by lia.
  assert (truth (4096 - r) = true) as -> by (unfold truth; rewrite (proj2 (Z.eqb_neq _ _)) by lia; done).
  assert (u32 (base + (k - 1) * PAGE_SIZE + (PAGE_SIZE - (4096 - r))) = v + p_filesz ph) as ->.
  { rewrite PAGE_SIZE_eq, u32_small by (unfold is_u32; lia). lia. }
  assert ((v + p_filesz ph) mod 4096 = r) as Er by (unfold r, off; by rewrite Zplus_mod_idemp_l).
  destruct (set_run P w base n fr s3 (v + p_filesz ph) (4096 - r)) as (pb & s4 & s5 & Hres5 & Hset & Hp5 & Hr5 & Hph5 & Hb5);
    [done|unfold base in *; lia|lia|lia|lia|].
  rewrite (run_bind _ _ s3 tt s5) by (by rewrite (run_bind _ _ _ _ _ Hres5)).
  destruct (zero_pages_run P w base n fr (Z.to_nat (n - k)) k s5 Hp5) as (s6 & Hz & Hp6 & Hr6 & Hph6 & Hb6); [lia|lia|lia|].
  exists s6. split; [done|]. rewrite Z2Nat.id in * by lia.
  split_and!; [done|lia|by apply (kstep_trans _ _ s2), (kstep_trans _ _ s3), (kstep_trans _ _ s5)|].
  intros u Hu. rewrite Hb6, Hb5, Hb3, Hb2 by done. rewrite Hlen. unfold segment_byte. fold v.
  assert (base + off = v) as Ev by (unfold base; lia).
  destruct (Z.lt_ge_cases u v); [by decide_cmp|].
  destruct (Z.lt_ge_cases u (v + p_filesz ph)); [|destruct (Z.lt_ge_cases u (base + k * 4096)); by decide_cmp].
  destruct (Z.lt_ge_cases u (base + 4096)); decide_cmp; cbn [andb].
  - apply Hbyte. lia.
  - f_equal. lia.
Qed.

(** The break behind a loaded segment is where [sys_sbrk] needs it: below the end of the pages. *)
Lemma elf32_getbrk_heap ph img :
  loadable ph img -> let '(brk, page) := elf32_getbrk ph in
  frame_addr page /\ 0 <= brk <= page /\ page = p_vaddr ph - p_vaddr ph mod 4096 + (p_memsz ph + 4095) / 4096 * 4096.
Proof.
  intros [Loff Lst Lsz Lb Le Lf Lm Lt Li Ll Lu]. unfold elf32_getbrk, CONF_PROG_BASE_MIN in *.
  rewrite round_down_eq, NUM_PAGES_eq, PAGE_SIZE_eq by (unfold is_u32; lia).
  rewrite !u32_small by (unfold is_u32; dlia). unfold frame_addr, is_u32. dlia.
Qed.

End fill.

(** ** A program in memory *)

(** The kernel directory at 3 MB with one table and the working table, and a process whose
    directory was copied from it. *)
Definition demo_ld : vm mm_state :=
  MkVm (demo_mm 0x200000)
    {[cell 0x300000 0 := 0x302003; cell 0x300000 255 := 0x301003;
      cell 0x303000 0 := 0x302003; cell 0x303000 255 := 0x301003]} true 0x300000 0x301000 0.

Lemma demo_slot d i :
  d = 0x300000 \/ d = 0x303000 -> 0 <= i < 1024 ->
  word (mem demo_ld) (cell d i) = if i =? 0 then 0x302003 else if i =? 255 then 0x301003 else 0.
Proof.
  intros Hd Hi. unfold word. cbn [mem demo_ld].
  destruct Hd as [-> | ->]; (destruct (Z.eqb_spec i 0) as [->|]; [reflexivity|]);
    (destruct (Z.eqb_spec i 255) as [->|]; [reflexivity|]);
    rewrite !lookup_insert_ne, lookup_singleton_ne by (unfold cell; lia); done.
Qed.

Lemma demo_ld_wf d : d = 0x300000 \/ d = 0x303000 -> pdir_wf d demo_ld.
Proof.
  intros Hd. constructor.
  - apply demo_mm_inv; [done|lia].
  - destruct Hd as [-> | ->]; done.
  - destruct Hd as [-> | ->]; by vm_compute.
  - done.
  - by vm_compute.
  - destruct Hd as [-> | ->]; done.
  - intros i Hi. rewrite demo_slot by done.
    destruct (Z.eqb_spec i 0) as [->|]; [|destruct (Z.eqb_spec i 255) as [->|]; [|done]]; intros _;
      destruct Hd as [-> | ->]; split_and!; by vm_compute.
  - intros i j Hi Hj. rewrite !demo_slot by done.
    destruct (Z.eqb_spec i 0), (Z.eqb_spec i 255), (Z.eqb_spec j 0), (Z.eqb_spec j 255); subst;
      vm_compute; (done || congruence || lia).
Qed.

Lemma demo_table d i t : d = 0x300000 \/ d = 0x303000 -> is_table demo_ld d i t ->
  (i = 0 /\ t = 0x302000) \/ (i = 255 /\ t = 0x301000).
Proof.
  intros Hd (Hi & Hp & Ht). rewrite demo_slot in Hp, Ht by done.
  destruct (Z.eqb_spec i 0) as [->|]; [left; by rewrite <- Ht|].
  destruct (Z.eqb_spec i 255) as [->|]; [right; by rewrite <- Ht|done].
Qed.

Lemma demo_spaces : spaces 0x303000 demo_ld.
Proof.
  constructor; [apply demo_ld_wf; by left|apply demo_ld_wf; by right|done| |].
  - intros i t Ht. destruct (demo_table 0x300000 i t (or_introl eq_refl) Ht) as [[-> ->]|[-> ->]]; done.
  - intros i t Hi Ht. destruct (demo_table 0x303000 i t (or_intror eq_refl) Ht) as [[-> ->]|[-> ->]]; lia.
Qed.

Lemma demo_room : window_room demo_ld 0x1000.
Proof.
  split; [constructor|reflexivity].
  - split; [done|]. vm_compute. discriminate.
  - lia.
  - done.
  - intros i Hi. change (pdir_index 0x1000) with 0 in Hi. assert (i = 0) as -> by lia. reflexivity.
Qed.

Definition demo_ph : Elf32_Phdr := MkPhdr PT_LOAD 16 0x40000010 0 100 5000 5 0x1000.
Definition demo_img : list Z := map (fun k => k mod 256) (seqZ 0 4096).

Lemma demo_loadable : loadable demo_ph demo_img.
Proof.
  constructor; try (vm_compute; done); try (vm_compute; discriminate).
  apply Forall_forall. intros x Hx. unfold demo_img in Hx. apply list_elem_of_fmap in Hx as (k & -> & _).
    apply Z.mod_pos_bound. lia.
Qed.


(** ** Where the loader falls short *)

Definition load (ph : Elf32_Phdr) (img : list Z) (s : vm mm_state) : option (vm mm_state) :=
  match elf32_map_segment 0x303000 ph img [] s with Ok ((true, _), s') => Some s' | _ => None end.

(** The data of a segment that ends with a page is lost: the padding is a whole page then. *)
Lemma full_page_cleared :
  (fun s => user_byte 0x303000 s 0x40000000) <$>
    load (MkPhdr PT_LOAD 0 0x40000000 0 4096 4096 5 0x1000) (replicate 4096 1) demo_ld = Some 0.
Proof. vm_compute. reflexivity. Qed.

(** The pages of a segment are counted from its size alone: one that starts near the end of a
    page misses its last page. *)
Lemma crossing_segment_unmapped :
  (fun s => present (pte (mem s) 0x303000 0x40001000)) <$>
    load (MkPhdr PT_LOAD 0xF00 0x40000F00 0 0x80 0x200 5 0x1000) (replicate 4096 1) demo_ld = Some false.
Proof. vm_compute. reflexivity. Qed.

(** A segment without bytes in the file: the end of its data is looked for in the page before
    the segment, which is not mapped, and physical memory from 0 on is cleared instead. *)
Lemma bss_clears_low_memory :
  (fun s => word (mem s) 0x400) <$>
    load (MkPhdr PT_LOAD 0x1000 0x40001000 0 0 100 6 0x1000) (replicate 4096 1)
      (set_mem (<[0x400 := 0x3F8]> (mem demo_ld)) demo_ld) = Some 0.
Proof. vm_compute. reflexivity. Qed.

(** Pages are copied whole, up to 4095 bytes from behind the end of the image. *)
Lemma copy_reads_behind_image :
  elf32_map_segment 0x303000 (MkPhdr PT_LOAD 0 0x40000000 0 5000 5000 5 0x1000) (replicate 5000 1) [] demo_ld = Fault.
Proof. vm_compute. reflexivity. Qed.
